(* ===== verification/_CoqProject ===== *)
-Q . S2P
Prelude.v
JsString.v
JsNum.v
TransportTypes.v
Effects.v
Router.v
RangeChunker.v
Bytes.v
Text.v
NilfsCodec.v
Layout.v
Nilfs.v
Opfs.v
NilfsOpfsFetch.v
Hex.v
Multiaddr.v
Http.v
Lcd.v
GatewayClient.v
P2p.v
Config.v
TransportHook.v
Evm.v
Eip712.v
FetchFlow.v
NilWasm.v
ShardPool.v
GatewayWorker.v
Sharding.v
ShardLive.v
SlabRoots.v
WorkerClient.v
Upload.v
Persist.v
Explorer.v
ExplorerSlab.v
ExplorerView.v
Progress.v
GatewayIngest.v
DealTx.v
CommitFlow.v
Faucet.v
Staging.v
RecentFiles.v
DealList.v
Content.v
Board.v
FileActions.v
Hooks.v
Account.v
TestWallet.v
Bridge.v
Scripts.v
Sessions.v
Stats.v
Widgets.v
DealView.v
Workspace.v
SharderView.v
