(* ===== verification/Prelude.v ===== *)
(** * A verification of the Nil Store website

    [src/nil-website] is the browser client of a storage network.  A user buys a
    _deal_ on the chain, splits a file into a _slab_ in the browser, sends the
    slab to the deal's providers, commits its manifest root to the deal, and later
    lists and downloads the file.  This library models that client: every function
    is translated from the TypeScript (and, where the site runs it as WebAssembly,
    the Rust of [src/nil_core]) into a Rocq function, and the theorems state what
    the functions are for.  Paths below are relative to [src/nil-website/src].

    ** The program

    - A _slab_ is MDU #0 (8 MiB: a table of roots and a table of files), witness
      MDUs (the commitments of every user MDU) and user MDUs (the file, 31 bytes to
      a 32-byte scalar).  [components/FileSharder.tsx] makes it with the help of a
      Web Worker ([workers/gateway.worker.ts]) that runs [nil_core]; a deal is in
      mode 1 (one provider holds whole MDUs) or mode 2 (MDUs are Reed-Solomon
      striped over slots).
    - _Upload_: the slab goes to the providers, then is mirrored to the local
      gateway; the _commit_ is a transaction of the chain's precompile; a
      confirmed commit is _kept_ in the origin private file system.
    - _Download_: [hooks/useFetch.ts] cuts a range into chunks, opens a paid
      session per provider, fetches, confirms and proves.
    - Requests are _routed_: to the local gateway, to a provider, or over libp2p,
      with retry and fallback ([lib/transport]).
    - The _explorer_ ([components/DealDetail.tsx]) and the _dashboard_
      ([components/Dashboard.tsx]) show deals and start the above; when nobody
      answers they work from the kept slab.

    ** How the code is modelled

    - [async] code over a world [W] is [M W A = W -> outcome A * W] ([Effects]); a
      rejected promise is the [Thrown] of an [outcome], [try], [catch] and [finally]
      are combinators.  React state is a record; [setX] is a field update; a
      handler that closes over a render takes that render as an argument.
    - What the code uses of the browser, the wallet and its packages is a type
      class over the world: [Clock], [Timers], [Http], [Libp2p], [TraceStore],
      [FetchUi], [Wallet], [ChainWallet], [Viem], [RealTime], [StatusCache],
      [Bech32], [TestAccount], [BridgeWallet], and [Kzg] for the commitment core;
      the scripts take their hash, expander and environment as arguments.  The modules that use one are
      proved against the class alone; the witnesses instantiate it.
    - Concurrency that matters is a step relation: the commit pool ([ShardPool]),
      the promises behind worker messages ([WorkerClient]), the life cycle of a
      file while its upload and commit are under way ([CommitFlow]), the requests of
      the selected deal ([Content]) and those of an account ([Account]).
    - Numbers are integers with JavaScript's non-finite values ([JsNum]); [u8],
      [u16] and [u32] fields of the slab are read and written byte by byte.  A
      [Uint8Array] is a list of integers in [0, 256) ([Bytes]).

    ** Files

    Foundations: [Prelude] (tactics, the hint databases [nil] and [nilrw], lemmas on
    lengths and ceiling division), [JsString], [JsNum], [Text] (UTF-16 and UTF-8),
    [Bytes], [Effects], [TransportTypes].

    Slab format and storage
    - [NilfsCodec]: [encodeToMdu], [decodeRawSliceFromMdu].
    - [Layout]: [nil_core/src/layout.rs], [builder.rs], the writer of MDU #0.
    - [Nilfs]: [lib/nilfsLocal.ts], [lib/nilfsPath.ts], [domain/nilfs.ts], its reader.
    - [Opfs]: [lib/storage/OpfsAdapter.ts];  [NilfsOpfsFetch]: [lib/nilfsOpfsFetch.ts].
    - [Hex]: [domain/base64.ts], [domain/hex.ts], [lib/merkle.ts].
    Making, sending and keeping a slab
    - [NilWasm] ([nil_core/src/wasm.rs]), [ShardPool] and [GatewayWorker]
      ([workers/*.worker.ts]), [WorkerClient] ([lib/worker-client.ts]).
    - [Sharding], [ShardLive], [SlabRoots]: [processFile], that it succeeds, and
      what its manifest commits to;  [GatewayIngest]: the whole handler of a chosen
      file, gateway first;  [Progress], [SharderView]: what the page says of it;
      [Upload]: the uploads of a slab;  [CommitFlow]: the
      flags and the life cycle of the component;  [Persist]: the kept slab.
    Network
    - [Router], [TransportHook]: [lib/transport/*.ts], [hooks/useTransportRouter.ts].
    - [Http], [GatewayClient], [Lcd], [P2p], [Multiaddr], [Config]: [lib/http.ts],
      [api/*.ts], [domain/lcd.ts], [lib/providerDiscovery.ts], [lib/p2pClient.ts],
      [lib/transport/libp2pClient.ts], [lib/multiaddr.ts], [lib/serviceHint.ts],
      [lib/dealId.ts], [config.ts], [context/TransportContext.tsx].
    - [RangeChunker], [FetchFlow]: [lib/rangeChunker.ts], [hooks/useFetch.ts].
    Chain
    - [Evm], [Eip712], [DealTx], [Faucet]: [lib/evmRpc.ts], [lib/gatewayStatus.ts],
      [lib/nilstorePrecompile.ts], [lib/eip712.ts], [lib/address.ts],
      [hooks/useCreateDeal.ts], [useUpdateDealContent.ts], [useDirectCommit.ts],
      [useFaucet.ts].
    Pages
    - [DealList], [Board], [Content], [Account], [RecentFiles], [FileActions],
      [Stats], [Workspace]: [components/Dashboard.tsx], [hooks/useUpload.ts];
      [Staging]: [context/StagingContext.tsx].
    - [Explorer], [ExplorerSlab], [ExplorerView], [FileActions], [DealView]:
      [components/DealDetail.tsx].
    - [Hooks]: the polling hooks;  [Sessions]: [pages/ProofsDashboard.tsx];
      [Widgets]: the wallet and faucet buttons, the status bar, the leaderboard, the
      theme;  [Bridge]: [components/BridgeStatus.tsx], [BridgeActions.tsx].
    Tools
    - [TestWallet]: [lib/e2eWallet.ts];  [Scripts]: [scripts/parity_wasm.ts],
      [scripts/sign_intent.ts] and [tools/parity/compare_parity.ts].

    ** What is shown

    - Round trips from end to end.  A scalar encoding is undone by its decoder
      ([decode_encode_roundtrip]); the parser of MDU #0 returns what the builder
      holds ([parse_reads_builder]); a kept slab is read back byte for byte
      ([readNilfsFileFromOpfs_reads_slab]); put together, an uploaded file reads
      back from the kept slab ([uploaded_file_reads_back]).
    - Abstract specifications and refinements.  The retry loop against logs of
      attempts ([executeWithFallback_refines]); the builder's slot search against
      a first-fit allocator ([find_free_slot_refines]); the handlers of the sharder
      against the life cycle on a mode 2 deal ([handlers_refine_life]); the commit pool against
      committing in one go ([shard_progressive_exact]); the kept list of staged
      files against the store ([staged_list_matches_store]).
    - The slab.  A finished run hands over all of it ([processFile_publishes_slab]),
      a run with a working core finishes ([processFile_succeeds]; [core_total] asks of
      the core only what [kzg.rs] and [coding.rs] grant: blobs of 128 KiB, at least one
      leaf, whole MDUs with K a divisor of 64), its manifest commits to every MDU in
      order ([manifest_commits_slab]), and the explorer
      finds that manifest again ([local_manifest_confirms_commit]) or, for a
      striped deal, does not ([local_manifest_rejects_stripe]).
    - Upload and commit.  An upload is complete exactly when each planned request
      was accepted ([uploadMode2_sends_plan]); a mode 1 upload sends every MDU, the
      manifest only if all were accepted, and lists what became of each
      ([uploadMdus_progress]); only then is the gateway's copy made
      ([upload_then_mirror]).  On a mode 2 deal only delivered manifests are committed
      ([committed_was_delivered]) if no file is chosen while another is handled or an
      upload runs, a condition the page does not enforce and that is shown to be
      needed ([impatient_commit_undelivered], [persisted_before_commit]).
    - Download.  Chunks tile the range and stay inside a blob
      ([plan_tiles_one_blob_each]), every provider has one session for the smallest run
      of blobs with all its chunks ([provider_groups_cover]), and what is handed out
      was fetched under sessions that a transaction opened with the chain before and
      another confirmed after ([fetchFile_downloads]).
    - Everything settles: the router within its bound on attempts, the receipt poll
      and the faucet under a clock that sleeping moves, a chosen file unless its bytes
      cannot be read ([handle_file_settles]), the commit pool or else it throws a task's
      error ([shard_progressive_progress]), each request
      of the explorer ([fetchSlab_source], [fetchMduKzg_source]), each download, the
      effects of the dashboard ([workspace_settles]).
    - Pages.  The deal list with the contents this page committed in the last two
      minutes ([fetchDeals_shows_commits]), forms whose deals can be sharded if their
      numbers are whole ([form_deal_is_shardable], [form_takes_fractions]), deals created only from an
      account of the wallet ([create_button_uses_account]), contents that follow the
      selection ([content_follows_selection]), recent files, the counts and tables of
      the dashboard and the observatory, sizes to half of the last place shown, a
      progress that is a fraction with a remaining time close to what was estimated at
      the last tick ([meter_sound]), a layout that every view of it agrees on
      ([layout_views_agree]) with a cell for each blob ([stripe_shows_every_blob]), a
      panel of activity that is never blank ([status_panel_iff_lines]).
    - Tools.  The wallet of the end-to-end tests acts as its own account only
      ([test_wallet_own_account]) and sends what the hooks ask of it
      ([test_wallet_sends_the_call]); the parity manifest commits to its roots
      ([parity_manifest_commits_roots]) with a digest that binds the chunks
      ([sha256Chunks_binds_chunks]); the bridge demo sends 32 bytes
      ([normalizeBytes32_is_bytes32]).
    - Where the code does something a user would not expect, a theorem states what
      it does ([stale_file_table_shown], [cached_range_served_as_file],
      [stale_mdus_shift_layout], [mismatch_never_shown], [late_answer_hides_deals],
      [commitments_outlive_deal], [heat_outlives_deal], [account_switch_orphans_target],
      [sign_receipt_never_encodes] and those above).

    ** Fuel and bounds

    Loops that are not structural take fuel.  [encode_loop] and [decode_loop] get
    the number of bytes they have to move, [read_loop] the bytes that remain,
    [parse_loop] the records an MDU has room for, [merkle_loop] the number of
    leaves, [run_tasks] the 64 blobs of an MDU; the lemmas [*_spec] of these loops
    show that this is enough, since each iteration moves at least one.  The receipt
    poll ([poll_loop]) has [timeoutMs / pollMs + 1] iterations, enough under a
    clock that a sleep moves forward.  The binary search of [RangeChunker] has
    as many iterations as its interval has offsets, the planning loop one for each
    byte of the range; a candidate of the router has [maxPerBackend] attempts.
    Sizes are those of the code: blobs of 128 KiB, MDUs of 64 blobs, 8126464 raw
    bytes to an MDU.

    ** Not modelled

    - Third-party code: viem, wagmi, bech32, libp2p, the hash functions, the
      polynomial commitments and Reed-Solomon code; the browser's [fetch],
      IndexedDB, wallet and JSON text.  These are the parameters listed above.
    - Markup, animation and static text (pages, layout, diagrams), scrolling, the
      state of text fields, the balance wagmi reads, and the tests themselves.
    - What two overlapping handlers of chosen files leave on the page: the life cycle
      ([CommitFlow]) has such files, and lets the end of one that overlapped another
      leave anything.  The requests of the explorer are put one after the other,
      since each changes its own part of the view.
    - JavaScript strings with code units above 255, except in NilFS paths and file
      contents, and the abort signals a caller passes in, other than timeouts.
    - The chain, the gateway and the contracts, other programs that the client
      talks to. *)

(** * Prelude *)

From stdpp Require Export base tactics list strings gmap.
From Stdlib Require Export ZArith Lia.

#[export] Set Default Goal Selector "!".

Declare Scope nil_scope.
Delimit Scope nil_scope with nil.
#[local] Open Scope Z_scope.

Create HintDb nil discriminated.
Create Rewrite HintDb nilrw.

(** Never unfold conversions of large integer constants. *)
#[global] Arguments Z.to_nat : simpl never.
#[global] Arguments Z.of_nat : simpl never.
#[global] Arguments Z.mul : simpl never.
#[global] Arguments Z.div : simpl never.
#[global] Arguments Z.modulo : simpl never.
#[global] Arguments Z.pow : simpl never.

(** Lengths and indices as integers, the way [Array.prototype] has them. *)
Definition zlen {A} (l : list A) : Z := Z.of_nat (length l).
#[global] Arguments zlen {A} l : simpl never.

(** [Math.ceil(a / b)] on integers. *)
Definition ceil_div (a b : Z) : Z := - ((- a) / b).

(** ** Tactics *)

(** Case analysis on whatever the goal or a hypothesis matches on. *)
Ltac case_on_goal :=
  match goal with
  | |- context [match ?x with _ => _ end] =>
      lazymatch x with context [match _ with _ => _ end] => fail | _ => destruct x eqn:? end
  end.
Ltac case_on_hyp :=
  match goal with
  | H : context [match ?x with _ => _ end] |- _ =>
      lazymatch x with context [match _ with _ => _ end] => fail | _ => destruct x eqn:? end
  end.

(** Boolean comparisons of [Z] to propositions, everywhere. *)
Ltac zbool :=
  repeat match goal with
  | H : (_ <? _)%Z = true |- _ => apply Z.ltb_lt in H
  | H : (_ <? _)%Z = false |- _ => apply Z.ltb_ge in H
  | H : (_ <=? _)%Z = true |- _ => apply Z.leb_le in H
  | H : (_ <=? _)%Z = false |- _ => apply Z.leb_gt in H
  | H : (_ =? _)%Z = true |- _ => apply Z.eqb_eq in H
  | H : (_ =? _)%Z = false |- _ => apply Z.eqb_neq in H
  | H : (_ && _)%bool = true |- _ => apply andb_true_iff in H; destruct H
  | H : (_ || _)%bool = false |- _ => apply orb_false_iff in H; destruct H
  | H : negb _ = true |- _ => apply negb_true_iff in H
  | H : negb _ = false |- _ => apply negb_false_iff in H
  end.

(** Linear arithmetic with quotients and remainders by constants spelled out. *)
Ltac zdiv := Z.div_mod_to_equations; nia.
Ltac zdivl := Z.div_mod_to_equations; lia.

(** ** Lengths *)

Lemma zlen_nonneg {A} (l : list A) : 0 <= zlen l.
Proof. unfold zlen; lia. Qed.
Lemma zlen_nil {A} : zlen (@nil A) = 0.
Proof. done. Qed.
Lemma zlen_cons {A} (x : A) l : zlen (x :: l) = 1 + zlen l.
Proof. unfold zlen; cbn [length]; lia. Qed.
Lemma zlen_app {A} (l k : list A) : zlen (l ++ k) = zlen l + zlen k.
Proof. unfold zlen; rewrite length_app; lia. Qed.
Lemma zlen_take {A} (l : list A) n : 0 <= n -> zlen (take (Z.to_nat n) l) = Z.min n (zlen l).
Proof. intros; unfold zlen; rewrite length_take; lia. Qed.
Lemma zlen_drop {A} (l : list A) n : 0 <= n -> zlen (drop (Z.to_nat n) l) = Z.max 0 (zlen l - n).
Proof. intros; unfold zlen; rewrite length_drop; lia. Qed.
Lemma zlen_replicate {A} (x : A) n : 0 <= n -> zlen (replicate (Z.to_nat n) x) = n.
Proof. intros; unfold zlen; rewrite length_replicate; lia. Qed.
Lemma zlen_map {A B} (f : A -> B) l : zlen (map f l) = zlen l.
Proof. unfold zlen; by rewrite length_map. Qed.
Lemma zlen_0_nil {A} (l : list A) : zlen l = 0 -> l = [].
Proof. destruct l; [done|rewrite zlen_cons; pose proof (zlen_nonneg l); lia]. Qed.


(** Every length in the goal is nonnegative. *)
Ltac zlen_pos :=
  repeat match goal with
  | |- context [zlen ?l] =>
      lazymatch goal with H : 0 <= zlen l |- _ => fail | _ => pose proof (zlen_nonneg l) end
  end.

#[export] Hint Rewrite @zlen_nil @zlen_cons @zlen_app @zlen_map : nilrw.
#[export] Hint Resolve zlen_nonneg : nil.

(** ** Ceiling division *)

Lemma ceil_div_spec a b : 0 < b -> b * (ceil_div a b - 1) < a <= b * ceil_div a b.
Proof. intros; unfold ceil_div; zdiv. Qed.
Lemma ceil_div_unique a b q : 0 < b -> b * (q - 1) < a <= b * q -> ceil_div a b = q.
Proof. intros Hb H; pose proof (ceil_div_spec a b Hb); nia. Qed.
Lemma ceil_div_nonneg a b : 0 < b -> 0 <= a -> 0 <= ceil_div a b.
Proof. intros; pose proof (ceil_div_spec a b); nia. Qed.
Lemma ceil_div_pos a b : 0 < b -> 0 < a -> 0 < ceil_div a b.
Proof. intros; pose proof (ceil_div_spec a b); nia. Qed.

Lemma Forall2_map_eq {A B} (R : A -> B -> Prop) (f : A -> B) l cs :
  Forall2 R l cs -> (forall j c, j ∈ l -> R j c -> c = f j) -> cs = map f l.
Proof.
  induction 1 as [|j c l cs Hc _ IH]; intros Hf; cbn [map]; [done|].
  f_equal; [apply Hf; [left|done]|apply IH; intros; apply Hf; [by right|done] ].
Qed.
