(* ===== verification/JsString.v ===== *)
(** * JavaScript strings

    The string operations of the language that the modelled sources use.  A
    JavaScript string is a [string] whose characters are its UTF-16 code units
    up to 255 (the Latin-1 range); strings with larger units are outside the
    model, except in NilFS paths, which [Nilfs] keeps as lists of code units. *)
From S2P Require Import Prelude.
From stdpp Require Export pretty.
From Stdlib Require Export Ascii.
From Stdlib Require String.
#[local] Open Scope Z_scope.

Abbreviation chars := String.list_ascii_of_string.
Abbreviation str := String.string_of_list_ascii.

Lemma str_chars s : str (chars s) = s.
Proof. apply String.string_of_list_ascii_of_string. Qed.
Lemma chars_str l : chars (str l) = l.
Proof. apply String.list_ascii_of_string_of_list_ascii. Qed.
Lemma chars_app a b : chars (a +:+ b) = chars a ++ chars b.
Proof. unfold String.app; induction a as [|c a IH]; cbn; [done|by rewrite IH]. Qed.
Lemma str_app a b : str (a ++ b) = str a +:+ str b.
Proof. unfold String.app; induction a as [|c a IH]; cbn; [done|by rewrite IH]. Qed.
Lemma chars_inj a b : chars a = chars b -> a = b.
Proof. intros H; rewrite <- (str_chars a), H; apply str_chars. Qed.

#[export] Hint Rewrite chars_str chars_app str_chars : nilrw.

(** The empty string is falsy, every other string truthy. *)
Definition is_empty (s : string) : bool := match s with EmptyString => true | _ => false end.
Definition truthy (s : string) : bool := negb (is_empty s).
(** [a || b] on strings. *)
Definition or_else (a b : string) : string := if truthy a then a else b.

Definition eqb (a b : string) : bool := bool_decide (a = b).

Definition code (c : ascii) : Z := Z.of_N (N_of_ascii c).
Definition char_of (z : Z) : ascii := ascii_of_N (Z.to_N z).

Lemma code_bound c : 0 <= code c < 256.
Proof. unfold code; pose proof (N_ascii_bounded c); lia. Qed.
Lemma char_of_code c : char_of (code c) = c.
Proof. unfold char_of, code; rewrite N2Z.id; apply ascii_N_embedding. Qed.
Lemma code_char_of z : 0 <= z < 256 -> code (char_of z) = z.
Proof. intros; unfold code, char_of; rewrite N_ascii_embedding; lia. Qed.

(** White space and line terminators below 256, as [String.prototype.trim] strips them. *)
Definition is_ws (c : ascii) : bool :=
  let z := code c in ((9 <=? z) && (z <=? 13)) || (z =? 32) || (z =? 160).

Fixpoint trim_start (l : list ascii) : list ascii :=
  match l with
  | [] => []
  | c :: l' => if is_ws c then trim_start l' else l
  end.
Definition trim_chars (l : list ascii) : list ascii := rev (trim_start (rev (trim_start l))).
Definition trim (s : string) : string := str (trim_chars (chars s)).

Definition starts_with (p s : string) : bool := String.prefix p s.
Definition ends_with (p s : string) : bool :=
  String.prefix (str (rev (chars p))) (str (rev (chars s))).

(** [s.includes(p)] *)
Fixpoint includes (p s : string) : bool :=
  String.prefix p s || match s with EmptyString => false | String _ s' => includes p s' end.

(** [s.toLowerCase()] on Latin-1 *)
Definition lower_char (c : ascii) : ascii :=
  let z := code c in
  if ((65 <=? z) && (z <=? 90)) || ((192 <=? z) && (z <=? 222) && negb (z =? 215))
  then char_of (z + 32) else c.
Definition to_lower (s : string) : string := str (map lower_char (chars s)).

(** [/p/i.test(s)] for a literal lower-case ASCII pattern [p] *)
Definition test_i (p s : string) : bool := includes p (to_lower s).

(** [s.split(c)] for a one-character separator *)
Fixpoint split_chars (c : ascii) (l : list ascii) : list (list ascii) :=
  match l with
  | [] => [[]]
  | d :: l' =>
      if bool_decide (d = c) then [] :: split_chars c l'
      else match split_chars c l' with
           | w :: ws => (d :: w) :: ws
           | [] => [[d]]
           end
  end.
Definition split (c : ascii) (s : string) : list string := map str (split_chars c (chars s)).

(** [ws.join(c)] *)
Fixpoint join (sep : string) (ws : list string) : string :=
  match ws with
  | [] => ""
  | [w] => w
  | w :: ws' => w +:+ sep +:+ join sep ws'
  end.

(** [l.filter(Boolean)] on an array of strings *)
Definition filter_truthy (ws : list string) : list string := List.filter truthy ws.

Definition is_digit (c : ascii) : bool := (48 <=? code c) && (code c <=? 57).
(** [/^\d+$/.test(s)] *)
Definition all_digits (s : string) : bool := truthy s && forallb is_digit (chars s).

Definition digit_val (c : ascii) : Z := code c - 48.
Definition digits_val (l : list ascii) : Z := fold_left (fun a c => 10 * a + digit_val c) l 0.

(** [s.replace(/\/$/, '')] *)
Definition strip_slash (s : string) : string :=
  match rev (chars s) with
  | "/"%char :: r => str (rev r)
  | _ => s
  end.

(** [parts.includes(w)], [parts.findIndex(p => p === w)], [parts.lastIndexOf(w)] *)
Definition mem (w : string) (l : list string) : bool := existsb (eqb w) l.
Fixpoint index_of_from (i : Z) (w : string) (l : list string) : Z :=
  match l with
  | [] => -1
  | x :: l' => if eqb w x then i else index_of_from (i + 1) w l'
  end.
Definition index_of (w : string) (l : list string) : Z := index_of_from 0 w l.
Fixpoint last_index_of_from (i : Z) (w : string) (l : list string) : Z :=
  match l with
  | [] => -1
  | x :: l' =>
      let r := last_index_of_from (i + 1) w l' in
      if 0 <=? r then r else if eqb w x then i else -1
  end.
Definition last_index_of (w : string) (l : list string) : Z := last_index_of_from 0 w l.

(** [parts[i]] for an integer index; [None] is [undefined] *)
Definition nth_str (l : list string) (i : Z) : option string :=
  if i <? 0 then None else l !! Z.to_nat i.

(** [String(z)] on an integer *)
Definition string_of_Z (z : Z) : string := pretty z.

(** ** Decimal numerals *)

Definition digit_char (c : ascii) : Prop := is_digit c = true.

Lemma digits_val_snoc l c : digits_val (l ++ [c]) = 10 * digits_val l + digit_val c.
Proof. unfold digits_val; by rewrite fold_left_app. Qed.

Lemma digits_val_nonneg l : Forall digit_char l -> 0 <= digits_val l.
Proof.
  induction l as [|c l IH] using rev_ind; intros H; [done|].
  apply Forall_app in H as [Hl Hc]; inversion Hc as [|? ? Hd _]; subst.
  rewrite digits_val_snoc; unfold digit_char, is_digit in Hd; apply andb_true_iff in Hd as [Hd _].
  apply Z.leb_le in Hd; specialize (IH Hl); unfold digit_val; lia.
Qed.

Lemma pretty_digit n : (n < 10)%N -> digit_char (pretty_N_char n) /\ digit_val (pretty_N_char n) = Z.of_N n.
Proof.
  intros Hn; assert (exists k, (k < 10)%nat /\ n = N.of_nat k) as (k & Hk & ->) by (exists (N.to_nat n); lia).
  do 10 (destruct k as [|k]; [by vm_compute|]); lia.
Qed.

Lemma pretty_go_digits n s :
  exists l, chars (pretty_N_go n s) = l ++ chars s /\ Forall digit_char l /\ digits_val l = Z.of_N n /\
    ((0 < n)%N -> l <> []).
Proof.
  revert s; induction (N.lt_wf_0 n) as [n _ IH]; intros s.
  destruct (decide (n = 0)%N) as [->|Hne]; [exists []; done|].
  rewrite pretty_N_go_step by lia.
  destruct (IH (n / 10)%N ltac:(apply N.div_lt; lia) (String (pretty_N_char (n mod 10)) s))
    as (l & Hl & Hd & Hv & _).
  destruct (pretty_digit (n mod 10)) as [Hc Hcv]; [by apply N.mod_lt|].
  exists (l ++ [pretty_N_char (n mod 10)]); rewrite <- app_assoc; split; [exact Hl|].
  split; [apply Forall_app; split; [done|by constructor]|]. split; [|by destruct l].
  rewrite digits_val_snoc, Hv, Hcv. rewrite N2Z.inj_div, N2Z.inj_mod; zdivl.
Qed.

(** A natural number prints as decimal digits that read back as the number. *)
Lemma string_of_Z_digits z :
  0 <= z -> chars (string_of_Z z) <> [] /\ Forall digit_char (chars (string_of_Z z)) /\
            digits_val (chars (string_of_Z z)) = z.
Proof.
  intros Hz; unfold string_of_Z; destruct z as [|p|p]; [|change (pretty (Z.pos p)) with (pretty_N_go (N.pos p) "")|lia].
  - split; [done|split; [by repeat constructor|done]].
  - destruct (pretty_go_digits (N.pos p) "") as (l & Hl & Hd & Hv & Hne).
    rewrite app_nil_r in Hl; rewrite Hl; repeat split; [by apply Hne|done|by rewrite Hv].
Qed.

Lemma digit_char_not c d : digit_char c -> is_digit d = false -> c <> d.
Proof. intros Hc Hd ->; unfold digit_char in Hc; congruence. Qed.

(** Lists without a separator are determined by what precedes its first occurrence. *)
Lemma app_sep_inj {A} (c : A) l1 l2 r1 r2 :
  Forall (fun d => d <> c) l1 -> Forall (fun d => d <> c) l2 ->
  l1 ++ c :: r1 = l2 ++ c :: r2 -> l1 = l2 /\ r1 = r2.
Proof.
  intros H1; revert l2; induction H1 as [|d l1 Hd _ IH]; intros l2 H2 Heq; destruct H2 as [|e l2 He H2];
    cbn [app] in Heq; simplify_eq; [done..|].
  by destruct (IH l2 H2) as [-> ->].
Qed.

Lemma string_of_Z_inj a b : string_of_Z a = string_of_Z b -> a = b.
Proof. apply pretty_Z_inj. Qed.

(** A run of digits ends at the first character that is none. *)
Lemma digits_run_inj l1 l2 c1 c2 r1 r2 :
  Forall digit_char l1 -> Forall digit_char l2 -> is_digit c1 = false -> is_digit c2 = false ->
  l1 ++ c1 :: r1 = l2 ++ c2 :: r2 -> l1 = l2 /\ c1 = c2 /\ r1 = r2.
Proof.
  unfold digit_char; intros H1 H2 Hc1 Hc2; revert l2 H2.
  induction H1 as [|d l1 Hd _ IH]; intros l2 H2 Heq; destruct H2 as [|e l2 He H2];
    cbn [app] in Heq; simplify_eq; try congruence; [done|].
  by destruct (IH l2 H2) as (-> & -> & ->).
Qed.

Lemma includes_char c s : includes (String c EmptyString) s = bool_decide (c ∈ chars s).
Proof.
  induction s as [|d s IH]; cbn [includes chars]; [done|].
  rewrite IH; cbn [String.prefix]. destruct (ascii_dec c d) as [->|Hne].
  - destruct s; cbn; rewrite bool_decide_true; [done|left|done|left].
  - cbn [orb]. apply bool_decide_ext; rewrite elem_of_cons; tauto.
Qed.

Lemma trim_start_id l : Forall (fun c => is_ws c = false) l -> trim_start l = l.
Proof. destruct 1 as [|c l Hc _]; [done|]; cbn; by rewrite Hc. Qed.
Lemma trim_chars_id l : Forall (fun c => is_ws c = false) l -> trim_chars l = l.
Proof.
  intros H; unfold trim_chars; rewrite (trim_start_id l H), trim_start_id; [apply rev_involutive|].
  by apply Forall_rev.
Qed.
Lemma trim_id s : Forall (fun c => is_ws c = false) (chars s) -> trim s = s.
Proof. intros H; unfold trim; rewrite trim_chars_id by done; apply str_chars. Qed.

Lemma starts_with_app p s : starts_with p (p +:+ s) = true.
Proof.
  unfold starts_with; induction p as [|c p IH]; [by destruct s|].
  change (String c p +:+ s) with (String c (p +:+ s)); cbn [String.prefix].
  destruct (ascii_dec c c); [exact IH|done].
Qed.

(** Joining on a separator and splitting at it. *)
Lemma split_chars_app c l r :
  Forall (fun d => d <> c) l -> split_chars c (l ++ c :: r) = l :: split_chars c r.
Proof.
  induction 1 as [|d l Hd _ IH]; cbn [app split_chars].
  - by rewrite bool_decide_true.
  - rewrite bool_decide_false by done. by rewrite IH.
Qed.
Lemma split_chars_none c l : Forall (fun d => d <> c) l -> split_chars c l = [l].
Proof.
  induction 1 as [|d l Hd _ IH]; cbn [split_chars]; [done|]. rewrite bool_decide_false by done. by rewrite IH.
Qed.

Definition no_char (c : ascii) (s : string) : Prop := Forall (fun d => d <> c) (chars s).

Lemma split_cons c a b : no_char c a -> split c (a +:+ String c b) = a :: split c b.
Proof.
  intros Ha; unfold split; rewrite chars_app; cbn [chars].
  change (String.list_ascii_of_string (String c b)) with (c :: chars b).
  rewrite split_chars_app by done; cbn [map]; by rewrite str_chars.
Qed.
Lemma split_one c a : no_char c a -> split c a = [a].
Proof. intros Ha; unfold split; rewrite split_chars_none by done; cbn; by rewrite str_chars. Qed.

Lemma no_char_app c a b : no_char c a -> no_char c b -> no_char c (a +:+ b).
Proof. unfold no_char; intros; rewrite chars_app; by apply Forall_app. Qed.

(** The one-character string of a separator. *)
Abbreviation sep c := (String c EmptyString).

Lemma split_join c ws : ws <> [] -> Forall (no_char c) ws -> split c (join (sep c) ws) = ws.
Proof.
  intros Hne H; induction H as [|w ws Hw Hws IH]; [done|]; destruct ws as [|w' ws]; [by apply split_one|].
  change (join (sep c) (w :: w' :: ws)) with (w +:+ String c (join (sep c) (w' :: ws))).
  rewrite split_cons by done; by rewrite IH.
Qed.

Lemma eqb_spec a b : reflect (a = b) (eqb a b).
Proof. apply bool_decide_reflect. Qed.
Lemma eqb_refl x : eqb x x = true.
Proof. by apply bool_decide_eq_true_2. Qed.
Lemma eqb_false a b : a <> b -> eqb a b = false.
Proof. intros H; by apply bool_decide_false. Qed.


Lemma str_app_assoc a b c : (a +:+ b) +:+ c = a +:+ (b +:+ c).
Proof. apply chars_inj; by rewrite !chars_app, app_assoc. Qed.
