(* ===== verification/JsNum.v ===== *)
(** * JavaScript numbers and JSON values

    [num] is a JavaScript number restricted to the integers plus the three
    non-finite values; [dec] is the value [Number(s)] gives a string, an exact
    decimal before it is rounded to binary64.  [json] is what [Response.json]
    returns. *)
From S2P Require Import Prelude JsString.
#[local] Open Scope Z_scope.

Inductive num := NaN | PInf | NInf | Num (z : Z).

#[export] Instance num_eq_dec : EqDecision num.
Proof. solve_decision. Defined.

(** [Number.isFinite] *)
Definition is_finite (n : num) : bool := match n with Num _ => true | _ => false end.

(** Comparison of a number with an integer literal: false on [NaN]. *)
Definition num_ltb (n : num) (k : Z) : bool :=
  match n with Num z => z <? k | NInf => true | _ => false end.
Definition num_leb (n : num) (k : Z) : bool :=
  match n with Num z => z <=? k | NInf => true | _ => false end.

(** [n || d]: zero and [NaN] are falsy. *)
Definition num_or (n : num) (d : num) : num :=
  match n with Num 0 | NaN => d | _ => n end.

(** The integer inside; only used where a guard has established finiteness. *)
Definition num_val (n : num) : Z := match n with Num z => z | _ => 0 end.

(** [String(n)]; integers below 10^21 print as plain decimals. *)
Definition string_of_num (n : num) : string :=
  match n with
  | NaN => "NaN" | PInf => "Infinity" | NInf => "-Infinity"
  | Num z => string_of_Z z
  end.

(** ** [Number(BigInt)]: rounding to 53 significant bits, ties to even *)

Definition round_half_even (a b : Z) : Z :=
  let q := a / b in
  let r := a mod b in
  if 2 * r <? b then q
  else if b <? 2 * r then q + 1
  else if Z.even q then q else q + 1.

Definition round53 (z : Z) : Z :=
  let e := Z.log2 (Z.abs z) - 52 in
  if e <=? 0 then z
  else Z.sgn z * (round_half_even (Z.abs z) (2 ^ e) * 2 ^ e).

Lemma round53_exact z : Z.abs z < 2 ^ 53 -> round53 z = z.
Proof.
  intros H; unfold round53.
  destruct (decide (z = 0)) as [->|Hz]; [done|].
  assert (Z.log2 (Z.abs z) < 53) by (apply Z.log2_lt_pow2; lia).
  destruct (Z.leb_spec (Z.log2 (Z.abs z) - 52) 0); lia.
Qed.

Lemma round53_pos z : 0 < z -> 0 < round53 z.
Proof.
  intros Hz; unfold round53; rewrite Z.abs_eq by lia.
  destruct (Z.leb_spec (Z.log2 z - 52) 0); [done|]. set (e := Z.log2 z - 52) in *.
  assert (0 < 2 ^ e) as He by (apply Z.pow_pos_nonneg; lia).
  assert (2 ^ e <= z) as Hle.
  { transitivity (2 ^ Z.log2 z); [apply Z.pow_le_mono_r; lia|apply Z.log2_spec; lia]. }
  rewrite Z.sgn_pos by lia.
  assert (1 <= z / 2 ^ e) by (apply Z.div_le_lower_bound; [done|rewrite Z.mul_1_r; done]).
  assert (1 <= round_half_even z (2 ^ e)) by (unfold round_half_even; repeat case_match; lia).
  nia.
Qed.

(** ** [Number(string)] *)

(** [DNum m e] is the finite value m * 10^e. *)
Inductive dec := DNaN | DInf (negative : bool) | DNum (m e : Z).

#[export] Instance dec_eq_dec : EqDecision dec.
Proof. solve_decision. Defined.

(** The finite value m * 10^e compared with 0, and its rounding [Math.round]. *)
Definition dec_pos (d : dec) : bool :=
  match d with DNaN => false | DInf neg => negb neg | DNum m _ => 0 <? m end.
Definition dec_is_finite (d : dec) : bool := match d with DNum _ _ => true | _ => false end.
(** [Math.round x], the floor of x + 1/2, on an exact decimal *)
Definition dec_round (m e : Z) : Z :=
  if 0 <=? e then m * 10 ^ e else (2 * m + 10 ^ (- e)) / (2 * 10 ^ (- e)).

(** Values of 2^1024 - 2^970 and more round to Infinity, values of 2^-1075 and
    less to 0. *)
Definition dec_round64 (m e : Z) : dec :=
  let lim := 2 ^ 1024 - 2 ^ 970 in
  let a := Z.abs m in
  if 0 <=? e then (if lim <=? a * 10 ^ e then DInf (m <? 0) else DNum m e)
  else if lim * 10 ^ (- e) <=? a then DInf (m <? 0)
  else if a * 2 ^ 1075 <=? 10 ^ (- e) then DNum 0 0 else DNum m e.

(** A maximal run of decimal digits. *)
Fixpoint span_digits (l : list ascii) : list ascii * list ascii :=
  match l with
  | c :: l' => if is_digit c then let '(d, r) := span_digits l' in (c :: d, r) else ([], l)
  | [] => ([], [])
  end.

(** [e[+-]digits] at the end of the literal *)
Definition parse_exponent (l : list ascii) : option Z :=
  match l with
  | [] => Some 0
  | c :: l' =>
      if bool_decide (c = "e"%char \/ c = "E"%char) then
        let '(neg, l'') := match l' with
                           | "-"%char :: r => (true, r)
                           | "+"%char :: r => (false, r)
                           | r => (false, r)
                           end in
        let '(d, r) := span_digits l'' in
        if bool_decide (d <> [] /\ r = []) then Some (if neg : bool then - digits_val d else digits_val d) else None
      else None
  end.

Definition parse_unsigned (l : list ascii) : option (Z * Z) :=
  let '(ip, r) := span_digits l in
  let '(fp, r) := match r with "."%char :: r' => span_digits r' | _ => ([], r) end in
  if bool_decide (ip ++ fp = []) then None
  else match parse_exponent r with
       | Some x => Some (digits_val (ip ++ fp), x - zlen fp)
       | None => None
       end.

Definition radix_digit (radix : Z) (c : ascii) : option Z :=
  let z := code (lower_char c) in
  let d := if is_digit c then z - 48 else if (97 <=? z) && (z <=? 122) then z - 87 else radix in
  if d <? radix then Some d else None.
Fixpoint parse_radix (radix acc : Z) (l : list ascii) : option Z :=
  match l with
  | [] => Some acc
  | c :: l' => match radix_digit radix c with
               | Some d => parse_radix radix (radix * acc + d) l'
               | None => None
               end
  end.

(** The radix letter after a leading zero. *)
Definition radix_prefix (r : list ascii) : option (Z * list ascii) :=
  match r with
  | c :: r' =>
      if bool_decide (c = "x"%char \/ c = "X"%char) then Some (16, r')
      else if bool_decide (c = "o"%char \/ c = "O"%char) then Some (8, r')
      else if bool_decide (c = "b"%char \/ c = "B"%char) then Some (2, r')
      else None
  | [] => None
  end.

(** [Number(s)] *)
Definition Number_of_string (s : string) : dec :=
  let l := trim_chars (chars s) in
  let prefixed radix r :=
    if bool_decide (r = []) then DNaN
    else match parse_radix radix 0 r with Some z => dec_round64 z 0 | None => DNaN end in
  let signed neg r :=
    if eqb (str r) "Infinity" then DInf neg
    else match parse_unsigned r with
         | Some (m, e) => dec_round64 (if neg : bool then - m else m) e
         | None => DNaN
         end in
  match l with
  | [] => DNum 0 0
  | c :: r =>
      match (if bool_decide (c = "0"%char) then radix_prefix r else None) with
      | Some (radix, r') => prefixed radix r'
      | None =>
          if bool_decide (c = "-"%char) then signed true r
          else if bool_decide (c = "+"%char) then signed false r
          else signed false l
      end
  end.

(** ** JSON *)

Inductive json :=
| JNull
| JBool (b : bool)
| JNum (n : num)
| JStr (s : string)
| JArr (l : list json)
| JObj (fields : list (string * json)).

(** [obj[key]]; [None] is [undefined].  Arrays are objects without the named keys used here. *)
Fixpoint assoc {A} (key : string) (fields : list (string * A)) : option A :=
  match fields with
  | [] => None
  | (k, v) :: r => if eqb k key then Some v else assoc key r
  end.
Definition get_field (j : json) (key : string) : option json :=
  match j with JObj fields => assoc key fields | _ => None end.

(** [a ?? b]: [null] and [undefined] fall through. *)
Definition nullish (a b : option json) : option json :=
  match a with None | Some JNull => b | Some _ => a end.

(** JavaScript truthiness of a JSON value. *)
Definition json_truthy (j : json) : bool :=
  match j with
  | JNull | JNum (Num 0) | JNum NaN | JBool false => false
  | JStr s => truthy s
  | _ => true
  end.
