(* ===== verification/TransportTypes.v ===== *)
(** * Transport data types and JavaScript errors (lib/transport/types.ts, errors.ts) *)
From S2P Require Import Prelude JsString.
#[local] Open Scope Z_scope.

Inductive TransportOp :=
  OpUpload | OpFetch | OpListFiles | OpSlab | OpPlan | OpManifestInfo | OpMduKzg.

(** The name of an operation, as it appears in error messages. *)
Definition op_name (op : TransportOp) : string :=
  match op with
  | OpUpload => "upload" | OpFetch => "fetch" | OpListFiles => "list_files" | OpSlab => "slab"
  | OpPlan => "plan" | OpManifestInfo => "manifest_info" | OpMduKzg => "mdu_kzg"
  end.

Inductive RoutePreference := auto | prefer_gateway | prefer_direct_sp | prefer_p2p.
Inductive BackendName := gateway | direct_sp | libp2p.
Inductive ErrorClass :=
| timeout | connection_refused | dns | http_429 | http_4xx | http_5xx
| cors | provider_mismatch | invalid_response | unknown.

#[export] Instance RoutePreference_eq_dec : EqDecision RoutePreference.
Proof. solve_decision. Defined.
#[export] Instance BackendName_eq_dec : EqDecision BackendName.
Proof. solve_decision. Defined.
#[export] Instance ErrorClass_eq_dec : EqDecision ErrorClass.
Proof. solve_decision. Defined.

Record TransportAttempt := mkAttempt {
  at_backend : BackendName;
  at_endpoint : string;
  at_ok : bool;
  at_status : option Z;
  at_errorClass : option ErrorClass;
  at_errorMessage : option string;
  at_elapsedMs : Z
}.

Record DecisionTrace := mkTrace {
  tr_op : TransportOp;
  tr_preference : RoutePreference;
  tr_startedAtMs : Z;
  tr_finishedAtMs : Z;
  tr_attempts : list TransportAttempt;
  tr_chosen : option (BackendName * string)
}.

Record TransportOutcome (T : Type) := mkOutcome {
  to_data : T;
  to_backend : BackendName;
  to_trace : DecisionTrace
}.
#[global] Arguments mkOutcome {T} _ _ _.
#[global] Arguments to_data {T} _.
#[global] Arguments to_backend {T} _.
#[global] Arguments to_trace {T} _.

(** What a [throw] can carry: a plain [Error] (or [DOMException]) with its name
    and message, the two transport error classes, or a value that is no [Error].
    [TransportTraceError] extends [TransportError] with the class ['unknown']. *)
Inductive jserr :=
| JsError (name message : string)
| TransportError (message : string) (errorClass : ErrorClass) (status : option Z)
| TransportTraceError (message : string) (trace : DecisionTrace)
| JsThrown (value : string).

(** [new Error(message)] *)
Definition Error (message : string) : jserr := JsError "Error" message.

(** [e instanceof Error ? e.message : String(e)] *)
Definition err_message (e : jserr) : string :=
  match e with
  | JsError _ m | TransportError m _ _ | TransportTraceError m _ => m
  | JsThrown v => v
  end.

Definition is_Error (e : jserr) : bool := match e with JsThrown _ => false | _ => true end.
