(* ===== verification/Effects.v ===== *)
(** * Asynchronous code

    An [async] function that reads and changes a world [W] is a function
    [M W A = W -> outcome A * W]: it settles with a value or an error and leaves
    a world behind.  [await] is the bind, [try]/[catch] and [finally] are
    combinators, and what a module uses of the browser is a type class over [W]. *)
From S2P Require Import Prelude JsString JsNum TransportTypes.
#[local] Open Scope Z_scope.

Inductive outcome (A : Type) := Ok (a : A) | Thrown (e : jserr).
#[global] Arguments Ok {A} a.
#[global] Arguments Thrown {A} e.

Definition is_ok {A} (o : outcome A) : bool := match o with Ok _ => true | Thrown _ => false end.

#[export] Instance outcome_ret : MRet outcome := fun _ a => Ok a.
#[export] Instance outcome_bind : MBind outcome := fun _ _ f m =>
  match m with Ok a => f a | Thrown e => Thrown e end.
#[export] Instance outcome_throw : MThrow jserr outcome := fun _ e => Thrown e.

Definition M (W A : Type) : Type := W -> outcome A * W.

#[export] Instance M_ret {W} : MRet (M W) := fun _ a w => (Ok a, w).
#[export] Instance M_bind {W} : MBind (M W) := fun _ _ f m w =>
  match m w with
  | (Ok a, w') => f a w'
  | (Thrown e, w') => (Thrown e, w')
  end.
#[export] Instance M_throw {W} : MThrow jserr (M W) := fun _ e w => (Thrown e, w).

Section Combinators.
Context {W : Type}.

(** [try { m } catch (e) { h(e) }] *)
Definition try_catch {A} (m : M W A) (h : jserr -> M W A) : M W A := fun w =>
  match m w with
  | (Ok a, w') => (Ok a, w')
  | (Thrown e, w') => h e w'
  end.

(** [try { m } finally { f }] for an [f] that settles normally *)
Definition finally {A} (m : M W A) (f : W -> W) : M W A := fun w =>
  let '(o, w') := m w in (o, f w').

(** A synchronous computation inside an asynchronous one. *)
Definition lift {A} (o : outcome A) : M W A := fun w => (o, w).

(** A primitive step on the world. *)
Definition prim {A} (f : W -> outcome A * W) : M W A := f.

(** An infallible state change. *)
Definition modify (f : W -> W) : M W unit := fun w => (Ok tt, f w).

(** [for (const x of l) await f(x)] *)
Fixpoint for_each {A} (l : list A) (f : A -> M W unit) : M W unit :=
  match l with
  | [] => mret tt
  | x :: l' => f x ;; for_each l' f
  end.

(** Sequential [for] loop that pushes a result per item. *)
Fixpoint map_m {A B} (f : A -> M W B) (l : list A) : M W (list B) :=
  match l with
  | [] => mret []
  | x :: l' => y ← f x; ys ← map_m f l'; mret (y :: ys)
  end.

(** A [for] loop that threads local variables. *)
Fixpoint fold_m {A S} (f : S -> A -> M W S) (s : S) (l : list A) : M W S :=
  match l with
  | [] => mret s
  | x :: rest => s' ← f s x; fold_m f s' rest
  end.
End Combinators.

(** [Date.now] and [setTimeout]-based sleeping *)
Class Clock (W : Type) := {
  date_now : W -> Z * W;
  sleep_ms : Z -> W -> W
}.

Definition now {W} `{Clock W} : M W Z := fun w => let '(t, w') := date_now w in (Ok t, w').

(** [sleep(ms)] of router.ts resolves at once for [ms <= 0]. *)
Definition delay {W} `{Clock W} (ms : Z) : M W unit := modify (sleep_ms ms).

Definition js_error {W A} (message : string) : M W A := mthrow (Error message).

(** ** Running a computation *)

Section Run.
Context {W : Type}.

Lemma bind_run {A B} (m : M W A) (f : A -> M W B) w :
  (m ≫= f) w = match m w with
               | (Ok a, w') => f a w'
               | (Thrown e, w') => (Thrown e, w')
               end.
Proof. done. Qed.

Lemma bind_ok {A B} (m : M W A) (f : A -> M W B) w b w' :
  (m ≫= f) w = (Ok b, w') ->
  exists a w1, m w = (Ok a, w1) /\ f a w1 = (Ok b, w').
Proof. rewrite bind_run; destruct (m w) as [[a|e] w1]; intros H; [eauto|congruence]. Qed.

Lemma for_each_app {A} (l k : list A) (f : A -> M W unit) w :
  for_each (l ++ k) f w = (for_each l f ;; for_each k f) w.
Proof.
  revert w; induction l as [|x l IH]; intros w; [done|].
  cbn [for_each app]; rewrite !bind_run; destruct (f x w) as [[]]; [|done].
  rewrite IH; done.
Qed.

Lemma lift_ok {A} (o : outcome A) (w : W) a w' : (lift o : M W A) w = (Ok a, w') -> o = Ok a /\ w' = w.
Proof. by intros [= -> ->]. Qed.

Lemma mret_ok {A} (a b : A) w w' : (mret a : M W A) w = (Ok b, w') -> a = b /\ w = w'.
Proof. by intros [= -> ->]. Qed.

(** An invariant of the items done so far holds at the end of a loop. *)
Lemma fold_m_inv {A S} (P : list A -> S -> W -> Prop) (f : S -> A -> M W S) (l : list A) s w s' w' :
  (forall x seen rest s1 w1 s2 w2, l = seen ++ x :: rest -> P seen s1 w1 -> f s1 x w1 = (Ok s2, w2) -> P (seen ++ [x]) s2 w2) ->
  P [] s w -> fold_m f s l w = (Ok s', w') -> P l s' w'.
Proof.
  intros Hstep H0 Hrun.
  enough (forall rest seen s w, l = seen ++ rest -> P seen s w -> fold_m f s rest w = (Ok s', w') -> P l s' w') as Hgen
    by by apply (Hgen l [] s w).
  clear s w H0 Hrun; induction rest as [|x rest IH]; intros seen s w Hl HP Hrun; cbn [fold_m] in Hrun.
  - injection Hrun as <- <-. by rewrite app_nil_r in Hl; subst.
  - apply bind_ok in Hrun as (s1 & w1 & Hf & Hrun).
    apply (IH (seen ++ [x]) s1 w1); [by rewrite <- app_assoc| |done]. by eapply Hstep.
Qed.

(** A loop whose steps succeed under an invariant succeeds. *)
Lemma fold_m_total {A S} (P : list A -> S -> W -> Prop) (f : S -> A -> M W S) (l : list A) s w :
  (forall x seen rest s1 w1, l = seen ++ x :: rest -> P seen s1 w1 ->
     exists s2 w2, f s1 x w1 = (Ok s2, w2) /\ P (seen ++ [x]) s2 w2) ->
  P [] s w -> exists s' w', fold_m f s l w = (Ok s', w') /\ P l s' w'.
Proof.
  intros Hstep H0.
  enough (forall rest seen s w, l = seen ++ rest -> P seen s w -> exists s' w', fold_m f s rest w = (Ok s', w') /\ P l s' w') as Hgen
    by by apply (Hgen l [] s w).
  clear s w H0; induction rest as [|x rest IH]; intros seen s w Hl HP; cbn [fold_m].
  - exists s, w; rewrite app_nil_r in Hl; by subst.
  - destruct (Hstep x seen rest s w Hl HP) as (s1 & w1 & Hf & HP1).
    destruct (IH (seen ++ [x]) s1 w1) as (s' & w' & Hrun & HP'); [by rewrite <- app_assoc|done|].
    exists s', w'; split; [|done]. by rewrite bind_run, Hf.
Qed.

Lemma map_m_length {A B} (f : A -> M W B) l ys w w' :
  map_m f l w = (Ok ys, w') -> length ys = length l.
Proof.
  revert ys w w'; induction l as [|x l IH]; intros ys w w' H; cbn [map_m] in H.
  - by injection H as <-.
  - apply bind_ok in H as (y & w1 & _ & H); apply bind_ok in H as (ys' & w2 & H & Heq).
    injection Heq as <- _; cbn; f_equal; eauto.
Qed.
End Run.

(** Reduce the binds whose first computation is a value. *)
Ltac obind := cbn [mbind outcome_bind mret outcome_ret mthrow outcome_throw].
Tactic Notation "obind" "in" hyp(H) :=
  cbn [mbind outcome_bind mret outcome_ret mthrow outcome_throw] in H.

(** Reduce the monadic structure of a computation applied to a world. *)
Ltac mrun :=
  repeat first
    [ rewrite bind_run
    | progress (unfold prim, modify, lift, try_catch, finally)
    | progress (unfold mret, M_ret, mthrow, M_throw)
    | progress (cbv beta iota) ].
