(* ===== verification/Router.v ===== *)
(** * The transport router (lib/transport/errors.ts, lib/transport/router.ts)

    Error classification and [executeWithFallback], the retry-and-fallback loop
    that every network operation of the site goes through.  [attempt_log] is its
    abstract specification: what a log of attempts may look like, without
    clocks, timers or worlds; the loop is shown to refine it. *)
From S2P Require Import Prelude JsString TransportTypes Effects.
#[local] Open Scope Z_scope.

(** ** errors.ts *)

Definition classifyError (err : jserr) : ErrorClass * option Z * string :=
  match err with
  | TransportError m cls status => (cls, status, m)
  | TransportTraceError m _ => (unknown, None, m)
  | JsError name message =>
      if eqb name "AbortError" then (timeout, None, message)
      else
        let msg := or_else message "unknown error" in
        if test_i "provider mismatch" msg then (provider_mismatch, None, msg)
        else if test_i "cors" msg then (cors, None, msg)
        else if test_i "failed to fetch" msg || test_i "networkerror" msg || test_i "network error" msg
        then (connection_refused, None, msg)
        else if test_i "dns" msg || test_i "not known" msg || test_i "not found" msg
        then (dns, None, msg)
        else (unknown, None, msg)
  | JsThrown _ => (unknown, None, "unknown error")
  end.

Definition classifyStatus (status : Z) : ErrorClass :=
  if status =? 429 then http_429
  else if 500 <=? status then http_5xx
  else if 400 <=? status then http_4xx
  else unknown.

Definition isRetryable (c : ErrorClass) : bool :=
  match c with
  | timeout | connection_refused | dns | http_5xx | http_429 => true
  | _ => false
  end.

Definition isTerminal (c : ErrorClass) : bool :=
  match c with provider_mismatch | invalid_response => true | _ => false end.

(** ** router.ts *)

(** [setTimeout]/[clearTimeout] for the abort timer of an attempt. *)
Class Timers (W : Type) := {
  set_timeout : Z -> W -> nat * W;
  clear_timeout : nat -> W -> W
}.

Record TransportRouterOptions := mkOptions {
  opt_preference : RoutePreference;
  opt_timeoutMs : option Z;
  opt_maxAttemptsPerBackend : option Z;
  opt_maxTotalAttempts : option Z
}.

(** [execute] receives a signal that aborts after the given time, or never. *)
Record TransportCandidate (W T : Type) := mkCandidate {
  ca_backend : BackendName;
  ca_endpoint : string;
  ca_execute : option Z -> M W T
}.
#[global] Arguments mkCandidate {W T} _ _ _.
#[global] Arguments ca_backend {W T} _.
#[global] Arguments ca_endpoint {W T} _.
#[global] Arguments ca_execute {W T} _ _.

Definition backoffMs (c : ErrorClass) (attempt : Z) : Z :=
  match c with
  | http_429 => Z.min (250 * 2 ^ Z.max 0 (attempt - 1)) 2000
  | _ => 0
  end.

(** [Array.prototype.sort] with a comparator: a stable sort. *)
Fixpoint sort_insert {A} (cmp : A -> A -> Z) (x : A) (l : list A) : list A :=
  match l with
  | [] => [x]
  | y :: l' => if cmp x y <=? 0 then x :: l else y :: sort_insert cmp x l'
  end.
Definition stable_sort {A} (cmp : A -> A -> Z) (l : list A) : list A :=
  foldr (sort_insert cmp) [] l.

(** The backend a preference puts first. *)
Definition preferred_backend (p : RoutePreference) : BackendName :=
  match p with prefer_gateway => gateway | prefer_p2p => libp2p | _ => direct_sp end.

Definition orderCandidates {W T} (preference : RoutePreference)
    (candidates : list (TransportCandidate W T)) : list (TransportCandidate W T) :=
  match preference with
  | auto => candidates
  | _ =>
      let preferred b := bool_decide (b = preferred_backend preference) in
      stable_sort (fun a b =>
        if bool_decide (ca_backend a = ca_backend b) then 0
        else if preferred (ca_backend a) && negb (preferred (ca_backend b)) then -1
        else if negb (preferred (ca_backend a)) && preferred (ca_backend b) then 1
        else 0) candidates
  end.

(** How one pass through the [while] body ends: [return], [break], or another pass. *)
Inductive pass_end (T : Type) :=
| PReturn (o : TransportOutcome T)
| PBreak (attempts : list TransportAttempt)
| PAgain (attempts : list TransportAttempt).
#[global] Arguments PReturn {T} o.
#[global] Arguments PBreak {T} attempts.
#[global] Arguments PAgain {T} attempts.

Definition terminal_message (op : TransportOp) : string := "Terminal " +:+ op_name op +:+ " failure".
Definition all_failed_message (op : TransportOp) : string := "All " +:+ op_name op +:+ " attempts failed".

Section ExecuteWithFallback.
Context {W T : Type} `{Clock W, Timers W}.
Context (op : TransportOp) (opts : TransportRouterOptions) (startedAtMs maxPerBackend maxTotal : Z).

(** [opts.timeoutMs ? ... : null]: a zero timeout is none. *)
Definition attempt_timeout : option Z :=
  match opt_timeoutMs opts with Some 0 => None | t => t end.
Definition arm_timer : M W (option nat) := fun w =>
  match attempt_timeout with
  | Some ms => let '(i, w') := set_timeout ms w in (Ok (Some i), w')
  | None => (Ok None, w)
  end.
Definition disarm_timer (i : option nat) (w : W) : W :=
  match i with Some i => clear_timeout i w | None => w end.

(** The [try]/[catch]/[finally] of one attempt. *)
Definition attempt_once (cand : TransportCandidate W T) (backendAttempts totalAttempts : Z)
    (attempts : list TransportAttempt) : M W (pass_end T) :=
  timeoutId ← arm_timer;
  attemptStart ← now;
  finally
    (try_catch
       (data ← ca_execute cand attempt_timeout;
        t ← now;
        let attempts := attempts ++
          [mkAttempt (ca_backend cand) (ca_endpoint cand) true None None None (t - attemptStart)] in
        finishedAtMs ← now;
        mret (PReturn (mkOutcome data (ca_backend cand)
          (mkTrace op (opt_preference opts) startedAtMs finishedAtMs attempts
             (Some (ca_backend cand, ca_endpoint cand))))))
       (fun err =>
          t ← now;
          let '(errorClass, status, message) := classifyError err in
          let attempts := attempts ++
            [mkAttempt (ca_backend cand) (ca_endpoint cand) false status (Some errorClass)
               (Some message) (t - attemptStart)] in
          if isTerminal errorClass then
            finishedAtMs ← now;
            mthrow (TransportTraceError (terminal_message op)
              (mkTrace op (opt_preference opts) startedAtMs finishedAtMs attempts None))
          else if negb (isRetryable errorClass) then mret (PBreak attempts)
          else if (backendAttempts <? maxPerBackend) && (totalAttempts <? maxTotal) then
            let delayMs := backoffMs errorClass backendAttempts in
            (if 0 <? delayMs then delay delayMs else mret tt) ;;
            mret (PAgain attempts)
          else mret (PAgain attempts)))
    (disarm_timer timeoutId).

(** The [while] loop over one candidate: an outcome to return, or the counters. *)
Fixpoint attempt_loop (fuel : nat) (cand : TransportCandidate W T)
    (backendAttempts totalAttempts : Z) (attempts : list TransportAttempt)
    : M W (TransportOutcome T + Z * list TransportAttempt) :=
  if (backendAttempts <? maxPerBackend) && (totalAttempts <? maxTotal) then
    match fuel with
    | O => mthrow (Error "out of fuel")
    | S fuel =>
        r ← attempt_once cand (backendAttempts + 1) (totalAttempts + 1) attempts;
        match r with
        | PReturn o => mret (inl o)
        | PBreak attempts => mret (inr (totalAttempts + 1, attempts))
        | PAgain attempts => attempt_loop fuel cand (backendAttempts + 1) (totalAttempts + 1) attempts
        end
    end
  else mret (inr (totalAttempts, attempts)).

(** The [for] loop over the candidates. *)
Fixpoint candidate_loop (cands : list (TransportCandidate W T)) (totalAttempts : Z)
    (attempts : list TransportAttempt) : M W (TransportOutcome T) :=
  match cands with
  | [] =>
      finishedAtMs ← now;
      mthrow (TransportTraceError (all_failed_message op)
        (mkTrace op (opt_preference opts) startedAtMs finishedAtMs attempts None))
  | cand :: cands' =>
      r ← attempt_loop (Z.to_nat maxPerBackend) cand 0 totalAttempts attempts;
      match r with
      | inl o => mret o
      | inr (totalAttempts, attempts) => candidate_loop cands' totalAttempts attempts
      end
  end.
End ExecuteWithFallback.

Definition max_per_backend (opts : TransportRouterOptions) : Z :=
  default 1 (opt_maxAttemptsPerBackend opts).
Definition max_total (opts : TransportRouterOptions) (candidates : Z) : Z :=
  default (candidates * max_per_backend opts) (opt_maxTotalAttempts opts).

Definition executeWithFallback {W T} `{Clock W, Timers W} (op : TransportOp)
    (candidates : list (TransportCandidate W T)) (opts : TransportRouterOptions)
    : M W (TransportOutcome T) :=
  startedAtMs ← now;
  let ordered := orderCandidates (opt_preference opts) candidates in
  candidate_loop op opts startedAtMs (max_per_backend opts) (max_total opts (zlen ordered))
    ordered 0 [].

Definition attachTraceError (err : jserr) (trace : DecisionTrace) : jserr * DecisionTrace :=
  if is_Error err then (err, trace) else (Error "transport failure", trace).

(** ** Candidate order *)

Section Sort.
Context {A : Type} (first : A -> bool) (cmp : A -> A -> Z).
Context (Hcmp : forall a b, cmp a b <= 0 <-> (first b = true -> first a = true)).

Lemma sort_insert_partition x l k :
  Forall (fun a => first a = true) l -> Forall (fun a => first a = false) k ->
  sort_insert cmp x (l ++ k) = if first x then x :: l ++ k else l ++ x :: k.
Proof.
  intros Hl Hk; induction Hl as [|y l Hy Hl IH]; cbn [sort_insert app].
  - destruct k as [|z k]; cbn [sort_insert]; [by destruct (first x)|].
    inversion Hk as [|? ? Hz]; subst.
    destruct (Z.leb_spec (cmp x z) 0) as [Hle|Hgt]; [by destruct (first x)|].
    exfalso. assert (cmp x z <= 0); [apply Hcmp; congruence|lia].
  - destruct (Z.leb_spec (cmp x y) 0) as [Hle|Hgt].
    + rewrite (proj1 (Hcmp _ _) Hle) by done; done.
    + rewrite IH; destruct (first x) eqn:Hx; [|done].
      exfalso. assert (cmp x y <= 0); [by apply Hcmp|lia].
Qed.

Lemma stable_sort_partition l :
  stable_sort cmp l = List.filter first l ++ List.filter (fun a => negb (first a)) l.
Proof.
  induction l as [|x l IH]; cbn [stable_sort foldr List.filter]; [done|].
  fold (stable_sort cmp l); rewrite IH, sort_insert_partition.
  - destruct (first x); done.
  - apply List.Forall_forall; intros a Ha; apply filter_In in Ha; tauto.
  - apply List.Forall_forall; intros a Ha; apply filter_In in Ha.
    destruct (first a); [discriminate (proj2 Ha)|done].
Qed.
End Sort.

(** Does a preference put this candidate in front? *)
Definition is_preferred {W T} (p : RoutePreference) (c : TransportCandidate W T) : bool :=
  bool_decide (ca_backend c = preferred_backend p).

(** The comparator puts a candidate in front exactly when its backend is preferred. *)
Ltac decide_order :=
  intros a b; unfold is_preferred; cbn [preferred_backend];
  repeat case_bool_decide; cbn [andb negb];
  (split; intros Hx; [intros; (lia || congruence)|first [lia | exfalso; by specialize (Hx eq_refl)]]).

Lemma orderCandidates_partition {W T} p (cands : list (TransportCandidate W T)) :
  orderCandidates p cands =
  match p with
  | auto => cands
  | _ => List.filter (is_preferred p) cands ++ List.filter (fun c => negb (is_preferred p c)) cands
  end.
Proof.
  destruct p; [done| | |]; unfold orderCandidates.
  - apply (stable_sort_partition (is_preferred prefer_gateway)); decide_order.
  - apply (stable_sort_partition (is_preferred prefer_direct_sp)); decide_order.
  - apply (stable_sort_partition (is_preferred prefer_p2p)); decide_order.
Qed.

(** A preference other than [auto] moves the candidates of its backend to
    the front and changes nothing else: the result is the stable partition, so no
    candidate is lost, duplicated or reordered within its class. *)
Theorem orderCandidates_stable_partition {W T} p (cands : list (TransportCandidate W T)) :
  orderCandidates p cands =
  match p with
  | auto => cands
  | _ => List.filter (is_preferred p) cands ++ List.filter (fun c => negb (is_preferred p c)) cands
  end.
Proof. apply orderCandidates_partition. Qed.

Lemma filter_split_perm {A} (f : A -> bool) (l : list A) :
  List.filter f l ++ List.filter (fun a => negb (f a)) l ≡ₚ l.
Proof.
  induction l as [|x l IH]; cbn [List.filter]; [done|].
  destruct (f x); cbn [negb app]; [by rewrite IH|]. rewrite <- Permutation_middle; by rewrite IH.
Qed.

Lemma orderCandidates_perm {W T} p (cands : list (TransportCandidate W T)) :
  orderCandidates p cands ≡ₚ cands.
Proof. rewrite orderCandidates_partition; destruct p; [done|apply filter_split_perm..]. Qed.

(** ** The abstract specification: attempt logs *)

(** How a run ends: with the data of an attempt, at a terminal error, or with
    every candidate tried. *)
Inductive ending (T : Type) :=
| Done (backend : BackendName) (endpoint : string) (data : T)
| Terminal
| Exhausted.
#[global] Arguments Done {T} _ _ _.
#[global] Arguments Terminal {T}.
#[global] Arguments Exhausted {T}.

Section AttemptLog.
Context {W T : Type} (tmo : option Z) (maxPer maxTotal : Z).
Abbreviation candidate := (TransportCandidate W T).

(** An attempt reports a real run of the candidate it names. *)
Definition succeeded (c : candidate) (a : TransportAttempt) (data : T) : Prop :=
  at_backend a = ca_backend c /\ at_endpoint a = ca_endpoint c /\ at_ok a = true /\
  exists w1 w2, ca_execute c tmo w1 = (Ok data, w2).
Definition failed (c : candidate) (a : TransportAttempt) (cls : ErrorClass) : Prop :=
  at_backend a = ca_backend c /\ at_endpoint a = ca_endpoint c /\ at_ok a = false /\
  at_errorClass a = Some cls /\
  exists w1 err w2 m, ca_execute c tmo w1 = (Thrown err, w2) /\ at_errorMessage a = Some m /\
    classifyError err = (cls, at_status a, m).

(** The attempts on one candidate after [n] on it and [t] in all, up to the
    moment the next candidate is due ([None]) or the run ends. *)
Inductive candidate_log (c : candidate) : Z -> Z -> list TransportAttempt -> option (ending T) -> Z -> Prop :=
| CL_limit n t : maxPer <= n \/ maxTotal <= t -> candidate_log c n t [] None t
| CL_done n t a data : n < maxPer -> t < maxTotal -> succeeded c a data ->
    candidate_log c n t [a] (Some (Done (ca_backend c) (ca_endpoint c) data)) (t + 1)
| CL_terminal n t a cls : n < maxPer -> t < maxTotal -> failed c a cls -> isTerminal cls = true ->
    candidate_log c n t [a] (Some Terminal) (t + 1)
| CL_break n t a cls : n < maxPer -> t < maxTotal -> failed c a cls ->
    isTerminal cls = false -> isRetryable cls = false ->
    candidate_log c n t [a] None (t + 1)
| CL_retry n t a cls l e t' : n < maxPer -> t < maxTotal -> failed c a cls ->
    isTerminal cls = false -> isRetryable cls = true ->
    candidate_log c (n + 1) (t + 1) l e t' ->
    candidate_log c n t (a :: l) e t'.

Inductive attempt_log : list candidate -> Z -> list TransportAttempt -> ending T -> Prop :=
| AL_exhausted t : attempt_log [] t [] Exhausted
| AL_next c cs t l t' l' e :
    candidate_log c 0 t l None t' -> attempt_log cs t' l' e -> attempt_log (c :: cs) t (l ++ l') e
| AL_stop c cs t l e t' :
    candidate_log c 0 t l (Some e) t' -> attempt_log (c :: cs) t l e.

(** What a caller of [executeWithFallback] sees of a run. *)
Definition settles (op : TransportOp) (p : RoutePreference) (l : list TransportAttempt) (e : ending T)
    (r : outcome (TransportOutcome T)) : Prop :=
  exists started finished,
    let trace := mkTrace op p started finished l in
    r = match e with
        | Done b ep data => Ok (mkOutcome data b (trace (Some (b, ep))))
        | Terminal => Thrown (TransportTraceError (terminal_message op) (trace None))
        | Exhausted => Thrown (TransportTraceError (all_failed_message op) (trace None))
        end.
End AttemptLog.

(** ** The loop refines the specification *)

Section Refinement.
Context {W T : Type} `{Clock W, Timers W}.
Context (op : TransportOp) (opts : TransportRouterOptions) (startedAtMs maxPer maxTotal : Z).
Abbreviation tmo := (attempt_timeout opts).

(** One pass: what [attempt_once] returns or throws, and the attempt it logged. *)
Lemma attempt_once_spec (c : TransportCandidate W T) n t l w r w' :
  attempt_once op opts startedAtMs maxPer maxTotal c n t l w = (r, w') ->
  exists a,
    (exists data fin, succeeded tmo c a data /\
       r = Ok (PReturn (mkOutcome data (ca_backend c)
             (mkTrace op (opt_preference opts) startedAtMs fin (l ++ [a])
                (Some (ca_backend c, ca_endpoint c)))))) \/
    (exists cls, failed tmo c a cls /\
       if isTerminal cls then
         exists fin, r = Thrown (TransportTraceError (terminal_message op)
                       (mkTrace op (opt_preference opts) startedAtMs fin (l ++ [a]) None))
       else r = Ok (if isRetryable cls then PAgain (l ++ [a]) else PBreak (l ++ [a]))).
Proof.
  unfold attempt_once; rewrite bind_run.
  destruct (arm_timer opts w) as [[i|e] w1] eqn:Earm; cycle 1.
  { unfold arm_timer in Earm; repeat case_match; congruence. }
  rewrite bind_run; unfold now at 1; destruct (date_now w1) as [t0 w2].
  unfold finally, try_catch; rewrite bind_run.
  destruct (ca_execute c tmo w2) as [[data|err] w3] eqn:Erun.
  - rewrite bind_run; unfold now at 1; destruct (date_now w3) as [t1 w4].
    cbn zeta; rewrite bind_run; unfold now; destruct (date_now w4) as [t2 w5].
    intros Heq; injection Heq as <- <-; eexists; left; exists data, t2; split; [|done].
    repeat split; eauto.
  - rewrite bind_run; unfold now at 1; destruct (date_now w3) as [t1 w4].
    destruct (classifyError err) as [[cls status] msg] eqn:Ecls.
    intros Heq; eexists (mkAttempt (ca_backend c) (ca_endpoint c) false status (Some cls) (Some msg) _).
    right; exists cls; split; [repeat split; cbn; eauto 8|].
    destruct (isTerminal cls); [|destruct (isRetryable cls); cbn [negb] in Heq].
    + rewrite bind_run in Heq; unfold now in Heq; destruct (date_now w4) as [t2 w5].
      injection Heq as <- <-; eauto.
    + destruct ((n <? maxPer) && (t <? maxTotal)); [|by injection Heq as <- <-].
      rewrite bind_run in Heq; destruct (0 <? backoffMs cls n); by injection Heq as <- <-.
    + by injection Heq as <- <-.
Qed.

Lemma attempt_loop_spec (c : TransportCandidate W T) fuel : forall n t l w r w',
  maxPer - n <= Z.of_nat fuel ->
  attempt_loop op opts startedAtMs maxPer maxTotal fuel c n t l w = (r, w') ->
  exists l' e t', candidate_log tmo maxPer maxTotal c n t l' e t' /\
    match e with
    | None => r = Ok (inr (t', l ++ l'))
    | Some e => exists r', settles op (opt_preference opts) (l ++ l') e r' /\
                  r = match r' with Ok o => Ok (inl o) | Thrown err => Thrown err end
    end.
Proof.
  induction fuel as [|fuel IH]; intros n t l w r w' Hfuel; cbn [attempt_loop];
    destruct (Z.ltb_spec n maxPer), (Z.ltb_spec t maxTotal); cbn [andb]; try lia; intros Heq.
  all: try (injection Heq as <- <-; exists [], None, t; rewrite app_nil_r; split; [constructor; lia|done]).
  rewrite bind_run in Heq.
  destruct (attempt_once _ _ _ _ _ c (n + 1) (t + 1) l w) as [r1 w1] eqn:E1.
  apply attempt_once_spec in E1 as (a & [(data & fin & Hok & ->)|(cls & Hfail & Hend)]).
  - injection Heq as <- <-; exists [a], (Some (Done (ca_backend c) (ca_endpoint c) data)), (t + 1).
    split; [by constructor|]. eexists; split; [exists startedAtMs, fin; done|done].
  - destruct (isTerminal cls) eqn:Eterm; [|destruct (isRetryable cls) eqn:Eretry; subst r1].
    + destruct Hend as (fin & ->); injection Heq as <- <-.
      exists [a], (Some Terminal), (t + 1); split; [by econstructor|].
      eexists; split; [exists startedAtMs, fin; done|done].
    + apply IH in Heq as (l' & e & t' & Hlog & Hr); [|lia].
      exists (a :: l'), e, t'; split; [by econstructor|]. by rewrite <- app_assoc in Hr.
    + injection Heq as <- <-; exists [a], None, (t + 1); split; [by econstructor|done].
Qed.

Lemma candidate_loop_spec (cs : list (TransportCandidate W T)) : forall t l w r w',
  candidate_loop op opts startedAtMs maxPer maxTotal cs t l w = (r, w') ->
  exists l' e, attempt_log tmo maxPer maxTotal cs t l' e /\
    settles op (opt_preference opts) (l ++ l') e r.
Proof.
  induction cs as [|c cs IH]; intros t l w r w' Heq; cbn [candidate_loop] in Heq;
    rewrite bind_run in Heq.
  - unfold now in Heq; destruct (date_now w) as [fin w1]; injection Heq as <- <-.
    exists [], Exhausted; rewrite app_nil_r; split; [constructor|by exists startedAtMs, fin].
  - destruct (attempt_loop _ _ _ _ _ _ c 0 t l w) as [r1 w1] eqn:E1.
    apply attempt_loop_spec in E1 as (l1 & e & t1 & Hlog & Hr); [|lia].
    destruct e as [e|].
    + destruct Hr as (r' & Hs & ->). exists l1, e; split; [by econstructor|].
      destruct r'; injection Heq as <- <-; done.
    + subst r1; apply IH in Heq as (l2 & e & Hlog' & Hs).
      exists (l1 ++ l2), e; split; [by econstructor|by rewrite app_assoc].
Qed.
End Refinement.

Lemma executeWithFallback_simulates {W T} `{Clock W, Timers W} op
    (cands : list (TransportCandidate W T)) opts w r w' :
  executeWithFallback op cands opts w = (r, w') ->
  exists l e,
    attempt_log (attempt_timeout opts) (max_per_backend opts) (max_total opts (zlen cands))
      (orderCandidates (opt_preference opts) cands) 0 l e /\
    settles op (opt_preference opts) l e r.
Proof.
  unfold executeWithFallback; rewrite bind_run; unfold now; destruct (date_now w) as [t0 w1].
  intros Heq; apply candidate_loop_spec in Heq as (l & e & Hlog & Hs); cbn [app] in Hs.
  exists l, e; split; [|done].
  replace (zlen cands) with (zlen (orderCandidates (opt_preference opts) cands)); [done|].
  unfold zlen; by rewrite orderCandidates_perm.
Qed.

(** ** What the specification implies *)

Section LogFacts.
Context {W T : Type} (tmo : option Z) (maxPer maxTotal : Z).
Abbreviation candidate := (TransportCandidate W T).
Abbreviation clog := (candidate_log (W:=W) (T:=T) tmo maxPer maxTotal).
Abbreviation alog := (attempt_log (W:=W) (T:=T) tmo maxPer maxTotal).

(** A failure after which the router goes on. *)
Definition recoverable (a : TransportAttempt) : Prop :=
  at_ok a = false /\ exists cls, at_errorClass a = Some cls /\ isTerminal cls = false.
Definition of_candidate (c : candidate) (a : TransportAttempt) : Prop :=
  at_backend a = ca_backend c /\ at_endpoint a = ca_endpoint c.

(** Everything before the last attempt was recoverable, and the last one explains the ending. *)
Definition ends_log (l : list TransportAttempt) (e : ending T) : Prop :=
  match e with
  | Exhausted => Forall recoverable l
  | Terminal => exists pre a cls, l = pre ++ [a] /\ Forall recoverable pre /\
                  at_ok a = false /\ at_errorClass a = Some cls /\ isTerminal cls = true
  | Done b ep data => exists pre a, l = pre ++ [a] /\ Forall recoverable pre /\
                  at_ok a = true /\ at_backend a = b /\ at_endpoint a = ep
  end.

Lemma ends_log_app l l' e : Forall recoverable l -> ends_log l' e -> ends_log (l ++ l') e.
Proof.
  intros Hl; destruct e; cbn [ends_log].
  - intros (pre & a & -> & Hp & Ha); exists (l ++ pre), a; rewrite <- app_assoc.
    split; [done|]; split; [by apply Forall_app|done].
  - intros (pre & a & cls & -> & Hp & Ha); exists (l ++ pre), a, cls; rewrite <- app_assoc.
    split; [done|]; split; [by apply Forall_app|done].
  - intros Hp; by apply Forall_app.
Qed.

Lemma failed_recoverable c a cls :
  failed (W:=W) (T:=T) tmo c a cls -> isTerminal cls = false -> recoverable a.
Proof. intros (_ & _ & Hok & Hcls & _) Ht; split; [done|]; eauto. Qed.

Lemma candidate_log_facts c n t l e t' :
  clog c n t l e t' ->
  t' = t + zlen l /\ zlen l <= Z.max 0 (maxPer - n) /\ (0 < zlen l -> t' <= maxTotal) /\
  Forall (of_candidate c) l /\
  match e with None => Forall recoverable l | Some e => ends_log l e end.
Proof.
  induction 1 as [n t Hlim|n t a data Hn Ht Hok|n t a cls Hn Ht Hf Hterm
                 |n t a cls Hn Ht Hf Hterm Hr|n t a cls l e t' Hn Ht Hf Hterm Hr Hlog IH];
    autorewrite with nilrw.
  - repeat split; [lia..|constructor|constructor].
  - destruct Hok as (Hb & Hep & Hok & _). repeat split; [lia..|by repeat constructor|].
    exists [], a; repeat split; done.
  - destruct Hf as (Hb & Hep & Hok & Hcls & _). repeat split; [lia..|by repeat constructor|].
    exists [], a, cls; repeat split; done.
  - repeat split; [lia..| |].
    + destruct Hf as (Hb & Hep & _); by repeat constructor.
    + repeat constructor; eapply failed_recoverable; eauto.
  - destruct IH as (-> & Hlen & Hmax & Hall & Hend); pose proof (zlen_nonneg l).
    repeat split; [lia..| |].
    + destruct Hf as (Hb & Hep & _); by constructor.
    + apply failed_recoverable in Hf; [|done].
      destruct e as [e|]; [|by constructor]. apply (ends_log_app [a]); [by constructor|done].
Qed.

Lemma attempt_log_facts cs t l e :
  alog cs t l e ->
  zlen l <= zlen cs * Z.max 0 maxPer /\ (0 < zlen l -> t + zlen l <= maxTotal) /\
  Forall (fun a => exists c, c ∈ cs /\ of_candidate c a) l /\ ends_log l e.
Proof.
  assert (forall (c : candidate) cs l, Forall (of_candidate c) l ->
            Forall (fun a => exists c', c' ∈ c :: cs /\ of_candidate c' a) l) as Hhere.
  { intros c cs0 l0 Hl; eapply Forall_impl; [exact Hl|]; intros a Ha; exists c; split; [left|done]. }
  induction 1 as [t|c cs t l t' l' e Hlog _ IH|c cs t l e t' Hlog];
    try apply candidate_log_facts in Hlog as (-> & Hlen & Hmax & Hall & Hend);
    autorewrite with nilrw.
  - repeat split; [lia..|constructor|constructor].
  - destruct IH as (Hlen' & Hmax' & Hall' & Hend'); pose proof (zlen_nonneg l).
    repeat split; [nia|lia| |by apply ends_log_app].
    apply Forall_app; split; [by apply Hhere|].
    eapply Forall_impl; [exact Hall'|]. intros a (c' & Hin & Ha); exists c'; split; [by right|done].
  - pose proof (zlen_nonneg cs). repeat split; [nia|lia|by apply Hhere|done].
Qed.

(** The value of a successful run is what its last attempt produced. *)
Lemma candidate_log_done c n t l e t' :
  clog c n t l e t' ->
  match e with
  | Some (Done b ep data) => exists pre a, l = pre ++ [a] /\ succeeded tmo c a data
  | _ => True
  end.
Proof.
  induction 1 as [| n t a data Hn Ht Hok| | |n t a cls l e t' Hn Ht Hf Hterm Hr Hlog IH]; [done| |done..|].
  - by exists [], a.
  - destruct e as [[b ep data| |]|]; [|done..].
    destruct IH as (pre & a' & -> & Hs); by exists (a :: pre), a'.
Qed.

Lemma attempt_log_done cs t l b ep data :
  alog cs t l (Done b ep data) ->
  exists pre a c, l = pre ++ [a] /\ c ∈ cs /\ succeeded tmo c a data.
Proof.
  remember (Done b ep data) as e eqn:He.
  induction 1 as [t|c cs t l t' l' e Hc _ IH|c cs t l e t' Hc]; [done|..].
  - destruct (IH He) as (pre & a & c' & -> & Hin & Hs).
    exists (l ++ pre), a, c'; rewrite app_assoc; split; [done|]; split; [by right|done].
  - subst e; apply candidate_log_done in Hc as (pre & a & -> & Hs).
    exists pre, a, c; split; [done|]; split; [left|done].
Qed.

Lemma candidate_log_not_exhausted c n t l e t' : clog c n t l e t' -> e <> Some Exhausted.
Proof. by induction 1. Qed.

(** With budget left for every candidate, exhaustion means each was tried. *)
Lemma exhausted_covers cs t l e :
  alog cs t l e -> 0 < maxPer -> t + zlen cs * maxPer <= maxTotal -> e = Exhausted ->
  Forall (fun c => exists a, a ∈ l /\ of_candidate c a) cs.
Proof.
  intros Hlog Hper; induction Hlog as [t|c cs t l t' l' e Hc _ IH|c cs t l e t' Hc];
    autorewrite with nilrw; intros Hbud Hex.
  - constructor.
  - pose proof (candidate_log_facts _ _ _ _ _ _ Hc) as (-> & Hlen & _ & Hall & _).
    pose proof (zlen_nonneg cs).
    constructor.
    + destruct l as [|a l]; [inversion Hc; subst; nia|].
      exists a; split; [left|by inversion Hall].
    + eapply Forall_impl; [apply IH; [nia|done]|].
      intros c' (a & Hin & Ha); exists a; split; [apply elem_of_app; by right|done].
  - subst e; by apply candidate_log_not_exhausted in Hc.
Qed.
End LogFacts.

(** ** Properties of [executeWithFallback] *)

(** A world that is a clock ticking once per reading, for the concrete runs. *)
#[local] Instance tick_clock : Clock Z := {| date_now t := (t, t + 1); sleep_ms ms t := t + ms |}.
#[local] Instance tick_timers : Timers Z :=
  {| set_timeout _ t := (Z.to_nat t, t); clear_timeout _ t := t |}.

Definition failing (b : BackendName) (ep : string) (cls : ErrorClass) : TransportCandidate Z Z :=
  mkCandidate b ep (fun _ => mthrow (TransportError "no" cls None)).
Definition answering (b : BackendName) (ep : string) (v : Z) : TransportCandidate Z Z :=
  mkCandidate b ep (fun _ => mret v).

(** Direct provider preferred but failing twice: the gateway answers. *)
Definition demo_candidates := [answering gateway "gw" 7; failing direct_sp "sp" http_429].
Definition demo_options := mkOptions prefer_direct_sp (Some 9) (Some 2) None.
Definition demo_trace :=
  mkTrace OpFetch prefer_direct_sp 0 257
    [mkAttempt direct_sp "sp" false None (Some http_429) (Some "no") 1;
     mkAttempt direct_sp "sp" false None (Some http_429) (Some "no") 1;
     mkAttempt gateway "gw" true None None None 1]
    (Some (gateway, "gw")).

Example demo_run :
  executeWithFallback OpFetch demo_candidates demo_options 0 = (Ok (mkOutcome 7 gateway demo_trace), 258).
Proof. vm_compute. reflexivity. Qed.

(** The attempts of a run, whichever way it ended. *)
Definition run_attempts {T} (r : outcome (TransportOutcome T)) : list TransportAttempt :=
  match r with
  | Ok o => tr_attempts (to_trace o)
  | Thrown (TransportTraceError _ tr) => tr_attempts tr
  | Thrown _ => []
  end.

Lemma settles_attempts {T} op p l (e : ending T) r : settles op p l e r -> run_attempts r = l.
Proof. intros (s & f & ->); destruct e; done. Qed.

(** C1: refinement.  Every run of [executeWithFallback] is one of the attempt
    logs of the specification over the ordered candidates: it terminates, each
    logged attempt is a real run of the candidate it names with the class
    [classifyError] gives its error, candidates are left only on success, a
    terminal error, a non-retryable error or a spent budget, and the value or the
    [TransportTraceError] the caller sees is the one that log prescribes. *)
Theorem executeWithFallback_refines {W T} `{Clock W, Timers W} op
    (cands : list (TransportCandidate W T)) opts w :
  exists l e,
    attempt_log (attempt_timeout opts) (max_per_backend opts) (max_total opts (zlen cands))
      (orderCandidates (opt_preference opts) cands) 0 l e /\
    settles op (opt_preference opts) l e (fst (executeWithFallback op cands opts w)).
Proof.
  destruct (executeWithFallback op cands opts w) as [r w'] eqn:E.
  by eapply executeWithFallback_simulates.
Qed.

(** C35: the attempt budget.  A run makes at most [maxAttemptsPerBackend] attempts
    per candidate and never more than [maxTotalAttempts], whatever the candidates do. *)
Theorem executeWithFallback_attempt_bounds {W T} `{Clock W, Timers W} op
    (cands : list (TransportCandidate W T)) opts w :
  let n := zlen (run_attempts (fst (executeWithFallback op cands opts w))) in
  n <= zlen cands * Z.max 0 (max_per_backend opts) /\
  n <= Z.max 0 (max_total opts (zlen cands)).
Proof.
  destruct (executeWithFallback op cands opts w) as [r w'] eqn:E.
  apply executeWithFallback_simulates in E as (l & e & Hlog & Hs); cbn [fst].
  rewrite (settles_attempts _ _ _ _ _ Hs).
  apply attempt_log_facts in Hlog as (H1 & H2 & _).
  replace (zlen cands) with (zlen (orderCandidates (opt_preference opts) cands)) in *
    by (unfold zlen; by rewrite orderCandidates_perm).
  lia.
Qed.

(** Success.  A run that returns does so with its last attempt: that one
    succeeded, on the chosen backend and endpoint and with the returned data; all
    earlier attempts failed with a class that is not terminal. *)
Theorem executeWithFallback_success {W T} `{Clock W, Timers W} op
    (cands : list (TransportCandidate W T)) opts w out w' :
  executeWithFallback op cands opts w = (Ok out, w') ->
  exists pre a,
    tr_attempts (to_trace out) = pre ++ [a] /\ Forall recoverable pre /\ at_ok a = true /\
    to_backend out = at_backend a /\
    tr_chosen (to_trace out) = Some (at_backend a, at_endpoint a) /\
    exists c w1 w2, c ∈ cands /\ of_candidate c a /\
      ca_execute c (attempt_timeout opts) w1 = (Ok (to_data out), w2).
Proof.
  intros E; apply executeWithFallback_simulates in E as (l & e & Hlog & s & f & Hr).
  destruct e as [b ep data| |]; [|done..]. injection Hr as ->; cbn.
  pose proof (attempt_log_facts _ _ _ _ _ _ _ Hlog) as (_ & _ & _ & pre & a & -> & Hp & Hok & <- & <-).
  exists pre, a; repeat split; [done..|].
  apply attempt_log_done in Hlog as (pre' & a' & c & Heq & Hin & Hb & Hep & _ & w1 & w2 & Hrun).
  apply app_inj_tail in Heq as [_ <-].
  exists c, w1, w2; rewrite <- (orderCandidates_perm (opt_preference opts) cands); done.
Qed.

Lemma executeWithFallback_success_witness :
  executeWithFallback OpFetch demo_candidates demo_options 0 = (Ok (mkOutcome 7 gateway demo_trace), 258) /\
  exists pre a,
    tr_attempts demo_trace = pre ++ [a] /\ Forall recoverable pre /\ at_ok a = true /\
    gateway = at_backend a /\ tr_chosen demo_trace = Some (at_backend a, at_endpoint a) /\
    exists c w1 w2, c ∈ demo_candidates /\ of_candidate c a /\
      ca_execute c (Some 9) w1 = (Ok 7, w2).
Proof.
  split; [vm_compute; reflexivity|].
  apply (executeWithFallback_success OpFetch demo_candidates demo_options 0
           (mkOutcome 7 gateway demo_trace) 258). vm_compute; reflexivity.
Defined.

(** Failure.  A run that throws always throws a [TransportTraceError] with no
    chosen backend, and all its attempts failed.  If the message says that all
    attempts failed, none had a terminal class and, unless a smaller total was
    asked for, every candidate was tried at least once. *)
Theorem executeWithFallback_failure {W T} `{Clock W, Timers W} op
    (cands : list (TransportCandidate W T)) opts w err w' :
  executeWithFallback op cands opts w = (Thrown err, w') ->
  exists m tr, err = TransportTraceError m tr /\ tr_chosen tr = None /\
    Forall (fun a => at_ok a = false) (tr_attempts tr) /\
    (m = terminal_message op \/
     m = all_failed_message op /\ Forall recoverable (tr_attempts tr) /\
     (0 < max_per_backend opts -> zlen cands * max_per_backend opts <= max_total opts (zlen cands) ->
      Forall (fun c => exists a, a ∈ tr_attempts tr /\ of_candidate c a) cands)).
Proof.
  intros E; apply executeWithFallback_simulates in E as (l & e & Hlog & s & f & Hr).
  pose proof (attempt_log_facts _ _ _ _ _ _ _ Hlog) as (_ & _ & _ & Hend).
  assert (forall k, Forall recoverable k -> Forall (fun a => at_ok a = false) k) as Hrec.
  { intros k Hk; eapply Forall_impl; [exact Hk|]; by intros a [? _]. }
  destruct e as [b ep data| |]; [done|..]; injection Hr as ->; do 2 eexists; repeat split.
  - destruct Hend as (pre & a & cls & -> & Hpre & Hok & _); cbn.
    apply Forall_app; split; [by apply Hrec|by repeat constructor].
  - by left.
  - by apply Hrec.
  - right; repeat split; [done|]; intros Hper Hbud; cbn.
    rewrite <- (orderCandidates_perm (opt_preference opts) cands).
    apply (exhausted_covers _ _ _ _ _ _ _ Hlog Hper); [|done].
    replace (zlen (orderCandidates (opt_preference opts) cands)) with (zlen cands); [done|].
    unfold zlen; by rewrite orderCandidates_perm.
Qed.

Lemma executeWithFallback_failure_witness :
  let cands := [failing gateway "gw" connection_refused; failing direct_sp "sp" cors] in
  let tr := mkTrace OpPlan auto 0 5
    [mkAttempt gateway "gw" false None (Some connection_refused) (Some "no") 1;
     mkAttempt direct_sp "sp" false None (Some cors) (Some "no") 1] None in
  exists m tr', TransportTraceError "All plan attempts failed" tr = TransportTraceError m tr' /\
    tr_chosen tr' = None /\ Forall (fun a => at_ok a = false) (tr_attempts tr') /\
    (m = terminal_message OpPlan \/
     m = all_failed_message OpPlan /\ Forall recoverable (tr_attempts tr') /\
     (0 < 1 -> 2 * 1 <= 2 ->
      Forall (fun c => exists a, a ∈ tr_attempts tr' /\ of_candidate c a) cands)).
Proof.
  intros cands tr.
  apply (executeWithFallback_failure OpPlan cands (mkOptions auto None None None) 0 _ 6).
  vm_compute; reflexivity.
Defined.
