(* ===== verification/RangeChunker.v ===== *)
(** * Range planning (lib/rangeChunker.ts)

    A byte range of a NilFS file is cut into chunks none of which crosses an MDU
    or a blob, so that each chunk is served by one provider under one blob proof.
    Raw file bytes live in 32-byte scalars that carry 31 bytes each, which is why
    blob boundaries are found by a binary search over raw offsets. *)
From S2P Require Import Prelude JsString JsNum TransportTypes Effects.
#[local] Open Scope Z_scope.

Definition NILFS_SCALAR_BYTES : Z := 32.
Definition NILFS_SCALAR_PAYLOAD_BYTES : Z := 31.

Record FileRangeChunk := mkChunk { rangeStart : Z; rangeLen : Z }.

(** Raised when a loop's fuel runs out; no source statement throws it. *)
Definition fuel_exhausted : jserr := JsThrown "fuel exhausted".

Definition rawMduCapacityFromMduSize (mduSizeBytes : num) : Z :=
  if negb (is_finite mduSizeBytes) || num_leb mduSizeBytes 0 then 0
  else (num_val mduSizeBytes / NILFS_SCALAR_BYTES) * NILFS_SCALAR_PAYLOAD_BYTES.

Definition encodedPosFromRawOffset (rawOffsetInMdu : Z) : Z :=
  let scalarIdx := rawOffsetInMdu / NILFS_SCALAR_PAYLOAD_BYTES in
  rawOffsetInMdu + scalarIdx + 1.

Definition rawOffsetToEncodedBlobIndex (rawOffsetInMdu blobSizeBytes : Z) : outcome Z :=
  if blobSizeBytes <=? 0 then mthrow (Error "invalid blobSizeBytes")
  else if rawOffsetInMdu <? 0 then mthrow (Error "rawOffsetInMdu must be >= 0")
  else mret (encodedPosFromRawOffset rawOffsetInMdu / blobSizeBytes).

(** The [while (lo + 1 < hi)] loop of the boundary search; returns the final [hi]. *)
Fixpoint boundary_search (fuel : nat) (blobIdx blobSizeBytes lo hi : Z) : outcome Z :=
  if lo + 1 <? hi then
    match fuel with
    | O => mthrow fuel_exhausted
    | S fuel =>
        let mid := (lo + hi) / 2 in
        midBlob ← rawOffsetToEncodedBlobIndex mid blobSizeBytes;
        if midBlob =? blobIdx then boundary_search fuel blobIdx blobSizeBytes mid hi
        else boundary_search fuel blobIdx blobSizeBytes lo mid
    end
  else mret hi.

Definition nextBlobBoundaryRawOffsetInMdu
    (rawOffsetInMdu rawMduCapacity blobSizeBytes : Z) : outcome Z :=
  let start := rawOffsetInMdu in
  if rawMduCapacity <=? start then mret rawMduCapacity
  else
    blobIdx ← rawOffsetToEncodedBlobIndex start blobSizeBytes;
    hi ← boundary_search (Z.to_nat (rawMduCapacity - start)) blobIdx blobSizeBytes
           start rawMduCapacity;
    hiBlob ← rawOffsetToEncodedBlobIndex hi blobSizeBytes;
    if hiBlob =? blobIdx then mret rawMduCapacity else mret hi.

(** The body of the [while (remaining > 0)] loop computes one chunk length. *)
Definition chunk_len (fileStartOffset rawMduCapacity blobSizeBytes cursor remaining : Z) : outcome Z :=
  let absOffset := fileStartOffset + cursor in
  let offsetInMdu := absOffset mod rawMduCapacity in
  let mduRemaining := rawMduCapacity - offsetInMdu in
  blobBoundary ← nextBlobBoundaryRawOffsetInMdu offsetInMdu rawMduCapacity blobSizeBytes;
  let blobRemaining := blobBoundary - offsetInMdu in
  let chunkLen := Z.min (Z.min remaining mduRemaining) (Z.min blobRemaining blobSizeBytes) in
  if chunkLen <=? 0 then mthrow (Error "failed to derive a positive chunk length")
  else mret chunkLen.

Fixpoint plan_loop (fuel : nat) (fileStartOffset rawMduCapacity blobSizeBytes cursor remaining : Z)
    : outcome (list FileRangeChunk) :=
  if 0 <? remaining then
    match fuel with
    | O => mthrow fuel_exhausted
    | S fuel =>
        chunkLen ← chunk_len fileStartOffset rawMduCapacity blobSizeBytes cursor remaining;
        rest ← plan_loop fuel fileStartOffset rawMduCapacity blobSizeBytes
                 (cursor + chunkLen) (remaining - chunkLen);
        mret (mkChunk cursor chunkLen :: rest)
    end
  else mret [].

Definition planNilfsFileRangeChunks
    (fileStartOffset fileSizeBytes rangeStart rangeLen mduSizeBytes : num) (blobSizeBytes : Z)
    : outcome (list FileRangeChunk) :=
  if negb (is_finite fileStartOffset) || num_ltb fileStartOffset 0
  then mthrow (Error "fileStartOffset must be >= 0")
  else if negb (is_finite fileSizeBytes) || num_leb fileSizeBytes 0
  then mthrow (Error "fileSizeBytes must be > 0")
  else if negb (is_finite rangeStart) || num_ltb rangeStart 0
  then mthrow (Error "rangeStart must be >= 0")
  else if negb (is_finite rangeLen) || num_leb rangeLen 0
  then mthrow (Error "rangeLen must be > 0")
  else if num_val fileSizeBytes <=? num_val rangeStart
  then mthrow (Error "rangeStart beyond EOF")
  else
    let rawMduCapacity := rawMduCapacityFromMduSize mduSizeBytes in
    if rawMduCapacity <=? 0 then mthrow (Error "invalid mduSizeBytes")
    else
      let maxLen := Z.min (num_val rangeLen) (num_val fileSizeBytes - num_val rangeStart) in
      plan_loop (Z.to_nat maxLen) (num_val fileStartOffset) rawMduCapacity blobSizeBytes
        (num_val rangeStart) maxLen.

Example plan_small :
  planNilfsFileRangeChunks (Num 10) (Num 200) (Num 0) (Num 150) (Num 128) 64
  = Ok [mkChunk 0 52; mkChunk 52 62; mkChunk 114 36].
Proof. reflexivity. Qed.

(** ** Specification *)

(** Chunks that cover [start, start + len) one after the other, none empty. *)
Inductive tiles : Z -> Z -> list FileRangeChunk -> Prop :=
| tiles_nil start : tiles start 0 []
| tiles_cons start len n cs :
    0 < n -> tiles (start + n) (len - n) cs -> tiles start len (mkChunk start n :: cs).

(** The MDU and the blob inside it that hold byte [o] of a file. *)
Definition location (fileStartOffset rawMduCapacity blobSizeBytes o : Z) : Z * Z :=
  ((fileStartOffset + o) / rawMduCapacity,
   encodedPosFromRawOffset ((fileStartOffset + o) mod rawMduCapacity) / blobSizeBytes).

Definition in_chunk (c : FileRangeChunk) (o : Z) : Prop :=
  rangeStart c <= o < rangeStart c + rangeLen c.

Section Search.
Context (B : Z) (HB : 0 < B).

Definition blob_of (r : Z) : Z := encodedPosFromRawOffset r / B.

Lemma blob_of_mono r s : r <= s -> blob_of r <= blob_of s.
Proof.
  intros H; unfold blob_of, encodedPosFromRawOffset, NILFS_SCALAR_PAYLOAD_BYTES.
  apply Z.div_le_mono; [done|].
  assert (r / 31 <= s / 31) by (apply Z.div_le_mono; lia). lia.
Qed.

(** A blob holds at most [B] raw offsets. *)
Lemma blob_of_width r s : r <= s -> blob_of r = blob_of s -> s - r < B.
Proof.
  intros H; unfold blob_of, encodedPosFromRawOffset, NILFS_SCALAR_PAYLOAD_BYTES; intros E.
  assert (r / 31 <= s / 31) by (apply Z.div_le_mono; lia).
  pose proof (Z.div_mod (r + r / 31 + 1) B); pose proof (Z.div_mod (s + s / 31 + 1) B).
  pose proof (Z.mod_pos_bound (r + r / 31 + 1) B HB).
  pose proof (Z.mod_pos_bound (s + s / 31 + 1) B HB). nia.
Qed.

Lemma blob_index_ok r :
  0 <= r -> rawOffsetToEncodedBlobIndex r B = Ok (blob_of r).
Proof.
  intros; unfold rawOffsetToEncodedBlobIndex.
  destruct (Z.leb_spec B 0); [lia|]; destruct (Z.ltb_spec r 0); [lia|done].
Qed.

Lemma boundary_search_spec fuel : forall b lo hi,
  0 <= lo < hi -> (hi - lo <= Z.of_nat fuel)%Z -> blob_of lo = b ->
  exists h, boundary_search fuel b B lo hi = Ok h /\ lo < h <= hi /\ blob_of (h - 1) = b /\
    (h = hi \/ blob_of h <> b).
Proof.
  induction fuel as [|fuel IH]; intros b lo hi Hlo Hfuel Hb; cbn [boundary_search];
    destruct (Z.ltb_spec (lo + 1) hi).
  1: lia.
  1,3: exists hi; replace (hi - 1) with lo by lia; repeat split; auto; lia.
  assert (lo < (lo + hi) / 2 < hi) as Hmid by zdivl.
  rewrite blob_index_ok by lia; obind.
  destruct (Z.eqb_spec (blob_of ((lo + hi) / 2)) b) as [Hm|Hm].
  - destruct (IH b ((lo + hi) / 2) hi) as (h & -> & Hh & Hl & Hr); [lia|lia|done|].
    exists h; repeat split; auto; lia.
  - destruct (IH b lo ((lo + hi) / 2)) as (h & -> & Hh & Hl & Hr); [lia|lia|done|].
    exists h; repeat split; auto; [lia..|]. right.
    destruct Hr as [->|]; done.
Qed.

(** The boundary found is the end of the blob's raw offsets in the MDU. *)
Lemma nextBlobBoundary_spec start cap :
  0 <= start < cap ->
  exists h, nextBlobBoundaryRawOffsetInMdu start cap B = Ok h /\ start < h <= cap /\
    (forall r, start <= r < h -> blob_of r = blob_of start) /\
    (h = cap \/ blob_of h <> blob_of start).
Proof.
  intros H; unfold nextBlobBoundaryRawOffsetInMdu.
  destruct (Z.leb_spec cap start); [lia|].
  rewrite blob_index_ok by lia; obind.
  destruct (boundary_search_spec (Z.to_nat (cap - start)) (blob_of start) start cap)
    as (h & -> & Hh & Hl & Hr); [lia|lia|done|].
  obind; rewrite blob_index_ok by lia; obind.
  assert (forall r u, blob_of u = blob_of start -> start <= r <= u -> blob_of r = blob_of start) as Hmono.
  { intros r u Hu Hru; pose proof (blob_of_mono start r); pose proof (blob_of_mono r u); lia. }
  destruct (Z.eqb_spec (blob_of h) (blob_of start)) as [He|He].
  - destruct Hr as [->|]; [|done].
    exists cap; repeat split; [lia..| |by left].
    intros r Hr'; apply (Hmono r cap He); lia.
  - exists h; repeat split; [lia..| |by right].
    intros r Hr'; apply (Hmono r (h - 1) Hl); lia.
Qed.
End Search.

(** ** The planner *)

Section Plan.
Context (fso cap B : Z) (Hcap : 0 < cap) (HB : 0 < B).
Abbreviation loc := (location fso cap B).

Lemma location_same o d :
  0 <= o -> 0 <= d -> (fso + o) mod cap + d < cap ->
  blob_of B ((fso + o) mod cap + d) = blob_of B ((fso + o) mod cap) ->
  loc (o + d) = loc o.
Proof.
  intros Ho Hd Hlt Hb; unfold location.
  pose proof (Z.div_mod (fso + o) cap ltac:(lia)) as Hdm.
  pose proof (Z.mod_pos_bound (fso + o) cap Hcap).
  assert ((fso + (o + d)) / cap = (fso + o) / cap) as -> by
    (symmetry; apply (Z.div_unique _ _ _ ((fso + o) mod cap + d)); lia).
  assert ((fso + (o + d)) mod cap = (fso + o) mod cap + d) as -> by
    (symmetry; apply (Z.mod_unique _ _ ((fso + o) / cap)); lia).
  f_equal; apply Hb.
Qed.

Lemma location_next_mdu o d :
  0 <= o -> (fso + o) mod cap + d = cap -> loc (o + d) <> loc o.
Proof.
  intros Ho Hd; unfold location.
  pose proof (Z.div_mod (fso + o) cap ltac:(lia)).
  assert ((fso + (o + d)) / cap = (fso + o) / cap + 1) as -> by
    (symmetry; apply (Z.div_unique _ _ _ 0); lia).
  intros [= E _]; lia.
Qed.

Lemma location_next_blob o d :
  0 <= o -> 0 <= d -> (fso + o) mod cap + d < cap ->
  blob_of B ((fso + o) mod cap + d) <> blob_of B ((fso + o) mod cap) ->
  loc (o + d) <> loc o.
Proof.
  intros Ho Hd Hlt Hb; unfold location.
  pose proof (Z.div_mod (fso + o) cap ltac:(lia)).
  pose proof (Z.mod_pos_bound (fso + o) cap Hcap).
  assert ((fso + (o + d)) mod cap = (fso + o) mod cap + d) as -> by
    (symmetry; apply (Z.mod_unique _ _ ((fso + o) / cap)); lia).
  intros [= _ E]; by apply Hb.
Qed.

Lemma chunk_len_spec cursor remaining :
  0 <= cursor -> 0 < remaining ->
  exists n, chunk_len fso cap B cursor remaining = Ok n /\ 0 < n <= remaining /\ n <= B /\
    (forall o, cursor <= o < cursor + n -> loc o = loc cursor) /\
    (n = remaining \/ loc (cursor + n) <> loc cursor).
Proof.
  intros Hc Hr; unfold chunk_len.
  set (a := (fso + cursor) mod cap).
  assert (0 <= a < cap) as Ha by (apply Z.mod_pos_bound; lia).
  destruct (nextBlobBoundary_spec B HB a cap Ha) as (h & -> & Hh & Hblob & Hend); obind.
  assert (h - a <= B) as Hw.
  { pose proof (blob_of_width B HB a (h - 1)) as W; rewrite (Hblob (h - 1)) in W by lia. lia. }
  set (n := Z.min _ _).
  destruct (Z.leb_spec n 0); [lia|].
  exists n; repeat split; [lia..| |].
  - intros o Ho; replace o with (cursor + (o - cursor)) by lia.
    apply location_same; [lia..| |]; fold a; [lia|]. apply Hblob; lia.
  - destruct (decide (n = remaining)) as [|Hn]; [by left|right].
    assert (n = h - a) as -> by lia. destruct Hend as [->|Hend].
    + apply location_next_mdu; fold a; lia.
    + destruct (decide (h = cap)) as [->|].
      * apply location_next_mdu; fold a; lia.
      * apply location_next_blob; fold a; [lia..|]. by replace (a + (h - a)) with h by lia.
Qed.

(** What a plan for [remaining] bytes from [cursor] guarantees. *)
Definition plan_ok (cursor remaining : Z) (cs : list FileRangeChunk) : Prop :=
  tiles cursor remaining cs /\
  Forall (fun c => rangeLen c <= B /\
                   forall o, in_chunk c o -> loc o = loc (rangeStart c)) cs /\
  (forall l1 c1 c2 l2, cs = l1 ++ c1 :: c2 :: l2 -> loc (rangeStart c2) <> loc (rangeStart c1)).

Lemma tiles_head cursor len c cs : tiles cursor len (c :: cs) -> rangeStart c = cursor.
Proof. by inversion 1. Qed.

Lemma tiles_len start len cs : tiles start len cs -> 0 <= len.
Proof. induction 1; lia. Qed.

Lemma plan_loop_spec fuel : forall cursor remaining,
  0 <= cursor -> 0 <= remaining <= Z.of_nat fuel ->
  exists cs, plan_loop fuel fso cap B cursor remaining = Ok cs /\ plan_ok cursor remaining cs.
Proof.
  induction fuel as [|fuel IH]; intros cursor remaining Hc Hr; cbn [plan_loop];
    destruct (Z.ltb_spec 0 remaining).
  1: lia.
  1,3: exists []; replace remaining with 0 by lia; repeat split;
       [constructor|constructor|intros [|? []]; discriminate].
  destruct (chunk_len_spec cursor remaining) as (n & -> & Hn & HnB & Hsame & Hend); [lia..|].
  obind.
  destruct (IH (cursor + n) (remaining - n)) as (cs & -> & Ht & Hf & Hcut); [lia..|].
  obind; exists (mkChunk cursor n :: cs); repeat split.
  - constructor; [lia|done].
  - constructor; [|done]. split; [done|]. intros o Ho; apply Hsame, Ho.
  - intros [|c l1] c1 c2 l2 [= Hc1 Hcs]; [|by apply (Hcut l1 c1 c2 l2)].
    subst; cbn [rangeStart]; rewrite (tiles_head _ _ _ _ Ht).
    destruct Hend as [->|]; [|done].
    inversion Ht as [|? ? ? ? ? Ht']; apply tiles_len in Ht'; lia.
Qed.
End Plan.

(** The arguments the planner accepts. *)
Definition valid_plan_args (fso fsize rs rl mdu : num) (B : Z) : Prop :=
  exists fso' fsize' rs' rl' mdu', fso = Num fso' /\ fsize = Num fsize' /\ rs = Num rs' /\
    rl = Num rl' /\ mdu = Num mdu' /\
    0 <= fso' /\ 0 <= rs' < fsize' /\ 0 < rl' /\ NILFS_SCALAR_BYTES <= mdu' /\ 0 < B.

Lemma capacity_positive mdu :
  0 < rawMduCapacityFromMduSize mdu <-> exists m, mdu = Num m /\ NILFS_SCALAR_BYTES <= m.
Proof.
  unfold rawMduCapacityFromMduSize, NILFS_SCALAR_BYTES, NILFS_SCALAR_PAYLOAD_BYTES.
  destruct mdu as [| | |m]; cbn;
    try (split; [lia|intros (? & ? & ?); discriminate]).
  destruct (Z.leb_spec m 0).
  - split; [lia|intros (? & [= <-] & ?); lia].
  - split; [|intros (? & [= <-] & ?)].
    + intros; exists m; split; [done|]. zdivl.
    + zdivl.
Qed.

(** Past the guards the planner is its loop. *)
Lemma plan_unfold fso fsize rs rl mdu B :
  0 <= fso -> 0 <= rs < fsize -> 0 < rl -> NILFS_SCALAR_BYTES <= mdu ->
  planNilfsFileRangeChunks (Num fso) (Num fsize) (Num rs) (Num rl) (Num mdu) B
  = plan_loop (Z.to_nat (Z.min rl (fsize - rs))) fso (rawMduCapacityFromMduSize (Num mdu)) B rs
      (Z.min rl (fsize - rs)).
Proof.
  intros ? ? ? Hm.
  assert (0 < rawMduCapacityFromMduSize (Num mdu)) as Hcap by (apply capacity_positive; eauto).
  unfold planNilfsFileRangeChunks; cbn [is_finite num_ltb num_leb num_val negb orb].
  destruct (Z.ltb_spec fso 0); [lia|]. destruct (Z.leb_spec fsize 0); [lia|].
  destruct (Z.ltb_spec rs 0); [lia|]. destruct (Z.leb_spec rl 0); [lia|].
  destruct (Z.leb_spec fsize rs); [lia|].
  by destruct (Z.leb_spec (rawMduCapacityFromMduSize (Num mdu)) 0); [lia|].
Qed.

Lemma plan_valid_ok fso fsize rs rl mdu B :
  0 <= fso -> 0 <= rs < fsize -> 0 < rl -> NILFS_SCALAR_BYTES <= mdu -> 0 < B ->
  exists cs,
    planNilfsFileRangeChunks (Num fso) (Num fsize) (Num rs) (Num rl) (Num mdu) B = Ok cs /\
    plan_ok fso (rawMduCapacityFromMduSize (Num mdu)) B rs (Z.min rl (fsize - rs)) cs.
Proof.
  intros; rewrite plan_unfold by done.
  apply plan_loop_spec; [apply capacity_positive; eauto|lia..].
Qed.

(** C27: for every accepted range the planner returns chunks, in order, that tile
    the requested range cut at the end of the file; every chunk has at least one
    and at most [blobSizeBytes] bytes, and all its bytes lie in one MDU and one blob. *)
Theorem plan_tiles_one_blob_each fso fsize rs rl mdu B :
  0 <= fso -> 0 <= rs < fsize -> 0 < rl -> NILFS_SCALAR_BYTES <= mdu -> 0 < B ->
  exists cs,
    planNilfsFileRangeChunks (Num fso) (Num fsize) (Num rs) (Num rl) (Num mdu) B = Ok cs /\
    tiles rs (Z.min rl (fsize - rs)) cs /\
    Forall (fun c => rangeLen c <= B /\ forall o, in_chunk c o ->
              location fso (rawMduCapacityFromMduSize (Num mdu)) B o
              = location fso (rawMduCapacityFromMduSize (Num mdu)) B (rangeStart c)) cs.
Proof. intros; destruct (plan_valid_ok fso fsize rs rl mdu B) as (cs & ? & ? & ? & _); eauto. Qed.

Lemma plan_tiles_one_blob_each_witness :
  exists cs, planNilfsFileRangeChunks (Num 10) (Num 200) (Num 0) (Num 150) (Num 128) 64 = Ok cs /\
    tiles 0 150 cs /\
    Forall (fun c => rangeLen c <= 64 /\ forall o, in_chunk c o ->
              location 10 124 64 o = location 10 124 64 (rangeStart c)) cs.
Proof.
  apply (plan_tiles_one_blob_each 10 200 0 150 128 64); unfold NILFS_SCALAR_BYTES; lia.
Defined.

(** The plan has no unnecessary cut: two consecutive chunks start in
    different MDUs or different blobs. *)
Theorem plan_cuts_only_at_boundaries fso fsize rs rl mdu B cs l1 c1 c2 l2 :
  planNilfsFileRangeChunks (Num fso) (Num fsize) (Num rs) (Num rl) (Num mdu) B = Ok cs ->
  0 <= fso -> 0 <= rs < fsize -> 0 < rl -> NILFS_SCALAR_BYTES <= mdu -> 0 < B ->
  cs = l1 ++ c1 :: c2 :: l2 ->
  location fso (rawMduCapacityFromMduSize (Num mdu)) B (rangeStart c2)
  <> location fso (rawMduCapacityFromMduSize (Num mdu)) B (rangeStart c1).
Proof.
  intros H; intros; destruct (plan_valid_ok fso fsize rs rl mdu B) as (cs' & E & _ & _ & Hcut);
    [done..|]. rewrite H in E; injection E as <-; eauto.
Qed.

Lemma plan_cuts_only_at_boundaries_witness :
  location 10 124 64 52 <> location 10 124 64 0.
Proof.
  apply (plan_cuts_only_at_boundaries 10 200 0 150 128 64
           [mkChunk 0 52; mkChunk 52 62; mkChunk 114 36] [] (mkChunk 0 52) (mkChunk 52 62)
           [mkChunk 114 36]); unfold NILFS_SCALAR_BYTES; first [lia|reflexivity].
Defined.

(** The planner succeeds on exactly the valid arguments: every other input,
    a non-finite or negative number, an empty file or range, a start at or past
    the end of the file, an MDU smaller than a scalar or a blob size that is not
    positive, is an error. *)
Theorem plan_succeeds_iff_valid fso fsize rs rl mdu B :
  is_ok (planNilfsFileRangeChunks fso fsize rs rl mdu B) = true
  <-> valid_plan_args fso fsize rs rl mdu B.
Proof.
  split.
  - unfold planNilfsFileRangeChunks.
    destruct fso as [| | |fso], fsize as [| | |fsize], rs as [| | |rs], rl as [| | |rl]; try discriminate.
    all: cbn [is_finite num_ltb num_leb num_val negb orb]; repeat case_on_goal; try discriminate.
    intros Hok; zbool.
    destruct (proj1 (capacity_positive mdu)) as (m & -> & Hm); [done|].
    assert (0 < B) as HB.
    { destruct (Z.to_nat (Z.min rl (fsize - rs))) as [|n] eqn:En; [lia|].
      revert Hok; cbn [plan_loop].
      destruct (Z.ltb_spec 0 (Z.min rl (fsize - rs))); [|lia].
      unfold chunk_len, nextBlobBoundaryRawOffsetInMdu, rawOffsetToEncodedBlobIndex.
      pose proof (Z.mod_pos_bound (fso + rs) (rawMduCapacityFromMduSize (Num m))) as Hmod.
      destruct (Z.leb_spec (rawMduCapacityFromMduSize (Num m))
                  ((fso + rs) mod rawMduCapacityFromMduSize (Num m))); [lia|].
      destruct (Z.leb_spec B 0); [discriminate|done]. }
    exists fso, fsize, rs, rl, m; repeat split; lia.
  - intros (fso' & fsize' & rs' & rl' & m & -> & -> & -> & -> & -> & ? & ? & ? & ? & ?).
    destruct (plan_valid_ok fso' fsize' rs' rl' m B) as (cs & -> & _); done.
Qed.
