(* ===== verification/Bytes.v ===== *)
(** * Byte arrays

    A [Uint8Array] is the list of its elements, integers in [0, 256).  Offsets
    are integers; [slice], [subarray], [set] and the [DataView] readers are the
    operations the sources use. *)
From S2P Require Import Prelude JsString TransportTypes Effects.
#[local] Open Scope Z_scope.

Definition bytes := list Z.
Definition is_byte (b : Z) : Prop := 0 <= b < 256.

(** The element at an index, 0 where the array has none. *)
Definition znth (l : bytes) (i : Z) : Z := nth (Z.to_nat i) l 0.

(** [a.slice(s, e)] and [a.subarray(s, e)] for [0 <= s] *)
Definition slice (s e : Z) (l : bytes) : bytes := take (Z.to_nat (e - s)) (drop (Z.to_nat s) l).

(** [new Uint8Array(n)] *)
Definition zeros (n : Z) : bytes := replicate (Z.to_nat n) 0.

(** [buf.set(chunk, off)]: a RangeError unless the chunk fits. *)
Definition set_bytes (buf : bytes) (off : Z) (chunk : bytes) : outcome bytes :=
  if (off <? 0) || (zlen buf <? off + zlen chunk)
  then mthrow (JsError "RangeError" "offset is out of bounds")
  else mret (take (Z.to_nat off) buf ++ chunk ++ drop (Z.to_nat (off + zlen chunk)) buf).

(** Little-endian reads of [n] bytes, and the [DataView] getters built on them. *)
Fixpoint le_combine (l : bytes) : Z :=
  match l with [] => 0 | b :: l' => b + 256 * le_combine l' end.
Fixpoint le_split (n : nat) (z : Z) : bytes :=
  match n with O => [] | S n => z mod 256 :: le_split n (z / 256) end.
Definition be_combine (l : bytes) : Z := fold_left (fun a b => 256 * a + b) l 0.
Definition get_le (n off : Z) (l : bytes) : Z := le_combine (slice off (off + n) l).
Definition getUint32LE (off : Z) (l : bytes) : Z := get_le 4 off l.
Definition getBigUint64LE (off : Z) (l : bytes) : Z := get_le 8 off l.
Definition getUint32BE (off : Z) (l : bytes) : Z := be_combine (slice off (off + 4) l).

(** ** Lengths and elements *)

Lemma zlen_slice s e l : 0 <= s -> zlen (slice s e l) = Z.max 0 (Z.min e (zlen l) - s).
Proof.
  intros; unfold slice, zlen; rewrite length_take, length_drop; lia.
Qed.

Lemma zlen_zeros n : 0 <= n -> zlen (zeros n) = n.
Proof. apply zlen_replicate. Qed.

Lemma znth_out l i : zlen l <= i -> znth l i = 0.
Proof. intros; unfold znth; apply nth_overflow; unfold zlen in *; lia. Qed.

Lemma znth_app l k i :
  0 <= i -> znth (l ++ k) i = if i <? zlen l then znth l i else znth k (i - zlen l).
Proof.
  intros; unfold znth, zlen; destruct (Z.ltb_spec i (Z.of_nat (length l))).
  - apply app_nth1; lia.
  - rewrite app_nth2 by lia; f_equal; lia.
Qed.

Lemma znth_take l n i : 0 <= i < n -> znth (take (Z.to_nat n) l) i = znth l i.
Proof.
  intros; unfold znth; rewrite <- (take_drop (Z.to_nat n) l) at 2.
  destruct (decide (Z.to_nat i < length (take (Z.to_nat n) l))%nat).
  - by rewrite app_nth1.
  - rewrite length_take in *; rewrite !nth_overflow; [done| |]; rewrite ?length_app, ?length_take, ?length_drop; lia.
Qed.

Lemma znth_drop l n i : 0 <= n -> 0 <= i -> znth (drop (Z.to_nat n) l) i = znth l (n + i).
Proof.
  intros; unfold znth; rewrite nth_skipn; f_equal; lia.
Qed.

Lemma znth_slice l s e i : 0 <= s -> 0 <= i < e - s -> znth (slice s e l) i = znth l (s + i).
Proof. intros; unfold slice; rewrite znth_take, znth_drop by lia; done. Qed.

Lemma znth_zeros n i : znth (zeros n) i = 0.
Proof.
  unfold znth, zeros; generalize (Z.to_nat i); induction (Z.to_nat n) as [|m IH]; intros [|j]; cbn; auto.
Qed.

Lemma bytes_eq l k :
  zlen l = zlen k -> (forall i, 0 <= i < zlen l -> znth l i = znth k i) -> l = k.
Proof.
  intros Hlen H; apply (nth_ext _ _ 0 0); [unfold zlen in Hlen; lia|].
  intros n Hn; specialize (H (Z.of_nat n)); unfold znth, zlen in H.
  rewrite Nat2Z.id in H; apply H; lia.
Qed.

Lemma set_bytes_ok buf off chunk :
  0 <= off -> off + zlen chunk <= zlen buf ->
  exists b, set_bytes buf off chunk = Ok b /\ zlen b = zlen buf /\
    forall i, 0 <= i ->
      znth b i = if (off <=? i) && (i <? off + zlen chunk) then znth chunk (i - off) else znth buf i.
Proof.
  intros Hoff Hfit; unfold set_bytes.
  destruct (Z.ltb_spec off 0); [lia|]; destruct (Z.ltb_spec (zlen buf) (off + zlen chunk)); [lia|].
  eexists; split; [done|]. pose proof (zlen_nonneg chunk); split.
  - rewrite !zlen_app, zlen_take, zlen_drop by lia; lia.
  - intros i Hi; rewrite znth_app, zlen_take by lia; rewrite Z.min_l by lia.
    destruct (Z.ltb_spec i off); destruct (Z.leb_spec off i); cbn [andb]; try lia.
    + apply znth_take; lia.
    + rewrite znth_app by lia.
      destruct (Z.ltb_spec (i - off) (zlen chunk)); destruct (Z.ltb_spec i (off + zlen chunk)); try lia.
      rewrite znth_drop by lia; f_equal; lia.
Qed.

(** ** Little-endian integers *)

Lemma le_combine_split n : forall z, 0 <= z < 256 ^ Z.of_nat n -> le_combine (le_split n z) = z.
Proof.
  induction n as [|n IH]; intros z Hz; cbn [le_split le_combine].
  - change (256 ^ Z.of_nat 0) with 1 in Hz; lia.
  - rewrite IH; [zdivl|].
    rewrite Nat2Z.inj_succ, Z.pow_succ_r in Hz by lia.
    split; [apply Z.div_pos; lia|apply Z.div_lt_upper_bound; lia].
Qed.
Lemma zlen_le_split n z : zlen (le_split n z) = Z.of_nat n.
Proof. revert z; induction n as [|n IH]; intros z; cbn [le_split]; [done|]. rewrite zlen_cons, IH; lia. Qed.

#[global] Arguments le_split : simpl never.

(** ** Slices and overwriting *)

(** [buf[off..off + chunk.len()].copy_from_slice(chunk)], in range. *)
Definition splice (off : Z) (chunk buf : bytes) : bytes :=
  take (Z.to_nat off) buf ++ chunk ++ drop (Z.to_nat (off + zlen chunk)) buf.

Lemma set_bytes_splice buf off chunk :
  0 <= off -> off + zlen chunk <= zlen buf -> set_bytes buf off chunk = Ok (splice off chunk buf).
Proof.
  intros; unfold set_bytes.
  destruct (Z.ltb_spec off 0); [lia|]; destruct (Z.ltb_spec (zlen buf) (off + zlen chunk)); [lia|done].
Qed.

Lemma splice_spec off chunk buf :
  0 <= off -> off + zlen chunk <= zlen buf ->
  zlen (splice off chunk buf) = zlen buf /\
  forall i, 0 <= i ->
    znth (splice off chunk buf) i =
    if (off <=? i) && (i <? off + zlen chunk) then znth chunk (i - off) else znth buf i.
Proof.
  intros Ho Hf; destruct (set_bytes_ok buf off chunk Ho Hf) as (b & E & Hs).
  rewrite set_bytes_splice in E by done; by injection E as <-.
Qed.

Lemma slice_splice_same off chunk buf :
  0 <= off -> off + zlen chunk <= zlen buf ->
  slice off (off + zlen chunk) (splice off chunk buf) = chunk.
Proof.
  intros Ho Hf; destruct (splice_spec off chunk buf Ho Hf) as [Hl Hn]; pose proof (zlen_nonneg chunk).
  apply bytes_eq; rewrite zlen_slice by done; [lia|].
  intros i Hi; rewrite znth_slice, Hn by lia.
  destruct (Z.leb_spec off (off + i)), (Z.ltb_spec (off + i) (off + zlen chunk)); try lia.
  cbn [andb]; f_equal; lia.
Qed.

Lemma slice_splice_other s e off chunk buf :
  0 <= off -> off + zlen chunk <= zlen buf -> 0 <= s -> e <= off \/ off + zlen chunk <= s ->
  slice s e (splice off chunk buf) = slice s e buf.
Proof.
  intros Ho Hf Hs Hd; destruct (splice_spec off chunk buf Ho Hf) as [Hl Hn].
  apply bytes_eq; rewrite !zlen_slice by done; [lia|].
  intros i Hi; rewrite !znth_slice, Hn by lia.
  destruct (Z.leb_spec off (s + i)), (Z.ltb_spec (s + i) (off + zlen chunk)); try lia; done.
Qed.

Lemma slice_slice a b s e l :
  0 <= s -> 0 <= a -> b <= e - s -> slice a b (slice s e l) = slice (s + a) (s + b) l.
Proof.
  intros Hs Ha Hb; apply bytes_eq; rewrite !zlen_slice by lia; [lia|].
  intros i Hi; rewrite !znth_slice by lia; f_equal; lia.
Qed.

Lemma slice_app_l s e l k : 0 <= s -> e <= zlen l -> slice s e (l ++ k) = slice s e l.
Proof.
  intros Hs He; pose proof (zlen_nonneg k); apply bytes_eq; rewrite !zlen_slice, ?zlen_app by lia; [lia|].
  intros i Hi; rewrite !znth_slice, znth_app by lia. destruct (Z.ltb_spec (s + i) (zlen l)); [done|lia].
Qed.

Lemma slice_app_r s e l k : zlen l <= s -> slice s e (l ++ k) = slice (s - zlen l) (e - zlen l) k.
Proof.
  intros Hs; pose proof (zlen_nonneg l); apply bytes_eq; rewrite !zlen_slice, ?zlen_app by lia; [lia|].
  intros i Hi; rewrite !znth_slice, znth_app by lia. destruct (Z.ltb_spec (s + i) (zlen l)); [lia|].
  f_equal; lia.
Qed.

Lemma slice_full l e : zlen l <= e -> slice 0 e l = l.
Proof.
  intros He; pose proof (zlen_nonneg l); apply bytes_eq; rewrite !zlen_slice by lia; [lia|].
  intros i Hi; by rewrite znth_slice by lia.
Qed.

Lemma le_split_combine l : Forall is_byte l -> le_split (length l) (le_combine l) = l.
Proof.
  induction 1 as [|b l Hb Hl IH]; cbn [length le_combine]; [done|].
  unfold le_split; fold le_split.
  unfold is_byte in Hb. replace ((b + 256 * le_combine l) mod 256) with b by zdivl.
  replace ((b + 256 * le_combine l) / 256) with (le_combine l) by zdivl. by rewrite IH.
Qed.

Lemma le_combine_bound l : Forall is_byte l -> 0 <= le_combine l < 256 ^ zlen l.
Proof.
  induction 1 as [|b l Hb Hl IH]; cbn [le_combine]; [done|].
  rewrite zlen_cons, Z.pow_add_r by (pose proof (zlen_nonneg l); lia).
  change (256 ^ 1) with 256; unfold is_byte in Hb; lia.
Qed.

Lemma zeros_bytes n : Forall is_byte (zeros n).
Proof. unfold zeros, is_byte; apply Forall_replicate; lia. Qed.
