(* ===== verification/Text.v ===== *)
(** * Text as UTF-16 code units, and UTF-8

    Where characters beyond Latin-1 matter a JavaScript string is the list of its
    UTF-16 code units.  [TextDecoder] and [TextEncoder] follow the WHATWG
    encoding standard, replacement characters and byte order mark included. *)
From S2P Require Import Prelude JsString TransportTypes Effects Bytes.
#[local] Open Scope Z_scope.

Definition units := list Z.

(** A Latin-1 string as code units. *)
Definition units_of (s : string) : units := map code (chars s).

(** ** The UTF-8 decoder *)

(** [pending] bytes of a sequence are still due; the next must be in [lo, hi]. *)
Record utf8_state := mkUtf8 { pending : nat; code_point : Z; lo_byte : Z; hi_byte : Z }.
Definition utf8_init : utf8_state := mkUtf8 0 0 128 191.

Definition utf8_start (b : Z) : list Z * utf8_state :=
  if b <=? 127 then ([b], utf8_init)
  else if (194 <=? b) && (b <=? 223) then ([], mkUtf8 1 (b - 192) 128 191)
  else if (224 <=? b) && (b <=? 239) then
    ([], mkUtf8 2 (b - 224) (if b =? 224 then 160 else 128) (if b =? 237 then 159 else 191))
  else if (240 <=? b) && (b <=? 244) then
    ([], mkUtf8 3 (b - 240) (if b =? 240 then 144 else 128) (if b =? 244 then 143 else 191))
  else ([65533], utf8_init).

Definition utf8_step (st : utf8_state) (b : Z) : list Z * utf8_state :=
  match pending st with
  | O => utf8_start b
  | S k =>
      if (lo_byte st <=? b) && (b <=? hi_byte st) then
        let cp := 64 * code_point st + (b - 128) in
        match k with
        | O => ([cp], utf8_init)
        | S _ => ([], mkUtf8 k cp 128 191)
        end
      else let '(out, st') := utf8_start b in (65533 :: out, st')
  end.

Fixpoint utf8_run (st : utf8_state) (l : bytes) : list Z :=
  match l with
  | [] => match pending st with O => [] | S _ => [65533] end
  | b :: l' => let '(out, st') := utf8_step st b in out ++ utf8_run st' l'
  end.

Definition utf16_of_code_point (cp : Z) : units :=
  if cp <? 65536 then [cp]
  else [55296 + (cp - 65536) / 1024; 56320 + (cp - 65536) mod 1024].

(** [new TextDecoder().decode(bytes)]; a leading byte order mark is dropped. *)
Definition TextDecoder_decode (l : bytes) : units :=
  let cps := utf8_run utf8_init l in
  let cps := match cps with cp :: r => if cp =? 65279 then r else cps | [] => [] end in
  concat (map utf16_of_code_point cps).

(** ** The UTF-8 encoder *)

Definition utf8_of_code_point (cp : Z) : bytes :=
  if cp <=? 127 then [cp]
  else if cp <=? 2047 then [192 + cp / 64; 128 + cp mod 64]
  else if cp <=? 65535 then [224 + cp / 4096; 128 + cp / 64 mod 64; 128 + cp mod 64]
  else [240 + cp / 262144; 128 + cp / 4096 mod 64; 128 + cp / 64 mod 64; 128 + cp mod 64].

Definition is_high (u : Z) : bool := (55296 <=? u) && (u <=? 56319).
Definition is_low (u : Z) : bool := (56320 <=? u) && (u <=? 57343).

(** Code units to scalar values; a lone surrogate becomes U+FFFD. *)
Fixpoint scalars_of_units (l : units) : list Z :=
  match l with
  | [] => []
  | u :: r =>
      if is_high u then
        match r with
        | v :: r' => if is_low v then (65536 + (u - 55296) * 1024 + (v - 56320)) :: scalars_of_units r'
                     else 65533 :: scalars_of_units r
        | [] => [65533]
        end
      else (if is_low u then 65533 else u) :: scalars_of_units r
  end.

(** [new TextEncoder().encode(s)] *)
Definition TextEncoder_encode (l : units) : bytes :=
  concat (map utf8_of_code_point (scalars_of_units l)).

(** ** [String.prototype.trim] on code units *)

Definition is_ws_unit (u : Z) : bool :=
  ((9 <=? u) && (u <=? 13)) || (u =? 32) || (u =? 160) || (u =? 5760) ||
  ((8192 <=? u) && (u <=? 8202)) || (u =? 8232) || (u =? 8233) || (u =? 8239) ||
  (u =? 8287) || (u =? 12288) || (u =? 65279).

Fixpoint trim_start_units (l : units) : units :=
  match l with
  | [] => []
  | u :: l' => if is_ws_unit u then trim_start_units l' else l
  end.
Definition trim_units (l : units) : units := rev (trim_start_units (rev (trim_start_units l))).

Example decode_replaces : TextDecoder_decode [239; 187; 191; 65; 195; 169; 195; 40; 240; 159; 152; 128]
  = [65; 233; 65533; 40; 55357; 56832].
Proof. reflexivity. Qed.

(** ** Facts *)

Definition ascii_unit (u : Z) : Prop := 0 <= u < 128.

Lemma utf8_run_ascii l k : Forall ascii_unit l -> utf8_run utf8_init (l ++ k) = l ++ utf8_run utf8_init k.
Proof.
  induction 1 as [|b l [Hlo Hhi] _ IH]; cbn [app utf8_run]; [done|].
  unfold utf8_step, utf8_start; cbn [pending utf8_init].
  destruct (Z.leb_spec b 127); [|lia]; cbn [app]; by rewrite IH.
Qed.

Lemma units_of_scalars_ascii l : Forall ascii_unit l -> concat (map utf16_of_code_point l) = l.
Proof.
  induction 1 as [|u l [Hlo Hhi] _ IH]; cbn [map concat]; [done|].
  unfold utf16_of_code_point at 1; destruct (Z.ltb_spec u 65536); [|lia]; cbn [app]; by rewrite IH.
Qed.

Lemma TextDecoder_decode_ascii l : Forall ascii_unit l -> TextDecoder_decode l = l.
Proof.
  intros Hl; unfold TextDecoder_decode.
  assert (utf8_run utf8_init l = l) as ->.
  { rewrite <- (app_nil_r l) at 1; rewrite utf8_run_ascii by done; apply app_nil_r. }
  destruct Hl as [|u l [Hlo Hhi] Hl]; [done|].
  destruct (Z.eqb_spec u 65279); [lia|]. apply units_of_scalars_ascii; by repeat constructor.
Qed.

Lemma TextEncoder_encode_ascii l : Forall ascii_unit l -> TextEncoder_encode l = l.
Proof.
  unfold TextEncoder_encode; induction 1 as [|u l [Hlo Hhi] _ IH]; [done|].
  cbn [scalars_of_units]; unfold is_high, is_low.
  destruct (Z.leb_spec 55296 u), (Z.leb_spec 56320 u); try lia; cbn [andb map concat].
  unfold utf8_of_code_point at 1; destruct (Z.leb_spec u 127); [|lia]; cbn [app]; by rewrite IH.
Qed.

Lemma trim_start_units_spec l :
  exists p, l = p ++ trim_start_units l /\ Forall (fun u => is_ws_unit u = true) p /\
    match trim_start_units l with [] => True | u :: _ => is_ws_unit u = false end.
Proof.
  induction l as [|u l (p & Heq & Hp & Hh)]; [by exists []|]; cbn [trim_start_units].
  destruct (is_ws_unit u) eqn:Hu; [|by exists []].
  exists (u :: p); cbn [app]; split; [congruence|]; split; [by constructor|done].
Qed.

(** Trimming drops white space at both ends only. *)
Lemma trim_units_spec l :
  exists p q, l = p ++ trim_units l ++ q /\
    Forall (fun u => is_ws_unit u = true) p /\ Forall (fun u => is_ws_unit u = true) q /\
    match trim_units l with [] => True | u :: _ => is_ws_unit u = false end /\
    match rev (trim_units l) with [] => True | u :: _ => is_ws_unit u = false end.
Proof.
  unfold trim_units; set (m := trim_start_units l).
  destruct (trim_start_units_spec l) as (p & Hl & Hp & Hh); fold m in Hl, Hh.
  destruct (trim_start_units_spec (rev m)) as (q & Hm & Hq & Ht).
  exists p, (rev q); repeat split.
  - rewrite <- rev_app_distr, <- Hm, rev_involutive; done.
  - done.
  - by apply Forall_rev.
  - assert (m = rev (trim_start_units (rev m)) ++ rev q) as E
      by (rewrite <- rev_app_distr, <- Hm; by rewrite rev_involutive).
    destruct (rev (trim_start_units (rev m))) as [|u r]; [done|].
    rewrite E in Hh; exact Hh.
  - rewrite rev_involutive; exact Ht.
Qed.

Lemma trim_units_Forall (P : Z -> Prop) l : Forall P l -> Forall P (trim_units l).
Proof.
  destruct (trim_units_spec l) as (p & q & Hl & _); intros H; rewrite Hl in H.
  by apply Forall_app in H as [_ H]; apply Forall_app in H as [H _].
Qed.

Lemma trim_units_id l :
  match l with [] => True | u :: _ => is_ws_unit u = false end ->
  match rev l with [] => True | u :: _ => is_ws_unit u = false end ->
  trim_units l = l.
Proof.
  intros Hh Ht; unfold trim_units.
  assert (trim_start_units l = l) as ->.
  { destruct l as [|u l]; [done|]; cbn [trim_start_units]; by rewrite Hh. }
  assert (trim_start_units (rev l) = rev l) as ->; [|apply rev_involutive].
  destruct (rev l) as [|u k]; [done|]; cbn [trim_start_units]; by rewrite Ht.
Qed.

Lemma trim_units_idemp l : trim_units (trim_units l) = trim_units l.
Proof.
  destruct (trim_units_spec l) as (p & q & _ & _ & _ & Hh & Ht); by apply trim_units_id.
Qed.

(** ** UTF-8 round trip *)

Definition is_scalar (cp : Z) : Prop := 0 <= cp < 55296 \/ 57344 <= cp < 1114112.

(** Decide the comparisons of the decoder by arithmetic. *)
Ltac utf8_compare :=
  repeat match goal with
  | |- context [?a <=? ?b] => first
      [ replace (a <=? b) with true by (symmetry; apply Z.leb_le; zdivl)
      | replace (a <=? b) with false by (symmetry; apply Z.leb_gt; zdivl) ]
  end; cbn [andb].

Lemma utf8_run_code_point cp l :
  is_scalar cp -> utf8_run utf8_init (utf8_of_code_point cp ++ l) = cp :: utf8_run utf8_init l.
Proof.
  intros Hcp; unfold utf8_of_code_point, is_scalar in *.
  destruct (Z.leb_spec cp 127); [|destruct (Z.leb_spec cp 2047); [|destruct (Z.leb_spec cp 65535)]];
    cbn [app utf8_run].
  all: unfold utf8_step at 1; cbn [pending utf8_init]; unfold utf8_start; utf8_compare.
  - done.
  - cbn [app utf8_run]; unfold utf8_step at 1; cbn [pending lo_byte hi_byte code_point]; utf8_compare.
    cbn [app]; f_equal; zdivl.
  - cbn [app utf8_run]; unfold utf8_step at 1; cbn [pending lo_byte hi_byte code_point].
    destruct (Z.eqb_spec (224 + cp / 4096) 224); destruct (Z.eqb_spec (224 + cp / 4096) 237); utf8_compare;
    cbn [app]; unfold utf8_step at 1; cbn [pending lo_byte hi_byte code_point]; utf8_compare;
    cbn [app]; f_equal; zdivl.
  - cbn [app utf8_run]; unfold utf8_step at 1; cbn [pending lo_byte hi_byte code_point].
    destruct (Z.eqb_spec (240 + cp / 262144) 240); destruct (Z.eqb_spec (240 + cp / 262144) 244); utf8_compare;
    cbn [app]; unfold utf8_step at 1; cbn [pending lo_byte hi_byte code_point]; utf8_compare;
    cbn [app]; unfold utf8_step at 1; cbn [pending lo_byte hi_byte code_point]; utf8_compare;
    cbn [app]; f_equal; zdivl.
Qed.

(** The decoder reads back any sequence of scalar values. *)
Lemma utf8_round_trip cps :
  Forall is_scalar cps -> utf8_run utf8_init (concat (map utf8_of_code_point cps)) = cps.
Proof.
  induction 1 as [|cp cps Hcp _ IH]; [done|]; cbn [map concat].
  rewrite utf8_run_code_point by done; by rewrite IH.
Qed.
