(* ===== verification/NilfsCodec.v ===== *)
(** * The MDU scalar encoding (FileSharder.tsx, nilfsOpfsFetch.ts)

    Raw bytes are packed 31 to a 32-byte scalar so that every scalar is a
    canonical field element; the last, shorter chunk is right-aligned in its
    scalar.  [encodeToMdu] writes the encoding, [decodeRawSliceFromMdu] reads a
    slice of the raw bytes back out of it. *)
From S2P Require Import Prelude JsString TransportTypes Effects Bytes RangeChunker.
#[local] Open Scope Z_scope.

Definition MDU_SIZE_BYTES : Z := 8 * 1024 * 1024.
Definition NILFS_SCALARS_PER_MDU : Z := MDU_SIZE_BYTES / NILFS_SCALAR_BYTES.
Definition RAW_MDU_CAPACITY : Z := NILFS_SCALARS_PER_MDU * NILFS_SCALAR_PAYLOAD_BYTES.

(** The [while] loop of [encodeToMdu]. *)
Fixpoint encode_loop (fuel : nat) (MDU_SIZE : Z) (rawData mdu : bytes) (readOffset writeOffset : Z)
    : outcome bytes :=
  if (readOffset <? zlen rawData) && (writeOffset <? MDU_SIZE) then
    match fuel with
    | O => mthrow fuel_exhausted
    | S fuel =>
        let chunkLen := Z.min NILFS_SCALAR_PAYLOAD_BYTES (zlen rawData - readOffset) in
        let chunk := slice readOffset (readOffset + chunkLen) rawData in
        let pad := NILFS_SCALAR_BYTES - chunkLen in
        mdu' ← set_bytes mdu (writeOffset + pad) chunk;
        encode_loop fuel MDU_SIZE rawData mdu' (readOffset + chunkLen)
          (writeOffset + NILFS_SCALAR_BYTES)
    end
  else mret mdu.

(** [encodeToMdu] for an MDU of a given size; the source's size is [MDU_SIZE_BYTES]. *)
Definition encodeToMduAt (MDU_SIZE : Z) (rawData : bytes) : outcome bytes :=
  encode_loop (length rawData) MDU_SIZE rawData (zeros MDU_SIZE) 0 0.
Definition encodeToMdu (rawData : bytes) : outcome bytes := encodeToMduAt MDU_SIZE_BYTES rawData.

(** The [while (remaining > 0)] loop of [decodeRawSliceFromMdu]. *)
Fixpoint decode_loop (fuel : nat) (mdu : bytes) (rem fullScalars lastPartialLen : Z)
    (out : bytes) (cursor remaining outOffset : Z) : outcome bytes :=
  if 0 <? remaining then
    match fuel with
    | O => mthrow fuel_exhausted
    | S fuel =>
        let scalarIdx := cursor / NILFS_SCALAR_PAYLOAD_BYTES in
        let offsetInScalar := cursor mod NILFS_SCALAR_PAYLOAD_BYTES in
        let isPartialScalar := negb (rem =? 0) && (scalarIdx =? fullScalars) in
        let scalarLen := if isPartialScalar then lastPartialLen else NILFS_SCALAR_PAYLOAD_BYTES in
        let available := scalarLen - offsetInScalar in
        let take := Z.min remaining available in
        let scalarBase := scalarIdx * NILFS_SCALAR_BYTES in
        let payloadStart :=
          scalarBase + (if isPartialScalar then NILFS_SCALAR_BYTES - lastPartialLen else 1) in
        let encStart := payloadStart + offsetInScalar in
        out' ← set_bytes out outOffset (slice encStart (encStart + take) mdu);
        decode_loop fuel mdu rem fullScalars lastPartialLen out'
          (cursor + take) (remaining - take) (outOffset + take)
    end
  else mret out.

Definition decodeRawSliceFromMdu (mdu : bytes) (rawStart rawLen rawValidLen : Z) : outcome bytes :=
  if rawLen <=? 0 then mret []
  else if (rawStart <? 0) || (rawLen <? 0) then mthrow (Error "invalid raw range")
  else if rawValidLen <? rawStart + rawLen then mthrow (Error "raw range exceeds valid data length")
  else
    let out := zeros rawLen in
    let rem := rawValidLen mod NILFS_SCALAR_PAYLOAD_BYTES in
    let fullScalars := rawValidLen / NILFS_SCALAR_PAYLOAD_BYTES in
    let lastPartialLen := if rem =? 0 then NILFS_SCALAR_PAYLOAD_BYTES else rem in
    decode_loop (Z.to_nat rawLen) mdu rem fullScalars lastPartialLen out rawStart rawLen 0.

Example encode_small :
  encodeToMduAt 64 (repeat 7 31 ++ [1; 2]) = Ok (0 :: repeat 7 31 ++ repeat 0 30 ++ [1; 2]).
Proof. reflexivity. Qed.
Example decode_small :
  decodeRawSliceFromMdu (0 :: repeat 7 31 ++ repeat 0 30 ++ [1; 2]) 30 3 33 = Ok [7; 1; 2].
Proof. reflexivity. Qed.

(** ** Where the encoding puts raw byte [r] of [n] *)

Definition enc_pos (n r : Z) : Z :=
  32 * (r / 31) + (if negb (n mod 31 =? 0) && (r / 31 =? n / 31) then 32 - n mod 31 else 1) + r mod 31.

Ltac codec_unfold := unfold NILFS_SCALAR_BYTES, NILFS_SCALAR_PAYLOAD_BYTES in *.

(** The bytes of one scalar stay together. *)
Lemma enc_pos_shift n r d :
  0 <= r -> 0 <= d -> r mod 31 + d < 31 -> enc_pos n (r + d) = enc_pos n r + d.
Proof.
  intros Hr Hd Hlt; unfold enc_pos.
  assert ((r + d) / 31 = r / 31) as -> by zdivl.
  assert ((r + d) mod 31 = r mod 31 + d) as -> by zdivl. lia.
Qed.

Lemma enc_pos_bounds n r :
  0 <= r < n -> 32 * (r / 31) < enc_pos n r < 32 * (r / 31) + 32.
Proof.
  intros H; unfold enc_pos.
  destruct (Z.eqb_spec (n mod 31) 0); cbn [negb andb]; [zdivl|].
  destruct (Z.eqb_spec (r / 31) (n / 31)); zdivl.
Qed.

Section Encode.
Context (MDU_SIZE : Z) (HM : 0 <= MDU_SIZE) (H32 : (32 | MDU_SIZE)).
Context (raw : bytes).
Abbreviation rlen := (zlen raw).

(** After [k] scalars: the bytes read so far are in place, the rest is zero. *)
Definition encoded_upto (mdu : bytes) (r w : Z) : Prop :=
  zlen mdu = MDU_SIZE /\
  (forall i, 0 <= i < r -> znth mdu (enc_pos rlen i) = znth raw i) /\
  (forall i, w <= i -> znth mdu i = 0) /\
  (forall s, 0 <= s -> znth mdu (32 * s) = 0).

Lemma encode_loop_spec fuel : forall mdu k,
  0 <= k -> rlen - Z.min rlen (31 * k) <= Z.of_nat fuel ->
  32 * k <= MDU_SIZE -> encoded_upto mdu (Z.min rlen (31 * k)) (32 * k) ->
  exists mdu', encode_loop fuel MDU_SIZE raw mdu (Z.min rlen (31 * k)) (32 * k) = Ok mdu' /\
    encoded_upto mdu' (Z.min rlen (MDU_SIZE / 32 * 31)) MDU_SIZE.
Proof.
  destruct H32 as [q Hq]. assert (MDU_SIZE / 32 = q) as Hdiv by zdivl.
  induction fuel as [|fuel IH]; intros mdu k Hk Hfuel Hw (Hlen & Hput & Hzero & Hhead);
    cbn [encode_loop];
    destruct (Z.ltb_spec (Z.min rlen (31 * k)) rlen); destruct (Z.ltb_spec (32 * k) MDU_SIZE);
    cbn [andb]; try lia.
  all: try (exists mdu; split; [done|]; rewrite Hdiv; repeat split; [done| |intros; apply Hzero; lia|done];
            intros; apply Hput; lia).
  codec_unfold. rewrite Z.min_r in * by lia. set (c := Z.min 31 (rlen - 31 * k)).
  assert (zlen (slice (31 * k) (31 * k + c) raw) = c) as Hc by (rewrite zlen_slice; lia).
  destruct (set_bytes_ok mdu (32 * k + (32 - c)) (slice (31 * k) (31 * k + c) raw))
    as (mdu' & E & Hlen' & Hnth); [lia..|].
  rewrite E; obind.
  replace (31 * k + c) with (Z.min rlen (31 * (k + 1))) by lia.
  replace (32 * k + 32) with (32 * (k + 1)) by lia.
  apply IH; [lia..|]. rewrite Hc in Hnth. repeat split; [lia|..].
  - intros i Hi. pose proof (enc_pos_bounds rlen i ltac:(lia)).
    rewrite Hnth by (pose proof (Z.div_pos i 31); lia).
    destruct (Z.ltb_spec i (31 * k)).
    + assert (i / 31 < k) by zdivl.
      destruct (Z.leb_spec (32 * k + (32 - c)) (enc_pos rlen i)); [lia|]. cbn [andb]. apply Hput; lia.
    + assert (enc_pos rlen i = 32 * k + (32 - c) + (i - 31 * k)) as ->.
      { unfold enc_pos. destruct (Z.eqb_spec (rlen mod 31) 0); cbn [negb andb]; [zdivl|].
        destruct (Z.eqb_spec (i / 31) (rlen / 31)); zdivl. }
      destruct (Z.leb_spec (32 * k + (32 - c)) (32 * k + (32 - c) + (i - 31 * k))); [|lia].
      destruct (Z.ltb_spec (32 * k + (32 - c) + (i - 31 * k)) (32 * k + (32 - c) + c)); [|lia].
      cbn [andb]. rewrite znth_slice by lia. f_equal; lia.
  - intros i Hi; rewrite Hnth by lia.
    destruct (Z.ltb_spec i (32 * k + (32 - c) + c)); [lia|]. rewrite andb_false_r. apply Hzero; lia.
  - intros s Hs; rewrite Hnth by lia.
    destruct (Z.leb_spec (32 * k + (32 - c)) (32 * s)); destruct (Z.ltb_spec (32 * s) (32 * k + (32 - c) + c));
      cbn [andb]; [lia|apply Hhead; lia..].
Qed.

Lemma encodeToMduAt_spec :
  exists mdu, encodeToMduAt MDU_SIZE raw = Ok mdu /\
    encoded_upto mdu (Z.min rlen (MDU_SIZE / 32 * 31)) MDU_SIZE.
Proof.
  unfold encodeToMduAt.
  pose proof (zlen_nonneg raw).
  destruct (encode_loop_spec (length raw) (zeros MDU_SIZE) 0) as (mdu & E & Hs).
  - lia.
  - unfold zlen; lia.
  - lia.
  - repeat split; [by apply zlen_zeros|lia|..]; intros; apply znth_zeros.
  - rewrite Z.min_r in E by lia. change (31 * 0) with 0 in E; change (32 * 0) with 0 in E. eauto.
Qed.
End Encode.

Section Decode.
Context (mdu : bytes) (rawStart rawValidLen : Z) (Hstart : 0 <= rawStart).
Abbreviation rem := (rawValidLen mod 31).
Abbreviation lastLen := (if rem =? 0 then 31 else rem).

(** After [done] bytes the output holds them, read from where the encoding has them. *)
Lemma decode_loop_spec fuel : forall out done total,
  0 <= done <= total -> total - done <= Z.of_nat fuel -> rawStart + total <= rawValidLen ->
  zlen out = total ->
  (forall i, 0 <= i < done -> znth out i = znth mdu (enc_pos rawValidLen (rawStart + i))) ->
  (forall i, done <= i -> znth out i = 0) ->
  exists out', decode_loop fuel mdu rem (rawValidLen / 31) lastLen out (rawStart + done) (total - done) done
               = Ok out' /\ zlen out' = total /\
    forall i, 0 <= i < total -> znth out' i = znth mdu (enc_pos rawValidLen (rawStart + i)).
Proof.
  induction fuel as [|fuel IH]; intros out d total Hd Hfuel Hvalid Hlen Hin Hz; cbn [decode_loop];
    destruct (Z.ltb_spec 0 (total - d)); try lia;
    try (exists out; repeat split; [done|]; intros; apply Hin; lia).
  codec_unfold. set (r := rawStart + d).
  set (partial := negb (rem =? 0) && (r / 31 =? rawValidLen / 31)).
  set (take := Z.min (total - d) ((if partial then lastLen else 31) - r mod 31)).
  set (encStart := r / 31 * 32 + (if partial then 32 - lastLen else 1) + r mod 31).
  assert (encStart = enc_pos rawValidLen r) as Hpos.
  { unfold encStart, enc_pos, partial. destruct (Z.eqb_spec rem 0); cbn [negb andb]; [lia|].
    destruct (r / 31 =? rawValidLen / 31); lia. }
  assert (0 < take /\ r mod 31 + take <= 31) as [Htake Hfit].
  { unfold take, partial. destruct (Z.eqb_spec rem 0); cbn [negb andb]; [zdivl|].
    destruct (Z.eqb_spec (r / 31) (rawValidLen / 31)); zdivl. }
  assert (0 <= encStart) as Hs by (unfold encStart, partial; destruct (Z.eqb_spec rem 0); cbn [negb andb]; [zdivl|]; case_match; zdivl).
  pose proof (zlen_slice encStart (encStart + take) mdu Hs) as Hsl. pose proof (zlen_nonneg mdu).
  destruct (set_bytes_ok out d (slice encStart (encStart + take) mdu)) as (out' & E & Hlen' & Hnth); [lia..|].
  rewrite E; obind.
  replace (r + take) with (rawStart + (d + take)) by (unfold r; lia).
  replace (total - d - take) with (total - (d + take)) by lia.
  apply IH; [lia..| |].
  - intros i Hi; rewrite Hnth by lia.
    destruct (Z.leb_spec d i); cbn [andb]; [|apply Hin; lia].
    assert (enc_pos rawValidLen (rawStart + i) = encStart + (i - d)) as ->.
    { replace (rawStart + i) with (r + (i - d)) by (unfold r; lia).
      rewrite enc_pos_shift; unfold r in *; lia. }
    destruct (Z.ltb_spec i (d + zlen (slice encStart (encStart + take) mdu))).
    + apply znth_slice; lia.
    + rewrite Hz, znth_out by lia; done.
  - intros i Hi; rewrite Hnth by lia.
    destruct (Z.ltb_spec i (d + zlen (slice encStart (encStart + take) mdu))); [lia|].
    rewrite andb_false_r; apply Hz; lia.
Qed.
End Decode.

(** A slice within the valid length is the bytes at the encoded positions. *)
Lemma decode_spec mdu rawStart rawLen rawValidLen :
  0 <= rawStart -> 0 <= rawLen -> rawStart + rawLen <= rawValidLen ->
  exists out, decodeRawSliceFromMdu mdu rawStart rawLen rawValidLen = Ok out /\
    zlen out = rawLen /\
    forall i, 0 <= i < rawLen -> znth out i = znth mdu (enc_pos rawValidLen (rawStart + i)).
Proof.
  intros; unfold decodeRawSliceFromMdu.
  destruct (Z.leb_spec rawLen 0); [exists []; repeat split; [unfold zlen; cbn; lia|lia]|].
  destruct (Z.ltb_spec rawStart 0); [lia|]; destruct (Z.ltb_spec rawLen 0); [lia|]; cbn [orb].
  destruct (Z.ltb_spec rawValidLen (rawStart + rawLen)); [lia|]. codec_unfold.
  destruct (decode_loop_spec mdu rawStart rawValidLen ltac:(done) (Z.to_nat rawLen) (zeros rawLen) 0 rawLen)
    as (out & E & Hs); [lia..|by apply zlen_zeros; lia|lia|intros; apply znth_zeros|].
  rewrite Z.add_0_r, Z.sub_0_r in E; eauto.
Qed.

(** Reading with the length the MDU was encoded with gives the raw bytes back. *)
Lemma decode_encode MDU_SIZE raw mdu rawStart rawLen :
  0 <= MDU_SIZE -> (32 | MDU_SIZE) -> zlen raw <= MDU_SIZE / 32 * 31 ->
  encodeToMduAt MDU_SIZE raw = Ok mdu ->
  0 <= rawStart -> 0 <= rawLen -> rawStart + rawLen <= zlen raw ->
  decodeRawSliceFromMdu mdu rawStart rawLen (zlen raw) = Ok (slice rawStart (rawStart + rawLen) raw).
Proof.
  intros HM H32 Hcap E Hs Hl Hfit.
  destruct (encodeToMduAt_spec MDU_SIZE HM H32 raw) as (mdu' & E' & _ & Hput & _ & _).
  rewrite E in E'; injection E' as <-.
  destruct (decode_spec mdu rawStart rawLen (zlen raw)) as (out & -> & Hlen & Hout); [lia..|].
  f_equal; apply bytes_eq; [rewrite zlen_slice; lia|].
  intros i Hi; rewrite Hout, Hput, znth_slice by lia; done.
Qed.

(** C25: encoding raw bytes into an MDU and decoding any slice of them with the
    same valid length returns exactly that slice, for every payload that fits
    an 8 MiB MDU. *)
Theorem decode_encode_roundtrip raw mdu rawStart rawLen :
  zlen raw <= RAW_MDU_CAPACITY ->
  encodeToMdu raw = Ok mdu ->
  0 <= rawStart -> 0 <= rawLen -> rawStart + rawLen <= zlen raw ->
  decodeRawSliceFromMdu mdu rawStart rawLen (zlen raw) = Ok (slice rawStart (rawStart + rawLen) raw).
Proof.
  intros; apply (decode_encode MDU_SIZE_BYTES); [done|exists 262144; done|done..].
Qed.

Lemma encodeToMdu_sized raw : exists mdu, encodeToMdu raw = Ok mdu /\ zlen mdu = MDU_SIZE_BYTES.
Proof.
  destruct (encodeToMduAt_spec MDU_SIZE_BYTES ltac:(done) ltac:(exists 262144; done) raw) as (mdu & E & Hz & _); eauto.
Qed.
Lemma encodeToMdu_total raw : exists mdu, encodeToMdu raw = Ok mdu.
Proof. destruct (encodeToMdu_sized raw) as (mdu & E & _); eauto. Qed.

Lemma decode_encode_roundtrip_witness :
  exists mdu, encodeToMdu [1; 2; 3] = Ok mdu /\ decodeRawSliceFromMdu mdu 1 2 3 = Ok [2; 3].
Proof.
  destruct (encodeToMdu_total [1; 2; 3]) as [mdu E]; exists mdu; split; [exact E|].
  apply (decode_encode_roundtrip [1; 2; 3] mdu 1 2); first [exact E|vm_compute; discriminate].
Defined.

(** Encoding never fails, fills exactly one 8 MiB MDU, and leaves the first
    byte of each of its 32-byte scalars zero, so that every scalar is below 2^248
    and a canonical field element. *)
Theorem encodeToMdu_canonical raw :
  exists mdu, encodeToMdu raw = Ok mdu /\ zlen mdu = MDU_SIZE_BYTES /\
    forall s, 0 <= s < NILFS_SCALARS_PER_MDU -> znth mdu (NILFS_SCALAR_BYTES * s) = 0.
Proof.
  destruct (encodeToMduAt_spec MDU_SIZE_BYTES ltac:(done) ltac:(exists 262144; done) raw)
    as (mdu & E & Hlen & _ & _ & Hh).
  exists mdu; repeat split; [done..|]. intros; apply Hh; lia.
Qed.

(** The decoder rejects a negative start and a slice past the valid length. *)
Theorem decode_rejects_bad_range mdu rawStart rawLen rawValidLen :
  0 < rawLen ->
  (rawStart < 0 -> decodeRawSliceFromMdu mdu rawStart rawLen rawValidLen
                   = Thrown (Error "invalid raw range")) /\
  (0 <= rawStart -> rawValidLen < rawStart + rawLen ->
   decodeRawSliceFromMdu mdu rawStart rawLen rawValidLen
   = Thrown (Error "raw range exceeds valid data length")).
Proof.
  intros H; unfold decodeRawSliceFromMdu.
  destruct (Z.leb_spec rawLen 0); [lia|].
  destruct (Z.ltb_spec rawStart 0), (Z.ltb_spec rawLen 0), (Z.ltb_spec rawValidLen (rawStart + rawLen));
    cbn [orb]; split; intros; (done || lia).
Qed.

Lemma decode_rejects_bad_range_witness :
  (-1 < 0 -> decodeRawSliceFromMdu [] (-1) 4 8 = Thrown (Error "invalid raw range")) /\
  (0 <= -1 -> 8 < -1 + 4 ->
   decodeRawSliceFromMdu [] (-1) 4 8 = Thrown (Error "raw range exceeds valid data length")).
Proof. apply (decode_rejects_bad_range [] (-1) 4 8); lia. Defined.
