(* ===== verification/Layout.v ===== *)
(** * The slab's MDU #0 (nil_core/src/layout.rs, nil_core/src/builder.rs)

    The writer that the browser runs as WebAssembly: the NilFS file table in
    MDU #0, its header and 64-byte records, and the builder that allocates file
    regions with tombstone reuse.  [Nilfs] reads what this writes.  Fields are cut to
    their width when they are written.  Offsets into the buffer ([usize], 32 bits in
    WebAssembly) are unbounded integers: they are products of an MDU's number or of a
    record's number (a [u32] the builder itself counts up) with 32 or 64, and the bounds
    checked before each access keep both far below the width. *)
From S2P Require Import Prelude JsString TransportTypes Effects Bytes.
#[local] Open Scope Z_scope.

Definition MDU_SIZE : Z := 8 * 1024 * 1024.
Definition BLOB_SIZE : Z := 128 * 1024.
Definition ROOT_TABLE_END : Z := 16 * BLOB_SIZE.
Definition FILE_TABLE_START : Z := 16 * BLOB_SIZE.
Definition FILE_TABLE_END : Z := 64 * BLOB_SIZE.
Definition FILE_TABLE_HEADER_SIZE : Z := 128.
Definition FILE_RECORD_SIZE : Z := 64.
Definition ROOT_SIZE : Z := 32.
Definition MAGIC_NILF : bytes := [78; 73; 76; 70].

(** ** layout.rs *)

Record FileTableHeader := mkHeader {
  magic : bytes; version : Z; pad1 : Z; record_size : Z; record_count : Z; reserved : bytes
}.
Definition default_header : FileTableHeader := mkHeader MAGIC_NILF 1 0 64 0 (zeros 116).

Definition header_to_bytes (h : FileTableHeader) : bytes :=
  magic h ++ [version h; pad1 h] ++ le_split 2 (record_size h) ++ le_split 4 (record_count h) ++ reserved h.
Definition header_from_bytes (l : bytes) : FileTableHeader :=
  mkHeader (slice 0 4 l) (znth l 4) (znth l 5) (get_le 2 6 l) (getUint32LE 8 l) (slice 12 128 l).

Record FileRecordV1 := mkRecord {
  start_offset : Z; length_and_flags : Z; timestamp : Z; rec_path : bytes
}.

Definition record_to_bytes (r : FileRecordV1) : bytes :=
  le_split 8 (start_offset r) ++ le_split 8 (length_and_flags r) ++ le_split 8 (timestamp r) ++ rec_path r.
Definition record_from_bytes (l : bytes) : FileRecordV1 :=
  mkRecord (getBigUint64LE 0 l) (getBigUint64LE 8 l) (getBigUint64LE 16 l) (slice 24 64 l).

Definition pack_length_and_flags (length flags : Z) : Z :=
  Z.lor (Z.shiftl flags 56) (Z.land length (Z.ones 56)).
Definition unpack_length_and_flags (val : Z) : Z * Z :=
  (Z.land val (Z.ones 56), Z.land (Z.shiftr val 56) 255).

(** ** builder.rs *)

Record Mdu0Builder := mkBuilder {
  buffer : bytes; header : FileTableHeader;
  witness_mdu_count : Z; max_user_mdus : Z; commitments_per_mdu : Z
}.

Definition commitments_or_default (c : Z) : Z := if c =? 0 then 64 else c.
(** The quotient is computed in doubles, exactly so below 2^53 bytes of commitments. *)
Definition witness_mdus (max_user_mdus commitments : Z) : Z :=
  ceil_div (max_user_mdus * commitments * 48) MDU_SIZE.

Definition set_header (b : Mdu0Builder) (h : FileTableHeader) : Mdu0Builder :=
  mkBuilder (buffer b) h (witness_mdu_count b) (max_user_mdus b) (commitments_per_mdu b).
Definition set_buffer (b : Mdu0Builder) (buf : bytes) : Mdu0Builder :=
  mkBuilder buf (header b) (witness_mdu_count b) (max_user_mdus b) (commitments_per_mdu b).
Definition with_count (h : FileTableHeader) (n : Z) : FileTableHeader :=
  mkHeader (magic h) (version h) (pad1 h) (record_size h) n (reserved h).

Definition flush_header (b : Mdu0Builder) : Mdu0Builder :=
  set_buffer b (splice FILE_TABLE_START (header_to_bytes (header b)) (buffer b)).

Definition new_with_commitments (max_user commitments : Z) : Mdu0Builder :=
  let c := commitments_or_default commitments in
  flush_header (mkBuilder (zeros MDU_SIZE) default_header (witness_mdus max_user c) max_user c).

Definition load_with_commitments (data : bytes) (max_user commitments : Z) : outcome Mdu0Builder :=
  if negb (zlen data =? MDU_SIZE) then mthrow (Error "invalid MDU size")
  else
    let c := commitments_or_default commitments in
    let h := header_from_bytes (slice FILE_TABLE_START (FILE_TABLE_START + FILE_TABLE_HEADER_SIZE) data) in
    if negb (bool_decide (magic h = MAGIC_NILF)) then mthrow (Error "invalid magic")
    else mret (mkBuilder data h (witness_mdus max_user c) max_user c).

Definition builder_bytes (b : Mdu0Builder) : bytes := buffer (flush_header b).

(** Methods on [&mut self] that can fail are computations on the builder. *)
Definition set_root (index : Z) (root : bytes) : M Mdu0Builder unit := fun b =>
  let offset := index * ROOT_SIZE in
  if ROOT_TABLE_END <? offset + ROOT_SIZE then (Thrown (Error "root index out of bounds"), b)
  else (Ok tt, set_buffer b (splice offset root (buffer b))).
Definition get_root (b : Mdu0Builder) (index : Z) : bytes :=
  slice (index * ROOT_SIZE) (index * ROOT_SIZE + ROOT_SIZE) (buffer b).

Definition record_offset (index : Z) : Z :=
  FILE_TABLE_START + FILE_TABLE_HEADER_SIZE + index * FILE_RECORD_SIZE.
Definition get_file_record (b : Mdu0Builder) (index : Z) : FileRecordV1 :=
  record_from_bytes (slice (record_offset index) (record_offset index + FILE_RECORD_SIZE) (buffer b)).

Definition append_file_record (r : FileRecordV1) : M Mdu0Builder unit := fun b =>
  let index := record_count (header b) in
  let offset := record_offset index in
  if FILE_TABLE_END <? offset + FILE_RECORD_SIZE then (Thrown (Error "file table full"), b)
  else
    let b := set_buffer b (splice offset (record_to_bytes r) (buffer b)) in
    (Ok tt, flush_header (set_header b (with_count (header b) (index + 1)))).

Definition update_file_record (index : Z) (r : FileRecordV1) : M Mdu0Builder unit := fun b =>
  if record_count (header b) <=? index then (Thrown (Error "index out of bounds"), b)
  else (Ok tt, set_buffer b (splice (record_offset index) (record_to_bytes r) (buffer b))).

Definition is_tombstone (r : FileRecordV1) : bool := znth (rec_path r) 0 =? 0.
Definition record_len (r : FileRecordV1) : Z := fst (unpack_length_and_flags (length_and_flags r)).
Definition at_offset (r : FileRecordV1) (o : Z) : FileRecordV1 :=
  mkRecord o (length_and_flags r) (timestamp r) (rec_path r).
Definition tombstone (o len : Z) : FileRecordV1 := mkRecord o (pack_length_and_flags len 0) 0 (zeros 40).

(** The body of the scan at a tombstone that is large enough: reuse it from its
    start and append what is left over as a new tombstone. *)
Definition reuse_slot (i : Z) (existing r : FileRecordV1) : M Mdu0Builder Z :=
  update_file_record i (at_offset r (start_offset existing)) ;;
  let leftover := record_len existing - record_len r in
  (if 0 <? leftover
   then append_file_record (tombstone (start_offset existing + record_len r) leftover)
   else mret tt) ;;
  mret i.

Definition last_index : M Mdu0Builder Z := fun b => (Ok (record_count (header b) - 1), b).

(** The scan of [find_free_slot_and_insert] over the [n] records from [i] on. *)
Fixpoint find_slot_loop (n : nat) (r : FileRecordV1) (i : Z) : M Mdu0Builder Z := fun b =>
  match n with
  | O => (append_file_record r ;; last_index : M Mdu0Builder Z) b
  | S n =>
      let existing := get_file_record b i in
      if is_tombstone existing && (record_len r <=? record_len existing)
      then reuse_slot i existing r b
      else find_slot_loop n r (i + 1) b
  end.
Definition find_free_slot_and_insert (r : FileRecordV1) : M Mdu0Builder Z := fun b =>
  find_slot_loop (Z.to_nat (record_count (header b))) r 0 b.

(** ** Serialisation round trips *)

Definition u_range (n : nat) (z : Z) : Prop := 0 <= z < 256 ^ Z.of_nat n.

Definition header_wf (h : FileTableHeader) : Prop :=
  zlen (magic h) = 4 /\ u_range 2 (record_size h) /\ u_range 4 (record_count h) /\ zlen (reserved h) = 116.
Definition record_wf (r : FileRecordV1) : Prop :=
  u_range 8 (start_offset r) /\ u_range 8 (length_and_flags r) /\ u_range 8 (timestamp r) /\
  zlen (rec_path r) = 40.

Lemma zlen_header_to_bytes h : header_wf h -> zlen (header_to_bytes h) = 128.
Proof.
  intros (Hm & _ & _ & Hr); unfold header_to_bytes; autorewrite with nilrw.
  rewrite !zlen_le_split; lia.
Qed.
Lemma zlen_record_to_bytes r : zlen (rec_path r) = 40 -> zlen (record_to_bytes r) = 64.
Proof.
  intros H; unfold record_to_bytes; autorewrite with nilrw; rewrite !zlen_le_split; lia.
Qed.

(** Cut a field out of a concatenation of fields of known length. *)
Ltac cut_field :=
  repeat first
    [ rewrite slice_app_l by (autorewrite with nilrw; rewrite ?zlen_le_split; lia)
    | rewrite slice_app_r by (autorewrite with nilrw; rewrite ?zlen_le_split; lia) ].

Lemma get_le_here n z l k :
  u_range n z -> zlen l = k -> get_le (Z.of_nat n) k (l ++ le_split n z) = z.
Proof.
  intros Hz <-; unfold get_le; rewrite slice_app_r by lia.
  replace (zlen l - zlen l) with 0 by lia.
  rewrite slice_full by (rewrite zlen_le_split; lia). by apply le_combine_split.
Qed.

Lemma get_le_field n z l r k :
  u_range n z -> zlen l = k -> get_le (Z.of_nat n) k (l ++ le_split n z ++ r) = z.
Proof.
  intros Hz Hl; pose proof (zlen_nonneg l); unfold get_le; rewrite app_assoc, slice_app_l; [|lia|].
  - by apply get_le_here.
  - rewrite zlen_app, zlen_le_split; lia.
Qed.

Lemma record_round_trip r : record_wf r -> record_from_bytes (record_to_bytes r) = r.
Proof.
  intros (H1 & H2 & H3 & H4); destruct r as [so lf ts p]; cbn in *.
  unfold record_from_bytes, record_to_bytes, getBigUint64LE; cbn [start_offset length_and_flags timestamp rec_path].
  f_equal.
  - by apply (get_le_field 8 so []).
  - apply (get_le_field 8 lf (le_split 8 so)); [done|by rewrite zlen_le_split].
  - rewrite app_assoc; apply (get_le_field 8 ts (le_split 8 so ++ le_split 8 lf)); [done|].
    by rewrite zlen_app, !zlen_le_split.
  - rewrite !app_assoc, slice_app_r by (rewrite !zlen_app, !zlen_le_split; lia).
    rewrite !zlen_app, !zlen_le_split. apply slice_full; lia.
Qed.

Lemma header_count_bytes h :
  header_wf h -> getUint32LE 8 (header_to_bytes h) = record_count h.
Proof.
  intros (Hm & Hs & Hc & Hr); unfold header_to_bytes, getUint32LE. rewrite !app_assoc, <- (app_assoc _ (le_split 4 _)).
  apply (get_le_field 4); [done|]. autorewrite with nilrw; rewrite zlen_le_split; lia.
Qed.

Lemma header_magic_bytes h : header_wf h -> slice 0 4 (header_to_bytes h) = magic h.
Proof.
  intros (Hm & _); unfold header_to_bytes; rewrite slice_app_l by lia. apply slice_full; lia.
Qed.

Lemma header_round_trip h : header_wf h -> header_from_bytes (header_to_bytes h) = h.
Proof.
  intros Hwf; pose proof (header_count_bytes h Hwf) as Hcnt; pose proof (header_magic_bytes h Hwf) as Hmag.
  destruct Hwf as (Hm & Hs & Hc & Hr), h as [m v p s c r].
  unfold header_from_bytes; rewrite Hcnt, Hmag; unfold header_to_bytes in *; cbn [magic version pad1 record_size record_count reserved] in *.
  f_equal.
  - rewrite znth_app by lia; rewrite Hm; done.
  - rewrite znth_app by lia; rewrite Hm; done.
  - rewrite app_assoc; apply (get_le_field 2); [done|]. autorewrite with nilrw; lia.
  - rewrite !app_assoc, slice_app_r by (autorewrite with nilrw; rewrite !zlen_le_split; lia).
    autorewrite with nilrw; rewrite !zlen_le_split, Hm. apply slice_full; lia.
Qed.

(** ** The builder's invariant and its abstract view, the list of records *)

Record builder_inv (b : Mdu0Builder) : Prop := {
  inv_size : zlen (buffer b) = MDU_SIZE;
  inv_header : header_wf (header b);
  inv_magic : magic (header b) = MAGIC_NILF;
  inv_flushed : slice FILE_TABLE_START (FILE_TABLE_START + 128) (buffer b) = header_to_bytes (header b);
  inv_count : 0 <= record_count (header b);
  inv_room : record_offset (record_count (header b)) <= FILE_TABLE_END
}.

Definition records (b : Mdu0Builder) : list FileRecordV1 :=
  map (get_file_record b) (seqZ 0 (record_count (header b))).

Ltac layout_unfold :=
  unfold record_offset, FILE_TABLE_END, FILE_TABLE_START, FILE_TABLE_HEADER_SIZE, FILE_RECORD_SIZE,
    ROOT_TABLE_END, ROOT_SIZE, BLOB_SIZE, MDU_SIZE in *.

Lemma length_records b : 0 <= record_count (header b) -> zlen (records b) = record_count (header b).
Proof. intros; unfold records, zlen; rewrite length_map, length_seqZ; lia. Qed.

Lemma lookup_records b i :
  0 <= i < record_count (header b) -> records b !! Z.to_nat i = Some (get_file_record b i).
Proof.
  intros H; unfold records; change (map (get_file_record b)) with (fmap (M:=list) (get_file_record b)).
  rewrite list_lookup_fmap, lookup_seqZ_lt by lia; cbn; repeat f_equal; lia.
Qed.

(** Overwriting one record's bytes changes that record only. *)
Lemma get_record_splice b i j r :
  zlen (buffer b) = MDU_SIZE -> zlen (rec_path r) = 40 -> 0 <= i -> 0 <= j ->
  record_offset j + 64 <= FILE_TABLE_END ->
  get_file_record (set_buffer b (splice (record_offset j) (record_to_bytes r) (buffer b))) i =
  if i =? j then record_from_bytes (record_to_bytes r) else get_file_record b i.
Proof.
  intros Hs Hp Hi Hj Hroom; unfold get_file_record; cbn [buffer set_buffer].
  pose proof (zlen_record_to_bytes r Hp) as Hz.
  destruct (Z.eqb_spec i j) as [->|Hne].
  - f_equal. change FILE_RECORD_SIZE with 64; rewrite <- Hz at 1.
    apply slice_splice_same; layout_unfold; lia.
  - f_equal; apply slice_splice_other; layout_unfold; lia.
Qed.

Lemma get_record_flush b i :
  zlen (buffer b) = MDU_SIZE -> header_wf (header b) -> 0 <= i ->
  get_file_record (flush_header b) i = get_file_record b i.
Proof.
  intros Hs Hw Hi; unfold get_file_record, flush_header; cbn [buffer set_buffer]; f_equal.
  pose proof (zlen_header_to_bytes _ Hw); apply slice_splice_other; layout_unfold; lia.
Qed.

Lemma flush_inv b :
  zlen (buffer b) = MDU_SIZE -> header_wf (header b) -> magic (header b) = MAGIC_NILF ->
  0 <= record_count (header b) -> record_offset (record_count (header b)) <= FILE_TABLE_END ->
  builder_inv (flush_header b).
Proof.
  intros Hs Hw Hm Hc Hr; pose proof (zlen_header_to_bytes _ Hw) as Hz.
  destruct (splice_spec FILE_TABLE_START (header_to_bytes (header b)) (buffer b)) as [Hl _];
    [layout_unfold; lia..|].
  constructor; cbn [header buffer flush_header set_buffer]; [congruence|done..| |done|done].
  rewrite <- Hz; apply slice_splice_same; layout_unfold; lia.
Qed.

Lemma with_count_wf h n :
  header_wf h -> u_range 4 n -> header_wf (with_count h n).
Proof. intros (? & ? & ? & ?) ?; unfold header_wf; by cbn. Qed.

Lemma new_inv m c : builder_inv (new_with_commitments m c).
Proof.
  unfold new_with_commitments; apply flush_inv; cbn [buffer header].
  - by apply zlen_zeros.
  - unfold default_header, header_wf, u_range; cbn; repeat split; lia.
  - done.
  - done.
  - done.
Qed.

(** Loading what a builder wrote gives a builder of the same bytes. *)
Lemma load_builder_bytes b m c : builder_inv b ->
  exists b', load_with_commitments (builder_bytes b) m c = Ok b' /\ builder_inv b' /\ buffer b' = builder_bytes b.
Proof.
  intros [Hs Hw Hm Hf Hc Hr]; pose proof (flush_inv b Hs Hw Hm Hc Hr) as [Hs' _ _ Hf' _ _].
  unfold load_with_commitments, builder_bytes; rewrite Hs', Z.eqb_refl; cbn [negb]; cbn zeta.
  change FILE_TABLE_HEADER_SIZE with 128; rewrite Hf'. change (header (flush_header b)) with (header b).
  rewrite header_round_trip by done; rewrite Hm, bool_decide_true by reflexivity; cbn [negb].
  eexists; split; [reflexivity|]; split; [|reflexivity].
  constructor; cbn [buffer header]; [exact Hs'|done|done|exact Hf'|done|done].
Qed.

Lemma records_new m c : records (new_with_commitments m c) = [].
Proof. done. Qed.

(** [append_file_record] appends to the list of records or reports a full table. *)
Lemma append_spec b r :
  builder_inv b -> record_wf r ->
  if FILE_TABLE_END <? record_offset (record_count (header b)) + 64
  then append_file_record r b = (Thrown (Error "file table full"), b)
  else exists b', append_file_record r b = (Ok tt, b') /\ builder_inv b' /\ records b' = records b ++ [r].
Proof.
  intros [Hs Hw Hm Hf Hc Hroom] Hr; unfold append_file_record. change FILE_RECORD_SIZE with 64.
  destruct (Z.ltb_spec FILE_TABLE_END (record_offset (record_count (header b)) + 64)) as [|Hfit]; [done|].
  set (n := record_count (header b)) in *.
  set (b1 := set_buffer b (splice (record_offset n) (record_to_bytes r) (buffer b))).
  set (b2 := set_header b1 (with_count (header b1) (n + 1))).
  assert (zlen (rec_path r) = 40) as Hp by apply Hr.
  pose proof (zlen_record_to_bytes r Hp) as Hz.
  destruct (splice_spec (record_offset n) (record_to_bytes r) (buffer b)) as [Hl _]; [layout_unfold; lia..|].
  assert (header_wf (header b2)) as Hw2 by (apply with_count_wf; [done|unfold u_range; layout_unfold; lia]).
  assert (zlen (buffer b2) = MDU_SIZE) as Hs2 by (cbn [b2 b1 set_header set_buffer buffer]; congruence).
  eexists; split; [done|]; split.
  - apply flush_inv; [done|done|done|cbn; lia|]. cbn [b2 b1 header set_header with_count record_count].
    layout_unfold; lia.
  - unfold records; cbn [flush_header set_buffer header b2 b1 set_header with_count record_count]; fold n.
    rewrite seqZ_app, map_app by lia; change (seqZ (0 + n) 1) with [0 + n]; cbn [map]; f_equal; [|f_equal].
    + apply map_ext_in; intros i Hi; apply list_elem_of_In, elem_of_seqZ in Hi.
      rewrite get_record_flush by (done || lia).
      change (get_file_record b2 i) with (get_file_record b1 i).
      unfold b1; rewrite get_record_splice by (done || lia).
      destruct (Z.eqb_spec i n); [lia|done].
    + rewrite get_record_flush by (done || lia).
      change (get_file_record b2 (0 + n)) with (get_file_record b1 (0 + n)).
      unfold b1; rewrite get_record_splice by (done || lia).
      destruct (Z.eqb_spec (0 + n) n); [by apply record_round_trip|lia].
Qed.

(** [update_file_record] replaces one record or reports a bad index. *)
Lemma update_spec b i r :
  builder_inv b -> record_wf r -> 0 <= i ->
  if record_count (header b) <=? i
  then update_file_record i r b = (Thrown (Error "index out of bounds"), b)
  else exists b', update_file_record i r b = (Ok tt, b') /\ builder_inv b' /\ header b' = header b /\
         records b' = <[Z.to_nat i := r]> (records b).
Proof.
  intros [Hs Hw Hm Hf Hc Hroom] Hr Hi; unfold update_file_record.
  destruct (Z.leb_spec (record_count (header b)) i) as [|Hlt]; [done|].
  assert (zlen (rec_path r) = 40) as Hp by apply Hr.
  pose proof (zlen_record_to_bytes r Hp) as Hz.
  destruct (splice_spec (record_offset i) (record_to_bytes r) (buffer b)) as [Hl _]; [layout_unfold; lia..|].
  eexists; split; [done|]; split; [|split; [done|]].
  - constructor; cbn [set_buffer header buffer]; [congruence|done..| |done|done].
    rewrite slice_splice_other; [done|layout_unfold; lia..].
  - apply list_eq; intros k.
    destruct (decide (k < Z.to_nat (record_count (header b)))%nat) as [Hk|Hk].
    + replace k with (Z.to_nat (Z.of_nat k)) at 1 by lia.
      rewrite lookup_records by (cbn; lia). rewrite get_record_splice by (done || (layout_unfold; lia)).
      destruct (Z.eqb_spec (Z.of_nat k) i) as [<-|Hne].
      * rewrite Nat2Z.id, list_lookup_insert_eq.
        -- f_equal; by apply record_round_trip.
        -- pose proof (length_records b Hc); unfold zlen in *; lia.
      * rewrite list_lookup_insert_ne by lia.
        replace k with (Z.to_nat (Z.of_nat k)) at 2 by lia. by rewrite lookup_records by lia.
    + rewrite !lookup_ge_None_2; [done| |].
      * rewrite length_insert; pose proof (length_records b Hc); unfold zlen in *; lia.
      * unfold records; rewrite length_map, length_seqZ; cbn; lia.
Qed.

Lemma set_root_spec b i root :
  builder_inv b -> 0 <= i -> zlen root = 32 ->
  if ROOT_TABLE_END <? i * ROOT_SIZE + ROOT_SIZE
  then set_root i root b = (Thrown (Error "root index out of bounds"), b)
  else exists b', set_root i root b = (Ok tt, b') /\ builder_inv b' /\ records b' = records b /\
         get_root b' i = root /\ forall j, 0 <= j -> j <> i -> get_root b' j = get_root b j.
Proof.
  intros [Hs Hw Hm Hf Hc Hroom] Hi Hz; unfold set_root.
  destruct (Z.ltb_spec ROOT_TABLE_END (i * ROOT_SIZE + ROOT_SIZE)) as [|Hfit]; [done|].
  destruct (splice_spec (i * ROOT_SIZE) root (buffer b)) as [Hl _]; [layout_unfold; lia..|].
  eexists; split; [done|]. split; [|split; [|split]].
  - constructor; cbn [set_buffer header buffer]; [congruence|done..| |done|done].
    rewrite slice_splice_other; [done|layout_unfold; lia..].
  - unfold records; apply map_ext_in; intros k Hk; apply list_elem_of_In, elem_of_seqZ in Hk.
    unfold get_file_record; cbn [set_buffer buffer]; f_equal.
    apply slice_splice_other; layout_unfold; lia.
  - unfold get_root; cbn [set_buffer buffer]. replace (i * ROOT_SIZE + ROOT_SIZE) with (i * ROOT_SIZE + zlen root) by (rewrite Hz; done).
    apply slice_splice_same; layout_unfold; lia.
  - intros j Hj Hne; unfold get_root; cbn [set_buffer buffer].
    apply slice_splice_other; layout_unfold; lia.
Qed.

(** ** The allocator *)

Definition fits (r t : FileRecordV1) : bool := is_tombstone t && (record_len r <=? record_len t).

(** First fit on the list of records: the records after the insertion, and the
    tombstone for what is left of a reused slot. *)
Fixpoint alloc (r : FileRecordV1) (rs : list FileRecordV1) : list FileRecordV1 * list FileRecordV1 :=
  match rs with
  | [] => ([r], [])
  | t :: rs' =>
      if fits r t then
        (at_offset r (start_offset t) :: rs',
         if 0 <? record_len t - record_len r
         then [tombstone (start_offset t + record_len r) (record_len t - record_len r)] else [])
      else let '(l, x) := alloc r rs' in (t :: l, x)
  end.
Definition allocated (r : FileRecordV1) (rs : list FileRecordV1) : list FileRecordV1 :=
  let '(l, x) := alloc r rs in l ++ x.

Lemma alloc_skip r pre rs :
  Forall (fun t => fits r t = false) pre ->
  alloc r (pre ++ rs) = (pre ++ fst (alloc r rs), snd (alloc r rs)).
Proof.
  induction 1 as [|t pre Ht _ IH]; cbn [app alloc]; [by destruct (alloc r rs)|]. by rewrite Ht, IH.
Qed.

Lemma land_ones_bound n v : 0 <= n -> 0 <= Z.land v (Z.ones n) < 2 ^ n.
Proof. intros; rewrite Z.land_ones by lia; apply Z.mod_pos_bound; lia. Qed.

Lemma record_len_bound r : 0 <= record_len r < 2 ^ 56.
Proof. by apply land_ones_bound. Qed.

Lemma pack_unpack len flags :
  0 <= len < 2 ^ 56 -> 0 <= flags < 256 ->
  unpack_length_and_flags (pack_length_and_flags len flags) = (len, flags) /\
  0 <= pack_length_and_flags len flags < 2 ^ 64.
Proof.
  intros Hl Hf; unfold pack_length_and_flags, unpack_length_and_flags.
  rewrite (Z.land_ones len), (Z.mod_small len) by lia.
  assert (Z.lor (Z.shiftl flags 56) len = flags * 2 ^ 56 + len) as ->.
  { rewrite Z.shiftl_mul_pow2 by lia. symmetry; apply Z.add_nocarry_lor.
    apply Z.bits_inj'; intros k Hk; rewrite Z.land_spec, Z.bits_0.
    destruct (Z.ltb_spec k 56).
    - by rewrite Z.mul_pow2_bits_low by lia.
    - rewrite (Z.bits_above_log2 len k), andb_false_r; [done|lia|].
      destruct (decide (len = 0)) as [->|]; [cbn; lia|]. apply Z.log2_lt_pow2; [lia|].
      eapply Z.lt_le_trans; [apply Hl|]. apply Z.pow_le_mono_r; lia. }
  rewrite Z.land_ones, Z.shiftr_div_pow2 by lia. change 255 with (Z.ones 8); rewrite Z.land_ones by lia.
  split; [|lia]. f_equal; zdivl.
Qed.

(** A record whose fields have their widths and whose region ends below 2^64. *)
Definition record_ok (r : FileRecordV1) : Prop := record_wf r /\ start_offset r + record_len r < 2 ^ 64.

Lemma tombstone_ok o len :
  0 <= o -> 0 <= len < 2 ^ 56 -> o + len < 2 ^ 64 ->
  record_ok (tombstone o len) /\ record_len (tombstone o len) = len.
Proof.
  intros Ho Hl Hs; destruct (pack_unpack len 0 Hl ltac:(lia)) as [E Hr].
  assert (record_len (tombstone o len) = len) as Hlen
    by (change (fst (unpack_length_and_flags (pack_length_and_flags len 0)) = len); by rewrite E).
  split; [|done]; split; [|rewrite Hlen; done].
  unfold record_wf, u_range; cbn [tombstone start_offset length_and_flags timestamp rec_path].
  repeat split; try lia; done.
Qed.

Lemma at_offset_ok r t :
  record_ok r -> record_ok t -> record_len r <= record_len t -> record_ok (at_offset r (start_offset t)).
Proof.
  intros [(H1 & H2 & H3 & H4) _] [(H5 & _) Ht] Hle; split; [done|].
  change (start_offset t + record_len r < 2 ^ 64); lia.
Qed.

(** Reusing slot [i]: the records afterwards are those of the first-fit allocator. *)
Lemma reuse_slot_spec b r i t :
  builder_inv b -> record_ok r -> record_ok t -> 0 <= i < record_count (header b) ->
  records b !! Z.to_nat i = Some t -> fits r t = true ->
  let left := record_len t - record_len r in
  let new := <[Z.to_nat i := at_offset r (start_offset t)]> (records b) ++
    (if 0 <? left then [tombstone (start_offset t + record_len r) left] else []) in
  let '(o, b') := reuse_slot i t r b in
  builder_inv b' /\
  match o with
  | Ok k => k = i /\ records b' = new
  | Thrown e => e = Error "file table full" /\ FILE_TABLE_END < record_offset (zlen new)
  end.
Proof.
  intros Hb Hr Ht Hi Hlk Hfit left new; unfold reuse_slot; rewrite bind_run.
  unfold fits in Hfit; apply andb_true_iff in Hfit as [Htomb Hle]; apply Z.leb_le in Hle.
  pose proof (at_offset_ok r t Hr Ht Hle) as Hat.
  pose proof (update_spec b i _ Hb (proj1 Hat) ltac:(lia)) as Hup.
  destruct (Z.leb_spec (record_count (header b)) i); [lia|].
  destruct Hup as (b1 & -> & Hb1 & Hh1 & Hrec1). fold left. rewrite bind_run.
  pose proof (length_records b (inv_count _ Hb)) as Hlen.
  destruct (Z.ltb_spec 0 left) as [Hleft|Hleft]; cycle 1.
  { cbn. split; [done|]. split; [done|]. unfold new; by rewrite app_nil_r. }
  pose proof (record_len_bound t); pose proof (record_len_bound r).
  assert (0 <= start_offset t) by (by destruct Ht as [((? & _) & _) _]).
  destruct (tombstone_ok (start_offset t + record_len r) left) as [[Htw _] _];
    [lia|unfold left in *; lia|unfold left; destruct Ht; lia|].
  pose proof (append_spec b1 _ Hb1 Htw) as Hap; rewrite Hh1 in Hap.
  destruct (Z.ltb_spec FILE_TABLE_END (record_offset (record_count (header b)) + 64)).
  - rewrite Hap; split; [done|]; split; [done|]. unfold new.
    replace (zlen _) with (record_count (header b) + 1); [layout_unfold; lia|].
    rewrite zlen_app; unfold zlen in *; rewrite length_insert; cbn; lia.
  - destruct Hap as (b2 & -> & Hb2 & Hrec2); cbn; split; [done|]; split; [done|]. by rewrite Hrec2, Hrec1.
Qed.

Lemma allocated_hit r pre t post :
  Forall (fun t => fits r t = false) pre -> fits r t = true ->
  let left := record_len t - record_len r in
  allocated r (pre ++ t :: post) =
  (pre ++ at_offset r (start_offset t) :: post) ++
  (if 0 <? left then [tombstone (start_offset t + record_len r) left] else []).
Proof. intros Hpre Ht; unfold allocated; rewrite alloc_skip by done; cbn [alloc]; by rewrite Ht. Qed.

Lemma allocated_miss r pre :
  Forall (fun t => fits r t = false) pre -> allocated r pre = pre ++ [r].
Proof.
  intros Hpre; unfold allocated; rewrite <- (app_nil_r pre) at 1; rewrite alloc_skip by done.
  cbn; by rewrite app_nil_r.
Qed.

Lemma find_slot_loop_spec r : record_ok r -> forall n b i,
  builder_inv b -> Forall record_ok (records b) -> 0 <= i ->
  Z.of_nat n + i = record_count (header b) ->
  Forall (fun t => fits r t = false) (take (Z.to_nat i) (records b)) ->
  let '(o, b') := find_slot_loop n r i b in
  builder_inv b' /\
  match o with
  | Ok k => records b' = allocated r (records b) /\ exists s, records b' !! Z.to_nat k = Some (at_offset r s)
  | Thrown e => e = Error "file table full" /\ FILE_TABLE_END < record_offset (zlen (allocated r (records b)))
  end.
Proof.
  intros Hr; induction n as [|n IH]; intros b i Hb Hall Hi Hn Hpre; cbn [find_slot_loop].
  - pose proof (length_records b (inv_count _ Hb)) as Hlen.
    rewrite take_ge in Hpre by (unfold zlen in *; lia). rewrite allocated_miss by done.
    rewrite bind_run. pose proof (append_spec b r Hb (proj1 Hr)) as Hap.
    destruct (Z.ltb_spec FILE_TABLE_END (record_offset (record_count (header b)) + 64)).
    + rewrite Hap; split; [done|]; split; [done|].
      rewrite zlen_app, Hlen; autorewrite with nilrw; layout_unfold; lia.
    + destruct Hap as (b' & -> & Hb' & Hrec); cbn; split; [done|]; split; [done|].
      pose proof (length_records b' (inv_count _ Hb')) as Hlen'. rewrite Hrec, zlen_app, Hlen in Hlen'.
      autorewrite with nilrw in Hlen'. exists (start_offset r).
      rewrite Hrec, lookup_app_r by (unfold zlen in *; lia).
      replace (_ - _)%nat with 0%nat by (unfold zlen in *; lia). by destruct r.
  - assert (records b !! Z.to_nat i = Some (get_file_record b i)) as Hlk by (apply lookup_records; lia).
    set (t := get_file_record b i) in *.
    assert (record_ok t) as Ht by (rewrite Forall_lookup in Hall; by apply (Hall (Z.to_nat i))).
    fold (fits r t). destruct (fits r t) eqn:Hfit.
    + pose proof (reuse_slot_spec b r i t Hb Hr Ht ltac:(lia) Hlk Hfit) as Hspec; cbn zeta in Hspec.
      destruct (reuse_slot i t r b) as [o b']; destruct Hspec as [Hb' Ho]; split; [done|].
      assert (records b = take (Z.to_nat i) (records b) ++ t :: drop (S (Z.to_nat i)) (records b)) as Hsplit
        by (by rewrite take_drop_middle).
      assert (<[Z.to_nat i := at_offset r (start_offset t)]> (records b) =
              take (Z.to_nat i) (records b) ++ at_offset r (start_offset t) :: drop (S (Z.to_nat i)) (records b))
        as Hins by (apply insert_take_drop; by eapply lookup_lt_Some).
      pose proof (allocated_hit r _ _ (drop (S (Z.to_nat i)) (records b)) Hpre Hfit) as Halloc; cbn zeta in Halloc.
      rewrite <- Hsplit in Halloc; rewrite Hins, <- Halloc in Ho.
      destruct o as [k|e]; [|done]. destruct Ho as [-> Ho]; split; [done|]. rewrite Ho.
      exists (start_offset t). rewrite Halloc, <- Hins, lookup_app_l.
      * apply list_lookup_insert_eq; by eapply lookup_lt_Some.
      * rewrite length_insert; by eapply lookup_lt_Some.
    + apply IH; [done|done|lia|lia|]. replace (Z.to_nat (i + 1)) with (S (Z.to_nat i)) by lia.
      erewrite take_S_r by done. apply Forall_app; split; [done|by repeat constructor].
Qed.

(** C29: refinement.  On any builder reached through its methods,
    [find_free_slot_and_insert] implements the first-fit allocator on the list of
    records: a tombstone that is long enough is reused from its start and what is
    left of it becomes a new tombstone, otherwise the record is appended; the only
    failure is a full table, and then the allocator's result would not fit. *)
Theorem find_free_slot_refines b r :
  builder_inv b -> Forall record_ok (records b) -> record_ok r ->
  let '(o, b') := find_free_slot_and_insert r b in
  builder_inv b' /\
  match o with
  | Ok k => records b' = allocated r (records b) /\ exists s, records b' !! Z.to_nat k = Some (at_offset r s)
  | Thrown e => e = Error "file table full" /\ FILE_TABLE_END < record_offset (zlen (allocated r (records b)))
  end.
Proof.
  intros Hb Hall Hr; apply find_slot_loop_spec; [done..|lia| |].
  - pose proof (inv_count _ Hb); lia.
  - constructor.
Qed.

Definition demo_record : FileRecordV1 := mkRecord 0 (pack_length_and_flags 500 128) 0 (97 :: zeros 39).

Lemma find_free_slot_refines_witness :
  let b := new_with_commitments 65536 64 in
  builder_inv b /\
  (let '(o, b') := find_free_slot_and_insert demo_record b in
   builder_inv b' /\
   match o with
   | Ok k => records b' = [demo_record] /\
             exists s, records b' !! Z.to_nat k = Some (at_offset demo_record s)
   | Thrown e => e = Error "file table full" /\ FILE_TABLE_END < record_offset 1
   end).
Proof.
  split; [apply new_inv|].
  apply (find_free_slot_refines (new_with_commitments 65536 64) demo_record (new_inv _ _)).
  - constructor.
  - repeat split; vm_compute; (done || discriminate).
Defined.

(** ** Regions never overlap *)

(** Two records occupy disjoint regions of the slab. *)
Definition separate (a b : FileRecordV1) : Prop :=
  start_offset a + record_len a <= start_offset b \/ start_offset b + record_len b <= start_offset a.
Definition all_separate (rs : list FileRecordV1) : Prop := ForallOrdPairs separate rs.

Lemma separate_sym a b : separate a b -> separate b a.
Proof. unfold separate; lia. Qed.

Lemma all_separate_perm rs rs' : rs ≡ₚ rs' -> all_separate rs -> all_separate rs'.
Proof.
  unfold all_separate; induction 1 as [|x l l' Hp IH|x y l|l1 l2 l3 _ IH1 _ IH2]; intros H; [done|..|by apply IH2, IH1].
  - inversion H as [|? ? Hx Hl]; subst; constructor; [by rewrite <- Hp|auto].
  - inversion H as [|? ? Hx Hl]; subst; inversion Hl as [|? ? Hy Hl']; subst; inversion Hx; subst.
    constructor; [constructor; [by apply separate_sym|done]|by constructor].
Qed.

Lemma alloc_cases r rs :
  (Forall (fun t => fits r t = false) rs /\ allocated r rs = rs ++ [r]) \/
  exists pre t post, rs = pre ++ t :: post /\ fits r t = true /\
    allocated r rs ≡ₚ at_offset r (start_offset t) ::
      (if 0 <? record_len t - record_len r
       then [tombstone (start_offset t + record_len r) (record_len t - record_len r)] else []) ++ pre ++ post.
Proof.
  assert (Forall (fun t => fits r t = false) rs \/
          exists pre t post, rs = pre ++ t :: post /\ Forall (fun t => fits r t = false) pre /\ fits r t = true)
    as [H|(pre & t & post & -> & Hpre & Ht)].
  { induction rs as [|t rs IH]; [by left; constructor|]. destruct (fits r t) eqn:Ht.
    - right; exists [], t, rs; done.
    - destruct IH as [IH|(pre & t' & post & -> & Hpre & Ht')]; [by left; constructor|].
      right; exists (t :: pre), t', post; split; [done|]; split; [by constructor|done]. }
  - left; split; [done|by apply allocated_miss].
  - right; exists pre, t, post; split; [done|]; split; [done|].
    rewrite allocated_hit by done; cbn zeta.
    rewrite <- Permutation_middle; cbn [app]; f_equiv. rewrite Permutation_app_comm; done.
Qed.

(** Allocation safety.  If the regions of the records are pairwise disjoint and
    the new record's own region lies beyond them, they are pairwise disjoint after
    the allocation: reuse and splitting of tombstones never overlap two files. *)
Theorem alloc_keeps_regions_separate r rs :
  Forall record_ok rs -> record_ok r -> all_separate rs -> Forall (separate r) rs ->
  all_separate (allocated r rs).
Proof.
  intros Hok Hr Hsep Hnew; destruct (alloc_cases r rs) as [[_ ->]|(pre & t & post & -> & Hfit & Hperm)].
  - apply (all_separate_perm (r :: rs)); [apply Permutation_cons_append|by constructor].
  - apply (all_separate_perm _ _ (symmetry Hperm)). clear Hperm.
    assert (record_ok t) as Ht by (by apply Forall_app in Hok as [_ Hok]; inversion Hok).
    apply (all_separate_perm _ (t :: pre ++ post)) in Hsep; [|by rewrite <- Permutation_middle].
    inversion Hsep as [|? ? Hxt Hrest]; subst.
    apply andb_true_iff in Hfit as [_ Hle]; apply Z.leb_le in Hle.
    pose proof (record_len_bound t); pose proof (record_len_bound r).
    assert (record_len (at_offset r (start_offset t)) = record_len r) as Hla by done.
    destruct (Z.ltb_spec 0 (record_len t - record_len r)) as [Hleft|Hleft]; cbn [app].
    + assert (0 <= start_offset t) by (by destruct Ht as [((? & _) & _) _]).
      destruct (tombstone_ok (start_offset t + record_len r) (record_len t - record_len r)) as [_ Htl];
        [lia..|destruct Ht; lia|].
      constructor; [constructor|constructor; [|done]].
      * left; rewrite Hla; cbn; lia.
      * eapply Forall_impl; [exact Hxt|]; intros x; unfold separate; rewrite Hla; cbn [start_offset at_offset]; lia.
      * eapply Forall_impl; [exact Hxt|]; intros x; unfold separate; rewrite Htl; cbn [start_offset tombstone]; lia.
    + constructor; [|done].
      eapply Forall_impl; [exact Hxt|]; intros x; unfold separate; rewrite Hla; cbn [start_offset at_offset]; lia.
Qed.

Lemma alloc_keeps_regions_separate_witness :
  all_separate (allocated demo_record [mkRecord 1000 600 0 (zeros 40)]).
Proof.
  apply alloc_keeps_regions_separate.
  - repeat constructor; vm_compute; (done || discriminate).
  - repeat split; vm_compute; (done || discriminate).
  - repeat constructor.
  - repeat constructor. vm_compute; discriminate.
Defined.
