(* ===== verification/Nilfs.v ===== *)
(** * NilFS file names and the file table (lib/nilfsLocal.ts, lib/nilfsPath.ts, domain/nilfs.ts)

    What the site reads out of MDU #0: the file entries, and the names it gives
    new files.  [Layout] is the writer of the same bytes; the parser is shown to
    return exactly the live records the writer holds. *)
From S2P Require Import Prelude JsString JsNum TransportTypes Effects Bytes Text Layout.
#[local] Open Scope Z_scope.

Record NilfsFileEntry := mkEntry {
  path : units; size_bytes : Z; entry_start : Z; flags : Z
}.

(** ** nilfsLocal.ts *)

Definition unpackLengthAndFlags (lengthAndFlags : Z) : Z * Z :=
  (round53 (Z.land lengthAndFlags 72057594037927935), round53 (Z.land (Z.shiftr lengthAndFlags 56) 255)).

(** [bytes.slice(0, bytes.indexOf(0))], or all bytes without a zero. *)
Fixpoint until_nul (l : bytes) : bytes :=
  match l with
  | [] => []
  | b :: l' => if b =? 0 then [] else b :: until_nul l'
  end.
Definition parseNullTerminatedUtf8 (l : bytes) : units := TextDecoder_decode (until_nul l).

(** The loop over record indices; [fuel] bounds the records that fit in the MDU. *)
Fixpoint parse_loop (fuel : nat) (mdu0 : bytes) (recordCount i : Z) : list NilfsFileEntry :=
  if i <? recordCount then
    match fuel with
    | O => []
    | S fuel =>
        let off := FILE_TABLE_START + FILE_TABLE_HEADER_SIZE + i * FILE_RECORD_SIZE in
        if zlen mdu0 <? off + FILE_RECORD_SIZE then []
        else
          let startOffset := round53 (getBigUint64LE off mdu0) in
          let '(length, flags) := unpackLengthAndFlags (getBigUint64LE (off + 8) mdu0) in
          let path := trim_units (parseNullTerminatedUtf8 (slice (off + 24) (off + 64) mdu0)) in
          let rest := parse_loop fuel mdu0 recordCount (i + 1) in
          if bool_decide (path = []) then rest
          else if length <=? 0 then rest
          else mkEntry path length startOffset flags :: rest
    end
  else [].

Definition max_records : Z :=
  (MDU_SIZE - FILE_TABLE_START - FILE_TABLE_HEADER_SIZE) / FILE_RECORD_SIZE + 1.

Definition parseNilfsFilesFromMdu0 (mdu0 : bytes) : list NilfsFileEntry :=
  if negb (zlen mdu0 =? MDU_SIZE) then []
  else
    let magic := parseNullTerminatedUtf8 (slice FILE_TABLE_START (FILE_TABLE_START + 4) mdu0) in
    if negb (bool_decide (magic = units_of "NILF")) then []
    else parse_loop (Z.to_nat max_records) mdu0 (getUint32LE (FILE_TABLE_START + 8) mdu0) 0.

(** ** nilfsPath.ts *)

Definition NILFS_RECORD_PATH_MAX_BYTES : Z := 40.

Fixpoint split_units (c : Z) (l : units) : list units :=
  match l with
  | [] => [[]]
  | d :: l' =>
      if d =? c then [] :: split_units c l'
      else match split_units c l' with w :: ws => (d :: w) :: ws | [] => [[d]] end
  end.

(** The part after the last delimiter, if any part is non-empty. *)
Definition basename (value : units) : units :=
  if bool_decide (47 ∈ value) then
    match List.last (List.filter (fun w => negb (bool_decide (w = []))) (split_units 47 value)) [] with
    | [] => value
    | w => w
    end
  else value.

Definition printable (u : Z) : bool := negb ((u <? 32) || (u =? 127)).

Definition sanitizeNilfsRecordPath (input : units) : units :=
  let value := trim_units input in
  if bool_decide (value = []) then units_of "file"
  else
    let value := map (fun u => if u =? 92 then 47 else u) value in
    let value := basename value in
    let value := trim_units (List.filter printable value) in
    if bool_decide (value = []) then units_of "file"
    else if NILFS_RECORD_PATH_MAX_BYTES <? zlen value
    then take (Z.to_nat NILFS_RECORD_PATH_MAX_BYTES) value
    else value.

Example sanitize_basename :
  sanitizeNilfsRecordPath (units_of " a\b/c d.txt ") = units_of "c d.txt".
Proof. reflexivity. Qed.

(** ** [append_file] of the WebAssembly binding (nil_core/src/wasm.rs) *)

Definition pad40 (l : bytes) : bytes := l ++ zeros (40 - zlen l).
Definition append_file (p : units) (size start : Z) : M Mdu0Builder unit := fun b =>
  let l := TextEncoder_encode p in
  if 40 <? zlen l then (Thrown (JsThrown "path too long"), b)
  else append_file_record (mkRecord start (pack_length_and_flags size 0) 0 (pad40 l)) b.

(** ** The parser reads what the builder holds *)

(** The entry of a live record; tombstones and empty files have none. *)
Definition entry_of (r : FileRecordV1) : option NilfsFileEntry :=
  let '(len, fl) := unpack_length_and_flags (length_and_flags r) in
  let p := trim_units (TextDecoder_decode (until_nul (rec_path r))) in
  if bool_decide (p = []) || (len =? 0) then None
  else Some (mkEntry p (round53 len) (round53 (start_offset r)) fl).

Lemma unpack_agrees v :
  unpackLengthAndFlags v = (round53 (record_len (mkRecord 0 v 0 [])), snd (unpack_length_and_flags v)).
Proof.
  unfold unpackLengthAndFlags; f_equal. apply round53_exact.
  change 255 with (Z.ones 8); destruct (land_ones_bound 8 (Z.shiftr v 56)) as [H1 H2]; [lia|].
  rewrite Z.abs_eq by done; by eapply Z.lt_trans.
Qed.

Lemma entry_of_eq r :
  entry_of r =
  let p := trim_units (TextDecoder_decode (until_nul (rec_path r))) in
  if bool_decide (p = []) || (record_len r =? 0) then None
  else Some (mkEntry p (round53 (record_len r)) (round53 (start_offset r))
               (snd (unpack_length_and_flags (length_and_flags r)))).
Proof. done. Qed.

(** The fields the parser reads are those of the record at that index. *)
Lemma parse_fields b i :
  0 <= i -> let off := record_offset i in
  getBigUint64LE off (buffer b) = start_offset (get_file_record b i) /\
  getBigUint64LE (off + 8) (buffer b) = length_and_flags (get_file_record b i) /\
  slice (off + 24) (off + 64) (buffer b) = rec_path (get_file_record b i).
Proof.
  intros Hi off; assert (0 <= off) by (unfold off; layout_unfold; lia).
  unfold get_file_record, record_from_bytes, getBigUint64LE, get_le; change FILE_RECORD_SIZE with 64.
  cbn [start_offset length_and_flags rec_path]; fold off. rewrite !slice_slice by lia.
  split; [do 2 f_equal; lia|split; do 2 f_equal; lia || (f_equal; lia)].
Qed.

Lemma parse_loop_spec b : builder_inv b -> forall fuel i,
  0 <= i <= record_count (header b) -> record_count (header b) - i <= Z.of_nat fuel ->
  parse_loop fuel (buffer b) (record_count (header b)) i =
  omap entry_of (map (get_file_record b) (seqZ i (record_count (header b) - i))).
Proof.
  intros [Hs Hw Hm Hf Hc Hroom]; set (n := record_count (header b)) in *.
  induction fuel as [|fuel IH]; intros i Hi Hfuel; cbn [parse_loop]; destruct (Z.ltb_spec i n); try lia.
  1,3: replace (n - i) with 0 by lia; done.
  fold (record_offset i). rewrite Hs; change FILE_RECORD_SIZE with 64.
  destruct (Z.ltb_spec MDU_SIZE (record_offset i + 64)); [layout_unfold; lia|].
  destruct (parse_fields b i ltac:(lia)) as (-> & -> & ->).
  rewrite seqZ_cons by lia; cbn [map]. set (r := get_file_record b i).
  rewrite IH by lia. replace (Z.succ i) with (i + 1) by lia. replace (Z.pred (n - i)) with (n - (i + 1)) by lia.
  rewrite unpack_agrees; unfold parseNullTerminatedUtf8.
  set (rest := map _ _). change (omap entry_of (r :: rest)) with
    (match entry_of r with Some y => y :: omap entry_of rest | None => omap entry_of rest end).
  change (record_len _) with (record_len r); rewrite (entry_of_eq r); cbn zeta.
  pose proof (record_len_bound r) as [Hlen _].
  destruct (bool_decide (trim_units _ = [])); cbn [orb]; [done|].
  destruct (Z.eqb_spec (record_len r) 0) as [->|Hne]; [done|].
  pose proof (round53_pos (record_len r)). destruct (Z.leb_spec (round53 (record_len r)) 0); [lia|done].
Qed.

Lemma until_nul_none l : Forall (fun b => b <> 0) l -> until_nul l = l.
Proof.
  induction 1 as [|b l Hb _ IH]; [done|]; cbn [until_nul].
  destruct (Z.eqb_spec b 0); [done|by rewrite IH].
Qed.

Lemma until_nul_padded l n : Forall (fun b => b <> 0) l -> until_nul (l ++ zeros n) = l.
Proof.
  induction 1 as [|b l Hb _ IH]; cbn [until_nul app].
  - unfold zeros; by destruct (Z.to_nat n).
  - destruct (Z.eqb_spec b 0); [done|by rewrite IH].
Qed.

Lemma parse_builder b :
  builder_inv b -> parseNilfsFilesFromMdu0 (buffer b) = omap entry_of (records b).
Proof.
  intros Hb; pose proof Hb as [Hs Hw Hm Hf Hc Hroom]; unfold parseNilfsFilesFromMdu0.
  rewrite Hs, Z.eqb_refl; cbn [negb].
  assert (forall k, 0 <= k -> k <= 128 -> forall s, 0 <= s ->
    slice (FILE_TABLE_START + s) (FILE_TABLE_START + k) (buffer b) = slice s k (header_to_bytes (header b))) as Hin.
  { intros k Hk0 Hk s Hs0; rewrite <- Hf, slice_slice by (layout_unfold; lia); done. }
  replace (slice FILE_TABLE_START (FILE_TABLE_START + 4) (buffer b)) with MAGIC_NILF; cycle 1.
  { rewrite <- Hm, <- (header_magic_bytes _ Hw), <- Hin by lia. by rewrite Z.add_0_r. }
  replace (getUint32LE (FILE_TABLE_START + 8) (buffer b)) with (record_count (header b)); cycle 1.
  { rewrite <- (header_count_bytes _ Hw); unfold getUint32LE, get_le; f_equal.
    rewrite <- Hin by lia; f_equal; lia. }
  change (negb (bool_decide (parseNullTerminatedUtf8 MAGIC_NILF = units_of "NILF"))) with false.
  rewrite (parse_loop_spec b Hb) by (change max_records with 98303; layout_unfold; lia).
  unfold records; by rewrite Z.sub_0_r.
Qed.

Lemma splice_idem off chunk buf :
  0 <= off -> off + zlen chunk <= zlen buf -> slice off (off + zlen chunk) buf = chunk ->
  splice off chunk buf = buf.
Proof.
  intros Ho Hf Heq; destruct (splice_spec off chunk buf Ho Hf) as [Hl Hn].
  apply bytes_eq; [done|]; intros i Hi; rewrite Hn by lia.
  destruct (Z.leb_spec off i), (Z.ltb_spec i (off + zlen chunk)); cbn [andb]; try done.
  rewrite <- Heq at 1; rewrite znth_slice by lia; f_equal; lia.
Qed.

Lemma builder_bytes_buffer b : builder_inv b -> builder_bytes b = buffer b.
Proof.
  intros [Hs Hw Hm Hf Hc Hroom]; pose proof (zlen_header_to_bytes _ Hw) as Hz.
  apply splice_idem; [layout_unfold; lia..|]. by rewrite Hz.
Qed.

(** C28: reader and writer agree.  For every MDU #0 the builder can hold, the
    site's parser returns exactly the live records, in order, with their names,
    lengths, offsets and flags; tombstones and empty records are skipped. *)
Theorem parse_reads_builder b :
  builder_inv b -> parseNilfsFilesFromMdu0 (builder_bytes b) = omap entry_of (records b).
Proof. intros Hb; rewrite builder_bytes_buffer by done; by apply parse_builder. Qed.

Lemma parse_reads_builder_witness :
  parseNilfsFilesFromMdu0 (builder_bytes (new_with_commitments 65536 64)) = [].
Proof. exact (parse_reads_builder _ (new_inv 65536 64)). Defined.

(** ** Names *)

Definition good_unit (u : Z) : Prop := printable u = true.

Lemma trim_units_nil_or l : trim_units l = [] \/ exists u r, trim_units l = u :: r.
Proof. destruct (trim_units l); eauto. Qed.

Lemma sanitize_fits_record_facts input :
  let p := sanitizeNilfsRecordPath input in
  p <> [] /\ zlen p <= NILFS_RECORD_PATH_MAX_BYTES /\ Forall good_unit p.
Proof.
  cbn zeta; unfold sanitizeNilfsRecordPath.
  assert (units_of "file" <> [] /\ zlen (units_of "file") <= NILFS_RECORD_PATH_MAX_BYTES /\
          Forall good_unit (units_of "file")) as Hfile.
  { repeat split; [done|vm_compute; discriminate|by repeat constructor]. }
  case_bool_decide; [done|]. case_bool_decide as Hv; [done|].
  set (v := trim_units (List.filter _ _)) in *.
  assert (Forall good_unit v) as Hgood.
  { apply trim_units_Forall, List.Forall_forall; intros u Hu; apply filter_In in Hu; apply Hu. }
  destruct (Z.ltb_spec NILFS_RECORD_PATH_MAX_BYTES (zlen v)).
  - split; [by destruct v|]. rewrite zlen_take by done. split; [lia|]. by apply Forall_take.
  - done.
Qed.

(** A sanitised name is never empty, has at most 40 code units and no control
    characters, whatever the input. *)
Theorem sanitize_fits_record input :
  let p := sanitizeNilfsRecordPath input in
  p <> [] /\ zlen p <= NILFS_RECORD_PATH_MAX_BYTES /\ Forall good_unit p.
Proof. apply sanitize_fits_record_facts. Qed.

Lemma split_units_Forall (P : Z -> Prop) c l : Forall P l -> Forall (Forall P) (split_units c l).
Proof.
  induction 1 as [|u l Hu _ IH]; cbn [split_units]; [by repeat constructor|].
  destruct (u =? c); [by constructor|].
  destruct (split_units c l) as [|w ws]; [by repeat constructor|].
  inversion IH; subst; by repeat constructor.
Qed.

Lemma filter_Forall {A} (P : A -> Prop) f l : Forall P l -> Forall P (List.filter f l).
Proof. induction 1 as [|a l Ha _ IH]; cbn [List.filter]; [done|]; by case_match; [constructor|]. Qed.

Lemma last_Forall {A} (P : A -> Prop) l d : Forall P l -> P d -> P (List.last l d).
Proof. induction 1 as [|a l Ha Hl IH]; intros Hd; [done|]; cbn [List.last]; by destruct l; [|apply IH]. Qed.

Lemma basename_Forall (P : Z -> Prop) l : Forall P l -> Forall P (basename l).
Proof.
  intros Hl; unfold basename; case_match; [|done].
  pose proof (last_Forall (Forall P) _ [] (filter_Forall _ (fun w => negb (bool_decide (w = []))) _
    (split_units_Forall P 47 l Hl)) ltac:(constructor)) as Hlast.
  by case_match.
Qed.

Lemma slash_ascii l :
  Forall ascii_unit l -> Forall ascii_unit (map (fun u => if u =? 92 then 47 else u) l).
Proof.
  induction 1 as [|u l Hu _ IH]; cbn [map]; [done|].
  constructor; [|done]. destruct (u =? 92); [done|exact Hu].
Qed.

Lemma sanitize_ascii input :
  Forall ascii_unit input -> Forall ascii_unit (sanitizeNilfsRecordPath input).
Proof.
  intros Hin; unfold sanitizeNilfsRecordPath.
  assert (Forall ascii_unit (units_of "file")) by (by repeat constructor).
  case_match; [done|]. case_match; [done|].
  assert (Forall ascii_unit (trim_units (List.filter printable
    (basename (map (fun u => if u =? 92 then 47 else u) (trim_units input)))))) as Hv.
  { apply trim_units_Forall, filter_Forall, basename_Forall.
    by apply slash_ascii, trim_units_Forall. }
  case_match; [by apply Forall_take|done].
Qed.

(** The name keeps its first character: it does not read as white space. *)
Lemma sanitize_trim_nonempty input : trim_units (sanitizeNilfsRecordPath input) <> [].
Proof.
  assert (forall l, match l with [] => False | u :: _ => is_ws_unit u = false end -> trim_units l <> []) as Hkeep.
  { intros [|u l] Hu; [done|]; unfold trim_units; cbn [trim_start_units]; rewrite Hu.
    intros Hnil. destruct (trim_start_units_spec (rev (u :: l))) as (p & Hp & Hall & _).
    apply (f_equal (@rev Z)) in Hnil; rewrite rev_involutive in Hnil; rewrite Hnil, app_nil_r in Hp.
    rewrite <- Hp in Hall; apply Forall_rev in Hall; rewrite rev_involutive in Hall.
    inversion Hall; congruence. }
  apply Hkeep; unfold sanitizeNilfsRecordPath.
  case_bool_decide; [reflexivity|]. case_bool_decide as Hv; [reflexivity|]. set (v := trim_units (List.filter _ _)) in *.
  destruct (trim_units_spec (List.filter printable
    (basename (map (fun u => if u =? 92 then 47 else u) (trim_units input))))) as (_ & _ & _ & _ & _ & Hh & _).
  fold v in Hh. destruct v as [|u v]; [done|].
  change (Z.to_nat NILFS_RECORD_PATH_MAX_BYTES) with 40%nat.
  destruct (NILFS_RECORD_PATH_MAX_BYTES <? zlen (u :: v)); exact Hh.
Qed.

Lemma ascii_name_entry p size start :
  Forall ascii_unit p -> Forall good_unit p -> trim_units p <> [] ->
  0 < size < 2 ^ 53 -> 0 <= start < 2 ^ 53 ->
  entry_of (mkRecord start (pack_length_and_flags size 0) 0 (pad40 p)) = Some (mkEntry (trim_units p) size start 0).
Proof.
  intros Hp Hg Hne Hs Ho; rewrite entry_of_eq; cbn [rec_path start_offset length_and_flags]; unfold pad40.
  rewrite until_nul_padded; cycle 1.
  { eapply Forall_impl; [exact Hg|]; by intros u Hu ->. }
  rewrite TextDecoder_decode_ascii by done; cbn zeta.
  destruct (pack_unpack size 0 ltac:(lia) ltac:(lia)) as [E _].
  assert (record_len (mkRecord start (pack_length_and_flags size 0) 0 (p ++ zeros (40 - zlen p))) = size) as ->
    by (unfold record_len; cbn [length_and_flags]; by rewrite E).
  rewrite E, !round53_exact by lia. case_bool_decide; [done|].
  destruct (Z.eqb_spec size 0); [lia|done].
Qed.

Lemma append_file_ok b input size start b' :
  builder_inv b -> Forall ascii_unit input -> 0 < size < 2 ^ 53 -> 0 <= start < 2 ^ 53 ->
  append_file (sanitizeNilfsRecordPath input) size start b = (Ok tt, b') ->
  builder_inv b' /\
  parseNilfsFilesFromMdu0 (builder_bytes b') =
  parseNilfsFilesFromMdu0 (builder_bytes b) ++
    [mkEntry (trim_units (sanitizeNilfsRecordPath input)) size start 0].
Proof.
  intros Hb Hin Hs Ho; destruct (sanitize_fits_record_facts input) as (_ & Hlen & Hgood).
  pose proof (sanitize_ascii input Hin) as Hasc; set (p := sanitizeNilfsRecordPath input) in *.
  unfold append_file; rewrite TextEncoder_encode_ascii by done.
  destruct (Z.ltb_spec 40 (zlen p)); [done|].
  destruct (pack_unpack size 0 ltac:(lia) ltac:(lia)) as [_ Hpack].
  assert (record_wf (mkRecord start (pack_length_and_flags size 0) 0 (pad40 p))) as Hwf.
  { repeat split; cbn [start_offset length_and_flags timestamp rec_path]; try lia.
    unfold pad40; rewrite zlen_app, zlen_zeros by lia; lia. }
  pose proof (append_spec b _ Hb Hwf) as Hap.
  destruct (FILE_TABLE_END <? _); [by rewrite Hap|].
  destruct Hap as (b1 & E & Hb1 & Hrec); rewrite E; intros [= <-]; split; [done|].
  rewrite !builder_bytes_buffer, !parse_builder by done. rewrite Hrec, omap_app; f_equal.
  set (r := mkRecord _ _ _ _).
  change (omap entry_of [r]) with (match entry_of r with Some y => [y] | None => [] end).
  unfold r; rewrite ascii_name_entry; [done|done|done|apply sanitize_trim_nonempty|done|done].
Qed.

(** The first file always fits. *)
Lemma append_file_first b input size start :
  builder_inv b -> records b = [] -> Forall ascii_unit input -> 0 < size < 2 ^ 53 -> 0 <= start < 2 ^ 53 ->
  exists b', append_file (sanitizeNilfsRecordPath input) size start b = (Ok tt, b').
Proof.
  intros Hb Hrec Hin Hs Ho; destruct (sanitize_fits_record_facts input) as (_ & Hlen & _).
  pose proof (sanitize_ascii input Hin) as Hasc; unfold append_file; rewrite TextEncoder_encode_ascii by done.
  destruct (Z.ltb_spec 40 (zlen (sanitizeNilfsRecordPath input))); [unfold NILFS_RECORD_PATH_MAX_BYTES in Hlen; lia|].
  destruct (pack_unpack size 0 ltac:(lia) ltac:(lia)) as [_ Hpack].
  assert (record_wf (mkRecord start (pack_length_and_flags size 0) 0 (pad40 (sanitizeNilfsRecordPath input)))) as Hwf.
  { repeat split; cbn [start_offset length_and_flags timestamp rec_path]; try lia.
    unfold pad40; rewrite zlen_app, zlen_zeros by lia; lia. }
  pose proof (append_spec b _ Hb Hwf) as Hap.
  assert (record_count (header b) = 0) as Hc by (rewrite <- length_records, Hrec by apply (inv_count _ Hb); done).
  rewrite Hc in Hap; change (FILE_TABLE_END <? record_offset 0 + 64) with false in Hap; cbv iota in Hap.
  destruct Hap as (b' & E & _); by exists b'.
Qed.

(** A file uploaded under an ASCII name is listed: after [append_file] with the
    sanitised name the parser returns the previous entries and one more, with the
    sanitised name (white space exposed by truncation trimmed), the size and the offset. *)
Theorem uploaded_file_is_listed b input size start b' :
  builder_inv b -> Forall ascii_unit input -> 0 < size < 2 ^ 53 -> 0 <= start < 2 ^ 53 ->
  append_file (sanitizeNilfsRecordPath input) size start b = (Ok tt, b') ->
  parseNilfsFilesFromMdu0 (builder_bytes b') =
  parseNilfsFilesFromMdu0 (builder_bytes b) ++
    [mkEntry (trim_units (sanitizeNilfsRecordPath input)) size start 0].
Proof. apply append_file_ok. Qed.

Lemma uploaded_file_is_listed_witness :
  let b := new_with_commitments 65536 64 in
  let name := units_of "dir/report.txt" in
  exists b', append_file (sanitizeNilfsRecordPath name) 500 0 b = (Ok tt, b') /\
    parseNilfsFilesFromMdu0 (builder_bytes b') =
    parseNilfsFilesFromMdu0 (builder_bytes b) ++ [mkEntry (units_of "report.txt") 500 0 0].
Proof.
  intros b name; eexists; split; [reflexivity|].
  apply (uploaded_file_is_listed b name 500 0); [apply new_inv| |lia|lia|reflexivity].
  unfold name; vm_compute units_of; repeat (constructor; [unfold ascii_unit; lia|]); constructor.
Defined.
