(* ===== verification/Opfs.v ===== *)
(** * The origin private file system (lib/storage/OpfsAdapter.ts)

    The browser's store: one directory per deal, holding the deal's MDUs, its
    shards, its manifest and cached downloads.  Directories and files are finite
    maps; a handle is the name it was obtained under.  SHA-256 and the hex
    encoder, which name the cached files, come from a package and are parameters. *)
From S2P Require Import Prelude JsString JsNum TransportTypes Effects Bytes Text.
#[local] Open Scope Z_scope.

Abbreviation dir := (gmap string bytes).
Abbreviation opfs := (gmap string dir).

Definition NotFoundError : jserr := JsError "NotFoundError" "not found".
Definition is_not_found (e : jserr) : bool :=
  match e with JsError name _ => eqb name "NotFoundError" | _ => false end.

(** A name the file system accepts: no path separator, not empty, [.] or [..]. *)
Definition valid_name (s : string) : bool :=
  truthy s && negb (eqb s ".") && negb (eqb s "..") && negb (includes "/" s).
Definition check_name {W} (s : string) : M W unit :=
  if valid_name s then mret tt else mthrow (JsError "TypeError" "Name is not allowed").

(** ** [FileSystemDirectoryHandle] *)

Definition root_getDirectoryHandle (name : string) (create : bool) : M opfs string :=
  check_name name ;;
  prim (fun fs => match fs !! name with
                  | Some _ => (Ok name, fs)
                  | None => if create then (Ok name, <[name := ∅]> fs) else (Thrown NotFoundError, fs)
                  end).
Definition root_removeEntry (name : string) : M opfs unit :=
  check_name name ;;
  prim (fun fs => match fs !! name with
                  | Some _ => (Ok tt, delete name fs)
                  | None => (Thrown NotFoundError, fs)
                  end).

Definition files_of (fs : opfs) (d : string) : dir := default ∅ (fs !! d).
Definition put_file (d name : string) (data : bytes) (fs : opfs) : opfs :=
  <[d := <[name := data]> (files_of fs d)]> fs.

Definition dir_getFileHandle (d name : string) (create : bool) : M opfs string :=
  check_name name ;;
  prim (fun fs => match files_of fs d !! name with
                  | Some _ => (Ok name, fs)
                  | None => if create then (Ok name, put_file d name [] fs) else (Thrown NotFoundError, fs)
                  end).
Definition dir_removeEntry (d name : string) : M opfs unit :=
  check_name name ;;
  prim (fun fs => match files_of fs d !! name with
                  | Some _ => (Ok tt, <[d := delete name (files_of fs d)]> fs)
                  | None => (Thrown NotFoundError, fs)
                  end).
Definition file_contents (d name : string) : M opfs bytes := fun fs =>
  match files_of fs d !! name with
  | Some data => (Ok data, fs)
  | None => (Thrown NotFoundError, fs)
  end.
(** The entries of a directory, in the order of the store. *)
Definition dir_values (d : string) : M opfs (list string) := fun fs =>
  (Ok (map fst (map_to_list (files_of fs d))), fs).

(** ** OpfsAdapter.ts *)

Definition deal_dir (dealId : string) : string := "deal-" +:+ dealId.
Definition getDealDirectory (dealId : string) : M opfs string :=
  root_getDirectoryHandle (deal_dir dealId) true.

(** [createWritable], [write] and [close] replace the contents. *)
Definition writeBlob (dealId name : string) (data : bytes) : M opfs unit :=
  dealDir ← getDealDirectory dealId;
  fileHandle ← dir_getFileHandle dealDir name true;
  modify (put_file dealDir fileHandle data).

Definition readBlob (dealId name : string) : M opfs (option bytes) :=
  dealDir ← getDealDirectory dealId;
  try_catch
    (fileHandle ← dir_getFileHandle dealDir name false;
     buffer ← file_contents dealDir fileHandle;
     mret (Some buffer))
    (fun e => if is_not_found e then mret None else mthrow e).

Definition deleteDealFile (dealId name : string) : M opfs unit :=
  dealDir ← getDealDirectory dealId;
  try_catch (dir_removeEntry dealDir name)
    (fun e => if is_not_found e then mret tt else mthrow e).

Definition mdu_name (mduIndex : Z) : string := "mdu_" +:+ string_of_Z mduIndex +:+ ".bin".
Definition shard_name (mduIndex slot : Z) : string :=
  "mdu_" +:+ string_of_Z mduIndex +:+ "_slot_" +:+ string_of_Z slot +:+ ".bin".

Definition writeMdu (dealId : string) (mduIndex : Z) (data : bytes) : M opfs unit :=
  writeBlob dealId (mdu_name mduIndex) data.
Definition writeShard (dealId : string) (mduIndex slot : Z) (data : bytes) : M opfs unit :=
  writeBlob dealId (shard_name mduIndex slot) data.
Definition readMdu (dealId : string) (mduIndex : Z) : M opfs (option bytes) :=
  readBlob dealId (mdu_name mduIndex).
Definition readShard (dealId : string) (mduIndex slot : Z) : M opfs (option bytes) :=
  readBlob dealId (shard_name mduIndex slot).

Definition listDealFiles (dealId : string) : M opfs (list string) :=
  dealDir ← getDealDirectory dealId;
  dir_values dealDir.

Definition deleteDealDirectory (dealId : string) : M opfs unit :=
  try_catch (root_removeEntry (deal_dir dealId))
    (fun e => if is_not_found e then mret tt else mthrow e).

(** A string is written as its UTF-8 bytes. *)
Definition writeManifestRoot (dealId : string) (manifestRoot : units) : M opfs unit :=
  writeBlob dealId "manifest_root.txt" (TextEncoder_encode (trim_units manifestRoot)).
Definition writeManifestBlob (dealId : string) (manifestBlob : bytes) : M opfs unit :=
  writeBlob dealId "manifest.bin" manifestBlob.
Definition readManifestBlob (dealId : string) : M opfs (option bytes) :=
  readBlob dealId "manifest.bin".
Definition readManifestRoot (dealId : string) : M opfs (option units) :=
  b ← readBlob dealId "manifest_root.txt";
  match b with
  | None => mret None
  | Some l =>
      let trimmed := trim_units (TextDecoder_decode l) in
      mret (if bool_decide (trimmed = []) then None else Some trimmed)
  end.

Section CachedFiles.
Context (sha256 : bytes -> bytes) (bytesToHex : bytes -> string).

Definition cachedFileNameForPath (filePath : units) : string :=
  "filecache_" +:+ bytesToHex (sha256 (TextEncoder_encode filePath)) +:+ ".bin".
Definition writeCachedFile (dealId : string) (filePath : units) (data : bytes) : M opfs unit :=
  writeBlob dealId (cachedFileNameForPath filePath) data.
Definition readCachedFile (dealId : string) (filePath : units) : M opfs (option bytes) :=
  readBlob dealId (cachedFileNameForPath filePath).
Definition hasCachedFile (dealId : string) (filePath : units) : M opfs bool :=
  b ← readCachedFile dealId filePath;
  mret (match b with Some l => 0 <? zlen l | None => false end).
Definition deleteCachedFile (dealId : string) (filePath : units) : M opfs unit :=
  deleteDealFile dealId (cachedFileNameForPath filePath).
End CachedFiles.

Definition is_cache_name (f : string) : bool := starts_with "filecache_" f && ends_with ".bin" f.
Definition clearCachedFiles (dealId : string) : M opfs unit :=
  files ← listDealFiles dealId;
  for_each (List.filter is_cache_name files) (fun name => deleteDealFile dealId name).

(** ** What the operations do to the store *)

(** The store with the deal's directory in place. *)
Definition with_deal (dealId : string) (fs : opfs) : opfs :=
  <[deal_dir dealId := files_of fs (deal_dir dealId)]> fs.
Definition deal_files (dealId : string) (fs : opfs) : dir := files_of fs (deal_dir dealId).

Lemma deal_dir_inj a b : deal_dir a = deal_dir b -> a = b.
Proof. unfold deal_dir; by intros ?%String.app_inj. Qed.

Lemma deal_files_with id id' fs : deal_files id' (with_deal id fs) = deal_files id' fs.
Proof.
  unfold deal_files, with_deal, files_of; destruct (decide (deal_dir id = deal_dir id')) as [->|Hne].
  - by rewrite lookup_insert_eq.
  - by rewrite lookup_insert_ne.
Qed.

Lemma deal_files_put id name data id' fs :
  deal_files id' (put_file (deal_dir id) name data fs) =
  if decide (id = id') then <[name := data]> (deal_files id fs) else deal_files id' fs.
Proof.
  unfold deal_files, put_file, files_of; destruct (decide (id = id')) as [->|Hne].
  - by rewrite lookup_insert_eq.
  - rewrite lookup_insert_ne; [done|]. by intros ?%deal_dir_inj.
Qed.

Definition valid_deal (dealId : string) : Prop := valid_name (deal_dir dealId) = true.

Lemma files_of_with id fs : files_of (with_deal id fs) (deal_dir id) = deal_files id fs.
Proof. apply (deal_files_with id id). Qed.

Lemma getDealDirectory_run id fs :
  valid_deal id -> getDealDirectory id fs = (Ok (deal_dir id), with_deal id fs).
Proof.
  intros Hv; unfold getDealDirectory, root_getDirectoryHandle, check_name; rewrite Hv; mrun.
  unfold with_deal, files_of; destruct (fs !! deal_dir id) eqn:E; cbn [default from_option]; [|done].
  by rewrite insert_id.
Qed.

Lemma readBlob_run id name fs :
  valid_deal id -> valid_name name = true ->
  readBlob id name fs = (Ok (deal_files id fs !! name), with_deal id fs).
Proof.
  intros Hv Hn; unfold readBlob; mrun; rewrite getDealDirectory_run by done.
  unfold dir_getFileHandle, file_contents, check_name; rewrite Hn; mrun; rewrite files_of_with.
  destruct (deal_files id fs !! name) eqn:E; mrun; [by rewrite files_of_with, E|done].
Qed.

Lemma put_file_with id name data fs :
  put_file (deal_dir id) name data (with_deal id fs) = put_file (deal_dir id) name data fs.
Proof. unfold put_file; rewrite files_of_with; unfold with_deal; by rewrite insert_insert_eq. Qed.

Lemma put_file_put_file d name data data' fs :
  put_file d name data (put_file d name data' fs) = put_file d name data fs.
Proof. unfold put_file, files_of; by rewrite lookup_insert_eq; cbn; rewrite !insert_insert_eq. Qed.

Lemma writeBlob_run id name data fs :
  valid_deal id -> valid_name name = true ->
  writeBlob id name data fs = (Ok tt, put_file (deal_dir id) name data fs).
Proof.
  intros Hv Hn; unfold writeBlob; mrun; rewrite getDealDirectory_run by done.
  unfold dir_getFileHandle, check_name; rewrite Hn; mrun; rewrite files_of_with.
  destruct (deal_files id fs !! name); by rewrite ?put_file_put_file, put_file_with.
Qed.

Lemma listDealFiles_run id fs :
  valid_deal id ->
  listDealFiles id fs = (Ok (map fst (map_to_list (deal_files id fs))), with_deal id fs).
Proof.
  intros Hv; unfold listDealFiles, dir_values; mrun; rewrite getDealDirectory_run by done.
  by rewrite files_of_with.
Qed.

Lemma deleteDealFile_run id name fs :
  valid_deal id -> valid_name name = true ->
  exists fs', deleteDealFile id name fs = (Ok tt, fs') /\
    forall id', deal_files id' fs' = if decide (id = id') then delete name (deal_files id fs) else deal_files id' fs.
Proof.
  intros Hv Hn; unfold deleteDealFile, dir_removeEntry, check_name; mrun.
  rewrite getDealDirectory_run by done; rewrite Hn; mrun; rewrite files_of_with.
  destruct (deal_files id fs !! name) eqn:E; eexists; (split; [done|]); intros id'.
  - unfold deal_files at 1, files_of; destruct (decide (id = id')) as [<-|Hne].
    + by rewrite lookup_insert_eq.
    + rewrite lookup_insert_ne by (by intros ?%deal_dir_inj). apply deal_files_with.
  - rewrite deal_files_with; destruct (decide (id = id')) as [<-|]; [|done].
    by rewrite delete_id.
Qed.

(** ** Artifact names *)

Definition file_char (c : ascii) : bool := negb (bool_decide (c = "/"%char)).

Lemma valid_name_chars s :
  2 < zlen (chars s) -> Forall (fun c => file_char c = true) (chars s) -> valid_name s = true.
Proof.
  intros Hlen Hc; unfold valid_name, eqb, truthy; rewrite includes_char.
  destruct (decide (s = "" \/ s = "." \/ s = "..")) as [ [ -> | [ -> | -> ] ] | Hne]; [vm_compute in Hlen; done..|].
  rewrite !bool_decide_false; [by destruct s; [tauto|]| |tauto|tauto].
  intros Hin; rewrite Forall_forall in Hc; by specialize (Hc _ Hin).
Qed.

Lemma digits_file_chars l : Forall digit_char l -> Forall (fun c => file_char c = true) l.
Proof.
  intros H; eapply Forall_impl; [exact H|]; intros c Hc; unfold file_char; rewrite bool_decide_false; [done|].
  by apply digit_char_not with (1 := Hc).
Qed.

Lemma chars_mdu_name i : chars (mdu_name i) = chars "mdu_" ++ chars (string_of_Z i) ++ chars ".bin".
Proof. unfold mdu_name; by rewrite !chars_app. Qed.
Lemma chars_shard_name i s :
  chars (shard_name i s) = chars "mdu_" ++ chars (string_of_Z i) ++ chars "_slot_" ++ chars (string_of_Z s) ++ chars ".bin".
Proof. unfold shard_name; by rewrite !chars_app. Qed.

Ltac digits_of i := destruct (string_of_Z_digits i) as (?Hne & ?Hdig & ?Hval); [lia|].

Lemma mdu_name_valid i : 0 <= i -> valid_name (mdu_name i) = true.
Proof.
  intros Hi; digits_of i. apply valid_name_chars; rewrite chars_mdu_name.
  - rewrite !zlen_app; change (zlen (chars "mdu_")) with 4; zlen_pos; lia.
  - rewrite !Forall_app; repeat split; [by repeat constructor|by apply digits_file_chars|by repeat constructor].
Qed.

Lemma shard_name_valid i s : 0 <= i -> 0 <= s -> valid_name (shard_name i s) = true.
Proof.
  intros Hi Hs; digits_of i; digits_of s. apply valid_name_chars; rewrite chars_shard_name.
  - rewrite !zlen_app; change (zlen (chars "mdu_")) with 4; zlen_pos; lia.
  - rewrite !Forall_app; repeat split; try (by apply digits_file_chars); by repeat constructor.
Qed.

Lemma mdu_name_inj i j : 0 <= i -> 0 <= j -> mdu_name i = mdu_name j -> i = j.
Proof.
  intros Hi Hj Heq; apply (f_equal chars) in Heq; rewrite !chars_mdu_name in Heq.
  apply app_inv_head in Heq; digits_of i; digits_of j.
  apply digits_run_inj in Heq as (Heq & _); [congruence|done..].
Qed.

Lemma shard_name_inj i s j t :
  0 <= i -> 0 <= s -> 0 <= j -> 0 <= t -> shard_name i s = shard_name j t -> i = j /\ s = t.
Proof.
  intros Hi Hs Hj Ht Heq; apply (f_equal chars) in Heq; rewrite !chars_shard_name in Heq.
  apply app_inv_head in Heq; digits_of i; digits_of s; digits_of j; digits_of t.
  apply digits_run_inj in Heq as (Heq & _ & Heq'); [|done..].
  change (chars "slot_" ++ chars (string_of_Z s) ++ chars ".bin" = chars "slot_" ++ chars (string_of_Z t) ++ chars ".bin") in Heq'.
  apply app_inv_head, digits_run_inj in Heq' as (Heq' & _); [split; congruence|done..].
Qed.

Lemma mdu_not_shard i j t : 0 <= i -> 0 <= j -> 0 <= t -> mdu_name i <> shard_name j t.
Proof.
  intros Hi Hj Ht Heq; apply (f_equal chars) in Heq; rewrite chars_mdu_name, chars_shard_name in Heq.
  apply app_inv_head in Heq; digits_of i; digits_of j.
  apply digits_run_inj in Heq as (_ & Heq & _); done.
Qed.

(** ** Reading back what was written *)

(** What a deal's directory holds, by the operation that writes it. *)
Inductive artifact := AMdu (mduIndex : Z) | AShard (mduIndex slot : Z) | AManifest | ACached (filePath : units).

Section Artifacts.
Context (sha256 : bytes -> bytes) (bytesToHex : bytes -> string).
(** [bytesToHex] writes hexadecimal digits, none of which is a path separator. *)
Context (Hhex : forall l, Forall (fun c => file_char c = true) (chars (bytesToHex l))).
Abbreviation cache_name := (cachedFileNameForPath sha256 bytesToHex).

Definition artifact_name (a : artifact) : string :=
  match a with
  | AMdu i => mdu_name i
  | AShard i s => shard_name i s
  | AManifest => "manifest.bin"
  | ACached p => cache_name p
  end.
Definition write_artifact (dealId : string) (a : artifact) (data : bytes) : M opfs unit :=
  match a with
  | AMdu i => writeMdu dealId i data
  | AShard i s => writeShard dealId i s data
  | AManifest => writeManifestBlob dealId data
  | ACached p => writeCachedFile sha256 bytesToHex dealId p data
  end.
Definition read_artifact (dealId : string) (a : artifact) : M opfs (option bytes) :=
  match a with
  | AMdu i => readMdu dealId i
  | AShard i s => readShard dealId i s
  | AManifest => readManifestBlob dealId
  | ACached p => readCachedFile sha256 bytesToHex dealId p
  end.

Definition artifact_ok (a : artifact) : Prop :=
  match a with AMdu i => 0 <= i | AShard i s => 0 <= i /\ 0 <= s | _ => True end.
(** Distinct artifacts; two paths must not collide under SHA-256. *)
Definition distinct (a b : artifact) : Prop :=
  match a, b with ACached p, ACached q => cache_name p <> cache_name q | _, _ => a <> b end.

Lemma cache_name_valid p : valid_name (cache_name p) = true.
Proof.
  unfold cachedFileNameForPath; apply valid_name_chars; rewrite !chars_app.
  - rewrite !zlen_app; change (zlen (chars "filecache_")) with 10; zlen_pos; lia.
  - rewrite !Forall_app; repeat split; [by repeat constructor|apply Hhex|by repeat constructor].
Qed.

Lemma artifact_name_valid a : artifact_ok a -> valid_name (artifact_name a) = true.
Proof.
  destruct a; cbn [artifact_ok artifact_name]; intros.
  - by apply mdu_name_valid.
  - apply shard_name_valid; tauto.
  - reflexivity.
  - apply cache_name_valid.
Qed.

Lemma artifact_name_distinct a b :
  artifact_ok a -> artifact_ok b -> distinct a b -> artifact_name a <> artifact_name b.
Proof.
  destruct a, b; cbn [artifact_ok artifact_name distinct]; intros Ha Hb Hd Heq; try done.
  - apply mdu_name_inj in Heq; [congruence|done..].
  - revert Heq; apply mdu_not_shard; tauto.
  - symmetry in Heq; revert Heq; apply mdu_not_shard; tauto.
  - apply shard_name_inj in Heq as [-> ->]; tauto.
Qed.

Lemma read_artifact_run d a fs :
  valid_deal d -> artifact_ok a ->
  fst (read_artifact d a fs) = Ok (deal_files d fs !! artifact_name a).
Proof.
  intros Hd Ha; pose proof (artifact_name_valid a Ha) as Hn.
  destruct a; cbn [read_artifact artifact_name] in *;
    unfold readMdu, readShard, readManifestBlob, readCachedFile; by rewrite readBlob_run.
Qed.

Lemma write_artifact_run d a data fs :
  valid_deal d -> artifact_ok a ->
  write_artifact d a data fs = (Ok tt, put_file (deal_dir d) (artifact_name a) data fs).
Proof.
  intros Hd Ha; pose proof (artifact_name_valid a Ha) as Hn.
  destruct a; cbn [write_artifact artifact_name] in *;
    unfold writeMdu, writeShard, writeManifestBlob, writeCachedFile; by rewrite writeBlob_run.
Qed.

(** The store keeps what was written.  After writing an artifact of a deal,
    reading that artifact gives the data, and every other artifact of this or any
    other deal reads as before. *)
Theorem opfs_read_after_write d a data fs d' b :
  valid_deal d -> valid_deal d' -> artifact_ok a -> artifact_ok b ->
  let '(r, fs') := write_artifact d a data fs in
  r = Ok tt /\
  fst (read_artifact d a fs') = Ok (Some data) /\
  (d <> d' \/ distinct a b -> fst (read_artifact d' b fs') = fst (read_artifact d' b fs)).
Proof.
  intros Hd Hd' Ha Hb; rewrite write_artifact_run by done; rewrite !read_artifact_run by done.
  rewrite !deal_files_put, decide_True by done.
  split; [done|]; split; [by rewrite lookup_insert_eq|]. intros Hdiff.
  destruct (decide (d = d')) as [<-|]; [|done].
  rewrite lookup_insert_ne; [done|]. apply artifact_name_distinct; [done..|]. by destruct Hdiff.
Qed.
End Artifacts.

Lemma opfs_read_after_write_witness :
  let hex := fun _ : bytes => "00" in
  let '(r, fs') := write_artifact (fun l => l) hex "1" (AMdu 0) [7] ∅ in
  r = Ok tt /\
  fst (read_artifact (fun l => l) hex "1" (AMdu 0) fs') = Ok (Some [7]) /\
  ("1" <> "2" \/ AMdu 0 <> AMdu 0 ->
   fst (read_artifact (fun l => l) hex "2" (AMdu 0) fs') = fst (read_artifact (fun l => l) hex "2" (AMdu 0) ∅)).
Proof.
  intros hex; refine (opfs_read_after_write (fun l => l) hex _ "1" (AMdu 0) [7] ∅ "2" (AMdu 0) _ _ _ _); try done.
  by repeat constructor.
Defined.

(** ** Clearing the download cache *)

(** All names in the store are names the file system accepts. *)
Definition names_valid (fs : opfs) : Prop :=
  forall d name, is_Some (files_of fs d !! name) -> valid_name name = true.

Lemma delete_each d l fs :
  valid_deal d -> Forall (fun n => valid_name n = true) l ->
  exists fs', for_each l (fun name => deleteDealFile d name) fs = (Ok tt, fs') /\
    forall d' name, deal_files d' fs' !! name =
      if decide (d = d' /\ name ∈ l) then None else deal_files d' fs !! name.
Proof.
  intros Hd Hl; revert fs; induction Hl as [|n l Hn Hl IH]; intros fs; cbn [for_each].
  - exists fs; split; [done|]. intros d' name; rewrite decide_False; [done|]. by intros [_ Hin%elem_of_nil].
  - destruct (deleteDealFile_run d n fs Hd Hn) as (fs1 & E & H1).
    destruct (IH fs1) as (fs2 & E2 & H2). exists fs2; split; [mrun; rewrite E; exact E2|].
    intros d' name; rewrite H2, H1.
    destruct (decide (d = d')) as [<-|Hne].
    + destruct (decide (n = name)) as [<-|Hnn].
      * rewrite lookup_delete_eq. rewrite (decide_True (P := d = d /\ n ∈ n :: l)) by (split; [done|left]).
        by case_decide.
      * rewrite lookup_delete_ne by done. apply decide_ext; rewrite elem_of_cons; naive_solver.
    + rewrite !decide_False by tauto; done.
Qed.

(** [clearCachedFiles] deletes the cached downloads of the deal and nothing
    else: no MDU, shard or manifest of it and no file of another deal changes. *)
Theorem clearCachedFiles_exact d fs :
  valid_deal d -> names_valid fs ->
  exists fs', clearCachedFiles d fs = (Ok tt, fs') /\
    forall d' name, deal_files d' fs' !! name =
      if decide (d = d' /\ is_cache_name name = true) then None else deal_files d' fs !! name.
Proof.
  intros Hd Hv; unfold clearCachedFiles; rewrite bind_run, listDealFiles_run by done.
  set (l := List.filter is_cache_name _).
  assert (forall n, n ∈ l <-> is_cache_name n = true /\ is_Some (deal_files d fs !! n)) as Hl.
  { intros n; unfold l; rewrite list_elem_of_In, filter_In, <- list_elem_of_In.
    change (map fst) with (fmap (M:=list) (@fst string bytes)).
    rewrite list_elem_of_fmap; split.
    - intros [([n' x] & -> & Hin) Hc]; split; [done|]; exists x; by apply elem_of_map_to_list.
    - intros [Hc [x Hx]]; split; [|done]; exists (n, x); split; [done|]; by apply elem_of_map_to_list. }
  destruct (delete_each d l (with_deal d fs) Hd) as (fs' & E & Hfs').
  { apply Forall_forall; intros n Hn; apply Hl in Hn as [_ Hn]; by apply (Hv (deal_dir d)). }
  exists fs'; split; [exact E|]. intros d' name; rewrite Hfs', deal_files_with.
  destruct (decide (d = d')) as [<-|]; [|by rewrite !decide_False by tauto].
  destruct (deal_files d fs !! name) eqn:Hname; [|by repeat case_decide].
  apply decide_ext; rewrite Hl; naive_solver.
Qed.

Lemma clearCachedFiles_exact_witness :
  let fs : opfs := {["deal-1" := {["filecache_ab.bin" := [1]; "mdu_0.bin" := [2]]}]} in
  exists fs', clearCachedFiles "1" fs = (Ok tt, fs') /\
    forall d' name, deal_files d' fs' !! name =
      if decide ("1" = d' /\ is_cache_name name = true) then None else deal_files d' fs !! name.
Proof.
  intros fs; apply (clearCachedFiles_exact "1" fs); [done|].
  intros d name; unfold fs, files_of; intros Hs.
  destruct (decide ("deal-1" = d)) as [<-|Hd]; [|rewrite lookup_singleton_ne in Hs by done; by destruct Hs].
  rewrite lookup_singleton_eq in Hs; cbn in Hs.
  destruct (decide ("filecache_ab.bin" = name)) as [<-|Hn1]; [done|].
  rewrite lookup_insert_ne in Hs by done.
  destruct (decide ("mdu_0.bin" = name)) as [<-|Hn2]; [done|].
  rewrite lookup_singleton_ne in Hs by done; by destruct Hs.
Defined.
