(* ===== verification/NilfsOpfsFetch.v ===== *)
(** * Reading files out of the local slab (lib/nilfsOpfsFetch.ts)

    A slab in the store is [mdu_0.bin], the witness MDUs and the user MDUs.  The
    reader infers where the user MDUs start from the number of MDU files and the
    end of the last file, then decodes the file's bytes MDU by MDU. *)
From S2P Require Import Prelude JsString JsNum TransportTypes Effects Bytes Text RangeChunker NilfsCodec Nilfs Opfs.
#[local] Open Scope Z_scope.

(** [/^mdu_(\d+)\.bin$/] and the guards on the number it captures *)
Definition parseMduIndex (fileName : string) : option Z :=
  let l := chars fileName in
  if starts_with "mdu_" fileName then
    let '(d, r) := span_digits (drop 4 l) in
    if bool_decide (d <> []) && bool_decide (r = chars ".bin") then
      match Number_of_string (str d) with
      | DNum m _ => if m <? 0 then None else Some (round53 m)
      | _ => None
      end
    else None
  else None.

(** Offsets and sizes are finite here, so only the sign checks remain. *)
Definition inferMaxEnd (files : list NilfsFileEntry) : Z :=
  fold_left (fun maxEnd f =>
    if entry_start f <? 0 then maxEnd
    else if size_bytes f <=? 0 then maxEnd
    else if maxEnd <? entry_start f + size_bytes f then entry_start f + size_bytes f else maxEnd)
    files 0.

Record SlabLayout := mkSlab {
  witnessCount : Z; slabStartIdx : Z; totalMdus : Z; userCount : Z; maxEnd : Z
}.

Definition is_mdu_file (name : string) : bool :=
  match parseMduIndex name with Some _ => true | None => false end.

Definition inferWitnessCountFromOpfs (dealId : string) (files : list NilfsFileEntry) : M opfs SlabLayout :=
  fileNames ← listDealFiles dealId;
  let totalMdus := zlen (List.filter is_mdu_file fileNames) in
  if totalMdus =? 0 then js_error "no MDUs found in OPFS"
  else
    let maxEnd := inferMaxEnd files in
    let userCount := if 0 <? maxEnd then ceil_div maxEnd RAW_MDU_CAPACITY else 0 in
    let witnessCount := (totalMdus - 1) - userCount in
    if witnessCount <? 0 then
      js_error ("invalid slab layout: mdus=" +:+ string_of_Z totalMdus +:+ " userCount=" +:+ string_of_Z userCount)
    else mret (mkSlab witnessCount (1 + witnessCount) totalMdus userCount maxEnd).

(** [Math.max(0, Number(x || 0) || 0)] on an optional number *)
Definition safe_count (x : option num) : num :=
  match x with
  | Some (Num z) => Num (Z.max 0 z)
  | Some PInf => PInf
  | _ => Num 0
  end.

(** The [while (remaining > 0)] loop. *)
Fixpoint read_loop (fuel : nat) (dealId : string) (slabStartIdx maxEnd : Z)
    (out : bytes) (cursor remaining outOffset : Z) : M opfs bytes :=
  if 0 <? remaining then
    match fuel with
    | O => mthrow fuel_exhausted
    | S fuel =>
        let userMduIdx := cursor / RAW_MDU_CAPACITY in
        let offsetInMdu := cursor mod RAW_MDU_CAPACITY in
        let mduBase := userMduIdx * RAW_MDU_CAPACITY in
        let rawValidLen := Z.max 0 (Z.min RAW_MDU_CAPACITY (maxEnd - mduBase)) in
        if rawValidLen =? 0 then js_error "slab has no data for requested offset"
        else
          let available := rawValidLen - offsetInMdu in
          if available <=? 0 then js_error "requested offset beyond valid slab data"
          else
            let take := Z.min remaining available in
            let slabMduIndex := slabStartIdx + userMduIdx in
            mdu ← readMdu dealId slabMduIndex;
            match mdu with
            | None => js_error ("missing local MDU: mdu_" +:+ string_of_Z slabMduIndex +:+ ".bin")
            | Some mdu =>
                decoded ← lift (decodeRawSliceFromMdu mdu offsetInMdu take rawValidLen);
                out' ← lift (set_bytes out outOffset decoded);
                read_loop fuel dealId slabStartIdx maxEnd out' (cursor + take) (remaining - take) (outOffset + take)
            end
    end
  else mret out.

Definition readNilfsFileFromOpfs (dealId : string) (file : NilfsFileEntry) (allFiles : list NilfsFileEntry)
    (rangeStart rangeLen : option num) : M opfs bytes :=
  match safe_count rangeStart with
  | Num safeRangeStart =>
      if size_bytes file <=? safeRangeStart then js_error "rangeStart beyond EOF"
      else
        let maxLen := size_bytes file - safeRangeStart in
        let length := match safe_count rangeLen with
                      | Num n => if 0 <? n then Z.min maxLen n else maxLen
                      | _ => maxLen
                      end in
        slab ← inferWitnessCountFromOpfs dealId allFiles;
        read_loop (Z.to_nat length) dealId (slabStartIdx slab) (maxEnd slab) (zeros length)
          (entry_start file + safeRangeStart) length 0
  | _ => js_error "rangeStart beyond EOF"
  end.

Example parse_index : map parseMduIndex ["mdu_12.bin"; "mdu_1_slot_2.bin"; "mdu_.bin"; "mdu_7.bin "] =
  [Some 12; None; None; None].
Proof. reflexivity. Qed.

(** ** A persisted slab *)

(** The raw bytes user MDU [u] of a slab holds. *)
Definition slab_chunk (slab : bytes) (u : Z) : bytes :=
  slice (u * RAW_MDU_CAPACITY) (u * RAW_MDU_CAPACITY + RAW_MDU_CAPACITY) slab.

(** The store holds the slab of a deal: MDU #0 and [w] witness MDUs before the
    user MDUs, and user MDU [u] is the encoding of the [u]th chunk. *)
Definition holds_slab (fs : opfs) (dealId : string) (w : Z) (slab : bytes) : Prop :=
  0 <= w /\
  zlen (List.filter is_mdu_file (map fst (map_to_list (deal_files dealId fs))))
    = 1 + w + ceil_div (zlen slab) RAW_MDU_CAPACITY /\
  forall u, 0 <= u < ceil_div (zlen slab) RAW_MDU_CAPACITY ->
    exists mdu, encodeToMdu (slab_chunk slab u) = Ok mdu /\
      deal_files dealId fs !! mdu_name (1 + w + u) = Some mdu.

Lemma zlen_slab_chunk slab u :
  0 <= u -> zlen (slab_chunk slab u) = Z.max 0 (Z.min RAW_MDU_CAPACITY (zlen slab - u * RAW_MDU_CAPACITY)).
Proof. intros; unfold slab_chunk; rewrite zlen_slice; change RAW_MDU_CAPACITY with 8126464; lia. Qed.

Lemma slice_join a b c l : 0 <= a <= b -> b <= c -> slice a b l ++ slice b c l = slice a c l.
Proof.
  intros Ha Hb; pose proof (zlen_nonneg l). apply bytes_eq; rewrite zlen_app, !zlen_slice by lia; [lia|].
  intros i Hi; rewrite znth_app, zlen_slice by lia. destruct (Z.ltb_spec i (Z.max 0 (Z.min b (zlen l) - a))).
  - by rewrite !znth_slice by lia.
  - destruct (Z.ltb_spec i (b - a)).
    + rewrite (znth_out (slice b c l)), (znth_out (slice a c l)); [done|..]; rewrite zlen_slice by lia; lia.
    + rewrite !znth_slice by lia; f_equal; lia.
Qed.

(** One step of the reader: the slice it decodes is the slab's. *)
Lemma read_step fs dealId w slab cursor take :
  valid_deal dealId -> holds_slab fs dealId w slab -> 0 <= cursor -> 0 < take ->
  let u := cursor / RAW_MDU_CAPACITY in
  let off := cursor mod RAW_MDU_CAPACITY in
  let valid := Z.max 0 (Z.min RAW_MDU_CAPACITY (zlen slab - u * RAW_MDU_CAPACITY)) in
  off + take <= valid ->
  exists mdu, readMdu dealId (1 + w + u) fs = (Ok (Some mdu), with_deal dealId fs) /\
    decodeRawSliceFromMdu mdu off take valid = Ok (slice cursor (cursor + take) slab).
Proof.
  intros Hd (Hw & _ & Hslab) Hc Ht u off valid Hfit.
  assert (0 < RAW_MDU_CAPACITY) as Hcap by done.
  assert (0 <= u /\ 0 <= off < RAW_MDU_CAPACITY /\ cursor = u * RAW_MDU_CAPACITY + off) as (Hu & Hoff & Hcur)
    by (unfold u, off; Z.div_mod_to_equations; nia).
  pose proof (ceil_div_spec (zlen slab) RAW_MDU_CAPACITY Hcap) as Hcd.
  destruct (Hslab u) as (mdu & Henc & Hget); [unfold valid in *; nia|].
  exists mdu; split; [unfold readMdu; rewrite readBlob_run; [by rewrite Hget|done|apply mdu_name_valid; lia]|].
  unfold valid; rewrite <- zlen_slab_chunk by done.
  rewrite (decode_encode MDU_SIZE_BYTES (slab_chunk slab u) mdu off take); try done.
  - f_equal; unfold slab_chunk; rewrite slice_slice by (unfold valid in *; lia).
    f_equal; lia.
  - exists 262144; done.
  - rewrite zlen_slab_chunk by done. change (MDU_SIZE_BYTES / 32 * 31) with RAW_MDU_CAPACITY; lia.
  - lia.
  - lia.
  - rewrite zlen_slab_chunk by done; unfold valid in *; lia.
Qed.

Lemma deal_files_with_deal_slab fs dealId w slab :
  holds_slab fs dealId w slab -> holds_slab (with_deal dealId fs) dealId w slab.
Proof. unfold holds_slab; by rewrite deal_files_with. Qed.

(** The loop fills the output with the slab's bytes from the cursor on. *)
Lemma read_loop_spec dealId w slab : valid_deal dealId -> forall fuel fs out cursor remaining done,
  holds_slab fs dealId w slab -> 0 <= cursor -> 0 <= remaining <= Z.of_nat fuel -> 0 <= done ->
  cursor + remaining <= zlen slab -> zlen out = done + remaining ->
  exists out' fs', read_loop fuel dealId (1 + w) (zlen slab) out cursor remaining done fs = (Ok out', fs') /\
    out' = take (Z.to_nat done) out ++ slice cursor (cursor + remaining) slab.
Proof.
  intros Hd; induction fuel as [|fuel IH]; intros fs out cursor remaining d Hs Hc Hr Hdone Hend Hout;
    cbn [read_loop]; destruct (Z.ltb_spec 0 remaining); try lia.
  1,3: exists out, fs; split; [done|]; replace (cursor + remaining) with cursor by lia;
       rewrite take_ge by (unfold zlen in *; lia); unfold slice; rewrite Z.sub_diag; by rewrite app_nil_r.
  assert (0 < RAW_MDU_CAPACITY) as Hcap by done.
  set (u := cursor / RAW_MDU_CAPACITY); set (off := cursor mod RAW_MDU_CAPACITY).
  set (valid := Z.max 0 (Z.min RAW_MDU_CAPACITY (zlen slab - u * RAW_MDU_CAPACITY))).
  assert (0 <= off /\ off < valid) as [Hoff Hov]
    by (unfold valid, off, u; Z.div_mod_to_equations; nia).
  destruct (Z.eqb_spec valid 0); [lia|]. destruct (Z.leb_spec (valid - off) 0); [lia|].
  set (tk := Z.min remaining (valid - off)).
  destruct (read_step fs dealId w slab cursor tk Hd Hs Hc) as (mdu & Eread & Edec); [unfold tk; lia|fold u off valid; unfold tk; lia|].
  fold u off valid in Eread, Edec. mrun; rewrite Eread, Edec; mrun.
  assert (zlen (slice cursor (cursor + tk) slab) = tk) as Hsl by (rewrite zlen_slice; unfold tk in *; lia).
  rewrite set_bytes_splice by (unfold tk in *; lia).
  destruct (IH (with_deal dealId fs) (splice d (slice cursor (cursor + tk) slab) out) (cursor + tk)
              (remaining - tk) (d + tk)) as (out' & fs' & E & Ho); try (unfold tk in *; lia).
  - by apply deal_files_with_deal_slab.
  - destruct (splice_spec d (slice cursor (cursor + tk) slab) out) as [-> _]; unfold tk in *; lia.
  - exists out', fs'; split; [exact E|]. rewrite Ho.
    replace (cursor + tk + (remaining - tk)) with (cursor + remaining) by lia.
    destruct (splice_spec d (slice cursor (cursor + tk) slab) out) as [Hzl Hzn]; [unfold tk in *; lia..|].
    assert (take (Z.to_nat (d + tk)) (splice d (slice cursor (cursor + tk) slab) out) =
            take (Z.to_nat d) out ++ slice cursor (cursor + tk) slab) as ->.
    { unfold splice; rewrite app_assoc; apply take_app_length'.
      rewrite length_app, length_take; unfold zlen, tk in *; lia. }
    rewrite <- app_assoc; f_equal. rewrite slice_join by (unfold tk; lia); done.
Qed.

(** ** Properties *)

Lemma inferMaxEnd_acc files m :
  let f := fold_left (fun maxEnd f =>
    if entry_start f <? 0 then maxEnd
    else if size_bytes f <=? 0 then maxEnd
    else if maxEnd <? entry_start f + size_bytes f then entry_start f + size_bytes f else maxEnd) files m in
  m <= f /\ forall e, e ∈ files -> 0 <= entry_start e -> 0 < size_bytes e -> entry_start e + size_bytes e <= f.
Proof.
  revert m; induction files as [|e files IH]; intros m; cbn [fold_left].
  - split; [lia|]. by intros e Hin%elem_of_nil.
  - match goal with |- context [fold_left _ files ?m'] => destruct (IH m') as [Hle Hall] end.
    destruct (Z.ltb_spec (entry_start e) 0), (Z.leb_spec (size_bytes e) 0),
      (Z.ltb_spec m (entry_start e + size_bytes e)); (split; [lia|]);
      intros e' [->|Hin]%elem_of_cons Hs Hz; first [lia | by apply Hall].
Qed.

(** The inferred end is at or past the end of every file. *)
Lemma inferMaxEnd_bound files e :
  e ∈ files -> 0 <= entry_start e -> 0 < size_bytes e ->
  entry_start e + size_bytes e <= inferMaxEnd files.
Proof. apply (inferMaxEnd_acc files 0). Qed.

Lemma infer_layout_run d files fs w slab :
  valid_deal d -> holds_slab fs d w slab -> 0 < zlen slab -> inferMaxEnd files = zlen slab ->
  inferWitnessCountFromOpfs d files fs =
  (Ok (mkSlab w (1 + w) (1 + w + ceil_div (zlen slab) RAW_MDU_CAPACITY)
         (ceil_div (zlen slab) RAW_MDU_CAPACITY) (zlen slab)), with_deal d fs).
Proof.
  intros Hd (Hw & Hcount & _) Hpos Hmax; unfold inferWitnessCountFromOpfs; mrun.
  rewrite listDealFiles_run by done; cbn zeta; rewrite Hcount, Hmax.
  assert (0 < RAW_MDU_CAPACITY) as Hcap by done.
  pose proof (ceil_div_pos (zlen slab) RAW_MDU_CAPACITY Hcap Hpos).
  destruct (Z.ltb_spec 0 (zlen slab)); [|lia].
  set (k := ceil_div (zlen slab) RAW_MDU_CAPACITY) in *.
  destruct (Z.eqb_spec (1 + w + k) 0); [lia|].
  replace (1 + w + k - 1 - k) with w by lia.
  destruct (Z.ltb_spec w 0); [lia|done].
Qed.

Lemma read_slab_range d fs w slab files file rs rl :
  valid_deal d -> holds_slab fs d w slab -> inferMaxEnd files = zlen slab ->
  file ∈ files -> 0 <= entry_start file -> 0 <= rs < size_bytes file -> 0 <= rl ->
  let len := if rl =? 0 then size_bytes file - rs else Z.min rl (size_bytes file - rs) in
  fst (readNilfsFileFromOpfs d file files (Some (Num rs)) (Some (Num rl)) fs) =
  Ok (slice (entry_start file + rs) (entry_start file + rs + len) slab).
Proof.
  intros Hd Hs Hmax Hin Hstart Hrs Hrl len.
  pose proof (inferMaxEnd_bound files file Hin Hstart ltac:(lia)) as Hend. rewrite Hmax in Hend.
  unfold readNilfsFileFromOpfs; cbn [safe_count]; rewrite !Z.max_r by lia.
  destruct (Z.leb_spec (size_bytes file) rs); [lia|]; cbn zeta.
  replace (if 0 <? rl then Z.min (size_bytes file - rs) rl else size_bytes file - rs) with len; cycle 1.
  { unfold len; destruct (Z.eqb_spec rl 0), (Z.ltb_spec 0 rl); lia. }
  assert (0 < len <= size_bytes file - rs) as Hlen by (unfold len; destruct (Z.eqb_spec rl 0); lia).
  mrun; rewrite (infer_layout_run d files fs w slab) by (done || lia); cbn [slabStartIdx maxEnd].
  destruct (read_loop_spec d w slab Hd (Z.to_nat len) (with_deal d fs) (zeros len)
              (entry_start file + rs) len 0) as (out & fs' & E & ->); try lia.
  - by apply deal_files_with_deal_slab.
  - rewrite zlen_zeros; lia.
  - rewrite E; done.
Qed.

(** C26: a file of a persisted slab reads back.  Whatever other files the deal's
    directory holds, any range of a listed file is returned as exactly those bytes
    of the slab, across MDU boundaries; a length of zero means up to the end. *)
Theorem readNilfsFileFromOpfs_reads_slab d fs w slab files file rs rl :
  valid_deal d -> holds_slab fs d w slab -> inferMaxEnd files = zlen slab ->
  file ∈ files -> 0 <= entry_start file -> 0 <= rs < size_bytes file -> 0 <= rl ->
  let len := if rl =? 0 then size_bytes file - rs else Z.min rl (size_bytes file - rs) in
  fst (readNilfsFileFromOpfs d file files (Some (Num rs)) (Some (Num rl)) fs) =
  Ok (slice (entry_start file + rs) (entry_start file + rs + len) slab).
Proof. apply read_slab_range. Qed.

(** One 3-byte file in a slab with one witness MDU. *)
Definition demo_store (mdu : bytes) : opfs :=
  {["deal-7" := {["mdu_0.bin" := []; "mdu_1.bin" := []; "mdu_2.bin" := mdu; "manifest.bin" := []]}]}.

Lemma demo_store_holds mdu :
  encodeToMdu [10; 11; 12] = Ok mdu -> holds_slab (demo_store mdu) "7" 1 [10; 11; 12].
Proof.
  intros Henc; change (ceil_div (zlen [10; 11; 12]) RAW_MDU_CAPACITY) with 1; split; [lia|].
  unfold demo_store, deal_files, files_of; rewrite lookup_singleton_eq; split; [reflexivity|].
  intros u Hu; replace u with 0 by (change (ceil_div (zlen [10; 11; 12]) RAW_MDU_CAPACITY) with 1 in Hu; lia).
  exists mdu; split; [exact Henc|reflexivity].
Qed.

Lemma readNilfsFileFromOpfs_reads_slab_witness :
  exists mdu, encodeToMdu [10; 11; 12] = Ok mdu /\
  let file := mkEntry (units_of "a") 3 0 0 in
  fst (readNilfsFileFromOpfs "7" file [file] (Some (Num 1)) (Some (Num 0)) (demo_store mdu)) = Ok [11; 12].
Proof.
  destruct (encodeToMdu_total [10; 11; 12]) as [mdu E]; exists mdu; split; [exact E|]; intros file.
  apply (readNilfsFileFromOpfs_reads_slab "7" (demo_store mdu) 1 [10; 11; 12] [file] file 1 0).
  - reflexivity.
  - by apply demo_store_holds.
  - reflexivity.
  - left.
  - cbn; lia.
  - cbn; lia.
  - lia.
Defined.

(** ** MDUs read again with another valid length

    An append starts the new file at the next MDU boundary and keeps the earlier
    MDUs as they are, so the earlier file's last MDU, encoded with its own length,
    is from then on decoded as a full one. *)

Lemma enc_pos_full raw_len r :
  raw_len mod 31 = 0 -> 0 <= r < raw_len -> enc_pos raw_len r = enc_pos RAW_MDU_CAPACITY r.
Proof. intros Hm Hr; unfold enc_pos; rewrite Hm; change (RAW_MDU_CAPACITY mod 31) with 0; done. Qed.

(** An MDU whose payload length is a multiple of 31 reads the same when it is
    later decoded as a full one. *)
Theorem whole_scalars_survive_append raw mdu rawStart rawLen :
  zlen raw <= RAW_MDU_CAPACITY -> zlen raw mod NILFS_SCALAR_PAYLOAD_BYTES = 0 ->
  encodeToMdu raw = Ok mdu -> 0 <= rawStart -> 0 <= rawLen -> rawStart + rawLen <= zlen raw ->
  decodeRawSliceFromMdu mdu rawStart rawLen RAW_MDU_CAPACITY = Ok (slice rawStart (rawStart + rawLen) raw).
Proof.
  intros Hcap Hm Henc Hs Hl Hfit.
  destruct (encodeToMduAt_spec MDU_SIZE_BYTES ltac:(done) ltac:(exists 262144; done) raw)
    as (mdu' & E & _ & Hput & _ & _).
  unfold encodeToMdu in Henc; rewrite Henc in E; injection E as <-.
  destruct (decode_spec mdu rawStart rawLen RAW_MDU_CAPACITY) as (out & -> & Hlen & Hout); [lia..|].
  f_equal; apply bytes_eq; [rewrite zlen_slice; lia|].
  intros i Hi; rewrite Hout, <- (enc_pos_full (zlen raw)), Hput, znth_slice by
    (unfold NILFS_SCALAR_PAYLOAD_BYTES in Hm; change (MDU_SIZE_BYTES / 32 * 31) with RAW_MDU_CAPACITY; lia).
  done.
Qed.

Lemma whole_scalars_survive_append_witness :
  exists mdu, encodeToMdu (repeat 9 31) = Ok mdu /\
    decodeRawSliceFromMdu mdu 30 1 RAW_MDU_CAPACITY = Ok [9].
Proof.
  destruct (encodeToMdu_total (repeat 9 31)) as [mdu E]; exists mdu; split; [exact E|].
  apply (whole_scalars_survive_append (repeat 9 31) mdu 30 1); first [exact E|vm_compute; (done || discriminate)].
Defined.

Lemma encode_loop_end fuel M raw mdu r w : zlen raw <= r -> encode_loop fuel M raw mdu r w = Ok mdu.
Proof. intros H; destruct fuel; cbn [encode_loop]; destruct (Z.ltb_spec r (zlen raw)); (lia || done). Qed.

(** A single short chunk is right-aligned: everything before it is zero. *)
Lemma encode_short raw mdu i :
  0 < zlen raw <= 31 -> encodeToMdu raw = Ok mdu -> 0 <= i < 32 - zlen raw -> znth mdu i = 0.
Proof.
  intros Hlen Henc Hi; unfold encodeToMdu, encodeToMduAt in Henc.
  destruct (length raw) as [|k] eqn:Hk; [unfold zlen in Hlen; lia|].
  cbn [encode_loop] in Henc; codec_unfold.
  assert ((0 <? zlen raw) = true) as E1 by (apply Z.ltb_lt; lia). rewrite E1 in Henc.
  change (0 <? MDU_SIZE_BYTES) with true in Henc; cbn [andb] in Henc.
  rewrite Z.min_r in Henc by lia. rewrite slice_full in Henc by lia.
  destruct (set_bytes_ok (zeros MDU_SIZE_BYTES) (0 + (32 - (zlen raw - 0))) raw) as (b & Eb & _ & Hb);
    [lia|rewrite zlen_zeros by done; change MDU_SIZE_BYTES with 8388608; lia|].
  rewrite Eb in Henc; obind in Henc; rewrite encode_loop_end in Henc by lia. injection Henc as <-.
  rewrite Hb, znth_zeros by lia. destruct (Z.leb_spec (0 + (32 - (zlen raw - 0))) i); [lia|done].
Qed.

(** A payload shorter than one scalar does not survive: decoded as a full MDU,
    as the reader does once another file has been appended, its first byte reads as
    zero, whatever it was. *)
Theorem short_payload_lost_after_append raw mdu :
  0 < zlen raw < NILFS_SCALAR_PAYLOAD_BYTES -> encodeToMdu raw = Ok mdu ->
  decodeRawSliceFromMdu mdu 0 1 (zlen raw) = Ok (slice 0 1 raw) /\
  decodeRawSliceFromMdu mdu 0 1 RAW_MDU_CAPACITY = Ok [0].
Proof.
  intros Hlen Henc; unfold NILFS_SCALAR_PAYLOAD_BYTES in Hlen; split.
  - apply (decode_encode MDU_SIZE_BYTES raw mdu 0 1); try (done || lia); [exists 262144; done|].
    change (MDU_SIZE_BYTES / 32 * 31) with 8126464; lia.
  - destruct (decode_spec mdu 0 1 RAW_MDU_CAPACITY) as (out & -> & Hl & Hout); [lia..|done|].
    f_equal; apply bytes_eq; [done|]; intros i Hi; replace i with 0 by lia.
    rewrite Hout by lia. change (enc_pos RAW_MDU_CAPACITY (0 + 0)) with 1.
    apply (encode_short raw); (done || lia).
Qed.

Lemma short_payload_lost_after_append_witness :
  exists mdu, encodeToMdu [5; 6] = Ok mdu /\
    decodeRawSliceFromMdu mdu 0 1 (zlen [5; 6]) = Ok (slice 0 1 [5; 6]) /\
    decodeRawSliceFromMdu mdu 0 1 RAW_MDU_CAPACITY = Ok [0].
Proof.
  destruct (encodeToMdu_total [5; 6]) as [mdu E]; exists mdu; split; [exact E|].
  apply (short_payload_lost_after_append [5; 6] mdu); [split; reflexivity|exact E].
Defined.
