(* ===== verification/Hex.v ===== *)
(** * Base64, hexadecimal and the Merkle view (domain/base64.ts, domain/hex.ts, lib/merkle.ts)

    Manifest roots and commitments arrive from the chain as base64 or as hex.
    Blake2s comes from a package and is a parameter of the Merkle view. *)
From S2P Require Import Prelude JsString JsNum TransportTypes Effects Bytes RangeChunker.
#[local] Open Scope Z_scope.

(** ** [atob], the forgiving base64 decoder of the platform *)

Definition is_ascii_ws (c : ascii) : bool :=
  let z := code c in (z =? 9) || (z =? 10) || (z =? 12) || (z =? 13) || (z =? 32).

Definition base64_val (c : ascii) : option Z :=
  let z := code c in
  if (65 <=? z) && (z <=? 90) then Some (z - 65)
  else if (97 <=? z) && (z <=? 122) then Some (z - 71)
  else if (48 <=? z) && (z <=? 57) then Some (z + 4)
  else if z =? 43 then Some 62
  else if z =? 47 then Some 63
  else None.

(** Up to two [=] at the end of a text whose length is a multiple of four. *)
Definition strip_padding (l : list ascii) : list ascii :=
  if zlen l mod 4 =? 0 then
    match rev l with
    | "="%char :: "="%char :: r => rev r
    | "="%char :: r => rev r
    | _ => l
    end
  else l.

(** Four sextets to three bytes; two or three left over give one or two bytes. *)
Fixpoint base64_groups (l : list Z) : bytes :=
  match l with
  | a :: b :: c :: d :: r =>
      (a * 4 + b / 16) :: (b mod 16 * 16 + c / 4) :: (c mod 4 * 64 + d) :: base64_groups r
  | [a; b; c] => [a * 4 + b / 16; b mod 16 * 16 + c / 4]
  | [a; b] => [a * 4 + b / 16]
  | _ => []
  end.

Definition atob (s : string) : outcome bytes :=
  let l := strip_padding (List.filter (fun c => negb (is_ascii_ws c)) (chars s)) in
  if zlen l mod 4 =? 1 then mthrow (JsError "InvalidCharacterError" "invalid base64")
  else match mapM base64_val l with
       | Some vs => mret (base64_groups vs)
       | None => mthrow (JsError "InvalidCharacterError" "invalid base64")
       end.

(** base64.ts, on a platform that has [atob] *)
Definition decodeBase64ToBytes (input : string) : outcome bytes :=
  let trimmed := trim input in
  if is_empty trimmed then mret [] else atob trimmed.

(** ** hex.ts *)

Definition hex_digit (d : Z) : ascii := char_of (if d <? 10 then 48 + d else 87 + d).
(** [b.toString(16).padStart(2, '0')] *)
Definition byte_hex (b : Z) : list ascii := [hex_digit (b / 16); hex_digit (b mod 16)].
Definition hex_chars (l : bytes) : list ascii := concat (map byte_hex l).
Definition bytesToHex (l : bytes) : string := "0x" +:+ str (hex_chars l).

Definition toHexFromBase64OrHex (value : option json) (expectedBytes : list Z) : string :=
  match value with
  | Some (JStr s) =>
      let trimmed := trim s in
      if is_empty trimmed then ""
      else if eqb trimmed "0x" then ""
      else if starts_with "0x" trimmed then trimmed
      else match decodeBase64ToBytes trimmed with
           | Ok l =>
               if negb (bool_decide (expectedBytes = [])) && negb (existsb (Z.eqb (zlen l)) expectedBytes) then ""
               else if zlen l =? 0 then "" else bytesToHex l
           | Thrown _ => ""
           end
  | _ => ""
  end.

(** ** merkle.ts *)

Definition strip0x (hex : list ascii) : list ascii :=
  match hex with "0"%char :: "x"%char :: r => r | _ => hex end.

(** [Number.parseInt(s, 16)] stored in a byte: white space, a sign and a [0x]
    prefix are skipped, [NaN] becomes 0. *)
Fixpoint parse_hex_prefix (acc : Z) (l : list ascii) : Z :=
  match l with
  | c :: l' => match radix_digit 16 c with Some d => parse_hex_prefix (16 * acc + d) l' | None => acc end
  | [] => acc
  end.
Definition strip0xX (l : list ascii) : list ascii :=
  match l with "0"%char :: "x"%char :: r => r | "0"%char :: "X"%char :: r => r | _ => l end.
Definition parse_int_byte (l : list ascii) : Z :=
  match trim_start l with
  | "-"%char :: r => (- parse_hex_prefix 0 (strip0xX r)) mod 256
  | "+"%char :: r => parse_hex_prefix 0 (strip0xX r) mod 256
  | r => parse_hex_prefix 0 (strip0xX r) mod 256
  end.

Fixpoint hex_pairs (l : list ascii) : bytes :=
  match l with
  | a :: b :: r => parse_int_byte [a; b] :: hex_pairs r
  | _ => []
  end.
Definition hexToBytes (hex : string) : outcome bytes :=
  let clean := map lower_char (strip0x (chars hex)) in
  if negb (zlen clean mod 2 =? 0) then mthrow (Error ("Invalid hex length: " +:+ hex))
  else mret (hex_pairs clean).

Section Merkle.
Context (blake2s : bytes -> bytes).

(** One pass of the [for] loop: adjacent pairs, the odd node with itself. *)
Fixpoint next_layer (layer : list string) : outcome (list string) :=
  match layer with
  | [] => mret []
  | [a] =>
      left ← hexToBytes a; right ← hexToBytes a;
      mret [bytesToHex (blake2s (left ++ right))]
  | a :: b :: r =>
      left ← hexToBytes a; right ← hexToBytes b;
      rest ← next_layer r;
      mret (bytesToHex (blake2s (left ++ right)) :: rest)
  end.

(** The [while] loop; the layers after the given one. *)
Fixpoint merkle_loop (fuel : nat) (layer : list string) : outcome (list (list string)) :=
  if 1 <? zlen layer then
    match fuel with
    | O => mthrow fuel_exhausted
    | S fuel =>
        next ← next_layer layer;
        rest ← merkle_loop fuel next;
        mret (next :: rest)
    end
  else mret [].

(** [leafHex.map(h => bytesToHex(hexToBytes(h)))] *)
Fixpoint normalize_leaves (l : list string) : outcome (list string) :=
  match l with
  | [] => mret []
  | h :: r => b ← hexToBytes h; rest ← normalize_leaves r; mret (bytesToHex b :: rest)
  end.

Definition buildBlake2sMerkleLayers (leafHex : list string) : outcome (list (list string)) :=
  if zlen leafHex =? 0 then mret []
  else
    layer ← normalize_leaves leafHex;
    rest ← merkle_loop (length leafHex) layer;
    mret (layer :: rest).
End Merkle.

Example atob_text : atob "SGVsbG8=" = Ok (map code (chars "Hello")).
Proof. reflexivity. Qed.
Example atob_rejects : is_ok (atob "SGVsbG8") = true /\ is_ok (atob "SGVsb") = false /\ is_ok (atob "SG-s") = false.
Proof. repeat split. Qed.

(** ** Hex round trip *)

Lemma byte_hex_pair b :
  is_byte b -> parse_int_byte (map lower_char (byte_hex b)) = b /\ map lower_char (byte_hex b) = byte_hex b.
Proof.
  unfold is_byte; intros Hb.
  assert (Forall (fun b => parse_int_byte (map lower_char (byte_hex b)) = b /\
                           map lower_char (byte_hex b) = byte_hex b) (map Z.of_nat (seq 0 256))) as H.
  { apply List.Forall_forall; intros z Hz. apply in_map_iff in Hz as (k & <- & Hk).
    assert (forallb (fun k => (parse_int_byte (map lower_char (byte_hex (Z.of_nat k))) =? Z.of_nat k) &&
       bool_decide (map lower_char (byte_hex (Z.of_nat k)) = byte_hex (Z.of_nat k))) (seq 0 256) = true) as Hall
      by (vm_compute; reflexivity).
    rewrite forallb_forall in Hall; apply Hall in Hk; apply andb_true_iff in Hk as [H1 H2].
    split; [by apply Z.eqb_eq|by apply bool_decide_eq_true in H2]. }
  rewrite List.Forall_forall in H; apply H; apply in_map_iff; exists (Z.to_nat b); split; [lia|].
  apply in_seq; lia.
Qed.

Lemma hex_pairs_chars l : Forall is_byte l -> hex_pairs (map lower_char (hex_chars l)) = l.
Proof.
  induction 1 as [|b l Hb _ IH]; [done|]; unfold hex_chars in *; cbn [map concat].
  rewrite map_app. destruct (byte_hex_pair b Hb) as [H1 H2].
  unfold byte_hex in *; cbn [map app hex_pairs] in *; by rewrite H1, IH.
Qed.

Lemma zlen_hex_chars l : zlen (hex_chars l) = 2 * zlen l.
Proof.
  induction l as [|b l IH]; [done|]; unfold hex_chars in *; cbn [map concat].
  rewrite zlen_app, IH, zlen_cons; unfold byte_hex; rewrite !zlen_cons, zlen_nil; lia.
Qed.

Lemma hexToBytes_bytesToHex_eq l : Forall is_byte l -> hexToBytes (bytesToHex l) = Ok l.
Proof.
  intros Hl; unfold hexToBytes, bytesToHex; rewrite chars_app, chars_str.
  change (strip0x (chars "0x" ++ hex_chars l)) with (hex_chars l).
  rewrite zlen_map, zlen_hex_chars. replace (2 * zlen l mod 2 =? 0) with true by (symmetry; apply Z.eqb_eq; zdivl).
  cbn [negb]; by rewrite hex_pairs_chars.
Qed.

(** Hex printing and parsing are inverse on bytes. *)
Theorem hexToBytes_bytesToHex l : Forall is_byte l -> hexToBytes (bytesToHex l) = Ok l.
Proof. apply hexToBytes_bytesToHex_eq. Qed.

Lemma hexToBytes_bytesToHex_witness : hexToBytes (bytesToHex [0; 171; 255]) = Ok [0; 171; 255].
Proof. apply (hexToBytes_bytesToHex [0; 171; 255]). repeat constructor; unfold is_byte; lia. Defined.

(** ** Base64 round trip *)

(** The standard encoding, as the chain's JSON has byte fields. *)
Definition base64_char (v : Z) : ascii :=
  char_of (if v <? 26 then v + 65 else if v <? 52 then v + 71 else if v <? 62 then v - 4
           else if v =? 62 then 43 else 47).
Fixpoint sextets (l : bytes) : list Z :=
  match l with
  | a :: b :: c :: r => (a / 4) :: (a mod 4 * 16 + b / 16) :: (b mod 16 * 4 + c / 64) :: (c mod 64) :: sextets r
  | [a; b] => [a / 4; a mod 4 * 16 + b / 16; b mod 16 * 4]
  | [a] => [a / 4; a mod 4 * 16]
  | [] => []
  end.
Definition base64_encode (l : bytes) : string :=
  str (map base64_char (sextets l) ++
       match zlen l mod 3 with 1 => chars "==" | 2 => chars "=" | _ => [] end).

Definition is_sextet (v : Z) : Prop := 0 <= v < 64.

Lemma base64_char_facts v :
  is_sextet v -> base64_val (base64_char v) = Some v /\ is_ascii_ws (base64_char v) = false /\
    is_ws (base64_char v) = false /\ base64_char v <> "="%char.
Proof.
  unfold is_sextet; intros Hv.
  assert (forallb (fun k => let c := base64_char (Z.of_nat k) in
     bool_decide (base64_val c = Some (Z.of_nat k)) && negb (is_ascii_ws c) && negb (is_ws c) &&
     negb (bool_decide (c = "="%char))) (seq 0 64) = true) as Hall by (vm_compute; reflexivity).
  rewrite forallb_forall in Hall; specialize (Hall (Z.to_nat v) ltac:(apply in_seq; lia)).
  rewrite Z2Nat.id in Hall by lia; cbn zeta in Hall.
  rewrite !andb_true_iff, !negb_true_iff, bool_decide_eq_true, bool_decide_eq_false in Hall; tauto.
Qed.

(** Induction three bytes at a time. *)
Lemma list_ind3 {A} (P : list A -> Prop) :
  P [] -> (forall a, P [a]) -> (forall a b, P [a; b]) ->
  (forall a b c r, P r -> P (a :: b :: c :: r)) -> forall l : list A, P l.
Proof.
  intros H0 H1 H2 H3 l; assert (P l /\ (forall a, P (a :: l)) /\ (forall a b, P (a :: b :: l))) as [? _]; [|done].
  induction l as [|c l (IH0 & IH1 & IH2)]; [done|]; split; [apply IH1|]; split; [intros; apply IH2|].
  intros; by apply H3.
Qed.

Lemma sextets_facts l :
  Forall is_byte l ->
  Forall is_sextet (sextets l) /\ base64_groups (sextets l) = l /\
  zlen (sextets l) = zlen l / 3 * 4 + (match zlen l mod 3 with 1 => 2 | 2 => 3 | _ => 0 end).
Proof.
  induction l as [|a|a b|a b c r IH] using list_ind3; intros Hl; [done|..];
    rewrite ?Forall_cons in Hl; unfold is_byte in Hl; cbn [sextets base64_groups].
  - split; [|split; [f_equal; zdivl|done]]. unfold is_sextet; repeat constructor; zdivl.
  - split; [|split; [repeat f_equal; zdivl|done]]. unfold is_sextet; repeat constructor; zdivl.
  - destruct Hl as (Ha & Hb & Hc & Hr); destruct (IH Hr) as (H1 & H2 & H3); split; [|split].
    + unfold is_sextet in *; repeat (constructor; [zdivl|]); done.
    + rewrite H2; repeat f_equal; zdivl.
    + rewrite !zlen_cons, H3. replace (1 + (1 + (1 + zlen r))) with (zlen r + 1 * 3) by lia.
      rewrite Z.div_add, Z.mod_add by lia; lia.
Qed.

Lemma mapM_base64 vs : Forall is_sextet vs -> mapM base64_val (map base64_char vs) = Some vs.
Proof.
  induction 1 as [|v vs Hv _ IH]; [done|]; cbn [map mapM]; destruct (base64_char_facts v Hv) as (-> & _).
  cbn; by rewrite IH.
Qed.

Lemma filter_no_ws l : Forall (fun c => is_ascii_ws c = false) l ->
  List.filter (fun c => negb (is_ascii_ws c)) l = l.
Proof. induction 1 as [|c l Hc _ IH]; [done|]; cbn [List.filter]; by rewrite Hc; cbn; rewrite IH. Qed.

Lemma strip_padding_spec l pad :
  Forall (fun c => c <> "="%char) l -> zlen (l ++ pad) mod 4 = 0 ->
  pad = [] \/ pad = chars "=" \/ pad = chars "==" -> strip_padding (l ++ pad) = l.
Proof.
  intros Hl Hmod Hpad; unfold strip_padding; rewrite Hmod; cbn [Z.eqb]; rewrite rev_app_distr.
  assert (forall k, Forall (fun c => c <> "="%char) k -> match rev k with "="%char :: _ => False | _ => True end) as Hlast.
  { intros k Hk; apply Forall_rev in Hk; destruct Hk as [|c k' Hc _]; [done|].
    destruct c as [ [] [] [] [] [] [] [] [] ]; done. }
  specialize (Hlast l Hl); pose proof (rev_involutive l) as Hinv.
  destruct Hpad as [ -> | [ -> | -> ] ]; cbn [rev app chars].
  - rewrite app_nil_r; destruct (rev l) as [|c r]; [done|].
    destruct c as [ [] [] [] [] [] [] [] [] ]; done.
  - destruct (rev l) as [|c r]; [done|]. destruct c as [ [] [] [] [] [] [] [] [] ]; done.
  - done.
Qed.

Lemma atob_base64 l : Forall is_byte l -> atob (base64_encode l) = Ok l.
Proof.
  intros Hl; destruct (sextets_facts l Hl) as (Hs & Hg & Hlen); unfold atob, base64_encode; rewrite chars_str.
  set (pad := match zlen l mod 3 with 1 => chars "==" | 2 => chars "=" | _ => [] end).
  assert (0 <= zlen l mod 3 < 3) as Hm by (apply Z.mod_pos_bound; lia).
  assert (zlen (map base64_char (sextets l) ++ pad) mod 4 = 0 /\ zlen (sextets l) mod 4 <> 1 /\
          (pad = [] \/ pad = chars "=" \/ pad = chars "==")) as (Hpm & Hne & Hpad).
  { rewrite zlen_app, zlen_map, Hlen; unfold pad; clear - Hm.
    generalize (zlen l / 3); intros q.
    assert (zlen l mod 3 = 0 \/ zlen l mod 3 = 1 \/ zlen l mod 3 = 2) as [E|[E|E] ] by lia; rewrite E; cbv iota.
    - change (zlen (@nil ascii)) with 0; split; [zdivl|]; split; [zdivl|tauto].
    - change (zlen (chars "==")) with 2; split; [zdivl|]; split; [zdivl|tauto].
    - change (zlen (chars "=")) with 1; split; [zdivl|]; split; [zdivl|tauto]. }
  assert (Forall (fun c => is_ascii_ws c = false /\ c <> "="%char) (map base64_char (sextets l))) as Hc.
  { apply Forall_map; eapply Forall_impl; [exact Hs|]; intros v Hv; cbn; by destruct (base64_char_facts v Hv) as (_ & ? & _ & ?). }
  rewrite filter_no_ws; cycle 1.
  { apply Forall_app; split; [eapply Forall_impl; [exact Hc|]; by intros ? []|].
    destruct Hpad as [ -> | [ -> | -> ] ]; by repeat constructor. }
  rewrite strip_padding_spec; [|eapply Forall_impl; [exact Hc|]; by intros ? []|done|done].
  rewrite zlen_map. destruct (Z.eqb_spec (zlen (sextets l) mod 4) 1); [done|].
  rewrite mapM_base64 by done; cbn; by rewrite Hg.
Qed.

Lemma base64_no_ws l : Forall is_byte l -> Forall (fun c => is_ws c = false) (chars (base64_encode l)).
Proof.
  intros Hl; destruct (sextets_facts l Hl) as (Hs & _); unfold base64_encode; rewrite chars_str.
  apply Forall_app; split.
  - apply Forall_map; eapply Forall_impl; [exact Hs|]; intros v Hv; cbn; by destruct (base64_char_facts v Hv) as (_ & _ & ? & _).
  - destruct (zlen l mod 3) as [|[p|[p|p|]|]|]; by repeat constructor.
Qed.

(** A manifest root sent as base64 is shown as its hex.  For every 48-byte root
    whose first byte is not 0xD3 (no compressed curve point begins with it), the
    normaliser returns the hex of the root; the excluded texts could begin with
    [0x], which the code takes for hex already. *)
Theorem base64_root_to_hex l :
  Forall is_byte l -> zlen l = 48 -> znth l 0 <> 211 ->
  toHexFromBase64OrHex (Some (JStr (base64_encode l))) [48] = bytesToHex l.
Proof.
  intros Hl Hlen H0; unfold toHexFromBase64OrHex, decodeBase64ToBytes.
  rewrite !(trim_id (base64_encode l)) by (by apply base64_no_ws).
  assert (exists a b s, 0 <= a < 64 /\ 0 <= b < 64 /\ (a = 52 -> b = 49 -> znth l 0 = 211) /\
    base64_encode l = String (base64_char a) (String (base64_char b) s)) as (a & b & s & Ha & Hb & Hab & Henc).
  { destruct l as [|a [|b [|c r] ] ]; [done..|]. rewrite !Forall_cons in Hl; unfold is_byte in Hl.
    exists (a / 4), (a mod 4 * 16 + b / 16); eexists; split; [zdivl|]; split; [zdivl|]; split; [|reflexivity].
    intros H1 H2; change (znth (a :: b :: c :: r) 0) with a; zdivl. }
  assert (starts_with "0x" (base64_encode l) = false /\ eqb (base64_encode l) "0x" = false) as [Hx Hx'].
  { assert (String (base64_char a) (String (base64_char b) EmptyString) <> "0x") as Hne.
    { intros Heq; injection Heq as E1 E2. destruct (base64_char_facts a Ha) as (V1 & _), (base64_char_facts b Hb) as (V2 & _).
      rewrite E1 in V1; rewrite E2 in V2; injection V1 as V1; injection V2 as V2; by apply H0, Hab. }
    rewrite Henc; unfold starts_with, eqb; split.
    - cbn [String.prefix]; destruct (ascii_dec "0" (base64_char a)) as [E1|]; [|done].
      destruct (ascii_dec "x" (base64_char b)) as [E2|]; [|done]. by rewrite <- E1, <- E2 in Hne.
    - apply bool_decide_false; intros Heq; injection Heq as E1 E2 E3; apply Hne; by rewrite E1, E2. }
  rewrite Hx, Hx', atob_base64 by done; rewrite Henc; cbn [is_empty].
  rewrite Hlen; reflexivity.
Qed.

Lemma base64_root_to_hex_witness :
  let root := 151 :: repeat 17 47 in
  toHexFromBase64OrHex (Some (JStr (base64_encode root))) [48] = bytesToHex root.
Proof.
  intros root; apply (base64_root_to_hex root); [|reflexivity|discriminate].
  unfold root, is_byte; repeat constructor; lia.
Defined.

(** ** The Merkle layers *)

Lemma list_ind2 {A} (P : list A -> Prop) :
  P [] -> (forall a, P [a]) -> (forall a b r, P r -> P (a :: b :: r)) -> forall l : list A, P l.
Proof.
  intros H0 H1 H2 l; assert (P l /\ (forall a, P (a :: l))) as [? _]; [|done].
  induction l as [|c l (IH0 & IH1)]; [done|]; split; [apply IH1|]; intros; by apply H2.
Qed.

(** The parent layer of a layer of byte strings. *)
Fixpoint parents (hash : bytes -> bytes) (layer : list bytes) : list bytes :=
  match layer with
  | [] => []
  | [a] => [hash (a ++ a)]
  | a :: b :: r => hash (a ++ b) :: parents hash r
  end.

Lemma zlen_parents h (l : list bytes) : zlen (parents h l) = (zlen l + 1) / 2.
Proof.
  induction l as [|a|a b r IH] using list_ind2; [done..|]; cbn [parents].
  rewrite !zlen_cons, IH. replace (1 + (1 + zlen r) + 1) with (zlen r + 1 + 1 * 2) by lia.
  rewrite Z.div_add by lia; lia.
Qed.

Section MerkleFacts.
Context (blake2s : bytes -> bytes) (Hhash : forall l, Forall is_byte (blake2s l)).
Abbreviation all_bytes := (Forall (Forall is_byte)).

Lemma parents_bytes (l : list bytes) : all_bytes l -> all_bytes (parents blake2s l).
Proof.
  induction l as [|a|a b r IH] using list_ind2; intros H; cbn [parents]; [done|by repeat constructor|].
  inversion H as [|? ? _ H']; subst; inversion H'; subst; constructor; auto.
Qed.

Lemma next_layer_spec (l : list bytes) :
  all_bytes l -> next_layer blake2s (map bytesToHex l) = Ok (map bytesToHex (parents blake2s l)).
Proof.
  induction l as [|a|a b r IH] using list_ind2; intros H; cbn [parents map next_layer]; [done|..];
    rewrite !Forall_cons in H; rewrite !hexToBytes_bytesToHex_eq by tauto; obind; [done|].
  rewrite IH by tauto; done.
Qed.

(** The layers above a layer, up to the single root. *)
Lemma merkle_loop_spec fuel : forall l : list bytes,
  all_bytes l -> zlen l <= Z.of_nat fuel + 1 -> 0 < zlen l ->
  exists up, merkle_loop blake2s fuel (map bytesToHex l) = Ok (map (map bytesToHex) up) /\
    (forall i x y, (l :: up) !! i = Some x -> (l :: up) !! S i = Some y -> y = parents blake2s x) /\
    exists root : bytes, List.last (l :: up) [] = [root].
Proof.
  induction fuel as [|fuel IH]; intros l Hl Hf Hpos; cbn [merkle_loop]; rewrite zlen_map;
    destruct (Z.ltb_spec 1 (zlen l)); try lia.
  all: try (exists []; split; [done|]; split; [by intros [|i] x y|];
            destruct l as [|r [|r' l] ]; [rewrite zlen_nil in *; lia|by exists r|rewrite !zlen_cons in *; pose proof (zlen_nonneg l); lia]).
  rewrite next_layer_spec by done; obind.
  destruct (IH (parents blake2s l)) as (up & -> & Hstep & Hroot).
  - by apply parents_bytes.
  - rewrite zlen_parents; zdivl.
  - rewrite zlen_parents; zdivl.
  - obind; exists (parents blake2s l :: up); split; [done|]; split.
    + intros [|i] x y Hx Hy; [cbn in *; congruence|]. by apply (Hstep i).
    + exact Hroot.
Qed.

Lemma normalize_leaves_spec (l : list bytes) :
  all_bytes l -> normalize_leaves (map bytesToHex l) = Ok (map bytesToHex l).
Proof.
  induction 1 as [|b l Hb _ IH]; [done|]; cbn [map normalize_leaves].
  rewrite hexToBytes_bytesToHex_eq by done; obind; by rewrite IH.
Qed.

(** The Merkle view terminates on every list of leaves: its first layer is the
    leaves, each further layer pairs the hashes of the one below (an odd last node
    with itself), and the last layer is the single root. *)
Theorem merkle_layers_correct (leaves : list bytes) :
  all_bytes leaves -> 0 < zlen leaves ->
  exists up root,
    buildBlake2sMerkleLayers blake2s (map bytesToHex leaves) = Ok (map (map bytesToHex) (leaves :: up)) /\
    (forall i x y, (leaves :: up) !! i = Some x -> (leaves :: up) !! S i = Some y -> y = parents blake2s x) /\
    List.last (leaves :: up) [] = [root].
Proof.
  intros Hl Hpos; unfold buildBlake2sMerkleLayers; rewrite zlen_map, length_map.
  destruct (Z.eqb_spec (zlen leaves) 0); [lia|]. rewrite normalize_leaves_spec by done; obind.
  destruct (merkle_loop_spec (length leaves) leaves Hl ltac:(unfold zlen; lia) Hpos) as (up & -> & Hs & root & Hr).
  exists up, root; done.
Qed.
End MerkleFacts.

Lemma merkle_layers_correct_witness :
  let h := fun l : bytes => [zlen l mod 256] in
  let leaves : list bytes := [[1]; [2]; [3]] in
  exists up root,
    buildBlake2sMerkleLayers h (map bytesToHex leaves) = Ok (map (map bytesToHex) (leaves :: up)) /\
    (forall i x y, (leaves :: up) !! i = Some x -> (leaves :: up) !! S i = Some y -> y = parents h x) /\
    List.last (leaves :: up) [] = [root].
Proof.
  intros h leaves; apply (merkle_layers_correct h).
  - intros l; unfold h, is_byte; repeat constructor; apply Z.mod_pos_bound; lia.
  - unfold leaves, is_byte; repeat constructor; lia.
  - reflexivity.
Defined.
