(* ===== verification/Multiaddr.v ===== *)
(** * Multiaddrs and service hints (lib/multiaddr.ts, lib/serviceHint.ts, lib/dealId.ts)

    The small textual formats of the chain: provider addresses, the service hint
    of a deal, deal ids. *)
From S2P Require Import Prelude JsString JsNum TransportTypes Effects.
#[local] Open Scope Z_scope.

(** ** multiaddr.ts *)

Definition parts_of (s : string) : list string := filter_truthy (split "/" s).

Definition multiaddrToHttpUrl (ep : string) : option string :=
  let s := trim ep in
  if negb (starts_with "/" s) then None
  else
    let parts := parts_of s in
    let idxTcp := index_of "tcp" parts in
    if (idxTcp <? 2) || (zlen parts <=? idxTcp + 1) then None
    else
      let hostProto := default "" (nth_str parts (idxTcp - 2)) in
      let host := default "" (nth_str parts (idxTcp - 1)) in
      let port := default "" (nth_str parts (idxTcp + 1)) in
      if negb (all_digits port) then None
      else
        let isHttp := mem "http" parts in
        let isHttps := mem "https" parts in
        if negb isHttp && negb isHttps then None
        else if negb (truthy hostProto) || negb (truthy host) then None
        else Some ((if isHttps then "https" else "http") +:+ "://" +:+ host +:+ ":" +:+ port).

Record P2pTarget := mkTarget { multiaddr : string; peerId : string }.

Definition multiaddrToP2pTarget (ep : string) : option P2pTarget :=
  let s := trim ep in
  if negb (starts_with "/" s) then None
  else
    let parts := parts_of s in
    let p2pIdx := last_index_of "p2p" parts in
    let ipfsIdx := last_index_of "ipfs" parts in
    let idx := if 0 <=? p2pIdx then p2pIdx else ipfsIdx in
    if (idx <? 0) || (zlen parts <=? idx + 1) then None
    else
      let peerId := default "" (nth_str parts (idx + 1)) in
      if negb (truthy peerId) then None
      else
        let hasWs := mem "ws" parts || mem "wss" parts in
        if negb hasWs then None else Some (mkTarget s peerId).

Definition multiaddrToP2pWsAddr (ep : string) : option string :=
  match multiaddrToP2pTarget ep with Some target => Some (multiaddr target) | None => None end.

(** ** dealId.ts *)

Definition normalizeDealId (dealId : string) : outcome string :=
  let trimmed := trim dealId in
  if negb (truthy trimmed) || negb (all_digits trimmed)
  then mthrow (Error "dealId must be a non-negative integer")
  else mret trimmed.

(** ** serviceHint.ts *)

Inductive redundancy_mode := mode1 | mode2.
Record ServiceHintInfo := mkHint {
  hint_base : string; hint_replicas : option dec; hint_rsK : option dec; hint_rsM : option dec;
  hint_mode : redundancy_mode
}.

(** [const [a, b] = s.split(c, 2)]: what follows a second separator is dropped. *)
Definition split2 (c : ascii) (s : string) : string * option string :=
  match split c s with
  | [] => ("", None)
  | [a] => (a, None)
  | a :: b :: _ => (a, Some b)
  end.

Definition apply_token (info : ServiceHintInfo) (token : string) : ServiceHintInfo :=
  let '(keyRaw, valRaw) := split2 "=" token in
  let key := to_lower (trim keyRaw) in
  let val := trim (default "" valRaw) in
  if negb (truthy key) || negb (truthy val) then info
  else
    let info :=
      if eqb key "replicas" then
        let n := Number_of_string val in
        if dec_is_finite n && dec_pos n
        then mkHint (hint_base info) (Some n) (hint_rsK info) (hint_rsM info) (hint_mode info)
        else info
      else info in
    if eqb key "rs" then
      match split "+" val with
      | [a; b] =>
          let k := Number_of_string a in
          let m := Number_of_string b in
          if dec_is_finite k && dec_is_finite m && dec_pos k && dec_pos m
          then mkHint (hint_base info) (hint_replicas info) (Some k) (Some m) mode2
          else info
      | _ => info
      end
    else info.

Definition parseServiceHint (raw : option string) : ServiceHintInfo :=
  let trimmed := trim (default "" raw) in
  if is_empty trimmed then mkHint "" None None None mode1
  else match split ":" trimmed with
       | baseRaw :: extras => fold_left apply_token extras (mkHint (trim baseRaw) None None None mode1)
       | [] => mkHint "" None None None mode1
       end.

(** [String(Math.round(x))]; integers below 10^21 print in full. *)
Definition string_of_rounded (x : dec) : string :=
  match x with
  | DNaN => "NaN"
  | DInf neg => if neg then "-Infinity" else "Infinity"
  | DNum m e => string_of_Z (dec_round m e)
  end.
Definition dec_truthy (x : dec) : bool :=
  match x with DNaN => false | DInf _ => true | DNum m _ => negb (m =? 0) end.
Definition opt_truthy (x : option dec) : bool := match x with Some d => dec_truthy d | None => false end.
Definition opt_pos (x : option dec) : bool := match x with Some d => dec_pos d | None => false end.
Definition opt_rounded (x : option dec) : string :=
  match x with Some d => string_of_rounded d | None => "NaN" end.

Definition buildServiceHint (base : string) (replicas rsK rsM : option dec) : string :=
  let hintBase := or_else (trim base) "General" in
  let extras :=
    (if opt_truthy replicas && opt_pos replicas then ["replicas=" +:+ opt_rounded replicas] else []) ++
    (if opt_truthy rsK && opt_truthy rsM then ["rs=" +:+ opt_rounded rsK +:+ "+" +:+ opt_rounded rsM] else []) in
  match extras with [] => hintBase | _ => hintBase +:+ ":" +:+ join ":" extras end.

Example hint_example :
  parseServiceHint (Some " Hot : rs= 8+4:Replicas=3:x=:y ") =
  mkHint "Hot" (Some (DNum 3 0)) (Some (DNum 8 0)) (Some (DNum 4 0)) mode2.
Proof. reflexivity. Qed.

(** ** Round trip of service hints *)

Lemma digit_code c : digit_char c -> 48 <= code c <= 57.
Proof. unfold digit_char, is_digit; intros H; apply andb_true_iff in H as [H1 H2]; lia. Qed.

(** Decide a fact about one digit by looking at all ten. *)
Lemma digit_cases (P : ascii -> bool) :
  forallb (fun k => P (char_of (48 + Z.of_nat k))) (seq 0 10) = true -> forall c, digit_char c -> P c = true.
Proof.
  intros H c Hc; pose proof (digit_code c Hc) as Hr; rewrite forallb_forall in H.
  specialize (H (Z.to_nat (code c - 48)) ltac:(apply in_seq; lia)).
  rewrite Z2Nat.id in H by lia. replace (48 + (code c - 48)) with (code c) in H by lia.
  by rewrite char_of_code in H.
Qed.

Lemma digit_not_ws c : digit_char c -> is_ws c = false.
Proof. intros Hc; apply negb_true_iff; revert c Hc; by apply (digit_cases (fun c => negb (is_ws c))). Qed.

Lemma digits_not_ws l : Forall digit_char l -> Forall (fun c => is_ws c = false) l.
Proof. intros H; eapply Forall_impl; [exact H|]; apply digit_not_ws. Qed.

Lemma span_digits_all l r : Forall digit_char l ->
  match r with [] => True | c :: _ => is_digit c = false end -> span_digits (l ++ r) = (l, r).
Proof.
  intros Hl Hr; induction Hl as [|c l Hc _ IH]; cbn [app span_digits].
  - destruct r as [|c r]; [done|]; cbn; by rewrite Hr.
  - by rewrite Hc, IH.
Qed.

Lemma dec_round64_small z : 0 <= z < 2 ^ 64 -> dec_round64 z 0 = DNum z 0.
Proof.
  intros Hz; unfold dec_round64; cbn [Z.leb]. rewrite Z.abs_eq, Z.pow_0_r, Z.mul_1_r by lia.
  destruct (Z.leb_spec (2 ^ 1024 - 2 ^ 970) z) as [Hle|]; [|done].
  exfalso. assert (2 ^ 64 < 2 ^ 1024 - 2 ^ 970) by (vm_compute; reflexivity). lia.
Qed.

(** [Number] reads the decimal digits of a natural number. *)
Lemma Number_of_digits l :
  Forall digit_char l -> l <> [] -> digits_val l < 2 ^ 64 -> Number_of_string (str l) = DNum (digits_val l) 0.
Proof.
  intros Hl Hne Hlt; unfold Number_of_string; rewrite chars_str, trim_chars_id by (by apply digits_not_ws).
  pose proof (digits_val_nonneg l Hl) as Hpos.
  assert (Hparse : parse_unsigned l = Some (digits_val l, 0)).
  { unfold parse_unsigned; rewrite <- (app_nil_r l) at 1; rewrite span_digits_all by done.
    rewrite app_nil_r, bool_decide_false by done; cbn; do 2 f_equal; lia. }
  assert (Hinf : eqb (str l) "Infinity" = false).
  { apply bool_decide_false; intros E; apply (f_equal chars) in E; rewrite chars_str in E; subst l.
    inversion Hl as [|? ? Hd _]; subst; discriminate Hd. }
  destruct l as [|c r]; [done|]; inversion Hl as [|? ? Hc Hr]; subst.
  assert (radix_prefix r = None) as Hradix.
  { destruct Hr as [|d r Hd _]; [done|]; unfold radix_prefix.
    rewrite !bool_decide_false; [done|..]; intros [ -> | -> ]; discriminate Hd. }
  replace (if bool_decide (c = "0"%char) then radix_prefix r else None) with (@None (Z * list ascii))
    by (case_match; congruence).
  rewrite !bool_decide_false by (by intros ->). rewrite Hinf, Hparse; by apply dec_round64_small.
Qed.

Lemma numeral_no_char c z : 0 <= z -> is_digit c = false -> no_char c (string_of_Z z).
Proof.
  intros Hz Hc; destruct (string_of_Z_digits z Hz) as (_ & Hd & _); unfold no_char.
  eapply Forall_impl; [exact Hd|]; intros d Hdd; by apply (digit_char_not _ _ Hdd).
Qed.

Lemma Number_of_numeral z : 0 <= z < 2 ^ 64 -> Number_of_string (string_of_Z z) = DNum z 0.
Proof.
  intros Hz; destruct (string_of_Z_digits z) as (Hne & Hd & Hv); [lia|].
  rewrite <- (str_chars (string_of_Z z)), Number_of_digits; [by rewrite Hv|done|done|lia].
Qed.

Lemma trim_numeral z : 0 <= z -> trim (string_of_Z z) = string_of_Z z.
Proof. intros Hz; apply trim_id, digits_not_ws; by destruct (string_of_Z_digits z Hz) as (_ & ? & _). Qed.

Lemma truthy_numeral z : 0 <= z -> truthy (string_of_Z z) = true.
Proof.
  intros Hz; destruct (string_of_Z_digits z Hz) as (Hne & _); by destruct (string_of_Z z).
Qed.

(** Trimming leaves a text alone whose ends are not white space. *)
Definition solid (l : list ascii) : Prop :=
  match l with [] => False | c :: _ => is_ws c = false end /\
  match rev l with [] => False | c :: _ => is_ws c = false end.

Lemma trim_solid l : solid l -> trim_chars l = l.
Proof.
  intros [Hh Ht]; unfold trim_chars.
  destruct l as [|c l]; [done|]; cbn [trim_start]; rewrite Hh.
  destruct (rev (c :: l)) as [|d r] eqn:E; [done|]; cbn [trim_start]; rewrite Ht, <- E; apply rev_involutive.
Qed.

Lemma trim_start_head l : match trim_start l with [] => True | c :: _ => is_ws c = false end.
Proof. induction l as [|c l IH]; cbn; [done|]; by destruct (is_ws c) eqn:E. Qed.

Lemma trim_chars_solid l : trim_chars l <> [] -> solid (trim_chars l).
Proof.
  unfold trim_chars; set (m := trim_start l); intros Hne.
  pose proof (trim_start_head (rev m)) as Hlast. split.
  - pose proof (trim_start_head l) as Hhead; fold m in Hhead.
    assert (exists k, rev (trim_start (rev m)) ++ k = m) as [k Hk].
    { assert (forall x, exists p, p ++ trim_start x = x) as Hsuf.
      { induction x as [|c x [p Hp]]; [by exists []|]; cbn; destruct (is_ws c); [|by exists []].
        exists (c :: p); cbn; by rewrite Hp. }
      destruct (Hsuf (rev m)) as [p Hp]; exists (rev p). rewrite <- rev_app_distr, Hp; apply rev_involutive. }
    destruct (rev (trim_start (rev m))) as [|c r]; [done|]; by rewrite <- Hk in Hhead.
  - rewrite rev_involutive. destruct (trim_start (rev m)); [done|exact Hlast].
Qed.

Lemma solid_app a b : solid a -> solid b -> solid (a ++ b).
Proof.
  intros [Ha _] [_ Hb]; split; [by destruct a|].
  rewrite rev_app_distr; by destruct (rev b).
Qed.

Lemma numeral_solid z : 0 <= z -> solid (chars (string_of_Z z)).
Proof.
  intros Hz; destruct (string_of_Z_digits z Hz) as (Hne & Hd & _); apply digits_not_ws in Hd; split.
  - by destruct Hd.
  - pose proof (Forall_rev Hd) as Hr; destruct (rev (chars (string_of_Z z))) as [|c r] eqn:E; [|by inversion Hr].
    apply (f_equal (@rev ascii)) in E; rewrite rev_involutive in E; by rewrite E in Hne.
Qed.

Definition of_int (z : Z) : dec := DNum z 0.

Lemma token_replicas info n : 0 < n < 2 ^ 53 ->
  apply_token info ("replicas=" +:+ string_of_Z n) =
  mkHint (hint_base info) (Some (of_int n)) (hint_rsK info) (hint_rsM info) (hint_mode info).
Proof.
  intros Hn; unfold apply_token.
  assert (split2 "=" ("replicas=" +:+ string_of_Z n) = ("replicas", Some (string_of_Z n))) as ->.
  { unfold split2; change ("replicas=" +:+ string_of_Z n) with ("replicas" +:+ String "=" (string_of_Z n)).
    rewrite split_cons by (by repeat constructor). rewrite split_one by (apply numeral_no_char; (done || lia)); done. }
  change (to_lower (trim "replicas")) with "replicas"; cbn [default from_option id].
  rewrite trim_numeral, truthy_numeral, Number_of_numeral by lia.
  change (truthy "replicas") with true; change (eqb "replicas" "replicas") with true;
    change (eqb "replicas" "rs") with false; cbn [negb orb dec_is_finite dec_pos andb].
  destruct (Z.ltb_spec 0 n); [done|lia].
Qed.

Lemma token_rs info k m : 0 < k < 2 ^ 53 -> 0 < m < 2 ^ 53 ->
  apply_token info ("rs=" +:+ string_of_Z k +:+ "+" +:+ string_of_Z m) =
  mkHint (hint_base info) (hint_replicas info) (Some (of_int k)) (Some (of_int m)) mode2.
Proof.
  intros Hk Hm; unfold apply_token; set (v := string_of_Z k +:+ "+" +:+ string_of_Z m).
  assert (chars v = chars (string_of_Z k) ++ "+"%char :: chars (string_of_Z m)) as Hv
    by (unfold v; by rewrite chars_app).
  assert (no_char "=" v) as Hnv.
  { unfold no_char; rewrite Hv; apply Forall_app; split; [apply numeral_no_char; (done || lia)|].
    constructor; [done|apply numeral_no_char; (done || lia)]. }
  assert (split2 "=" ("rs=" +:+ v) = ("rs", Some v)) as ->.
  { unfold split2; change ("rs=" +:+ v) with ("rs" +:+ String "=" v).
    rewrite split_cons by (by repeat constructor). by rewrite split_one. }
  change (to_lower (trim "rs")) with "rs"; cbn [default from_option id].
  assert (trim v = v) as ->.
  { unfold trim; rewrite trim_solid; [apply str_chars|]. rewrite Hv.
    destruct (numeral_solid k) as [Hs _]; [lia|]. destruct (numeral_solid m) as [_ Ht]; [lia|]; split.
    - by destruct (chars (string_of_Z k)).
    - rewrite rev_app_distr; cbn [rev]. by destruct (rev (chars (string_of_Z m))). }
  assert (truthy v = true) as -> by (unfold v; by destruct (string_of_Z k)).
  change (truthy "rs") with true; change (eqb "rs" "replicas") with false; change (eqb "rs" "rs") with true;
    cbn [negb orb].
  unfold v; change (string_of_Z k +:+ "+" +:+ string_of_Z m) with (string_of_Z k +:+ String "+" (string_of_Z m)).
  rewrite split_cons, split_one by (apply numeral_no_char; (done || lia)).
  rewrite !Number_of_numeral by lia; cbn [dec_is_finite dec_pos andb].
  destruct (Z.ltb_spec 0 k), (Z.ltb_spec 0 m); (done || lia).
Qed.

Lemma rounded_of_int z : opt_rounded (Some (of_int z)) = string_of_Z z.
Proof. cbn; unfold dec_round; cbn [Z.leb]; by rewrite Z.pow_0_r, Z.mul_1_r. Qed.

Lemma numeral_tail_solid p z : 0 <= z -> match p with [] => False | c :: _ => is_ws c = false end ->
  solid (p ++ chars (string_of_Z z)).
Proof.
  intros Hz Hp; destruct (numeral_solid z Hz) as [_ Ht]; split; [by destruct p|].
  rewrite rev_app_distr; by destruct (rev (chars (string_of_Z z))).
Qed.

(** Parsing a base followed by tokens. *)
Lemma parse_tokens base tokens s :
  solid (chars base) -> no_char ":" base -> Forall (no_char ":") tokens -> tokens <> [] ->
  solid (chars (join ":" tokens)) -> s = base +:+ ":" +:+ join ":" tokens -> trim base = base ->
  parseServiceHint (Some s) = fold_left apply_token tokens (mkHint base None None None mode1).
Proof.
  intros Hb Hnb Htok Hne Hsol -> Htrim; unfold parseServiceHint; cbn [default from_option id].
  assert (chars (base +:+ ":" +:+ join ":" tokens) = chars base ++ ":"%char :: chars (join ":" tokens)) as Hc
    by (by rewrite chars_app).
  assert (trim (base +:+ ":" +:+ join ":" tokens) = base +:+ ":" +:+ join ":" tokens) as ->.
  { unfold trim; rewrite trim_solid; [apply str_chars|]. rewrite Hc; apply solid_app; [done|]. split; [done|]. cbn [rev]; destruct Hsol as [_ Hl].
    by destruct (rev (chars (join ":" tokens))). }
  assert (is_empty (base +:+ ":" +:+ join ":" tokens) = false) as -> by (by destruct base).
  change (base +:+ ":" +:+ join ":" tokens) with (base +:+ String ":" (join ":" tokens)).
  rewrite split_cons by done; rewrite Htrim; f_equal.
  clear - Htok Hne; induction Htok as [|t ts Ht Hts IH]; [done|]; destruct ts as [|t' ts].
  - by apply split_one.
  - change (join ":" (t :: t' :: ts)) with (t +:+ String ":" (join ":" (t' :: ts))).
    rewrite split_cons by done; by rewrite IH.
Qed.

Lemma replicas_token_ok n : 0 < n ->
  no_char ":" ("replicas=" +:+ string_of_Z n) /\ solid (chars ("replicas=" +:+ string_of_Z n)).
Proof.
  intros Hn; split.
  - apply no_char_app; [by repeat constructor|apply numeral_no_char; (done || lia)].
  - rewrite chars_app; apply numeral_tail_solid; [lia|done].
Qed.

Lemma rs_token_ok k m : 0 < k -> 0 < m ->
  no_char ":" ("rs=" +:+ string_of_Z k +:+ "+" +:+ string_of_Z m) /\
  solid (chars ("rs=" +:+ string_of_Z k +:+ "+" +:+ string_of_Z m)).
Proof.
  intros Hk Hm; split.
  - repeat apply no_char_app; try (apply numeral_no_char; (done || lia)); by repeat constructor.
  - rewrite !chars_app, !app_assoc; apply numeral_tail_solid; [lia|done].
Qed.

(** The parameters are positive, so the guards of the builder hold. *)
Ltac hint_positive :=
  repeat match goal with
  | |- context [?z =? 0] => replace (z =? 0) with false by (symmetry; apply Z.eqb_neq; lia)
  | |- context [0 <? ?z] => replace (0 <? z) with true by (symmetry; apply Z.ltb_lt; lia)
  end; cbn [negb andb app].

(** Service hints round trip.  Parsing what [buildServiceHint] writes gives the
    base, the replica count and the Reed-Solomon parameters back, with mode 2
    exactly when the parameters are present; each of the two may be absent. *)
Theorem serviceHint_round_trip base r km :
  trim base = base -> base <> "" -> no_char ":" base ->
  match r with Some n => 0 < n < 2 ^ 53 | None => True end ->
  match km with Some (k, m) => 0 < k < 2 ^ 53 /\ 0 < m < 2 ^ 53 | None => True end ->
  parseServiceHint (Some (buildServiceHint base (of_int <$> r) (of_int ∘ fst <$> km) (of_int ∘ snd <$> km))) =
  mkHint base (of_int <$> r) (of_int ∘ fst <$> km) (of_int ∘ snd <$> km)
    (match km with Some _ => mode2 | None => mode1 end).
Proof.
  intros Htrim Hne Hcolon Hr Hkm.
  assert (solid (chars base)) as Hsolid.
  { unfold trim in Htrim. rewrite <- Htrim, chars_str; apply trim_chars_solid. intros E; by rewrite E in Htrim. }
  unfold buildServiceHint; rewrite Htrim.
  assert (or_else base "General" = base) as -> by (by destruct base).
  destruct r as [n|], km as [ [k m] |]; cbn [fmap option_fmap option_map compose fst snd] in *; rewrite ?rounded_of_int;
    cbn [opt_truthy opt_pos dec_truthy dec_pos of_int]; hint_positive.
  - destruct (replicas_token_ok n) as [Hn1 Hn2]; [lia|]. destruct (rs_token_ok k m) as [Hm1 Hm2]; [lia..|].
    rewrite (parse_tokens base ["replicas=" +:+ string_of_Z n; "rs=" +:+ string_of_Z k +:+ "+" +:+ string_of_Z m]);
      [|done|done|by repeat (apply Forall_cons_2; [done|])|done| |done|done].
    + cbn [fold_left]; rewrite token_replicas, token_rs by tauto; done.
    + change (join ":" [?a; ?b]) with (a +:+ String ":" b); rewrite chars_app.
      change (chars (String ":" ?b)) with (":"%char :: chars b).
      apply solid_app; [exact Hn2|]. destruct Hm2 as [_ Hm2]; split; [done|]. cbn [rev]; by destruct (rev _).
  - destruct (replicas_token_ok n) as [Hn1 Hn2]; [lia|].
    rewrite (parse_tokens base ["replicas=" +:+ string_of_Z n]); [|done|done|by repeat (apply Forall_cons_2; [done|])|done|done|done|done].
    cbn [fold_left]; rewrite token_replicas by tauto; done.
  - destruct (rs_token_ok k m) as [Hm1 Hm2]; [lia..|].
    rewrite (parse_tokens base ["rs=" +:+ string_of_Z k +:+ "+" +:+ string_of_Z m]);
      [|done|done|by repeat (apply Forall_cons_2; [done|])|done|done|done|done].
    cbn [fold_left]; rewrite token_rs by tauto; done.
  - cbn [opt_truthy opt_pos andb app]. unfold parseServiceHint; cbn [default from_option id]; rewrite Htrim.
    assert (is_empty base = false) as -> by (by destruct base). rewrite split_one by done; cbn; by rewrite Htrim.
Qed.

Lemma serviceHint_round_trip_witness :
  parseServiceHint (Some (buildServiceHint "Hot" (Some (of_int 3)) (Some (of_int 8)) (Some (of_int 4)))) =
  mkHint "Hot" (Some (of_int 3)) (Some (of_int 8)) (Some (of_int 4)) mode2.
Proof.
  apply (serviceHint_round_trip "Hot" (Some 3) (Some (8, 4))); [reflexivity|discriminate| |lia|lia].
  by repeat constructor.
Defined.

(** A canonical multiaddr [/proto/host/tcp/port/http] becomes the URL of that
    host and port, for any protocol and host name that is not itself a keyword. *)
Theorem multiaddr_http_url proto host port :
  Forall (fun s => no_char "/" s /\ s <> "" /\ s <> "tcp" /\ s <> "https") [proto; host] ->
  all_digits port = true ->
  multiaddrToHttpUrl ("/" +:+ join "/" [proto; host; "tcp"; port; "http"]) =
  Some ("http://" +:+ host +:+ ":" +:+ port).
Proof.
  rewrite !Forall_cons; intros ((Hp & Hp0 & Hp1 & Hp2) & (Hh & Hh0 & Hh1 & Hh2) & _) Hport.
  assert (port <> "" /\ Forall digit_char (chars port)) as [Hne Hdig].
  { unfold all_digits in Hport; apply andb_true_iff in Hport as [H1 H2]; split; [by intros ->|].
    apply List.Forall_forall; intros c Hc; rewrite forallb_forall in H2; by apply H2. }
  assert (port <> "tcp" /\ port <> "http" /\ port <> "https") as (Ht1 & Ht2 & Ht3).
  { repeat split; intros ->; by inversion Hdig. }
  assert (parts_of ("/" +:+ join "/" [proto; host; "tcp"; port; "http"]) = [proto; host; "tcp"; port; "http"]) as Hparts.
  { unfold parts_of; change ("/" +:+ ?s) with ("" +:+ String "/" s).
    rewrite split_cons, split_join; [|done| |constructor].
    - unfold filter_truthy; cbn [List.filter truthy is_empty negb].
      assert (forall s, s <> "" -> truthy s = true) as Htr by (by intros [|]). rewrite !Htr by done; done.
    - rewrite !Forall_cons; repeat split; try done; [by repeat constructor| |by repeat constructor].
      eapply Forall_impl; [exact Hdig|]; intros c Hc; by apply (digit_char_not _ _ Hc). }
  unfold multiaddrToHttpUrl; set (s := "/" +:+ join "/" [proto; host; "tcp"; port; "http"]) in *.
  assert (trim s = s) as ->.
  { unfold trim; rewrite trim_solid; [apply str_chars|]; split; [done|].
    assert (chars s = (chars "/" ++ chars proto ++ chars "/" ++ chars host ++ chars "/tcp/" ++ chars port) ++ chars "/http") as ->
      by (unfold s; cbn [join]; rewrite !chars_app, <- !app_assoc; done).
    rewrite rev_app_distr; done. }
  assert (starts_with "/" s = true) as -> by apply starts_with_app. cbn [negb]; rewrite Hparts.
  set (parts := [proto; host; "tcp"; port; "http"]).
  assert (index_of "tcp" parts = 2) as ->.
  { unfold index_of, parts; cbn [index_of_from]; by rewrite !(eqb_false "tcp") by done. }
  assert (mem "https" parts = false /\ mem "http" parts = true) as [-> ->].
  { unfold mem, parts; cbn [existsb]; split; [by rewrite !(eqb_false "https") by done|].
    change (eqb "http" "http") with true; by rewrite !orb_true_r. }
  change ((2 <? 2) || (zlen parts <=? 2 + 1)) with false; cbn [negb andb].
  change (default "" (nth_str parts (2 - 2))) with proto; change (default "" (nth_str parts (2 - 1))) with host;
    change (default "" (nth_str parts (2 + 1))) with port.
  rewrite Hport; cbn [negb]. destruct proto, host; done.
Qed.

Lemma multiaddr_http_url_witness :
  multiaddrToHttpUrl "/ip4/127.0.0.1/tcp/8080/http" = Some "http://127.0.0.1:8080".
Proof.
  apply (multiaddr_http_url "ip4" "127.0.0.1" "8080"); [|reflexivity].
  rewrite !Forall_cons; repeat split; try discriminate; by repeat constructor.
Defined.

(** An IPv6 host is not put in brackets. *)
Example multiaddr_ip6 : multiaddrToHttpUrl "/ip6/::1/tcp/80/http" = Some "http://::1:80".
Proof. reflexivity. Qed.

