(* ===== verification/Http.v ===== *)
(** * HTTP from the browser (fetch, URL encoding, lib/http.ts)

    [Http W] is what the sources use of [fetch]: a request goes out under a signal
    that aborts after a time, or never, and settles with a response or an error.
    The URL encoders are the platform's; their decoders are here to state that a
    server reads back what a client wrote. *)
From S2P Require Import Prelude JsString JsNum TransportTypes Effects Bytes Text.
#[local] Open Scope Z_scope.

Inductive form_value := FText (s : string) | FFile (filename : string) (data : bytes).
(** [BJson v] is [JSON.stringify(v)]. *)
Inductive Body :=
| NoBody | BText (s : string) | BBytes (l : bytes) | BJson (v : json) | BForm (fields : list (string * form_value)).

Record Request := mkReq {
  rq_url : string; rq_method : string; rq_headers : list (string * string); rq_body : Body
}.
Definition GET (url : string) : Request := mkReq url "GET" [] NoBody.

(** A response; reading its body as text, JSON or bytes may fail. *)
Record Response := mkRes {
  rs_status : Z; rs_headers : list (string * string);
  rs_text : outcome string; rs_json : outcome json; rs_bytes : outcome bytes
}.
Definition rs_ok (r : Response) : bool := (200 <=? rs_status r) && (rs_status r <=? 299).

(** [res.headers.get(name)]: names compare without case; [None] is [null]. *)
Fixpoint get_header (name : string) (h : list (string * string)) : option string :=
  match h with
  | [] => None
  | (k, v) :: h' => if eqb (to_lower k) (to_lower name) then Some v else get_header name h'
  end.

Class Http (W : Type) := {
  (** The signal aborts after the given number of milliseconds, or never. *)
  fetch : option Z -> Request -> M W Response;
  (** Whether that timer had fired when the last [fetch] settled. *)
  timer_fired : W -> bool
}.

(** A scripted network, for concrete runs: each request gets the next outcome. *)
Definition scripted_http : Http (list (outcome Response)) := {|
  fetch _ _ := fun script => match script with
                             | r :: script' => (r, script')
                             | [] => (Thrown (JsError "TypeError" "Failed to fetch"), [])
                             end;
  timer_fired _ := false
|}.
Definition json_response (j : json) : Response := mkRes 200 [] (Ok "") (Ok j) (Ok []).

(** [res.text().catch(() => '')] and [res.json().catch(() => d)] *)
Definition text_or_empty (r : Response) : string := match rs_text r with Ok s => s | Thrown _ => "" end.
Definition json_or (d : json) (r : Response) : json := match rs_json r with Ok j => j | Thrown _ => d end.

(** ** http.ts *)

Section FetchWithTimeout.
Context {W : Type} `{Http W}.

(** No caller passes a signal of its own; the timer is cleared in any case. *)
Definition fetchWithTimeout (rq : Request) (timeoutMs : num) : M W Response :=
  match timeoutMs with
  | Num ms =>
      if ms <=? 0 then fetch None rq
      else
        try_catch (fetch (Some ms) rq)
          (fun err => prim (fun w =>
             if timer_fired w
             then (Thrown (Error ("Request timed out after " +:+ string_of_Z ms +:+ "ms")), w)
             else (Thrown err, w)))
  | _ => fetch None rq
  end.
End FetchWithTimeout.

(** ** [encodeURIComponent] and [URLSearchParams] *)

Definition upper_hex (d : Z) : ascii := char_of (if d <? 10 then 48 + d else 55 + d).
Definition percent (b : Z) : list ascii := ["%"%char; upper_hex (b / 16); upper_hex (b mod 16)].
Definition utf8_of_char (c : ascii) : bytes := utf8_of_code_point (code c).

Definition is_alnum (c : ascii) : bool :=
  let z := code c in
  ((48 <=? z) && (z <=? 57)) || ((65 <=? z) && (z <=? 90)) || ((97 <=? z) && (z <=? 122)).
Definition unreserved (c : ascii) : bool :=
  is_alnum c || bool_decide (c ∈ chars "-_.!~*'()").
Definition form_safe (c : ascii) : bool := is_alnum c || bool_decide (c ∈ chars "*-._").

Definition escape (safe : ascii -> bool) (c : ascii) : list ascii :=
  if safe c then [c] else concat (map percent (utf8_of_char c)).
Definition encodeURIComponent (s : string) : string := str (concat (map (escape unreserved) (chars s))).

Definition form_char (c : ascii) : list ascii :=
  if bool_decide (c = " "%char) then ["+"%char] else escape form_safe c.
Definition form_encode (s : string) : string := str (concat (map form_char (chars s))).
(** [new URLSearchParams(pairs).toString()] for pairs with distinct names *)
Definition URLSearchParams_toString (q : list (string * string)) : string :=
  join "&" (map (fun kv => form_encode kv.1 +:+ "=" +:+ form_encode kv.2) q).

(** ** The decoders a server uses *)

Definition hex_val (c : ascii) : option Z := radix_digit 16 c.

(** Percent-decoding to bytes; a [%] without two hex digits stands for itself. *)
Fixpoint percent_decode (l : list ascii) : bytes :=
  match l with
  | [] => []
  | c :: r =>
      if bool_decide (c = "%"%char) then
        match r with
        | a :: b :: r' =>
            match hex_val a, hex_val b with
            | Some x, Some y => (16 * x + y) :: percent_decode r'
            | _, _ => code c :: percent_decode r
            end
        | _ => code c :: percent_decode r
        end
      else code c :: percent_decode r
  end.
Definition latin1_of_utf8 (l : bytes) : string := str (map char_of (utf8_run utf8_init l)).
Definition decodeURIComponent (s : string) : string := latin1_of_utf8 (percent_decode (chars s)).
Definition plus_to_space (c : ascii) : ascii := if bool_decide (c = "+"%char) then " "%char else c.
Definition form_decode (s : string) : string := latin1_of_utf8 (percent_decode (map plus_to_space (chars s))).

Definition parse_pair (p : string) : string * string :=
  match split "=" p with
  | k :: v => (form_decode k, form_decode (join "=" v))
  | [] => ("", "")
  end.
Definition parse_query (s : string) : list (string * string) := map parse_pair (split "&" s).

Example encode_example : encodeURIComponent "a b/c&d=" = "a%20b%2Fc%26d%3D".
Proof. reflexivity. Qed.
Example query_example : URLSearchParams_toString [("deal_id", "7"); ("file_path", "a b&c")] = "deal_id=7&file_path=a+b%26c".
Proof. reflexivity. Qed.

(** ** Round trips *)

(** Decide a fact about a character by looking at all of them. *)
Lemma char_cases (P : ascii -> bool) :
  forallb (fun k => P (char_of (Z.of_nat k))) (seq 0 256) = true -> forall c, P c = true.
Proof.
  intros Hall c; pose proof (code_bound c) as Hr; rewrite forallb_forall in Hall.
  specialize (Hall (Z.to_nat (code c)) ltac:(apply in_seq; lia)).
  rewrite Z2Nat.id in Hall by lia. by rewrite char_of_code in Hall.
Qed.

(** An escaped character decodes to its UTF-8 bytes, whatever follows. *)
Definition decodes_to (e : list ascii) (l : bytes) : Prop := forall r, percent_decode (e ++ r) = l ++ percent_decode r.

Lemma decodes_percent b : is_byte b -> decodes_to (percent b) [b].
Proof.
  unfold is_byte; intros Hb r; unfold percent; cbn [app percent_decode]; rewrite bool_decide_true by done.
  assert (forall d, 0 <= d < 16 -> hex_val (upper_hex d) = Some d) as Hhex.
  { intros d Hd.
    assert (forallb (fun k => bool_decide (hex_val (upper_hex (Z.of_nat k)) = Some (Z.of_nat k))) (seq 0 16) = true) as Hall
      by (vm_compute; reflexivity).
    rewrite forallb_forall in Hall; specialize (Hall (Z.to_nat d) ltac:(apply in_seq; lia)).
    rewrite Z2Nat.id in Hall by lia; by apply bool_decide_eq_true in Hall. }
  rewrite !Hhex by zdivl. f_equal; zdivl.
Qed.

Lemma decodes_concat ls : Forall is_byte ls -> decodes_to (concat (map percent ls)) ls.
Proof.
  induction 1 as [|b ls Hb _ IH]; intros r; [done|]; cbn [map concat].
  rewrite <- app_assoc, (decodes_percent b Hb), IH; done.
Qed.

Lemma utf8_of_char_bytes c : Forall is_byte (utf8_of_char c) /\ is_scalar (code c).
Proof.
  pose proof (code_bound c); unfold utf8_of_char, utf8_of_code_point, is_scalar, is_byte; split; [|lia].
  destruct (Z.leb_spec (code c) 127); [by repeat constructor; lia|].
  destruct (Z.leb_spec (code c) 2047); [|lia]. repeat constructor; zdivl.
Qed.

Lemma decodes_escape safe c :
  (safe c = true -> c <> "%"%char /\ code c < 128) -> decodes_to (escape safe c) (utf8_of_char c).
Proof.
  intros Hsafe; unfold escape; destruct (safe c) eqn:E; [|by apply decodes_concat, utf8_of_char_bytes].
  destruct (Hsafe eq_refl) as [Hne Hlt]; intros r; cbn [app percent_decode].
  rewrite bool_decide_false by done; unfold utf8_of_char, utf8_of_code_point.
  destruct (Z.leb_spec (code c) 127); [done|lia].
Qed.

Lemma decode_escaped (f : ascii -> list ascii) l :
  (forall c, decodes_to (f c) (utf8_of_char c)) ->
  latin1_of_utf8 (percent_decode (concat (map f l))) = str l.
Proof.
  intros Hf; unfold latin1_of_utf8.
  assert (percent_decode (concat (map f l)) = concat (map utf8_of_code_point (map code l))) as ->.
  { induction l as [|c l IH]; [done|]; cbn [map concat]; by rewrite Hf, IH. }
  rewrite utf8_round_trip; cycle 1.
  { apply Forall_map, List.Forall_forall; intros c _; apply utf8_of_char_bytes. }
  f_equal; rewrite map_map. rewrite <- (map_id l) at 2; apply map_ext; apply char_of_code.
Qed.

Lemma unreserved_plain c : unreserved c = true -> c <> "%"%char /\ code c < 128.
Proof.
  intros Hc. assert ((negb (unreserved c) || (negb (bool_decide (c = "%"%char)) && (code c <? 128))) = true) as H
    by (revert c Hc; intros c _; revert c; apply char_cases; vm_compute; reflexivity).
  rewrite Hc in H; cbn in H; apply andb_true_iff in H as [H1 H2].
  apply negb_true_iff, bool_decide_eq_false in H1; split; [done|lia].
Qed.

Lemma encode_facts s :
  decodeURIComponent (encodeURIComponent s) = s /\
  Forall (fun c => c ∉ chars "/?#&=+ %" \/ c = "%"%char) (chars (encodeURIComponent s)).
Proof.
  unfold decodeURIComponent, encodeURIComponent; rewrite chars_str; split.
  - rewrite decode_escaped; [apply str_chars|]. intros c; apply decodes_escape, unreserved_plain.
  - apply List.Forall_forall; intros d Hd; apply in_concat in Hd as (e & He & Hd).
    apply in_map_iff in He as (c & <- & _).
    assert (forallb (fun d => negb (bool_decide (d ∈ chars "/?#&=+ %")) || bool_decide (d = "%"%char))
              (escape unreserved c) = true) as Hall
      by (revert c Hd; intros c _; revert c; apply char_cases; vm_compute; reflexivity).
    rewrite forallb_forall in Hall; apply Hall, orb_true_iff in Hd as [Hd|Hd].
    + left; by apply negb_true_iff, bool_decide_eq_false in Hd.
    + right; by apply bool_decide_eq_true in Hd.
Qed.

(** [encodeURIComponent] loses nothing and cannot escape its place: it decodes
    to the original string, and its output contains none of the characters that
    separate the parts of a URL. *)
Theorem encodeURIComponent_safe s :
  decodeURIComponent (encodeURIComponent s) = s /\
  Forall (fun c => c ∉ chars "/?#&=+ %" \/ c = "%"%char) (chars (encodeURIComponent s)).
Proof. apply encode_facts. Qed.

(** ** Query strings *)

Lemma form_char_facts c :
  Forall (fun d => d <> "&"%char /\ d <> "="%char) (form_char c) /\
  (form_char c = ["+"%char] /\ c = " "%char \/
   form_char c = escape form_safe c /\ Forall (fun d => d <> "+"%char) (form_char c)).
Proof.
  assert (forallb (fun d => negb (bool_decide (d = "&"%char)) && negb (bool_decide (d = "="%char))) (form_char c) &&
          (bool_decide (c = " "%char) || forallb (fun d => negb (bool_decide (d = "+"%char))) (form_char c)) = true) as H
    by (revert c; apply char_cases; vm_compute; reflexivity).
  apply andb_true_iff in H as [H1 H2]; rewrite forallb_forall in H1; split.
  - apply List.Forall_forall; intros d Hd; apply H1, andb_true_iff in Hd as [Ha Hb].
    by apply negb_true_iff, bool_decide_eq_false in Ha; apply negb_true_iff, bool_decide_eq_false in Hb.
  - destruct (bool_decide (c = " "%char)) eqn:E.
    + left; apply bool_decide_eq_true in E as ->; done.
    + right; split; [unfold form_char; by rewrite E|]. cbn [orb] in H2; rewrite forallb_forall in H2.
      apply List.Forall_forall; intros d Hd; by apply H2, negb_true_iff, bool_decide_eq_false in Hd.
Qed.

Lemma form_safe_plain c : form_safe c = true -> c <> "%"%char /\ code c < 128.
Proof.
  intros Hc. assert ((negb (form_safe c) || (negb (bool_decide (c = "%"%char)) && (code c <? 128))) = true) as H
    by (revert c Hc; intros c _; revert c; apply char_cases; vm_compute; reflexivity).
  rewrite Hc in H; cbn in H; apply andb_true_iff in H as [H1 H2].
  apply negb_true_iff, bool_decide_eq_false in H1; split; [done|lia].
Qed.

Lemma form_round_trip s : form_decode (form_encode s) = s.
Proof.
  unfold form_decode, form_encode; rewrite chars_str, concat_map, map_map.
  rewrite decode_escaped; [apply str_chars|]; intros c.
  destruct (form_char_facts c) as [_ [ [-> ->] | [E Hp] ] ]; [done|].
  replace (map plus_to_space (form_char c)) with (form_char c); cycle 1.
  { clear E; induction Hp as [|d l Hd _ IH]; [done|]; cbn [map]; rewrite <- IH.
    unfold plus_to_space; by rewrite bool_decide_false. }
  rewrite E; apply decodes_escape, form_safe_plain.
Qed.

Lemma form_encode_no c s : c = "&"%char \/ c = "="%char -> no_char c (form_encode s).
Proof.
  intros Hc; unfold no_char, form_encode; rewrite chars_str; apply List.Forall_forall; intros d Hd.
  apply in_concat in Hd as (e & He & Hd). apply in_map_iff in He as (a & <- & _).
  destruct (form_char_facts a) as [Hall _]; rewrite List.Forall_forall in Hall.
  destruct (Hall d Hd) as [H1 H2]; by destruct Hc as [-> | ->].
Qed.

Lemma query_round_trip_eq q : q <> [] -> parse_query (URLSearchParams_toString q) = q.
Proof.
  intros Hne; unfold parse_query, URLSearchParams_toString.
  rewrite split_join; [|by destruct q|].
  - rewrite map_map; rewrite <- (map_id q) at 2; apply map_ext; intros [k v]; unfold parse_pair; cbn [fst snd].
    change (form_encode k +:+ "=" +:+ form_encode v) with (form_encode k +:+ String "=" (form_encode v)).
    rewrite split_cons, split_one by (apply form_encode_no; tauto). cbn [join]. by rewrite !form_round_trip.
  - apply Forall_map, List.Forall_forall; intros [k v] _; cbn [fst snd].
    repeat apply no_char_app; [apply form_encode_no; tauto| |apply form_encode_no; tauto].
    by repeat constructor.
Qed.

(** Query strings round trip.  Whatever the names and values are, a server that
    parses what [URLSearchParams] writes gets exactly those pairs, so no value can
    add or change a parameter. *)
Theorem query_round_trip q : q <> [] -> parse_query (URLSearchParams_toString q) = q.
Proof. apply query_round_trip_eq. Qed.

Lemma query_round_trip_witness :
  parse_query (URLSearchParams_toString [("owner", "nil1&deal_id=9"); ("x", "")]) = [("owner", "nil1&deal_id=9"); ("x", "")].
Proof. apply query_round_trip; discriminate. Defined.
