(* ===== verification/Lcd.v ===== *)
(** * Chain queries and provider discovery (domain/lcd.ts, api/lcdClient.ts, lib/providerDiscovery.ts)

    What the LCD returns is JSON of unknown shape; the normalisers turn it into
    deals, providers and parameters.  Discovery resolves the endpoints of a deal's
    providers from two such queries. *)
From S2P Require Import Prelude JsString JsNum TransportTypes Effects Bytes Hex Multiaddr Http.
#[local] Open Scope Z_scope.

(** ** domain/lcd.ts *)

Record LcdDeal := mkDeal {
  d_id : string; d_cid : string; d_size : string; d_owner : string; d_escrow : string;
  d_end_block : string; d_start_block : string; d_service_hint : string;
  d_current_replication : string; d_max_monthly_spend : string; d_providers : list string
}.
Record LcdProvider := mkProvider { p_address : string; p_endpoints : option (list string); p_status : string }.
Record LcdCoin := mkCoin { c_amount : string; c_denom : string }.
Record LcdParams := mkParams {
  base_retrieval_fee : LcdCoin; retrieval_price_per_blob : LcdCoin; retrieval_burn_bps : string
}.

(** [typeof value === 'object' && value !== null]: arrays count. *)
Definition isRecord (v : json) : bool := match v with JObj _ | JArr _ => true | _ => false end.

Definition asString (value : option json) (fallback : string) : string :=
  match value with
  | Some (JStr s) => s
  | Some (JNum n) => string_of_num n
  | _ => fallback
  end.

(** [arr.filter((p) => typeof p === 'string')]; [[]] unless it is an array *)
Definition string_items (v : option json) : list string :=
  match v with
  | Some (JArr l) => omap (fun j => match j with JStr s => Some s | _ => None end) l
  | _ => []
  end.

Definition normalizeLcdDeal (input : json) : option LcdDeal :=
  if negb (isRecord input) then None
  else
    let f := get_field input in
    let manifestRootHex := toHexFromBase64OrHex (f "manifest_root") [48] in
    let cid := or_else (asString (f "cid") "") manifestRootHex in
    Some (mkDeal (asString (f "id") "") cid
      (asString (nullish (f "size") (nullish (f "size_bytes") (Some (JStr "0")))) "0")
      (asString (f "owner") "")
      (asString (nullish (f "escrow_balance") (nullish (f "escrow") (Some (JStr "")))) "")
      (asString (f "end_block") "") (asString (f "start_block") "") (asString (f "service_hint") "")
      (asString (f "current_replication") "") (asString (f "max_monthly_spend") "")
      (string_items (f "providers"))).

Definition normalizeLcdDealsResponse (payload : json) : list LcdDeal :=
  if negb (isRecord payload) then []
  else match get_field payload "deals" with
       | Some (JArr deals) => omap normalizeLcdDeal deals
       | _ => []
       end.

Definition normalizeLcdDealResponse (payload : json) : option LcdDeal :=
  if negb (isRecord payload) then None
  else match get_field payload "deal" with
       | Some deal => if json_truthy deal then normalizeLcdDeal deal else None
       | None => None
       end.

Definition normalizeLcdProvider (item : json) : option LcdProvider :=
  if negb (isRecord item) then None
  else
    let endpoints := string_items (get_field item "endpoints") in
    Some (mkProvider (asString (get_field item "address") "")
            (if 0 <? zlen endpoints then Some endpoints else None)
            (asString (get_field item "status") "")).

Definition normalizeLcdProvidersResponse (payload : json) : list LcdProvider :=
  if negb (isRecord payload) then []
  else match get_field payload "providers" with
       | Some (JArr providers) => omap normalizeLcdProvider providers
       | _ => []
       end.

Definition normalizeLcdCoin (input : option json) : LcdCoin :=
  match input with
  | Some v =>
      if isRecord v then mkCoin (asString (get_field v "amount") "0") (asString (get_field v "denom") "")
      else mkCoin "0" ""
  | None => mkCoin "0" ""
  end.

Definition normalizeLcdParamsResponse (payload : json) : option LcdParams :=
  if negb (isRecord payload) then None
  else match get_field payload "params" with
       | Some params =>
           if isRecord params then
             Some (mkParams (normalizeLcdCoin (get_field params "base_retrieval_fee"))
                     (normalizeLcdCoin (get_field params "retrieval_price_per_blob"))
                     (asString (get_field params "retrieval_burn_bps") "0"))
           else None
       | None => None
       end.

(** ** api/lcdClient.ts *)

Section Client.
Context {W : Type} `{Http W}.

(** The common shape of the four queries. *)
Definition lcd_get {A} (what url : string) (norm : json -> A) : M W A :=
  res ← fetch None (GET url);
  if negb (rs_ok res) then js_error ("LCD " +:+ what +:+ " returned " +:+ string_of_Z (rs_status res))
  else mret (norm (json_or JNull res)).

Definition lcdFetchDeals (lcdBase : string) : M W (list LcdDeal) :=
  lcd_get "deals" (lcdBase +:+ "/nilchain/nilchain/v1/deals") normalizeLcdDealsResponse.
Definition lcdFetchDeal (lcdBase dealId : string) : M W (option LcdDeal) :=
  lcd_get "deal" (lcdBase +:+ "/nilchain/nilchain/v1/deals/" +:+ encodeURIComponent dealId) normalizeLcdDealResponse.
Definition lcdFetchProviders (lcdBase : string) : M W (list LcdProvider) :=
  lcd_get "providers" (lcdBase +:+ "/nilchain/nilchain/v1/providers") normalizeLcdProvidersResponse.
Definition lcdFetchParams (lcdBase : string) : M W (option LcdParams) :=
  lcd_get "params" (lcdBase +:+ "/nilchain/nilchain/v1/params") normalizeLcdParamsResponse.

(** ** lib/providerDiscovery.ts *)

Record ProviderEndpoint := mkPE { pe_provider : string; pe_baseUrl : string; pe_p2pTarget : option P2pTarget }.
Record ProviderP2pEndpoint := mkPP { pp_provider : string; pp_target : P2pTarget }.

(** The loop over a provider's endpoints: the first HTTP URL and the first p2p target. *)
Definition pick_endpoint (eps : list string) : string * option P2pTarget :=
  fold_left (fun acc ep =>
    let '(baseUrl, p2pTarget) := acc in
    (if truthy baseUrl then baseUrl
     else match multiaddrToHttpUrl ep with Some url => if truthy url then url else baseUrl | None => baseUrl end,
     match p2pTarget with Some t => Some t | None => multiaddrToP2pTarget ep end))
    eps ("", None).

(** [entry?.endpoints] when it is there and not empty *)
Definition endpoints_of (entry : option LcdProvider) : option (list string) :=
  match entry with
  | Some e => match p_endpoints e with Some ([] ) => None | r => r end
  | None => None
  end.
Definition find_provider (addr : string) (providers : list LcdProvider) : option LcdProvider :=
  List.find (fun p => eqb (p_address p) addr) providers.
(** [new Map(providers.map((p) => [p.address, p])).get(addr)]: the last entry wins. *)
Definition map_get (addr : string) (providers : list LcdProvider) : option LcdProvider :=
  find_provider addr (rev providers).

Definition endpoint_result (provider : string) (eps : list string) : option ProviderEndpoint :=
  let '(baseUrl, p2pTarget) := pick_endpoint eps in
  if negb (truthy baseUrl) && bool_decide (p2pTarget = None) then None
  else Some (mkPE provider baseUrl p2pTarget).

(** The first target among the endpoints. *)
Fixpoint first_target (eps : list string) : option P2pTarget :=
  match eps with
  | [] => None
  | ep :: r => match multiaddrToP2pTarget ep with Some t => Some t | None => first_target r end
  end.

Definition resolveProviderEndpoint (lcdBase dealId : string) : M W (option ProviderEndpoint) :=
  deal ← lcdFetchDeal lcdBase dealId;
  match deal with
  | Some d =>
      match d_providers d with
      | provider :: _ =>
          providers ← lcdFetchProviders lcdBase;
          mret (match endpoints_of (find_provider provider providers) with
                | Some eps => endpoint_result provider eps
                | None => None
                end)
      | [] => mret None
      end
  | None => mret None
  end.

Definition resolveProviderP2pEndpoint (lcdBase dealId : string) : M W (option ProviderP2pEndpoint) :=
  deal ← lcdFetchDeal lcdBase dealId;
  match deal with
  | Some d =>
      match d_providers d with
      | provider :: _ =>
          providers ← lcdFetchProviders lcdBase;
          mret (match endpoints_of (find_provider provider providers) with
                | Some eps => mkPP provider <$> first_target eps
                | None => None
                end)
      | [] => mret None
      end
  | None => mret None
  end.

Definition endpoint_for (providers : list LcdProvider) (provider : string) : ProviderEndpoint :=
  match endpoints_of (map_get provider providers) with
  | Some eps => let '(baseUrl, p2pTarget) := pick_endpoint eps in mkPE provider baseUrl p2pTarget
  | None => mkPE provider "" None
  end.

Definition resolveProviderEndpoints (lcdBase dealId : string) : M W (list ProviderEndpoint) :=
  deal ← lcdFetchDeal lcdBase dealId;
  match deal with
  | Some d =>
      if zlen (d_providers d) =? 0 then mret []
      else
        providers ← lcdFetchProviders lcdBase;
        mret (map (endpoint_for providers) (d_providers d))
  | None => mret []
  end.

Definition resolveProviderEndpointByAddress (lcdBase providerAddr : string) : M W (option ProviderEndpoint) :=
  let addr := trim providerAddr in
  if is_empty addr then mret None
  else
    providers ← lcdFetchProviders lcdBase;
    mret (match endpoints_of (find_provider addr providers) with
          | Some eps => endpoint_result addr eps
          | None => None
          end).

Definition resolveProviderP2pEndpointByAddress (lcdBase providerAddr : string) : M W (option ProviderP2pEndpoint) :=
  let addr := trim providerAddr in
  if is_empty addr then mret None
  else
    providers ← lcdFetchProviders lcdBase;
    mret (match endpoints_of (find_provider addr providers) with
          | Some eps => mkPP addr <$> first_target eps
          | None => None
          end).

(** ** Properties *)

(** A resolved endpoint is one the chain lists for that provider. *)
Definition listed (providers : list LcdProvider) (e : ProviderEndpoint) : Prop :=
  (pe_baseUrl e <> "" -> exists p eps ep, p ∈ providers /\ p_address p = pe_provider e /\
     p_endpoints p = Some eps /\ ep ∈ eps /\ multiaddrToHttpUrl ep = Some (pe_baseUrl e)) /\
  (forall t, pe_p2pTarget e = Some t -> exists p eps ep, p ∈ providers /\ p_address p = pe_provider e /\
     p_endpoints p = Some eps /\ ep ∈ eps /\ multiaddrToP2pTarget ep = Some t).

Lemma pick_endpoint_spec eps :
  let '(b, t) := pick_endpoint eps in
  (b <> "" -> exists ep, ep ∈ eps /\ multiaddrToHttpUrl ep = Some b) /\
  (forall t', t = Some t' -> exists ep, ep ∈ eps /\ multiaddrToP2pTarget ep = Some t') /\ t = first_target eps.
Proof.
  unfold pick_endpoint.
  induction eps as [|ep eps IH] using rev_ind; [split; [done|split; [|done]]; by intros t'|].
  rewrite fold_left_app; cbn [fold_left].
  destruct (fold_left _ eps ("", None)) as [b t] eqn:E. destruct IH as (IHb & IHt & IHf).
  assert (first_target (eps ++ [ep]) = match t with Some t => Some t | None => multiaddrToP2pTarget ep end) as Hft.
  { rewrite IHf; clear; induction eps as [|e eps IH]; cbn; [by destruct (multiaddrToP2pTarget ep)|].
    by destruct (multiaddrToP2pTarget e). }
  split; [|split; [|done]].
  - intros Hne. destruct (truthy b) eqn:Hb.
    + destruct (IHb Hne) as (ep' & Hin & He); exists ep'; split; [apply elem_of_app; by left|done].
    + assert (b = "") as -> by (by destruct b).
      destruct (multiaddrToHttpUrl ep) as [url|] eqn:He; [|done]. destruct (truthy url); [|done].
      exists ep; split; [apply elem_of_app; right; left|done].
  - intros t' Ht. destruct t as [t|].
    + destruct (IHt t' Ht) as (ep' & Hin & He); exists ep'; split; [apply elem_of_app; by left|done].
    + exists ep; split; [apply elem_of_app; right; left|done].
Qed.

Lemma find_provider_spec addr providers p :
  find_provider addr providers = Some p -> p ∈ providers /\ p_address p = addr.
Proof.
  intros Hf; apply find_some in Hf as [Hin Heq]; split; [by apply list_elem_of_In|].
  by apply bool_decide_eq_true in Heq.
Qed.

Lemma endpoint_for_listed providers provider : listed providers (endpoint_for providers provider).
Proof.
  unfold endpoint_for, endpoints_of, map_get.
  destruct (find_provider provider (rev providers)) as [p|] eqn:Hf; [|split; [done|]; by intros t].
  apply find_provider_spec in Hf as [Hin <-].
  rewrite list_elem_of_In, <- in_rev, <- list_elem_of_In in Hin.
  destruct (p_endpoints p) as [ [|e eps] |] eqn:He; [split; [done|]; by intros t| |split; [done|]; by intros t].
  pose proof (pick_endpoint_spec (e :: eps)) as Hp; destruct (pick_endpoint (e :: eps)) as [b t].
  destruct Hp as (Hb & Ht & _); split; cbn [pe_baseUrl pe_p2pTarget pe_provider].
  - intros Hne; destruct (Hb Hne) as (ep & ? & ?); by exists p, (e :: eps), ep.
  - intros t' Heq; destruct (Ht t' Heq) as (ep & ? & ?); by exists p, (e :: eps), ep.
Qed.

(** [resolveProviderEndpoints] answers for the deal's providers, one entry each
    and in the deal's order, and every URL or p2p target it gives is the translation
    of an endpoint the chain lists for that very provider. *)
Theorem resolveProviderEndpoints_sound lcdBase dealId w out w' :
  resolveProviderEndpoints lcdBase dealId w = (Ok out, w') ->
  out = [] \/
  exists deal w1 providers w2,
    lcdFetchDeal lcdBase dealId w = (Ok (Some deal), w1) /\
    lcdFetchProviders lcdBase w1 = (Ok providers, w2) /\
    map pe_provider out = d_providers deal /\ Forall (listed providers) out.
Proof.
  unfold resolveProviderEndpoints; intros Heq; apply bind_ok in Heq as ([deal|] & w1 & Hd & Heq); cycle 1.
  { left; by injection Heq as <- _. }
  destruct (zlen (d_providers deal) =? 0); [left; by injection Heq as <- _|].
  apply bind_ok in Heq as (providers & w2 & Hp & Heq); injection Heq as <- <-; right.
  exists deal, w1, providers, w2; split; [done|]; split; [done|]; split.
  - rewrite map_map. rewrite <- (map_id (d_providers deal)) at 2; apply map_ext; intros p; unfold endpoint_for.
    destruct (endpoints_of _) as [eps|]; [by destruct (pick_endpoint eps)|done].
  - apply Forall_map, List.Forall_forall; intros p _; apply endpoint_for_listed.
Qed.
End Client.

#[local] Existing Instance scripted_http.

Definition demo_deal : json :=
  JObj [("deal", JObj [("id", JStr "7"); ("providers", JArr [JStr "nil1a"; JStr "nil1b"])])].
Definition demo_providers : json :=
  JObj [("providers", JArr [JObj [("address", JStr "nil1a"); ("endpoints", JArr [JStr "/ip4/10.0.0.1/tcp/80/http"])]])].
Definition demo_endpoints : list ProviderEndpoint :=
  [mkPE "nil1a" "http://10.0.0.1:80" None; mkPE "nil1b" "" None].

Lemma resolveProviderEndpoints_sound_witness :
  resolveProviderEndpoints "" "7" [Ok (json_response demo_deal); Ok (json_response demo_providers)] = (Ok demo_endpoints, []) /\
  (demo_endpoints = [] \/
   exists deal w1 providers w2,
     lcdFetchDeal "" "7" [Ok (json_response demo_deal); Ok (json_response demo_providers)] = (Ok (Some deal), w1) /\
     lcdFetchProviders "" w1 = (Ok providers, w2) /\
     map pe_provider demo_endpoints = d_providers deal /\ Forall (listed providers) demo_endpoints).
Proof.
  split; [reflexivity|].
  apply (resolveProviderEndpoints_sound "" "7" [Ok (json_response demo_deal); Ok (json_response demo_providers)] demo_endpoints []).
  reflexivity.
Defined.
