(* ===== verification/GatewayClient.v ===== *)
(** * The gateway's HTTP API (api/gatewayClient.ts)

    One function per endpoint: the URL it builds, the request it sends, what it
    makes of the answer.  Layout, manifest and plan answers are returned as the
    JSON they are. *)
From S2P Require Import Prelude JsString JsNum TransportTypes Effects Bytes Http Lcd.
#[local] Open Scope Z_scope.

(** ** [String] and [Number] of a JSON value *)

Fixpoint json_String (j : json) : string :=
  match j with
  | JNull => "null"
  | JBool b => if b then "true" else "false"
  | JNum n => string_of_num n
  | JStr s => s
  | JArr l => join "," (map (fun x => match x with JNull => "" | _ => json_String x end) l)
  | JObj _ => "[object Object]"
  end.

Definition dec_of_num (n : num) : dec :=
  match n with NaN => DNaN | PInf => DInf false | NInf => DInf true | Num z => DNum z 0 end.
Definition json_Number (j : json) : dec :=
  match j with
  | JNull => DNum 0 0
  | JBool b => DNum (if b then 1 else 0) 0
  | JNum n => dec_of_num n
  | JStr s => Number_of_string s
  | JArr _ => Number_of_string (json_String j)
  | JObj _ => DNaN
  end.
(** [x || 0] *)
Definition dec_or_zero (d : dec) : dec :=
  match d with DNaN => DNum 0 0 | DNum m _ => if m =? 0 then DNum 0 0 else d | _ => d end.

(** ** URLs *)

Definition opt_str (o : option string) : bool := match o with Some s => truthy s | None => false end.

Record AccessParams := mkAccess { ap_dealId : option string; ap_owner : option string }.

(** [if (params?.dealId && params?.owner) url = `${url}?${q}`] *)
Definition with_access (url : string) (params : option AccessParams) : string :=
  match params with
  | Some (mkAccess (Some d) (Some o)) =>
      if truthy d && truthy o
      then url +:+ "?" +:+ URLSearchParams_toString [("deal_id", d); ("owner", o)]
      else url
  | _ => url
  end.

Definition slab_path (root : string) (params : option AccessParams) : string :=
  with_access ("/gateway/slab/" +:+ encodeURIComponent root) params.
Definition list_files_path (root dealId owner : string) : string :=
  "/gateway/list-files/" +:+ encodeURIComponent root +:+ "?deal_id=" +:+ encodeURIComponent dealId +:+
  "&owner=" +:+ encodeURIComponent owner.
Definition manifest_info_path (root : string) (params : option AccessParams) : string :=
  with_access ("/gateway/manifest-info/" +:+ encodeURIComponent root) params.
Definition mdu_kzg_path (root : string) (mduIndex : Z) (params : option AccessParams) : string :=
  with_access ("/gateway/mdu-kzg/" +:+ encodeURIComponent root +:+ "/" +:+ encodeURIComponent (string_of_Z mduIndex)) params.

Record PlanParams := mkPlan {
  pl_dealId : string; pl_owner : string; pl_filePath : string; pl_rangeStart : option Z; pl_rangeLen : option Z
}.
Definition plan_query (p : PlanParams) : list (string * string) :=
  [("deal_id", pl_dealId p); ("owner", pl_owner p); ("file_path", pl_filePath p)] ++
  (match pl_rangeStart p with Some n => [("range_start", string_of_Z n)] | None => [] end) ++
  (match pl_rangeLen p with Some n => [("range_len", string_of_Z n)] | None => [] end).
Definition plan_path (root : string) (p : PlanParams) : string :=
  "/gateway/plan-retrieval-session/" +:+ encodeURIComponent root +:+ "?" +:+ URLSearchParams_toString (plan_query p).

(** ** Requests *)

Record UploadResult := mkUpload {
  up_cid : string; up_sizeBytes : dec; up_fileSizeBytes : dec; up_allocatedLength : option dec; up_filename : string
}.
Record UploadInput := mkUploadInput {
  ui_filename : string; ui_data : bytes; ui_owner : string; ui_dealId : option string; ui_maxUserMdus : option Z
}.

Definition num_truthy (o : option Z) : bool := match o with Some n => negb (n =? 0) | None => false end.

Definition upload_form (i : UploadInput) : list (string * form_value) :=
  [("file", FFile (ui_filename i) (ui_data i)); ("owner", FText (ui_owner i))] ++
  (if opt_str (ui_dealId i) then [("deal_id", FText (default "" (ui_dealId i)))] else []) ++
  (if num_truthy (ui_maxUserMdus i) then [("max_user_mdus", FText (string_of_Z (default 0 (ui_maxUserMdus i))))] else []).
Definition upload_url (gatewayBase : string) (i : UploadInput) : string :=
  if opt_str (ui_dealId i)
  then gatewayBase +:+ "/gateway/upload?" +:+ URLSearchParams_toString [("deal_id", default "" (ui_dealId i))]
  else gatewayBase +:+ "/gateway/upload".

Definition parse_upload (j : json) : UploadResult :=
  let obj := if isRecord j then j else JObj [] in
  let f := get_field obj in
  let sizeBytesRaw := default (JNum (Num 0)) (nullish (f "size_bytes") (nullish (f "sizeBytes") (Some (JNum (Num 0))))) in
  let fileSizeRaw := default sizeBytesRaw (nullish (f "file_size_bytes") (nullish (f "fileSizeBytes") (Some sizeBytesRaw))) in
  mkUpload
    (json_String (default (JStr "") (nullish (f "cid") (nullish (f "manifest_root") (Some (JStr ""))))))
    (dec_or_zero (json_Number sizeBytesRaw))
    (dec_or_zero (json_Number fileSizeRaw))
    (json_Number <$> f "allocated_length")
    (json_String (default (JStr "") (nullish (f "filename") (Some (JStr ""))))).

(** [isRecord(f) && typeof f['path'] === 'string'] *)
Definition is_file_entry (f : json) : bool :=
  isRecord f && match get_field f "path" with Some (JStr _) => true | _ => false end.
Definition files_of_payload (payload : json) : list json :=
  if negb (isRecord payload) then []
  else match get_field payload "files" with
       | Some (JArr files) => List.filter is_file_entry files
       | _ => []
       end.

Section Client.
Context {W : Type} `{Http W}.

(** [if (!res.ok) throw new Error((await res.text().catch(() => '')) || ...)] *)
Definition check_ok (res : Response) (fallback : string) : M W unit :=
  if rs_ok res then mret tt
  else js_error (or_else (text_or_empty res) (fallback +:+ string_of_Z (rs_status res))).

(** [(await res.json().catch(() => null))], which must be truthy *)
Definition json_or_throw (res : Response) (what : string) : M W json :=
  let j := json_or JNull res in
  if json_truthy j then mret j else js_error ("Invalid " +:+ what +:+ " JSON").

Definition gatewayUpload (gatewayBase : string) (i : UploadInput) : M W UploadResult :=
  res ← fetchWithTimeout (mkReq (upload_url gatewayBase i) "POST" [] (BForm (upload_form i))) (Num 60000);
  (if rs_ok res then mret tt
   else js_error (or_else (text_or_empty res) ("Upload failed (" +:+ string_of_Z (rs_status res) +:+ ")"))) ;;
  mret (parse_upload (json_or (JObj []) res)).

Definition gatewayFetchSlabLayout (gatewayBase root : string) (params : option AccessParams) : M W json :=
  res ← fetch None (GET (gatewayBase +:+ slab_path root params));
  check_ok res "Gateway slab returned " ;;
  json_or_throw res "slab".

Definition gatewayListFiles (gatewayBase root dealId owner : string) : M W (list json) :=
  res ← fetch None (GET (gatewayBase +:+ list_files_path root dealId owner));
  check_ok res "Gateway list-files returned " ;;
  mret (files_of_payload (json_or JNull res)).

Definition gatewayFetchManifestInfo (gatewayBase root : string) (params : option AccessParams) : M W json :=
  res ← fetch None (GET (gatewayBase +:+ manifest_info_path root params));
  check_ok res "Gateway manifest-info returned " ;;
  json_or_throw res "manifest-info".

Definition gatewayFetchMduKzg (gatewayBase root : string) (mduIndex : Z) (params : option AccessParams) : M W json :=
  res ← fetchWithTimeout (GET (gatewayBase +:+ mdu_kzg_path root mduIndex params)) (Num 60000);
  check_ok res "Gateway mdu-kzg returned " ;;
  json_or_throw res "mdu-kzg".

Definition gatewayPlanRetrievalSession (gatewayBase root : string) (p : PlanParams) : M W json :=
  res ← fetchWithTimeout (GET (gatewayBase +:+ plan_path root p)) (Num 10000);
  check_ok res "Gateway plan returned " ;;
  json_or_throw res "plan".
End Client.

(** ** What a server reads *)

(** The path and the query of a URL. *)
Definition path_and_query (url : string) : option (string * list (string * string)) :=
  match split "?" url with
  | [p; q] => Some (p, parse_query q)
  | [p] => Some (p, [])
  | _ => None
  end.

Lemma enc_no_char c s : c ∈ chars "/?#&=+ " -> no_char c (encodeURIComponent s).
Proof.
  intros Hc; destruct (encode_facts s) as [_ Hall]; unfold no_char.
  eapply Forall_impl; [exact Hall|]; cbn beta; intros d [Hd | -> ] <-.
  - apply Hd; change (chars "/?#&=+ %") with (chars "/?#&=+ " ++ ["%"%char]); apply elem_of_app; by left.
  - revert Hc; apply (proj1 (bool_decide_eq_false _)); reflexivity.
Qed.

Lemma form_no_question s : no_char "?" (form_encode s).
Proof.
  unfold no_char, form_encode; rewrite chars_str; apply List.Forall_forall; intros d Hd ->.
  apply in_concat in Hd as (e & He & Hd). apply in_map_iff in He as (a & <- & _).
  assert (forallb (fun d => negb (bool_decide (d = "?"%char))) (form_char a) = true) as Hall
    by (clear; revert a; apply char_cases; vm_compute; reflexivity).
  by rewrite forallb_forall in Hall; apply Hall in Hd.
Qed.

Lemma params_no_question q : no_char "?" (URLSearchParams_toString q).
Proof.
  unfold URLSearchParams_toString; induction q as [|[k v] q IH]; [constructor|]; cbn [map fst snd].
  assert (no_char "?" (form_encode k +:+ "=" +:+ form_encode v)) as Hkv
    by (repeat apply no_char_app; [apply form_no_question|by repeat constructor|apply form_no_question]).
  destruct q as [|kv q]; [done|].
  change (join "&" (?a :: map ?f (kv :: q))) with (a +:+ "&" +:+ join "&" (map f (kv :: q))).
  apply no_char_app; [done|]; apply no_char_app; [by repeat constructor|exact IH].
Qed.

Definition access_query (params : option AccessParams) : list (string * string) :=
  match params with
  | Some (mkAccess (Some d) (Some o)) => if truthy d && truthy o then [("deal_id", d); ("owner", o)] else []
  | _ => []
  end.

Lemma with_access_read url params :
  no_char "?" url -> path_and_query (with_access url params) = Some (url, access_query params).
Proof.
  intros Hu; unfold path_and_query, with_access, access_query.
  destruct params as [ [ [d|] [o|] ] |]; try (by rewrite split_one by done).
  destruct (truthy d && truthy o); [|by rewrite split_one by done].
  set (q := [("deal_id", d); ("owner", o)]).
  change (url +:+ "?" +:+ URLSearchParams_toString q) with (url +:+ String "?" (URLSearchParams_toString q)).
  rewrite split_cons, split_one by (done || apply params_no_question). by rewrite query_round_trip_eq.
Qed.

Lemma path_no_question p root :
  no_char "?" p -> no_char "?" (p +:+ encodeURIComponent root).
Proof.
  intros Hp; apply no_char_app; [done|]. apply enc_no_char, (proj1 (bool_decide_eq_true _)); reflexivity.
Qed.

(** A component-encoded value has none of the separators. *)
Ltac enc_clean := apply enc_no_char, (proj1 (bool_decide_eq_true _)); reflexivity.

(** A form decoder also reads back a component-encoded value. *)
Lemma form_decode_enc s : form_decode (encodeURIComponent s) = s.
Proof.
  destruct (encode_facts s) as [Hdec _]; unfold form_decode, decodeURIComponent in *.
  assert (no_char "+" (encodeURIComponent s)) as Hplus by enc_clean.
  replace (map plus_to_space (chars (encodeURIComponent s))) with (chars (encodeURIComponent s)); [exact Hdec|].
  clear Hdec; unfold no_char in Hplus; induction Hplus as [|c l Hc _ IH]; [done|]; cbn [map]; rewrite <- IH.
  unfold plus_to_space; by rewrite bool_decide_false.
Qed.

(** Requests name exactly what was asked for.  For any manifest root, deal,
    owner and file path, the server splits the URL of each endpoint into the
    endpoint's path, whose last segment decodes to the root, and precisely the
    query parameters that were passed: no value can alter the path or inject a
    parameter. *)
Theorem gateway_requests_read_back root params idx p dealId owner :
  path_and_query (slab_path root params) = Some ("/gateway/slab/" +:+ encodeURIComponent root, access_query params) /\
  path_and_query (manifest_info_path root params)
    = Some ("/gateway/manifest-info/" +:+ encodeURIComponent root, access_query params) /\
  path_and_query (mdu_kzg_path root idx params)
    = Some ("/gateway/mdu-kzg/" +:+ encodeURIComponent root +:+ "/" +:+ encodeURIComponent (string_of_Z idx), access_query params) /\
  path_and_query (plan_path root p)
    = Some ("/gateway/plan-retrieval-session/" +:+ encodeURIComponent root, plan_query p) /\
  path_and_query (list_files_path root dealId owner)
    = Some ("/gateway/list-files/" +:+ encodeURIComponent root, [("deal_id", dealId); ("owner", owner)]) /\
  decodeURIComponent (encodeURIComponent root) = root.
Proof.
  repeat split.
  - apply with_access_read, path_no_question; by repeat constructor.
  - apply with_access_read, path_no_question; by repeat constructor.
  - apply with_access_read. repeat apply no_char_app;
      try (apply enc_no_char, (proj1 (bool_decide_eq_true _)); reflexivity); by repeat constructor.
  - unfold path_and_query, plan_path; rewrite <- str_app_assoc.
    change ("?" +:+ ?q) with (String "?" q). rewrite split_cons, split_one;
      [|apply params_no_question|apply path_no_question; by repeat constructor].
    by rewrite query_round_trip_eq by done.
  - unfold path_and_query, list_files_path; rewrite <- str_app_assoc.
    set (q := _ +:+ encodeURIComponent dealId +:+ _).
    assert (q = "?" +:+ (("deal_id" +:+ "=" +:+ encodeURIComponent dealId) +:+ "&" +:+ ("owner" +:+ "=" +:+ encodeURIComponent owner))) as ->
      by reflexivity.
    change ("?" +:+ ?q) with (String "?" q). rewrite split_cons, split_one; cycle 1.
    { repeat apply no_char_app; try enc_clean; by repeat constructor. }
    { apply path_no_question; by repeat constructor. }
    unfold parse_query; change (?a +:+ "&" +:+ ?b) with (a +:+ String "&" b).
    rewrite split_cons, split_one; cycle 1.
    { repeat apply no_char_app; try enc_clean; by repeat constructor. }
    { repeat apply no_char_app; try enc_clean; by repeat constructor. }
    cbn [map]; unfold parse_pair; change (?a +:+ "=" +:+ ?b) with (a +:+ String "=" b).
    rewrite !split_cons, !split_one by first [enc_clean|by repeat constructor].
    cbn [join]; by rewrite !form_decode_enc.
  - apply encode_facts.
Qed.
