(* ===== verification/P2p.v ===== *)
(** * libp2p clients (lib/transport/libp2pClient.ts, lib/p2pClient.ts, api/p2pGatewayClient.ts)

    Two protocols over the libp2p package: the fetch protocol with its
    length-prefixed JSON header, and an HTTP-like request/response protocol that
    mirrors the gateway's API.  The package itself (nodes, streams, framing), its
    base64 codec and the text form of JSON are parameters. *)
From S2P Require Import Prelude JsString JsNum TransportTypes Effects Bytes Text Router Multiaddr Http Lcd GatewayClient.
#[local] Open Scope Z_scope.

(** The values a client serialises with [JSON.stringify]. *)
Inductive wire_value := WStr (s : string) | WNum (d : dec) | WHeaders (h : list (string * string)).
Definition wire := list (string * wire_value).

(** The two modules each keep a node of their own. *)
Inductive node_kind := FetchNode | HttpNode.

Class Libp2p (W : Type) := {
  (** [createLibp2p(...)] and [node.start()] *)
  create_node : node_kind -> M W unit;
  (** the module-level promise, once it has settled *)
  node_promise : node_kind -> W -> option (outcome unit);
  set_node_promise : node_kind -> outcome unit -> W -> W;
  dialProtocol : string -> string -> M W nat;
  stream_send : nat -> wire -> M W unit;
  stream_close : nat -> M W unit;
  (** the chunks of the response, and its first length-prefixed message *)
  stream_chunks : nat -> M W (list bytes);
  first_message : nat -> M W (option bytes);
  (** whether the caller's signal fires before the pending promise settles *)
  signal_wins : W -> bool
}.

Section P2p.
Context {W : Type} `{Libp2p W}.
Context (JSON_parse : units -> outcome json).

(** A text with its code units cut to the Latin-1 range the strings have. *)
Definition string_of_units (u : units) : string := str (map char_of u).

(** The promise is created once; a node that failed to start stays failed. *)
Definition cached_node (k : node_kind) : M W unit := fun w =>
  match node_promise k w with
  | Some r => (r, w)
  | None => let '(r, w') := create_node k w in (r, set_node_promise k r w')
  end.

(** ** libp2pClient.ts *)

Definition FETCH_PROTOCOL : string := "/nilstore/fetch/1.0.0".
Definition MAX_RESPONSE_BYTES : Z := 2 * 1024 * 1024.

Definition getLibp2pNode : M W unit := cached_node FetchNode.

(** The chunks one after the other in a buffer of [total] bytes. *)
Fixpoint concat_loop (chunks : list bytes) (out : bytes) (offset : Z) : outcome bytes :=
  match chunks with
  | [] => mret out
  | chunk :: rest => out' ← set_bytes out offset chunk; concat_loop rest out' (offset + zlen chunk)
  end.
Definition concatChunks (chunks : list bytes) (total : Z) : outcome bytes := concat_loop chunks (zeros total) 0.

(** The [for await] loop: total so far and the chunks kept. *)
Fixpoint read_chunks (source : list bytes) (maxBytes total : Z) (chunks : list bytes) : outcome (list bytes * Z) :=
  match source with
  | [] => mret (chunks, total)
  | view :: rest =>
      let total := total + zlen view in
      if maxBytes <? total then mthrow (Error ("libp2p response too large (" +:+ string_of_Z total +:+ " bytes)"))
      else read_chunks rest maxBytes total (chunks ++ [view])
  end.
Definition readAll (source : list bytes) (maxBytes : Z) : outcome bytes :=
  r ← read_chunks source maxBytes 0 [];
  concatChunks r.1 r.2.

Record Libp2pFetchResult := mkFetchResult {
  lf_status : option json; lf_headers : list (string * string); lf_body : bytes; lf_error : option string
}.

Definition string_fields (j : option json) : list (string * string) :=
  match j with
  | Some (JObj f) => omap (fun kv => match kv.2 with JStr s => Some (kv.1, s) | _ => None end) f
  | _ => []
  end.

(** Truncation of an exact decimal. *)
Definition dec_trunc (m e : Z) : Z := if 0 <=? e then m * 10 ^ e else Z.quot m (10 ^ (- e)).

(** The length of the body as the header has it ([NaN] counts as 0 in [subarray], which
    clips to the array and counts a negative end from its end). *)
Definition body_len (header : json) : dec := json_Number (default (JNum (Num 0)) (nullish (get_field header "body_len") (Some (JNum (Num 0))))).

Definition parseResponse (l : bytes) : outcome Libp2pFetchResult :=
  if zlen l <? 4 then mthrow (Error "libp2p response too short")
  else
    let headerLen := getUint32BE 0 l in
    if (headerLen =? 0) || (zlen l - 4 <? headerLen)
    then mthrow (Error ("invalid libp2p header length: " +:+ string_of_Z headerLen))
    else
      let headerStart := 4 in
      let headerEnd := headerStart + headerLen in
      let headerText := TextDecoder_decode (slice headerStart headerEnd l) in
      header ← JSON_parse headerText;
      let bodyLen := match body_len header with DNum m e => dec_trunc m e | _ => 0 end in
      let bodyStart := headerEnd in
      let bodyEnd := bodyStart + bodyLen in
      if (zlen l <? bodyEnd) || bool_decide (body_len header = DInf false)
      then mthrow (Error ("libp2p response body truncated (" +:+ string_of_Z bodyLen +:+ " bytes)"))
      else mret (mkFetchResult (get_field header "status") (string_fields (get_field header "headers"))
                   (slice bodyStart (if bodyEnd <? 0 then zlen l + bodyEnd else bodyEnd) l)
                   (match get_field header "error" with Some (JStr s) => Some s | _ => None end)).

Definition AbortError : jserr := JsError "AbortError" "Aborted".

(** The promise has been started; the race decides what the caller sees. *)
Definition abortable {A} (signal : option Z) (promise : M W A) : M W A := fun w =>
  let '(o, w') := promise w in
  match signal with
  | None => (o, w')
  | Some _ => if signal_wins w' then (Thrown AbortError, w') else (o, w')
  end.

Record Libp2pFetchRequest := mkFetchRequest {
  fr_manifestRoot : string; fr_dealId : string; fr_owner : string; fr_filePath : string;
  fr_rangeStart : Z; fr_rangeLen : Z;
  fr_sessionId : option string; fr_downloadSession : option string; fr_reqSig : option string;
  fr_reqNonce : option Z; fr_reqExpiresAt : option Z; fr_reqRangeStart : option Z; fr_reqRangeLen : option Z
}.

Definition opt_field (k : string) (o : option string) : wire :=
  match o with Some s => if truthy s then [(k, WStr s)] else [] | None => [] end.
Definition opt_number (k : string) (o : option Z) : wire :=
  match o with Some z => [(k, WNum (DNum z 0))] | None => [] end.

Definition fetch_payload (r : Libp2pFetchRequest) : wire :=
  [("manifest_root", WStr (fr_manifestRoot r)); ("deal_id", WNum (Number_of_string (fr_dealId r)));
   ("owner", WStr (fr_owner r)); ("file_path", WStr (fr_filePath r));
   ("range_start", WNum (DNum (fr_rangeStart r) 0)); ("range_len", WNum (DNum (fr_rangeLen r) 0))] ++
  opt_field "onchain_session" (fr_sessionId r) ++ opt_field "download_session" (fr_downloadSession r) ++
  opt_field "req_sig" (fr_reqSig r) ++ opt_number "req_nonce" (fr_reqNonce r) ++
  opt_number "req_expires_at" (fr_reqExpiresAt r) ++ opt_number "req_range_start" (fr_reqRangeStart r) ++
  opt_number "req_range_len" (fr_reqRangeLen r).

Definition libp2pFetchRange (addr : string) (r : Libp2pFetchRequest) (signal : option Z) : M W Libp2pFetchResult :=
  getLibp2pNode ;;
  stream ← abortable signal (dialProtocol addr FETCH_PROTOCOL);
  stream_send stream (fetch_payload r) ;;
  abortable signal (stream_close stream) ;;
  bytes ← abortable signal (source ← stream_chunks stream; lift (readAll source MAX_RESPONSE_BYTES));
  lift (parseResponse bytes).

(** ** Reading a response *)

Lemma concat_loop_spec (chunks : list bytes) : forall out offset,
  0 <= offset -> offset + zlen (concat chunks) <= zlen out ->
  concat_loop chunks out offset =
  Ok (take (Z.to_nat offset) out ++ concat chunks ++ drop (Z.to_nat (offset + zlen (concat chunks))) out).
Proof.
  induction chunks as [|c chunks IH]; intros out offset Ho Hfit; cbn [concat_loop concat] in *.
  - cbn [app]; rewrite zlen_nil, Z.add_0_r; by rewrite take_drop.
  - rewrite zlen_app in *; pose proof (zlen_nonneg (concat chunks)); pose proof (zlen_nonneg c).
    rewrite set_bytes_splice by lia; obind.
    destruct (splice_spec offset c out) as [Hl _]; [lia..|].
    rewrite IH by lia; f_equal; unfold splice.
    set (A := take (Z.to_nat offset) out); set (D := drop _ out).
    assert (length (A ++ c) = Z.to_nat (offset + zlen c)) as HA
      by (unfold A; rewrite length_app, length_take; unfold zlen in *; lia).
    assert (take (Z.to_nat (offset + zlen c)) (A ++ c ++ D) = A ++ c) as ->
      by (rewrite app_assoc; by apply take_app_length').
    rewrite <- !app_assoc; do 3 f_equal. unfold D.
    rewrite app_assoc, drop_app_ge, drop_drop, HA by (rewrite HA; unfold zlen in *; lia).
    f_equal; unfold zlen in *; lia.
Qed.

(** [concatChunks] is concatenation. *)
Lemma concatChunks_concat (chunks : list bytes) : concatChunks chunks (zlen (concat chunks)) = Ok (concat chunks).
Proof.
  unfold concatChunks; pose proof (zlen_nonneg (concat chunks)).
  rewrite concat_loop_spec by (rewrite ?zlen_zeros; lia).
  change (take (Z.to_nat 0) ?l) with (@nil Z); cbn [app].
  rewrite drop_ge; [by rewrite app_nil_r|]. unfold zeros; rewrite length_replicate; lia.
Qed.

Lemma read_chunks_spec (source : list bytes) max : forall total (chunks : list bytes),
  total = zlen (concat chunks) ->
  if bool_decide (zlen (concat chunks) + zlen (concat source) <= max) || bool_decide (source = [])
  then read_chunks source max total chunks = Ok (chunks ++ source, zlen (concat (chunks ++ source)))
  else exists n, read_chunks source max total chunks = Thrown (Error ("libp2p response too large (" +:+ string_of_Z n +:+ " bytes)")) /\ max < n.
Proof.
  induction source as [|c source IH]; intros total chunks Ht; cbn [read_chunks concat].
  - rewrite (bool_decide_true (@nil bytes = [])), orb_true_r by done; rewrite !app_nil_r; by subst total.
  - rewrite (bool_decide_false (c :: source = [])), orb_false_r by done.
    rewrite zlen_app; pose proof (zlen_nonneg (concat source)) as Hp.
    destruct (Z.ltb_spec max (total + zlen c)) as [Hbig|Hfit].
    + rewrite bool_decide_false by lia. eexists; split; [done|done].
    + specialize (IH (total + zlen c) (chunks ++ [c])).
      rewrite !concat_app in IH; cbn [concat] in IH; rewrite app_nil_r, zlen_app in IH.
      specialize (IH ltac:(lia)); rewrite <- !app_assoc in IH; cbn [app] in IH.
      replace (zlen (concat chunks) + zlen c + zlen (concat source)) with
        (zlen (concat chunks) + (zlen c + zlen (concat source))) in IH by lia.
      rewrite concat_app; cbn [concat].
      destruct source as [|c' source]; [|by rewrite (bool_decide_false (c' :: source = [])), orb_false_r in IH].
      rewrite (bool_decide_true (@nil bytes = [])), orb_true_r in IH by done. cbn [concat].
      rewrite bool_decide_true by (change (zlen (@nil Z)) with 0; lia).
      exact IH.
Qed.

(** A response stream is read completely and bounded: its chunks are returned
    concatenated in order when they total at most [maxBytes], and otherwise reading
    stops with an error. *)
Theorem readAll_spec (source : list bytes) max :
  0 <= max ->
  if zlen (concat source) <=? max
  then readAll source max = Ok (concat source)
  else exists n, readAll source max = Thrown (Error ("libp2p response too large (" +:+ string_of_Z n +:+ " bytes)")) /\ max < n.
Proof.
  intros Hmax; pose proof (read_chunks_spec source max 0 [] eq_refl) as Hr; unfold readAll.
  change (zlen (concat []) + ?x) with (0 + x) in Hr; cbn [app concat] in Hr; change (zlen (@nil Z)) with 0 in Hr.
  rewrite Z.add_0_l in Hr. destruct (Z.leb_spec (zlen (concat source)) max) as [Hle|Hgt].
  - rewrite (bool_decide_true (zlen (concat source) <= max)) in Hr by done; cbn [orb] in Hr.
    rewrite Hr; obind; cbn [fst snd]; apply concatChunks_concat.
  - rewrite (bool_decide_false (zlen (concat source) <= max)) in Hr by lia.
    rewrite (bool_decide_false (source = [])) in Hr by (intros ->; change (zlen (concat (@nil bytes))) with 0 in Hgt; lia).
    destruct Hr as (n & -> & Hn); by exists n.
Qed.

(** The frame a provider sends: the header's length, the header, the body. *)
Definition be32 (n : Z) : bytes := [n / 16777216; n / 65536 mod 256; n / 256 mod 256; n mod 256].
Definition frame (headerText body : bytes) : bytes := be32 (zlen headerText) ++ headerText ++ body.

Lemma dec_trunc_int (z : Z) : dec_trunc z 0 = z.
Proof. unfold dec_trunc; change (0 <=? 0) with true; cbv iota; change (10 ^ 0) with 1; lia. Qed.

(** The header frame round trips.  From the frame a provider sends, with a
    header that parses and announces the length of the body, the client recovers
    the status, the headers and exactly the body; a body that is cut short is an
    error, never a shorter result. *)
Theorem parseResponse_frame headerText body header missing :
  0 < zlen headerText < 2 ^ 32 -> JSON_parse (TextDecoder_decode headerText) = Ok header ->
  body_len header = DNum (zlen body + missing) 0 -> 0 <= missing ->
  parseResponse (frame headerText body) =
  if missing =? 0
  then Ok (mkFetchResult (get_field header "status") (string_fields (get_field header "headers")) body
             (match get_field header "error" with Some (JStr s) => Some s | _ => None end))
  else Thrown (Error ("libp2p response body truncated (" +:+ string_of_Z (zlen body + missing) +:+ " bytes)")).
Proof.
  intros Hh Hjson Hlen Hm; unfold parseResponse; pose proof (zlen_nonneg body).
  assert (zlen (frame headerText body) = 4 + zlen headerText + zlen body) as Hz
    by (unfold frame; rewrite !zlen_app; change (zlen (be32 (zlen headerText))) with 4; lia).
  assert (getUint32BE 0 (frame headerText body) = zlen headerText) as Hn.
  { unfold getUint32BE, frame; rewrite slice_app_l by (change (zlen (be32 (zlen headerText))) with 4; lia).
    rewrite slice_full by (change (zlen (be32 (zlen headerText))) with 4; lia).
    unfold be32, be_combine; cbn [fold_left]; zdivl. }
  assert (slice 4 (4 + zlen headerText) (frame headerText body) = headerText) as Hhead.
  { unfold frame; rewrite slice_app_r by done. change (zlen (be32 (zlen headerText))) with 4.
    rewrite slice_app_l by lia. apply slice_full; lia. }
  cbn zeta; rewrite Hz, Hn, Hhead, Hjson; obind; rewrite Hlen.
  destruct (Z.ltb_spec (4 + zlen headerText + zlen body) 4); [lia|].
  destruct (Z.eqb_spec (zlen headerText) 0); [lia|].
  destruct (Z.ltb_spec (4 + zlen headerText + zlen body - 4) (zlen headerText)); [lia|]; cbn [orb].
  rewrite (dec_trunc_int (zlen body + missing)), bool_decide_false, orb_false_r by done.
  destruct (Z.eqb_spec missing 0) as [-> | Hne].
  - rewrite !Z.add_0_r. destruct (Z.ltb_spec (4 + zlen headerText + zlen body) (4 + zlen headerText + zlen body)); [lia|].
    destruct (Z.ltb_spec (4 + zlen headerText + zlen body) 0); [lia|]. do 2 f_equal.
    unfold frame; rewrite app_assoc, slice_app_r; rewrite zlen_app; change (zlen (be32 (zlen headerText))) with 4; [|lia].
    replace (4 + zlen headerText - _) with 0 by lia. apply slice_full; lia.
  - destruct (Z.ltb_spec (4 + zlen headerText + zlen body) (4 + zlen headerText + (zlen body + missing))); [done|lia].
Qed.
End P2p.

Lemma parseResponse_frame_witness :
  let header := JObj [("status", JNum (Num 206)); ("body_len", JNum (Num 3))] in
  parseResponse (fun _ => Ok header) (frame [123; 125] [7; 8; 9]) =
  Ok (mkFetchResult (Some (JNum (Num 206))) [] [7; 8; 9] None).
Proof.
  intros header.
  apply (parseResponse_frame (fun _ => Ok header) [123; 125] [7; 8; 9] header 0); [by vm_compute|reflexivity..|lia].
Defined.

Lemma readAll_spec_witness : readAll [[1; 2]; [3]] 3 = Ok [1; 2; 3].
Proof. apply (readAll_spec [[1; 2]; [3]] 3); lia. Defined.

(** ** p2pClient.ts *)

Section Client.
Context {W : Type} `{Libp2p W}.
Context (JSON_parse : units -> outcome json).
(** The base64 codec of the [uint8arrays] package; decoding may throw. *)
Context (to_base64 : bytes -> string) (from_base64 : string -> outcome bytes).
Context (p2pEnabled : bool) (p2pProtocol : string).

Inductive p2p_body := PNone | PText (s : string) | PBytes (l : bytes).
Record P2pRequest := mkP2pReq {
  p_method : string; p_path : string; p_headers : list (string * string); p_body : p2p_body
}.
Record P2pResponse := mkP2pRes { r_status : num; r_headers : list (string * string); r_body : bytes }.

(** [out[key] = value]: a later value replaces an earlier one in place. *)
Fixpoint set_key (k v : string) (l : list (string * string)) : list (string * string) :=
  match l with
  | [] => [(k, v)]
  | (k', v') :: r => if eqb k' k then (k, v) :: r else (k', v') :: set_key k v r
  end.
Definition normalizeHeaders (h : list (string * string)) : list (string * string) :=
  fold_left (fun out kv => set_key (to_lower kv.1) kv.2 out) h [].

Definition encodeBody (body : p2p_body) : option string :=
  match body with
  | PNone => None
  | PText s => if truthy s then Some (to_base64 (TextEncoder_encode (units_of s))) else None
  | PBytes l => Some (to_base64 l)
  end.
Definition decodeBody (bodyBase64 : option json) : outcome bytes :=
  match bodyBase64 with
  | Some (JStr s) => if truthy s then from_base64 s else mret []
  | _ => mret []
  end.

Definition createClient : M W unit :=
  if negb p2pEnabled then js_error "libp2p transport is disabled" else create_node HttpNode.
Definition getClient : M W unit := fun w =>
  match node_promise HttpNode w with
  | Some r => (r, w)
  | None => let '(r, w') := createClient w in (r, set_node_promise HttpNode r w')
  end.

Definition request_wire (r : P2pRequest) : wire :=
  [("method", WStr (p_method r)); ("path", WStr (p_path r)); ("headers", WHeaders (normalizeHeaders (p_headers r)))] ++
  match encodeBody (p_body r) with Some b => [("body_base64", WStr b)] | None => [] end.

Definition header_strings (j : option json) : list (string * string) :=
  match j with Some (JObj f) => map (fun kv => (kv.1, json_String kv.2)) f | _ => [] end.

(** The response must be an object with a numeric status. *)
Definition parse_wire_response (l : bytes) : outcome P2pResponse :=
  j ← JSON_parse (TextDecoder_decode l);
  match get_field j "status" with
  | Some (JNum status) =>
      body ← decodeBody (get_field j "body_base64");
      mret (mkP2pRes status (normalizeHeaders (header_strings (get_field j "headers"))) body)
  | _ => mthrow (Error "Invalid libp2p response")
  end.

Definition p2p_operation (target : P2pTarget) (r : P2pRequest) : M W P2pResponse :=
  stream ← dialProtocol (multiaddr target) p2pProtocol;
  stream_send stream (request_wire r) ;;
  stream_close stream ;;
  msg ← first_message stream;
  lift (parse_wire_response (default [] msg)).

(** [aborted] is the state of the signal when the call is made. *)
Definition p2pRequest (target : P2pTarget) (r : P2pRequest) (signal : option Z) (aborted : bool) : M W P2pResponse :=
  if negb p2pEnabled then js_error "libp2p transport is disabled"
  else if aborted then js_error "Request aborted"
  else
    getClient ;;
    prim (fun w =>
      let '(o, w') := p2p_operation target r w in
      match signal with
      | None => (o, w')
      | Some _ => if signal_wins w' then (Thrown (Error "Request aborted"), w') else (o, w')
      end).

Record P2pJson := mkP2pJson { j_status : num; j_headers : list (string * string); j_json : option json; j_text : string }.
Definition p2pRequestJson (target : P2pTarget) (r : P2pRequest) (signal : option Z) (aborted : bool) : M W P2pJson :=
  response ← p2pRequest target r signal aborted;
  let text := TextDecoder_decode (r_body response) in
  let j := if bool_decide (trim_units text = []) then None
           else match JSON_parse text with Ok j => Some j | Thrown _ => None end in
  mret (mkP2pJson (r_status response) (r_headers response) j (string_of_units text)).

(** ** p2pGatewayClient.ts *)

(** [status >= 400]; [NaN] is not. *)
Definition status_bad (s : num) : bool :=
  match s with Num n => 400 <=? n | PInf => true | _ => false end.

Definition p2p_get (path : string) : P2pRequest := mkP2pReq "GET" path [] PNone.

(** [if (res.status >= 400) throw new Error(res.text || ...)] *)
Definition check_p2p (res : P2pJson) (fallback : string) : M W unit :=
  if status_bad (j_status res)
  then js_error (or_else (j_text res) (fallback +:+ string_of_num (j_status res)))
  else mret tt.
(** [if (!res.json) throw new Error(...)] *)
Definition truthy_json (res : P2pJson) (what : string) : M W json :=
  match j_json res with
  | Some j => if json_truthy j then mret j else js_error ("Invalid " +:+ what +:+ " JSON")
  | None => js_error ("Invalid " +:+ what +:+ " JSON")
  end.

Definition p2pGatewayListFiles (target : P2pTarget) (manifestRoot dealId owner : string)
    (signal : option Z) (aborted : bool) : M W (list json) :=
  res ← p2pRequestJson target (p2p_get (list_files_path manifestRoot dealId owner)) signal aborted;
  check_p2p res "Gateway list-files returned " ;;
  mret (files_of_payload (default JNull (j_json res))).

Definition p2pGatewayFetchSlabLayout (target : P2pTarget) (manifestRoot : string) (params : option AccessParams)
    (signal : option Z) (aborted : bool) : M W json :=
  res ← p2pRequestJson target (p2p_get (slab_path manifestRoot params)) signal aborted;
  check_p2p res "Gateway slab returned " ;;
  truthy_json res "slab".

Definition p2pGatewayFetchManifestInfo (target : P2pTarget) (manifestRoot : string) (params : option AccessParams)
    (signal : option Z) (aborted : bool) : M W json :=
  res ← p2pRequestJson target (p2p_get (manifest_info_path manifestRoot params)) signal aborted;
  check_p2p res "Gateway manifest-info returned " ;;
  truthy_json res "manifest-info".

Definition p2pGatewayFetchMduKzg (target : P2pTarget) (manifestRoot : string) (mduIndex : Z)
    (params : option AccessParams) (signal : option Z) (aborted : bool) : M W json :=
  res ← p2pRequestJson target (p2p_get (mdu_kzg_path manifestRoot mduIndex params)) signal aborted;
  check_p2p res "Gateway mdu-kzg returned " ;;
  truthy_json res "mdu-kzg".

Definition p2pGatewayPlanRetrievalSession (target : P2pTarget) (manifestRoot : string) (params : PlanParams)
    (signal : option Z) (aborted : bool) : M W json :=
  res ← p2pRequestJson target (p2p_get (plan_path manifestRoot params)) signal aborted;
  check_p2p res "Gateway plan returned " ;;
  truthy_json res "plan".

Record P2pFetchParams := mkP2pFetch {
  pf_manifestRoot : string; pf_owner : string; pf_dealId : string; pf_filePath : string;
  pf_rangeStart : Z; pf_rangeEnd : Z; pf_sessionId : string; pf_expectedProvider : option string
}.

Definition fetch_path (manifestRoot dealId owner filePath : string) : string :=
  "/gateway/fetch/" +:+ encodeURIComponent manifestRoot +:+ "?" +:+
  URLSearchParams_toString [("deal_id", dealId); ("owner", owner); ("file_path", filePath)].

(** [res.headers[name] || ''] *)
Definition header_or_empty (name : string) (h : list (string * string)) : string :=
  match List.find (fun kv => eqb kv.1 name) h with Some kv => kv.2 | None => "" end.

Definition p2pGatewayFetchRange (target : P2pTarget) (params : P2pFetchParams)
    (signal : option Z) (aborted : bool) : M W (bytes * string) :=
  res ← p2pRequest target
    (mkP2pReq "GET" (fetch_path (pf_manifestRoot params) (pf_dealId params) (pf_owner params) (pf_filePath params))
       [("range", "bytes=" +:+ string_of_Z (pf_rangeStart params) +:+ "-" +:+ string_of_Z (pf_rangeEnd params));
        ("x-nil-session-id", pf_sessionId params)] PNone) signal aborted;
  if status_bad (r_status res) then
    let text := string_of_units (TextDecoder_decode (r_body res)) in
    let code := match r_status res with Num n => n | _ => 0 end in
    mthrow (TransportError (or_else text ("fetch failed (" +:+ string_of_num (r_status res) +:+ ")"))
              (classifyStatus (match r_status res with Num n => n | _ => 500 end)) (Some code))
  else
    let provider := header_or_empty "x-nil-provider" (r_headers res) in
    if negb (truthy provider) then mthrow (TransportError "missing X-Nil-Provider" invalid_response None)
    else if opt_str (pf_expectedProvider params) && negb (eqb provider (default "" (pf_expectedProvider params)))
    then mthrow (TransportError ("provider mismatch: expected " +:+ default "" (pf_expectedProvider params) +:+
                                 " got " +:+ provider) provider_mismatch None)
    else mret (r_body res, provider).
End Client.
