(* ===== verification/Config.v ===== *)
(** * Configuration and transport state (config.ts, context/TransportContext.tsx)

    [appConfig] as a function of the build's environment variables, and the
    transport context: the routing preference, which persists in the browser's
    local storage, and the trace of the last routed operation. *)
From S2P Require Import Prelude JsString JsNum TransportTypes Effects.
#[local] Open Scope Z_scope.

(** ** config.ts *)

Record Config := mkConfig {
  cf_apiBase : string; cf_lcdBase : string; cf_evmRpc : string; cf_chainId : dec;
  cf_gatewayBase : string; cf_spBase : string; cf_gatewayDisabled : bool; cf_p2pEnabled : bool;
  cf_p2pBootstrap : list string; cf_p2pProtocol : string; cf_cosmosChainId : string;
  cf_bridgeAddress : string; cf_nilstorePrecompile : string
}.

Section AppConfig.
(** [import.meta.env]; an unset variable is [None]. *)
Context (env : string -> option string).

Definition env_or (key d : string) : string := or_else (default "" (env key)) d.
Definition env_flag (key : string) : bool := bool_decide (env key = Some "1").

Definition appConfig : Config := {|
  cf_apiBase := strip_slash (env_or "VITE_API_BASE" "http://localhost:8081");
  cf_lcdBase := strip_slash (env_or "VITE_LCD_BASE" "http://localhost:1317");
  cf_evmRpc := env_or "VITE_EVM_RPC" "http://localhost:8545";
  cf_chainId := Number_of_string (env_or "VITE_CHAIN_ID" "31337");
  cf_gatewayBase := strip_slash (env_or "VITE_GATEWAY_BASE" "http://localhost:8080");
  cf_spBase := strip_slash (env_or "VITE_SP_BASE" "http://localhost:8082");
  cf_gatewayDisabled := env_flag "VITE_DISABLE_GATEWAY";
  cf_p2pEnabled := env_flag "VITE_P2P_ENABLED";
  cf_p2pBootstrap := filter_truthy (map trim (split "," (env_or "VITE_P2P_BOOTSTRAP" "")));
  cf_p2pProtocol := or_else (trim (env_or "VITE_P2P_PROTOCOL" "/nilstore/http/1.0.0")) "/nilstore/http/1.0.0";
  cf_cosmosChainId := env_or "VITE_COSMOS_CHAIN_ID" "31337";
  cf_bridgeAddress := env_or "VITE_BRIDGE_ADDRESS" "0x0000000000000000000000000000000000000000";
  cf_nilstorePrecompile := trim (env_or "VITE_NILSTORE_PRECOMPILE" "0x0000000000000000000000000000000000000900")
|}.
End AppConfig.

Example default_config :
  let c := appConfig (fun _ => None) in
  cf_gatewayBase c = "http://localhost:8080" /\ cf_chainId c = DNum 31337 0 /\ cf_gatewayDisabled c = false /\
  cf_p2pBootstrap c = [].
Proof. vm_compute; auto. Qed.

(** ** TransportContext.tsx *)

Definition PREF_KEY : string := "nil_transport_preference".

Definition preference_name (p : RoutePreference) : string :=
  match p with
  | auto => "auto" | prefer_gateway => "prefer_gateway" | prefer_direct_sp => "prefer_direct_sp"
  | prefer_p2p => "prefer_p2p"
  end.

(** [raw] is the stored preference. *)
Definition getInitialPreference (cfg : Config) (raw : option string) : RoutePreference :=
  if cf_gatewayDisabled cfg then prefer_direct_sp
  else if bool_decide (raw = Some "prefer_p2p") then (if cf_p2pEnabled cfg then prefer_p2p else auto)
  else if bool_decide (raw = Some "prefer_gateway") then prefer_gateway
  else if bool_decide (raw = Some "prefer_direct_sp") then prefer_direct_sp
  else auto.

(** The provider's state, with the browser's storage. *)
Record TransportState := mkTState {
  ts_preference : RoutePreference;
  ts_lastTrace : option DecisionTrace;
  ts_storage : gmap string string
}.

Definition TransportProvider_init (cfg : Config) (storage : gmap string string) : TransportState :=
  mkTState (getInitialPreference cfg (storage !! PREF_KEY)) None storage.
Definition setPreference (pref : RoutePreference) (s : TransportState) : TransportState :=
  mkTState pref (ts_lastTrace s) (<[PREF_KEY := preference_name pref]> (ts_storage s)).
Definition setLastTrace (t : option DecisionTrace) (s : TransportState) : TransportState :=
  mkTState (ts_preference s) t (ts_storage s).

(** The preference that survives a reload, by what the build allows. *)
Definition allowed_preference (cfg : Config) (p : RoutePreference) : RoutePreference :=
  if cf_gatewayDisabled cfg then prefer_direct_sp
  else match p with prefer_p2p => if cf_p2pEnabled cfg then prefer_p2p else auto | _ => p end.

(** A chosen preference survives a reload.  A page that starts on the storage
    another page left has the preference last set there, unless the build
    forbids it. *)
Theorem preference_persists cfg s pref :
  ts_preference (TransportProvider_init cfg (ts_storage (setPreference pref s))) = allowed_preference cfg pref.
Proof.
  unfold TransportProvider_init, setPreference, getInitialPreference, allowed_preference; cbn [ts_preference ts_storage].
  rewrite lookup_insert_eq; destruct (cf_gatewayDisabled cfg); [done|]; by destruct pref, (cf_p2pEnabled cfg).
Qed.
