(* ===== verification/TransportHook.v ===== *)
(** * The routed operations (hooks/useTransportRouter.ts)

    Each operation of the site (list files, layout, plan, upload, manifest,
    commitments, range fetch) builds its list of transport candidates from the
    configuration and the request, runs them through [executeWithFallback] and
    records the decision trace in the transport context. *)
From S2P Require Import Prelude JsString JsNum TransportTypes Effects Bytes Router Multiaddr Http Lcd GatewayClient P2p Config.
#[local] Open Scope Z_scope.

(** [setLastTrace] of the transport context. *)
Class TraceStore (W : Type) := {
  set_last_trace : DecisionTrace -> W -> W;
  last_trace : W -> option DecisionTrace;
  last_trace_set t w : last_trace (set_last_trace t w) = Some t
}.

(** ** [coerceHttpError] *)

(** [\w] on the strings of the model. *)
Definition is_word (c : ascii) : bool := is_alnum c || bool_decide (c = "_"%char).

(** The maximal runs of word characters. *)
Fixpoint words (l : list ascii) (run : list ascii) : list (list ascii) :=
  match l with
  | [] => [rev run]
  | c :: r => if is_word c then words r (c :: run) else rev run :: words r []
  end.
Definition is_status_word (w : list ascii) : bool := (zlen w =? 3) && forallb is_digit w.
(** [msg.match(/\b(\d{3})\b/)]: the first word that is three digits. *)
Definition status_in (msg : string) : option Z :=
  digits_val <$> List.find is_status_word (words (chars msg) []).

Definition is_transport_error (e : jserr) : bool :=
  match e with TransportError _ _ _ | TransportTraceError _ _ => true | _ => false end.

Definition coerceHttpError (err : jserr) : jserr :=
  if is_transport_error err then err
  else
    let msg := err_message err in
    match status_in msg with
    | Some status => TransportError msg (classifyStatus status) (Some status)
    | None => if is_Error err then err else Error msg
    end.

Definition wrapExecute {W A} (fn : M W A) : M W A :=
  try_catch fn (fun err => mthrow (coerceHttpError err)).

Example status_in_message : status_in "Gateway slab returned 503" = Some 503.
Proof. reflexivity. Qed.
Example status_in_code : status_in "err4040 http404 x_500 is 429, then 500" = Some 429.
Proof. reflexivity. Qed.

(** Comparison of a finite decimal with an integer; [NaN] compares false. *)
Definition dec_ltb (d : dec) (k : Z) : bool :=
  match d with
  | DNum m e => if 0 <=? e then m * 10 ^ e <? k else m <? k * 10 ^ (- e)
  | DInf neg => neg
  | DNaN => false
  end.
Definition dec_geb (d : dec) (k : Z) : bool :=
  match d with DNaN => false | _ => negb (dec_ltb d k) end.

Section Hook.
Context {W : Type} `{Clock W, Timers W, Http W, Libp2p W, TraceStore W}.
Context (JSON_parse : Text.units -> outcome json).
Context (cfg : Config).
(** The preference of the context when the hook rendered. *)
Context (preference : RoutePreference).

Definition resolvePreference (override : option RoutePreference) : RoutePreference :=
  let candidate := default preference override in
  if cf_gatewayDisabled cfg then
    if bool_decide (candidate = prefer_p2p) && cf_p2pEnabled cfg then prefer_p2p else prefer_direct_sp
  else if bool_decide (candidate = prefer_p2p) && negb (cf_p2pEnabled cfg) then auto
  else candidate.

Definition resolveDirectBase (explicit : option string) : option string :=
  let trimmed := default "" (trim <$> explicit) in
  if truthy trimmed && negb (eqb trimmed (cf_gatewayBase cfg)) then Some trimmed
  else if cf_gatewayDisabled cfg && truthy (cf_spBase cfg) && negb (eqb (cf_spBase cfg) (cf_gatewayBase cfg))
  then Some (cf_spBase cfg)
  else None.

Definition gateway_candidate {T} (execute : option Z -> M W T) : list (TransportCandidate W T) :=
  if negb (cf_gatewayDisabled cfg) then [mkCandidate gateway (cf_gatewayBase cfg) execute] else [].
Definition direct_candidate {T} (directBase : option string) (execute : string -> option Z -> M W T)
    : list (TransportCandidate W T) :=
  match directBase with
  | Some b => if truthy b then [mkCandidate direct_sp b (execute b)] else []
  | None => []
  end.

(** Gateway first, then the provider; [call base] is the request to make there. *)
Definition http_candidates {T} (directBase : option string) (call : string -> M W T) : list (TransportCandidate W T) :=
  gateway_candidate (fun _ => wrapExecute (call (cf_gatewayBase cfg))) ++
  direct_candidate directBase (fun b _ => wrapExecute (call b)).

(** The [try]/[catch] that records the trace of a routed operation. *)
Definition record_trace (t : DecisionTrace) : M W unit := modify (set_last_trace t).
Definition routed {T} (what : string) (op : TransportOp) (candidates : list (TransportCandidate W T))
    (opts : TransportRouterOptions) : M W (TransportOutcome T) :=
  if bool_decide (zlen candidates = 0)
  then js_error ("No available transport candidates for " +:+ what)
  else try_catch
    (result ← executeWithFallback op candidates opts;
     record_trace (to_trace result) ;;
     mret result)
    (fun err =>
       match err with
       | TransportTraceError _ trace => record_trace trace ;; mthrow err
       | _ => mthrow err
       end).

Definition options (override : option RoutePreference) (timeoutMs : Z) (perBackend : option Z) : TransportRouterOptions :=
  mkOptions (resolvePreference override) (Some timeoutMs) perBackend None.

(** What every request names, where it may be served, and how it is routed. *)
Record RouteRequest := mkRoute {
  q_manifestRoot : string; q_owner : string; q_dealId : string;
  q_directBase : option string; q_p2pTarget : option P2pTarget; q_preference : option RoutePreference
}.

Definition access_of (r : RouteRequest) : AccessParams := mkAccess (Some (q_dealId r)) (Some (q_owner r)).
(** [req.dealId && req.owner ? {...} : undefined] *)
Definition access_if (r : RouteRequest) : option AccessParams :=
  if truthy (q_dealId r) && truthy (q_owner r) then Some (access_of r) else None.

Definition listFiles (r : RouteRequest) : M W (TransportOutcome (list json)) :=
  routed "list files" OpListFiles
    (http_candidates (resolveDirectBase (q_directBase r))
       (fun base => gatewayListFiles base (q_manifestRoot r) (q_dealId r) (q_owner r)))
    (options (q_preference r) 10000 (Some 2)).

Definition slab (r : RouteRequest) : M W (TransportOutcome json) :=
  routed "slab" OpSlab
    (http_candidates (resolveDirectBase (q_directBase r))
       (fun base => gatewayFetchSlabLayout base (q_manifestRoot r) (Some (access_of r))))
    (options (q_preference r) 10000 (Some 2)).

Definition plan (r : RouteRequest) (filePath : string) (rangeStart rangeLen : option Z) : M W (TransportOutcome json) :=
  routed "retrieval plan" OpPlan
    (http_candidates (resolveDirectBase (q_directBase r))
       (fun base => gatewayPlanRetrievalSession base (q_manifestRoot r)
                      (mkPlan (q_dealId r) (q_owner r) filePath rangeStart rangeLen)))
    (options (q_preference r) 10000 (Some 2)).

Definition uploadFile (input : UploadInput) (directBase : option string) : M W (TransportOutcome UploadResult) :=
  let base := default (cf_spBase cfg) (resolveDirectBase directBase) in
  routed "upload" OpUpload
    (http_candidates (if eqb base (cf_gatewayBase cfg) then None else Some base) (fun b => gatewayUpload b input))
    (options None 60000 None).

Definition manifestInfo (r : RouteRequest) : M W (TransportOutcome json) :=
  routed "manifest info" OpManifestInfo
    (http_candidates (resolveDirectBase (q_directBase r))
       (fun base => gatewayFetchManifestInfo base (q_manifestRoot r) (access_if r)))
    (options (q_preference r) 10000 (Some 2)).

Definition mduKzg (r : RouteRequest) (mduIndex : Z) : M W (TransportOutcome json) :=
  routed "MDU KZG" OpMduKzg
    (http_candidates (resolveDirectBase (q_directBase r))
       (fun base => gatewayFetchMduKzg base (q_manifestRoot r) mduIndex (access_if r)))
    (options (q_preference r) 30000 (Some 2)).

(** ** [fetchRange] *)

Record FetchRangeAuth := mkAuth {
  au_reqSig : string; au_reqNonce : Z; au_reqExpiresAt : Z; au_signedRangeStart : Z; au_signedRangeLen : Z
}.
Record FetchRangeRequest := mkFetchRange {
  fq_route : RouteRequest; fq_filePath : string; fq_rangeStart : Z; fq_rangeLen : num;
  fq_sessionId : string; fq_auth : option FetchRangeAuth; fq_expectedProvider : option string
}.

Definition fetch_url (req : FetchRangeRequest) (base : string) : string :=
  let r := fq_route req in
  strip_slash base +:+ fetch_path (q_manifestRoot r) (q_dealId r) (q_owner r) (fq_filePath req).

Definition range_end (req : FetchRangeRequest) : Z := fq_rangeStart req + num_val (fq_rangeLen req) - 1.
Definition fetch_headers (req : FetchRangeRequest) : list (string * string) :=
  [("Range", "bytes=" +:+ string_of_Z (fq_rangeStart req) +:+ "-" +:+ string_of_Z (range_end req));
   ("X-Nil-Session-Id", fq_sessionId req)] ++
  match fq_auth req with
  | Some a => [("X-Nil-Req-Sig", au_reqSig a); ("X-Nil-Req-Nonce", string_of_Z (au_reqNonce a));
               ("X-Nil-Req-Expires-At", string_of_Z (au_reqExpiresAt a));
               ("X-Nil-Req-Range-Start", string_of_Z (au_signedRangeStart a));
               ("X-Nil-Req-Range-Len", string_of_Z (au_signedRangeLen a))]
  | None => []
  end.

(** Who answered: a provider must be named, and be the expected one. *)
Definition check_provider (expected : option string) (provider : string) : M W unit :=
  if negb (truthy provider) then mthrow (TransportError "missing X-Nil-Provider" invalid_response None)
  else if opt_str expected && negb (eqb provider (default "" expected))
  then mthrow (TransportError ("provider mismatch: expected " +:+ default "" expected +:+ " got " +:+ provider)
                 provider_mismatch None)
  else mret tt.

Definition executeFetch (req : FetchRangeRequest) (base : string) (signal : option Z) : M W (bytes * string) :=
  res ← fetch signal (mkReq (fetch_url req base) "GET" (fetch_headers req) NoBody);
  (if rs_ok res then mret tt
   else mthrow (TransportError (or_else (text_or_empty res) ("fetch failed (" +:+ string_of_Z (rs_status res) +:+ ")"))
                  (classifyStatus (rs_status res)) (Some (rs_status res)))) ;;
  let provider := default "" (get_header "X-Nil-Provider" (rs_headers res)) in
  check_provider (fq_expectedProvider req) provider ;;
  l ← lift (rs_bytes res);
  mret (l, provider).

(** The status of a libp2p answer is whatever JSON value the header has. *)
Definition status_dec (s : option json) : dec := match s with Some j => json_Number j | None => DNaN end.
Definition status_text (s : option json) : string := match s with Some j => json_String j | None => "undefined" end.
Definition status_class (s : option json) : ErrorClass :=
  if (match s with Some (JNum (Num z)) => z =? 429 | _ => false end) then http_429
  else if dec_geb (status_dec s) 500 then http_5xx
  else if dec_geb (status_dec s) 400 then http_4xx
  else unknown.
Definition status_int (s : option json) : option Z := match s with Some (JNum (Num z)) => Some z | _ => None end.

Definition executeP2p (req : FetchRangeRequest) (addr : string) (signal : option Z) : M W (bytes * string) :=
  let r := fq_route req in
  result ← libp2pFetchRange JSON_parse addr
    (mkFetchRequest (q_manifestRoot r) (q_dealId r) (q_owner r) (fq_filePath req) (fq_rangeStart req)
       (num_val (fq_rangeLen req)) (Some (fq_sessionId req)) None
       (au_reqSig <$> fq_auth req) (au_reqNonce <$> fq_auth req) (au_reqExpiresAt <$> fq_auth req)
       (au_signedRangeStart <$> fq_auth req) (au_signedRangeLen <$> fq_auth req)) signal;
  (if dec_ltb (status_dec (lf_status result)) 200 || dec_geb (status_dec (lf_status result)) 300
   then mthrow (TransportError
          (or_else (default "" (lf_error result)) ("libp2p fetch failed (" +:+ status_text (lf_status result) +:+ ")"))
          (status_class (lf_status result)) (status_int (lf_status result)))
   else mret tt) ;;
  let provider := header_or_empty "X-Nil-Provider" (lf_headers result) in
  check_provider (fq_expectedProvider req) provider ;;
  mret (lf_body result, provider).

Definition fetch_candidates (req : FetchRangeRequest) : list (TransportCandidate W (bytes * string)) :=
  let directBase := resolveDirectBase (q_directBase (fq_route req)) in
  let directP2p := default "" (trim ∘ multiaddr <$> q_p2pTarget (fq_route req)) in
  gateway_candidate (executeFetch req (cf_gatewayBase cfg)) ++
  direct_candidate directBase (executeFetch req) ++
  (if truthy directP2p && cf_p2pEnabled cfg then [mkCandidate libp2p directP2p (executeP2p req directP2p)] else []).

Definition fetchRange (req : FetchRangeRequest) : M W (TransportOutcome (bytes * string)) :=
  if negb (is_finite (fq_rangeLen req)) || num_leb (fq_rangeLen req) 0
  then js_error "rangeLen must be > 0"
  else routed "fetch" OpFetch (fetch_candidates req) (options (q_preference (fq_route req)) 30000 (Some 2)).

(** ** What the candidates are *)

(** The backends a build and a request allow. *)
Definition allowed (p2p : option P2pTarget) (b : BackendName) (endpoint : string) : Prop :=
  match b with
  | gateway => cf_gatewayDisabled cfg = false /\ endpoint = cf_gatewayBase cfg
  | direct_sp => truthy endpoint = true /\ endpoint <> cf_gatewayBase cfg
  | libp2p => cf_p2pEnabled cfg = true /\ endpoint = default "" (trim ∘ multiaddr <$> p2p) /\ truthy endpoint = true
  end.
Definition allowed_candidate {T} (p2p : option P2pTarget) (c : TransportCandidate W T) : Prop :=
  allowed p2p (ca_backend c) (ca_endpoint c).

Lemma resolveDirectBase_allowed explicit b :
  resolveDirectBase explicit = Some b -> truthy b = true /\ b <> cf_gatewayBase cfg.
Proof.
  unfold resolveDirectBase, eqb; intros Hr; repeat case_match; try done; injection Hr as <-; zbool;
    (split; [done|]; match goal with He : bool_decide _ = false |- _ => by apply bool_decide_eq_false in He end).
Qed.

Lemma gateway_candidate_allowed {T} p2p (ex : option Z -> M W T) :
  Forall (allowed_candidate p2p) (gateway_candidate ex).
Proof.
  unfold gateway_candidate; destruct (cf_gatewayDisabled cfg) eqn:Hd; cbn [negb]; [constructor|].
  by apply Forall_cons_2; [|constructor].
Qed.

Lemma direct_candidate_allowed {T} p2p base (ex : string -> option Z -> M W T) :
  (forall b, base = Some b -> truthy b = true -> b <> cf_gatewayBase cfg) ->
  Forall (allowed_candidate p2p) (direct_candidate base ex).
Proof.
  intros Hb; unfold direct_candidate; destruct base as [b|]; [|constructor].
  destruct (truthy b) eqn:Ht; [|constructor]. apply Forall_cons_2; [split; [done|by apply Hb]|constructor].
Qed.

Lemma http_candidates_allowed {T} p2p base (call : string -> M W T) :
  (forall b, base = Some b -> truthy b = true -> b <> cf_gatewayBase cfg) ->
  Forall (allowed_candidate p2p) (http_candidates base call).
Proof.
  intros Hb; apply Forall_app; split; [apply gateway_candidate_allowed|by apply direct_candidate_allowed].
Qed.

Lemma resolved_ok explicit b : resolveDirectBase explicit = Some b -> truthy b = true -> b <> cf_gatewayBase cfg.
Proof. intros Hr _; by apply resolveDirectBase_allowed in Hr as [_ ?]. Qed.

Lemma fetch_candidates_allowed req :
  Forall (allowed_candidate (q_p2pTarget (fq_route req))) (fetch_candidates req).
Proof.
  unfold fetch_candidates; apply Forall_app; split; [apply gateway_candidate_allowed|].
  apply Forall_app; split; [apply direct_candidate_allowed, resolved_ok|].
  destruct (truthy _) eqn:Ht; [|constructor]; destruct (cf_p2pEnabled cfg) eqn:Hp; [|constructor].
  apply Forall_cons_2; [done|constructor].
Qed.

(** ** A routed operation *)

Definition outcome_trace {T} (r : outcome (TransportOutcome T)) : option DecisionTrace :=
  match r with
  | Ok o => Some (to_trace o)
  | Thrown (TransportTraceError _ t) => Some t
  | Thrown _ => None
  end.

(** What [routed] leaves behind: the router's own outcome, its trace recorded. *)
Lemma routed_spec {T} what op (cands : list (TransportCandidate W T)) opts w r w' :
  cands <> [] -> routed what op cands opts w = (r, w') ->
  exists w1, executeWithFallback op cands opts w = (r, w1) /\
    outcome_trace r = last_trace w' /\ is_Some (outcome_trace r).
Proof.
  intros Hne; unfold routed; rewrite bool_decide_false by (intros Hz; by apply zlen_0_nil in Hz).
  unfold try_catch; rewrite bind_run.
  destruct (executeWithFallback op cands opts w) as [[out|err] w1] eqn:E.
  - unfold record_trace, modify; intros Heq; injection Heq as <- <-. exists w1; cbn [outcome_trace].
    rewrite last_trace_set; eauto.
  - pose proof (executeWithFallback_simulates _ _ _ _ _ _ E) as (l & e & _ & s & f & Hr).
    assert (exists m t, err = TransportTraceError m t) as (m & t & ->)
      by (destruct e; [done|injection Hr as ->; eauto..]).
    cbv beta iota; unfold record_trace, modify; intros Heq; injection Heq as <- <-. exists w1; cbn [outcome_trace].
    rewrite last_trace_set; eauto.
Qed.

Lemma routed_empty {T} what op opts w :
  routed what op (@nil (TransportCandidate W T)) opts w =
  (Thrown (Error ("No available transport candidates for " +:+ what)), w).
Proof. reflexivity. Qed.

(** Every attempt of a routed operation went to an allowed backend. *)
Lemma routed_allowed {T} p2p what op (cands : list (TransportCandidate W T)) opts w :
  Forall (allowed_candidate p2p) cands ->
  Forall (fun a => allowed p2p (at_backend a) (at_endpoint a)) (run_attempts (routed what op cands opts w).1).
Proof.
  intros Hall; destruct (decide (cands = [])) as [-> | Hne]; [rewrite routed_empty; constructor|].
  destruct (routed what op cands opts w) as [r w'] eqn:E.
  apply routed_spec in E as (w1 & E & _); [|done]; cbn [fst].
  apply executeWithFallback_simulates in E as (l & e & Hlog & Hs).
  rewrite (settles_attempts _ _ _ _ _ Hs).
  apply attempt_log_facts in Hlog as (_ & _ & Hl & _).
  eapply Forall_impl; [exact Hl|]; intros a (c & Hin & Hb & Hep); rewrite Hb, Hep.
  rewrite Forall_forall in Hall; apply Hall; by rewrite (orderCandidates_perm (opt_preference opts) cands) in Hin.
Qed.

Lemma upload_base_ok base b :
  (if eqb base (cf_gatewayBase cfg) then None else Some base) = Some b -> truthy b = true -> b <> cf_gatewayBase cfg.
Proof. unfold eqb; case_bool_decide; [done|]. by intros [= <-] _. Qed.

(** C36: the build's switches are binding.  Whatever the request and whatever the
    network does, no operation ever contacts the gateway when it is disabled or a
    peer when libp2p is disabled, the gateway is only contacted at its configured
    address, and the address tried as a provider is never the gateway's. *)
Theorem only_allowed_backends r filePath rs rl idx input base req w :
  Forall (fun a => allowed None (at_backend a) (at_endpoint a)) (run_attempts (listFiles r w).1) /\
  Forall (fun a => allowed None (at_backend a) (at_endpoint a)) (run_attempts (slab r w).1) /\
  Forall (fun a => allowed None (at_backend a) (at_endpoint a)) (run_attempts (plan r filePath rs rl w).1) /\
  Forall (fun a => allowed None (at_backend a) (at_endpoint a)) (run_attempts (uploadFile input base w).1) /\
  Forall (fun a => allowed None (at_backend a) (at_endpoint a)) (run_attempts (manifestInfo r w).1) /\
  Forall (fun a => allowed None (at_backend a) (at_endpoint a)) (run_attempts (mduKzg r idx w).1) /\
  Forall (fun a => allowed (q_p2pTarget (fq_route req)) (at_backend a) (at_endpoint a))
    (run_attempts (fetchRange req w).1).
Proof.
  repeat split; try (apply routed_allowed, http_candidates_allowed; first [apply resolved_ok|apply upload_base_ok]).
  unfold fetchRange; destruct (_ || _); [constructor|]. apply routed_allowed, fetch_candidates_allowed.
Qed.

(** The preference handed to the router never points at a disabled backend,
    and is the caller's or the context's own choice when that is enabled. *)
Theorem resolvePreference_enabled override :
  (cf_gatewayDisabled cfg = true -> resolvePreference override ∈ [prefer_direct_sp; prefer_p2p]) /\
  (cf_p2pEnabled cfg = false -> resolvePreference override <> prefer_p2p) /\
  (cf_gatewayDisabled cfg = false -> cf_p2pEnabled cfg = true \/ default preference override <> prefer_p2p ->
   resolvePreference override = default preference override).
Proof.
  unfold resolvePreference; destruct (cf_gatewayDisabled cfg), (cf_p2pEnabled cfg), (default preference override);
    cbn; repeat split; intros; try done; try set_solver; tauto.
Qed.

(** ** The provider of a fetched range *)

Lemma check_provider_ok expected provider w r w' :
  check_provider expected provider w = (Ok r, w') ->
  truthy provider = true /\ (opt_str expected = true -> expected = Some provider).
Proof.
  unfold check_provider; destruct (truthy provider); cbn [negb]; [|done].
  destruct expected as [e|]; cbn [opt_str default]; [|done].
  unfold eqb; case_bool_decide as He; cbn [negb]; [by subst|].
  destruct (truthy e); cbn [andb]; [done|]. by split.
Qed.

(** The guarantee every way of fetching a range gives. *)
Definition named_provider (expected : option string) (r : bytes * string) : Prop :=
  truthy r.2 = true /\ (opt_str expected = true -> expected = Some r.2).

Lemma executeFetch_provider req base signal w r w' :
  executeFetch req base signal w = (Ok r, w') -> named_provider (fq_expectedProvider req) r.
Proof.
  unfold executeFetch; intros Hr.
  apply bind_ok in Hr as (res & w1 & _ & Hr); apply bind_ok in Hr as (? & w2 & _ & Hr).
  apply bind_ok in Hr as (? & w3 & Hc & Hr); apply bind_ok in Hr as (l & w4 & _ & Hr).
  injection Hr as <- _. by apply check_provider_ok in Hc.
Qed.

Lemma executeP2p_provider req addr signal w r w' :
  executeP2p req addr signal w = (Ok r, w') -> named_provider (fq_expectedProvider req) r.
Proof.
  unfold executeP2p; intros Hr.
  apply bind_ok in Hr as (res & w1 & _ & Hr); apply bind_ok in Hr as (? & w2 & _ & Hr).
  apply bind_ok in Hr as (? & w3 & Hc & Hr). injection Hr as <- _. by apply check_provider_ok in Hc.
Qed.

Lemma fetch_candidates_provider req c signal w r w' :
  c ∈ fetch_candidates req -> ca_execute c signal w = (Ok r, w') -> named_provider (fq_expectedProvider req) r.
Proof.
  unfold fetch_candidates, gateway_candidate, direct_candidate; rewrite !elem_of_app.
  intros [Hc | [Hc | Hc] ]; repeat case_match; try (by inversion Hc);
    apply list_elem_of_singleton in Hc as ->; cbn [ca_execute];
    first [apply executeFetch_provider | apply executeP2p_provider].
Qed.

Lemma fetchRange_source req w out w' :
  fetchRange req w = (Ok out, w') ->
  0 < num_val (fq_rangeLen req) /\ named_provider (fq_expectedProvider req) (to_data out) /\
  last_trace w' = Some (to_trace out).
Proof.
  unfold fetchRange; destruct (fq_rangeLen req) as [| | |len]; cbn [is_finite num_leb negb orb num_val]; try done.
  destruct (Z.leb_spec len 0); [done|]; intros Hr; split; [done|].
  destruct (decide (fetch_candidates req = [])) as [He|Hne]; [by rewrite He in Hr|].
  apply routed_spec in Hr as (w1 & E & Ht & _); [|done]. split; [|done].
  apply executeWithFallback_simulates in E as (l & e & Hlog & s & f & Hr).
  destruct e as [b ep data| |]; [|done..]; injection Hr as ->; cbn [to_data].
  apply attempt_log_done in Hlog as (pre & a & c & _ & Hin & _ & _ & _ & w2 & w3 & Hrun).
  rewrite orderCandidates_perm in Hin; by eapply fetch_candidates_provider.
Qed.

(** C7: bytes are only accepted from the provider that was paid for.  A range
    fetch that succeeds, over whichever transport, returns bytes of a response
    that names its provider, and the expected one when the caller has a session
    with it; the trace of the run is what the transport context then shows. *)
Theorem fetchRange_provider req w out w' :
  fetchRange req w = (Ok out, w') ->
  0 < num_val (fq_rangeLen req) /\
  truthy (to_data out).2 = true /\
  (opt_str (fq_expectedProvider req) = true -> fq_expectedProvider req = Some (to_data out).2) /\
  last_trace w' = Some (to_trace out).
Proof. intros Hr; apply fetchRange_source in Hr as (? & [? ?] & ?); auto. Qed.
End Hook.

(** ** HTTP failures become transport errors *)

Definition gateway_fallbacks : list string :=
  ["Gateway slab returned "; "Gateway list-files returned "; "Gateway manifest-info returned ";
   "Gateway mdu-kzg returned "; "Gateway plan returned "].

Lemma fallback_status what n :
  what ∈ gateway_fallbacks -> 100 <= n <= 999 -> status_in (what +:+ string_of_Z n) = Some n.
Proof.
  intros Hw Hn.
  assert (forallb (fun k => bool_decide (status_in (what +:+ string_of_Z (Z.of_nat k)) = Some (Z.of_nat k))) (seq 100 900) = true) as Hall.
  { unfold gateway_fallbacks in Hw; repeat (apply elem_of_cons in Hw as [-> | Hw]; [vm_compute; reflexivity|]); inversion Hw. }
  rewrite forallb_forall in Hall. specialize (Hall (Z.to_nat n) ltac:(apply in_seq; lia)).
  apply bool_decide_eq_true in Hall. by rewrite Z2Nat.id in Hall by lia.
Qed.

Lemma coerce_fallback what n :
  what ∈ gateway_fallbacks -> 100 <= n <= 999 ->
  coerceHttpError (Error (what +:+ string_of_Z n)) =
  TransportError (what +:+ string_of_Z n) (classifyStatus n) (Some n).
Proof. intros Hw Hn; unfold coerceHttpError; cbn [is_transport_error Error err_message]. by rewrite fallback_status. Qed.

Section HttpFailure.
Context {W : Type} `{Http W}.

Lemma check_ok_failure {A} what res (k : M W A) w :
  what ∈ gateway_fallbacks -> 100 <= rs_status res <= 999 -> rs_ok res = false -> text_or_empty res = "" ->
  wrapExecute (check_ok res what ;; k) w =
  (Thrown (TransportError (what +:+ string_of_Z (rs_status res)) (classifyStatus (rs_status res)) (Some (rs_status res))), w).
Proof.
  intros Hw Hs Hok Ht; unfold wrapExecute, try_catch; rewrite bind_run; unfold check_ok; rewrite Hok, Ht.
  unfold js_error, mthrow, M_throw; cbn [or_else truthy is_empty negb]. by rewrite coerce_fallback.
Qed.

(** The retry policy sees the HTTP status.  When the gateway answers one of
    its read endpoints with an error status and no text, the routed operation's
    attempt fails with exactly that status and its class, so server errors and rate
    limits are retried and client errors are not. *)
Theorem http_failure_classified base root params dealId owner w w' res :
  rs_ok res = false -> 100 <= rs_status res <= 999 -> text_or_empty res = "" ->
  (forall rq, fetch None rq w = (Ok res, w')) ->
  (exists m, wrapExecute (gatewayFetchSlabLayout base root params) w =
     (Thrown (TransportError m (classifyStatus (rs_status res)) (Some (rs_status res))), w')) /\
  (exists m, wrapExecute (gatewayListFiles base root dealId owner) w =
     (Thrown (TransportError m (classifyStatus (rs_status res)) (Some (rs_status res))), w')) /\
  (exists m, wrapExecute (gatewayFetchManifestInfo base root params) w =
     (Thrown (TransportError m (classifyStatus (rs_status res)) (Some (rs_status res))), w')).
Proof.
  intros Hok Hs Ht Hf.
  unfold gatewayFetchSlabLayout, gatewayListFiles, gatewayFetchManifestInfo, wrapExecute, try_catch.
  repeat split; eexists; rewrite bind_run, Hf.
  - rewrite <- (check_ok_failure "Gateway slab returned " res (json_or_throw res "slab")); [reflexivity| |done..].
    by apply (proj1 (bool_decide_eq_true _)).
  - rewrite <- (check_ok_failure "Gateway list-files returned " res (mret (files_of_payload (json_or JNull res)))); [reflexivity| |done..].
    by apply (proj1 (bool_decide_eq_true _)).
  - rewrite <- (check_ok_failure "Gateway manifest-info returned " res (json_or_throw res "manifest-info")); [reflexivity| |done..].
    by apply (proj1 (bool_decide_eq_true _)).
Qed.
End HttpFailure.

(** ** Concrete runs *)

(** A world for concrete runs: a scripted network, a clock that ticks once per
    reading, and the last trace. *)
Record demo := mkDemo { d_script : list (outcome Response); d_clock : Z; d_trace : option DecisionTrace }.
#[local] Instance demo_clock_inst : Clock demo := {|
  date_now d := (d_clock d, mkDemo (d_script d) (d_clock d + 1) (d_trace d));
  sleep_ms ms d := mkDemo (d_script d) (d_clock d + ms) (d_trace d) |}.
#[local] Instance demo_timers : Timers demo := {| set_timeout _ d := (O, d); clear_timeout _ d := d |}.
#[local] Instance demo_http : Http demo := {|
  fetch _ _ := fun d => match d_script d with
                        | r :: s => (r, mkDemo s (d_clock d) (d_trace d))
                        | [] => (Thrown (JsError "TypeError" "Failed to fetch"), d)
                        end;
  timer_fired _ := false |}.
#[local] Instance demo_libp2p : Libp2p demo := {|
  create_node _ := js_error "no node"; node_promise _ _ := None; set_node_promise _ _ d := d;
  dialProtocol _ _ := js_error "no dial"; stream_send _ _ := mret tt; stream_close _ := mret tt;
  stream_chunks _ := mret []; first_message _ := mret None; signal_wins _ := false |}.
#[local] Program Instance demo_trace_store : TraceStore demo := {|
  set_last_trace t d := mkDemo (d_script d) (d_clock d) (Some t); last_trace d := d_trace d |}.
Next Obligation. done. Qed.

Definition demo_cfg : Config := appConfig (fun _ => None).
Definition demo_route : RouteRequest := mkRoute "0x01" "nil1owner" "7" (Some "http://sp:8082") None None.
Definition demo_range : FetchRangeRequest := mkFetchRange demo_route "a.txt" 0 (Num 3) "0xabc" None (Some "nil1p").
Definition range_response (provider : string) : Response :=
  mkRes 206 [("x-nil-provider", provider)] (Ok "") (Ok JNull) (Ok [1; 2; 3]).
Definition demo_out : TransportOutcome (bytes * string) :=
  mkOutcome ([1; 2; 3], "nil1p") direct_sp
    (mkTrace OpFetch auto 0 5
       [mkAttempt gateway "http://localhost:8080" false (Some 404) (Some http_4xx) (Some "no slab") 1;
        mkAttempt direct_sp "http://sp:8082" true None None None 1] (Some (direct_sp, "http://sp:8082"))).
Definition demo_start : demo :=
  mkDemo [Ok (mkRes 404 [] (Ok "no slab") (Ok JNull) (Ok [])); Ok (range_response "nil1p")] 0 None.

Example demo_fetch_run :
  (fetchRange (fun _ => Ok JNull) demo_cfg auto demo_range demo_start).1 = Ok demo_out.
Proof. vm_compute. reflexivity. Qed.

Definition demo_end : demo := Eval vm_compute in (fetchRange (fun _ => Ok JNull) demo_cfg auto demo_range demo_start).2.

Lemma fetchRange_provider_witness :
  named_provider (Some "nil1p") (to_data demo_out) /\ d_trace demo_end = Some (to_trace demo_out).
Proof.
  assert (fetchRange (fun _ => Ok JNull) demo_cfg auto demo_range demo_start = (Ok demo_out, demo_end)) as E
    by (vm_compute; reflexivity).
  destruct (fetchRange_provider (fun _ => Ok JNull) demo_cfg auto demo_range demo_start demo_out demo_end E)
    as (_ & Ht & Hp & Htr).
  split; [split; [exact Ht|exact Hp]|exact Htr].
Defined.

Lemma resolvePreference_enabled_witness :
  resolvePreference demo_cfg prefer_gateway None = prefer_gateway.
Proof. apply (resolvePreference_enabled demo_cfg prefer_gateway None); [reflexivity|by right]. Defined.

Definition down_world : demo := mkDemo [] 0 None.
#[local] Instance down_http : Http demo := {|
  fetch _ _ := fun d => (Ok (mkRes 503 [] (Ok "") (Ok JNull) (Ok [])), d); timer_fired _ := false |}.

Lemma http_failure_classified_witness :
  exists m, wrapExecute (gatewayFetchSlabLayout "http://gw" "0x01" None) down_world =
     (Thrown (TransportError m http_5xx (Some 503)), down_world).
Proof.
  apply (http_failure_classified "http://gw" "0x01" None "7" "o" down_world down_world
           (mkRes 503 [] (Ok "") (Ok JNull) (Ok []))); [reflexivity|cbn; lia|reflexivity|intros; reflexivity].
Defined.
