(* ===== verification/Evm.v ===== *)
(** * The EVM side (lib/evmRpc.ts, lib/nilstorePrecompile.ts, lib/gatewayStatus.ts, lib/status.ts)

    JSON-RPC over HTTP, polling for a transaction receipt, the ABI of the chain's
    precompile, and the status probes.  The loop that polls has no bound of its own
    but the clock: it is a function with fuel, and [waitForTransactionReceipt_settles]
    shows that enough fuel always exists under a clock that a sleep moves forward. *)
From S2P Require Import Prelude JsString JsNum TransportTypes Effects Bytes Http GatewayClient Config.
#[local] Open Scope Z_scope.

(** ** evmRpc.ts *)

Section Rpc.
Context {W : Type} `{Clock W, Http W}.
Context (evmRpc : string).

Definition rpc_request (method : string) (params : list json) : Request :=
  mkReq evmRpc "POST" [("Content-Type", "application/json")]
    (BJson (JObj [("jsonrpc", JStr "2.0"); ("id", JNum (Num 1)); ("method", JStr method); ("params", JArr params)])).

(** The answer's [result]; [None] is [undefined]. *)
Definition rpc (method : string) (params : list json) : M W (option json) :=
  res ← fetch None (rpc_request method params);
  let j := json_or JNull res in
  if negb (rs_ok res) then js_error ("EVM RPC HTTP " +:+ string_of_Z (rs_status res))
  else if negb (json_truthy j) then js_error "EVM RPC returned invalid JSON"
  else match get_field j "error" with
       | Some e =>
           if json_truthy e
           then js_error (match get_field e "message" with
                          | Some m => if json_truthy m then json_String m else "EVM RPC error"
                          | None => "EVM RPC error"
                          end)
           else mret (get_field j "result")
       | None => mret (get_field j "result")
       end.

(** [String(receipt.status || '').toLowerCase()] *)
Definition receipt_status (receipt : json) : string :=
  match get_field receipt "status" with
  | Some s => if json_truthy s then to_lower (json_String s) else ""
  | None => ""
  end.

Definition timed_out : string := "Timed out waiting for transaction receipt".

(** How the polling loop can go on after one look. *)
Definition poll_once (txHash : string) : M W (option json) :=
  receipt ← rpc "eth_getTransactionReceipt" [JStr txHash];
  match receipt with
  | Some r =>
      if json_truthy r then
        if eqb (receipt_status r) "0x0" then js_error "transaction reverted" else mret (Some r)
      else mret None
  | None => mret None
  end.

Fixpoint poll_loop (fuel : nat) (txHash : string) (start timeoutMs pollMs : Z) : M W json :=
  t ← now;
  if t - start <? timeoutMs then
    match fuel with
    | O => mthrow (Error "out of fuel")
    | S fuel =>
        r ← poll_once txHash;
        match r with
        | Some receipt => mret receipt
        | None => modify (sleep_ms pollMs) ;; poll_loop fuel txHash start timeoutMs pollMs
        end
    end
  else js_error timed_out.

(** One pass per [pollMs] of the timeout, and one to notice. *)
Definition poll_fuel (timeoutMs pollMs : Z) : nat := Z.to_nat (timeoutMs / pollMs + 1).

Definition waitForTransactionReceipt_within (txHash : string) (timeoutMs pollMs : Z) : M W json :=
  start ← now;
  poll_loop (poll_fuel timeoutMs pollMs) txHash start timeoutMs pollMs.
Definition waitForTransactionReceipt (txHash : string) : M W json :=
  waitForTransactionReceipt_within txHash 90000 750.
End Rpc.

(** A clock that never runs backwards, that [setTimeout] moves by what was asked
    for at least, and that waiting for the network does not turn back. *)
Class RealTime (W : Type) `{Clock W, Http W} := {
  time : W -> Z;
  date_now_time w : (date_now w).1 = time w;
  date_now_mono w : time w <= time (date_now w).2;
  sleep_time ms w : time w + ms <= time (sleep_ms ms w);
  fetch_mono signal rq w : time w <= time (fetch signal rq w).2
}.

Section Polling.
Context {W : Type} `{RealTime W}.
Context (evmRpc : string).

Lemma rpc_mono method params w : time w <= time (rpc evmRpc method params w).2.
Proof.
  unfold rpc; rewrite bind_run; pose proof (fetch_mono None (rpc_request evmRpc method params) w) as Hf.
  destruct (fetch None _ w) as [[res|e] w']; cbn [snd] in *; [|done].
  cbn zeta; destruct (rs_ok res); cbn [negb]; [|done]; destruct (json_truthy (json_or JNull res)); cbn [negb]; [|done].
  destruct (get_field _ "error") as [e|]; [|done]; by destruct (json_truthy e).
Qed.

Lemma poll_once_mono txHash w : time w <= time (poll_once evmRpc txHash w).2.
Proof.
  unfold poll_once; rewrite bind_run; pose proof (rpc_mono "eth_getTransactionReceipt" [JStr txHash] w) as Hf.
  destruct (rpc evmRpc _ _ w) as [[r|e] w']; cbn [snd] in *; [|done].
  destruct r as [r|]; [|done]; destruct (json_truthy r); [|done]; by destruct (eqb _ _).
Qed.

(** What a look can end with. *)
Definition confirmed (r : json) : Prop := json_truthy r = true /\ receipt_status r <> "0x0".
Lemma poll_once_confirmed txHash w r w' : poll_once evmRpc txHash w = (Ok (Some r), w') -> confirmed r.
Proof.
  unfold poll_once; intros Hp; apply bind_ok in Hp as ([x|] & w1 & _ & Hp); [|done].
  destruct (json_truthy x) eqn:Ht; [|done]; destruct (eqb (receipt_status x) "0x0") eqn:He; [done|].
  injection Hp as <- _; split; [done|]. unfold eqb in He; by apply bool_decide_eq_false in He.
Qed.

Lemma poll_loop_confirmed fuel txHash start timeoutMs pollMs : forall w r w',
  poll_loop evmRpc fuel txHash start timeoutMs pollMs w = (Ok r, w') -> confirmed r.
Proof.
  induction fuel as [|fuel IH]; intros w r w'; cbn [poll_loop]; rewrite bind_run; destruct (now w) as [ [t|e] w1]; try discriminate;
    (destruct (t - start <? timeoutMs); [|discriminate]); [discriminate|].
  rewrite bind_run; destruct (poll_once evmRpc txHash w1) as [ [ [receipt|] |e] w2] eqn:Ep; [|rewrite bind_run; apply IH|discriminate].
  intros [= <- <-]; by eapply poll_once_confirmed.
Qed.
(** A receipt that was waited for is there and says nothing of a revert. *)
Lemma receipt_confirmed txHash w r w' : waitForTransactionReceipt evmRpc txHash w = (Ok r, w') -> confirmed r.
Proof.
  unfold waitForTransactionReceipt, waitForTransactionReceipt_within; rewrite bind_run; destruct (now w) as [ [t|e] w1]; [|discriminate].
  apply poll_loop_confirmed.
Qed.

(** The errors a look at the receipt can end with. *)
Definition poll_error txHash (e : jserr) : Prop := exists w w', poll_once evmRpc txHash w = (Thrown e, w').

Lemma poll_loop_spec txHash start timeoutMs pollMs : 0 < pollMs -> forall fuel w r w',
  start + timeoutMs - time w <= pollMs * Z.of_nat fuel ->
  poll_loop evmRpc fuel txHash start timeoutMs pollMs w = (r, w') ->
  match r with
  | Ok receipt => confirmed receipt
  | Thrown e => poll_error txHash e \/ e = Error timed_out /\ start + timeoutMs <= time w'
  end.
Proof.
  intros Hpoll; induction fuel as [|fuel IH]; intros w r w' Hfuel; cbn [poll_loop]; rewrite bind_run;
    unfold now; pose proof (date_now_time w) as Hnow; pose proof (date_now_mono w) as Hmono;
    destruct (date_now w) as [t w1]; cbn [fst snd] in Hnow, Hmono; subst t;
    (destruct (Z.ltb_spec (time w - start) timeoutMs); [|intros Heq; injection Heq as <- <-; right; split; [done|lia] ]).
  - lia.
  - rewrite bind_run; destruct (poll_once evmRpc txHash w1) as [[ [receipt|] |e] w2] eqn:Ep.
    + intros Heq; injection Heq as <- <-; by eapply poll_once_confirmed.
    + rewrite bind_run; unfold modify; apply IH.
      pose proof (poll_once_mono txHash w1) as Hp; rewrite Ep in Hp; cbn [snd] in Hp.
      pose proof (sleep_time pollMs w2); lia.
    + intros Heq; injection Heq as <- <-; left; by exists w1, w2.
Qed.

(** Waiting for a receipt settles, and only as it should.  Under any clock that
    sleeping moves forward, the poll ends within its fuel: with a receipt that is
    there and not reverted, with an error one of the looks ended with, or by timing
    out, and then not before the timeout has passed. *)
Theorem waitForTransactionReceipt_settles txHash timeoutMs pollMs w r w' :
  0 < pollMs ->
  waitForTransactionReceipt_within evmRpc txHash timeoutMs pollMs w = (r, w') ->
  match r with
  | Ok receipt => confirmed receipt
  | Thrown e => poll_error txHash e \/ e = Error timed_out /\ time w + timeoutMs <= time w'
  end.
Proof.
  intros Hp; unfold waitForTransactionReceipt_within; rewrite bind_run; unfold now.
  pose proof (date_now_time w) as Hnow; pose proof (date_now_mono w) as Hmono.
  destruct (date_now w) as [t w1]; cbn [fst snd] in Hnow, Hmono; subst t.
  intros Hr; eapply poll_loop_spec in Hr; [exact Hr|done|]. unfold poll_fuel.
  assert (timeoutMs < pollMs * (timeoutMs / pollMs + 1)) by (Z.div_mod_to_equations; nia).
  assert (Z.of_nat (Z.to_nat (timeoutMs / pollMs + 1)) = Z.max 0 (timeoutMs / pollMs + 1)) as -> by lia. nia.
Qed.

End Polling.

(** A chain that answers the third look, on a clock that only sleeping moves. *)
Definition chain : Type := Z * list (outcome Response).
#[local] Instance chain_clock : Clock chain := {| date_now w := (w.1, w); sleep_ms ms w := (w.1 + ms, w.2) |}.
#[local] Instance chain_http : Http chain := {|
  fetch _ _ := fun w => match w.2 with
                        | r :: s => (r, (w.1, s))
                        | [] => (Thrown (JsError "TypeError" "Failed to fetch"), w)
                        end;
  timer_fired _ := false |}.
#[local] Program Instance chain_time : RealTime chain := {| time w := w.1 |}.
Next Obligation. done. Qed.
Next Obligation. done. Qed.
Next Obligation. done. Qed.
Next Obligation. intros s rq [t [|r l] ]; done. Qed.

Definition no_receipt : Response := json_response (JObj [("result", JNull)]).
Definition receipt : json := JObj [("transactionHash", JStr "0xabc"); ("status", JStr "0x1")].
Definition demo_chain : chain :=
  (100, [Ok no_receipt; Ok no_receipt; Ok (json_response (JObj [("result", receipt)]))]).

Lemma waitForTransactionReceipt_settles_witness : confirmed receipt.
Proof.
  apply (waitForTransactionReceipt_settles "http://evm" "0xabc" 90000 750 demo_chain (Ok receipt) (1600, [])); [lia|].
  vm_compute; reflexivity.
Defined.

Example receipt_reverted :
  (waitForTransactionReceipt "http://evm" "0xabc"
     (0, [Ok (json_response (JObj [("result", JObj [("status", JStr "0X0")])]))])).1
  = Thrown (Error "transaction reverted").
Proof. vm_compute; reflexivity. Qed.

(** ** nilstorePrecompile.ts *)

(** ABI types and entries, as the sources list them. *)
Inductive abi_type :=
| Ty (name : string)
| TyTuple (fields : list (string * abi_type))
| TyTuples (fields : list (string * abi_type)).
Definition abi_params : Type := list (string * abi_type).
Inductive abi_entry :=
| AbiFunction (name stateMutability : string) (inputs outputs : abi_params)
| AbiEvent (name : string) (inputs : list (string * abi_type * bool)).

Definition session_tuple : abi_params :=
  [("dealId", Ty "uint64"); ("provider", Ty "string"); ("manifestRoot", Ty "bytes"); ("startMduIndex", Ty "uint64");
   ("startBlobIndex", Ty "uint32"); ("blobCount", Ty "uint64"); ("nonce", Ty "uint64"); ("expiresAt", Ty "uint64")].

Definition NILSTORE_PRECOMPILE_ABI : list abi_entry :=
  [AbiFunction "createDeal" "nonpayable"
     [("durationBlocks", Ty "uint64"); ("serviceHint", Ty "string"); ("initialEscrow", Ty "uint256");
      ("maxMonthlySpend", Ty "uint256")] [("dealId", Ty "uint64")];
   AbiFunction "updateDealContent" "nonpayable"
     [("dealId", Ty "uint64"); ("manifestRoot", Ty "bytes"); ("sizeBytes", Ty "uint64")] [("ok", Ty "bool")];
   AbiFunction "proveRetrievalBatch" "nonpayable"
     [("dealId", Ty "uint64"); ("provider", Ty "string"); ("filePath", Ty "string"); ("nonce", Ty "uint64");
      ("chunks", TyTuples
        [("rangeStart", Ty "uint64"); ("rangeLen", Ty "uint64");
         ("proof", TyTuple
           [("mduIndex", Ty "uint64"); ("mduRootFr", Ty "bytes"); ("manifestOpening", Ty "bytes");
            ("blobCommitment", Ty "bytes"); ("merklePath", Ty "bytes[]"); ("blobIndex", Ty "uint32");
            ("zValue", Ty "bytes"); ("yValue", Ty "bytes"); ("kzgOpeningProof", Ty "bytes")])])] [("ok", Ty "bool")];
   AbiFunction "openRetrievalSession" "nonpayable" session_tuple [("sessionId", Ty "bytes32")];
   AbiFunction "openRetrievalSessions" "nonpayable" [("sessions", TyTuples session_tuple)]
     [("sessionIds", Ty "bytes32[]")];
   AbiFunction "computeRetrievalSessions" "view" [("sessions", TyTuples session_tuple)]
     [("sessions", TyTuples [("provider", Ty "string"); ("sessionId", Ty "bytes32")])];
   AbiFunction "computeRetrievalSessionIds" "view" [("sessions", TyTuples session_tuple)]
     [("providers", Ty "string[]"); ("sessionIds", Ty "bytes32[]")];
   AbiFunction "confirmRetrievalSession" "nonpayable" [("sessionId", Ty "bytes32")] [("ok", Ty "bool")];
   AbiFunction "confirmRetrievalSessions" "nonpayable" [("sessionIds", Ty "bytes32[]")] [("ok", Ty "bool")];
   AbiEvent "DealCreated" [("dealId", Ty "uint64", true); ("owner", Ty "address", true)];
   AbiEvent "DealContentUpdated"
     [("dealId", Ty "uint64", true); ("manifestRoot", Ty "bytes", false); ("sizeBytes", Ty "uint64", false)];
   AbiEvent "RetrievalProved"
     [("dealId", Ty "uint64", true); ("owner", Ty "address", true); ("provider", Ty "string", false);
      ("filePath", Ty "string", false); ("bytesServed", Ty "uint64", false); ("nonce", Ty "uint64", false)];
   AbiEvent "RetrievalSessionOpened"
     [("dealId", Ty "uint64", true); ("owner", Ty "address", true); ("provider", Ty "string", false);
      ("sessionId", Ty "bytes32", false)];
   AbiEvent "RetrievalSessionConfirmed" [("sessionId", Ty "bytes32", true); ("owner", Ty "address", true)]].

(** Values of ABI types, as viem takes and returns them. *)
Inductive abi_value :=
| VInt (z : Z) | VStr (s : string) | VHex (h : string) | VArr (l : list abi_value) | VTuple (fields : list (string * abi_value)).

Record RetrievalSessionInput := mkSession {
  rs_dealId : Z; rs_provider : string; rs_manifestRoot : string; rs_startMduIndex : Z; rs_startBlobIndex : Z;
  rs_blobCount : Z; rs_nonce : Z; rs_expiresAt : Z
}.
Definition session_value (s : RetrievalSessionInput) : abi_value :=
  VTuple [("dealId", VInt (rs_dealId s)); ("provider", VStr (rs_provider s)); ("manifestRoot", VHex (rs_manifestRoot s));
          ("startMduIndex", VInt (rs_startMduIndex s)); ("startBlobIndex", VInt (rs_startBlobIndex s));
          ("blobCount", VInt (rs_blobCount s)); ("nonce", VInt (rs_nonce s)); ("expiresAt", VInt (rs_expiresAt s))].

(** viem's encoder and decoder; both throw on what the ABI does not allow. *)
Class Viem := {
  encodeFunctionData : list abi_entry -> string -> list abi_value -> outcome string;
  decodeFunctionResult : list abi_entry -> string -> string -> outcome abi_value;
  (** [decodeEventLog(abi, eventName, topics, data)]: the arguments by name *)
  decodeEventLog : list abi_entry -> string -> json -> json -> outcome (list (string * abi_value));
  numberToHex : Z -> string
}.

Section Precompile.
Context `{Viem}.

Definition encodeComputeRetrievalSessionIdsData (sessions : list RetrievalSessionInput) : outcome string :=
  encodeFunctionData NILSTORE_PRECOMPILE_ABI "computeRetrievalSessionIds" [VArr (map session_value sessions)].
Definition encodeOpenRetrievalSessionsData (sessions : list RetrievalSessionInput) : outcome string :=
  encodeFunctionData NILSTORE_PRECOMPILE_ABI "openRetrievalSessions" [VArr (map session_value sessions)].
Definition encodeConfirmRetrievalSessionsData (sessionIds : list string) : outcome string :=
  encodeFunctionData NILSTORE_PRECOMPILE_ABI "confirmRetrievalSessions" [VArr (map VHex sessionIds)].

(** The strings of a decoded array; anything else has none. *)
Definition abi_strings (v : option abi_value) : list string :=
  match v with
  | Some (VArr l) => map (fun x => match x with VStr s | VHex s => s | _ => "" end) l
  | _ => []
  end.

(** [Array.isArray(decoded) ? decoded[0] : decoded.providers ?? []] *)
Definition decodeComputeRetrievalSessionIdsResult (data : string) : outcome (list string * list string) :=
  decoded ← decodeFunctionResult NILSTORE_PRECOMPILE_ABI "computeRetrievalSessionIds" data;
  mret match decoded with
       | VArr l => (abi_strings (l !! 0%nat), abi_strings (l !! 1%nat))
       | VTuple f => (abi_strings (assoc "providers" f), abi_strings (assoc "sessionIds" f))
       | _ => ([], [])
       end.
End Precompile.

(** ** gatewayStatus.ts *)

(** The module's cached addresses with their expiry. *)
Class StatusCache (W : Type) := {
  cachedP2PAddrs : W -> option (Z * list string);
  set_cachedP2PAddrs : Z * list string -> W -> W
}.

(** [String(v || '').trim()] *)
Definition trimmed_string (v : json) : string := if json_truthy v then trim (json_String v) else "".
Definition readP2pAddrs (payload : json) : list string :=
  match get_field payload "p2p_addrs" with
  | Some (JArr raw) => filter_truthy (map trimmed_string raw)
  | _ => []
  end.

Section GatewayStatus.
Context {W : Type} `{Clock W, Http W, StatusCache W}.
Context (cfg : Config).

Definition refresh_addrs (base : string) : M W (list string) :=
  try_catch
    (res ← fetch (Some 2500) (GET (base +:+ "/status"));
     if negb (rs_ok res) then mret []
     else
       let addrs := readP2pAddrs (json_or JNull res) in
       t ← now;
       modify (set_cachedP2PAddrs (t + 15000, addrs)) ;;
       mret addrs)
    (fun _ => mret []).

Definition fetchGatewayP2pAddrs (baseUrl : string) : M W (list string) :=
  if negb (cf_p2pEnabled cfg) then mret []
  else
    let base := strip_slash baseUrl in
    if negb (truthy base) then mret []
    else prim (fun w =>
      match cachedP2PAddrs w with
      | Some (expiresAt, addrs) =>
          let '(t, w') := date_now w in
          if t <? expiresAt then (Ok addrs, w') else refresh_addrs base w'
      | None => refresh_addrs base w
      end).

(** ** status.ts *)

Inductive ServiceStatus := SOk | SWarn | SError.
Record StatusSummary := mkSummary {
  st_lcd : ServiceStatus; st_evm : ServiceStatus; st_faucet : ServiceStatus; st_chainIdMatch : ServiceStatus;
  st_height : option dec; st_networkName : option json; st_evmChainId : option num
}.

(** [parseInt(s, 16)] *)
Definition hex_digits_of (l : list ascii) : list ascii :=
  match l with
  | a :: b :: r => if bool_decide (a = "0"%char) && bool_decide (lower_char b = "x"%char) then r else l
  | _ => l
  end.
Fixpoint hex_run (acc : option Z) (l : list ascii) : option Z :=
  match l with
  | c :: r => match hex_val c with Some d => hex_run (Some (16 * default 0 acc + d)) r | None => acc end
  | [] => acc
  end.
Definition parseInt16 (s : string) : num :=
  let '(neg, l) := match trim_start (chars s) with
                   | "-"%char :: r => (true, r)
                   | "+"%char :: r => (false, r)
                   | r => (false, r)
                   end in
  match hex_run None (hex_digits_of l) with
  | Some z => Num (if neg : bool then - z else z)
  | None => NaN
  end.

(** [json?.a?.b?.c] *)
Fixpoint path_get (j : option json) (keys : list string) : option json :=
  match keys with
  | [] => j
  | k :: r => match j with Some v => path_get (get_field v k) r | None => None end
  end.

Definition probe {A} (m : M W A) (failed : A) : M W A := try_catch m (fun _ => mret failed).

Definition probe_lcd : M W (ServiceStatus * option dec * option json) :=
  probe
    (res ← fetch None (GET (cf_lcdBase cfg +:+ "/cosmos/base/tendermint/v1beta1/blocks/latest"));
     if rs_ok res then
       j ← lift (rs_json res);
       let height := path_get (Some j) ["block"; "header"; "height"] in
       mret (SOk,
             Some (json_Number (match height with Some h => if json_truthy h then h else JNum (Num 0) | None => JNum (Num 0) end)),
             path_get (Some j) ["block"; "header"; "chain_id"])
     else mret (SError, None, None))
    (SError, None, None).

Definition probe_evm (expectedChainId : num) : M W (ServiceStatus * ServiceStatus * option num) :=
  probe
    (res ← fetch None (mkReq (cf_evmRpc cfg) "POST" [("Content-Type", "application/json")]
            (BJson (JObj [("jsonrpc", JStr "2.0"); ("method", JStr "eth_chainId"); ("params", JArr []); ("id", JNum (Num 1))])));
     if rs_ok res then
       j ← lift (rs_json res);
       let chainId := match path_get (Some j) ["result"] with
                      | Some h => if json_truthy h then Some (parseInt16 (json_String h)) else None
                      | None => None
                      end in
       mret (match chainId with Some n => match num_or n NaN with NaN => SWarn | _ => SOk end | None => SWarn end,
             match chainId, expectedChainId with
             | Some (Num a), Num b => if a =? b then SOk else SError
             | _, _ => SError
             end,
             chainId)
     else mret (SError, SWarn, None))
    (SError, SWarn, None).

Definition probe_faucet : M W ServiceStatus :=
  probe (res ← fetch None (GET (cf_apiBase cfg +:+ "/health")); mret (if rs_ok res then SOk else SWarn)) SWarn.

Definition fetchStatus (expectedChainId : num) : M W StatusSummary :=
  lcd ← probe_lcd;
  evm ← probe_evm expectedChainId;
  faucet ← probe_faucet;
  mret (mkSummary lcd.1.1 evm.1.1 faucet evm.1.2 lcd.1.2 lcd.2 evm.2).
End GatewayStatus.

Example chain_id_hex : parseInt16 "0x7a69" = Num 31337.
Proof. reflexivity. Qed.
