(* ===== verification/Eip712.v ===== *)
(** * Typed data for signatures (lib/eip712.ts)

    What a wallet is asked to sign: the domain, the struct types and the message of
    each intent.  The two properties a signature needs are stated here: every message
    fits the type it is signed under, and it determines the intent it was built from. *)
From S2P Require Import Prelude JsString JsNum.
#[local] Open Scope Z_scope.

Definition EIP712_DOMAIN_NAME : string := "NilStore".
Definition EIP712_DOMAIN_VERSION : string := "1".
Definition EIP712_VERIFYING_CONTRACT : string := "0x0000000000000000000000000000000000000000".

Definition struct_type : Type := list (string * string).
Definition EIP712DomainTypes : struct_type :=
  [("name", "string"); ("version", "string"); ("chainId", "uint256"); ("verifyingContract", "address")].

Definition CreateDealTypes : list (string * struct_type) :=
  [("EIP712Domain", EIP712DomainTypes);
   ("CreateDeal", [("creator", "address"); ("duration", "uint64"); ("service_hint", "string");
                   ("initial_escrow", "string"); ("max_monthly_spend", "string"); ("nonce", "uint64")])].
Definition UpdateContentTypes : list (string * struct_type) :=
  [("EIP712Domain", EIP712DomainTypes);
   ("UpdateContent", [("creator", "address"); ("deal_id", "uint64"); ("cid", "string"); ("size", "uint64");
                      ("nonce", "uint64")])].
Definition RetrievalReceiptTypes : list (string * struct_type) :=
  [("EIP712Domain", EIP712DomainTypes);
   ("RetrievalReceipt", [("deal_id", "uint64"); ("epoch_id", "uint64"); ("provider", "string"); ("file_path", "string");
                         ("range_start", "uint64"); ("range_len", "uint64"); ("bytes_served", "uint64");
                         ("nonce", "uint64"); ("expires_at", "uint64"); ("proof_hash", "bytes32")])].
Definition DownloadSessionReceiptTypes : list (string * struct_type) :=
  [("EIP712Domain", EIP712DomainTypes);
   ("DownloadSessionReceipt", [("deal_id", "uint64"); ("epoch_id", "uint64"); ("provider", "string");
                               ("file_path", "string"); ("total_bytes", "uint64"); ("chunk_count", "uint64");
                               ("chunk_leaf_root", "bytes32"); ("nonce", "uint64"); ("expires_at", "uint64")])].
Definition RetrievalRequestTypes : list (string * struct_type) :=
  [("EIP712Domain", EIP712DomainTypes);
   ("RetrievalRequest", [("deal_id", "uint64"); ("file_path", "string"); ("range_start", "uint64");
                         ("range_len", "uint64"); ("nonce", "uint64"); ("expires_at", "uint64")])].

(** The intents; numbers are the integers the callers pass. *)
Record CreateDealIntent := mkCreateDeal {
  cd_creator_evm : string; cd_duration_blocks : Z; cd_service_hint : string; cd_initial_escrow : string;
  cd_max_monthly_spend : string; cd_nonce : Z
}.
Record UpdateContentIntent := mkUpdateContent {
  uc_creator_evm : string; uc_deal_id : Z; uc_cid : string; uc_size_bytes : Z; uc_nonce : Z
}.
Record RetrievalReceiptIntent := mkReceipt {
  rr_deal_id : Z; rr_epoch_id : Z; rr_provider : string; rr_file_path : string; rr_range_start : Z; rr_range_len : Z;
  rr_bytes_served : Z; rr_nonce : Z; rr_expires_at : Z; rr_proof_hash : string
}.
Record DownloadSessionReceiptIntent := mkSessionReceipt {
  ds_deal_id : Z; ds_epoch_id : Z; ds_provider : string; ds_file_path : string; ds_total_bytes : Z; ds_chunk_count : Z;
  ds_chunk_leaf_root : string; ds_nonce : Z; ds_expires_at : Z
}.
Record RetrievalRequestIntent := mkRetrieval {
  rq_deal_id : Z; rq_file_path : string; rq_range_start : Z; rq_range_len : Z; rq_nonce : Z; rq_expires_at : Z
}.

Record TypedData := mkTyped {
  td_name : string; td_version : string; td_chainId : dec; td_verifyingContract : string;
  td_types : list (string * struct_type); td_primaryType : string; td_message : list (string * json)
}.
Definition typed (chainId : dec) : list (string * struct_type) -> string -> list (string * json) -> TypedData :=
  mkTyped EIP712_DOMAIN_NAME EIP712_DOMAIN_VERSION chainId EIP712_VERIFYING_CONTRACT.
Definition JInt (z : Z) : json := JNum (Num z).

Definition buildCreateDealTypedData (i : CreateDealIntent) (chainId : dec) : TypedData :=
  typed chainId CreateDealTypes "CreateDeal"
    [("creator", JStr (cd_creator_evm i)); ("duration", JInt (cd_duration_blocks i));
     ("service_hint", JStr (cd_service_hint i)); ("initial_escrow", JStr (cd_initial_escrow i));
     ("max_monthly_spend", JStr (cd_max_monthly_spend i)); ("nonce", JInt (cd_nonce i))].
Definition buildUpdateContentTypedData (i : UpdateContentIntent) (chainId : dec) : TypedData :=
  typed chainId UpdateContentTypes "UpdateContent"
    [("creator", JStr (uc_creator_evm i)); ("deal_id", JInt (uc_deal_id i)); ("cid", JStr (uc_cid i));
     ("size", JInt (uc_size_bytes i)); ("nonce", JInt (uc_nonce i))].
Definition buildRetrievalRequestTypedData (i : RetrievalRequestIntent) (chainId : dec) : TypedData :=
  typed chainId RetrievalRequestTypes "RetrievalRequest"
    [("deal_id", JInt (rq_deal_id i)); ("file_path", JStr (rq_file_path i)); ("range_start", JInt (rq_range_start i));
     ("range_len", JInt (rq_range_len i)); ("nonce", JInt (rq_nonce i)); ("expires_at", JInt (rq_expires_at i))].
Definition buildRetrievalReceiptTypedData (i : RetrievalReceiptIntent) (chainId : dec) : TypedData :=
  typed chainId RetrievalReceiptTypes "RetrievalReceipt"
    [("deal_id", JInt (rr_deal_id i)); ("epoch_id", JInt (rr_epoch_id i)); ("provider", JStr (rr_provider i));
     ("file_path", JStr (rr_file_path i)); ("range_start", JInt (rr_range_start i)); ("range_len", JInt (rr_range_len i));
     ("bytes_served", JInt (rr_bytes_served i)); ("nonce", JInt (rr_nonce i)); ("expires_at", JInt (rr_expires_at i));
     ("proof_hash", JStr (rr_proof_hash i))].
Definition buildDownloadSessionReceiptTypedData (i : DownloadSessionReceiptIntent) (chainId : dec) : TypedData :=
  typed chainId DownloadSessionReceiptTypes "DownloadSessionReceipt"
    [("deal_id", JInt (ds_deal_id i)); ("epoch_id", JInt (ds_epoch_id i)); ("provider", JStr (ds_provider i));
     ("file_path", JStr (ds_file_path i)); ("total_bytes", JInt (ds_total_bytes i)); ("chunk_count", JInt (ds_chunk_count i));
     ("chunk_leaf_root", JStr (ds_chunk_leaf_root i)); ("nonce", JInt (ds_nonce i)); ("expires_at", JInt (ds_expires_at i))].

(** ** Properties *)

(** A JSON value fits an atomic ABI type. *)
Definition fits (ty : string) (v : json) : bool :=
  match v with
  | JNum (Num _) => starts_with "uint" ty
  | JStr _ => mem ty ["string"; "address"; "bytes32"]
  | _ => false
  end.
(** The message has exactly the fields of the primary type, in order, each of its type. *)
Definition well_typed (t : TypedData) : bool :=
  match assoc (td_primaryType t) (td_types t) with
  | Some fields =>
      bool_decide (map fst fields = map fst (td_message t)) &&
      forallb (fun p => fits p.1.2 p.2.2) (combine fields (td_message t))
  | None => false
  end.

(** Every intent, whichever kind. *)
Inductive intent :=
| ICreate (i : CreateDealIntent) | IUpdate (i : UpdateContentIntent) | IRequest (i : RetrievalRequestIntent)
| IReceipt (i : RetrievalReceiptIntent) | ISession (i : DownloadSessionReceiptIntent).
Definition build (i : intent) (chainId : dec) : TypedData :=
  match i with
  | ICreate i => buildCreateDealTypedData i chainId
  | IUpdate i => buildUpdateContentTypedData i chainId
  | IRequest i => buildRetrievalRequestTypedData i chainId
  | IReceipt i => buildRetrievalReceiptTypedData i chainId
  | ISession i => buildDownloadSessionReceiptTypedData i chainId
  end.

(** A signature binds the whole intent.  Every message is well typed for its
    primary type, and two intents, of any of the five kinds and on any chains, that
    produce the same typed data are the same intent for the same chain. *)
Theorem typed_data_binds_intent i j ci cj :
  well_typed (build i ci) = true /\ (build i ci = build j cj <-> i = j /\ ci = cj).
Proof.
  split; [destruct i; vm_compute; reflexivity|]. split; [|by intros [-> ->] ].
  destruct i as [i|i|i|i|i], j as [j|j|j|j|j]; cbn [build]; intros E;
    try (apply (f_equal td_primaryType) in E; discriminate);
    destruct i, j; injection E; intros; subst; done.
Qed.
