(* ===== verification/FetchFlow.v ===== *)
(** * Downloading a file (hooks/useFetch.ts)

    [fetchFile] cuts the wanted range into chunks, asks for a retrieval plan per
    chunk, groups the chunks by provider, opens one on-chain session per provider,
    fetches the chunks of each group under its session, confirms the sessions,
    submits the proofs and hands out the bytes.  React state is a record of the
    world; the wallet, the browser's object URLs and [Math.random] are classes. *)
From S2P Require Import Prelude JsString JsNum TransportTypes Effects Bytes Text RangeChunker Router Multiaddr Http Lcd.
From S2P Require Import GatewayClient P2p Config TransportHook Evm Eip712.
#[local] Open Scope Z_scope.

Inductive FetchPhase :=
  idle | opening_session_tx | fetching | confirming_session_tx | submitting_proof_request | done_phase | error_phase.
Record FetchProgress := mkProgress {
  fp_phase : FetchPhase; fp_filePath : string; fp_chunksFetched : Z; fp_chunkCount : Z; fp_bytesFetched : Z;
  fp_bytesTotal : Z; fp_receiptsSubmitted : Z; fp_receiptsTotal : Z; fp_message : option string
}.
Inductive ReceiptStatus := rs_idle | rs_submitted | rs_failed.
Record FetchState := mkFState {
  fs_loading : bool; fs_downloadUrl : option string; fs_receiptStatus : ReceiptStatus;
  fs_receiptError : option string; fs_progress : FetchProgress
}.

(** The component's state and what else it uses of the page. *)
Class FetchUi (W : Type) := {
  ui : W -> FetchState;
  set_ui : FetchState -> W -> W;
  createObjectURL : bytes -> W -> string * W;
  (** [Math.floor(Math.random() * 1_000_000_000)] *)
  random_nonce : W -> Z * W;
  ui_set s w : ui (set_ui s w) = s
}.

(** [window.ethereum] *)
Class Wallet (W : Type) := {
  has_ethereum : W -> bool;
  eth_call : string -> string -> string -> M W string;
  eth_sendTransaction : string -> string -> string -> string -> M W string;
  (** [eth_signTypedData_v4] on the JSON text of the typed data *)
  eth_signTypedData : string -> TypedData -> M W string
}.

Record FetchInput := mkInput {
  in_dealId : string; in_manifestRoot : string; in_owner : string; in_filePath : string; in_serviceBase : option string;
  in_rangeStart : option Z; in_rangeLen : option Z; in_fileStartOffset : option Z; in_fileSizeBytes : option Z;
  in_mduSizeBytes : option Z; in_blobSizeBytes : option Z
}.

(** [x || d] on an optional number. *)
Definition or_num (x : option Z) (d : Z) : Z := match x with Some 0 | None => d | Some z => z end.

(** What the input asks for, once it has been checked. *)
Record FetchJob := mkJob {
  jb_dealId : string; jb_owner : string; jb_filePath : string; jb_manifestRoot : string;
  jb_blobSize : Z; jb_mduSize : Z; jb_rangeStart : Z; jb_rangeLen : Z; jb_chunks : list FileRangeChunk
}.

Definition prepare (input : FetchInput) : outcome FetchJob :=
  dealId ← normalizeDealId (in_dealId input);
  let owner := trim (in_owner input) in
  if negb (truthy owner) then mthrow (Error "owner is required")
  else
    let filePath := trim (in_filePath input) in
    if negb (truthy filePath) then mthrow (Error "filePath is required")
    else
      let manifestRoot := trim (in_manifestRoot input) in
      if negb (starts_with "0x" manifestRoot) then mthrow (Error "manifestRoot must be 0x-prefixed hex bytes")
      else
        let blobSizeBytes := or_num (in_blobSizeBytes input) (128 * 1024) in
        let mduSizeBytes := or_num (in_mduSizeBytes input) (8 * 1024 * 1024) in
        let wantRangeStart := Z.max 0 (default 0 (in_rangeStart input)) in
        let wantRangeLen := Z.max 0 (default 0 (in_rangeLen input)) in
        let wantFileSize := default 0 (in_fileSizeBytes input) in
        effectiveRangeLen ←
          (if wantRangeLen =? 0 then
             if wantFileSize =? 0 then mthrow (Error "fileSizeBytes is required for full downloads (rangeLen=0)")
             else if wantFileSize <=? wantRangeStart then mthrow (Error "rangeStart beyond EOF")
             else mret (wantFileSize - wantRangeStart)
           else mret wantRangeLen);
        chunks ←
          match in_fileStartOffset input, in_fileSizeBytes input, in_mduSizeBytes input, in_blobSizeBytes input with
          | Some fso, Some size, Some mdu, Some blob =>
              planNilfsFileRangeChunks (Num fso) (Num size) (Num wantRangeStart) (Num effectiveRangeLen) (Num mdu) blob
          | _, _, _, _ =>
              if blobSizeBytes <? effectiveRangeLen
              then mthrow (Error "range fetch > blob size requires fileStartOffset/fileSizeBytes/mduSizeBytes/blobSizeBytes")
              else mret [mkChunk wantRangeStart effectiveRangeLen]
          end;
        mret (mkJob dealId owner filePath manifestRoot blobSizeBytes mduSizeBytes wantRangeStart effectiveRangeLen chunks).

(** [BigInt(n)] of a number: a [RangeError] unless it is an integer. *)
Definition BigInt_of_dec (d : dec) : outcome Z :=
  match d with
  | DNum m e =>
      if 0 <=? e then mret (round53 (m * 10 ^ e))
      else if m mod 10 ^ (- e) =? 0 then mret (round53 (m / 10 ^ (- e)))
      else mthrow (JsError "RangeError" "The number cannot be converted to a BigInt because it is not an integer")
  | _ => mthrow (JsError "RangeError" "The number cannot be converted to a BigInt because it is not an integer")
  end.

(** [Number(x || 0)] of a field *)
Definition number_or_0 (j : option json) : dec :=
  match j with Some v => if json_truthy v then json_Number v else DNum 0 0 | None => DNum 0 0 end.
Definition field_string (j : option json) : string := match j with Some v => trimmed_string v | None => "" end.

Record PlannedChunk := mkPlanned {
  pc_rangeStart : Z; pc_rangeLen : Z; pc_provider : string; pc_startMduIndex : Z; pc_startBlobIndex : dec;
  pc_blobCount : Z; pc_planBackend : BackendName; pc_planEndpoint : option string
}.

(** What the answer to a plan request makes of a chunk. *)
Definition planned_chunk (c : FileRangeChunk) (planResult : TransportOutcome json) : outcome PlannedChunk :=
  let planJson := to_data planResult in
  let provider := field_string (get_field planJson "provider") in
  if negb (truthy provider) then mthrow (Error "gateway plan did not return provider")
  else
    startMduIndex ← BigInt_of_dec (number_or_0 (get_field planJson "start_mdu_index"));
    let startBlobIndex := number_or_0 (get_field planJson "start_blob_index") in
    blobCount ← BigInt_of_dec (number_or_0 (get_field planJson "blob_count"));
    if startMduIndex <=? 0 then mthrow (Error "gateway plan did not return start_mdu_index")
    else if negb (dec_is_finite startBlobIndex) || dec_ltb startBlobIndex 0
    then mthrow (Error "gateway plan did not return start_blob_index")
    else if blobCount <=? 0 then mthrow (Error "gateway plan did not return blob_count")
    else mret (mkPlanned (rangeStart c) (rangeLen c) provider startMduIndex startBlobIndex blobCount
                 (to_backend planResult) (snd <$> tr_chosen (to_trace planResult))).

(** ** Provider groups *)

Record ProviderGroup := mkGroup {
  pg_provider : string; pg_chunks : list PlannedChunk; pg_globalStart : Z; pg_globalEnd : Z
}.

(** [providerGroups.get(...)] and [set(...)] on a [Map], which keeps insertion order. *)
Fixpoint add_to_groups (chunk : PlannedChunk) (globalStart globalEnd : Z) (groups : list ProviderGroup) : list ProviderGroup :=
  match groups with
  | [] => [mkGroup (pc_provider chunk) [chunk] globalStart globalEnd]
  | g :: rest =>
      if eqb (pg_provider g) (pc_provider chunk)
      then mkGroup (pg_provider g) (pg_chunks g ++ [chunk])
             (if globalStart <? pg_globalStart g then globalStart else pg_globalStart g)
             (if pg_globalEnd g <? globalEnd then globalEnd else pg_globalEnd g) :: rest
      else g :: add_to_groups chunk globalStart globalEnd rest
  end.

Fixpoint group_loop (leafCount : Z) (chunks : list PlannedChunk) (groups : list ProviderGroup) : outcome (list ProviderGroup) :=
  match chunks with
  | [] => mret groups
  | chunk :: rest =>
      startBlob ← BigInt_of_dec (pc_startBlobIndex chunk);
      let globalStart := pc_startMduIndex chunk * leafCount + startBlob in
      let globalEnd := globalStart + pc_blobCount chunk - 1 in
      group_loop leafCount rest (add_to_groups chunk globalStart globalEnd groups)
  end.
Definition group_chunks (leafCount : Z) (chunks : list PlannedChunk) : outcome (list ProviderGroup) :=
  group_loop leafCount chunks [].

Definition leaf_count (job : FetchJob) : Z := Z.max 1 (jb_mduSize job / jb_blobSize job).

(** The sessions to open: one per group, over the blobs the group spans. *)
Definition open_request (job : FetchJob) (openBaseNonce : Z) (index : nat) (group : ProviderGroup) : RetrievalSessionInput :=
  let leafCount := leaf_count job in
  mkSession (digits_val (chars (jb_dealId job))) (pg_provider group) (jb_manifestRoot job)
    (Z.quot (pg_globalStart group) leafCount) (Z.rem (pg_globalStart group) leafCount)
    (pg_globalEnd group - pg_globalStart group + 1) (openBaseNonce + Z.of_nat index) 0.
Definition open_requests (job : FetchJob) (openBaseNonce : Z) (groups : list ProviderGroup) : list RetrievalSessionInput :=
  imap (open_request job openBaseNonce) groups.

(** [sessionsByProvider]: a later pair overwrites an earlier one. *)
Definition sessions_by_provider (providers sessionIds : list string) : gmap string string :=
  foldl (fun m '(i, p) =>
    let provider := trim p in
    let sessionId := default "" (sessionIds !! i) in
    if truthy provider && truthy sessionId then <[provider := sessionId]> m else m)
    ∅ (imap pair providers).

(** A session for every group, or the first group without one. *)
Fixpoint check_sessions (sessions : gmap string string) (groups : list ProviderGroup) : outcome unit :=
  match groups with
  | [] => mret tt
  | g :: rest =>
      match sessions !! pg_provider g with
      | Some _ => check_sessions sessions rest
      | None => mthrow (Error ("computeRetrievalSessionIds did not return session for " +:+ pg_provider g))
      end
  end.
Definition session_of (sessions : gmap string string) (provider : string) : outcome string :=
  match sessions !! provider with
  | Some id => if truthy id then mret id else mthrow (Error ("missing session for provider " +:+ provider))
  | None => mthrow (Error ("missing session for provider " +:+ provider))
  end.

(** The first non-empty candidate of an [||] chain. *)
Definition first_truthy (l : list (option string)) : option string :=
  List.find truthy (omap id l).

(** ** The flow *)

Section Fetch.
Context {W : Type} `{Clock W, Timers W, Http W, Libp2p W, TraceStore W, StatusCache W, FetchUi W, Wallet W, Viem}.
Context (JSON_parse : units -> outcome json).
Context (cfg : Config) (preference : RoutePreference) (address : option string).

Definition decodeHttpError (bodyText : string) : string :=
  let trimmed := or_else (trim bodyText) bodyText in
  if negb (truthy trimmed) then "request failed"
  else match JSON_parse (units_of trimmed) with
       | Ok j =>
           if isRecord j then
             let text k := match get_field j k with Some (JStr s) => trim s | _ => "" end in
             if truthy (text "error")
             then text "error" +:+ (if truthy (text "hint") then " (" +:+ text "hint" +:+ ")" else "")
             else if truthy (text "message") then text "message" else trimmed
           else trimmed
       | Thrown _ => trimmed
       end.

Definition shouldSignMetaAuth (err : jserr) : bool :=
  is_Error err &&
  (let msg := decodeHttpError (err_message err) in
   test_i "req_sig is required" msg || test_i "range must be signed" msg).

Definition update_ui (f : FetchState -> FetchState) : M W unit := modify (fun w => set_ui (f (ui w)) w).
Definition with_progress (f : FetchProgress -> FetchProgress) (s : FetchState) : FetchState :=
  mkFState (fs_loading s) (fs_downloadUrl s) (fs_receiptStatus s) (fs_receiptError s) (f (fs_progress s)).
Definition set_progress (f : FetchProgress -> FetchProgress) : M W unit := update_ui (with_progress f).

Definition initial_progress (filePath : string) : FetchProgress := mkProgress idle filePath 0 0 0 0 0 0 None.
Definition at_phase (phase : FetchPhase) (receiptsSubmitted : Z) (p : FetchProgress) : FetchProgress :=
  mkProgress phase (fp_filePath p) (fp_chunksFetched p) (fp_chunkCount p) (fp_bytesFetched p) (fp_bytesTotal p)
    receiptsSubmitted (fp_receiptsTotal p) (fp_message p).

(** The loop over the gateway's own addresses: the first that is a target. *)
Definition gateway_target (hasP2p : bool) : M W (option P2pTarget) :=
  if cf_p2pEnabled cfg && negb (cf_gatewayDisabled cfg) && negb hasP2p
  then addrs ← fetchGatewayP2pAddrs cfg (cf_gatewayBase cfg); mret (first_target addrs)
  else mret None.

(** [m.catch(() => null)] *)
Definition or_null {A} (m : M W (option A)) : M W (option A) := try_catch m (fun _ => mret None).

Record FetchRoute := mkFRoute {
  fr_serviceOverride : string; fr_preference : option RoutePreference; fr_directBase : string;
  fr_p2pEndpoint : option ProviderP2pEndpoint; fr_gatewayTarget : option P2pTarget
}.

Definition resolve_route (input : FetchInput) (dealId : string) : M W FetchRoute :=
  let serviceOverride := strip_slash (trim (default "" (in_serviceBase input))) in
  let preferenceOverride :=
    if truthy serviceOverride && negb (eqb serviceOverride (cf_gatewayBase cfg)) &&
       negb (bool_decide (preference = prefer_p2p))
    then Some prefer_direct_sp else None in
  directEndpoint ← or_null (resolveProviderEndpoint (cf_lcdBase cfg) dealId);
  p2pEndpoint ← or_null (resolveProviderP2pEndpoint (cf_lcdBase cfg) dealId);
  let directBase := default (cf_spBase cfg) (first_truthy [Some serviceOverride; pe_baseUrl <$> directEndpoint]) in
  gatewayP2pTarget ← gateway_target (bool_decide (is_Some p2pEndpoint));
  mret (mkFRoute serviceOverride preferenceOverride directBase p2pEndpoint gatewayP2pTarget).

Definition plan_target (r : FetchRoute) : option P2pTarget :=
  match fr_p2pEndpoint r with Some e => Some (pp_target e) | None => fr_gatewayTarget r end.

Definition plan_chunk (job : FetchJob) (r : FetchRoute) (c : FileRangeChunk) : M W PlannedChunk :=
  planResult ← plan cfg preference
    (mkRoute (jb_manifestRoot job) (jb_owner job) (jb_dealId job) (Some (fr_directBase r)) (plan_target r) (fr_preference r))
    (jb_filePath job) (Some (rangeStart c)) (Some (rangeLen c));
  lift (planned_chunk c planResult).

(** ** Opening the sessions *)

Definition open_sessions (job : FetchJob) (account : string) (groups : list ProviderGroup) : M W (gmap string string) :=
  openBaseNonce ← now;
  let openRequests := open_requests job openBaseNonce groups in
  computeData ← lift (encodeComputeRetrievalSessionIdsData openRequests);
  computeResult ← eth_call account (cf_nilstorePrecompile cfg) computeData;
  decoded ← lift (decodeComputeRetrievalSessionIdsResult computeResult);
  let sessions := sessions_by_provider decoded.1 decoded.2 in
  lift (check_sessions sessions groups) ;;
  openTxData ← lift (encodeOpenRetrievalSessionsData openRequests);
  openTxHash ← eth_sendTransaction account (cf_nilstorePrecompile cfg) openTxData (numberToHex 7000000);
  waitForTransactionReceipt (cf_evmRpc cfg) openTxHash ;;
  mret sessions.

(** ** Fetching the groups *)

Definition signMetaAuth (job : FetchJob) (account : string) : M W FetchRangeAuth :=
  t ← now;
  let nowSeconds := t / 1000 in
  r ← prim (fun w => let '(r, w') := random_nonce w in (Ok r, w'));
  t' ← now;
  let reqNonce := r + t' in
  let reqExpiresAt := nowSeconds + 9 * 60 in
  reqSig ← eth_signTypedData account
    (buildRetrievalRequestTypedData
       (mkRetrieval (digits_val (chars (jb_dealId job))) (jb_filePath job) (jb_rangeStart job) (jb_rangeLen job)
          reqNonce reqExpiresAt) (cf_chainId cfg));
  mret (mkAuth reqSig reqNonce reqExpiresAt (jb_rangeStart job) (jb_rangeLen job)).

(** Where the chunks of a group are fetched from. *)
Definition group_target (r : FetchRoute) (provider : string) (p2p : option ProviderP2pEndpoint) : option P2pTarget :=
  match p2p with
  | Some e => Some (pp_target e)
  | None =>
      match fr_p2pEndpoint r with
      | Some e => if eqb (pp_provider e) provider then Some (pp_target e) else fr_gatewayTarget r
      | None => fr_gatewayTarget r
      end
  end.
Definition is_direct (c : PlannedChunk) : bool := bool_decide (pc_planBackend c = direct_sp).
Definition unless_gateway (base : string) : option string := if eqb base (cf_gatewayBase cfg) then None else Some base.
Definition group_base (r : FetchRoute) (group : ProviderGroup) (endpoint : option ProviderEndpoint) : option string :=
  if bool_decide (endpoint = None) && forallb (fun c => negb (is_direct c)) (pg_chunks group) then None
  else first_truthy
    [pe_baseUrl <$> endpoint; List.find is_direct (pg_chunks group) ≫= pc_planEndpoint;
     unless_gateway (fr_serviceOverride r); unless_gateway (fr_directBase r)].

Definition fetch_request (job : FetchJob) (r : FetchRoute) (group : ProviderGroup) (sessionId : string)
    (target : option P2pTarget) (base : option string) (c : PlannedChunk) (auth : option FetchRangeAuth) : FetchRangeRequest :=
  mkFetchRange
    (mkRoute (jb_manifestRoot job) (jb_owner job) (jb_dealId job) base target (fr_preference r))
    (jb_filePath job) (pc_rangeStart c) (Num (pc_rangeLen c)) sessionId auth (Some (pg_provider group)).

(** What the loops carry: the signed authorisation, the parts, the counters. *)
Record Fetched := mkFetched { ft_auth : option FetchRangeAuth; ft_parts : list bytes; ft_bytes : Z; ft_chunks : Z }.

Definition fetch_chunk (job : FetchJob) (account : string) (mk : option FetchRangeAuth -> FetchRangeRequest)
    (auth : option FetchRangeAuth) : M W (TransportOutcome (bytes * string) * option FetchRangeAuth) :=
  try_catch
    (res ← fetchRange JSON_parse cfg preference (mk auth); mret (res, auth))
    (fun err =>
       if bool_decide (auth = None) && shouldSignMetaAuth err then
         set_progress (fun p => mkProgress (fp_phase p) (fp_filePath p) (fp_chunksFetched p) (fp_chunkCount p)
           (fp_bytesFetched p) (fp_bytesTotal p) (fp_receiptsSubmitted p) (fp_receiptsTotal p)
           (Some "Sign the download request to authorize retrieval")) ;;
         metaAuth ← signMetaAuth job account;
         res ← fetchRange JSON_parse cfg preference (mk (Some metaAuth));
         mret (res, Some metaAuth)
       else mthrow err).

(** [x || d] on a counter of the progress record. *)
Definition counter_or (x d : Z) : Z := if x =? 0 then d else x.

Definition fetch_one (job : FetchJob) (account : string) (r : FetchRoute) (group : ProviderGroup) (sessionId : string)
    (target : option P2pTarget) (base : option string) (s : Fetched) (c : PlannedChunk) : M W Fetched :=
  res ← fetch_chunk job account (fetch_request job r group sessionId target base c) (ft_auth s);
  let buf := (to_data res.1).1 in
  let s' := mkFetched res.2 (ft_parts s ++ [buf]) (ft_bytes s + zlen buf) (ft_chunks s + 1) in
  set_progress (fun p => mkProgress fetching (fp_filePath p)
    (Z.min (counter_or (fp_chunkCount p) (zlen (jb_chunks job))) (ft_chunks s')) (fp_chunkCount p)
    (Z.min (counter_or (fp_bytesTotal p) (ft_bytes s')) (ft_bytes s')) (fp_bytesTotal p)
    (fp_receiptsSubmitted p) (fp_receiptsTotal p) (fp_message p)) ;;
  mret s'.

(** [getProviderEndpoint] and [getProviderP2pEndpoint]: one look-up per provider. *)
Definition cached {A} (look : string -> M W (option A)) (cache : gmap string (option A)) (provider : string)
    : M W (option A * gmap string (option A)) :=
  match cache !! provider with
  | Some e => mret (e, cache)
  | None => e ← or_null (look provider); mret (e, <[provider := e]> cache)
  end.

Definition caches : Type := gmap string (option ProviderEndpoint) * gmap string (option ProviderP2pEndpoint).

Definition fetch_group (job : FetchJob) (account : string) (r : FetchRoute) (sessions : gmap string string)
    (s : caches * Fetched) (group : ProviderGroup) : M W (caches * Fetched) :=
  let provider := pg_provider group in
  sessionId ← lift (session_of sessions provider);
  e ← cached (resolveProviderEndpointByAddress (cf_lcdBase cfg)) s.1.1 provider;
  p ← cached (resolveProviderP2pEndpointByAddress (cf_lcdBase cfg)) s.1.2 provider;
  s' ← fold_m (fetch_one job account r group sessionId (group_target r provider p.1) (group_base r group e.1))
         s.2 (pg_chunks group);
  mret ((e.2, p.2), s').

Definition fetch_groups (job : FetchJob) (account : string) (r : FetchRoute) (sessions : gmap string string)
    (groups : list ProviderGroup) : M W Fetched :=
  res ← fold_m (fetch_group job account r sessions) ((∅, ∅), mkFetched None [] 0 0) groups;
  mret res.2.

(** ** Confirming and proving *)

Definition confirm_sessions (account : string) (sessions : gmap string string) (groups : list ProviderGroup) : M W unit :=
  let sessionIds := map (fun g => default "" (sessions !! pg_provider g)) groups in
  confirmTxData ← lift (encodeConfirmRetrievalSessionsData sessionIds);
  confirmTxHash ← eth_sendTransaction account (cf_nilstorePrecompile cfg) confirmTxData (numberToHex 3000000);
  waitForTransactionReceipt (cf_evmRpc cfg) confirmTxHash ;;
  mret tt.

Definition submit_proof (dealId : string) (sessions : gmap string string) (group : ProviderGroup) : M W unit :=
  sessionId ← lift (session_of sessions (pg_provider group));
  proofRes ← fetch None
    (mkReq (cf_gatewayBase cfg +:+ "/gateway/session-proof?deal_id=" +:+ encodeURIComponent dealId) "POST"
       [("Content-Type", "application/json")]
       (BJson (JObj [("session_id", JStr sessionId); ("provider", JStr (pg_provider group))])));
  if rs_ok proofRes then mret tt
  else js_error (or_else (decodeHttpError (text_or_empty proofRes))
                   ("submit session proof failed (" +:+ string_of_Z (rs_status proofRes) +:+ ")")).

Record FetchResult := mkResult { res_url : string; res_blob : bytes }.

(** The body of the [try]. *)
Definition fetch_body (input : FetchInput) : M W FetchResult :=
  match address with
  | None => js_error "Connect a wallet to submit retrieval proofs"
  | Some account =>
  if negb (truthy account) then js_error "Connect a wallet to submit retrieval proofs" else
  w_ok ← prim (fun w => (Ok (has_ethereum w), w));
  (if w_ok : bool then mret tt else js_error "Ethereum provider (MetaMask) not available") ;;
  job ← lift (prepare input);
  r ← resolve_route input (jb_dealId job);
  plannedChunks ← map_m (plan_chunk job r) (jb_chunks job);
  groups ← lift (group_chunks (leaf_count job) plannedChunks);
  set_progress (fun p => mkProgress opening_session_tx (jb_filePath job) (fp_chunksFetched p) (zlen (jb_chunks job))
    (fp_bytesFetched p) (jb_rangeLen job) 0 (if 0 <? zlen groups then 2 else 0) (fp_message p)) ;;
  sessions ← open_sessions job account groups;
  set_progress (fun p => mkProgress fetching (fp_filePath p) (fp_chunksFetched p) (zlen (jb_chunks job))
    (fp_bytesFetched p) (jb_rangeLen job) 1 (fp_receiptsTotal p) (fp_message p)) ;;
  fetched ← fetch_groups job account r sessions groups;
  set_progress (at_phase confirming_session_tx 1) ;;
  confirm_sessions account sessions groups ;;
  set_progress (at_phase submitting_proof_request 2) ;;
  for_each groups (submit_proof (jb_dealId job) sessions) ;;
  let blob := concat (ft_parts fetched) in
  url ← prim (fun w => let '(u, w') := createObjectURL blob w in (Ok u, w'));
  update_ui (fun s => mkFState (fs_loading s) (Some url) rs_submitted (fs_receiptError s) (at_phase done_phase 2 (fs_progress s))) ;;
  mret (mkResult url blob)
  end.

Definition set_loading (b : bool) (s : FetchState) : FetchState :=
  mkFState b (fs_downloadUrl s) (fs_receiptStatus s) (fs_receiptError s) (fs_progress s).

Definition fetchFile (input : FetchInput) : M W (option FetchResult) :=
  update_ui (fun _ => mkFState true None rs_idle None (initial_progress (in_filePath input))) ;;
  finally
    (try_catch (res ← fetch_body input; mret (Some res))
       (fun e =>
          update_ui (fun s => mkFState (fs_loading s) (fs_downloadUrl s) rs_failed (Some (err_message e))
            (let p := fs_progress s in
             mkProgress error_phase (fp_filePath p) (fp_chunksFetched p) (fp_chunkCount p) (fp_bytesFetched p)
               (fp_bytesTotal p) (fp_receiptsSubmitted p) (fp_receiptsTotal p) (Some (err_message e)))) ;;
          mret None))
    (fun w => set_ui (set_loading false (ui w)) w).
End Fetch.

(** ** Grouping *)

(** The blobs of a chunk, numbered across the file's MDUs. *)
Definition blob_start (leafCount : Z) (c : PlannedChunk) (startBlob : Z) : Z := pc_startMduIndex c * leafCount + startBlob.
Definition spans (leafCount : Z) (g : ProviderGroup) (c : PlannedChunk) : Prop :=
  exists startBlob, BigInt_of_dec (pc_startBlobIndex c) = Ok startBlob /\
    pg_globalStart g <= blob_start leafCount c startBlob /\
    blob_start leafCount c startBlob + pc_blobCount c - 1 <= pg_globalEnd g.
Definition of_provider (p : string) (c : PlannedChunk) : bool := eqb (pc_provider c) p.

(** A group: the chunks of one provider, all of them, in order, within its span. *)
Definition tight (leafCount : Z) (g : ProviderGroup) : Prop :=
  (exists c b, c ∈ pg_chunks g /\ BigInt_of_dec (pc_startBlobIndex c) = Ok b /\ pg_globalStart g = blob_start leafCount c b) /\
  (exists c b, c ∈ pg_chunks g /\ BigInt_of_dec (pc_startBlobIndex c) = Ok b /\
     pg_globalEnd g = blob_start leafCount c b + pc_blobCount c - 1).
Definition group_ok (leafCount : Z) (cs : list PlannedChunk) (g : ProviderGroup) : Prop :=
  pg_chunks g = List.filter (of_provider (pg_provider g)) cs /\ Forall (spans leafCount g) (pg_chunks g) /\
  tight leafCount g.
Definition groups_ok (leafCount : Z) (cs : list PlannedChunk) (gs : list ProviderGroup) : Prop :=
  NoDup (map pg_provider gs) /\ Forall (group_ok leafCount cs) gs /\
  Forall (fun c => pc_provider c ∈ map pg_provider gs) cs.

Lemma spans_widen leafCount g g' c :
  spans leafCount g c -> pg_globalStart g' <= pg_globalStart g -> pg_globalEnd g <= pg_globalEnd g' -> spans leafCount g' c.
Proof. intros (b & Hb & Hs & He) Hs' He'; exists b; repeat split; [done|lia..]. Qed.

Lemma filter_none {A} (f : A -> bool) l : Forall (fun x => f x = false) l -> List.filter f l = [].
Proof. induction 1 as [|x l Hx _ IH]; cbn [List.filter]; [done|]. by rewrite Hx. Qed.

Lemma group_ok_other leafCount cs c g :
  pg_provider g <> pc_provider c -> group_ok leafCount cs g -> group_ok leafCount (cs ++ [c]) g.
Proof.
  intros Hne (Hf & Hs & Ht); split; [|by split].
  rewrite List.filter_app; cbn [List.filter]. replace (of_provider (pg_provider g) c) with false; [by rewrite app_nil_r|].
  unfold of_provider; symmetry; by apply eqb_false.
Qed.

Lemma others_ok leafCount cs c gs :
  pc_provider c ∉ map pg_provider gs -> Forall (group_ok leafCount cs) gs -> Forall (group_ok leafCount (cs ++ [c])) gs.
Proof.
  intros Hn; induction 1 as [|g gs Hg _ IH]; [constructor|]; cbn [map] in Hn; apply not_elem_of_cons in Hn as [Hne Hn].
  constructor; [by apply group_ok_other|auto].
Qed.

Lemma add_to_groups_providers c s e gs :
  map pg_provider (add_to_groups c s e gs) =
  if bool_decide (pc_provider c ∈ map pg_provider gs) then map pg_provider gs else map pg_provider gs ++ [pc_provider c].
Proof.
  induction gs as [|g gs IH]; cbn [add_to_groups map]; [done|].
  destruct (eqb_spec (pg_provider g) (pc_provider c)) as [Hp|Hp]; cbn [map pg_provider].
  - by rewrite bool_decide_true by (rewrite Hp; left).
  - rewrite IH; assert (pc_provider c ∈ map pg_provider gs <-> pc_provider c ∈ pg_provider g :: map pg_provider gs) as Hin
      by (rewrite elem_of_cons; split; [by right|by intros [?|?] ]).
    by destruct (decide (pc_provider c ∈ map pg_provider gs)) as [Hd|Hd]; [rewrite !bool_decide_true by tauto|rewrite !bool_decide_false by tauto].
Qed.

Lemma of_provider_self c : of_provider (pc_provider c) c = true.
Proof. unfold of_provider, eqb; by case_bool_decide. Qed.

Lemma spans_self leafCount c startBlob gs ge g :
  BigInt_of_dec (pc_startBlobIndex c) = Ok startBlob ->
  gs = blob_start leafCount c startBlob -> ge = gs + pc_blobCount c - 1 ->
  pg_globalStart g <= gs -> ge <= pg_globalEnd g -> spans leafCount g c.
Proof. intros Hb -> -> Hs He; exists startBlob; repeat split; [done|lia..]. Qed.

Lemma tight_snoc leafCount g c startBlob gs ge g' :
  BigInt_of_dec (pc_startBlobIndex c) = Ok startBlob ->
  gs = blob_start leafCount c startBlob -> ge = gs + pc_blobCount c - 1 ->
  tight leafCount g -> pg_chunks g' = pg_chunks g ++ [c] ->
  (pg_globalStart g' = gs \/ pg_globalStart g' = pg_globalStart g) ->
  (pg_globalEnd g' = ge \/ pg_globalEnd g' = pg_globalEnd g) -> tight leafCount g'.
Proof.
  intros Hb Hgs Hge [(c1 & b1 & Hin1 & Hb1 & Hs1) (c2 & b2 & Hin2 & Hb2 & He2)] Hc Hs He; unfold tight; rewrite Hc.
  split; [destruct Hs; [exists c, startBlob|exists c1, b1]|destruct He; [exists c, startBlob|exists c2, b2] ];
    (split; [rewrite elem_of_app, list_elem_of_singleton; auto|split; [done|congruence] ]).
Qed.

Lemma add_to_groups_forall leafCount cs c startBlob gs gstart gend :
  BigInt_of_dec (pc_startBlobIndex c) = Ok startBlob ->
  gstart = blob_start leafCount c startBlob -> gend = gstart + pc_blobCount c - 1 ->
  NoDup (map pg_provider gs) -> Forall (group_ok leafCount cs) gs ->
  (pc_provider c ∉ map pg_provider gs -> List.filter (of_provider (pc_provider c)) cs = []) ->
  Forall (group_ok leafCount (cs ++ [c])) (add_to_groups c gstart gend gs).
Proof.
  intros Hb Hs He Hnd Hok; induction Hok as [|g gs (Hf & Hsp & Ht) Hok IH]; intros Hnew; cbn [add_to_groups map] in *.
  - apply Forall_cons_2; [|constructor]; split; [|split]; cbn [pg_provider pg_chunks].
    + rewrite List.filter_app, Hnew by apply not_elem_of_nil; cbn [List.filter]. by rewrite of_provider_self.
    + apply Forall_cons_2; [|constructor]. by eapply spans_self; [exact Hb|exact Hs|exact He|..].
    + subst; split; exists c, startBlob; cbn [pg_chunks pg_globalStart pg_globalEnd]; rewrite list_elem_of_singleton; auto.
  - apply NoDup_cons in Hnd as [Hg Hnd]. destruct (eqb_spec (pg_provider g) (pc_provider c)) as [Hp|Hp].
    + apply Forall_cons_2; [|apply others_ok; [by rewrite <- Hp|done] ].
      split; [|split]; cbn [pg_provider pg_chunks].
      * rewrite List.filter_app, Hf; cbn [List.filter]. by rewrite Hp, of_provider_self.
      * apply Forall_app; split.
        -- eapply Forall_impl; [exact Hsp|]; intros x Hx; apply (spans_widen leafCount g); [done|cbn; case_on_goal; lia..].
        -- apply Forall_cons_2; [|constructor]. eapply spans_self; [exact Hb|exact Hs|exact He|cbn; case_on_goal; lia..].
      * eapply tight_snoc; [exact Hb|exact Hs|exact He|exact Ht|done|cbn; case_on_goal; auto..].
    + apply Forall_cons_2; [apply group_ok_other; [done|by split; [|split] ]|].
      apply IH; [done|]; intros Hin; apply Hnew, not_elem_of_cons; split; [congruence|done].
Qed.

Lemma add_to_groups_ok leafCount cs c startBlob gs gstart gend :
  BigInt_of_dec (pc_startBlobIndex c) = Ok startBlob ->
  gstart = blob_start leafCount c startBlob -> gend = gstart + pc_blobCount c - 1 ->
  groups_ok leafCount cs gs -> groups_ok leafCount (cs ++ [c]) (add_to_groups c gstart gend gs).
Proof.
  intros Hb Hs He (Hnd & Hok & Hcov); unfold groups_ok; rewrite add_to_groups_providers.
  repeat split.
  - case_bool_decide as Hin; [done|]. apply NoDup_app; repeat split; [done| |apply NoDup_singleton].
    intros p Hp ->%list_elem_of_singleton; done.
  - eapply add_to_groups_forall; [done..|]. intros Hin; apply filter_none.
    eapply Forall_impl; [exact Hcov|]; intros x Hx; unfold of_provider; apply eqb_false; congruence.
  - apply Forall_app; split; [|constructor; [|constructor] ]; case_bool_decide as Hin; try done.
    + eapply Forall_impl; [exact Hcov|]; intros x Hx; apply elem_of_app; by left.
    + apply elem_of_app; right; by apply list_elem_of_singleton.
Qed.

Lemma group_loop_ok leafCount rest : forall cs groups gs,
  groups_ok leafCount cs groups -> group_loop leafCount rest groups = Ok gs -> groups_ok leafCount (cs ++ rest) gs.
Proof.
  induction rest as [|c rest IH]; intros cs groups gs Hok; cbn [group_loop].
  - intros [= <-]; by rewrite app_nil_r.
  - destruct (BigInt_of_dec (pc_startBlobIndex c)) as [b|e] eqn:Hb; obind; [|done]. intros Hg.
    apply (IH (cs ++ [c])) in Hg; [by rewrite <- app_assoc in Hg|]. by eapply add_to_groups_ok.
Qed.

Lemma group_chunks_ok leafCount cs gs : group_chunks leafCount cs = Ok gs -> groups_ok leafCount cs gs.
Proof. intros Hg; apply (group_loop_ok leafCount cs [] [] gs); [|done]. repeat split; constructor. Qed.

(** The groups hold exactly the planned chunks. *)
Lemma groups_filter_perm (cs : list PlannedChunk) (ps : list string) :
  NoDup ps -> Forall (fun c => pc_provider c ∈ ps) cs ->
  concat (map (fun p => List.filter (of_provider p) cs) ps) ≡ₚ cs.
Proof.
  intros Hnd; induction 1 as [|c cs Hc _ IH].
  - induction ps as [|p ps IHp]; cbn; [done|]. apply NoDup_cons in Hnd as [_ Hnd]; by apply IHp.
  - etrans; [|apply perm_skip, IH]; clear IH. induction Hnd as [|p ps Hp Hnd IHp]; [by inversion Hc|]; cbn [map concat List.filter].
    apply elem_of_cons in Hc as [Hc|Hc].
    + subst p; rewrite of_provider_self; cbn [app]; f_equiv; f_equiv.
      clear -Hp; induction ps as [|p ps IHp]; cbn [map concat List.filter]; [done|].
      apply not_elem_of_cons in Hp as [Hne Hp].
      replace (of_provider p c) with false by (unfold of_provider; symmetry; by apply eqb_false).
      by rewrite IHp.
    + replace (of_provider p c) with false
        by (unfold of_provider; symmetry; apply eqb_false; intros <-; done).
      rewrite IHp by done. symmetry; apply Permutation_middle.
Qed.

Lemma groups_ok_chunks leafCount cs gs :
  groups_ok leafCount cs gs ->
  concat (map pg_chunks gs) = concat (map (fun p => List.filter (of_provider p) cs) (map pg_provider gs)).
Proof.
  intros (_ & Hok & _); induction Hok as [|g gs (Hf & _) _ IH]; cbn [map concat]; [done|]. by rewrite Hf, IH.
Qed.

Lemma groups_ok_perm leafCount cs gs : groups_ok leafCount cs gs -> concat (map pg_chunks gs) ≡ₚ cs.
Proof.
  intros Hg; rewrite (groups_ok_chunks _ _ _ Hg). destruct Hg as (Hnd & _ & Hcov). by apply groups_filter_perm.
Qed.

Lemma BigInt_nonneg d b : BigInt_of_dec d = Ok b -> dec_ltb d 0 = false -> 0 <= b.
Proof.
  assert (forall z, 0 <= z -> 0 <= round53 z) as Hr.
  { intros z Hz; unfold round53; destruct (Z.leb_spec (Z.log2 (Z.abs z) - 52) 0); [done|].
    apply Z.mul_nonneg_nonneg; [lia|].
    apply Z.mul_nonneg_nonneg; [|apply Z.pow_nonneg; lia]. unfold round_half_even.
    assert (0 <= Z.abs z / 2 ^ (Z.log2 (Z.abs z) - 52)) by (apply Z.div_pos; lia).
    repeat case_on_goal; lia. }
  destruct d as [| |m e]; cbn [BigInt_of_dec dec_ltb]; [done..|].
  destruct (Z.leb_spec 0 e) as [He|He]; intros Hb Hd; zbool.
  - injection Hb as <-; by apply Hr.
  - destruct (m mod 10 ^ (- e) =? 0); [|done]; injection Hb as <-. apply Hr, Z.div_pos; [lia|].
    apply Z.pow_pos_nonneg; lia.
Qed.

Lemma leaf_count_pos job : 0 < leaf_count job.
Proof. unfold leaf_count; lia. Qed.

(** The session of one group. *)
Lemma open_request_covers job base cs i g :
  Forall (fun c => 0 < pc_startMduIndex c /\ dec_ltb (pc_startBlobIndex c) 0 = false /\ 0 < pc_blobCount c) cs ->
  group_ok (leaf_count job) cs g ->
  let req := open_request job base i g in
  rs_provider req = pg_provider g /\
  1 <= rs_startMduIndex req /\ 0 <= rs_startBlobIndex req < leaf_count job /\ 0 < rs_blobCount req /\
  let first := rs_startMduIndex req * leaf_count job + rs_startBlobIndex req in
  (forall c, c ∈ pg_chunks g -> exists b, BigInt_of_dec (pc_startBlobIndex c) = Ok b /\
     first <= blob_start (leaf_count job) c b /\
     blob_start (leaf_count job) c b + pc_blobCount c <= first + rs_blobCount req) /\
  (exists c b, c ∈ pg_chunks g /\ BigInt_of_dec (pc_startBlobIndex c) = Ok b /\ first = blob_start (leaf_count job) c b) /\
  (exists c b, c ∈ pg_chunks g /\ BigInt_of_dec (pc_startBlobIndex c) = Ok b /\
     first + rs_blobCount req = blob_start (leaf_count job) c b + pc_blobCount c).
Proof.
  intros Hpos (Hf & Hsp & (c1 & b1 & Hin1 & Hb1 & Hst) & (c2 & b2 & Hin2 & Hb2 & Hen)); cbn zeta.
  pose proof (leaf_count_pos job) as Hl.
  assert (forall c, c ∈ pg_chunks g -> 0 < pc_startMduIndex c /\ dec_ltb (pc_startBlobIndex c) 0 = false /\ 0 < pc_blobCount c) as Hp.
  { intros c Hc; rewrite Hf in Hc; apply list_elem_of_In, filter_In in Hc as [Hc _].
    rewrite Forall_forall in Hpos; apply Hpos; by apply list_elem_of_In. }
  destruct (Hp c1 Hin1) as (Hm1 & Hn1 & Hc1); pose proof (BigInt_nonneg _ _ Hb1 Hn1) as Hb0.
  rewrite Forall_forall in Hsp; destruct (Hsp c1 Hin1) as (b1' & Hb1' & Hlo & Hhi).
  assert (b1' = b1) as -> by congruence.
  unfold open_request; cbn [rs_provider rs_startMduIndex rs_startBlobIndex rs_blobCount].
  assert (leaf_count job <= pg_globalStart g) as Hge by (rewrite Hst; unfold blob_start; nia).
  pose proof (Z.quot_rem (pg_globalStart g) (leaf_count job) ltac:(lia)) as Hqr.
  replace (Z.quot (pg_globalStart g) (leaf_count job) * leaf_count job + Z.rem (pg_globalStart g) (leaf_count job))
    with (pg_globalStart g) by lia.
  split; [done|]; split; [|split; [exact (Z.rem_bound_pos (pg_globalStart g) (leaf_count job) ltac:(lia) Hl)|split; [lia|split] ] ].
  - pose proof (Z.rem_bound_pos (pg_globalStart g) (leaf_count job) ltac:(lia) Hl); nia.
  - intros c Hc; destruct (Hsp c Hc) as (b & Hb & Hs & He); exists b; split; [done|lia].
  - split; [by exists c1, b1|]. exists c2, b2; repeat split; [done..|lia].
Qed.

(** C6: sessions cover what they serve.  Grouping the planned chunks gives one
    group per provider; each group has exactly that provider's chunks in file order,
    together the groups have every chunk once, and the session opened for a group
    starts at a valid blob of a user MDU, is a whole number of blobs, and runs from the
    first blob of the provider's first chunk to the last blob of its last: all its
    chunks are in it, and it is the smallest such run.  (Blobs of other providers that
    lie between are in it too, as they are in the code.) *)
Theorem provider_groups_cover job base cs gs :
  group_chunks (leaf_count job) cs = Ok gs ->
  Forall (fun c => 0 < pc_startMduIndex c /\ dec_ltb (pc_startBlobIndex c) 0 = false /\ 0 < pc_blobCount c) cs ->
  NoDup (map pg_provider gs) /\ concat (map pg_chunks gs) ≡ₚ cs /\
  Forall (fun g => pg_chunks g = List.filter (of_provider (pg_provider g)) cs) gs /\
  forall i g, gs !! i = Some g -> exists req, open_requests job base gs !! i = Some req /\
    rs_provider req = pg_provider g /\
    1 <= rs_startMduIndex req /\ 0 <= rs_startBlobIndex req < leaf_count job /\ 0 < rs_blobCount req /\
    let first := rs_startMduIndex req * leaf_count job + rs_startBlobIndex req in
    (forall c, c ∈ pg_chunks g -> exists b, BigInt_of_dec (pc_startBlobIndex c) = Ok b /\
       first <= blob_start (leaf_count job) c b /\
       blob_start (leaf_count job) c b + pc_blobCount c <= first + rs_blobCount req) /\
    (exists c b, c ∈ pg_chunks g /\ BigInt_of_dec (pc_startBlobIndex c) = Ok b /\ first = blob_start (leaf_count job) c b) /\
    (exists c b, c ∈ pg_chunks g /\ BigInt_of_dec (pc_startBlobIndex c) = Ok b /\
       first + rs_blobCount req = blob_start (leaf_count job) c b + pc_blobCount c).
Proof.
  intros Hg Hpos; pose proof (group_chunks_ok _ _ _ Hg) as Hok; pose proof (groups_ok_perm _ _ _ Hok) as Hperm.
  destruct Hok as (Hnd & Hall & _); split; [done|]; split; [done|]; split.
  { eapply Forall_impl; [exact Hall|]; by intros g (Hf & _). }
  intros i g Hi; pose proof (Forall_lookup_1 _ _ _ _ Hall Hi) as Hgok.
  exists (open_request job base i g); unfold open_requests; rewrite list_lookup_imap, Hi; split; [done|].
  by apply open_request_covers with (cs := cs).
Qed.

Lemma one_provider_in_order leafCount cs gs :
  group_chunks leafCount cs = Ok gs ->
  (forall p q, p ∈ cs -> q ∈ cs -> pc_provider p = pc_provider q) -> concat (map pg_chunks gs) = cs.
Proof.
  intros Hg Hone; apply group_chunks_ok in Hg as Hok; pose proof (groups_ok_perm _ _ _ Hok) as Hperm.
  destruct Hok as (Hnd & Hall & _). destruct gs as [|g gs]; [by apply Permutation_nil_l in Hperm|].
  apply Forall_cons in Hall as [(Hf & _ & ((c & b & Hin & _) & _)) Hall].
  assert (forall x, x ∈ pg_chunks g -> x ∈ cs) as Hsub
    by (intros x Hx; rewrite Hf in Hx; apply list_elem_of_In, filter_In in Hx as [Hx _]; by apply list_elem_of_In).
  assert (Hp : pc_provider c = pg_provider g).
  { rewrite Hf in Hin; apply list_elem_of_In, filter_In in Hin as [_ Hin]; unfold of_provider in Hin.
    by destruct (eqb_spec (pc_provider c) (pg_provider g)). }
  assert (pg_chunks g = cs) as Hcs.
  { rewrite Hf; apply forallb_filter_id, forallb_forall; intros x Hx; unfold of_provider.
    destruct (eqb_spec (pc_provider x) (pg_provider g)) as [|Hne]; [done|]; destruct Hne; rewrite <- Hp.
    apply Hone; [by apply list_elem_of_In|by apply Hsub]. }
  assert (gs = []) as ->; [|cbn; by rewrite app_nil_r].
  destruct gs as [|g' gs]; [done|]; exfalso. apply Forall_cons in Hall as [(Hf' & _ & ((c' & b' & Hin' & _) & _)) _].
  rewrite Hf' in Hin'; apply list_elem_of_In, filter_In in Hin' as [Hin' Hp']; unfold of_provider in Hp'.
  destruct (eqb_spec (pc_provider c') (pg_provider g')) as [Hp''|]; [|done].
  cbn [map] in Hnd; apply NoDup_cons in Hnd as [Hnd _]; apply Hnd, elem_of_cons; left.
  rewrite <- Hp, <- Hp''. apply Hone; [by apply Hsub|by apply list_elem_of_In].
Qed.

(** ** The authorisation retry *)

Section AuthRetry.
Context {W : Type} `{Clock W, Timers W, Http W, Libp2p W, TraceStore W, StatusCache W, FetchUi W, Wallet W, Viem}.
Context (JSON_parse : units -> outcome json).
Context (cfg : Config) (preference : RoutePreference).

(** The messages a routed range fetch can fail with. *)
Definition fetch_messages : list string :=
  ["rangeLen must be > 0"; "No available transport candidates for fetch";
   terminal_message OpFetch; all_failed_message OpFetch].

Lemma fetchRange_messages req w err w' :
  fetchRange JSON_parse cfg preference req w = (Thrown err, w') -> is_Error err = true /\ err_message err ∈ fetch_messages.
Proof.
  unfold fetchRange; destruct (_ || _).
  { intros [= <- _]; split; [done|left]. }
  destruct (decide (fetch_candidates JSON_parse cfg req = [])) as [He|Hne].
  { rewrite He, routed_empty; intros [= <- _]; split; [done|]; right; left. }
  intros Hr; apply routed_spec in Hr as (w1 & E & _); [|done].
  apply executeWithFallback_simulates in E as (l & e & _ & s & f & Hr).
  destruct e; [done| |]; injection Hr as ->; (split; [done|]); cbn [err_message]; unfold fetch_messages; set_solver.
Qed.

Lemma no_auth_request err :
  (forall m, m ∈ fetch_messages -> is_ok (JSON_parse (units_of m)) = false) ->
  is_Error err = true -> err_message err ∈ fetch_messages -> shouldSignMetaAuth JSON_parse err = false.
Proof.
  intros Hparse He Hm; unfold shouldSignMetaAuth; rewrite He; cbn [andb].
  specialize (Hparse _ Hm); unfold decodeHttpError.
  assert (or_else (trim (err_message err)) (err_message err) = err_message err /\
          truthy (err_message err) = true /\
          test_i "req_sig is required" (err_message err) = false /\ test_i "range must be signed" (err_message err) = false)
    as (-> & -> & Hq1 & Hq2).
  { unfold fetch_messages in Hm; repeat (apply elem_of_cons in Hm as [-> | Hm]; [vm_compute; by repeat split|]); inversion Hm. }
  cbn [negb]; destruct (JSON_parse _); [done|]. by rewrite Hq1, Hq2.
Qed.

(** The signing fallback is unreachable.  Whatever the providers answer, a
    chunk's fetch never asks the wallet to sign the range request: the router
    replaces every transport error by its own, whose message never says that a
    signature is required.  So a provider that insists on a signed range
    ("req_sig is required") can never be satisfied. *)
Theorem meta_auth_never_requested job account mk auth w :
  (forall m, m ∈ fetch_messages -> is_ok (JSON_parse (units_of m)) = false) ->
  fetch_chunk JSON_parse cfg preference job account mk auth w =
  (res ← fetchRange JSON_parse cfg preference (mk auth); mret (res, auth)) w.
Proof.
  intros Hparse; unfold fetch_chunk, try_catch; rewrite !bind_run.
  destruct (fetchRange _ _ _ (mk auth) w) as [[res|err] w'] eqn:E; [done|].
  apply fetchRange_messages in E as [He Hm]. by rewrite no_auth_request, andb_false_r.
Qed.
End AuthRetry.

(** ** Loops *)

Section Loops.
Context {W : Type}.

Lemma map_m_Forall2 {A B} (f : A -> M W B) : forall l ys w w',
  map_m f l w = (Ok ys, w') -> Forall2 (fun x y => exists w1 w2, f x w1 = (Ok y, w2)) l ys.
Proof.
  induction l as [|x l IH]; intros ys w w' Hm; cbn [map_m] in Hm; [injection Hm as <- _; constructor|].
  apply bind_ok in Hm as (y & w1 & Hy & Hm); apply bind_ok in Hm as (ys' & w2 & Hm & Heq); injection Heq as <- _.
  constructor; eauto.
Qed.

(** A fold whose steps append to a list: what was appended, step by step. *)
Lemma fold_m_collect {A S B} (f : S -> A -> M W S) (get : S -> list B) (P : A -> list B -> Prop) (l : list A) :
  Forall (fun x => forall s w s' w', f s x w = (Ok s', w') -> exists bs, get s' = get s ++ bs /\ P x bs) l ->
  forall s w s' w', fold_m f s l w = (Ok s', w') -> exists bss, get s' = get s ++ concat bss /\ Forall2 P l bss.
Proof.
  induction 1 as [|x l Hx _ IH]; intros s w s' w' Hf; cbn [fold_m] in Hf.
  - injection Hf as <- _; exists []; rewrite app_nil_r; by split.
  - apply bind_ok in Hf as (s1 & w1 & H1 & Hf).
    apply Hx in H1 as (bs & Hg & Hp); apply IH in Hf as (bss & Hgs & Hps).
    exists (bs :: bss); cbn [concat]; rewrite Hgs, Hg, app_assoc; by split; [|constructor].
Qed.

Lemma Forall2_concat {A B C} (R : A -> B -> Prop) (f : C -> list A) : forall l (bss : list (list B)),
  Forall2 (fun x bs => Forall2 R (f x) bs) l bss -> Forall2 R (concat (map f l)) (concat bss).
Proof. induction 1; cbn [map concat]; [constructor|by apply Forall2_app]. Qed.

Lemma Forall2_singletons {A B} (R : A -> B -> Prop) : forall l (bss : list (list B)),
  Forall2 (fun x bs => exists b, bs = [b] /\ R x b) l bss -> Forall2 R l (concat bss).
Proof. induction 1 as [|x bs l bss (b & -> & Hb) _ IH]; cbn; constructor; auto. Qed.
End Loops.

(** ** What [fetchFile] returns *)

Section Download.
Context {W : Type} `{Clock W, Timers W, Http W, Libp2p W, TraceStore W, StatusCache W, FetchUi W, Wallet W, Viem}.
Context (JSON_parse : units -> outcome json).
Context (cfg : Config) (preference : RoutePreference) (address : option string).

(** The bytes of a chunk, as the provider paid for it returned them. *)
Definition served (job : FetchJob) (sessions : gmap string string) (c : PlannedChunk) (part : bytes) : Prop :=
  exists req out w w', fetchRange JSON_parse cfg preference req w = (Ok out, w') /\
    q_manifestRoot (fq_route req) = jb_manifestRoot job /\ q_dealId (fq_route req) = jb_dealId job /\
    fq_filePath req = jb_filePath job /\ fq_rangeStart req = pc_rangeStart c /\ fq_rangeLen req = Num (pc_rangeLen c) /\
    sessions !! pc_provider c = Some (fq_sessionId req) /\ fq_expectedProvider req = Some (pc_provider c) /\
    to_data out = (part, pc_provider c).

Lemma fetch_chunk_source job account mk auth w res w' :
  fetch_chunk JSON_parse cfg preference job account mk auth w = (Ok res, w') ->
  exists a w1 w2, fetchRange JSON_parse cfg preference (mk a) w1 = (Ok res.1, w2).
Proof.
  unfold fetch_chunk, try_catch; rewrite bind_run.
  destruct (fetchRange _ _ _ (mk auth) w) as [[out|err] w1] eqn:E.
  - intros [= <- _]; by exists auth, w, w1.
  - destruct (_ && _); [|done]; intros Hr.
    apply bind_ok in Hr as (? & w2 & _ & Hr); apply bind_ok in Hr as (a & w3 & _ & Hr).
    apply bind_ok in Hr as (out & w4 & Hr & Heq); injection Heq as <- _; by exists (Some a), w3, w4.
Qed.

Lemma fetch_one_served job account r group sessionId target base sessions c :
  of_provider (pg_provider group) c = true -> truthy (pg_provider group) = true ->
  sessions !! pg_provider group = Some sessionId ->
  forall s w s' w', fetch_one JSON_parse cfg preference job account r group sessionId target base s c w = (Ok s', w') ->
  exists parts, ft_parts s' = ft_parts s ++ parts /\ exists part, parts = [part] /\ served job sessions c part.
Proof.
  intros Hc Ht Hs s w s' w' Hf; unfold fetch_one in Hf.
  apply bind_ok in Hf as (res & w1 & Hf & Hr); apply bind_ok in Hr as (? & w2 & _ & Hr); injection Hr as <- _.
  cbn [ft_parts]; eexists; split; [done|]; eexists; split; [done|].
  apply fetch_chunk_source in Hf as (a & w3 & w4 & Hf).
  unfold of_provider in Hc; destruct (eqb_spec (pc_provider c) (pg_provider group)) as [Hp|]; [|done].
  exists (fetch_request job r group sessionId target base c a), res.1, w3, w4; rewrite Hp.
  repeat split; try done.
  apply fetchRange_source in Hf as (_ & [_ He] & _); cbn [fq_expectedProvider fetch_request opt_str] in He.
  specialize (He Ht); injection He as ->. by destruct (to_data res.1).
Qed.

Lemma fetch_group_served job account r sessions group :
  Forall (fun c => of_provider (pg_provider group) c = true) (pg_chunks group) -> truthy (pg_provider group) = true ->
  forall s w s' w', fetch_group JSON_parse cfg preference job account r sessions s group w = (Ok s', w') ->
  exists parts, ft_parts s'.2 = ft_parts s.2 ++ parts /\ Forall2 (served job sessions) (pg_chunks group) parts.
Proof.
  intros Hall Ht s w s' w' Hf; unfold fetch_group in Hf.
  apply bind_ok in Hf as (id & w1 & Hs & Hf); apply bind_ok in Hf as (e & w2 & _ & Hf).
  apply bind_ok in Hf as (p & w3 & _ & Hf); apply bind_ok in Hf as (s1 & w4 & Hf & Heq); injection Heq as <- _.
  assert (sessions !! pg_provider group = Some id) as Hid.
  { unfold lift, session_of in Hs; destruct (sessions !! pg_provider group) as [x|]; [|done].
    destruct (truthy x); [by injection Hs as -> _|done]. }
  cbn [snd]; eapply (fold_m_collect _ ft_parts (fun c bs => exists b, bs = [b] /\ served job sessions c b)) in Hf
    as (bss & Hg & Hp).
  - exists (concat bss); split; [done|by apply Forall2_singletons].
  - eapply Forall_impl; [exact Hall|]; intros c Hc; eapply fetch_one_served; eauto.
Qed.

Lemma fetch_groups_served job account r sessions cs gs w res w' :
  group_chunks (leaf_count job) cs = Ok gs -> Forall (fun c => truthy (pc_provider c) = true) cs ->
  fetch_groups JSON_parse cfg preference job account r sessions gs w = (Ok res, w') ->
  Forall2 (served job sessions) (concat (map pg_chunks gs)) (ft_parts res).
Proof.
  intros Hg Ht Hf; unfold fetch_groups in Hf; apply bind_ok in Hf as (s & w1 & Hf & Heq); injection Heq as <- _.
  apply group_chunks_ok in Hg as (_ & Hok & _).
  eapply (fold_m_collect _ (fun s => ft_parts s.2) (fun g bs => Forall2 (served job sessions) (pg_chunks g) bs)) in Hf
    as (bss & -> & Hp).
  - cbn [snd ft_parts app]; by apply Forall2_concat.
  - eapply Forall_impl; [exact Hok|]; intros g (Hfil & _ & ((c & b & Hin & _) & _)).
    assert (Forall (fun c => of_provider (pg_provider g) c = true) (pg_chunks g)) as Hall
      by (apply Forall_forall; intros x Hx; rewrite Hfil in Hx; apply list_elem_of_In, filter_In in Hx; tauto).
    apply fetch_group_served; [done|].
    pose proof (proj1 (Forall_forall _ _) Hall c Hin) as Hp; unfold of_provider in Hp.
    destruct (eqb_spec (pc_provider c) (pg_provider g)) as [<-|]; [|done].
    rewrite Forall_forall in Ht; apply Ht; rewrite Hfil in Hin; apply list_elem_of_In, filter_In in Hin as [Hin _].
    by apply list_elem_of_In.
Qed.

(** ** The paid sessions *)

(** A transaction to the precompile that the wallet sent and the chain did not revert. *)
Definition sent_to_chain (account data : string) (gas : Z) (w w' : W) : Prop :=
  exists txHash w1 receipt,
    eth_sendTransaction account (cf_nilstorePrecompile cfg) data (numberToHex gas) w = (Ok txHash, w1) /\
    waitForTransactionReceipt (cf_evmRpc cfg) txHash w1 = (Ok receipt, w') /\ confirmed receipt.

(** The identifier the precompile computed for a provider: the last one it names it with. *)
Definition computed_id (providers ids : list string) (p : string) (id : string) : Prop :=
  truthy p = true /\ truthy id = true /\
  exists i q, providers !! i = Some q /\ trim q = p /\ ids !! i = Some id /\
    forall j q' id', (i < j)%nat -> providers !! j = Some q' -> ids !! j = Some id' -> trim q' = p -> truthy id' = false.

Lemma sessions_fold_computed (ids : list string) : forall (ps : list string) (k : nat) (m : gmap string string) (p id : string),
  foldl (fun m '(i, q) => let provider := trim q in let sessionId := default "" (ids !! i) in
           if truthy provider && truthy sessionId then <[provider := sessionId]> m else m) m
    (imap (fun i q => ((k + i)%nat, q)) ps) !! p = Some id ->
  (truthy p = true /\ truthy id = true /\
   exists i q, ps !! i = Some q /\ trim q = p /\ ids !! (k + i)%nat = Some id /\
     forall j q' id', (i < j)%nat -> ps !! j = Some q' -> ids !! (k + j)%nat = Some id' -> trim q' = p -> truthy id' = false) \/
  (m !! p = Some id /\ forall j q' id', ps !! j = Some q' -> ids !! (k + j)%nat = Some id' -> trim q' = p -> truthy p = true -> truthy id' = false).
Proof.
  intros ps; induction ps as [|q ps IH]; intros k m p id; [by right|].
  cbn [imap foldl]; rewrite Nat.add_0_r; cbv zeta; intros Hf.
  assert (imap ((fun i q => ((k + i)%nat, q)) ∘ S) ps = imap (fun i q => ((S k + i)%nat, q)) ps) as Hk
    by (apply imap_ext; intros i x _; cbn; f_equal; lia).
  rewrite Hk in Hf; clear Hk; apply IH in Hf as [(Hp & Hi & i & q0 & K1 & K2 & K3 & Hl)|[Hm Hl] ].
  - left; repeat (split; [done|]); exists (S i), q0; repeat (split; [done|]).
    split; [by rewrite Nat.add_succ_r|]. intros [|j] q' id' Hj Hq Hid; [lia|]. rewrite Nat.add_succ_r in Hid.
    by apply (Hl j q' id'); [lia|..].
  - assert (truthy p = true -> forall j q' id', (0 < j)%nat -> (q :: ps) !! j = Some q' -> ids !! (k + j)%nat = Some id' ->
              trim q' = p -> truthy id' = false) as Hl'
      by (intros Ht [|j] q' id' Hj Hq Hid Hp; [lia|]; rewrite Nat.add_succ_r in Hid; eauto).
    destruct (ids !! k) as [x|] eqn:Ex; cbn [default] in Hm.
    2: { rewrite andb_false_r in Hm; right; split; [done|]; intros [|j] q' id' Hq Hid Hp Ht; [rewrite Nat.add_0_r in Hid; congruence|].
         by eapply Hl'; [done| |exact Hq|..]; [lia|..]. }
    unfold default, Datatypes.id in Hm; cbn [from_option] in Hm; unfold Datatypes.id in Hm.
    destruct (truthy (trim q)) eqn:Eq, (truthy x) eqn:Et; cbn [andb] in Hm.
    2-4: right; split; [done|]; intros [|j] q' id' Hq Hid Hp Ht;
      [rewrite Nat.add_0_r in Hid; injection Hq as <-; congruence|by eapply Hl'; [done| |exact Hq|..]; [lia|..] ].
    destruct (decide (trim q = p)) as [Hqp|Hqp].
    + rewrite Hqp, lookup_insert_eq in Hm; injection Hm as <-; left; rewrite <- Hqp; repeat (split; [done|]).
      exists 0%nat, q; rewrite Nat.add_0_r; repeat (split; [done|]); rewrite Hqp in *; intros j q' id' Hj Hq Hid Hp; by eapply Hl'.
    + rewrite lookup_insert_ne in Hm by done; right; split; [done|].
      intros [|j] q' id' Hq Hid Hp Ht; [injection Hq as <-; done|]. by eapply Hl'; [done| |exact Hq|..]; [lia|..].
Qed.

Lemma sessions_computed (providers ids : list string) (p id : string) :
  sessions_by_provider providers ids !! p = Some id -> computed_id providers ids p id.
Proof.
  unfold sessions_by_provider; intros Hs.
  assert (imap pair providers = imap (fun i q => ((0 + i)%nat, q)) providers) as Hi by (apply imap_ext; by intros).
  rewrite Hi in Hs; apply sessions_fold_computed in Hs as [Hs|[Hs _] ]; [exact Hs|by rewrite lookup_empty in Hs].
Qed.

Lemma check_sessions_ok sessions gs u : check_sessions sessions gs = Ok u -> Forall (fun g => is_Some (sessions !! pg_provider g)) gs.
Proof.
  induction gs as [|g gs IH]; cbn [check_sessions]; [constructor|].
  destruct (sessions !! pg_provider g) eqn:E; [|done]; constructor; [by rewrite E|auto].
Qed.

(** The sessions of the groups, computed by the precompile for exactly the requests
    that were then opened on the chain. *)
Definition sessions_paid (job : FetchJob) (account : string) (gs : list ProviderGroup) (sessions : gmap string string)
    (w w' : W) : Prop :=
  exists openBaseNonce w1 computeData computeResult w2 providers ids openTxData,
    now w = (Ok openBaseNonce, w1) /\
    encodeComputeRetrievalSessionIdsData (open_requests job openBaseNonce gs) = Ok computeData /\
    eth_call account (cf_nilstorePrecompile cfg) computeData w1 = (Ok computeResult, w2) /\
    decodeComputeRetrievalSessionIdsResult computeResult = Ok (providers, ids) /\
    Forall (fun g => exists id, sessions !! pg_provider g = Some id /\ computed_id providers ids (pg_provider g) id) gs /\
    encodeOpenRetrievalSessionsData (open_requests job openBaseNonce gs) = Ok openTxData /\
    sent_to_chain account openTxData 7000000 w2 w'.

Lemma open_sessions_paid job account gs w sessions w' :
  open_sessions cfg job account gs w = (Ok sessions, w') -> sessions_paid job account gs sessions w w'.
Proof.
  unfold open_sessions; intros Ho.
  apply bind_ok in Ho as (base & w1 & Hn & Ho); apply bind_ok in Ho as (cd & ? & Hc & Ho); apply lift_ok in Hc as [Hc ->].
  apply bind_ok in Ho as (cr & w2 & He & Ho); apply bind_ok in Ho as ([ps ids] & ? & Hd & Ho); apply lift_ok in Hd as [Hd ->].
  cbn [fst snd] in Ho; apply bind_ok in Ho as (u & ? & Hk & Ho); apply lift_ok in Hk as [Hk ->].
  apply bind_ok in Ho as (od & ? & Hod & Ho); apply lift_ok in Hod as [Hod ->].
  apply bind_ok in Ho as (tx & w3 & Ht & Ho); apply bind_ok in Ho as (rc & w4 & Hr & Ho); apply mret_ok in Ho as [<- <-].
  exists base, w1, cd, cr, w2, ps, ids, od; repeat (split; [done|]); split; [|split; [done|] ].
  - eapply Forall_impl; [exact (check_sessions_ok _ _ _ Hk)|]; intros g [id Hg]; exists id; split; [done|by apply sessions_computed].
  - exists tx, w3, rc; repeat (split; [done|]); by eapply receipt_confirmed.
Qed.

Lemma confirm_sessions_sent account sessions gs w u w' :
  confirm_sessions cfg account sessions gs w = (Ok u, w') ->
  exists data, encodeConfirmRetrievalSessionsData (map (fun g => default "" (sessions !! pg_provider g)) gs) = Ok data /\
    sent_to_chain account data 3000000 w w'.
Proof.
  unfold confirm_sessions; intros Ho; apply bind_ok in Ho as (d & ? & Hc & Ho); apply lift_ok in Hc as [Hc ->].
  apply bind_ok in Ho as (tx & w3 & Ht & Ho); apply bind_ok in Ho as (rc & w4 & Hr & Ho); apply mret_ok in Ho as [_ <-].
  exists d; split; [done|]; exists tx, w3, rc; repeat (split; [done|]); by eapply receipt_confirmed.
Qed.

(** The planned chunks, as [planned_chunk] accepts them. *)
Lemma planned_chunk_ok c res p :
  planned_chunk c res = Ok p ->
  truthy (pc_provider p) = true /\ pc_rangeStart p = rangeStart c /\ pc_rangeLen p = rangeLen c /\
  0 < pc_startMduIndex p /\ dec_ltb (pc_startBlobIndex p) 0 = false /\ 0 < pc_blobCount p.
Proof.
  unfold planned_chunk; destruct (truthy (field_string _)) eqn:Ht; cbn [negb]; [|done].
  destruct (BigInt_of_dec (number_or_0 (get_field _ "start_mdu_index"))) as [m|]; obind; [|done].
  destruct (BigInt_of_dec (number_or_0 (get_field _ "blob_count"))) as [n|]; obind; [|done].
  destruct (Z.leb_spec m 0); [done|]; destruct (_ || _) eqn:Hd; [done|].
  destruct (Z.leb_spec n 0); [done|]; intros [= <-]; apply orb_false_iff in Hd as [_ Hd]; by repeat split.
Qed.

Lemma plan_chunk_ok job r c w p w' :
  plan_chunk cfg preference job r c w = (Ok p, w') ->
  truthy (pc_provider p) = true /\ pc_rangeStart p = rangeStart c /\ pc_rangeLen p = rangeLen c /\
  0 < pc_startMduIndex p /\ dec_ltb (pc_startBlobIndex p) 0 = false /\ 0 < pc_blobCount p.
Proof.
  unfold plan_chunk; intros Hp; apply bind_ok in Hp as (res & w1 & _ & Hp). unfold lift in Hp.
  destruct (planned_chunk c res) eqn:E; [|done]; injection Hp as -> _. by eapply planned_chunk_ok.
Qed.

(** What [fetch_body] did when it returned: it planned the chunks, opened the sessions of
    their groups on the chain, then fetched the groups under them, then confirmed the
    sessions; what it hands out is what was fetched. *)
Definition downloaded (input : FetchInput) (res : FetchResult) : Prop :=
  exists account job r planned gs sessions fetched w0 w1 w2 w3 w4 confirmData,
    address = Some account /\ prepare input = Ok job /\
    Forall2 (fun c p => pc_rangeStart p = rangeStart c /\ pc_rangeLen p = rangeLen c) (jb_chunks job) planned /\
    group_chunks (leaf_count job) planned = Ok gs /\
    sessions_paid job account gs sessions w0 w1 /\
    fetch_groups JSON_parse cfg preference job account r sessions gs
      (set_ui (with_progress (fun p => mkProgress fetching (fp_filePath p) (fp_chunksFetched p) (zlen (jb_chunks job))
                 (fp_bytesFetched p) (jb_rangeLen job) 1 (fp_receiptsTotal p) (fp_message p)) (ui w1)) w1) = (Ok fetched, w2) /\
    Forall2 (served job sessions) (concat (map pg_chunks gs)) (ft_parts fetched) /\
    w3 = set_ui (with_progress (at_phase confirming_session_tx 1) (ui w2)) w2 /\
    encodeConfirmRetrievalSessionsData (map (fun g => default "" (sessions !! pg_provider g)) gs) = Ok confirmData /\
    sent_to_chain account confirmData 3000000 w3 w4 /\
    res_blob res = concat (ft_parts fetched).

Lemma fetch_body_ok input w res w' :
  fetch_body JSON_parse cfg preference address input w = (Ok res, w') ->
  downloaded input res /\
  fs_receiptStatus (ui w') = rs_submitted /\ fs_downloadUrl (ui w') = Some (res_url res) /\
  fp_phase (fs_progress (ui w')) = done_phase /\ fp_receiptsSubmitted (fs_progress (ui w')) = 2.
Proof.
  unfold fetch_body; destruct address as [account|] eqn:Ea; [|done]. destruct (truthy account); cbn [negb]; [|done]. intros Hf.
  apply bind_ok in Hf as (ok & w1 & _ & Hf); apply bind_ok in Hf as (? & w2 & _ & Hf).
  apply bind_ok in Hf as (job & ? & Hjob & Hf); apply lift_ok in Hjob as [Hjob ->]; apply bind_ok in Hf as (r & w4 & _ & Hf).
  apply bind_ok in Hf as (planned & w5 & Hplan & Hf); apply bind_ok in Hf as (gs & ? & Hgs & Hf); apply lift_ok in Hgs as [Hgs ->].
  apply bind_ok in Hf as (? & w7 & _ & Hf); apply bind_ok in Hf as (sessions & w8 & Hopen & Hf).
  apply bind_ok in Hf as (? & w9 & Hp1 & Hf); apply bind_ok in Hf as (fetched & w10 & Hfetch & Hf).
  apply bind_ok in Hf as (? & w11 & Hp2 & Hf); apply bind_ok in Hf as (? & w12 & Hconf & Hf).
  apply bind_ok in Hf as (? & w13 & _ & Hf); apply bind_ok in Hf as (? & w14 & _ & Hf).
  apply bind_ok in Hf as (url & w15 & _ & Hf); apply bind_ok in Hf as (? & w16 & Hui & Hf); injection Hf as <- <-.
  unfold update_ui, modify in Hui; injection Hui as _ <-; rewrite ui_set; cbn; split; [|done].
  injection Hp1 as _ <-; injection Hp2 as _ <-; apply confirm_sessions_sent in Hconf as (cd & Hcd & Hsent).
  apply map_m_Forall2 in Hplan.
  eexists account, job, r, planned, gs, sessions, fetched, w7, w8, w10, _, w12, cd.
  split; [done|]; split; [done|]; split; [|split; [done|split; [by apply open_sessions_paid|split; [exact Hfetch|] ] ] ].
  { eapply Forall2_impl; [exact Hplan|]; intros c p (wa & wb & Hp). apply plan_chunk_ok in Hp; tauto. }
  split; [|by repeat split].
  eapply fetch_groups_served; [exact Hgs| |exact Hfetch]. apply Forall_forall; intros p Hp.
  apply list_elem_of_lookup_1 in Hp as [i Hi]. eapply Forall2_lookup_r in Hplan as (c & _ & wa & wb & Hc); [|exact Hi].
  apply plan_chunk_ok in Hc; tauto.
Qed.

(** C2: a download hands out what was paid for.  When [fetchFile] returns a result, then
    in this order: one session per provider group was opened, each with the identifier
    the precompile computed for that provider from exactly the requests that the opening
    transaction carries, and the chain did not revert it; the groups were fetched from
    there on, each planned chunk of the wanted range under its provider's session and
    from that provider; the sessions were confirmed by a second transaction.  The bytes
    are the concatenation of what was fetched, group by group, every planned chunk once;
    if one provider serves every chunk they are in file order. *)
Theorem fetchFile_downloads input w res w' :
  fetchFile JSON_parse cfg preference address input w = (Ok (Some res), w') ->
  exists account job r planned gs sessions fetched w0 w1 w2 w3 w4 confirmData,
    address = Some account /\ prepare input = Ok job /\
    Forall2 (fun c p => pc_rangeStart p = rangeStart c /\ pc_rangeLen p = rangeLen c) (jb_chunks job) planned /\
    group_chunks (leaf_count job) planned = Ok gs /\
    sessions_paid job account gs sessions w0 w1 /\
    fetch_groups JSON_parse cfg preference job account r sessions gs
      (set_ui (with_progress (fun p => mkProgress fetching (fp_filePath p) (fp_chunksFetched p) (zlen (jb_chunks job))
                 (fp_bytesFetched p) (jb_rangeLen job) 1 (fp_receiptsTotal p) (fp_message p)) (ui w1)) w1) = (Ok fetched, w2) /\
    Forall2 (served job sessions) (concat (map pg_chunks gs)) (ft_parts fetched) /\
    w3 = set_ui (with_progress (at_phase confirming_session_tx 1) (ui w2)) w2 /\
    encodeConfirmRetrievalSessionsData (map (fun g => default "" (sessions !! pg_provider g)) gs) = Ok confirmData /\
    sent_to_chain account confirmData 3000000 w3 w4 /\
    res_blob res = concat (ft_parts fetched) /\
    concat (map pg_chunks gs) ≡ₚ planned /\
    ((forall p q, p ∈ planned -> q ∈ planned -> pc_provider p = pc_provider q) -> concat (map pg_chunks gs) = planned).
Proof.
  unfold fetchFile; intros Hf; apply bind_ok in Hf as (? & wa & _ & Hf). unfold finally, try_catch in Hf.
  rewrite bind_run in Hf.
  destruct (fetch_body _ _ _ _ input wa) as [[res'|e] wb] eqn:E; [|by unfold update_ui, modify in Hf].
  injection Hf as -> _. apply fetch_body_ok in E as
    ((account & job & r & planned & gs & sessions & fetched & w0 & w1 & w2 & w3 & w4 & cd & Ha & Hj & Hp & Hg & Hd) & _).
  pose proof (group_chunks_ok _ _ _ Hg) as Hok.
  exists account, job, r, planned, gs, sessions, fetched, w0, w1, w2, w3, w4, cd; repeat (split; [tauto|]).
  split; [by eapply groups_ok_perm|]. intros Hone; by eapply one_provider_in_order.
Qed.

(** [fetchFile] always settles, and the page knows how.  It never throws; in
    the end it is not loading, and either it returned a result whose URL is the one
    shown, with both receipts submitted, or it returned none and shows the error. *)
Theorem fetchFile_settles input w :
  exists r w', fetchFile JSON_parse cfg preference address input w = (Ok r, w') /\
    fs_loading (ui w') = false /\
    match r with
    | Some res => fs_receiptStatus (ui w') = rs_submitted /\ fs_downloadUrl (ui w') = Some (res_url res) /\
        fp_phase (fs_progress (ui w')) = done_phase /\ fp_receiptsSubmitted (fs_progress (ui w')) = 2
    | None => fs_receiptStatus (ui w') = rs_failed /\ is_Some (fs_receiptError (ui w')) /\
        fs_receiptError (ui w') = fp_message (fs_progress (ui w')) /\ fp_phase (fs_progress (ui w')) = error_phase
    end.
Proof.
  unfold fetchFile; rewrite bind_run; unfold update_ui at 1, modify, finally, try_catch; rewrite bind_run.
  destruct (fetch_body _ _ _ _ input _) as [[res|e] w2] eqn:E.
  - do 2 eexists; split; [reflexivity|]; cbn [snd]. rewrite ui_set; split; [done|].
    by apply fetch_body_ok in E as [_ Hui].
  - rewrite bind_run; unfold update_ui, modify; cbn. do 2 eexists; split; [reflexivity|].
    rewrite !ui_set; cbn; eauto.
Qed.
End Download.

(** ** Concrete runs *)

Record page := mkPage { pg_script : list (outcome Response); pg_clock : Z; pg_trace : option DecisionTrace; pg_ui : FetchState }.
#[local] Instance page_clock : Clock page := {|
  date_now p := (pg_clock p, mkPage (pg_script p) (pg_clock p + 1) (pg_trace p) (pg_ui p));
  sleep_ms ms p := mkPage (pg_script p) (pg_clock p + ms) (pg_trace p) (pg_ui p) |}.
#[local] Instance page_timers : Timers page := {| set_timeout _ p := (O, p); clear_timeout _ p := p |}.
#[local] Instance page_http : Http page := {|
  fetch _ _ := fun p => match pg_script p with
                        | r :: s => (r, mkPage s (pg_clock p) (pg_trace p) (pg_ui p))
                        | [] => (Thrown (JsError "TypeError" "Failed to fetch"), p)
                        end;
  timer_fired _ := false |}.
#[local] Instance page_libp2p : Libp2p page := {|
  create_node _ := js_error "no node"; node_promise _ _ := None; set_node_promise _ _ p := p;
  dialProtocol _ _ := js_error "no dial"; stream_send _ _ := mret tt; stream_close _ := mret tt;
  stream_chunks _ := mret []; first_message _ := mret None; signal_wins _ := false |}.
#[local] Program Instance page_trace_store : TraceStore page := {|
  set_last_trace t p := mkPage (pg_script p) (pg_clock p) (Some t) (pg_ui p); last_trace p := pg_trace p |}.
Next Obligation. done. Qed.
#[local] Instance page_cache : StatusCache page := {| cachedP2PAddrs _ := None; set_cachedP2PAddrs _ p := p |}.
#[local] Program Instance page_ui : FetchUi page := {|
  ui p := pg_ui p; set_ui s p := mkPage (pg_script p) (pg_clock p) (pg_trace p) s;
  createObjectURL _ p := ("blob:1", p); random_nonce p := (7, p) |}.
Next Obligation. done. Qed.
#[local] Instance page_wallet : Wallet page := {|
  has_ethereum _ := true; eth_call _ _ _ := mret "0xcall"; eth_sendTransaction _ _ _ _ := mret "0xhash";
  eth_signTypedData _ _ := mret "0xsig" |}.
#[local] Instance page_viem : Viem := {|
  encodeFunctionData _ _ _ := Ok "0xdata";
  decodeFunctionResult _ _ _ := Ok (VArr [VArr [VStr "nil1p"]; VArr [VHex "0x5e55"]]);
  decodeEventLog _ _ _ _ := Ok []; numberToHex _ := "0x0" |}.

Definition plan_json : json :=
  JObj [("provider", JStr "nil1p"); ("start_mdu_index", JNum (Num 1)); ("start_blob_index", JNum (Num 0)); ("blob_count", JNum (Num 1))].
Definition down : outcome Response := Thrown (JsError "TypeError" "Failed to fetch").
Definition ok_receipt : outcome Response := Ok (json_response (JObj [("result", receipt)])).
(** The chain's REST endpoint is down; the gateway plans and serves. *)
Definition page_script : list (outcome Response) :=
  [down; down; Ok (json_response plan_json); ok_receipt; down; down; Ok (range_response "nil1p"); ok_receipt;
   Ok (json_response (JObj []))].
Definition page_input : FetchInput :=
  mkInput "7" "0x01" "nil1owner" "a.txt" None (Some 0) (Some 3) None None None None.
Definition page_start : page := mkPage page_script 0 None (mkFState false None rs_idle None (initial_progress "")).

Definition no_json : units -> outcome json := fun _ => Thrown (JsError "SyntaxError" "Unexpected token").
Definition page_run := fetchFile no_json demo_cfg auto (Some "0xme") page_input page_start.
Definition page_end : page := Eval vm_compute in page_run.2.

Example page_run_bytes : page_run.1 = Ok (Some (mkResult "blob:1" [1; 2; 3])).
Proof. vm_compute. reflexivity. Qed.

Lemma fetchFile_downloads_witness :
  exists (job : FetchJob) gs sessions (fetched : Fetched) w0 w1,
    sessions_paid demo_cfg job "0xme" gs sessions w0 w1 /\ [1; 2; 3] = concat (ft_parts fetched).
Proof.
  destruct (fetchFile_downloads no_json demo_cfg auto (Some "0xme") page_input page_start (mkResult "blob:1" [1; 2; 3]) page_end)
    as (account & job & r & planned & gs & sessions & fetched & w0 & w1 & w2 & w3 & w4 & cd & Ha & _ & _ & _ & Hs & _ & _ & _ & _ & _ & Hb & _);
    [vm_compute; reflexivity|].
  injection Ha as <-; exists job, gs, sessions, fetched, w0, w1; by split.
Defined.

(** Two providers that serve alternate blobs, as a striped deal has them. *)
Definition striped_chunk (provider : string) (start : Z) (blob : Z) : PlannedChunk :=
  mkPlanned start 10 provider 1 (DNum blob 0) 1 gateway None.
Definition striped : list PlannedChunk := [striped_chunk "A" 0 0; striped_chunk "B" 10 1; striped_chunk "A" 20 2].
Definition demo_job : FetchJob := mkJob "7" "o" "f" "0x01" 131072 8388608 0 30 [].

Lemma provider_groups_cover_witness :
  exists gs, group_chunks (leaf_count demo_job) striped = Ok gs /\ concat (map pg_chunks gs) ≡ₚ striped.
Proof.
  assert (exists gs, group_chunks (leaf_count demo_job) striped = Ok gs) as [gs Hg]
    by (eexists; vm_compute; reflexivity).
  exists gs; split; [exact Hg|].
  apply (provider_groups_cover demo_job 0 striped gs Hg).
  repeat (apply Forall_cons_2; [repeat split|]); constructor.
Defined.

(** Chunks of several providers come out of order.  Two providers that serve
    alternate blobs of a range give groups whose chunks, one group after the other,
    start at 0, 20 and 10: since the download is the concatenation of its parts in
    that order, the file it hands out is not the range that was asked for. *)
Theorem striped_download_out_of_order :
  exists gs, group_chunks (leaf_count demo_job) striped = Ok gs /\
    map pc_rangeStart striped = [0; 10; 20] /\ map pc_rangeStart (concat (map pg_chunks gs)) = [0; 20; 10].
Proof. eexists; split; [vm_compute; reflexivity|]. by vm_compute. Qed.

Lemma meta_auth_never_requested_witness :
  fetch_chunk no_json demo_cfg auto demo_job "0xme" (fun _ => demo_range) None page_start =
  (res ← fetchRange no_json demo_cfg auto demo_range; mret (res, None)) page_start.
Proof.
  apply (meta_auth_never_requested no_json demo_cfg auto demo_job "0xme" (fun _ => demo_range) None page_start).
  intros m _; reflexivity.
Defined.
