(* ===== verification/NilWasm.v ===== *)
(** * The WASM core as the workers see it (nil_core/src/wasm.rs, kzg.rs)

    The methods of [NilWasm].  The polynomial commitment of one blob, the Blake2s
    Merkle root, the manifest commitment and the Reed-Solomon expansion are taken
    from external crates and are parameters; what the core does around them, cutting
    buffers into blobs and flattening the results, is modelled. *)
From S2P Require Import Prelude JsString JsNum TransportTypes Effects Bytes Layout.
#[local] Open Scope Z_scope.

Definition BLOBS_PER_MDU : Z := 64.
Definition COMMITMENT_SIZE : Z := 48.

(** A loaded trusted setup with the primitives that use it. *)
Class Kzg (Ctx : Type) := {
  load_setup : bytes -> outcome Ctx;
  blob_to_commitment : Ctx -> bytes -> outcome bytes;
  merkle_root : Ctx -> list bytes -> outcome bytes;
  manifest_commitment : Ctx -> list bytes -> outcome (bytes * bytes);
  (** [expand_mdu_encoded]: the witness commitments and the shards *)
  expand_encoded : Ctx -> bytes -> Z -> Z -> outcome (list bytes * list bytes);
  (** a commitment is a [[u8; 48]] *)
  commitment_size ctx l c : blob_to_commitment ctx l = Ok c -> zlen c = COMMITMENT_SIZE
}.

Section NilWasm.
Context {Ctx : Type} `{Kzg Ctx} (ctx : Ctx).

(** Blob [i] of a buffer. *)
Definition blob_at (data : bytes) (i : Z) : bytes := slice (i * BLOB_SIZE) (i * BLOB_SIZE + BLOB_SIZE) data.

(** One commitment per blob, up to the first that fails. *)
Fixpoint commit_each (blobs : list bytes) : outcome (list bytes) :=
  match blobs with
  | [] => mret []
  | b :: rest => c ← blob_to_commitment ctx b; cs ← commit_each rest; mret (c :: cs)
  end.

Definition mdu_to_kzg_commitments (mdu : bytes) : outcome (list bytes) :=
  if negb (zlen mdu =? MDU_SIZE) then mthrow (JsThrown "Commitment failed: InvalidMduSize")
  else commit_each (map (blob_at mdu) (seqZ 0 BLOBS_PER_MDU)).

(** [commit_mdu]: the flat witness and the root *)
Definition commit_mdu (mdu : bytes) : outcome (bytes * bytes) :=
  if negb (zlen mdu =? MDU_SIZE) then mthrow (JsThrown "MDU bytes must be exactly 8 MiB")
  else
    commitments ← mdu_to_kzg_commitments mdu;
    root ← merkle_root ctx commitments;
    mret (concat commitments, root).

Definition commit_blobs (blobs_flat : bytes) : outcome bytes :=
  if negb (zlen blobs_flat mod BLOB_SIZE =? 0) then mthrow (JsThrown "Blobs length must be a multiple of 128 KiB")
  else
    cs ← commit_each (map (blob_at blobs_flat) (seqZ 0 (zlen blobs_flat / BLOB_SIZE)));
    mret (concat cs).

(** [chunks_exact(n)] *)
Definition chunks_exact (n : Z) (l : bytes) : list bytes :=
  map (fun i => slice (i * n) (i * n + n) l) (seqZ 0 (zlen l / n)).

Definition compute_manifest (roots_flat : bytes) : outcome (bytes * bytes) :=
  if negb (zlen roots_flat mod 32 =? 0) then mthrow (JsThrown "Roots length must be multiple of 32")
  else manifest_commitment ctx (chunks_exact 32 roots_flat).

Definition compute_mdu_root (witness_flat : bytes) : outcome bytes :=
  if negb (zlen witness_flat mod 48 =? 0) then mthrow (JsThrown "Witness length must be multiple of 48")
  else merkle_root ctx (chunks_exact 48 witness_flat).

(** ** Flattened commitments *)

Lemma commit_each_ok blobs cs :
  commit_each blobs = Ok cs ->
  Forall2 (fun b c => blob_to_commitment ctx b = Ok c) blobs cs /\ Forall (fun c => zlen c = 48) cs.
Proof.
  revert cs; induction blobs as [|b blobs IH]; intros cs; cbn [commit_each].
  - intros [= <-]; split; constructor.
  - destruct (blob_to_commitment ctx b) as [c|] eqn:Hb; obind; [|done].
    destruct (commit_each blobs) as [cs'|] eqn:Hc; obind; [|done]; intros [= <-].
    destruct (IH cs' eq_refl) as [H1 H2]. split; constructor; [done..|by eapply commitment_size|done].
Qed.

Lemma commit_each_total blobs : (forall b, b ∈ blobs -> is_ok (blob_to_commitment ctx b) = true) ->
  exists cs, commit_each blobs = Ok cs.
Proof.
  induction blobs as [|b blobs IH]; intros Hall; cbn [commit_each]; [by exists []|].
  pose proof (Hall b ltac:(left)) as Hb; destruct (blob_to_commitment ctx b) as [c|]; [|done]; obind.
  destruct IH as [cs ->]; [intros x Hx; apply Hall; by right|]. obind; by exists (c :: cs).
Qed.
End NilWasm.

Lemma zlen_concat (n : Z) (cs : list bytes) : Forall (fun c => zlen c = n) cs -> zlen (concat cs) = n * zlen cs.
Proof. induction 1 as [|c cs Hc _ IH]; cbn [concat]; [change (0 = n * 0); lia|].
  rewrite zlen_app, zlen_cons, Hc, IH; lia.
Qed.

(** The pieces of a concatenation of equal pieces. *)
Lemma slice_concat (n : Z) (cs : list bytes) : 0 <= n -> forall j c, Forall (fun c => zlen c = n) cs ->
  cs !! Z.to_nat j = Some c -> 0 <= j -> slice (n * j) (n * j + n) (concat cs) = c.
Proof.
  intros Hn; induction cs as [|d cs IH]; intros j c Hall Hj H0; [by rewrite lookup_nil in Hj|].
  apply Forall_cons in Hall as [Hd Hall]; cbn [concat].
  destruct (Z.eq_dec j 0) as [->|Hne].
  - cbn in Hj; injection Hj as ->. rewrite Z.mul_0_r, slice_app_l by lia. apply slice_full; lia.
  - replace (Z.to_nat j) with (S (Z.to_nat (j - 1))) in Hj by lia; cbn in Hj.
    rewrite slice_app_r by nia. rewrite Hd, <- (IH (j - 1) c) by (done || lia). f_equal; lia.
Qed.

(** Cutting a flattened list gives the list back. *)
Lemma chunks_exact_concat (n : Z) cs : 0 < n -> Forall (fun c : bytes => zlen c = n) cs -> chunks_exact n (concat cs) = cs.
Proof.
  intros Hn Hall; unfold chunks_exact; rewrite (zlen_concat n) by done.
  rewrite Z.mul_comm, Z_div_mult by lia. symmetry.
  apply (Forall2_map_eq (fun j c => cs !! Z.to_nat j = Some c /\ 0 <= j)).
  - apply Forall2_same_length_lookup_2; [unfold zlen; rewrite length_seqZ; lia|].
    intros i j c Hj Hc; apply lookup_seqZ in Hj as [-> Hi]. split; [|lia]. by replace (Z.to_nat (0 + Z.of_nat i)) with i by lia.
  - intros j c _ [Hj H0]; rewrite (Z.mul_comm j). by rewrite (slice_concat n cs ltac:(lia) j c).
Qed.

(** A buffer is the concatenation of its pieces. *)
Lemma concat_slices (n : Z) (k : nat) : 0 < n -> forall (l : bytes) (f : Z -> bytes) (o : Z), 0 <= o -> zlen l = n * Z.of_nat k ->
  (forall j, 0 <= j < Z.of_nat k -> slice (n * j) (n * j + n) l = f (o + j)) -> l = concat (map f (seqZ o (Z.of_nat k))).
Proof.
  intros Hn; induction k as [|k IH]; intros l f o Ho Hl Hs.
  - change (seqZ o (Z.of_nat 0)) with (@nil Z); apply zlen_0_nil; lia.
  - rewrite seqZ_cons by lia; cbn [map concat].
    replace (Z.pred (Z.of_nat (S k))) with (Z.of_nat k) by lia.
    pose proof (Hs 0 ltac:(lia)) as H0; rewrite Z.mul_0_r, !Z.add_0_r in H0.
    rewrite <- (take_drop (Z.to_nat n) l) at 1; f_equal.
    + rewrite <- H0; unfold slice; rewrite Z.sub_0_r; by rewrite drop_0.
    + apply (IH _ f (Z.succ o)); [lia|rewrite zlen_drop by lia; lia|]. intros j Hj.
      specialize (Hs (1 + j) ltac:(lia)). replace (Z.succ o + j) with (o + (1 + j)) by lia; rewrite <- Hs.
      apply bytes_eq; rewrite !zlen_slice, ?zlen_drop by nia; [nia|]. intros i Hi.
      rewrite !znth_slice, znth_drop by nia. f_equal; nia.
Qed.
