(* ===== verification/ShardPool.v ===== *)
(** * Sharding an MDU on a pool of workers (workers/gateway.worker.ts, [shardFileProgressive])

    The worker cuts an MDU into batches of blobs and commits to several at once: up
    to [concurrency] tasks are in flight, they finish in any order, and each writes
    its commitments at its own place of a shared buffer and reports progress.  The
    interleavings are a step relation; the theorems say that every one of them
    gives what committing to the MDU in one go gives. *)
From S2P Require Import Prelude JsString JsNum TransportTypes Effects Bytes Layout NilWasm.
From Stdlib Require Import Sorting.Sorted.
From stdpp Require Import relations.
#[local] Open Scope Z_scope.

(** [Math.max(1, Math.min(16, Number(batchBlobs || 4)))] *)
Definition batch_size (batchBlobs : option Z) : Z :=
  Z.max 1 (Z.min 16 (match batchBlobs with Some 0 | None => 4 | Some n => n end)).

(** [desired] of [initializeCommitPool] *)
Definition pool_size (hardwareConcurrency : option Z) : Z :=
  let n := Z.max 0 (default 4 hardwareConcurrency - 1) in
  Z.max 1 (Z.min 4 (if n =? 0 then 1 else n)).

(** The loop variable, the start blobs of the tasks in flight, the shared buffer,
    and what has been reported. *)
Record ShardRun := mkRun {
  blobIndex : Z; inFlight : list Z; witnessFlat : bytes; completedBlobs : Z; posted : list Z
}.
Definition shard_init : ShardRun := mkRun 0 [] (zeros (BLOBS_PER_MDU * 48)) 0 [].

Section Shard.
Context {Ctx : Type} `{Kzg Ctx} (ctx : Ctx).
Context (data : bytes) (batch concurrency : Z).

(** The blobs of the task that starts at blob [i]. *)
Definition task_blobs (i : Z) : Z := Z.min batch (BLOBS_PER_MDU - i).
Definition task_data (i : Z) : bytes := slice (i * BLOB_SIZE) ((i + task_blobs i) * BLOB_SIZE) data.
Definition task_result (i : Z) : outcome bytes := commit_blobs ctx (task_data i).

Inductive shard_step : ShardRun -> ShardRun -> Prop :=
| launch r :
    blobIndex r < BLOBS_PER_MDU -> zlen (inFlight r) < concurrency ->
    shard_step r (mkRun (blobIndex r + batch) (inFlight r ++ [blobIndex r]) (witnessFlat r) (completedBlobs r) (posted r))
| finish r before i after c w :
    inFlight r = before ++ i :: after -> task_result i = Ok c -> set_bytes (witnessFlat r) (i * 48) c = Ok w ->
    shard_step r (mkRun (blobIndex r) (before ++ after) w (completedBlobs r + task_blobs i)
                    (posted r ++ [completedBlobs r + task_blobs i])).

Definition shard_reachable : ShardRun -> Prop := rtc shard_step shard_init.
(** The loop is over and nothing is in flight. *)
Definition shard_done (r : ShardRun) : Prop := BLOBS_PER_MDU <= blobIndex r /\ inFlight r = [].

(** The loop waits, for room ([Promise.race]) or for what is left ([Promise.all]). *)
Definition shard_waits (r : ShardRun) : Prop :=
  (blobIndex r < BLOBS_PER_MDU /\ concurrency <= zlen (inFlight r)) \/ (BLOBS_PER_MDU <= blobIndex r /\ inFlight r <> []).
(** How a run goes on: by a step, or by throwing the error of a task that is waited for. *)
Inductive shard_next (r : ShardRun) : ShardRun + jserr -> Prop :=
| goes_on r' : shard_step r r' -> shard_next r (inl r')
| rejects i e : shard_waits r -> i ∈ inFlight r -> task_result i = Thrown e -> shard_next r (inr e).

(** ** The invariant *)

Context (Hbatch : 1 <= batch <= 16) (Hconc : 1 <= concurrency) (Hdata : zlen data = MDU_SIZE).

(** The first blob of the task a blob belongs to. *)
Definition task_of (j : Z) : Z := batch * (j / batch).
Definition in_flight_blobs (l : list Z) : Z := foldr (fun i n => task_blobs i + n) 0 l.

Record shard_inv (r : ShardRun) : Prop := {
  si_index : 0 <= blobIndex r /\ (batch | blobIndex r);
  si_tasks : NoDup (inFlight r) /\ Forall (fun i => 0 <= i < blobIndex r /\ i < BLOBS_PER_MDU /\ (batch | i)) (inFlight r);
  si_bound : zlen (inFlight r) <= concurrency;
  si_buffer : zlen (witnessFlat r) = BLOBS_PER_MDU * 48;
  si_written : forall j, 0 <= j < BLOBS_PER_MDU -> j < blobIndex r -> task_of j ∉ inFlight r ->
    blob_to_commitment ctx (blob_at data j) = Ok (slice (48 * j) (48 * j + 48) (witnessFlat r));
  si_count : completedBlobs r + in_flight_blobs (inFlight r) = Z.min BLOBS_PER_MDU (blobIndex r);
  si_posted : StronglySorted Z.lt (posted r) /\ Forall (fun n => n <= completedBlobs r) (posted r) /\
    List.last (posted r) 0 = completedBlobs r /\ 0 <= completedBlobs r
}.

Lemma task_blobs_pos i : i < BLOBS_PER_MDU -> 1 <= task_blobs i <= BLOBS_PER_MDU - i.
Proof. unfold task_blobs; lia. Qed.

Lemma task_of_spec j : task_of j <= j < task_of j + batch /\ (batch | task_of j).
Proof.
  unfold task_of; split; [|by exists (j / batch); lia].
  pose proof (Z.mul_div_le j batch ltac:(lia)); pose proof (Z.mul_succ_div_gt j batch ltac:(lia)); lia.
Qed.

Lemma task_of_unique i j : (batch | i) -> i <= j < i + batch -> task_of j = i.
Proof.
  intros [k ->] Hj; unfold task_of. rewrite (Z.div_unique j batch k (j - k * batch)) by lia. lia.
Qed.

Lemma zlen_task_data i : 0 <= i < BLOBS_PER_MDU -> zlen (task_data i) = task_blobs i * BLOB_SIZE.
Proof.
  intros Hi; pose proof (task_blobs_pos i ltac:(lia)); unfold task_data; rewrite zlen_slice, Hdata.
  - change MDU_SIZE with (BLOBS_PER_MDU * BLOB_SIZE). unfold BLOB_SIZE; nia.
  - unfold BLOB_SIZE; lia.
Qed.

(** The blobs of a task are the MDU's. *)
Lemma blob_at_task i k : 0 <= i < BLOBS_PER_MDU -> 0 <= k < task_blobs i -> blob_at (task_data i) k = blob_at data (i + k).
Proof.
  intros Hi Hk; unfold blob_at, task_data; rewrite slice_slice; [f_equal; lia|unfold BLOB_SIZE; lia..|].
  unfold BLOB_SIZE; nia.
Qed.

(** What a finished task knows about its blobs. *)
Lemma task_result_ok i c :
  0 <= i < BLOBS_PER_MDU -> task_result i = Ok c ->
  zlen c = 48 * task_blobs i /\
  forall k, 0 <= k < task_blobs i -> blob_to_commitment ctx (blob_at data (i + k)) = Ok (slice (48 * k) (48 * k + 48) c).
Proof.
  intros Hi; unfold task_result, commit_blobs; rewrite zlen_task_data by done.
  rewrite Z_mod_mult; cbn [negb Z.eqb]. rewrite Z_div_mult by (unfold BLOB_SIZE; lia).
  destruct (commit_each ctx _) as [cs|] eqn:Ec; obind; [|done]; intros [= <-].
  apply commit_each_ok in Ec as [Hf Hl]. pose proof (Forall2_length _ _ _ Hf) as Hlen.
  rewrite length_map, length_seqZ in Hlen. pose proof (task_blobs_pos i ltac:(lia)).
  split; [rewrite (zlen_concat 48) by done; unfold zlen; lia|].
  intros k Hk. assert (is_Some (cs !! Z.to_nat k)) as [c Hc] by (apply lookup_lt_is_Some; lia).
  rewrite (slice_concat 48 cs ltac:(lia) k c) by (done || lia).
  eapply Forall2_lookup_r in Hf as (b & Hb & Hbc); [|exact Hc].
  rewrite list_lookup_fmap in Hb. rewrite lookup_seqZ_lt in Hb by lia. cbn in Hb; injection Hb as <-.
  replace (0 + Z.of_nat (Z.to_nat k)) with k in Hbc by lia. by rewrite blob_at_task in Hbc by lia.
Qed.

Lemma in_flight_blobs_app l k : in_flight_blobs (l ++ k) = in_flight_blobs l + in_flight_blobs k.
Proof. unfold in_flight_blobs; induction l as [|i l IH]; cbn [app foldr]; lia. Qed.

Lemma shard_inv_init : shard_inv shard_init.
Proof.
  split; cbn.
  - split; [lia|by exists 0].
  - split; constructor.
  - change (zlen (@nil Z)) with 0; lia.
  - reflexivity.
  - intros; lia.
  - reflexivity.
  - repeat split; [constructor..|lia].
Qed.

Lemma shard_inv_launch r :
  shard_inv r -> blobIndex r < BLOBS_PER_MDU -> zlen (inFlight r) < concurrency ->
  shard_inv (mkRun (blobIndex r + batch) (inFlight r ++ [blobIndex r]) (witnessFlat r) (completedBlobs r) (posted r)).
Proof.
  intros [ [Hi Hd] [Hnd Hall] Hb Hbuf Hw Hc Hp] Hlt Hroom; split; cbn [blobIndex inFlight witnessFlat completedBlobs posted]; try done.
  - split; [lia|]. apply Z.divide_add_r; [done|apply Z.divide_refl].
  - split.
    + apply NoDup_app; repeat split; [done| |apply NoDup_singleton].
      intros i Hin ->%list_elem_of_singleton. rewrite Forall_forall in Hall; apply Hall in Hin; lia.
    + apply Forall_app; split; [eapply Forall_impl; [exact Hall|]; cbn; intros i (? & ? & ?); repeat split; (done || lia)|].
      apply Forall_cons_2; [repeat split; (done || lia)|constructor].
  - rewrite zlen_app; change (zlen [blobIndex r]) with 1; lia.
  - intros j Hj Hji Hn. apply Hw; [done| |intros Hin; apply Hn, elem_of_app; by left].
    destruct (Z.lt_ge_cases j (blobIndex r)) as [|Hge]; [done|]. exfalso; apply Hn, elem_of_app; right.
    apply list_elem_of_singleton, task_of_unique; [done|lia].
  - rewrite in_flight_blobs_app; unfold in_flight_blobs at 2; cbn [foldr]; unfold task_blobs; lia.
Qed.

Lemma last_snoc (l : list Z) x d : List.last (l ++ [x]) d = x.
Proof. induction l as [|y l IH]; [done|]; cbn [app List.last]. rewrite IH. destruct (l ++ [x]) eqn:E; [by destruct l|done]. Qed.

Lemma StronglySorted_snoc l x : StronglySorted Z.lt l -> Forall (fun n => n < x) l -> StronglySorted Z.lt (l ++ [x]).
Proof.
  induction 1 as [|y l Hs IH Hy]; intros Hx; cbn [app]; [constructor; constructor|].
  apply Forall_cons in Hx as [Hyx Hx]; constructor; [auto|apply Forall_app; split; [done|by constructor] ].
Qed.

Lemma shard_inv_finish r before i after c w :
  shard_inv r -> inFlight r = before ++ i :: after -> task_result i = Ok c -> set_bytes (witnessFlat r) (i * 48) c = Ok w ->
  shard_inv (mkRun (blobIndex r) (before ++ after) w (completedBlobs r + task_blobs i)
               (posted r ++ [completedBlobs r + task_blobs i])).
Proof.
  intros [ [Hi Hd] [Hnd Hall] Hb Hbuf Hw Hc (Hs & Hle & Hlast & H0)] Hin Hres Hset; rewrite Hin in *.
  assert (0 <= i < blobIndex r /\ i < BLOBS_PER_MDU /\ (batch | i)) as (Hi1 & Hi2 & Hi3)
    by (rewrite Forall_forall in Hall; apply Hall, elem_of_app; right; left).
  pose proof (task_blobs_pos i Hi2) as Hn.
  apply task_result_ok in Hres as [Hlen Hblobs]; [|lia].
  rewrite set_bytes_splice in Hset by lia; injection Hset as <-.
  rewrite in_flight_blobs_app in Hc; unfold in_flight_blobs at 2 in Hc; cbn [foldr] in Hc; fold (in_flight_blobs after) in Hc.
  split; cbn [blobIndex inFlight witnessFlat completedBlobs posted].
  - by split.
  - rewrite <- Permutation_middle in Hnd; apply NoDup_cons in Hnd as [_ Hnd]; split; [done|].
    apply Forall_app in Hall as [H1 H2]; apply Forall_cons in H2 as [_ H2]; by apply Forall_app.
  - revert Hb; rewrite !zlen_app, zlen_cons; lia.
  - destruct (splice_spec (i * 48) c (witnessFlat r)) as [-> _]; [lia..|done].
  - intros j Hj Hji Hn'; pose proof (task_of_spec j) as [Ht1 Ht2].
    destruct (Z.eq_dec (task_of j) i) as [He|Hne].
    + assert (j < i + task_blobs i) as Hji' by (unfold task_blobs; lia).
      specialize (Hblobs (j - i) ltac:(lia)). replace (i + (j - i)) with j in Hblobs by lia; rewrite Hblobs; f_equal.
      transitivity (slice (i * 48 + 48 * (j - i)) (i * 48 + (48 * (j - i) + 48)) (splice (i * 48) c (witnessFlat r)));
        [|f_equal; lia].
      rewrite <- (slice_slice (48 * (j - i)) (48 * (j - i) + 48) (i * 48) (i * 48 + zlen c)) by lia.
      by rewrite slice_splice_same by lia.
    + rewrite Hw; [|done..|].
      * f_equal; symmetry; apply slice_splice_other; [lia..|].
        destruct (Z.lt_ge_cases j i) as [|Hge]; [left; lia|right].
        assert (i + batch <= j); [|unfold task_blobs in *; lia].
        destruct (Z.le_gt_cases (i + batch) j) as [|Hlt]; [done|]. exfalso; apply Hne, task_of_unique; [done|lia].
      * intros Hx; apply elem_of_app in Hx as [Hx|Hx]; [apply Hn', elem_of_app; by left|].
        apply elem_of_cons in Hx as [Hx|Hx]; [done|apply Hn', elem_of_app; by right].
  - rewrite in_flight_blobs_app; lia.
  - repeat split.
    + apply StronglySorted_snoc; [done|]. eapply Forall_impl; [exact Hle|]; cbn; lia.
    + apply Forall_app; split; [eapply Forall_impl; [exact Hle|]; cbn; lia|by apply Forall_cons_2; [lia|constructor] ].
    + apply last_snoc.
    + lia.
Qed.

Lemma shard_inv_reachable r : shard_reachable r -> shard_inv r.
Proof.
  unfold shard_reachable; apply (rtc_ind_r (fun r => shard_inv r)); [apply shard_inv_init|].
  intros x y _ Hstep Hx; destruct Hstep as [r' Hlt Hroom|r' before i after c w Hin Hres Hset].
  - by apply shard_inv_launch.
  - by eapply shard_inv_finish.
Qed.

(** With nothing left to do the buffer holds every commitment. *)
Lemma shard_inv_done r :
  shard_inv r -> shard_done r ->
  exists cs, mdu_to_kzg_commitments ctx data = Ok cs /\ witnessFlat r = concat cs /\ completedBlobs r = BLOBS_PER_MDU.
Proof.
  intros [ [Hi Hd] _ _ Hbuf Hw Hc _] [Hdone Hempty]; rewrite Hempty in *.
  assert (forall j, 0 <= j < BLOBS_PER_MDU ->
    blob_to_commitment ctx (blob_at data j) = Ok (slice (48 * j) (48 * j + 48) (witnessFlat r))) as Hall
    by (intros j Hj; apply Hw; [done|lia|apply not_elem_of_nil]).
  unfold mdu_to_kzg_commitments; rewrite Hdata; cbn [negb Z.eqb].
  change (negb (MDU_SIZE =? MDU_SIZE)) with false; cbv iota.
  destruct (commit_each_total ctx (map (blob_at data) (seqZ 0 BLOBS_PER_MDU))) as [cs Hcs].
  { intros b Hb; apply list_elem_of_fmap in Hb as (j & -> & Hj); apply elem_of_seqZ in Hj. by rewrite Hall by lia. }
  exists cs; split; [done|]; split; [|change (in_flight_blobs []) with 0 in Hc; lia].
  apply commit_each_ok in Hcs as [Hf _]. rewrite Forall2_fmap_l in Hf.
  rewrite (Forall2_map_eq _ (fun j => slice (48 * j) (48 * j + 48) (witnessFlat r)) _ _ Hf).
  - apply (concat_slices 48 64); [lia|lia|done|]. intros j Hj; by replace (0 + j) with j by lia.
  - cbn; intros j c Hj Hc'; apply elem_of_seqZ in Hj. rewrite Hall in Hc' by lia. congruence.
Qed.

Lemma in_flight_blobs_nonneg r : shard_reachable r -> 0 <= in_flight_blobs (inFlight r).
Proof.
  intros Hr; apply shard_inv_reachable in Hr as [_ [_ Hall] _ _ _ _ _]. induction Hall as [|i l (? & Hi & _) _ IH]; cbn; [lia|].
  pose proof (task_blobs_pos i Hi). unfold in_flight_blobs in IH; lia.
Qed.

(** Blobs not yet launched count twice: to launch and to finish. *)
Definition shard_measure (r : ShardRun) : Z := 2 * Z.max 0 (BLOBS_PER_MDU - blobIndex r) + zlen (inFlight r).

Lemma shard_measure_step r r' : shard_step r r' -> 0 <= shard_measure r' < shard_measure r.
Proof.
  unfold shard_measure; intros Hs; pose proof (zlen_nonneg (inFlight r')).
  destruct Hs as [r Hlt Hroom|r before i after c w Hin _ _]; cbn [blobIndex inFlight] in *.
  - rewrite zlen_app in *; change (zlen [blobIndex r]) with 1 in *; lia.
  - rewrite Hin, !zlen_app, zlen_cons in *; lia.
Qed.

(** A task whose blobs can be committed to finishes. *)
Lemma task_commits i :
  0 <= i < BLOBS_PER_MDU -> is_ok (mdu_to_kzg_commitments ctx data) = true -> exists c, task_result i = Ok c.
Proof.
  intros Hi; unfold mdu_to_kzg_commitments, task_result, commit_blobs; rewrite zlen_task_data, Hdata by done.
  change (negb (MDU_SIZE =? MDU_SIZE)) with false; rewrite Z_mod_mult, Z_div_mult by (unfold BLOB_SIZE; lia).
  destruct (commit_each ctx (map (blob_at data) _)) as [cs|] eqn:Ec; [|done]; intros _; cbn [negb Z.eqb].
  apply commit_each_ok in Ec as [Hf _]; rewrite Forall2_fmap_l in Hf.
  destruct (commit_each_total ctx (map (blob_at (task_data i)) (seqZ 0 (task_blobs i)))) as [cs' ->]; [|obind; eauto].
  intros b Hb; apply list_elem_of_fmap in Hb as (k & -> & Hk); apply elem_of_seqZ in Hk.
  rewrite blob_at_task by lia. unfold task_blobs in Hk.
  eapply Forall2_lookup_l in Hf as (c & _ & Hc); [|apply (lookup_seqZ_lt 0 BLOBS_PER_MDU (Z.to_nat (i + k))); lia].
  cbn in Hc. replace (0 + Z.of_nat (Z.to_nat (i + k))) with (i + k) in Hc by lia. by rewrite Hc.
Qed.

Lemma shard_inv_progress r :
  shard_inv r -> is_ok (mdu_to_kzg_commitments ctx data) = true -> shard_done r \/ exists r', shard_step r r'.
Proof.
  intros [ [Hi _] [_ Hall] Hb Hbuf _ _ _] Hok. destruct (inFlight r) as [|i l] eqn:Hin.
  - destruct (Z.lt_ge_cases (blobIndex r) BLOBS_PER_MDU) as [Hlt|Hge]; [right|left; by split].
    eexists; apply launch; [done|rewrite Hin; change (zlen (@nil Z)) with 0; lia].
  - right; apply Forall_cons in Hall as [(Hi1 & Hi2 & _) _].
    destruct (task_commits i ltac:(lia) Hok) as [c Hc]; pose proof (proj1 (task_result_ok i c ltac:(lia) Hc)) as Hlen.
    pose proof (task_blobs_pos i Hi2).
    eexists; eapply (finish r [] i l); [done|done|]. apply set_bytes_splice; lia.
Qed.

(** C30: sharding on the pool is sharding.  Whatever the batch size, however many
    tasks run at once and in whatever order they finish, when the loop is over the
    buffer holds exactly the commitments that committing to the MDU in one go gives,
    all 64 blobs have been counted, and the progress reported rose strictly to 64;
    on the way there were never more than [concurrency] tasks in flight. *)
Theorem shard_progressive_exact r :
  shard_reachable r ->
  zlen (inFlight r) <= concurrency /\ StronglySorted Z.lt (posted r) /\ Forall (fun n => n <= BLOBS_PER_MDU) (posted r) /\
  (shard_done r -> exists cs, mdu_to_kzg_commitments ctx data = Ok cs /\ witnessFlat r = concat cs /\
     List.last (posted r) 0 = BLOBS_PER_MDU).
Proof.
  intros Hr; apply shard_inv_reachable in Hr as Hinv; pose proof (shard_inv_done r Hinv) as Hdone.
  destruct Hinv as [_ _ Hb _ _ Hc (Hs & Hle & Hlast & _)].
  assert (completedBlobs r <= BLOBS_PER_MDU) as Hmax by (pose proof (in_flight_blobs_nonneg r Hr); lia).
  repeat split; [done|done|eapply Forall_impl; [exact Hle|]; cbn; lia|].
  intros Hd; destruct (Hdone Hd) as (cs & Hcs & Hw & H64); exists cs; rewrite Hlast; auto.
Qed.

Lemma shard_inv_next r : shard_inv r -> shard_done r \/ exists n, shard_next r n.
Proof.
  intros [ [Hi _] [_ Hall] Hb Hbuf _ _ _]. destruct (inFlight r) as [|i l] eqn:Hin.
  - destruct (Z.lt_ge_cases (blobIndex r) BLOBS_PER_MDU) as [Hlt|Hge]; [right|left; by split].
    eexists; apply goes_on, launch; [done|rewrite Hin; change (zlen (@nil Z)) with 0; lia].
  - right; apply Forall_cons in Hall as [(Hi1 & Hi2 & _) _]. destruct (task_result i) as [c|e] eqn:Hc.
    { pose proof (proj1 (task_result_ok i c ltac:(lia) Hc)) as Hlen. pose proof (task_blobs_pos i Hi2).
      eexists; eapply goes_on, (finish r [] i l); [done|done|]. apply set_bytes_splice; lia. }
    destruct (Z.lt_ge_cases (blobIndex r) BLOBS_PER_MDU) as [Hlt|Hge];
      [destruct (Z.lt_ge_cases (zlen (inFlight r)) concurrency) as [Hroom|Hfull]; [eexists; by apply goes_on, launch|]|].
    all: exists (inr e); apply (rejects r i e); [|rewrite Hin; left|done].
    + by left.
    + right; by rewrite Hin.
Qed.


(** From any reachable state the loop can be completed. *)
Lemma shard_completes : is_ok (mdu_to_kzg_commitments ctx data) = true -> forall n r,
  shard_reachable r -> shard_measure r <= Z.of_nat n -> exists r', shard_reachable r' /\ shard_done r'.
Proof.
  intros Hok; induction n as [|n IH]; intros r Hr Hn.
  - destruct (shard_inv_progress r (shard_inv_reachable r Hr) Hok) as [Hd|[r' Hs] ]; [eauto|].
    apply shard_measure_step in Hs; lia.
  - destruct (shard_inv_progress r (shard_inv_reachable r Hr) Hok) as [Hd|[r' Hs] ]; [eauto|].
    apply (IH r'); [by eapply rtc_r|apply shard_measure_step in Hs; lia].
Qed.
End Shard.

(** ** A concrete pool *)

#[local] Program Instance toy_kzg : Kzg unit := {|
  load_setup _ := Ok tt; blob_to_commitment _ _ := Ok (zeros 48); merkle_root _ _ := Ok (zeros 32);
  manifest_commitment _ _ := Ok (zeros 48, zeros BLOB_SIZE); expand_encoded _ _ _ _ := Ok ([], []) |}.
Next Obligation. intros _ l c [= <-]; reflexivity. Qed.

Definition toy_mdu : bytes := zeros MDU_SIZE.
Lemma toy_mdu_size : zlen toy_mdu = MDU_SIZE.
Proof. unfold toy_mdu; rewrite zlen_zeros; [reflexivity|unfold MDU_SIZE; lia]. Qed.
#[global] Opaque toy_mdu.
Lemma toy_commits : is_ok (mdu_to_kzg_commitments tt toy_mdu) = true.
Proof.
  unfold mdu_to_kzg_commitments; rewrite toy_mdu_size; change (negb (MDU_SIZE =? MDU_SIZE)) with false; cbv iota.
  destruct (commit_each_total tt (map (blob_at toy_mdu) (seqZ 0 BLOBS_PER_MDU))) as [cs ->]; [intros; reflexivity|reflexivity].
Qed.

Lemma shard_progressive_exact_witness :
  exists r cs, shard_reachable tt toy_mdu 4 3 r /\ shard_done r /\
    mdu_to_kzg_commitments tt toy_mdu = Ok cs /\ witnessFlat r = concat cs.
Proof.
  destruct (shard_completes tt toy_mdu 4 3 ltac:(lia) ltac:(lia) toy_mdu_size toy_commits 1000 shard_init) as (r & Hr & Hd);
    [apply rtc_refl|vm_compute; discriminate|].
  destruct (shard_progressive_exact tt toy_mdu 4 3 ltac:(lia) ltac:(lia) toy_mdu_size r Hr) as (_ & _ & _ & Hcs).
  destruct (Hcs Hd) as (cs & H1 & H2 & _); exists r, cs.
  split; [exact Hr|split; [exact Hd|split; [exact H1|exact H2] ] ].
Defined.


Example pool_of_eight : pool_size (Some 8) = 4 /\ pool_size (Some 2) = 1 /\ batch_size None = 4 /\ batch_size (Some 99) = 16.
Proof. by vm_compute. Qed.
