(* ===== verification/GatewayWorker.v ===== *)
(** * The gateway worker (workers/gateway.worker.ts, workers/commit.worker.ts)

    The worker holds one [NilWasm] and one MDU #0 builder and answers messages.  A
    message is handled by a computation on that state; its reply carries the
    message's id and either the result or the error's text. *)
From S2P Require Import Prelude JsString JsNum TransportTypes Effects Bytes Text Layout Nilfs NilWasm ShardPool.
#[local] Open Scope Z_scope.

Section Worker.
Context {Ctx : Type} `{Kzg Ctx}.

(** [wasm_init] is how the WASM binary's promise settled. *)
Record WorkerState := mkWorker {
  wasm_init : outcome unit; nilWasmInstance : option Ctx; mdu0BuilderInstance : option Mdu0Builder
}.
Definition set_wasm (c : Ctx) (s : WorkerState) : WorkerState := mkWorker (wasm_init s) (Some c) (mdu0BuilderInstance s).
Definition set_builder (b : Mdu0Builder) (s : WorkerState) : WorkerState := mkWorker (wasm_init s) (nilWasmInstance s) (Some b).

Inductive WorkerMsg :=
| initNilWasm (trustedSetupBytes : option bytes)
| initMdu0Builder (maxUserMdus : Z) (commitmentsPerMdu : option Z)
| loadMdu0Builder (data : bytes) (maxUserMdus : Z) (commitmentsPerMdu : option Z)
| appendFileToMdu0 (path : units) (size startOffset : Z)
| getMdu0Bytes
| setMdu0Root (index : Z) (root : bytes)
| getMdu0WitnessCount
| shardFile (data : bytes)
| shardFileProgressive (data : bytes) (batchBlobs : option Z)
| expandMduRs (data : bytes) (k m : Z)
| computeManifest (roots : bytes)
| computeMduRoot (witness : bytes)
| unknownMessage (type : string).

Inductive WorkerResult :=
| RText (s : string) | RBytes (l : bytes) | RCount (n : Z)
| RCommit (witness_flat mdu_root : bytes) | RStripe (witness_flat mdu_root : bytes) (shards : list bytes)
| RManifest (root blob : bytes).

Definition initializeWasm : M WorkerState unit := fun s => (wasm_init s, s).
Definition need_wasm (message : string) : M WorkerState Ctx := fun s =>
  match nilWasmInstance s with Some c => (Ok c, s) | None => (Thrown (Error message), s) end.
Definition need_builder : M WorkerState Mdu0Builder := fun s =>
  match mdu0BuilderInstance s with Some b => (Ok b, s) | None => (Thrown (Error "Mdu0Builder not initialized"), s) end.
Definition init_first : string := "NilWasm not initialized. Call initNilWasm first.".

(** [commitmentsPerMdu && Number(commitmentsPerMdu) > 0] *)
Definition given_commitments (c : option Z) : Z := match c with Some n => if 0 <? n then n else 0 | None => 0 end.

(** A method on [&mut self] of the builder. *)
Definition on_builder (m : M Mdu0Builder unit) : M WorkerState unit := fun s =>
  match mdu0BuilderInstance s with
  | Some b => let '(o, b') := m b in (o, set_builder b' s)
  | None => (Thrown (Error "Mdu0Builder not initialized"), s)
  end.

(** One task at a time, in order: a schedule of [shard_step]. *)
Fixpoint run_tasks (ctx : Ctx) (data : bytes) (batch : Z) (fuel : nat) (i : Z) (w : bytes) : outcome bytes :=
  match fuel with
  | O => mret w
  | S fuel =>
      if i <? BLOBS_PER_MDU then
        c ← task_result ctx data batch i;
        w' ← set_bytes w (i * 48) c;
        run_tasks ctx data batch fuel (i + batch) w'
      else mret w
  end.
Definition shard_progressive (ctx : Ctx) (data : bytes) (batchBlobs : option Z) : outcome (bytes * bytes) :=
  if negb (zlen data =? MDU_SIZE) then mthrow (Error "MDU bytes must be exactly 8 MiB")
  else
    witnessFlat ← run_tasks ctx data (batch_size batchBlobs) 64 0 (zeros (BLOBS_PER_MDU * 48));
    root ← compute_mdu_root ctx witnessFlat;
    mret (witnessFlat, root).

(** Consecutive [set]s from an offset. *)
Fixpoint set_all (buf : bytes) (offset : Z) (l : list bytes) : outcome bytes :=
  match l with
  | [] => mret buf
  | w :: rest => buf' ← set_bytes buf offset w; set_all buf' (offset + zlen w) rest
  end.

(** The [expandMduRs] case. *)
Definition expand_stripe (ctx : Ctx) (data : bytes) (k m : Z) : outcome (bytes * bytes * list bytes) :=
  parsed ← expand_encoded ctx data k m;
  witnessFlat ← set_all (zeros (zlen parsed.1 * 48)) 0 parsed.1;
  root ← compute_mdu_root ctx witnessFlat;
  mret (witnessFlat, root, parsed.2).

(** The [switch]. *)
Definition dispatch (msg : WorkerMsg) : M WorkerState WorkerResult :=
  match msg with
  | initNilWasm setup => prim (fun s =>
      match nilWasmInstance s with
      | Some _ => (Ok (RText "NilWasm already initialized"), s)
      | None =>
          match setup with
          | None => (Thrown (Error "Trusted setup bytes required for NilWasm initialization"), s)
          | Some l => match load_setup l with
                      | Ok c => (Ok (RText "NilWasm initialized"), set_wasm c s)
                      | Thrown e => (Thrown e, s)
                      end
          end
      end)
  | initMdu0Builder maxUserMdus c =>
      need_wasm init_first ;;
      modify (set_builder (new_with_commitments maxUserMdus (given_commitments c))) ;;
      mret (RText "Mdu0Builder initialized")
  | loadMdu0Builder data maxUserMdus c =>
      need_wasm init_first ;;
      b ← lift (load_with_commitments data maxUserMdus (given_commitments c));
      modify (set_builder b) ;;
      mret (RText "Mdu0Builder loaded")
  | appendFileToMdu0 path size startOffset =>
      on_builder (append_file path size startOffset) ;;
      mret (RText "File appended to Mdu0")
  | getMdu0Bytes => b ← need_builder; modify (set_builder (flush_header b)) ;; mret (RBytes (builder_bytes b))
  | setMdu0Root index root =>
      need_builder ;;
      (if zlen root =? 32 then on_builder (set_root index root) else mthrow (JsThrown "root must be 32 bytes")) ;;
      mret (RText "Root set in Mdu0")
  | getMdu0WitnessCount => b ← need_builder; mret (RCount (witness_mdu_count b))
  | shardFile data => ctx ← need_wasm init_first; r ← lift (commit_mdu ctx data); mret (RCommit r.1 r.2)
  | shardFileProgressive data batchBlobs =>
      ctx ← need_wasm init_first;
      r ← lift (shard_progressive ctx data batchBlobs);
      mret (RCommit r.1 r.2)
  | expandMduRs data k m =>
      ctx ← need_wasm init_first;
      r ← lift (expand_stripe ctx data k m);
      mret (RStripe r.1.1 r.1.2 r.2)
  | computeManifest roots => ctx ← need_wasm init_first; r ← lift (compute_manifest ctx roots); mret (RManifest r.1 r.2)
  | computeMduRoot witness => ctx ← need_wasm init_first; root ← lift (compute_mdu_root ctx witness); mret (RBytes root)
  | unknownMessage type => js_error ("Unknown message type: " +:+ type)
  end.

Inductive Reply := ReplyResult (id : Z) (payload : WorkerResult) | ReplyError (id : Z) (payload : string).

(** [self.onmessage] *)
Definition onmessage (id : Z) (msg : WorkerMsg) (s : WorkerState) : Reply * WorkerState :=
  match (initializeWasm ;; dispatch msg : M WorkerState WorkerResult) s with
  | (Ok r, s') => (ReplyResult id r, s')
  | (Thrown e, s') => (ReplyError id (or_else (err_message e) "Unknown worker error"), s')
  end.

(** ** commit.worker.ts *)

Inductive CommitMsg := CInit (trustedSetupBytes : option bytes) | CCommit (data : bytes) | CUnknown (type : string).
(** The pool worker's own instance; a reply carries the commitments or ['ok']. *)
Definition commit_dispatch (msg : CommitMsg) (s : outcome unit * option Ctx) : outcome bytes * (outcome unit * option Ctx) :=
  match s.1 with
  | Thrown e => (Thrown e, s)
  | Ok _ =>
      match msg with
      | CInit None => (Thrown (Error "Trusted setup bytes required"), s)
      | CInit (Some l) => match load_setup l with
                          | Ok c => (Ok [], (s.1, Some c))
                          | Thrown e => (Thrown e, s)
                          end
      | CCommit data => match s.2 with
                        | None => (Thrown (Error "NilWasm not initialized"), s)
                        | Some c => (commit_blobs c data, s)
                        end
      | CUnknown type => (Thrown (Error ("Unknown message type: " +:+ type)), s)
      end
  end.

(** ** Errors *)

Lemma append_file_error p size start b e b' : append_file p size start b = (Thrown e, b') -> b' = b.
Proof.
  unfold append_file; destruct (40 <? _); [by intros [= _ <-]|]. unfold append_file_record.
  destruct (FILE_TABLE_END <? _); [by intros [= _ <-]|done].
Qed.
Lemma set_root_error i root b e b' : set_root i root b = (Thrown e, b') -> b' = b.
Proof. unfold set_root; destruct (ROOT_TABLE_END <? _); [by intros [= _ <-]|done]. Qed.

Lemma set_builder_same (s : WorkerState) b : mdu0BuilderInstance s = Some b -> set_builder b s = s.
Proof. destruct s as [i c b']; cbn; by intros ->. Qed.

Lemma on_builder_error (m : M Mdu0Builder unit) s e s' :
  (forall b e b', m b = (Thrown e, b') -> b' = b) -> on_builder m s = (Thrown e, s') -> s' = s.
Proof.
  intros Hm; unfold on_builder; destruct (mdu0BuilderInstance s) as [b|] eqn:Hb; [|by intros [= _ <-] ].
  destruct (m b) as [ [u|e'] b'] eqn:E; [done|]. intros [= -> <-]. rewrite (Hm _ _ _ E); by apply set_builder_same.
Qed.

(** Split a failing bind: the first computation failed, or the rest did. *)
Lemma bind_error {A B} (m : M WorkerState A) (f : A -> M WorkerState B) s e s' :
  (m ≫= f) s = (Thrown e, s') -> m s = (Thrown e, s') \/ exists a s1, m s = (Ok a, s1) /\ f a s1 = (Thrown e, s').
Proof. rewrite bind_run; destruct (m s) as [ [a|e'] s1]; [eauto|]. by intros [= -> ->]; left. Qed.

Lemma need_wasm_same m s c s' : need_wasm m s = (Ok c, s') -> s' = s /\ nilWasmInstance s = Some c.
Proof. unfold need_wasm; destruct (nilWasmInstance s) eqn:E; [by intros [= -> <-]|done]. Qed.
Lemma need_wasm_error m s e s' : need_wasm m s = (Thrown e, s') -> s' = s.
Proof. unfold need_wasm; destruct (nilWasmInstance s); [done|by intros [= _ <-] ]. Qed.
Lemma need_builder_same s b s' : need_builder s = (Ok b, s') -> s' = s /\ mdu0BuilderInstance s = Some b.
Proof. unfold need_builder; destruct (mdu0BuilderInstance s) eqn:E; [by intros [= -> <-]|done]. Qed.
Lemma need_builder_error s e s' : need_builder s = (Thrown e, s') -> s' = s.
Proof. unfold need_builder; destruct (mdu0BuilderInstance s); [done|by intros [= _ <-] ]. Qed.
Lemma lift_same {A} (o : outcome A) (s : WorkerState) r s' : lift o s = (r, s') -> s' = s.
Proof. by intros [= _ <-]. Qed.

Ltac error_step :=
  match goal with
  | E : (_ ≫= _) _ = (Thrown _, _) |- _ => apply bind_error in E as [E|(? & ? & ? & E)]
  | E : need_wasm _ _ = (Thrown _, _) |- _ => by apply need_wasm_error in E
  | E : need_builder _ = (Thrown _, _) |- _ => by apply need_builder_error in E
  | E : lift _ _ = _ |- _ => apply lift_same in E; subst
  | E : need_wasm _ _ = (Ok _, _) |- _ => apply need_wasm_same in E as [-> _]
  | E : need_builder _ = (Ok _, _) |- _ => apply need_builder_same in E as [-> _]
  | E : on_builder _ _ = (Thrown _, _) |- _ =>
      refine (on_builder_error _ _ _ _ _ E); intros ? ? ? Hx;
      first [exact (append_file_error _ _ _ _ _ _ Hx)|exact (set_root_error _ _ _ _ _ Hx)]
  | E : modify _ _ = (Thrown _, _) |- _ => discriminate E
  | E : mret _ _ = (Thrown _, _) |- _ => discriminate E
  end.

Lemma dispatch_error msg s e s' : dispatch msg s = (Thrown e, s') -> s' = s.
Proof.
  destruct msg; cbn [dispatch]; intros E; try (repeat error_step; reflexivity).
  - unfold prim in E; repeat case_match; try discriminate; congruence.
  - repeat error_step. destruct (zlen root =? 32); [repeat error_step|]. by injection E as _ <-.
  - by injection E as _ <-.
Qed.

Lemma or_else_truthy a b : truthy b = true -> truthy (or_else a b) = true.
Proof. unfold or_else; by destruct (truthy a) eqn:Ha. Qed.

Lemma on_builder_init (m : M Mdu0Builder unit) s r s' : on_builder m s = (r, s') -> wasm_init s' = wasm_init s.
Proof.
  unfold on_builder; destruct (mdu0BuilderInstance s) as [b|]; [|by intros [= _ <-] ].
  by destruct (m b) as [o b']; intros [= _ <-].
Qed.

Ltac ok_step :=
  match goal with
  | E : (_ ≫= _) _ = (Ok _, _) |- _ => apply bind_ok in E as (? & ? & ? & E)
  | E : lift _ _ = _ |- _ => apply lift_same in E; subst
  | E : need_wasm _ _ = (Ok _, _) |- _ => apply need_wasm_same in E as [-> _]
  | E : need_builder _ = (Ok _, _) |- _ => apply need_builder_same in E as [-> _]
  | E : on_builder _ _ = (Ok _, _) |- _ => apply on_builder_init in E
  | E : modify _ _ = (Ok _, _) |- _ => injection E as _ <-
  | E : mret _ _ = (Ok _, _) |- _ => injection E as <- <-
  end.

Lemma dispatch_wasm_init msg s r s' : dispatch msg s = (Ok r, s') -> wasm_init s' = wasm_init s.
Proof.
  destruct msg; cbn [dispatch]; intros E; try (repeat ok_step; cbn in *; congruence).
  - unfold prim in E; repeat case_match; try discriminate; injection E as _ <-; reflexivity.
  - repeat ok_step. destruct (zlen root =? 32); repeat ok_step; [congruence|discriminate].
  - discriminate.
Qed.

(** A request is answered once, under its id, and a failed one changes nothing.
    The reply to any message carries the message's id; if it is an error, its text is
    not empty and the worker's state, builder and WASM instance included, is the one
    before the message. *)
Theorem worker_replies id msg s :
  match onmessage id msg s with
  | (ReplyResult i _, s') => i = id /\ wasm_init s' = wasm_init s
  | (ReplyError i text, s') => i = id /\ truthy text = true /\ s' = s
  end.
Proof.
  unfold onmessage; rewrite bind_run; unfold initializeWasm.
  destruct (wasm_init s) as [u|e] eqn:Ei; [|split; [done|split; [by apply or_else_truthy|done] ] ].
  destruct (dispatch msg s) as [ [r|e] s'] eqn:E.
  - split; [done|]. rewrite <- Ei; by eapply dispatch_wasm_init.
  - split; [done|]; split; [by apply or_else_truthy|by eapply dispatch_error].
Qed.

(** ** Sharding *)

Lemma batch_size_range b : 1 <= batch_size b <= 16.
Proof. unfold batch_size; lia. Qed.

(** The sequential run is a schedule. *)
Lemma run_tasks_schedule ctx data batch :
  1 <= batch <= 16 -> zlen data = MDU_SIZE -> is_ok (mdu_to_kzg_commitments ctx data) = true ->
  forall fuel r, shard_reachable ctx data batch 1 r -> inFlight r = [] -> BLOBS_PER_MDU - blobIndex r <= Z.of_nat fuel ->
  exists r', run_tasks ctx data batch fuel (blobIndex r) (witnessFlat r) = Ok (witnessFlat r') /\
    shard_reachable ctx data batch 1 r' /\ shard_done r'.
Proof.
  intros Hb Hd Hok; induction fuel as [|fuel IH]; intros r Hr Hin Hf; cbn [run_tasks].
  - exists r; split; [done|split; [done|split; [lia|done] ] ].
  - destruct (Z.ltb_spec (blobIndex r) BLOBS_PER_MDU) as [Hlt|]; [|exists r; split; [done|split; [done|by split] ] ].
    destruct (shard_inv_reachable ctx data batch 1 Hb ltac:(lia) Hd r Hr) as [ [Hi _] _ _ Hbuf _ _ _].
    destruct (task_commits ctx data batch Hb Hd (blobIndex r) ltac:(lia) Hok) as [c Hc]; rewrite Hc; obind.
    pose proof (proj1 (task_result_ok ctx data batch Hb Hd (blobIndex r) c ltac:(lia) Hc)) as Hlen.
    pose proof (task_blobs_pos batch Hb (blobIndex r) Hlt) as Hp.
    rewrite set_bytes_splice by lia; obind.
    set (r1 := mkRun (blobIndex r + batch) (inFlight r ++ [blobIndex r]) (witnessFlat r) (completedBlobs r) (posted r)).
    assert (shard_step ctx data batch 1 r r1) as Hs1
      by (apply launch; [done|rewrite Hin; change (zlen (@nil Z)) with 0; lia]).
    assert (Hin1 : inFlight r1 = [] ++ blobIndex r :: []) by (unfold r1; cbn [inFlight]; by rewrite Hin).
    pose proof (finish ctx data batch 1 r1 [] (blobIndex r) [] c _ Hin1 Hc (set_bytes_splice (witnessFlat r) (blobIndex r * 48) c ltac:(lia) ltac:(lia))) as Hs2.
    destruct (IH _ (rtc_r _ _ _ (rtc_r _ _ _ Hr Hs1) Hs2)) as (r' & Hrun & Hr' & Hd'); [done|unfold r1; cbn [blobIndex]; lia|].
    exists r'; by split.
Qed.

Lemma chunks_of_concat cs : Forall (fun c : bytes => zlen c = 48) cs -> chunks_exact 48 (concat cs) = cs.
Proof. by apply chunks_exact_concat. Qed.

(** The pool's run gives what committing in one go gives. *)
Lemma shard_progressive_commit ctx data batchBlobs witness root :
  commit_mdu ctx data = Ok (witness, root) -> shard_progressive ctx data batchBlobs = Ok (witness, root).
Proof.
  unfold commit_mdu; intros Hm; destruct (Z.eqb_spec (zlen data) MDU_SIZE) as [Hd|]; cbn [negb] in Hm; [|done].
  destruct (mdu_to_kzg_commitments ctx data) as [cs|] eqn:Ecs; obind in Hm; [|done].
  destruct (merkle_root ctx cs) as [rt|] eqn:Er; obind in Hm; [|done]; injection Hm as <- <-.
  pose proof (batch_size_range batchBlobs) as Hb.
  assert (is_ok (mdu_to_kzg_commitments ctx data) = true) as Hok by by rewrite Ecs.
  destruct (run_tasks_schedule ctx data _ Hb Hd Hok 64 shard_init) as (r & Hrun & Hr & Hdone);
    [apply rtc_refl|reflexivity|cbn; unfold BLOBS_PER_MDU; lia|].
  apply shard_inv_reachable in Hr; [|done|lia|done].
  destruct (shard_inv_done ctx data _ 1 Hd r Hr Hdone) as (cs' & Hcs & Hw & _).
  assert (cs' = cs) as -> by congruence.
  unfold shard_progressive; rewrite Hd, Z.eqb_refl; cbn [negb].
  cbn [blobIndex witnessFlat shard_init] in Hrun; rewrite Hrun, Hw; obind. unfold compute_mdu_root.
  assert (Forall (fun c : bytes => zlen c = 48) cs) as Hall.
  { unfold mdu_to_kzg_commitments in Ecs; destruct (negb _) in Ecs; [done|]. by apply commit_each_ok in Ecs as [_ ?]. }
  rewrite (zlen_concat 48), (Z.mul_comm 48), Z_mod_mult by done; cbn [negb Z.eqb].
  rewrite chunks_of_concat, Er by done; by obind.
Qed.

End Worker.

(** ** Building MDU #0 *)

Section Builder.
Context {Ctx : Type} `{Kzg Ctx}.

(** What a message adds to the file table. *)
Definition entries_of (msg : WorkerMsg) : list NilfsFileEntry :=
  match msg with
  | appendFileToMdu0 path size startOffset => [mkEntry (trim_units path) size startOffset 0]
  | _ => []
  end.
(** The messages an upload sends between creating the builder and reading it:
    files under their sanitised names, and roots. *)
Definition building (msg : WorkerMsg) : Prop :=
  match msg with
  | appendFileToMdu0 path size startOffset =>
      (exists input, Forall ascii_unit input /\ path = sanitizeNilfsRecordPath input) /\
      0 < size < 2 ^ 53 /\ 0 <= startOffset < 2 ^ 53
  | setMdu0Root index _ => 0 <= index
  | _ => False
  end.
Definition send (msg : WorkerMsg) : M (@WorkerState Ctx) unit := dispatch msg ;; mret tt.

Definition listing (s : @WorkerState Ctx) (files : list NilfsFileEntry) : Prop :=
  exists b, mdu0BuilderInstance s = Some b /\ builder_inv b /\ parseNilfsFilesFromMdu0 (builder_bytes b) = files.

Lemma send_building msg s s' files :
  building msg -> listing s files -> send msg s = (Ok tt, s') -> listing s' (files ++ entries_of msg).
Proof.
  intros Hb (b & Hs & Hinv & Hp) Hsend; unfold send in Hsend; apply bind_ok in Hsend as (r & s1 & Hd & Heq).
  injection Heq as <-. destruct msg; try done; cbn [dispatch] in Hd; cbn [entries_of].
  - destruct Hb as ((input & Hasc & ->) & Hsize & Hstart).
    apply bind_ok in Hd as ([] & s2 & Hd & Heq); injection Heq as _ <-. unfold on_builder in Hd; rewrite Hs in Hd.
    destruct (append_file _ size startOffset b) as [ [ [] |e] b'] eqn:E; [|done]; injection Hd as <-.
    apply append_file_ok in E as [Hinv' Hp']; [|done..]. exists b'; split; [done|]; split; [done|]. by rewrite Hp', Hp.
  - apply bind_ok in Hd as (b0 & s2 & Hn & Hd); apply need_builder_same in Hn as [-> _].
    apply bind_ok in Hd as (? & s3 & Hd & Heq); injection Heq as _ <-.
    destruct (Z.eqb_spec (zlen root) 32) as [Hr|]; [|done]. unfold on_builder in Hd; rewrite Hs in Hd.
    pose proof (set_root_spec b index root Hinv Hb Hr) as Hspec.
    destruct (set_root index root b) as [ [ [] |e] b'] eqn:E; [|done]; injection Hd as _ <-.
    destruct (ROOT_TABLE_END <? _); [done|]. destruct Hspec as (b1 & E1 & Hinv' & Hrec & _).
    assert (b1 = b') as -> by congruence. exists b'; split; [done|]; split; [done|]. rewrite app_nil_r, <- Hp.
    by rewrite !builder_bytes_buffer, !parse_builder, Hrec by done.
Qed.

Lemma send_all msgs : forall s s' files,
  Forall building msgs -> listing s files -> for_each msgs send s = (Ok tt, s') ->
  listing s' (files ++ concat (map entries_of msgs)).
Proof.
  induction msgs as [|m msgs IH]; intros s s' files Hall Hl Hrun; cbn [for_each] in Hrun.
  - injection Hrun as <-; cbn; by rewrite app_nil_r.
  - apply Forall_cons in Hall as [Hm Hall]; apply bind_ok in Hrun as ([] & s1 & H1 & Hrun).
    cbn [map concat]; rewrite app_assoc. eapply IH; [done| |exact Hrun]. by eapply send_building.
Qed.

Lemma new_builder_empty m c : parseNilfsFilesFromMdu0 (builder_bytes (new_with_commitments m c)) = [].
Proof.
  rewrite builder_bytes_buffer, parse_builder by apply new_inv. unfold records.
  by replace (record_count (header (new_with_commitments m c))) with 0 by reflexivity.
Qed.

(** C32: the MDU #0 a page builds lists the files it was given.  After the builder is
    created, any sequence of file and root messages that succeeds leaves bytes whose
    file table parses to exactly the appended files, in order, with their names, sizes
    and offsets; setting roots never disturbs it. *)
Theorem worker_builds_listing s maxUserMdus c msgs s1 s2 :
  Forall building msgs -> dispatch (initMdu0Builder maxUserMdus c) s = (Ok (RText "Mdu0Builder initialized"), s1) ->
  for_each msgs send s1 = (Ok tt, s2) ->
  exists l s3, dispatch getMdu0Bytes s2 = (Ok (RBytes l), s3) /\
    parseNilfsFilesFromMdu0 l = concat (map entries_of msgs).
Proof.
  intros Hall Hinit Hrun; cbn [dispatch] in Hinit.
  apply bind_ok in Hinit as (ctx & w & Hn & Hinit); apply need_wasm_same in Hn as [-> _].
  apply bind_ok in Hinit as (? & w1 & Hm & Heq); injection Heq as <-; unfold modify in Hm; injection Hm as _ <-.
  apply (send_all msgs _ _ []) in Hrun as (b & Hb & Hinv & Hp); [|done|exists (new_with_commitments maxUserMdus (given_commitments c))].
  - cbn [dispatch]; rewrite bind_run; unfold need_builder; rewrite Hb, bind_run; unfold modify, mret, M_ret.
    do 2 eexists; split; [reflexivity|]. exact Hp.
  - split; [done|]; split; [apply new_inv|]. apply new_builder_empty.
Qed.
End Builder.

(** ** Concrete runs *)

#[local] Program Instance demo_kzg : Kzg unit := {|
  load_setup _ := Ok tt; blob_to_commitment _ _ := Ok (zeros 48); merkle_root _ _ := Ok (zeros 32);
  manifest_commitment _ _ := Ok (zeros 48, zeros BLOB_SIZE); expand_encoded _ _ _ _ := Ok ([], []) |}.
Next Obligation. intros _ l c [= <-]; reflexivity. Qed.

Definition demo_worker : @WorkerState unit := mkWorker (Ok tt) (Some tt) None.
Definition demo_name : units := units_of "dir/report.txt".
Definition demo_messages : list WorkerMsg :=
  [appendFileToMdu0 (sanitizeNilfsRecordPath demo_name) 500 0; setMdu0Root 0 (zeros 32)].

Lemma demo_building : Forall building demo_messages.
Proof.
  apply Forall_cons_2; [split; [|split; lia]|apply Forall_cons_2; [cbn; lia|constructor] ].
  exists demo_name; split; [|reflexivity].
  unfold demo_name; vm_compute units_of; repeat (constructor; [unfold ascii_unit; lia|]); constructor.
Qed.

Lemma worker_builds_listing_witness :
  exists l, parseNilfsFilesFromMdu0 l = concat (map entries_of demo_messages).
Proof.
  assert (exists s1 s2, dispatch (initMdu0Builder 65536 None) demo_worker = (Ok (RText "Mdu0Builder initialized"), s1) /\
    for_each demo_messages send s1 = (Ok tt, s2)) as (s1 & s2 & H1 & H2)
    by (do 2 eexists; split; [reflexivity|]; reflexivity).
  destruct (worker_builds_listing demo_worker 65536 None demo_messages s1 s2 demo_building H1 H2) as (l & _ & _ & Hl).
  exists l; exact Hl.
Defined.

Definition blank_mdu : bytes := zeros MDU_SIZE.
Lemma blank_mdu_commits : exists witness root, commit_mdu tt blank_mdu = Ok (witness, root).
Proof.
  unfold commit_mdu, mdu_to_kzg_commitments, blank_mdu; rewrite zlen_zeros by (unfold MDU_SIZE; lia).
  rewrite Z.eqb_refl; cbn [negb].
  destruct (commit_each_total tt (map (blob_at (zeros MDU_SIZE)) (seqZ 0 BLOBS_PER_MDU))) as [cs ->]; [intros; reflexivity|].
  obind; eauto.
Qed.

