(* ===== verification/Sharding.v ===== *)
(** * Sharding a file in the browser (components/FileSharder.tsx, [processFile])

    From a file to a slab: the user MDUs that encode its bytes, the witness MDUs
    that encode their commitments, MDU #0 with the roots and the file table, and
    the manifest over all roots.  The expensive steps are messages to the worker
    ([GatewayWorker]), sent one after the other; a rejected one ends the run.
    The progress shown between two messages is overwritten by what the component
    sets when the reply arrives, so only the latter is in the state.  Work is
    counted in tenths, the weight of a trivial blob. *)
From S2P Require Import Prelude JsString JsNum TransportTypes Effects Bytes Text NilfsCodec Layout Nilfs Opfs NilfsOpfsFetch.
From S2P Require Import Hex NilWasm ShardPool GatewayWorker.
#[local] Open Scope Z_scope.

(** ** The component's state *)

Inductive ShardPhase := phase_idle | reading | planning | gateway_receiving | gateway_encoding | gateway_uploading
| shard_user | shard_witness | finalize_mdu0 | compute_manifest_phase | phase_done | phase_error.
Inductive mdu_kind := kind_user | kind_witness | kind_meta.
Inductive item_status := item_pending | item_processing | item_expanded.

Record ShardProgressState := mkShardProgress {
  sp_phase : ShardPhase; sp_label : string; sp_blobsDone : Z; sp_blobsTotal : Z; sp_blobsInCurrentMdu : Z;
  sp_blobsPerMdu : Z; sp_workDone : Z; sp_workTotal : Z; sp_fileBytesTotal : Z; sp_totalUserMdus : Z;
  sp_totalWitnessMdus : Z; sp_currentMduIndex : option Z; sp_currentMduKind : option mdu_kind
}.

Record Sharder := mkSharder {
  shards : list (Z * item_status);
  collectedMdus : list (Z * bytes);
  currentManifestRoot : option string;
  currentManifestBlob : option bytes;
  mode2Shards : list (Z * list bytes);
  processing : bool;
  shardProgress : ShardProgressState
}.

Definition reset_progress (fileBytes : Z) : ShardProgressState :=
  mkShardProgress reading "Reading file..." 0 0 0 64 0 0 fileBytes 0 0 None None.

(** A file chosen by the user; [file.size] is the length of its bytes. *)
Record File := mkFile { file_name : units; file_bytes : bytes }.

(** ** Planning *)

Definition SCALAR_PAYLOAD_BYTES : Z := 31.
Definition SCALAR_BYTES : Z := 32.
Definition BLOB_BYTES : Z := 128 * 1024.

Definition nonTrivialBlobsForPayload (payloadBytes : Z) : Z :=
  if payloadBytes <=? 0 then 0
  else
    let scalarsUsed := ceil_div payloadBytes SCALAR_PAYLOAD_BYTES in
    let encodedBytes := scalarsUsed * SCALAR_BYTES in
    let blobsUsed := ceil_div encodedBytes BLOB_BYTES in
    Z.max 0 (Z.min BLOBS_PER_MDU blobsUsed).

(** In tenths. *)
Definition weightedWorkForMdu (nonTrivialBlobs : Z) : Z :=
  let nt := Z.max 0 (Z.min BLOBS_PER_MDU nonTrivialBlobs) in
  10 * nt + (BLOBS_PER_MDU - nt).

(** [stripeParams] of a mode 2 deal, and the commitments of one MDU: 64 blobs, or
    [(k + m) * (64 / k)], which [BigInt] rejects when it is not an integer.  The product
    is exact here; the code's quotient is a double, exact for every K that divides 64,
    and the core stripes for no other ([expand_mdu_encoded]). *)
Record StripeParams := mkStripe { rs_k : Z; rs_m : Z }.
Definition commitmentsPerMdu (stripe : option StripeParams) : outcome (option Z) :=
  match stripe with
  | None => mret None
  | Some s =>
      if (rs_k s + rs_m s) * 64 mod rs_k s =? 0 then mret (Some ((rs_k s + rs_m s) * 64 / rs_k s))
      else mthrow (JsError "RangeError" "The number cannot be converted to a BigInt because it is not an integer")
  end.
(** The byte count of the witness of [n] user MDUs, as a fraction. *)
Definition witness_bytes (stripe : option StripeParams) (n : Z) : Z * Z :=
  match stripe with
  | None => (64 * 48 * n, 1)
  | Some s => ((rs_k s + rs_m s) * 64 * 48 * n, rs_k s)
  end.
Definition leafCount (stripe : option StripeParams) : Z := (witness_bytes stripe 1).1 / (48 * (witness_bytes stripe 1).2).

(** The user MDUs found in the store when a mode 2 deal is appended to. *)
Record Existing := mkExisting {
  baseMdu0Bytes : option bytes; existingUserMdus : list bytes; existingUserCount : Z;
  existingMaxEnd : Z; appendStartOffset : Z
}.
Definition no_existing : Existing := mkExisting None [] 0 0 0.
Definition appendMode2 (ex : Existing) : bool :=
  match baseMdu0Bytes ex with Some _ => 0 <? existingUserCount ex | None => false end.

Definition read_existing (dealId : string) (slabStart i : Z) : M opfs bytes :=
  mdu ← readMdu dealId (slabStart + i);
  match mdu with
  | Some l => mret l
  | None => js_error ("missing local MDU: mdu_" +:+ string_of_Z (slabStart + i) +:+ ".bin")
  end.

(** Any error means that the upload does not append. *)
Definition load_existing (dealId : string) (stripe : option StripeParams) : M opfs Existing :=
  match stripe with
  | None => mret no_existing
  | Some _ =>
      try_catch
        (mdu0 ← readMdu dealId 0;
         match mdu0 with
         | None => mret no_existing
         | Some mdu0 =>
             let files := parseNilfsFilesFromMdu0 mdu0 in
             if bool_decide (files = []) then mret no_existing
             else
               existing ← inferWitnessCountFromOpfs dealId files;
               if 0 <? userCount existing then
                 mdus ← map_m (read_existing dealId (slabStartIdx existing)) (seqZ 0 (userCount existing));
                 mret (mkExisting (Some mdu0) mdus (userCount existing) (maxEnd existing)
                         (userCount existing * RAW_MDU_CAPACITY))
               else mret no_existing
         end)
        (fun _ => mret no_existing)
  end.

Record ShardPlan := mkPlan {
  newUserChunks : Z; totalUserChunks : Z; witnessMduCount : Z;
  witnessPayloads : list Z; userPayloads : list Z; plan_workTotal : Z
}.

(** How many of [total] bytes fall in the [i]th MDU. *)
Definition payload_of (total i : Z) : Z :=
  let start := i * RAW_MDU_CAPACITY in
  Z.max 0 (Z.min (start + RAW_MDU_CAPACITY) total - start).

(** [for (let remaining = ..., i = 0; i < witnessMduCount; i++)] *)
Fixpoint take_payloads (n : nat) (remaining : Z) : list Z :=
  match n with
  | O => []
  | S n => let take := Z.max 0 (Z.min RAW_MDU_CAPACITY remaining) in take :: take_payloads n (remaining - take)
  end.

Definition work_of (payloads : list Z) : Z :=
  fold_left (fun acc n => acc + weightedWorkForMdu (nonTrivialBlobsForPayload n)) payloads 0.

Definition make_plan (stripe : option StripeParams) (ex : Existing) (fileBytes : Z) : ShardPlan :=
  let newUserChunks := ceil_div fileBytes RAW_MDU_CAPACITY in
  let totalUserChunks := existingUserCount ex + newUserChunks in
  let '(num, den) := witness_bytes stripe totalUserChunks in
  let witnessMduCount := Z.max 1 (ceil_div num (den * RAW_MDU_CAPACITY)) in
  let witnessPayloads := take_payloads (Z.to_nat witnessMduCount) (num / den) in
  let userPayloads := map (payload_of (existingMaxEnd ex)) (seqZ 0 (existingUserCount ex)) ++
                      map (payload_of fileBytes) (seqZ 0 newUserChunks) in
  mkPlan newUserChunks totalUserChunks witnessMduCount witnessPayloads userPayloads
    (weightedWorkForMdu 1 + work_of witnessPayloads + work_of userPayloads).

Definition plan_progress (stripe : option StripeParams) (ex : Existing) (fileBytes : Z) (p : ShardPlan) : ShardProgressState :=
  mkShardProgress planning "Planning slab layout..." 0
    ((1 + witnessMduCount p + totalUserChunks p) * leafCount stripe) 0 (leafCount stripe) 0 (plan_workTotal p)
    (appendStartOffset ex + fileBytes) (totalUserChunks p) (witnessMduCount p) None None.
Definition plan_items (p : ShardPlan) : list (Z * item_status) :=
  map (fun i => (i, item_pending)) (seqZ 0 (1 + witnessMduCount p + totalUserChunks p)).

(** How many blobs to commit to between two progress messages, from the time the
    previous MDU took (in microseconds). *)
Definition pickBatchBlobs (prevMdu : option Z) : Z :=
  match prevMdu with
  | None => 4
  | Some t =>
      if t <=? 0 then 4
      else
        let est := if t <=? 64000 then 2500 else (2 * 160000000 + t) / (2 * t) in
        Z.max 4 (Z.min 16 est)
  end.

Example batches : map pickBatchBlobs [None; Some 0; Some 64000; Some 20000000; Some 16000000; Some 100000000] = [4; 4; 16; 8; 10; 4].
Proof. reflexivity. Qed.
Example work_weights : (nonTrivialBlobsForPayload RAW_MDU_CAPACITY, weightedWorkForMdu 64, weightedWorkForMdu 1) = (64, 640, 73).
Proof. reflexivity. Qed.

(** [prev.map((s) => (s.id === id ? { ...s, status } : s))] *)
Definition mark (status : item_status) (id : Z) (items : list (Z * item_status)) : list (Z * item_status) :=
  map (fun s => if s.1 =? id then (s.1, status) else s) items.

(** ** The run *)

Section Run.
Context {Ctx : Type} `{Kzg Ctx}.

(** The tab: its worker, its store and the component. *)
Record Tab := mkTab { worker : @WorkerState Ctx; store : opfs; view : Sharder }.

Definition on_store {A} (m : M opfs A) : M Tab A := fun t =>
  let '(o, fs) := m (store t) in (o, mkTab (worker t) fs (view t)).
Definition update_view (f : Sharder -> Sharder) : M Tab unit := modify (fun t => mkTab (worker t) (store t) (f (view t))).
Definition setShards (f : list (Z * item_status) -> list (Z * item_status)) : M Tab unit :=
  update_view (fun v => mkSharder (f (shards v)) (collectedMdus v) (currentManifestRoot v) (currentManifestBlob v)
    (mode2Shards v) (processing v) (shardProgress v)).
Definition setShardProgress (f : ShardProgressState -> ShardProgressState) : M Tab unit :=
  update_view (fun v => mkSharder (shards v) (collectedMdus v) (currentManifestRoot v) (currentManifestBlob v)
    (mode2Shards v) (processing v) (f (shardProgress v))).
Definition setMode2Shards (l : list (Z * list bytes)) : M Tab unit :=
  update_view (fun v => mkSharder (shards v) (collectedMdus v) (currentManifestRoot v) (currentManifestBlob v)
    l (processing v) (shardProgress v)).
Definition setCollected (mdus : list (Z * bytes)) (root : string) (blob : bytes) : M Tab unit :=
  update_view (fun v => mkSharder (shards v) mdus (Some root) (Some blob) (mode2Shards v) (processing v) (shardProgress v)).

(** *** The worker client's methods (lib/worker-client.ts) *)

(** A reply settles the promise of its message: an error reply rejects it. *)
Definition call (msg : WorkerMsg) : M Tab WorkerResult := fun t =>
  let '(r, w) := onmessage 0 msg (worker t) in
  (match r with ReplyResult _ p => Ok p | ReplyError _ text => Thrown (Error text) end, mkTab w (store t) (view t)).
Definition bad_reply : jserr := Error "unexpected worker reply".

Definition call_initMdu0Builder (maxUserMdus : Z) (c : option Z) : M Tab unit := call (initMdu0Builder maxUserMdus c) ;; mret tt.
Definition call_loadMdu0Builder (data : bytes) (maxUserMdus : Z) (c : option Z) : M Tab unit :=
  call (loadMdu0Builder data maxUserMdus c) ;; mret tt.
Definition call_appendFileToMdu0 (path : units) (size startOffset : Z) : M Tab unit :=
  call (appendFileToMdu0 path size startOffset) ;; mret tt.
Definition call_getMdu0Bytes : M Tab bytes :=
  r ← call getMdu0Bytes; match r with RBytes l => mret l | _ => mthrow bad_reply end.
Definition call_setMdu0Root (index : Z) (root : bytes) : M Tab unit := call (setMdu0Root index root) ;; mret tt.
Definition call_shardFileProgressive (data : bytes) (batchBlobs : Z) : M Tab (bytes * bytes) :=
  r ← call (shardFileProgressive data (Some batchBlobs)); match r with RCommit w root => mret (w, root) | _ => mthrow bad_reply end.
Definition call_expandMduRs (data : bytes) (k m : Z) : M Tab (bytes * bytes * list bytes) :=
  r ← call (expandMduRs data k m); match r with RStripe w root shards => mret (w, root, shards) | _ => mthrow bad_reply end.
Definition call_computeManifest (roots : bytes) : M Tab (bytes * bytes) :=
  r ← call (computeManifest roots); match r with RManifest root blob => mret (root, blob) | _ => mthrow bad_reply end.

(** *** One MDU after the other *)

(** The local variables of the run. *)
Record Run := mkRunVars {
  userRoots : list bytes; userMdus : list (Z * bytes); witnessDataBlobs : list bytes;
  mode2UserShards : list (Z * list bytes); witnessRoots : list bytes; witnessMdus : list (Z * bytes);
  mdusCommitted : Z; workCommitted : Z; prevCommitMsPerMdu : option Z
}.
Definition run_init : Run := mkRunVars [] [] [] [] [] [] 0 0 None.

Context (file : File) (stripe : option StripeParams) (ex : Existing) (plan : ShardPlan).
(** What the clock measures for each MDU committed. *)
Context (opMs : Z -> Z).

Definition set_item (id : Z) (status : item_status) : M Tab unit :=
  setShards (mark status id).

Definition begin_mdu (phase : ShardPhase) (label : string) (kind : mdu_kind) (i : Z) (r : Run) : M Tab unit :=
  setShardProgress (fun p => mkShardProgress phase label (mdusCommitted r * BLOBS_PER_MDU) (sp_blobsTotal p) 0 (sp_blobsPerMdu p)
    (workCommitted r) (sp_workTotal p) (sp_fileBytesTotal p) (sp_totalUserMdus p) (sp_totalWitnessMdus p) (Some i) (Some kind)).
Definition end_mdu (blobsInCurrent : Z) (r : Run) : M Tab unit :=
  setShardProgress (fun p => mkShardProgress (sp_phase p) (sp_label p) (mdusCommitted r * BLOBS_PER_MDU) (sp_blobsTotal p)
    blobsInCurrent (sp_blobsPerMdu p) (workCommitted r) (sp_workTotal p) (sp_fileBytesTotal p) (sp_totalUserMdus p)
    (sp_totalWitnessMdus p) (sp_currentMduIndex p) (sp_currentMduKind p)).

(** [userMdus[i]]: an existing MDU as it is, a new one encoded. *)
Definition user_mdu (i : Z) : outcome bytes :=
  if appendMode2 ex && (i <? existingUserCount ex) then
    match existingUserMdus ex !! Z.to_nat i with
    | Some data => mret data
    | None => mthrow (JsError "TypeError" "Cannot read properties of undefined (reading 'data')")
    end
  else
    let start := (i - existingUserCount ex) * RAW_MDU_CAPACITY in
    let stop := Z.min (start + RAW_MDU_CAPACITY) (zlen (file_bytes file)) in
    encodeToMdu (slice start stop (file_bytes file)).

(** The witness, the root and, for a mode 2 deal, the shards of an MDU. *)
Definition commit_user (r : Run) (data : bytes) : M Tab (bytes * bytes * list bytes) :=
  match stripe with
  | Some s => call_expandMduRs data (rs_k s) (rs_m s)
  | None => c ← call_shardFileProgressive data (pickBatchBlobs (prevCommitMsPerMdu r)); mret (c.1, c.2, [])
  end.

Definition user_step (r : Run) (i : Z) : M Tab Run :=
  let work := weightedWorkForMdu (nonTrivialBlobsForPayload (nth (Z.to_nat i) (userPayloads plan) 0)) in
  let id := 1 + witnessMduCount plan + i in
  begin_mdu shard_user ("Sharding user MDU #" +:+ string_of_Z i +:+ "...") kind_user i r ;;
  set_item id item_processing ;;
  encodedMdu ← lift (user_mdu i);
  c ← commit_user r encodedMdu;
  let striped := match stripe with
                 | Some _ => if appendMode2 ex && (i <? existingUserCount ex) then [] else [(i, c.2)]
                 | None => []
                 end in
  let r' := mkRunVars (userRoots r ++ [c.1.2]) (userMdus r ++ [(i, encodedMdu)]) (witnessDataBlobs r ++ [c.1.1])
              (mode2UserShards r ++ striped) (witnessRoots r) (witnessMdus r) (mdusCommitted r + 1)
              (workCommitted r + work) (Some (opMs (mdusCommitted r))) in
  end_mdu (match stripe with Some _ => BLOBS_PER_MDU | None => 0 end) r' ;;
  set_item id item_expanded ;;
  mret r'.

Definition witness_step (fullWitnessData : bytes) (r : Run) (i : Z) : M Tab Run :=
  let work := weightedWorkForMdu (nonTrivialBlobsForPayload (nth (Z.to_nat i) (witnessPayloads plan) 0)) in
  begin_mdu shard_witness ("Sharding witness MDU #" +:+ string_of_Z i +:+ "...") kind_witness i r ;;
  set_item (1 + i) item_processing ;;
  let start := i * RAW_MDU_CAPACITY in
  let stop := Z.min (start + RAW_MDU_CAPACITY) (zlen fullWitnessData) in
  witnessMduBytes ← lift (encodeToMdu (slice start stop fullWitnessData));
  c ← call_shardFileProgressive witnessMduBytes (pickBatchBlobs (prevCommitMsPerMdu r));
  call_setMdu0Root i c.2 ;;
  let r' := mkRunVars (userRoots r) (userMdus r) (witnessDataBlobs r) (mode2UserShards r) (witnessRoots r ++ [c.2])
              (witnessMdus r ++ [(1 + i, witnessMduBytes)]) (mdusCommitted r + 1) (workCommitted r + work)
              (Some (opMs (mdusCommitted r))) in
  end_mdu 0 r' ;;
  set_item (1 + i) item_expanded ;;
  mret r'.

(** [allRoots]: each root is copied to its own 32 bytes.  The offset is at most 32 times
    the number of MDUs, 65537 at most, far below the range of a double's integers. *)
Fixpoint set_roots (buf : bytes) (aggOffset : Z) (roots : list bytes) : outcome bytes :=
  match roots with
  | [] => mret buf
  | root :: rest => buf' ← set_bytes buf aggOffset root; set_roots buf' (aggOffset + 32) rest
  end.
Definition all_roots (mdu0Root : bytes) (witness user : list bytes) : outcome bytes :=
  set_roots (zeros (32 * (1 + zlen witness + zlen user))) 0 (mdu0Root :: witness ++ user).

Definition begin_builder : M Tab unit :=
  c ← lift (commitmentsPerMdu stripe);
  match baseMdu0Bytes ex with
  | Some data => if appendMode2 ex then call_loadMdu0Builder data (totalUserChunks plan) c
                 else call_initMdu0Builder (totalUserChunks plan) c
  | None => call_initMdu0Builder (totalUserChunks plan) c
  end.

Definition shard_witnesses (r : Run) : M Tab Run :=
  let fullWitnessData := concat (witnessDataBlobs r) in
  let actualWitnessMduCount := ceil_div (zlen fullWitnessData) RAW_MDU_CAPACITY in
  if negb (actualWitnessMduCount =? witnessMduCount plan) then
    js_error ("witness_mdu_count mismatch (expected " +:+ string_of_Z (witnessMduCount plan) +:+ ", got " +:+
              string_of_Z actualWitnessMduCount +:+ ")")
  else fold_m (witness_step fullWitnessData) r (seqZ 0 (witnessMduCount plan)).

(** MDU #0: its bytes and root. *)
Definition finalize (r : Run) : M Tab (bytes * bytes * Run) :=
  for_each (seqZ 0 (zlen (userRoots r))) (fun i =>
    call_setMdu0Root (witnessMduCount plan + i) (nth (Z.to_nat i) (userRoots r) [])) ;;
  let fileStartOffset := if appendMode2 ex then appendStartOffset ex else 0 in
  call_appendFileToMdu0 (sanitizeNilfsRecordPath (file_name file)) (zlen (file_bytes file)) fileStartOffset ;;
  begin_mdu finalize_mdu0 "Finalizing MDU #0..." kind_meta 0 r ;;
  set_item 0 item_processing ;;
  mdu0Bytes ← call_getMdu0Bytes;
  c ← call_shardFileProgressive mdu0Bytes (pickBatchBlobs (prevCommitMsPerMdu r));
  set_item 0 item_expanded ;;
  let r' := mkRunVars (userRoots r) (userMdus r) (witnessDataBlobs r) (mode2UserShards r) (witnessRoots r) (witnessMdus r)
              (mdusCommitted r + 1) (workCommitted r + weightedWorkForMdu 1) (Some (opMs (mdusCommitted r))) in
  end_mdu 0 r' ;;
  mret (mdu0Bytes, c.2, r').

Definition final_mdus (mdu0Bytes : bytes) (r : Run) : list (Z * bytes) :=
  (0, mdu0Bytes) :: witnessMdus r ++ map (fun m => (1 + witnessMduCount plan + m.1, m.2)) (userMdus r).

(** The manifest over all roots, and the slab handed to the component. *)
Definition publish (mdu0Bytes mdu0Root : bytes) (r : Run) : M Tab unit :=
  allRoots ← lift (all_roots mdu0Root (witnessRoots r) (userRoots r));
  setShardProgress (fun p => mkShardProgress compute_manifest_phase "Computing manifest commitment..." (sp_blobsDone p)
    (sp_blobsTotal p) (sp_blobsInCurrentMdu p) (sp_blobsPerMdu p) (sp_workDone p) (sp_workTotal p) (sp_fileBytesTotal p)
    (sp_totalUserMdus p) (sp_totalWitnessMdus p) None None) ;;
  manifest ← call_computeManifest allRoots;
  setCollected (final_mdus mdu0Bytes r) (bytesToHex manifest.1) manifest.2 ;;
  setShardProgress (fun p => mkShardProgress phase_done "Client-side expansion complete." (sp_blobsTotal p) (sp_blobsTotal p)
    0 (sp_blobsPerMdu p) (sp_workDone p) (sp_workTotal p) (sp_fileBytesTotal p) (sp_totalUserMdus p)
    (sp_totalWitnessMdus p) None None).

(** The body of the [try]. *)
Definition shard_body : M Tab unit :=
  begin_builder ;;
  r ← fold_m user_step run_init (seqZ 0 (totalUserChunks plan));
  (match stripe with Some _ => setMode2Shards (mode2UserShards r) | None => mret tt end) ;;
  r ← shard_witnesses r;
  f ← finalize r;
  publish f.1.1 f.1.2 f.2.
End Run.

Section Process.
Context {Ctx : Type} `{Kzg Ctx}.
Context (opMs : Z -> Z) (dealId : string) (stripe : option StripeParams).

Definition set_processing (b : bool) (t : Tab) : @Tab Ctx :=
  let v := view t in
  mkTab (worker t) (store t) (mkSharder (shards v) (collectedMdus v) (currentManifestRoot v) (currentManifestBlob v)
    (mode2Shards v) b (shardProgress v)).

Definition fail_progress (e : jserr) (p : ShardProgressState) : ShardProgressState :=
  mkShardProgress phase_error (err_message e) (sp_blobsDone p) (sp_blobsTotal p)
    (sp_blobsInCurrentMdu p) (sp_blobsPerMdu p) (sp_workDone p) (sp_workTotal p) (sp_fileBytesTotal p)
    (sp_totalUserMdus p) (sp_totalWitnessMdus p) None None.

(** What [processFile] clears first. *)
Definition begin_processing (file : File) : M (@Tab Ctx) unit :=
  update_view (fun v => mkSharder [] [] None None [] true (reset_progress (zlen (file_bytes file)))).

(** [processFile] once the wallet is connected, the WASM is ready and the gateway has
    not taken the file; it settles normally whatever happens. *)
Definition shard_locally (file : File) : M (@Tab Ctx) unit :=
  ex ← on_store (load_existing dealId stripe);
  let plan := make_plan stripe ex (zlen (file_bytes file)) in
  setShardProgress (fun _ => plan_progress stripe ex (zlen (file_bytes file)) plan) ;;
  setShards (fun _ => plan_items plan) ;;
  finally
    (try_catch (shard_body file stripe ex plan opMs)
       (fun e => setShardProgress (fail_progress e) ;; setShards (fun _ => [])))
    (set_processing false).

(** The whole run in the browser. *)
Definition processFile (file : File) : M (@Tab Ctx) unit := begin_processing file ;; shard_locally file.
End Process.

(** ** What a successful step does *)

Section Steps.
Context {Ctx : Type} `{Kzg Ctx}.
Implicit Types t : @Tab Ctx.

Lemma call_ok msg t r t' :
  call msg t = (Ok r, t') ->
  dispatch msg (worker t) = (Ok r, worker t') /\ store t' = store t /\ view t' = view t.
Proof.
  unfold call, onmessage; rewrite bind_run; unfold initializeWasm.
  destruct (wasm_init (worker t)); [|done].
  destruct (dispatch msg (worker t)) as [ [p|e] w]; [|done]; by intros [= -> <-].
Qed.

(** The messages that only compute. *)
Definition computes (msg : WorkerMsg) : Prop :=
  match msg with shardFileProgressive _ _ | expandMduRs _ _ _ | computeManifest _ => True | _ => False end.

Lemma dispatch_computes msg (s : @WorkerState Ctx) r s' : computes msg -> dispatch msg s = (Ok r, s') -> s' = s.
Proof.
  destruct msg; intros Hc Hd; try done; cbn [dispatch] in Hd;
    apply bind_ok in Hd as (c & s1 & Hn & Hd); apply need_wasm_same in Hn as [-> _];
    apply bind_ok in Hd as (x & s2 & Hl & Hd); apply lift_same in Hl as ->; by injection Hd.
Qed.

Lemma tab_eq t t' : worker t' = worker t -> store t' = store t -> view t' = view t -> t' = t.
Proof. destruct t, t'; cbn; by intros -> -> ->. Qed.

Lemma call_computes msg t r t' : computes msg -> call msg t = (Ok r, t') -> t' = t.
Proof. intros Hc (Hd & Hs & Hv)%call_ok. apply tab_eq; [by eapply dispatch_computes|done..]. Qed.

(** Setting a root keeps what the builder lists. *)
Lemma call_setMdu0Root_ok i root t t' files :
  0 <= i -> listing (worker t) files -> call_setMdu0Root i root t = (Ok tt, t') ->
  listing (worker t') files /\ store t' = store t /\ view t' = view t.
Proof.
  intros Hi Hl Hc; apply bind_ok in Hc as (r & t1 & Hc & Heq); injection Heq as <-.
  apply call_ok in Hc as (Hd & Hs & Hv); split; [|done].
  rewrite <- (app_nil_r files). apply (send_building (setMdu0Root i root) (worker t)); [done|done|].
  unfold send; rewrite bind_run, Hd; reflexivity.
Qed.

Definition user_entry (file : File) (start : Z) : NilfsFileEntry :=
  mkEntry (trim_units (sanitizeNilfsRecordPath (file_name file))) (zlen (file_bytes file)) start 0.

Lemma call_append_ok (file : File) start t t' files :
  Forall ascii_unit (file_name file) -> 0 < zlen (file_bytes file) < 2 ^ 53 -> 0 <= start < 2 ^ 53 ->
  listing (worker t) files ->
  call_appendFileToMdu0 (sanitizeNilfsRecordPath (file_name file)) (zlen (file_bytes file)) start t = (Ok tt, t') ->
  listing (worker t') (files ++ [user_entry file start]) /\ store t' = store t /\ view t' = view t.
Proof.
  intros Hn Hz Ho Hl Hc; apply bind_ok in Hc as (r & t1 & Hc & Heq); injection Heq as <-.
  apply call_ok in Hc as (Hd & Hs & Hv); split; [|done].
  apply (send_building (appendFileToMdu0 (sanitizeNilfsRecordPath (file_name file)) (zlen (file_bytes file)) start) (worker t));
    [split; [by exists (file_name file)|done]|done|].
  unfold send; rewrite bind_run, Hd; reflexivity.
Qed.

Lemma call_getMdu0Bytes_ok t l t' files :
  listing (worker t) files -> call_getMdu0Bytes t = (Ok l, t') ->
  parseNilfsFilesFromMdu0 l = files /\ store t' = store t /\ view t' = view t.
Proof.
  intros (b & Hb & Hinv & Hp) Hc; apply bind_ok in Hc as (r & t1 & Hc & Heq).
  apply call_ok in Hc as (Hd & Hs & Hv); cbn [dispatch] in Hd.
  apply bind_ok in Hd as (b0 & w & Hn & Hd); apply need_builder_same in Hn as [-> Hb0].
  assert (b0 = b) as -> by congruence.
  apply bind_ok in Hd as (u & w1 & Hm & Hd); unfold modify in Hm; injection Hm as _ <-. apply mret_ok in Hd as [<- _].
  apply mret_ok in Heq as [<- <-]. split; [exact Hp|split; [exact Hs|exact Hv] ].
Qed.

(** Items and progress. *)
Definition expanded_on (ids : Z -> Prop) (items : list (Z * item_status)) : Prop :=
  Forall (fun s => ids s.1 -> s.2 = item_expanded) items.

Lemma map_fst_mark st id items : map fst (mark st id items) = map fst items.
Proof. unfold mark; rewrite map_map; apply map_ext; intros s; by destruct (s.1 =? id). Qed.

Lemma expanded_mark (ids ids' : Z -> Prop) id items :
  expanded_on ids items -> (forall j, ids' j -> ids j \/ j = id) ->
  expanded_on ids' (mark item_expanded id (mark item_processing id items)).
Proof.
  intros He Hsub; unfold expanded_on, mark; rewrite map_map, !Forall_map. eapply Forall_impl; [exact He|].
  intros s Hs; destruct (Z.eqb_spec s.1 id) as [E|E]; cbn [fst snd].
  - rewrite E, Z.eqb_refl; reflexivity.
  - rewrite (proj2 (Z.eqb_neq _ _) E); intros Hj; by destruct (Hsub _ Hj) as [Hi|Hi]; [apply Hs|].
Qed.

Lemma view_step (f : Sharder -> Sharder) t u t1 : update_view f t = (Ok u, t1) -> t1 = mkTab (worker t) (store t) (f (view t)).
Proof. by intros [= _ <-]. Qed.

Lemma call_sharding_ok data batch t c t1 : call_shardFileProgressive data batch t = (Ok c, t1) -> t1 = t.
Proof.
  intros Hc; apply bind_ok in Hc as (r & t0 & Hc & Heq). apply call_computes in Hc as ->; [|done].
  destruct r; try discriminate Heq; by apply mret_ok in Heq as [_ <-].
Qed.
Lemma call_expand_ok data k m t c t1 : call_expandMduRs data k m t = (Ok c, t1) -> t1 = t.
Proof.
  intros Hc; apply bind_ok in Hc as (r & t0 & Hc & Heq). apply call_computes in Hc as ->; [|done].
  destruct r; try discriminate Heq; by apply mret_ok in Heq as [_ <-].
Qed.
Lemma call_manifest_ok roots t c t1 : call_computeManifest roots t = (Ok c, t1) -> t1 = t.
Proof.
  intros Hc; apply bind_ok in Hc as (r & t0 & Hc & Heq). apply call_computes in Hc as ->; [|done].
  destruct r; try discriminate Heq; by apply mret_ok in Heq as [_ <-].
Qed.
Lemma commit_user_ok stripe r data t c t1 : commit_user stripe r data t = (Ok c, t1) -> t1 = t.
Proof.
  unfold commit_user; destruct stripe as [s|]; [apply call_expand_ok|].
  intros Hc; apply bind_ok in Hc as (c0 & t0 & Hc & Heq); apply call_sharding_ok in Hc as ->; by apply mret_ok in Heq as [_ <-].
Qed.

(** What the steps between two publications leave alone. *)
Definition frame (v0 v : Sharder) : Prop :=
  collectedMdus v = collectedMdus v0 /\ currentManifestRoot v = currentManifestRoot v0 /\
  currentManifestBlob v = currentManifestBlob v0 /\ processing v = processing v0 /\
  map fst (shards v) = map fst (shards v0) /\ sp_workTotal (shardProgress v) = sp_workTotal (shardProgress v0) /\
  sp_totalWitnessMdus (shardProgress v) = sp_totalWitnessMdus (shardProgress v0).

Lemma frame_refl v : frame v v.
Proof. by repeat split. Qed.
Lemma frame_trans v0 v1 v2 : frame v0 v1 -> frame v1 v2 -> frame v0 v2.
Proof. intros (? & ? & ? & ? & ? & ? & ?) (? & ? & ? & ? & ? & ? & ?); repeat split; congruence. Qed.

Section User.
Context (file : File) (stripe : option StripeParams) (ex : Existing) (plan : ShardPlan) (opMs : Z -> Z).

Definition user_work (i : Z) : Z := weightedWorkForMdu (nonTrivialBlobsForPayload (nth (Z.to_nat i) (userPayloads plan) 0)).
Definition witness_work (i : Z) : Z := weightedWorkForMdu (nonTrivialBlobsForPayload (nth (Z.to_nat i) (witnessPayloads plan) 0)).

(** The striped shards kept of user MDU [i]: none for an existing MDU or in mode 1. *)
Definition striped (i : Z) (l : list (Z * list bytes)) : Prop :=
  match stripe with
  | None => l = []
  | Some s =>
      if appendMode2 ex && (i <? existingUserCount ex) then l = []
      else exists ctx data witness root shs, user_mdu file ex i = Ok data /\
             expand_stripe ctx data (rs_k s) (rs_m s) = Ok (witness, root, shs) /\ l = [(i, shs)]
  end.

Lemma commit_striped s r data t c t1 : stripe = Some s -> commit_user stripe r data t = (Ok c, t1) ->
  exists ctx witness root, expand_stripe ctx data (rs_k s) (rs_m s) = Ok (witness, root, c.2).
Proof.
  intros -> Hc; apply bind_ok in Hc as (rep & t0 & Hc & Heq); apply call_ok in Hc as (Hd & _ & _); cbn [dispatch] in Hd.
  apply bind_ok in Hd as (ctx & w & _ & Hd); apply bind_ok in Hd as (x & w1 & Hl & Hd); apply mret_ok in Hd as [<- _].
  apply mret_ok in Heq as [<- _]; cbn [snd]. unfold lift in Hl; injection Hl as Hl _. destruct x as [ [wt root] shs]. by exists ctx, wt, root.
Qed.

Lemma user_step_ok r i t r' t' :
  user_step file stripe ex plan opMs r i t = (Ok r', t') ->
  worker t' = worker t /\ store t' = store t /\ frame (view t) (view t') /\
  shards (view t') = mark item_expanded (1 + witnessMduCount plan + i) (mark item_processing (1 + witnessMduCount plan + i) (shards (view t))) /\
  sp_workDone (shardProgress (view t')) = workCommitted r' /\ workCommitted r' = workCommitted r + user_work i /\
  witnessRoots r' = witnessRoots r /\ witnessMdus r' = witnessMdus r /\
  (exists root, userRoots r' = userRoots r ++ [root]) /\
  mode2Shards (view t') = mode2Shards (view t) /\
  (exists l, striped i l /\ mode2UserShards r' = mode2UserShards r ++ l) /\
  exists data, user_mdu file ex i = Ok data /\ userMdus r' = userMdus r ++ [(i, data)].
Proof.
  unfold user_step; intros Hu.
  apply bind_ok in Hu as (? & t1 & H1 & Hu); apply view_step in H1 as ->.
  apply bind_ok in Hu as (? & t2 & H2 & Hu); apply view_step in H2 as ->.
  apply bind_ok in Hu as (data & t3 & H3 & Hu); apply lift_ok in H3 as [Hdata ->].
  apply bind_ok in Hu as (c & t4 & H4 & Hu). pose proof (fun s Hs => commit_striped s _ _ _ _ _ Hs H4) as Hstr; apply commit_user_ok in H4 as ->.
  apply bind_ok in Hu as (? & t5 & H5 & Hu); apply view_step in H5 as ->.
  apply bind_ok in Hu as (? & t6 & H6 & Hu); apply view_step in H6 as ->.
  apply mret_ok in Hu as [<- <-]; cbn [worker store view shards shardProgress].
  split; [done|split; [done|split] ].
  { repeat split; cbn [shards collectedMdus currentManifestRoot currentManifestBlob processing shardProgress]; rewrite ?map_fst_mark; done. }
  split; [done|]. split; [done|]. split; [done|]. split; [done|]. split; [done|].
  split; [by eexists|]. split; [done|]. split; [|by exists data].
  eexists; split; [|reflexivity]. unfold striped; destruct stripe as [s|]; [|done].
  destruct (appendMode2 ex && (i <? existingUserCount ex)); [done|].
  destruct (Hstr s eq_refl) as (ctx & wt & root & Hexp). by exists ctx, data, wt, root, c.2.
Qed.

Lemma witness_step_ok full r i t r' t' files :
  0 <= i -> listing (worker t) files ->
  witness_step plan opMs full r i t = (Ok r', t') ->
  listing (worker t') files /\ store t' = store t /\ frame (view t) (view t') /\
  shards (view t') = mark item_expanded (1 + i) (mark item_processing (1 + i) (shards (view t))) /\
  sp_workDone (shardProgress (view t')) = workCommitted r' /\ workCommitted r' = workCommitted r + witness_work i /\
  userMdus r' = userMdus r /\ userRoots r' = userRoots r /\ mode2Shards (view t') = mode2Shards (view t) /\
  (exists root, witnessRoots r' = witnessRoots r ++ [root]) /\
  exists data, encodeToMdu (slice (i * RAW_MDU_CAPACITY) (Z.min (i * RAW_MDU_CAPACITY + RAW_MDU_CAPACITY) (zlen full)) full) = Ok data /\
    witnessMdus r' = witnessMdus r ++ [(1 + i, data)].
Proof.
  unfold witness_step; intros Hi Hl Hu.
  apply bind_ok in Hu as (? & t1 & H1 & Hu); apply view_step in H1 as ->.
  apply bind_ok in Hu as (? & t2 & H2 & Hu); apply view_step in H2 as ->.
  apply bind_ok in Hu as (data & t3 & H3 & Hu); apply lift_ok in H3 as [Hdata ->].
  apply bind_ok in Hu as (c & t4 & H4 & Hu); apply call_sharding_ok in H4 as ->.
  apply bind_ok in Hu as ([] & t5 & H5 & Hu); apply (call_setMdu0Root_ok _ _ _ _ files) in H5 as (Hl' & Hs' & Hv'); [|done|done].
  apply bind_ok in Hu as (? & t6 & H6 & Hu); apply view_step in H6 as ->.
  apply bind_ok in Hu as (? & t7 & H7 & Hu); apply view_step in H7 as ->.
  apply mret_ok in Hu as [<- <-]; cbn [worker store view shards shardProgress] in *; rewrite !Hv'; cbn [shards].
  split; [done|split; [done|split] ].
  { repeat split; cbn [shards collectedMdus currentManifestRoot currentManifestBlob processing shardProgress]; rewrite ?map_fst_mark; done. }
  split; [done|]. split; [done|]. split; [done|]. split; [done|]. split; [done|]. split; [done|].
  split; [by eexists|]. by exists data.
Qed.

Definition sum_work (f : Z -> Z) (ids : list Z) : Z := fold_left (fun acc i => acc + f i) ids 0.
Lemma sum_work_snoc f ids i : sum_work f (ids ++ [i]) = sum_work f ids + f i.
Proof. unfold sum_work; by rewrite fold_left_app. Qed.

(** The indexed MDUs pushed by a loop over [ids]. *)
Definition pushed (make : Z -> outcome bytes) (shift : Z) (ids : list Z) (mdus : list (Z * bytes)) : Prop :=
  Forall2 (fun i m => m.1 = shift + i /\ make i = Ok m.2) ids mdus.
Lemma pushed_snoc make shift ids mdus i data :
  pushed make shift ids mdus -> make i = Ok data -> pushed make shift (ids ++ [i]) (mdus ++ [(shift + i, data)]).
Proof. intros Hp Hm; apply Forall2_app; [done|]. by repeat constructor. Qed.

Definition witness_ids (n : Z) (id : Z) : Prop := 1 <= id < 1 + n.
Definition user_ids (n : Z) (id : Z) : Prop := 1 + witnessMduCount plan <= id < 1 + witnessMduCount plan + n.

Lemma zlen_seqZ n : 0 <= n -> zlen (seqZ 0 n) = n.
Proof. intros; unfold zlen; rewrite length_seqZ; lia. Qed.
Lemma seqZ_prefix n seen i rest : seqZ 0 n = seen ++ i :: rest -> i = zlen seen /\ i < n.
Proof.
  intros Hl; assert (seqZ 0 n !! length seen = Some i) as Hi by (rewrite Hl, lookup_app_r, Nat.sub_diag by lia; done).
  apply lookup_seqZ in Hi as [-> Hb]; unfold zlen; lia.
Qed.

Definition user_inv t (seen : list Z) (r : Run) t' : Prop :=
  worker t' = worker t /\ store t' = store t /\ frame (view t) (view t') /\
  expanded_on (user_ids (zlen seen)) (shards (view t')) /\
  workCommitted r = sum_work user_work seen /\ zlen (userRoots r) = zlen seen /\ witnessRoots r = [] /\ witnessMdus r = [] /\
  pushed (user_mdu file ex) 0 seen (userMdus r) /\
  mode2Shards (view t') = mode2Shards (view t) /\ exists ls, Forall2 striped seen ls /\ mode2UserShards r = concat ls.

Lemma user_loop_ok t r t' n :
  fold_m (user_step file stripe ex plan opMs) run_init (seqZ 0 n) t = (Ok r, t') -> user_inv t (seqZ 0 n) r t'.
Proof.
  intros Hrun; refine (fold_m_inv (user_inv t) _ _ _ _ _ _ _ _ Hrun).
  - clear Hrun r t'; intros i seen rest r1 t1 r2 t2 [Hi _]%seqZ_prefix (Hw & Hs & Hf & He & Hc & Hr & Hwr & Hwm & Hp & Hv & ls & Hls & Hm2) Hu.
    apply user_step_ok in Hu as (Hw' & Hs' & Hf' & Hsh & _ & Hc' & Hwr' & Hwm' & [root Hr'] & Hv' & (l & Hl & Hm2') & data & Hd & Hp').
    unfold user_inv; rewrite Hw', Hs', Hc', Hwr', Hwm', Hr', Hp', Hv', Hm2', Hm2, sum_work_snoc, Hsh, !zlen_app, Hr, Hc.
    split; [done|split; [done|split; [by eapply frame_trans|split] ] ]; cycle 1.
    { do 4 (split; [done|]); split; [by apply (pushed_snoc _ 0)|]. split; [done|]. exists (ls ++ [l]).
      split; [apply Forall2_app; [done|by repeat constructor]|]. by rewrite concat_app; cbn [concat]; rewrite app_nil_r. }
    eapply expanded_mark; [exact He|]; unfold user_ids. intros j; change (zlen [i]) with 1; lia.
  - repeat split; try done; [|constructor|by exists []]. apply Forall_true; unfold user_ids; intros s; change (zlen (@nil Z)) with 0; lia.
Qed.

Definition witness_inv (full : bytes) (files : list NilfsFileEntry) t (r0 : Run) (seen : list Z) (r : Run) t' : Prop :=
  listing (worker t') files /\ store t' = store t /\ frame (view t) (view t') /\ mode2Shards (view t') = mode2Shards (view t) /\
  expanded_on (fun id => user_ids (totalUserChunks plan) id \/ witness_ids (zlen seen) id) (shards (view t')) /\
  workCommitted r = workCommitted r0 + sum_work witness_work seen /\
  userMdus r = userMdus r0 /\ userRoots r = userRoots r0 /\ zlen (witnessRoots r) = zlen seen /\
  pushed (fun i => encodeToMdu (slice (i * RAW_MDU_CAPACITY) (Z.min (i * RAW_MDU_CAPACITY + RAW_MDU_CAPACITY) (zlen full)) full))
    1 seen (witnessMdus r).

Lemma witness_loop_ok full files t r0 r t' n :
  listing (worker t) files -> witnessRoots r0 = [] -> witnessMdus r0 = [] ->
  expanded_on (user_ids (totalUserChunks plan)) (shards (view t)) ->
  fold_m (witness_step plan opMs full) r0 (seqZ 0 n) t = (Ok r, t') -> witness_inv full files t r0 (seqZ 0 n) r t'.
Proof.
  intros Hl Hr0 Hm0 He0 Hrun; refine (fold_m_inv (witness_inv full files t r0) _ _ _ _ _ _ _ _ Hrun).
  - clear Hrun r t'; intros i seen rest r1 t1 r2 t2 [Hi _]%seqZ_prefix (Hw & Hs & Hf & Hm & He & Hc & Hu & Hur & Hz & Hp) Hrun.
    apply (witness_step_ok _ _ _ _ _ _ files) in Hrun
      as (Hw' & Hs' & Hf' & Hsh & _ & Hc' & Hu' & Hur' & Hm' & [root Hr'] & data & Hd & Hp'); [|pose proof (zlen_nonneg seen); lia|done].
    unfold witness_inv; rewrite Hs', Hc', Hu', Hur', Hm', Hr', Hp', sum_work_snoc, Hsh, !zlen_app, Hz, Hc.
    change (zlen [root]) with (zlen [i]). split; [done|split; [done|split; [by eapply frame_trans|split; [done|] ] ] ].
    split; [|split; [lia|split; [done|split; [done|split; [done|by apply pushed_snoc] ] ] ] ].
    eapply expanded_mark; [exact He|]; unfold witness_ids; change (zlen [i]) with 1.
    intros j [Hj|Hj]; [by left; left|]. destruct (Z.eq_dec j (1 + i)); [by right|left; right; lia].
  - repeat split; try done; [|unfold sum_work; cbn; lia|by rewrite Hr0|rewrite Hm0; constructor].
    eapply Forall_impl; [exact He0|]. intros s Hs [Hu|Hu]; [by apply Hs|]. unfold witness_ids in Hu.
    change (zlen (@nil Z)) with 0 in Hu; lia.
Qed.

Lemma set_user_roots_ok (roots : list bytes) files : forall l t t',
  Forall (fun i => 0 <= i) l -> 0 <= witnessMduCount plan -> listing (worker t) files ->
  for_each l (fun i => call_setMdu0Root (witnessMduCount plan + i) (nth (Z.to_nat i) roots [])) t = (Ok tt, t') ->
  listing (worker t') files /\ store t' = store t /\ view t' = view t.
Proof.
  induction l as [|i l IH]; intros t t' Hall Hw Hl Hrun; cbn [for_each] in Hrun; [by apply mret_ok in Hrun as [_ <-]|].
  apply Forall_cons in Hall as [Hi Hall]; apply bind_ok in Hrun as ([] & t1 & Hc & Hrun).
  apply (call_setMdu0Root_ok _ _ _ _ files) in Hc as (Hl' & Hs & Hv); [|lia|done].
  destruct (IH _ _ Hall Hw Hl' Hrun) as (Hl'' & Hs' & Hv'); split; [done|]. by rewrite Hs', Hv'.
Qed.

Definition start_offset_of : Z := if appendMode2 ex then appendStartOffset ex else 0.

Lemma finalize_ok r t f t' files :
  Forall ascii_unit (file_name file) -> 0 < zlen (file_bytes file) < 2 ^ 53 -> 0 <= start_offset_of < 2 ^ 53 ->
  0 <= witnessMduCount plan -> listing (worker t) files ->
  finalize file ex plan opMs r t = (Ok f, t') ->
  parseNilfsFilesFromMdu0 f.1.1 = files ++ [user_entry file start_offset_of] /\ store t' = store t /\
  frame (view t) (view t') /\ mode2Shards (view t') = mode2Shards (view t) /\
  shards (view t') = mark item_expanded 0 (mark item_processing 0 (shards (view t))) /\
  sp_workDone (shardProgress (view t')) = workCommitted r + weightedWorkForMdu 1 /\
  userMdus f.2 = userMdus r /\ witnessMdus f.2 = witnessMdus r /\ userRoots f.2 = userRoots r /\ witnessRoots f.2 = witnessRoots r.
Proof.
  unfold finalize; intros Hn Hz Ho Hw Hl Hu.
  apply bind_ok in Hu as ([] & t1 & H1 & Hu); apply (set_user_roots_ok _ files) in H1 as (Hl1 & Hs1 & Hv1); [|apply Forall_forall; intros i Hi; apply elem_of_seqZ in Hi; lia|done|done].
  apply bind_ok in Hu as ([] & t2 & H2 & Hu); apply (call_append_ok _ _ _ _ files) in H2 as (Hl2 & Hs2 & Hv2); [|done..].
  apply bind_ok in Hu as (? & t3 & H3 & Hu); apply view_step in H3 as ->.
  apply bind_ok in Hu as (? & t4 & H4 & Hu); apply view_step in H4 as ->.
  apply bind_ok in Hu as (mdu0 & t5 & H5 & Hu);
    apply (call_getMdu0Bytes_ok _ _ _ (files ++ [user_entry file start_offset_of])) in H5 as (Hp5 & Hs5 & Hv5); [|done].
  apply bind_ok in Hu as (c & t6 & H6 & Hu); apply call_sharding_ok in H6 as ->.
  apply bind_ok in Hu as (? & t7 & H7 & Hu); apply view_step in H7 as ->.
  apply bind_ok in Hu as (? & t8 & H8 & Hu); apply view_step in H8 as ->.
  apply mret_ok in Hu as [<- <-]; cbn [worker store view fst snd] in *. rewrite Hv5, Hs5, Hv2, Hv1, Hs2, Hs1.
  split; [exact Hp5|]. split; [reflexivity|]. split; [|by repeat split].
  repeat split; cbn [shards collectedMdus currentManifestRoot currentManifestBlob processing shardProgress]; rewrite ?map_fst_mark; done.
Qed.

Lemma publish_ok mdu0 root r t t' :
  publish plan mdu0 root r t = (Ok tt, t') ->
  store t' = store t /\ collectedMdus (view t') = final_mdus plan mdu0 r /\
  shards (view t') = shards (view t) /\ mode2Shards (view t') = mode2Shards (view t) /\
  sp_phase (shardProgress (view t')) = phase_done /\
  sp_workDone (shardProgress (view t')) = sp_workDone (shardProgress (view t)) /\
  sp_workTotal (shardProgress (view t')) = sp_workTotal (shardProgress (view t)) /\
  sp_totalWitnessMdus (shardProgress (view t')) = sp_totalWitnessMdus (shardProgress (view t)) /\
  processing (view t') = processing (view t) /\
  exists allRoots manifest blob, all_roots root (witnessRoots r) (userRoots r) = Ok allRoots /\
    dispatch (computeManifest allRoots) (worker t) = (Ok (RManifest manifest blob), worker t) /\
    currentManifestRoot (view t') = Some (bytesToHex manifest) /\ currentManifestBlob (view t') = Some blob.
Proof.
  unfold publish; intros Hu.
  apply bind_ok in Hu as (allRoots & t1 & H1 & Hu); apply lift_ok in H1 as [Hall ->].
  apply bind_ok in Hu as (? & t2 & H2 & Hu); apply view_step in H2 as ->.
  apply bind_ok in Hu as (manifest & t3 & H3 & Hu). pose proof (call_manifest_ok _ _ _ _ H3) as ->.
  apply bind_ok in Hu as (? & t4 & H4 & Hu); apply view_step in H4 as ->. apply view_step in Hu as ->.
  cbn [worker store view shards collectedMdus mode2Shards processing shardProgress currentManifestRoot currentManifestBlob].
  do 9 (split; [reflexivity|]). exists allRoots, manifest.1, manifest.2; split; [exact Hall|split; [|split; reflexivity] ].
  apply bind_ok in H3 as (r' & t0 & Hc & Heq). pose proof (call_computes (computeManifest allRoots) _ _ _ I Hc) as ->.
  apply call_ok in Hc as (Hd & _ & _); destruct r'; try discriminate Heq. apply mret_ok in Heq as [<- _]. exact Hd.
Qed.

(** The builder lists the files of the slab that is extended, if any. *)
Definition base_ok : Prop :=
  match baseMdu0Bytes ex with
  | Some data => appendMode2 ex = true -> exists b, builder_inv b /\ data = builder_bytes b
  | None => True
  end.
Definition base_files : list NilfsFileEntry :=
  match baseMdu0Bytes ex with
  | Some data => if appendMode2 ex then parseNilfsFilesFromMdu0 data else []
  | None => []
  end.

Lemma call_initMdu0Builder_ok n c t t' :
  call_initMdu0Builder n c t = (Ok tt, t') -> listing (worker t') [] /\ store t' = store t /\ view t' = view t.
Proof.
  intros Hc; apply bind_ok in Hc as (r & t1 & Hc & Heq); injection Heq as <-.
  apply call_ok in Hc as (Hd & Hs & Hv); split; [|done]. cbn [dispatch] in Hd.
  apply bind_ok in Hd as (k & w & Hn & Hd); apply bind_ok in Hd as (u & w1 & Hm & Hd).
  apply mret_ok in Hd as [_ <-]; unfold modify in Hm; injection Hm as _ <-.
  exists (new_with_commitments n (given_commitments c)); split; [done|]; split; [apply new_inv|apply new_builder_empty].
Qed.

Lemma call_loadMdu0Builder_ok b n c t t' :
  builder_inv b -> call_loadMdu0Builder (builder_bytes b) n c t = (Ok tt, t') ->
  listing (worker t') (parseNilfsFilesFromMdu0 (builder_bytes b)) /\ store t' = store t /\ view t' = view t.
Proof.
  intros Hb Hc; apply bind_ok in Hc as (r & t1 & Hc & Heq); injection Heq as <-.
  apply call_ok in Hc as (Hd & Hs & Hv); split; [|done]. cbn [dispatch] in Hd.
  apply bind_ok in Hd as (k & w & Hn & Hd); apply bind_ok in Hd as (b' & w1 & Hm & Hd); apply bind_ok in Hd as (u & w2 & Hm2 & Hd).
  apply mret_ok in Hd as [_ <-]; unfold modify in Hm2; injection Hm2 as _ <-.
  destruct (load_builder_bytes b n (given_commitments c) Hb) as (b1 & E & Hinv & Hbuf).
  unfold lift in Hm; rewrite E in Hm; injection Hm as <- _.
  exists b1; split; [done|]; split; [done|]. by rewrite builder_bytes_buffer, Hbuf by done.
Qed.

Lemma begin_builder_ok t t' :
  base_ok -> begin_builder stripe ex plan t = (Ok tt, t') ->
  listing (worker t') base_files /\ store t' = store t /\ view t' = view t.
Proof.
  unfold base_ok, base_files, begin_builder; intros Hb Hu.
  apply bind_ok in Hu as (c & t1 & H1 & Hu); apply lift_ok in H1 as [_ ->].
  destruct (baseMdu0Bytes ex) as [data|]; [|by apply call_initMdu0Builder_ok in Hu].
  destruct (appendMode2 ex); [|by apply call_initMdu0Builder_ok in Hu].
  destruct (Hb eq_refl) as (b & Hinv & ->). by apply call_loadMdu0Builder_ok in Hu.
Qed.

(** What a finished run shows. *)
Record shard_result (v : Sharder) : Prop := {
  res_phase : sp_phase (shardProgress v) = phase_done;
  res_work : sp_workDone (shardProgress v) =
    weightedWorkForMdu 1 + sum_work witness_work (seqZ 0 (witnessMduCount plan)) + sum_work user_work (seqZ 0 (totalUserChunks plan));
  res_items : expanded_on (fun id => 0 <= id < 1 + witnessMduCount plan + totalUserChunks plan) (shards v);
  res_slab : exists mdu0 full ws us, collectedMdus v = (0, mdu0) :: ws ++ us /\
    parseNilfsFilesFromMdu0 mdu0 = base_files ++ [user_entry file start_offset_of] /\
    ceil_div (zlen full) RAW_MDU_CAPACITY = witnessMduCount plan /\
    pushed (fun i => encodeToMdu (slice (i * RAW_MDU_CAPACITY) (Z.min (i * RAW_MDU_CAPACITY + RAW_MDU_CAPACITY) (zlen full)) full))
      1 (seqZ 0 (witnessMduCount plan)) ws /\
    pushed (user_mdu file ex) (1 + witnessMduCount plan) (seqZ 0 (totalUserChunks plan)) us;
  res_root : exists manifest blob, currentManifestRoot v = Some (bytesToHex manifest) /\ currentManifestBlob v = Some blob
}.

Lemma pushed_shift make shift ids mdus k :
  pushed make shift ids mdus -> pushed make (k + shift) ids (map (fun m => (k + m.1, m.2)) mdus).
Proof.
  intros Hp; apply Forall2_fmap_r; eapply Forall2_impl; [exact Hp|].
  intros i [j d] [Hj Hd]; cbn in *; split; [lia|done].
Qed.

Lemma shard_body_ok t t' :
  Forall ascii_unit (file_name file) -> 0 < zlen (file_bytes file) < 2 ^ 53 -> 0 <= start_offset_of < 2 ^ 53 ->
  1 <= witnessMduCount plan -> 0 <= totalUserChunks plan -> base_ok ->
  shard_body file stripe ex plan opMs t = (Ok tt, t') ->
  shard_result (view t') /\ store t' = store t /\ processing (view t') = processing (view t) /\
  sp_workTotal (shardProgress (view t')) = sp_workTotal (shardProgress (view t)) /\
  map fst (shards (view t')) = map fst (shards (view t)) /\
  sp_totalWitnessMdus (shardProgress (view t')) = sp_totalWitnessMdus (shardProgress (view t)) /\
  match stripe with
  | Some _ => exists ls, Forall2 striped (seqZ 0 (totalUserChunks plan)) ls /\ mode2Shards (view t') = concat ls
  | None => mode2Shards (view t') = mode2Shards (view t)
  end.
Proof.
  unfold shard_body; intros Hn Hz Ho HW HU Hb Hu.
  apply bind_ok in Hu as ([] & t1 & H1 & Hu); apply begin_builder_ok in H1 as (Hl1 & Hs1 & Hv1); [|done].
  apply bind_ok in Hu as (r & t2 & H2 & Hu); apply user_loop_ok in H2 as (Hw2 & Hs2 & Hf2 & He2 & Hc2 & Hr2 & Hwr2 & Hwm2 & Hp2 & Hv2 & Hls2).
  assert (exists t3, (worker t3 = worker t2 /\ store t3 = store t2 /\ frame (view t2) (view t3) /\ shards (view t3) = shards (view t2) /\
      mode2Shards (view t3) = match stripe with Some _ => mode2UserShards r | None => mode2Shards (view t2) end) /\
    (r ← shard_witnesses plan opMs r; f ← finalize file ex plan opMs r; publish plan f.1.1 f.1.2 f.2) t3 = (Ok tt, t')) as (t3 & (Hw3 & Hs3 & Hf3 & Hsh3 & Hv3) & Hu').
  { destruct stripe; apply bind_ok in Hu as (? & t3 & H3 & Hu); exists t3; (split; [|exact Hu]).
    - apply view_step in H3 as ->; by repeat split.
    - apply mret_ok in H3 as [_ <-]; by repeat split. }
  clear Hu; apply bind_ok in Hu' as (r' & t4 & H4 & Hu); unfold shard_witnesses in H4.
  destruct (Z.eqb_spec (ceil_div (zlen (concat (witnessDataBlobs r))) RAW_MDU_CAPACITY) (witnessMduCount plan)) as [Hcd|]; cbn [negb] in H4; [|done].
  rewrite zlen_seqZ in * by lia.
  apply (witness_loop_ok _ base_files) in H4 as (Hl4 & Hs4 & Hf4 & Hv4 & He4 & Hc4 & Hu4 & Hur4 & Hz4 & Hp4);
    [|by rewrite Hw3, Hw2|done|done|by rewrite Hsh3].
  apply bind_ok in Hu as (f & t5 & H5 & Hu).
  apply (finalize_ok _ _ _ _ base_files) in H5 as (Hp5 & Hs5 & Hf5 & Hv5 & Hsh5 & Hwd5 & Hum5 & Hwm5 & _); [|done|done|done|lia|done].
  apply publish_ok in Hu as (Hs6 & Hc6 & Hsh6 & Hv6 & Hph6 & Hwd6 & Hwt6 & Htw6 & Hpr6 & allRoots & manifest & blob & _ & _ & Hmr & Hmb).
  pose proof (frame_trans _ _ _ Hf2 (frame_trans _ _ _ Hf3 (frame_trans _ _ _ Hf4 Hf5))) as (_ & _ & _ & Fp & Fs & Fw & Ft).
  split; [|rewrite Hs6, Hs5, Hs4, Hs3, Hs2, Hs1, Hpr6, Fp, Hwt6, Fw, Htw6, Ft, Hsh6, Fs, Hv6, Hv5, Hv4, Hv3, Hv1;
           do 5 (split; [done|]); destruct stripe; [|by rewrite Hv2, Hv1]; destruct Hls2 as (ls & Hls & ->); by exists ls].
  constructor.
  - done.
  - rewrite Hwd6, Hwd5, Hc4, Hc2; lia.
  - rewrite Hsh6, Hsh5. rewrite zlen_seqZ in He4 by lia.
    eapply expanded_mark; [exact He4|]; unfold user_ids, witness_ids; intros j Hj.
    destruct (Z.eq_dec j 0); [by right|left]. destruct (Z.lt_ge_cases j (1 + witnessMduCount plan)); [right|left]; lia.
  - exists f.1.1, (concat (witnessDataBlobs r)), (witnessMdus r'), (map (fun m => (1 + witnessMduCount plan + m.1, m.2)) (userMdus r)).
    split; [by rewrite Hc6; unfold final_mdus; rewrite Hum5, Hwm5, Hu4|]. split; [done|]. split; [done|]. split; [exact Hp4|].
    replace (1 + witnessMduCount plan) with (1 + witnessMduCount plan + 0) at 1 by lia. by apply pushed_shift.
  - by exists manifest, blob.
Qed.
End User.
End Steps.

(** ** A failed run publishes nothing *)

Section Keeps.
Context {Ctx : Type} `{Kzg Ctx}.

Definition published (v : Sharder) : list (Z * bytes) * option string * option bytes * bool :=
  (collectedMdus v, currentManifestRoot v, currentManifestBlob v, processing v).
(** However it ends, the computation leaves what is published as it is. *)
Definition keeps {A} (m : M (@Tab Ctx) A) : Prop := forall t, published (view (m t).2) = published (view t).

Lemma keeps_ret {A} (a : A) : keeps (mret a).
Proof. done. Qed.
Lemma keeps_throw {A} (e : jserr) : keeps (mthrow e : M Tab A).
Proof. done. Qed.
Lemma keeps_lift {A} (o : outcome A) : keeps (lift o).
Proof. done. Qed.
Lemma keeps_bind {A B} (m : M Tab A) (f : A -> M Tab B) : keeps m -> (forall a, keeps (f a)) -> keeps (m ≫= f).
Proof.
  intros Hm Hf t; rewrite bind_run; specialize (Hm t); destruct (m t) as [ [a|e] t1]; [|done].
  by rewrite Hf.
Qed.
Lemma keeps_call msg : keeps (call msg).
Proof. intros t; unfold call; by destruct (onmessage 0 msg (worker t)) as [ [] ]. Qed.
Lemma keeps_setShards f : keeps (setShards f).
Proof. done. Qed.
Lemma keeps_setShardProgress f : keeps (setShardProgress f).
Proof. done. Qed.
Lemma keeps_setMode2Shards l : keeps (setMode2Shards l).
Proof. done. Qed.
Lemma keeps_for_each {A} (l : list A) f : (forall x, keeps (f x)) -> keeps (for_each l f).
Proof. intros Hf; induction l as [|x l IH]; [apply keeps_ret|]; apply keeps_bind; auto. Qed.
Lemma keeps_fold_m {A S} (l : list A) (f : S -> A -> M Tab S) s : (forall s x, keeps (f s x)) -> keeps (fold_m f s l).
Proof. intros Hf; revert s; induction l as [|x l IH]; intros s; [apply keeps_ret|]; apply keeps_bind; auto. Qed.

Create HintDb keeps discriminated.
#[local] Hint Resolve keeps_ret keeps_throw keeps_lift keeps_call keeps_setShards keeps_setShardProgress keeps_setMode2Shards : keeps.
Ltac keep := repeat first [ solve [auto with keeps nocore] | apply keeps_bind; [|intros ?] | apply keeps_for_each; intros ? | apply keeps_fold_m; intros ? ?
  | match goal with |- keeps (match ?x with _ => _ end) => destruct x end ].

Lemma keeps_sharding data b : keeps (call_shardFileProgressive data b).
Proof. unfold call_shardFileProgressive; keep. Qed.
Lemma keeps_expand data k m : keeps (call_expandMduRs data k m).
Proof. unfold call_expandMduRs; keep. Qed.
Lemma keeps_root i root : keeps (call_setMdu0Root i root).
Proof. unfold call_setMdu0Root; keep. Qed.
#[local] Hint Resolve keeps_sharding keeps_expand keeps_root : keeps.

Context (file : File) (stripe : option StripeParams) (ex : Existing) (plan : ShardPlan) (opMs : Z -> Z).

Lemma keeps_user_step r i : keeps (user_step file stripe ex plan opMs r i).
Proof. unfold user_step, begin_mdu, end_mdu, set_item, commit_user; keep. Qed.
Lemma keeps_witness_step full r i : keeps (witness_step plan opMs full r i).
Proof. unfold witness_step, begin_mdu, end_mdu, set_item; cbn zeta; keep. Qed.
Lemma keeps_finalize r : keeps (finalize file ex plan opMs r).
Proof. unfold finalize, begin_mdu, end_mdu, set_item, call_appendFileToMdu0, call_getMdu0Bytes; cbn zeta; keep. Qed.
Lemma keeps_begin_builder : keeps (begin_builder stripe ex plan).
Proof. unfold begin_builder, call_loadMdu0Builder, call_initMdu0Builder; keep. Qed.
Lemma keeps_witnesses r : keeps (shard_witnesses plan opMs r).
Proof.
  unfold shard_witnesses, js_error; cbn zeta. destruct (negb _); [apply keeps_throw|].
  apply keeps_fold_m; intros; apply keeps_witness_step.
Qed.

Lemma shard_body_failed t e t' :
  shard_body file stripe ex plan opMs t = (Thrown e, t') -> published (view t') = published (view t).
Proof.
  unfold shard_body; intros Hu.
  assert (forall {A B} (m : M Tab A) (f : A -> M Tab B) t, keeps m -> (m ≫= f) t = (Thrown e, t') ->
    published (view t') = published (view t) \/ exists a t1, published (view t1) = published (view t) /\ f a t1 = (Thrown e, t')) as Hbind.
  { intros A B m f t0 Hm Hr; rewrite bind_run in Hr; specialize (Hm t0). destruct (m t0) as [ [a|e0] t1]; [eauto|].
    injection Hr as _ <-; by left. }
  apply Hbind in Hu as [|(? & t1 & <- & Hu)]; [done| |apply keeps_begin_builder].
  apply Hbind in Hu as [|(r & t2 & <- & Hu)]; [done| |apply keeps_fold_m; intros; apply keeps_user_step].
  apply Hbind in Hu as [|(? & t3 & <- & Hu)]; [done| |destruct stripe; auto with keeps].
  apply Hbind in Hu as [|(r' & t4 & <- & Hu)]; [done| |apply keeps_witnesses].
  apply Hbind in Hu as [|(f & t5 & <- & Hu)]; [done| |apply keeps_finalize]. unfold publish in Hu.
  apply Hbind in Hu as [|(allRoots & t6 & <- & Hu)]; [done| |auto with keeps].
  apply Hbind in Hu as [|(? & t7 & <- & Hu)]; [done| |auto with keeps].
  apply Hbind in Hu as [|(? & t8 & <- & Hu)]; [done| |unfold call_computeManifest; keep]. discriminate Hu.
Qed.
End Keeps.

(** ** The plan *)

Lemma map_nth_seqZ (l : list Z) : map (fun i => nth (Z.to_nat i) l 0) (seqZ 0 (zlen l)) = l.
Proof.
  apply list_eq; intros i; change (map ?f ?x) with (f <$> x); rewrite list_lookup_fmap.
  destruct (decide (i < length l)%nat) as [Hi|Hi].
  - rewrite lookup_seqZ_lt by (unfold zlen; lia); cbn.
    replace (Z.to_nat (0 + Z.of_nat i)) with i by lia. by rewrite <- (nth_lookup_or_length l i 0 ) || (destruct (nth_lookup_or_length l i 0) as [->|]; [done|lia]).
  - rewrite !lookup_ge_None_2; [done|lia|rewrite length_seqZ; unfold zlen; lia].
Qed.

Lemma sum_work_payloads (l : list Z) :
  sum_work (fun i => weightedWorkForMdu (nonTrivialBlobsForPayload (nth (Z.to_nat i) l 0))) (seqZ 0 (zlen l)) = work_of l.
Proof.
  assert (work_of l = work_of (map (fun i => nth (Z.to_nat i) l 0) (seqZ 0 (zlen l)))) as -> by (by rewrite map_nth_seqZ).
  unfold sum_work, work_of; generalize 0 at 3 6 as a; generalize (seqZ 0 (zlen l)) as ids.
  induction ids as [|i ids IH]; intros a; cbn [map fold_left]; [done|apply IH].
Qed.

Lemma zlen_take_payloads n r : zlen (take_payloads n r) = Z.of_nat n.
Proof. revert r; induction n as [|n IH]; intros r; cbn [take_payloads]; [done|]. rewrite zlen_cons, IH; lia. Qed.

Lemma plan_facts stripe ex n : 0 <= existingUserCount ex -> 0 <= n ->
  let plan := make_plan stripe ex n in
  1 <= witnessMduCount plan /\ 0 <= totalUserChunks plan /\
  zlen (witnessPayloads plan) = witnessMduCount plan /\ zlen (userPayloads plan) = totalUserChunks plan /\
  plan_workTotal plan = weightedWorkForMdu 1 + work_of (witnessPayloads plan) + work_of (userPayloads plan).
Proof.
  intros Hc Hn; unfold make_plan; destruct (witness_bytes stripe _) as [num den].
  cbn [witnessMduCount totalUserChunks witnessPayloads userPayloads plan_workTotal].
  assert (0 <= ceil_div n RAW_MDU_CAPACITY) by (apply ceil_div_nonneg; [done|lia]).
  rewrite zlen_take_payloads, zlen_app, !zlen_map, !zlen_seqZ by lia. repeat split; lia.
Qed.

(** What is known of the MDUs an upload extends. *)
Definition existing_ok (mdu0 : option bytes) (ex : Existing) : Prop :=
  ex = no_existing \/
  (baseMdu0Bytes ex = mdu0 /\ is_Some mdu0 /\ 0 < existingUserCount ex /\ zlen (existingUserMdus ex) = existingUserCount ex /\
   appendStartOffset ex = existingUserCount ex * RAW_MDU_CAPACITY).

Lemma load_existing_ok dealId stripe fs : valid_deal dealId ->
  exists ex fs', load_existing dealId stripe fs = (Ok ex, fs') /\ existing_ok (deal_files dealId fs !! mdu_name 0) ex.
Proof.
  intros Hd; unfold load_existing; destruct stripe as [s|]; [|do 2 eexists; split; [reflexivity|by left] ].
  unfold try_catch; match goal with |- context [match ?m with _ => _ end] => destruct m as [ [ex|e] fs'] eqn:E end;
    [|do 2 eexists; split; [reflexivity|by left] ].
  exists ex, fs'; split; [done|].
  apply bind_ok in E as (mdu0 & fs1 & E0 & E). unfold readMdu in E0; rewrite readBlob_run in E0 by (done || by apply mdu_name_valid).
  injection E0 as <- <-. destruct (deal_files dealId fs !! mdu_name 0) as [l|]; [|apply mret_ok in E as [<- _]; by left].
  case_bool_decide; [apply mret_ok in E as [<- _]; by left|].
  apply bind_ok in E as (sl & fs2 & _ & E). destruct (Z.ltb_spec 0 (userCount sl)); [|apply mret_ok in E as [<- _]; by left].
  apply bind_ok in E as (mdus & fs3 & Hm & E); apply mret_ok in E as [<- _]. right; cbn.
  repeat split; [done|lia|]. apply map_m_length in Hm; unfold zlen; rewrite Hm, length_seqZ; lia.
Qed.

Lemma existing_count mdu0 ex : existing_ok mdu0 ex -> 0 <= existingUserCount ex /\ 0 <= appendStartOffset ex.
Proof. intros [->|(_ & _ & Hc & _ & ->)]; cbn; [lia|change RAW_MDU_CAPACITY with 8126464; lia]. Qed.

(** ** A whole run *)

Section Whole.
Context {Ctx : Type} `{Kzg Ctx}.
Context (opMs : Z -> Z) (dealId : string) (stripe : option StripeParams) (file : File).

Definition size : Z := zlen (file_bytes file).

Lemma load_existing_total fs : exists ex fs', load_existing dealId stripe fs = (Ok ex, fs').
Proof.
  unfold load_existing; destruct stripe as [s|]; [|by do 2 eexists].
  unfold try_catch; match goal with |- context [match ?m with _ => _ end] => destruct m as [ [ex|e] fs'] end; by do 2 eexists.
Qed.

(** The tab when the run proper starts. *)
Definition planned (ex : Existing) (fs : opfs) (t : @Tab Ctx) : Tab :=
  let plan := make_plan stripe ex size in
  mkTab (worker t) fs (mkSharder (plan_items plan) [] None None [] true (plan_progress stripe ex size plan)).

(** What a failed run shows. *)
Definition failed_view (e : jserr) (v : Sharder) : Sharder :=
  mkSharder [] (collectedMdus v) (currentManifestRoot v) (currentManifestBlob v) (mode2Shards v) (processing v)
    (fail_progress e (shardProgress v)).

(** The tab after planning, whatever it showed before. *)
Definition replanned (ex : Existing) (fs : opfs) (t : @Tab Ctx) : Tab :=
  let plan := make_plan stripe ex size in
  let v := view t in
  mkTab (worker t) fs (mkSharder (plan_items plan) (collectedMdus v) (currentManifestRoot v) (currentManifestBlob v) (mode2Shards v)
    (processing v) (plan_progress stripe ex size plan)).

Lemma shard_locally_run t ex fs :
  load_existing dealId stripe (store t) = (Ok ex, fs) ->
  shard_locally opMs dealId stripe file t =
  match shard_body file stripe ex (make_plan stripe ex size) opMs (replanned ex fs t) with
  | (Ok _, t4) => (Ok tt, set_processing false t4)
  | (Thrown e, t4) => (Ok tt, set_processing false (mkTab (worker t4) (store t4) (failed_view e (view t4))))
  end.
Proof.
  intros Hl; unfold shard_locally; rewrite bind_run; unfold on_store at 1. rewrite Hl. cbv beta iota zeta.
  rewrite !bind_run; cbn [setShardProgress setShards update_view modify].
  unfold finally, try_catch; cbn [worker store view shards collectedMdus currentManifestRoot currentManifestBlob mode2Shards processing shardProgress].
  rewrite bind_run; cbn [setShards update_view modify worker store view shards collectedMdus currentManifestRoot currentManifestBlob mode2Shards processing shardProgress].
  change (mkTab (worker t) fs _) with (replanned ex fs t); fold size.
  by destruct (shard_body file stripe ex (make_plan stripe ex size) opMs (replanned ex fs t)) as [ [ [] |e] t4].
Qed.

Lemma processFile_run t ex fs :
  load_existing dealId stripe (store t) = (Ok ex, fs) ->
  processFile opMs dealId stripe file t =
  match shard_body file stripe ex (make_plan stripe ex size) opMs (planned ex fs t) with
  | (Ok _, t4) => (Ok tt, set_processing false t4)
  | (Thrown e, t4) => (Ok tt, set_processing false (mkTab (worker t4) (store t4) (failed_view e (view t4))))
  end.
Proof.
  intros Hl; unfold processFile; rewrite bind_run; unfold begin_processing, update_view, modify; cbv beta iota.
  rewrite (shard_locally_run _ ex fs) by exact Hl. reflexivity.
Qed.

Lemma processFile_ends t :
  exists t', processFile opMs dealId stripe file t = (Ok tt, t') /\ processing (view t') = false /\
    ((sp_phase (shardProgress (view t')) = phase_done /\ is_Some (currentManifestRoot (view t')) /\ is_Some (currentManifestBlob (view t'))) \/
     (sp_phase (shardProgress (view t')) = phase_error /\ shards (view t') = [] /\ collectedMdus (view t') = [] /\
      currentManifestRoot (view t') = None /\ currentManifestBlob (view t') = None)).
Proof.
  destruct (load_existing_total (store t)) as (ex & fs & Hl); rewrite (processFile_run t ex fs Hl).
  destruct (shard_body file stripe ex (make_plan stripe ex size) opMs (planned ex fs t)) as [ [ [] |e] t4] eqn:Hb.
  - eexists; split; [reflexivity|split; [reflexivity|left] ]. unfold shard_body in Hb.
    do 5 apply bind_ok in Hb as (? & ? & _ & Hb).
    apply publish_ok in Hb as (_ & _ & _ & _ & Hph & _ & _ & _ & _ & ? & ? & ? & _ & _ & Hr & Hm). cbn [set_processing view shardProgress currentManifestRoot currentManifestBlob]; rewrite Hr, Hm; by repeat split.
  - apply shard_body_failed in Hb; unfold published in Hb; injection Hb as Hc Hr Hbl _.
    eexists; split; [reflexivity|split; [reflexivity|right] ]. by repeat split.
Qed.

(** Sharding always settles, and shows either a slab or an error.  Whatever the
    file, the stored slab and the worker do, [processFile] ends without throwing and is
    no longer processing; either it is done, with a manifest root and blob, or it shows
    the error with no slab and no manifest of this or an earlier file. *)
Theorem processFile_settles t :
  exists t', processFile opMs dealId stripe file t = (Ok tt, t') /\ processing (view t') = false /\
    ((sp_phase (shardProgress (view t')) = phase_done /\ is_Some (currentManifestRoot (view t')) /\ is_Some (currentManifestBlob (view t'))) \/
     (sp_phase (shardProgress (view t')) = phase_error /\ shards (view t') = [] /\ collectedMdus (view t') = [] /\
      currentManifestRoot (view t') = None /\ currentManifestBlob (view t') = None)).
Proof. apply processFile_ends. Qed.

(** A file the chain and the file table accept. *)
Definition file_ok : Prop := Forall ascii_unit (file_name file) /\ 0 < size < 2 ^ 53.
(** [mdu_0.bin] of the deal, if there is one, was written by a builder. *)
Definition stored_mdu0_ok (fs : opfs) : Prop :=
  forall data, deal_files dealId fs !! mdu_name 0 = Some data -> exists b, builder_inv b /\ data = builder_bytes b.

Lemma processFile_done t ex fs :
  valid_deal dealId -> file_ok -> stored_mdu0_ok (store t) ->
  load_existing dealId stripe (store t) = (Ok ex, fs) -> appendStartOffset ex < 2 ^ 53 ->
  sp_phase (shardProgress (view (processFile opMs dealId stripe file t).2)) = phase_done ->
  let plan := make_plan stripe ex size in
  let v := view (processFile opMs dealId stripe file t).2 in
  shard_result file ex plan v /\ store (processFile opMs dealId stripe file t).2 = fs /\
  sp_workTotal (shardProgress v) = plan_workTotal plan /\
  map fst (shards v) = seqZ 0 (1 + witnessMduCount plan + totalUserChunks plan) /\
  sp_totalWitnessMdus (shardProgress v) = witnessMduCount plan /\
  match stripe with
  | Some _ => exists ls, Forall2 (striped file stripe ex) (seqZ 0 (totalUserChunks plan)) ls /\ mode2Shards v = concat ls
  | None => mode2Shards v = []
  end.
Proof.
  intros Hd [Hn Hz] Hst Hl Hoff; rewrite (processFile_run t ex fs Hl); intros Hph.
  destruct (load_existing_ok dealId stripe (store t) Hd) as (ex' & fs' & Hl' & Hex).
  assert (ex' = ex) as -> by congruence. pose proof (existing_count _ _ Hex) as [Hc Ho].
  pose proof (plan_facts stripe ex size Hc ltac:(lia)) as (HW & HU & _).
  destruct (shard_body file stripe ex (make_plan stripe ex size) opMs (planned ex fs t)) as [ [ [] |e] t4] eqn:Hb; [|done].
  cbn [snd] in Hph |- *. apply shard_body_ok in Hb as (Hres & Hs & _ & Hwt & Hids & Htw & Hm2); try done.
  - unfold planned in Hs, Hwt, Hids, Htw, Hm2; cbn [store view shardProgress shards mode2Shards] in Hs, Hwt, Hids, Htw, Hm2.
    split; [by destruct Hres; constructor|]. split; [exact Hs|]. split; [exact Hwt|].
    split; [|split; [exact Htw|exact Hm2] ].
    cbn [set_processing view shards]; rewrite Hids; unfold plan_items; rewrite map_map; cbn [fst]; apply map_id.
  - unfold start_offset_of; destruct (appendMode2 ex); lia.
  - unfold base_ok; destruct Hex as [->|(Hbase & [data Hdata] & _)]; [done|].
    rewrite Hbase, Hdata; intros _. by apply Hst.
Qed.

Lemma pushed_lookup make shift n mdus i : pushed make shift (seqZ 0 n) mdus -> 0 <= i < n ->
  exists mdu, make i = Ok mdu /\ mdus !! Z.to_nat i = Some (shift + i, mdu).
Proof.
  intros Hp Hi; destruct (Forall2_lookup_l _ _ _ (Z.to_nat i) i Hp) as ( [j d] & Hl & Hj & Hd).
  - apply lookup_seqZ; lia.
  - exists d; split; [done|]. cbn in Hj; by rewrite <- Hj.
Qed.
Lemma pushed_ids make shift ids mdus : pushed make shift ids mdus -> map fst mdus = map (Z.add shift) ids.
Proof. induction 1 as [|i m ids mdus [Hm _] _ IH]; cbn [map]; congruence. Qed.

(** C8: a finished run has sharded the whole file.  When [processFile] is done, the MDUs
    it hands over are numbered without a gap: MDU #0, the witness MDUs, the user MDUs.
    MDU #0 lists the files of the slab that was extended and then the new one, under
    its sanitised name, with its size and where it starts; user MDU [u] is the existing
    one or the encoding of its part of the file; every item is shown as expanded, and
    the work done is the work planned. *)
Theorem processFile_publishes_slab t ex fs :
  valid_deal dealId -> file_ok -> stored_mdu0_ok (store t) ->
  load_existing dealId stripe (store t) = (Ok ex, fs) -> appendStartOffset ex < 2 ^ 53 ->
  sp_phase (shardProgress (view (processFile opMs dealId stripe file t).2)) = phase_done ->
  let plan := make_plan stripe ex size in
  let v := view (processFile opMs dealId stripe file t).2 in
  map fst (collectedMdus v) = seqZ 0 (1 + witnessMduCount plan + totalUserChunks plan) /\
  (exists mdu0, collectedMdus v !! 0%nat = Some (0, mdu0) /\
     parseNilfsFilesFromMdu0 mdu0 = base_files ex ++ [user_entry file (start_offset_of ex)]) /\
  (forall u, 0 <= u < totalUserChunks plan -> exists mdu, user_mdu file ex u = Ok mdu /\
     collectedMdus v !! Z.to_nat (1 + witnessMduCount plan + u) = Some (1 + witnessMduCount plan + u, mdu)) /\
  Forall (fun s => s.2 = item_expanded) (shards v) /\
  sp_workDone (shardProgress v) = sp_workTotal (shardProgress v).
Proof.
  intros Hd Hf Hst Hl Hoff Hph plan v.
  destruct (load_existing_ok dealId stripe (store t) Hd) as (ex' & fs' & Hl' & Hex).
  assert (ex' = ex) as -> by congruence. pose proof (existing_count _ _ Hex) as [Hc _].
  assert (0 <= size) as Hsz by (destruct Hf; lia).
  pose proof (plan_facts stripe ex size Hc Hsz) as (HW & HU & Hwp & Hup & Hwt); fold plan in HW, HU, Hwp, Hup, Hwt.
  pose proof (processFile_done t ex fs Hd Hf Hst Hl Hoff Hph) as ([_ Hwork Hitems Hslab _] & _ & Htot & Hids & _); fold plan v in Hwork, Hitems, Hslab, Htot, Hids.
  destruct Hslab as (mdu0 & full & ws & us & Hcol & Hparse & _ & Hws & Hus). rewrite Hcol.
  assert (length ws = Z.to_nat (witnessMduCount plan)) as Hlw by (rewrite <- (Forall2_length _ _ _ Hws), length_seqZ; lia).
  split; [|split; [|split; [|split] ] ].
  - cbn [map fst]; rewrite map_app, (pushed_ids _ _ _ _ Hws), (pushed_ids _ _ _ _ Hus). change (map ?f ?l) with (f <$> l). rewrite !fmap_add_seqZ.
    rewrite (seqZ_cons 0) by lia; f_equal. replace (Z.pred (1 + witnessMduCount plan + totalUserChunks plan)) with (witnessMduCount plan + totalUserChunks plan) by lia.
    rewrite seqZ_app by lia. f_equal; f_equal; lia.
  - by exists mdu0.
  - intros u Hu; destruct (pushed_lookup _ _ _ _ u Hus Hu) as (mdu & Hm & Hlook). exists mdu; split; [done|].
    replace (Z.to_nat (1 + witnessMduCount plan + u)) with (S (length ws + Z.to_nat u)) by lia.
    change ((ws ++ us) !! (length ws + Z.to_nat u)%nat = Some (1 + witnessMduCount plan + u, mdu)).
    rewrite lookup_app_r, Nat.add_comm, Nat.add_sub by lia; exact Hlook.
  - apply Forall_forall; intros s Hs. apply (proj1 (Forall_forall _ _) Hitems s Hs).
    assert (s.1 ∈ map fst (shards v)) as Hin by (apply list_elem_of_In, in_map, list_elem_of_In; done).
    rewrite Hids in Hin; apply elem_of_seqZ in Hin; lia.
  - rewrite Hwork, Htot, Hwt. unfold witness_work, user_work; rewrite <- Hwp at 1; rewrite <- Hup at 1. rewrite !sum_work_payloads; lia.
Qed.
End Whole.
