(* ===== verification/ShardLive.v ===== *)
(** * Sharding succeeds (components/FileSharder.tsx)

    When the worker has its WASM, the commitment core does not fail and the slab fits
    MDU #0's root table, [processFile] of a new slab is done; in particular the number
    of witness MDUs it plans is the number its witness needs.  The exception is an
    empty file, whose witness is empty while one witness MDU is planned. *)
From S2P Require Import Prelude JsString JsNum TransportTypes Effects Bytes Text NilfsCodec Layout Nilfs Opfs NilfsOpfsFetch.
From S2P Require Import Hex NilWasm ShardPool GatewayWorker Sharding.
#[local] Open Scope Z_scope.

(** How many commitments one user MDU has. *)
Definition per_mdu (stripe : option StripeParams) : Z :=
  match stripe with None => 64 | Some s => (rs_k s + rs_m s) * 64 / rs_k s end.

Section Live.
Context {Ctx : Type} `{Kzg Ctx} (ctx : Ctx) (stripe : option StripeParams).

(** The commitment core works: it commits to every blob of the right length, roots of at
    least one commitment exist and have 32 bytes, manifests are committed to, and every
    MDU of the right size is striped with its commitments.  The core refuses blobs of
    another length and has no root of no leaves ([blob_to_commitment] and
    [create_mdu_merkle_root] of [nil_core/src/kzg.rs]), and stripes an MDU only for
    positive K and M with K a divisor of 64 ([expand_mdu_encoded] of [coding.rs]). *)
Record core_total : Prop := {
  blob_total l : zlen l = BLOB_SIZE -> is_ok (blob_to_commitment ctx l) = true;
  merkle_total cs : cs <> [] -> is_ok (merkle_root ctx cs) = true;
  merkle_size cs root : merkle_root ctx cs = Ok root -> zlen root = 32;
  manifest_total roots : exists m, manifest_commitment ctx roots = Ok m;
  expand_total data s : stripe = Some s -> zlen data = MDU_SIZE ->
    exists cs shards, expand_encoded ctx data (rs_k s) (rs_m s) = Ok (cs, shards) /\
      zlen cs = per_mdu stripe /\ cs <> [] /\ Forall (fun c => zlen c = 48) cs
}.
Context (Hcore : core_total).

Lemma some_root cs : cs <> [] -> exists root, merkle_root ctx cs = Ok root /\ zlen root = 32.
Proof.
  intros Hne; pose proof (merkle_total Hcore cs Hne) as Ht. destruct (merkle_root ctx cs) as [root|] eqn:E; [|done].
  exists root; split; [done|]. by apply (merkle_size Hcore cs).
Qed.
Lemma chunks_nonempty n (cs : list bytes) out : 0 < n -> zlen out = zlen cs * n -> cs <> [] -> chunks_exact n out <> [].
Proof.
  intros Hn Hz Hne Hnil%(f_equal zlen). unfold chunks_exact in Hnil; rewrite zlen_map, Hz, Z.div_mul, zlen_seqZ in Hnil by (try apply zlen_nonneg; lia).
  change (zlen []) with 0 in Hnil. by apply zlen_0_nil in Hnil.
Qed.
Lemma mdu_blobs data : zlen data = MDU_SIZE -> forall b, b ∈ map (blob_at data) (seqZ 0 BLOBS_PER_MDU) -> zlen b = BLOB_SIZE.
Proof.
  intros Hd b Hb. apply list_elem_of_In, in_map_iff in Hb as (i & <- & Hi%list_elem_of_In%elem_of_seqZ).
  unfold blob_at. rewrite zlen_slice; unfold MDU_SIZE, BLOBS_PER_MDU, BLOB_SIZE in *; lia.
Qed.

(** The worker is ready and builds an MDU #0 without files. *)
Definition ready (s : @WorkerState Ctx) : Prop := wasm_init s = Ok tt /\ nilWasmInstance s = Some ctx.
Definition building_empty (s : @WorkerState Ctx) : Prop :=
  ready s /\ exists b, mdu0BuilderInstance s = Some b /\ builder_inv b /\ records b = [].

Lemma call_run msg (t : Tab) r w : ready (worker t) -> dispatch msg (worker t) = (Ok r, w) ->
  call msg t = (Ok r, mkTab w (store t) (view t)).
Proof.
  intros [Hi _] Hd; unfold call, onmessage; rewrite bind_run; unfold initializeWasm; by rewrite Hi, Hd.
Qed.

Lemma commit_mdu_total data : zlen data = MDU_SIZE ->
  exists w root, commit_mdu ctx data = Ok (w, root) /\ zlen w = 64 * 48 /\ zlen root = 32.
Proof.
  intros Hd; unfold commit_mdu, mdu_to_kzg_commitments; rewrite Hd, Z.eqb_refl; cbn [negb].
  destruct (commit_each_total ctx (map (blob_at data) (seqZ 0 BLOBS_PER_MDU))) as [cs Hcs]; [intros b Hb; apply (blob_total Hcore); by apply (mdu_blobs data Hd)|].
  rewrite Hcs; obind. destruct (some_root cs) as (root & Hr & Hz); [|rewrite Hr; obind].
  { intros ->; apply commit_each_ok in Hcs as [Hf2 _]. apply Forall2_length in Hf2. by rewrite length_map, length_seqZ in Hf2. }
  exists (concat cs), root; split; [done|split; [|done] ].
  apply commit_each_ok in Hcs as [Hf2 Hall]; rewrite (zlen_concat 48), Z.mul_comm by done.
  apply Forall2_length in Hf2; unfold zlen; rewrite <- Hf2, length_map, length_seqZ; reflexivity.
Qed.

Lemma sharding_total data batch (t : Tab) : ready (worker t) -> zlen data = MDU_SIZE ->
  exists w root, call_shardFileProgressive data batch t = (Ok (w, root), t) /\ zlen w = 64 * 48 /\ zlen root = 32.
Proof.
  intros Hr Hd; destruct (commit_mdu_total data Hd) as (w & root & Hc & Hw & Hroot).
  exists w, root; split; [|done]. unfold call_shardFileProgressive; rewrite bind_run.
  rewrite (call_run _ t (RCommit w root) (worker t) Hr); [by destruct t|].
  cbn [dispatch]; rewrite bind_run; unfold need_wasm; destruct Hr as [_ ->]. rewrite bind_run; unfold lift.
  by rewrite (shard_progressive_commit _ _ _ _ _ Hc).
Qed.

Lemma set_all_concat (buf : bytes) (o : Z) cs : Forall (fun c => zlen c = 48) cs -> 0 <= o -> o + 48 * zlen cs <= zlen buf ->
  exists out, set_all buf o cs = Ok out /\ zlen out = zlen buf.
Proof.
  revert buf o; induction cs as [|c cs IH]; intros buf o Hall Ho Hfit; cbn [set_all]; [by exists buf|].
  apply Forall_cons in Hall as [Hc Hall]; rewrite zlen_cons in Hfit; pose proof (zlen_nonneg cs).
  rewrite set_bytes_splice by lia; obind. destruct (splice_spec o c buf) as [Hl _]; [lia..|].
  destruct (IH (splice o c buf) (o + zlen c) Hall) as (out & -> & Hz); [lia|rewrite Hl; lia|]. exists out; by rewrite Hz.
Qed.

Lemma commit_user_total r data (t : Tab) : ready (worker t) -> zlen data = MDU_SIZE ->
  exists w root shards, commit_user stripe r data t = (Ok (w, root, shards), t) /\ zlen w = per_mdu stripe * 48 /\ zlen root = 32.
Proof.
  intros Hr Hd; unfold commit_user; pose proof (expand_total Hcore data) as Hexp. destruct stripe as [s|].
  - destruct (Hexp s eq_refl Hd) as (cs & shards & He & Hz & Hne & Hall).
    assert (0 <= zlen cs * 48) as Hn by (apply Z.mul_nonneg_nonneg; [apply zlen_nonneg|lia]).
    destruct (set_all_concat (zeros (zlen cs * 48)) 0 cs Hall) as (out & Hout & Hzo);
      [lia|rewrite zlen_zeros, Z.mul_comm by exact Hn; reflexivity|].
    rewrite zlen_zeros in Hzo by exact Hn.
    destruct (some_root (chunks_exact 48 out)) as (root & Hroot & Hzr); [by apply (chunks_nonempty 48 cs); [lia|rewrite Hzo|]|].
    exists out, root, shards; split; [|by rewrite Hzo, Hz].
    unfold call_expandMduRs; rewrite bind_run, (call_run _ t (RStripe out root shards) (worker t) Hr); [by destruct t|].
    cbn [dispatch]; rewrite bind_run; unfold need_wasm; destruct Hr as [_ ->]. rewrite bind_run; unfold lift, expand_stripe.
    rewrite He; obind; cbn [fst snd]; rewrite Hout; obind. unfold compute_mdu_root; rewrite Hzo, Z_mod_mult; cbn [negb Z.eqb].
    by rewrite Hroot.
  - destruct (sharding_total data (pickBatchBlobs (prevCommitMsPerMdu r)) t Hr Hd) as (w & root & Hc & Hw & Hz).
    exists w, root, []; split; [|by rewrite Hw]. by rewrite bind_run, Hc.
Qed.

(** Placing a root keeps the builder without files. *)
Lemma setMdu0Root_total i root (t : Tab) :
  building_empty (worker t) -> 0 <= i < 65536 -> zlen root = 32 ->
  exists t', call_setMdu0Root i root t = (Ok tt, t') /\ building_empty (worker t').
Proof.
  intros (Hr & b & Hb & Hinv & Hrec) Hi Hz; pose proof (set_root_spec b i root Hinv ltac:(lia) Hz) as Hspec.
  destruct (Z.ltb_spec ROOT_TABLE_END (i * ROOT_SIZE + ROOT_SIZE)) as [Hlt|_].
  { unfold ROOT_TABLE_END, ROOT_SIZE, BLOB_SIZE in Hlt; lia. }
  destruct Hspec as (b' & Hs & Hinv' & Hrec' & _).
  exists (mkTab (set_builder b' (worker t)) (store t) (view t)); split.
  - unfold call_setMdu0Root; rewrite bind_run, (call_run _ t (RText "Root set in Mdu0") (set_builder b' (worker t)) Hr); [done|].
    cbn [dispatch]; rewrite bind_run; unfold need_builder at 1; rewrite Hb, Hz; cbn [Z.eqb Pos.eqb].
    rewrite bind_run; unfold on_builder; by rewrite Hb, Hs.
  - split; [exact Hr|]. exists b'; split; [done|split; [done|by rewrite Hrec'] ].
Qed.

Section File.
Context (file : File) (opMs : Z -> Z) (plan : ShardPlan).
Abbreviation ex := no_existing.

Lemma user_mdu_total i : exists mdu, user_mdu file ex i = Ok mdu /\ zlen mdu = MDU_SIZE.
Proof. unfold user_mdu; cbn [appendMode2 no_existing baseMdu0Bytes andb]. apply encodeToMdu_sized. Qed.

Lemma update_view_run f (t : @Tab Ctx) : update_view f t = (Ok tt, mkTab (worker t) (store t) (f (view t))).
Proof. done. Qed.

Definition users_done (w0 : WorkerState) (seen : list Z) (r : Run) (t : @Tab Ctx) : Prop :=
  worker t = w0 /\ zlen (userRoots r) = zlen seen /\ Forall (fun root => zlen root = 32) (userRoots r) /\
  zlen (concat (witnessDataBlobs r)) = per_mdu stripe * 48 * zlen seen /\ witnessRoots r = [].

Lemma user_loop_total (t : Tab) n : ready (worker t) ->
  exists r t', fold_m (user_step file stripe ex plan opMs) run_init (seqZ 0 n) t = (Ok r, t') /\
    users_done (worker t) (seqZ 0 n) r t'.
Proof.
  intros Hr; apply (fold_m_total (users_done (worker t))).
  - intros i seen rest r1 t1 _ (Hw & Hl & Hall & Hz & Hwr).
    destruct (user_mdu_total i) as (mdu & Hm & Hsize).
    unfold user_step, begin_mdu, end_mdu, set_item, setShardProgress, setShards.
    rewrite bind_run, update_view_run, bind_run, update_view_run, bind_run; unfold lift; rewrite Hm, bind_run.
    match goal with |- context [commit_user stripe r1 mdu ?t0] =>
      destruct (commit_user_total r1 mdu t0) as (w & root & shards & Hc & Hzw & Hzr); [by cbn; rewrite Hw|done|] end.
    rewrite Hc, bind_run, update_view_run, bind_run, update_view_run.
    do 2 eexists; split; [reflexivity|]. unfold users_done; cbn [worker userRoots witnessDataBlobs witnessRoots fst snd].
    rewrite concat_app, !zlen_app, Hl, Hz; cbn [concat]; rewrite app_nil_r, Hzw.
    change (zlen [root]) with 1; change (zlen [i]) with 1. split; [done|split; [done|split; [|split; [ring|done] ] ] ].
    apply Forall_app; split; [done|by repeat constructor].
  - repeat split; [constructor|]. symmetry; apply Z.mul_0_r.
Qed.

Definition witnesses_done (roots : list bytes) (seen : list Z) (r : Run) (t : @Tab Ctx) : Prop :=
  building_empty (worker t) /\ userRoots r = roots /\ zlen (witnessRoots r) = zlen seen /\
  Forall (fun root => zlen root = 32) (witnessRoots r).

Lemma witness_loop_total full r0 (t : Tab) n :
  building_empty (worker t) -> n <= 65536 -> witnessRoots r0 = [] ->
  exists r t', fold_m (witness_step plan opMs full) r0 (seqZ 0 n) t = (Ok r, t') /\
    witnesses_done (userRoots r0) (seqZ 0 n) r t'.
Proof.
  intros Hb Hn H0; apply (fold_m_total (witnesses_done (userRoots r0))).
  - intros i seen rest r1 t1 [Hi Hin]%seqZ_prefix (Hw & Hu & Hl & Hall).
    unfold witness_step, begin_mdu, end_mdu, set_item, setShardProgress, setShards; cbv zeta.
    set (chunk := slice _ _ full). destruct (encodeToMdu_sized chunk) as (mdu & Hm & Hsize).
    rewrite bind_run, update_view_run, bind_run, update_view_run, bind_run; unfold lift; rewrite Hm, bind_run.
    match goal with |- context [call_shardFileProgressive mdu ?b ?t0] =>
      destruct (sharding_total mdu b t0) as (w & root & Hc & Hzw & Hzr); [exact (proj1 Hw)|done|] end.
    rewrite Hc, bind_run.
    match goal with |- context [call_setMdu0Root i ?x ?t0] =>
      destruct (setMdu0Root_total i x t0) as (t2 & Hc2 & Hw2); [exact Hw|pose proof (zlen_nonneg seen); lia|exact Hzr|] end.
    rewrite Hc2, bind_run, update_view_run, bind_run, update_view_run.
    do 2 eexists; split; [reflexivity|]. unfold witnesses_done; cbn [worker userRoots witnessRoots fst snd].
    rewrite !zlen_app, Hl. split; [done|split; [done|split; [done|] ] ].
    apply Forall_app; split; [done|by repeat constructor].
  - repeat split; [by destruct Hb as [ [] _]|by destruct Hb as [ [] _]|by destruct Hb|by rewrite H0|rewrite H0; constructor].
Qed.

Lemma set_user_roots_total (roots : list bytes) : forall l (t : Tab),
  Forall (fun root => zlen root = 32) roots -> Forall (fun i => 0 <= i < zlen roots) l ->
  0 <= witnessMduCount plan -> witnessMduCount plan + zlen roots <= 65536 -> building_empty (worker t) ->
  exists t', for_each l (fun i => call_setMdu0Root (witnessMduCount plan + i) (nth (Z.to_nat i) roots [])) t = (Ok tt, t') /\
    building_empty (worker t').
Proof.
  induction l as [|i l IH]; intros t Hr Hall Hw Hn Hb; cbn [for_each]; [by exists t|].
  apply Forall_cons in Hall as [Hi Hall].
  destruct (setMdu0Root_total (witnessMduCount plan + i) (nth (Z.to_nat i) roots []) t Hb) as (t1 & Hc & Hb1); [lia| |].
  { apply (proj1 (Forall_forall _ _) Hr). destruct (nth_lookup_or_length roots (Z.to_nat i) []) as [Hl|Hl]; [|unfold zlen in Hi; lia].
    by eapply list_elem_of_lookup_2. }
  destruct (IH t1 Hr Hall Hw Hn Hb1) as (t' & Hrun & Hb'). exists t'; split; [|done]. by rewrite bind_run, Hc.
Qed.

Lemma append_total (t : Tab) : building_empty (worker t) -> Forall ascii_unit (file_name file) -> 0 < size file < 2 ^ 53 ->
  exists t' b', call_appendFileToMdu0 (sanitizeNilfsRecordPath (file_name file)) (zlen (file_bytes file)) 0 t = (Ok tt, t') /\
    ready (worker t') /\ mdu0BuilderInstance (worker t') = Some b' /\ builder_inv b'.
Proof.
  intros (Hr & b & Hb & Hinv & Hrec) Hn Hs.
  destruct (append_file_first b (file_name file) (size file) 0 Hinv Hrec Hn Hs ltac:(lia)) as (b' & Ha).
  destruct (append_file_ok b (file_name file) (size file) 0 b' Hinv Hn Hs ltac:(lia) Ha) as [Hinv' _].
  exists (mkTab (set_builder b' (worker t)) (store t) (view t)), b'; split; [|split; [exact Hr|done] ].
  unfold call_appendFileToMdu0; rewrite bind_run, (call_run _ t (RText "File appended to Mdu0") (set_builder b' (worker t)) Hr); [done|].
  cbn [dispatch]; rewrite bind_run; unfold on_builder; rewrite Hb. unfold size in Ha; by rewrite Ha.
Qed.

Lemma bytes_total (t : Tab) b : ready (worker t) -> mdu0BuilderInstance (worker t) = Some b -> builder_inv b ->
  exists l t', call_getMdu0Bytes t = (Ok l, t') /\ ready (worker t') /\ zlen l = MDU_SIZE.
Proof.
  intros Hr Hb [Hs Hw Hm _ Hc Hroom]; pose proof (inv_size _ (flush_inv b Hs Hw Hm Hc Hroom)) as Hz.
  exists (builder_bytes b), (mkTab (set_builder (flush_header b) (worker t)) (store t) (view t)); split; [|by split].
  unfold call_getMdu0Bytes; rewrite bind_run, (call_run _ t (RBytes (builder_bytes b)) (set_builder (flush_header b) (worker t)) Hr); [reflexivity|].
  cbn [dispatch]; rewrite bind_run; unfold need_builder; rewrite Hb, bind_run; reflexivity.
Qed.

Lemma finalize_total r (t : Tab) :
  building_empty (worker t) -> Forall ascii_unit (file_name file) -> 0 < size file < 2 ^ 53 ->
  Forall (fun root => zlen root = 32) (userRoots r) -> 0 <= witnessMduCount plan -> witnessMduCount plan + zlen (userRoots r) <= 65536 ->
  exists mdu0 root r' t', finalize file ex plan opMs r t = (Ok (mdu0, root, r'), t') /\ ready (worker t') /\ zlen root = 32 /\
    userRoots r' = userRoots r /\ witnessRoots r' = witnessRoots r.
Proof.
  intros Hb Hn Hs Hall Hw Hfit; unfold finalize, begin_mdu, end_mdu, set_item, setShardProgress, setShards; cbv zeta.
  destruct (set_user_roots_total (userRoots r) (seqZ 0 (zlen (userRoots r))) t Hall) as (t1 & H1 & Hb1);
    [apply Forall_forall; intros i Hi; apply elem_of_seqZ in Hi; lia|done..|].
  rewrite bind_run, H1, bind_run. cbn [appendMode2 no_existing baseMdu0Bytes].
  destruct (append_total t1 Hb1 Hn Hs) as (t2 & b & H2 & Hr2 & Hb2 & Hi2); rewrite H2, bind_run, update_view_run, bind_run, update_view_run, bind_run.
  match goal with |- context [call_getMdu0Bytes ?t0] => destruct (bytes_total t0 b Hr2 Hb2 Hi2) as (l & t3 & H3 & Hr3 & Hz3) end.
  rewrite H3, bind_run.
  match goal with |- context [call_shardFileProgressive l ?b0 t3] => destruct (sharding_total l b0 t3 Hr3 Hz3) as (w & root & Hc & _ & Hzr) end.
  rewrite Hc, bind_run, update_view_run, bind_run, update_view_run.
  do 4 eexists; split; [reflexivity|]. split; [exact Hr3|split; [exact Hzr|by split] ].
Qed.

Lemma set_roots_total roots : forall buf o, Forall (fun root => zlen root = 32) roots -> 0 <= o -> o + 32 * zlen roots <= zlen buf ->
  exists out, set_roots buf o roots = Ok out /\ zlen out = zlen buf.
Proof.
  induction roots as [|root roots IH]; intros buf o Hall Ho Hfit; cbn [set_roots]; [by exists buf|].
  apply Forall_cons in Hall as [Hz Hall]; rewrite zlen_cons in Hfit; pose proof (zlen_nonneg roots).
  rewrite set_bytes_splice by lia; obind. destruct (splice_spec o root buf) as [Hl _]; [lia..|].
  destruct (IH (splice o root buf) (o + 32) Hall) as (out & -> & Hout); [lia|rewrite Hl; lia|]. exists out; by rewrite Hout.
Qed.

Lemma all_roots_total root ws us :
  zlen root = 32 -> Forall (fun root => zlen root = 32) ws -> Forall (fun root => zlen root = 32) us ->
  exists out, all_roots root ws us = Ok out /\ zlen out = 32 * (1 + zlen ws + zlen us).
Proof.
  intros Hz Hw Hu; unfold all_roots; set (n := 32 * (1 + zlen ws + zlen us)).
  assert (0 <= n) as Hn by (unfold n; pose proof (zlen_nonneg ws); pose proof (zlen_nonneg us); lia).
  destruct (set_roots_total (root :: ws ++ us) (zeros n) 0) as (out & Hs & Ho);
    [constructor; [done|by apply Forall_app]|lia|rewrite zlen_zeros by done; rewrite zlen_cons, zlen_app; unfold n, bytes in *; lia|].
  exists out; split; [exact Hs|]. by rewrite Ho, zlen_zeros.
Qed.

Lemma publish_total mdu0 root r (t : Tab) :
  ready (worker t) -> zlen root = 32 -> Forall (fun root => zlen root = 32) (userRoots r) -> Forall (fun root => zlen root = 32) (witnessRoots r) ->
  exists t', publish plan mdu0 root r t = (Ok tt, t').
Proof.
  intros Hr Hz Hu Hw; unfold publish, setShardProgress, setCollected.
  destruct (all_roots_total root (witnessRoots r) (userRoots r) Hz Hw Hu) as (out & Hs & Ho).
  rewrite bind_run; unfold lift; rewrite Hs, bind_run, update_view_run, bind_run.
  destruct (manifest_total Hcore (chunks_exact 32 out)) as [ [m blob] Hm].
  unfold call_computeManifest; rewrite bind_run.
  match goal with |- context [call (computeManifest out) ?t0] =>
    rewrite (call_run _ t0 (RManifest m blob) (worker t) Hr) end.
  - eexists; reflexivity.
  - cbn [dispatch worker]; rewrite bind_run; unfold need_wasm; destruct Hr as [_ ->]. rewrite bind_run; unfold lift, compute_manifest.
    rewrite Ho, Z.mul_comm, Z_mod_mult; cbn [negb Z.eqb]; by rewrite Hm.
Qed.
End File.

(** A mode 2 deal's parameters, as [parseServiceHint] accepts them. *)
Definition stripe_ok : Prop := match stripe with Some s => 0 < rs_k s /\ 0 < rs_m s | None => True end.

Lemma ceil_div_scale k a b : 0 < k -> 0 < b -> ceil_div (k * a) (k * b) = ceil_div a b.
Proof. intros Hk Hb; apply ceil_div_unique; [nia|]. pose proof (ceil_div_spec a b Hb); nia. Qed.

(** The witness MDUs planned are those its commitments need. *)
Lemma planned_witness_count n c : stripe_ok -> commitmentsPerMdu stripe = Ok c -> 0 < n ->
  ceil_div (per_mdu stripe * 48 * ceil_div n RAW_MDU_CAPACITY) RAW_MDU_CAPACITY = witnessMduCount (make_plan stripe no_existing n) /\
  totalUserChunks (make_plan stripe no_existing n) = ceil_div n RAW_MDU_CAPACITY.
Proof.
  unfold stripe_ok, per_mdu, commitmentsPerMdu, make_plan, witness_bytes; cbn [existingUserCount no_existing]; intros Hk Hc Hn.
  assert (0 < RAW_MDU_CAPACITY) as Hcap by done. pose proof (ceil_div_pos n RAW_MDU_CAPACITY Hcap Hn) as HU.
  destruct stripe as [s|]; cbn [witnessMduCount totalUserChunks]; rewrite !Z.add_0_l; (split; [|done]).
  - destruct Hk as [Hk Hm]; destruct (Z.eqb_spec ((rs_k s + rs_m s) * 64 mod rs_k s) 0) as [Hmod|]; [|done].
    set (per := (rs_k s + rs_m s) * 64 / rs_k s). set (U := ceil_div n RAW_MDU_CAPACITY) in *.
    assert ((rs_k s + rs_m s) * 64 = rs_k s * per) as Hper by (unfold per; Z.div_mod_to_equations; nia).
    rewrite Hper. replace (rs_k s * per * 48 * U) with (rs_k s * (per * 48 * U)) by ring.
    rewrite ceil_div_scale by done. assert (0 < per) by nia.
    pose proof (ceil_div_pos (per * 48 * U) RAW_MDU_CAPACITY Hcap ltac:(nia)); lia.
  - set (U := ceil_div n RAW_MDU_CAPACITY) in *. rewrite Z.mul_1_l.
    pose proof (ceil_div_pos (64 * 48 * U) RAW_MDU_CAPACITY Hcap ltac:(lia)); lia.
Qed.

Lemma begin_builder_total plan c (t : Tab) : ready (worker t) -> commitmentsPerMdu stripe = Ok c ->
  exists t', begin_builder stripe no_existing plan t = (Ok tt, t') /\ building_empty (worker t').
Proof.
  intros Hr Hc; unfold begin_builder; rewrite bind_run; unfold lift; rewrite Hc; cbn [baseMdu0Bytes no_existing].
  set (b := new_with_commitments (totalUserChunks plan) (given_commitments c)).
  exists (mkTab (set_builder b (worker t)) (store t) (view t)); split.
  - unfold call_initMdu0Builder; rewrite bind_run, (call_run _ t (RText "Mdu0Builder initialized") (set_builder b (worker t)) Hr); [done|].
    cbn [dispatch]; rewrite bind_run; unfold need_wasm; destruct Hr as [_ ->]; done.
  - split; [exact Hr|]. exists b; split; [done|split; [apply new_inv|apply records_new] ].
Qed.

Lemma shard_body_total file opMs c (t : Tab) :
  let plan := make_plan stripe no_existing (size file) in
  ready (worker t) -> stripe_ok -> commitmentsPerMdu stripe = Ok c -> Forall ascii_unit (file_name file) -> 0 < size file < 2 ^ 53 ->
  witnessMduCount plan + totalUserChunks plan <= 65536 ->
  exists t', shard_body file stripe no_existing plan opMs t = (Ok tt, t').
Proof.
  intros plan Hr Hk Hc Hn Hs Hfit; destruct (planned_witness_count (size file) c Hk Hc ltac:(lia)) as [Hcount HU]; fold plan in Hcount, HU.
  assert (0 < RAW_MDU_CAPACITY) as Hcap by done. pose proof (ceil_div_pos (size file) RAW_MDU_CAPACITY Hcap ltac:(lia)) as Hpos.
  assert (1 <= witnessMduCount plan) as HW by apply (plan_facts stripe no_existing (size file) ltac:(done) ltac:(lia)).
  unfold shard_body. destruct (begin_builder_total plan c t Hr Hc) as (t1 & H1 & Hb1); rewrite bind_run, H1.
  destruct (user_loop_total file opMs plan t1 (totalUserChunks plan) (proj1 Hb1)) as (r & t2 & H2 & Hw2 & Hl2 & Hall2 & Hz2 & Hwr2).
  rewrite bind_run, H2. rewrite zlen_seqZ in Hl2, Hz2 by lia.
  assert (exists t3, (match stripe with Some _ => setMode2Shards (mode2UserShards r) | None => mret tt end) t2 = (Ok tt, t3) /\ worker t3 = worker t2)
    as (t3 & H3 & Hw3) by (clear; destruct stripe; by eexists).
  rewrite bind_run, H3, bind_run. unfold shard_witnesses; cbv zeta. rewrite Hz2, HU, Hcount, Z.eqb_refl; cbn [negb].
  destruct (witness_loop_total opMs plan (concat (witnessDataBlobs r)) r t3 (witnessMduCount plan)) as (r' & t4 & H4 & Hb4 & Hu4 & Hl4 & Hall4);
    [by rewrite Hw3, Hw2|lia|done|]. rewrite H4, bind_run.
  destruct (finalize_total file opMs plan r' t4 Hb4 Hn Hs) as (mdu0 & root & r'' & t5 & H5 & Hr5 & Hz5 & Hu5 & Hw5);
    [by rewrite Hu4|lia|rewrite Hu4, Hl2; lia|]. rewrite H5; cbn [fst snd].
  apply publish_total; [done|done|by rewrite Hu5, Hu4|by rewrite Hw5].
Qed.
End Live.

(** ** Two theorems *)

Section Theorems.
Context {Ctx : Type} `{Kzg Ctx} (ctx : Ctx) (opMs : Z -> Z) (dealId : string) (stripe : option StripeParams) (file : File).

Lemma processFile_completes t fs c :
  core_total ctx stripe -> ready ctx (worker t) -> stripe_ok stripe -> commitmentsPerMdu stripe = Ok c -> file_ok file ->
  load_existing dealId stripe (store t) = (Ok no_existing, fs) ->
  witnessMduCount (make_plan stripe no_existing (size file)) + totalUserChunks (make_plan stripe no_existing (size file)) <= 65536 ->
  sp_phase (shardProgress (view (processFile opMs dealId stripe file t).2)) = phase_done.
Proof.
  intros Hcore Hr Hk Hc [Hn Hs] Hl Hfit; rewrite (processFile_run opMs dealId stripe file t no_existing fs Hl).
  destruct (shard_body_total ctx stripe Hcore file opMs c (planned stripe file no_existing fs t)) as [t' Ht']; [done..|].
  rewrite Ht'; cbn [snd]. unfold shard_body in Ht'.
  do 5 apply bind_ok in Ht' as (? & ? & _ & Ht').
  by apply publish_ok in Ht' as (_ & _ & _ & _ & Hph & _).
Qed.

(** C22: sharding a new file succeeds.  With the WASM in place and a commitment core that
    works on what it accepts (blobs of 128 KiB, at least one leaf, whole MDUs to stripe:
    [core_total]), [processFile] of a non-empty file into a new slab is done, in
    either mode: no step fails, the worker's answers have the sizes the page relies on,
    and the number of witness MDUs it planned is the number it finds. *)
Theorem processFile_succeeds t fs c :
  core_total ctx stripe -> ready ctx (worker t) -> stripe_ok stripe -> commitmentsPerMdu stripe = Ok c -> file_ok file ->
  load_existing dealId stripe (store t) = (Ok no_existing, fs) ->
  witnessMduCount (make_plan stripe no_existing (size file)) + totalUserChunks (make_plan stripe no_existing (size file)) <= 65536 ->
  sp_phase (shardProgress (view (processFile opMs dealId stripe file t).2)) = phase_done.
Proof. apply processFile_completes. Qed.

(** An empty file is never stored.  Its witness needs no MDU, but the page plans at
    least one, so the run always ends with the mismatch error. *)
Theorem processFile_rejects_empty t fs c :
  ready ctx (worker t) -> commitmentsPerMdu stripe = Ok c -> file_bytes file = [] ->
  load_existing dealId stripe (store t) = (Ok no_existing, fs) ->
  let v := view (processFile opMs dealId stripe file t).2 in
  sp_phase (shardProgress v) = phase_error /\
  sp_label (shardProgress v) = "witness_mdu_count mismatch (expected 1, got 0)" /\
  collectedMdus v = [] /\ currentManifestRoot v = None.
Proof.
  intros Hr Hc He Hl; rewrite (processFile_run opMs dealId stripe file t no_existing fs Hl).
  assert (size file = 0) as Hsz by (unfold size; by rewrite He).
  assert (exists t', shard_body file stripe no_existing (make_plan stripe no_existing (size file)) opMs (planned stripe file no_existing fs t)
    = (Thrown (Error "witness_mdu_count mismatch (expected 1, got 0)"), t')) as [t' Ht'].
  { rewrite Hsz. unfold shard_body.
    destruct (begin_builder_total ctx stripe (make_plan stripe no_existing 0) c (planned stripe file no_existing fs t) Hr Hc) as (t1 & H1 & _).
    rewrite bind_run, H1. clear; unfold make_plan, witness_bytes. destruct stripe as [s|]; cbn [totalUserChunks];
      rewrite ?Z.mul_0_r; eexists; reflexivity. }
  rewrite Ht'; apply shard_body_failed in Ht'; unfold published in Ht'; injection Ht' as Hcol Hroot _ _. by repeat split.
Qed.
End Theorems.

(** ** Concrete runs *)

#[local] Existing Instance demo_kzg.

Definition demo_view : Sharder := mkSharder [] [] None None [] false (reset_progress 0).
Definition demo_tab : @Tab unit := mkTab demo_worker ∅ demo_view.
Definition demo_file (l : bytes) : File := mkFile (units_of "report.txt") l.

Lemma demo_core : @core_total unit demo_kzg tt None.
Proof.
  constructor; [done|done|by intros cs root [= <-]|intros; eexists; reflexivity|done].
Qed.
Lemma demo_file_ok : file_ok (demo_file [1; 2; 3]).
Proof.
  split; [|change (0 < 3 < 2 ^ 53); lia]. unfold demo_file; cbn [file_name]; vm_compute units_of.
  repeat (constructor; [unfold ascii_unit; lia|]); constructor.
Qed.

Lemma demo_done : sp_phase (shardProgress (view (@processFile unit demo_kzg (fun _ => 5000) "7" None (demo_file [1; 2; 3]) demo_tab).2)) = phase_done.
Proof.
  apply (processFile_completes tt (fun _ => 5000) "7" None (demo_file [1; 2; 3]) demo_tab ∅ None);
    [apply demo_core|by split|exact I|reflexivity|apply demo_file_ok|reflexivity|]. vm_compute; congruence.
Qed.

Lemma processFile_succeeds_witness :
  sp_phase (shardProgress (view (@processFile unit demo_kzg (fun _ => 5000) "7" None (demo_file [1; 2; 3]) demo_tab).2)) = phase_done.
Proof.
  apply (processFile_succeeds tt (fun _ => 5000) "7" None (demo_file [1; 2; 3]) demo_tab ∅ None);
    [apply demo_core|by split|exact I|reflexivity|apply demo_file_ok|reflexivity|]. vm_compute; congruence.
Defined.

Lemma processFile_rejects_empty_witness :
  sp_label (shardProgress (view (@processFile unit demo_kzg (fun _ => 5000) "7" None (demo_file []) demo_tab).2))
    = "witness_mdu_count mismatch (expected 1, got 0)".
Proof.
  destruct (processFile_rejects_empty tt (fun _ => 5000) "7" None (demo_file []) demo_tab ∅ None) as (_ & Hl & _);
    [by split|reflexivity|reflexivity|reflexivity|]. exact Hl.
Defined.

Lemma processFile_publishes_slab_witness :
  map fst (collectedMdus (view (@processFile unit demo_kzg (fun _ => 5000) "7" None (demo_file [1; 2; 3]) demo_tab).2)) = [0; 1; 2].
Proof.
  destruct (processFile_publishes_slab (fun _ => 5000) "7" None (demo_file [1; 2; 3]) demo_tab no_existing ∅) as (Hids & _);
    [reflexivity|apply demo_file_ok|intros data Hd; discriminate Hd|reflexivity|cbn; lia|apply demo_done|].
  exact Hids.
Defined.
