(* ===== verification/SlabRoots.v ===== *)
(** * What the manifest of a slab commits to

    [processFile] hands over a slab and a manifest root.  This file relates the two:
    the manifest is the commitment to one root per MDU, in the order of the MDUs, each
    the root the core computes for that MDU; and MDU #0's root table holds the roots of
    all the others, where the reader of a slab looks for them. *)
From S2P Require Import Prelude JsString JsNum TransportTypes Effects Bytes Text NilfsCodec Layout Nilfs Opfs NilfsOpfsFetch.
From S2P Require Import Hex NilWasm ShardPool GatewayWorker Sharding ShardLive.
#[local] Open Scope Z_scope.

(** ** Laying roots side by side *)

Lemma set_root_at pre zs root : zlen root = 32 -> 32 <= zlen zs ->
  set_bytes (pre ++ zs) (zlen pre) root = Ok ((pre ++ root) ++ drop 32 zs).
Proof.
  intros Hr Hz; pose proof (zlen_nonneg pre). rewrite set_bytes_splice by (rewrite ?zlen_app; lia). f_equal.
  unfold splice. replace (Z.to_nat (zlen pre)) with (length pre) by (unfold zlen; lia).
  rewrite take_app_length, <- app_assoc. do 2 f_equal.
  replace (Z.to_nat (zlen pre + zlen root)) with (length pre + 32)%nat by (unfold zlen in *; lia). by rewrite drop_app_add.
Qed.
Lemma set_roots_flat roots : forall pre zs, Forall (fun root => zlen root = 32) roots -> zlen zs = 32 * zlen roots ->
  set_roots (pre ++ zs) (zlen pre) roots = Ok (pre ++ concat roots).
Proof.
  induction roots as [|root roots IH]; intros pre zs Hall Hz; cbn [set_roots concat].
  - rewrite (zlen_0_nil zs) by (rewrite Hz; done). done.
  - apply Forall_cons in Hall as [Hr Hall]; rewrite zlen_cons in Hz; pose proof (zlen_nonneg roots); pose proof (zlen_nonneg pre).
    rewrite set_root_at by lia; obind. replace (zlen pre + 32) with (zlen (pre ++ root)) by (rewrite zlen_app; lia).
    rewrite IH; [by rewrite <- app_assoc|done|]. change 32%nat with (Z.to_nat 32); rewrite zlen_drop by lia; lia.
Qed.

Section Roots.
Context {Ctx : Type} `{Kzg Ctx} (ctx : Ctx) (stripe : option StripeParams).
Context (Hcore : core_total ctx stripe).
Implicit Types t : @Tab Ctx.

(** The root of an MDU that is stored as it is, and of one that is striped. *)
Definition plain_root (data root : bytes) : Prop := exists w, commit_mdu ctx data = Ok (w, root).
Definition user_root (data root : bytes) : Prop :=
  match stripe with
  | Some s => exists w shards, expand_stripe ctx data (rs_k s) (rs_m s) = Ok (w, root, shards)
  | None => plain_root data root
  end.

Lemma progressive_plain data b w root : shard_progressive ctx data b = Ok (w, root) -> plain_root data root.
Proof.
  intros Hp. assert (zlen data = MDU_SIZE) as Hd.
  { unfold shard_progressive in Hp. by destruct (Z.eqb_spec (zlen data) MDU_SIZE). }
  destruct (commit_mdu_total ctx stripe Hcore data Hd) as (w' & root' & Hc & _).
  pose proof (shard_progressive_commit ctx data b _ _ Hc) as Hp'. exists w'; congruence.
Qed.
Lemma merkle_32 cs root : merkle_root ctx cs = Ok root -> zlen root = 32.
Proof. apply (merkle_size ctx stripe Hcore). Qed.
Lemma plain_root_32 data root : plain_root data root -> zlen root = 32.
Proof.
  intros [w Hc]; unfold commit_mdu in Hc; destruct (negb _) in Hc; [done|].
  destruct (mdu_to_kzg_commitments ctx data) as [cs|]; obind in Hc; [|done].
  destruct (merkle_root ctx cs) as [r|] eqn:E; obind in Hc; [|done]. injection Hc as _ <-. by eapply merkle_32.
Qed.
Lemma user_root_32 data root : user_root data root -> zlen root = 32.
Proof.
  unfold user_root; intros Hr. pose proof (plain_root_32 data root) as Hp; pose proof merkle_32 as Hm.
  destruct stripe as [s|]; [|by apply Hp]. destruct Hr as (w & shards & He); unfold expand_stripe in He.
  destruct (expand_encoded ctx data (rs_k s) (rs_m s)) as [parsed|]; obind in He; [|done].
  destruct (set_all _ _ _) as [flat|]; obind in He; [|done]. unfold compute_mdu_root in He.
  destruct (negb _) in He; [done|]. destruct (merkle_root ctx (chunks_exact 48 flat)) as [r|] eqn:E; obind in He; [|done].
  injection He as _ <- _. by eapply Hm.
Qed.

(** ** The worker between two messages *)

Definition steady {A} (m : M (@WorkerState Ctx) A) : Prop := forall s, ready ctx s -> ready ctx (m s).2.

Lemma steady_ret {A} (a : A) : steady (mret a).
Proof. by intros s. Qed.
Lemma steady_throw {A} (e : jserr) : steady (mthrow e : M _ A).
Proof. by intros s. Qed.
Lemma steady_lift {A} (o : outcome A) : steady (lift o).
Proof. by intros s. Qed.
Lemma steady_bind {A B} (m : M _ A) (f : A -> M _ B) : steady m -> (forall a, steady (f a)) -> steady (m ≫= f).
Proof. intros Hm Hf s Hs; rewrite bind_run; specialize (Hm s Hs); destruct (m s) as [ [a|e] s1]; [by apply Hf|done]. Qed.
Lemma steady_set_builder b : steady (modify (set_builder b)).
Proof. by intros s []. Qed.
Lemma steady_on_builder m : steady (on_builder m).
Proof. intros s []; unfold on_builder; destruct (mdu0BuilderInstance s) as [b|]; [|done]. by destruct (m b). Qed.
Lemma steady_need_wasm m : steady (need_wasm m).
Proof. intros s Hs; unfold need_wasm; by destruct (nilWasmInstance s). Qed.
Lemma steady_need_builder : steady need_builder.
Proof. intros s Hs; unfold need_builder; by destruct (mdu0BuilderInstance s). Qed.
Create HintDb steady discriminated.
#[local] Hint Resolve steady_ret steady_throw steady_lift steady_set_builder steady_on_builder steady_need_wasm steady_need_builder : steady.

Lemma steady_dispatch msg : steady (dispatch msg).
Proof.
  destruct msg; cbn [dispatch];
    repeat first [ solve [auto with steady nocore] | apply steady_bind; [|intros ?] | match goal with |- steady (if ?b then _ else _) => destruct b end ].
  - intros s [Hi Hn]; unfold prim; by rewrite Hn.
  - apply steady_throw.
Qed.
Lemma call_ready msg t r t' : ready ctx (worker t) -> call msg t = (r, t') -> ready ctx (worker t').
Proof.
  intros Hr Hc; unfold call, onmessage in Hc; rewrite bind_run in Hc; unfold initializeWasm in Hc.
  pose proof (steady_dispatch msg (worker t) Hr) as Hs. rewrite (proj1 Hr) in Hc.
  destruct (dispatch msg (worker t)) as [ [x|e] w]; by injection Hc as _ <-.
Qed.

(** ** Roots that are placed in MDU #0 *)

(** The builder is sound and its root table starts with the given roots. *)
Definition placed (s : @WorkerState Ctx) (roots : list bytes) : Prop :=
  exists b, mdu0BuilderInstance s = Some b /\ builder_inv b /\
    forall i root, roots !! i = Some root -> Z.of_nat i * ROOT_SIZE + ROOT_SIZE <= ROOT_TABLE_END /\ get_root b (Z.of_nat i) = root.

Lemma call_root_placed roots root t t' :
  placed (worker t) roots -> call_setMdu0Root (zlen roots) root t = (Ok tt, t') -> placed (worker t') (roots ++ [root]).
Proof.
  intros (b & Hb & Hinv & Hp) Hc; apply bind_ok in Hc as (r & t1 & Hc & Heq); injection Heq as <-.
  apply call_ok in Hc as (Hd & _ & _); cbn [dispatch] in Hd.
  apply bind_ok in Hd as (b' & w & Hn & Hd); apply need_builder_same in Hn as [-> _].
  destruct (Z.eqb_spec (zlen root) 32) as [Hz|]; [|done].
  apply bind_ok in Hd as ([] & w & Hs & Hd); apply mret_ok in Hd as [_ <-].
  unfold on_builder in Hs; rewrite Hb in Hs. pose proof (zlen_nonneg roots) as Hlen.
  pose proof (set_root_spec b (zlen roots) root Hinv ltac:(lia) Hz) as Hspec.
  destruct (Z.ltb_spec ROOT_TABLE_END (zlen roots * ROOT_SIZE + ROOT_SIZE)) as [|Hfit]; [by rewrite Hspec in Hs|].
  destruct Hspec as (b1 & E & Hinv1 & _ & Hget & Hother); rewrite E in Hs; injection Hs as <-.
  exists b1; split; [done|split; [done|] ]. intros i x Hi. apply lookup_app_Some in Hi as [Hi|[Hge Hi] ].
  - destruct (Hp i x Hi) as [Hr Hx]; split; [done|]. rewrite Hother; [done|lia|]. apply lookup_lt_Some in Hi; unfold zlen; lia.
  - apply list_lookup_singleton_Some in Hi as [Hi <-]. replace (Z.of_nat i) with (zlen roots) by (unfold zlen; lia). done.
Qed.

Lemma get_root_splice b i off chunk :
  zlen (buffer b) = MDU_SIZE -> 0 <= i -> i * ROOT_SIZE + ROOT_SIZE <= ROOT_TABLE_END -> ROOT_TABLE_END <= off -> off + zlen chunk <= MDU_SIZE ->
  get_root (set_buffer b (splice off chunk (buffer b))) i = get_root b i.
Proof. intros Hs Hi Hr Ho Hf; unfold get_root; cbn [set_buffer buffer]. apply slice_splice_other; layout_unfold; lia. Qed.

Lemma get_root_flush b i :
  zlen (buffer b) = MDU_SIZE -> header_wf (header b) -> 0 <= i -> i * ROOT_SIZE + ROOT_SIZE <= ROOT_TABLE_END ->
  get_root (flush_header b) i = get_root b i.
Proof.
  intros Hs Hw Hi Hr; pose proof (zlen_header_to_bytes _ Hw). apply get_root_splice; [done|done|done|layout_unfold; lia..].
Qed.

Lemma append_file_roots b p sz start b' : builder_inv b -> append_file p sz start b = (Ok tt, b') -> builder_inv b' ->
  forall i, 0 <= i -> i * ROOT_SIZE + ROOT_SIZE <= ROOT_TABLE_END -> get_root b' i = get_root b i.
Proof.
  intros [Hs Hw Hm Hf Hc Hroom] Ha Hinv' i Hi Hr; unfold append_file in Ha; cbv zeta in Ha.
  destruct (Z.ltb_spec 40 (zlen (TextEncoder_encode p))); [done|].
  unfold append_file_record in Ha; cbv zeta in Ha.
  destruct (Z.ltb_spec FILE_TABLE_END (record_offset (record_count (header b)) + FILE_RECORD_SIZE)) as [|Hfit]; [done|].
  match type of Ha with context [record_to_bytes ?r] => set (rec := r) in Ha end.
  assert (zlen (record_to_bytes rec) = 64) as Hz by (apply zlen_record_to_bytes; cbn [rec rec_path]; unfold pad40; rewrite zlen_app, zlen_zeros; lia).
  injection Ha as <-. destruct Hinv' as [_ Hw' _ _ _ _].
  destruct (splice_spec (record_offset (record_count (header b))) (record_to_bytes rec) (buffer b)) as [Hl _]; [layout_unfold; lia..|].
  rewrite get_root_flush; [|cbn [set_header set_buffer buffer]; congruence|exact Hw'|done|done].
  apply (get_root_splice b i); [done|done|done|layout_unfold; lia..].
Qed.

Lemma call_append_placed (file : File) start roots t t' :
  Forall ascii_unit (file_name file) -> 0 < zlen (file_bytes file) < 2 ^ 53 -> 0 <= start < 2 ^ 53 ->
  placed (worker t) roots ->
  call_appendFileToMdu0 (sanitizeNilfsRecordPath (file_name file)) (zlen (file_bytes file)) start t = (Ok tt, t') -> placed (worker t') roots.
Proof.
  intros Hn Hz Ho (b & Hb & Hinv & Hp) Hc; apply bind_ok in Hc as (r & t1 & Hc & Heq); injection Heq as <-.
  apply call_ok in Hc as (Hd & _ & _); cbn [dispatch] in Hd.
  apply bind_ok in Hd as ([] & w & Ha & Hd); apply mret_ok in Hd as [_ <-].
  unfold on_builder in Ha; rewrite Hb in Ha.
  destruct (append_file _ _ _ b) as [ [ [] |e] b'] eqn:E; [|done]; injection Ha as <-.
  destruct (append_file_ok b (file_name file) _ _ b' Hinv Hn Hz Ho E) as [Hinv' _].
  exists b'; split; [done|split; [done|] ]. intros i root Hi; destruct (Hp i root Hi) as [Hr Hg]; split; [done|].
  rewrite (append_file_roots _ _ _ _ _ Hinv E Hinv'); [done|lia|done].
Qed.

(** MDU #0 as it is read back: its root table. *)
Definition table_root (mdu0 : bytes) (i : nat) : bytes := slice (Z.of_nat i * ROOT_SIZE) (Z.of_nat i * ROOT_SIZE + ROOT_SIZE) mdu0.

Lemma call_bytes_placed roots t l t' :
  placed (worker t) roots -> call_getMdu0Bytes t = (Ok l, t') ->
  forall i root, roots !! i = Some root -> table_root l i = root.
Proof.
  intros (b & Hb & Hinv & Hp) Hc i root Hi; apply bind_ok in Hc as (r & t1 & Hc & Heq).
  apply call_ok in Hc as (Hd & _ & _); cbn [dispatch] in Hd.
  apply bind_ok in Hd as (b0 & w & Hn & Hd); apply need_builder_same in Hn as [-> Hb0].
  assert (b0 = b) as -> by congruence.
  apply bind_ok in Hd as (u & w1 & Hm & Hd). apply mret_ok in Hd as [<- _]. apply mret_ok in Heq as [<- _].
  destruct (Hp i root Hi) as [_ Hg]; unfold table_root; by rewrite builder_bytes_buffer.
Qed.

(** ** The run *)

Section Run.
Context (file : File) (ex : Existing) (plan : ShardPlan) (opMs : Z -> Z).

(** What a message that only computes replies. *)
Lemma call_dispatch msg t r t' : ready ctx (worker t) -> computes msg -> call msg t = (Ok r, t') ->
  t' = t /\ dispatch msg (worker t) = (Ok r, worker t).
Proof.
  intros Hr Hm Hc; pose proof (call_computes _ _ _ _ Hm Hc) as ->. apply call_ok in Hc as (Hd & _ & _); done.
Qed.
Ltac compute_reply Hd Hr :=
  cbn [dispatch] in Hd; rewrite bind_run in Hd; unfold need_wasm in Hd; rewrite (proj2 Hr), bind_run in Hd; unfold lift in Hd.

Lemma sharding_root data b t c t1 : ready ctx (worker t) -> call_shardFileProgressive data b t = (Ok c, t1) ->
  t1 = t /\ plain_root data c.2.
Proof.
  intros Hr Hc; apply bind_ok in Hc as (r & t0 & Hc & Heq); apply call_dispatch in Hc as [-> Hd]; [|done|done].
  compute_reply Hd Hr. destruct (shard_progressive ctx data (Some b)) as [ [w root]|] eqn:E; [|done].
  injection Hd as <-. apply mret_ok in Heq as [<- <-]. split; [done|]. by eapply progressive_plain.
Qed.
Lemma commit_user_root r data t c t1 : ready ctx (worker t) -> commit_user stripe r data t = (Ok c, t1) -> t1 = t /\ user_root data c.1.2.
Proof.
  unfold commit_user, user_root; pose proof (fun b => sharding_root data b t) as Hs; intros Hr Hc; destruct stripe as [s|].
  - apply bind_ok in Hc as (r' & t0 & Hc & Heq); apply call_dispatch in Hc as [-> Hd]; [|done|done].
    compute_reply Hd Hr. destruct (expand_stripe ctx data (rs_k s) (rs_m s)) as [ [ [w root] sh]|] eqn:E; [|done].
    injection Hd as <-. apply mret_ok in Heq as [<- <-]. split; [done|]. by exists w, sh.
  - apply bind_ok in Hc as ([w root] & t0 & Hc & Heq); apply Hs in Hc as [-> Hp]; [|done]. apply mret_ok in Heq as [<- <-]. done.
Qed.

Definition rooted (R : bytes -> bytes -> Prop) (mdus : list (Z * bytes)) (roots : list bytes) : Prop :=
  Forall2 (fun mdu root => R mdu.2 root) mdus roots.
Lemma rooted_snoc R mdus roots i data root : rooted R mdus roots -> R data root -> rooted R (mdus ++ [(i, data)]) (roots ++ [root]).
Proof. intros Hf Hr; apply Forall2_app; [done|by repeat constructor]. Qed.

Definition users_rooted (w0 : @WorkerState Ctx) (seen : list Z) (r : Run) t : Prop :=
  worker t = w0 /\ rooted user_root (userMdus r) (userRoots r) /\ map fst (userMdus r) = seen /\
  witnessMdus r = [] /\ witnessRoots r = [].

Lemma user_loop_rooted n t r t' : ready ctx (worker t) ->
  fold_m (user_step file stripe ex plan opMs) run_init (seqZ 0 n) t = (Ok r, t') -> users_rooted (worker t) (seqZ 0 n) r t'.
Proof.
  intros Hr; apply (fold_m_inv (users_rooted (worker t))); [|by repeat constructor].
  intros i seen rest r1 t1 r2 t2 _ (Hw & Hu & Hids & Hm & Hwr) Hs; unfold user_step in Hs.
  apply bind_ok in Hs as (? & ? & H1 & Hs); apply view_step in H1 as ->.
  apply bind_ok in Hs as (? & ? & H1 & Hs); apply view_step in H1 as ->.
  apply bind_ok in Hs as (data & ? & H1 & Hs); apply lift_ok in H1 as [_ ->].
  apply bind_ok in Hs as (c & ? & H1 & Hs); apply commit_user_root in H1 as [-> Hroot]; [|cbn; by rewrite Hw].
  apply bind_ok in Hs as (? & ? & H1 & Hs); apply view_step in H1 as ->.
  apply bind_ok in Hs as (? & ? & H1 & Hs); apply view_step in H1 as ->.
  apply mret_ok in Hs as [<- <-]. split; [done|split; [by apply rooted_snoc|split; [|done] ] ].
  cbn [userMdus]; by rewrite map_app, Hids.
Qed.

Definition witnesses_rooted (r0 : Run) (seen : list Z) (r : Run) t : Prop :=
  ready ctx (worker t) /\ placed (worker t) (witnessRoots r) /\ zlen (witnessRoots r) = zlen seen /\
  rooted plain_root (witnessMdus r) (witnessRoots r) /\ map fst (witnessMdus r) = map (Z.add 1) seen /\
  userMdus r = userMdus r0 /\ userRoots r = userRoots r0.

Lemma witness_loop_rooted full r0 n t r t' : ready ctx (worker t) -> placed (worker t) [] -> witnessRoots r0 = [] -> witnessMdus r0 = [] ->
  fold_m (witness_step plan opMs full) r0 (seqZ 0 n) t = (Ok r, t') -> witnesses_rooted r0 (seqZ 0 n) r t'.
Proof.
  intros Hr Hp H0 H1; apply (fold_m_inv (witnesses_rooted r0)); [|unfold witnesses_rooted; rewrite H0, H1; by repeat (split; [first [done|constructor]|])].
  intros i seen rest r1 t1 r2 t2 [Hi _]%seqZ_prefix (Hr1 & Hp1 & Hl & Hrt & Hids & Hum & Hur) Hs; unfold witness_step in Hs.
  apply bind_ok in Hs as (? & ? & Hv & Hs); apply view_step in Hv as ->.
  apply bind_ok in Hs as (? & ? & Hv & Hs); apply view_step in Hv as ->.
  apply bind_ok in Hs as (data & ? & Hv & Hs); apply lift_ok in Hv as [_ ->].
  apply bind_ok in Hs as (c & ? & Hv & Hs); apply sharding_root in Hv as [-> Hroot]; [|done].
  apply bind_ok in Hs as ([] & t3 & Hc & Hs).
  assert (i = zlen (witnessRoots r1)) as Hiz by lia. rewrite Hiz in Hc.
  assert (ready ctx (worker t3)) as Hr3.
  { apply bind_ok in Hc as (? & ? & Hc & Heq); apply mret_ok in Heq as [_ <-]. eapply call_ready; [|exact Hc]. done. }
  assert (placed (worker t3) (witnessRoots r1 ++ [c.2])) as Hp3 by (eapply call_root_placed; [|exact Hc]; exact Hp1).
  apply bind_ok in Hs as (? & ? & Hv & Hs); apply view_step in Hv as ->.
  apply bind_ok in Hs as (? & ? & Hv & Hs); apply view_step in Hv as ->.
  apply mret_ok in Hs as [<- <-]. split; [done|split; [done|split; [|split; [by apply rooted_snoc|split; [|done] ] ] ] ].
  - cbn [witnessRoots]; rewrite !zlen_app, Hl; done.
  - cbn [witnessMdus]; by rewrite !map_app, Hids.
Qed.

Lemma set_user_roots_placed ws us n : forall l t t',
  0 <= n -> l = seqZ n (zlen us - n) -> ready ctx (worker t) -> placed (worker t) (ws ++ take (Z.to_nat n) us) ->
  n <= zlen us -> zlen ws = witnessMduCount plan ->
  for_each l (fun i => call_setMdu0Root (witnessMduCount plan + i) (nth (Z.to_nat i) us [])) t = (Ok tt, t') ->
  ready ctx (worker t') /\ placed (worker t') (ws ++ us).
Proof.
  intros l; revert n; induction l as [|i l IH]; intros n t t' Hn Hl Hr Hp Hle Hw Hrun; cbn [for_each] in Hrun.
  - apply mret_ok in Hrun as [_ <-]; split; [done|]. assert (zlen us - n <= 0).
    { destruct (Z.lt_ge_cases 0 (zlen us - n)); [|lia]. rewrite seqZ_cons in Hl by lia; discriminate. }
    rewrite take_ge in Hp by (unfold zlen in *; lia). done.
  - destruct (Z.le_gt_cases (zlen us - n) 0) as [|Hpos]; [rewrite seqZ_nil in Hl by lia; discriminate|].
    rewrite seqZ_cons in Hl by lia. injection Hl as -> ->.
    apply bind_ok in Hrun as ([] & t1 & Hc & Hrun).
    destruct (lookup_lt_is_Some_2 us (Z.to_nat n)) as [root Hroot]; [unfold zlen in *; lia|].
    rewrite (nth_lookup_Some _ _ _ _ Hroot) in Hc.
    assert (ready ctx (worker t1)) as Hr1.
    { apply bind_ok in Hc as (? & ? & Hc & Heq); apply mret_ok in Heq as [_ <-]. eapply call_ready; [|exact Hc]. done. }
    assert (witnessMduCount plan + n = zlen (ws ++ take (Z.to_nat n) us)) as Hz.
    { rewrite zlen_app, Hw. unfold zlen in *; rewrite length_take; lia. }
    rewrite Hz in Hc; apply (call_root_placed _ _ _ _ Hp) in Hc. rewrite <- app_assoc, <- take_S_r in Hc by done.
    apply (IH (Z.succ n) t1 t'); try done; [lia|f_equal; lia| |lia]. by replace (Z.to_nat (Z.succ n)) with (S (Z.to_nat n)) by lia.
Qed.

(** The root of each MDU of the slab: of a user MDU as it is striped, of the others as
    they are. *)
Definition mdu_root (mdu : Z * bytes) (root : bytes) : Prop :=
  if witnessMduCount plan <? mdu.1 then user_root mdu.2 root else plain_root mdu.2 root.

(** What the view shows is a slab with its commitments. *)
Definition commits (v : Sharder) : Prop :=
  exists mdu0 rest root0 roots manifest blob,
    collectedMdus v = (0, mdu0) :: rest /\ Forall2 mdu_root (collectedMdus v) (root0 :: roots) /\
    manifest_commitment ctx (root0 :: roots) = Ok (manifest, blob) /\
    currentManifestRoot v = Some (bytesToHex manifest) /\ currentManifestBlob v = Some blob /\
    forall i root, roots !! i = Some root -> table_root mdu0 i = root.

Lemma all_roots_flat root ws us : Forall (fun root => zlen root = 32) (root :: ws ++ us) ->
  all_roots root ws us = Ok (concat (root :: ws ++ us)).
Proof.
  intros Hall; unfold all_roots. pose proof (set_roots_flat (root :: ws ++ us) [] (zeros (32 * (1 + zlen ws + zlen us))) Hall) as Hs.
  cbn [app] in Hs; change (zlen (@nil Z)) with 0 in Hs. apply Hs. pose proof (zlen_nonneg ws); pose proof (zlen_nonneg us).
  rewrite zlen_zeros by lia. rewrite zlen_cons, zlen_app; lia.
Qed.

Lemma rooted_32 (R : bytes -> bytes -> Prop) mdus roots : (forall d r, R d r -> zlen r = 32) -> rooted R mdus roots ->
  Forall (fun root => zlen root = 32) roots.
Proof. intros HR; induction 1; constructor; eauto. Qed.
Lemma rooted_mdus (R : bytes -> bytes -> Prop) g mdus roots ids :
  rooted R mdus roots -> map fst mdus = ids ->
  (forall i data root, i ∈ ids -> R data root -> mdu_root (g (i, data)) root) -> Forall2 mdu_root (map g mdus) roots.
Proof.
  intros Hf <- HR; induction Hf as [| [i data] root mdus roots Hr _ IH]; constructor; [apply HR; [left|done]|].
  apply IH; intros; apply HR; [by right|done].
Qed.

Lemma begin_builder_placed t t' : ready ctx (worker t) -> base_ok ex -> begin_builder stripe ex plan t = (Ok tt, t') ->
  ready ctx (worker t') /\ placed (worker t') [].
Proof.
  intros Hr Hb H1; pose proof (begin_builder_ok _ _ _ _ _ Hb H1) as ((b & Hb1 & Hinv & _) & _ & _); split.
  - unfold begin_builder in H1; apply bind_ok in H1 as (c & t0 & Hl & H1); apply lift_ok in Hl as [_ ->].
    repeat case_match; apply bind_ok in H1 as (? & ? & Hc & Heq); apply mret_ok in Heq as [_ <-]; by eapply call_ready.
  - exists b; split; [done|split; [done|]; intros i r Hi; by rewrite lookup_nil in Hi].
Qed.

(** What the run holds before the manifest is computed. *)
Definition run_rooted (r : Run) : Prop :=
  rooted user_root (userMdus r) (userRoots r) /\ map fst (userMdus r) = seqZ 0 (totalUserChunks plan) /\
  rooted plain_root (witnessMdus r) (witnessRoots r) /\ map fst (witnessMdus r) = map (Z.add 1) (seqZ 0 (witnessMduCount plan)).

Lemma finalize_rooted r t f t' :
  Forall ascii_unit (file_name file) -> 0 < zlen (file_bytes file) < 2 ^ 53 -> 0 <= start_offset_of ex < 2 ^ 53 ->
  ready ctx (worker t) -> placed (worker t) (witnessRoots r) -> zlen (witnessRoots r) = witnessMduCount plan ->
  finalize file ex plan opMs r t = (Ok f, t') ->
  ready ctx (worker t') /\ plain_root f.1.1 f.1.2 /\ (run_rooted r -> run_rooted f.2) /\
  forall i root, (witnessRoots f.2 ++ userRoots f.2) !! i = Some root -> table_root f.1.1 i = root.
Proof.
  intros Hn Hz Ho Hr Hp Hl Hf; unfold finalize in Hf; cbv zeta in Hf.
  apply bind_ok in Hf as ([] & t1 & H1 & Hf). apply (set_user_roots_placed (witnessRoots r) (userRoots r) 0) in H1 as [Hr1 Hp1];
    [|lia|by rewrite Z.sub_0_r|done|by rewrite app_nil_r|apply zlen_nonneg|done].
  apply bind_ok in Hf as ([] & t2 & H2 & Hf). assert (ready ctx (worker t2)) as Hr2.
  { apply bind_ok in H2 as (? & ? & Hc & Heq); apply mret_ok in Heq as [_ <-]; by eapply call_ready. }
  apply (call_append_placed file _ (witnessRoots r ++ userRoots r)) in H2 as Hp2; [|done..].
  apply bind_ok in Hf as (? & ? & Hv & Hf); apply view_step in Hv as ->. apply bind_ok in Hf as (? & ? & Hv & Hf); apply view_step in Hv as ->.
  apply bind_ok in Hf as (l & t3 & H3 & Hf). assert (ready ctx (worker t3)) as Hr3.
  { apply bind_ok in H3 as (y & ? & Hc & Heq). destruct y; try discriminate Heq; apply mret_ok in Heq as [_ <-].
    eapply call_ready; [|exact Hc]; done. }
  assert (forall i root, (witnessRoots r ++ userRoots r) !! i = Some root -> table_root l i = root) as Htable.
  { eapply call_bytes_placed; [|exact H3]; exact Hp2. }
  apply bind_ok in Hf as (c & ? & Hc & Hf); apply sharding_root in Hc as [-> Hroot]; [|done].
  apply bind_ok in Hf as (? & ? & Hv & Hf); apply view_step in Hv as ->. apply bind_ok in Hf as (? & ? & Hv & Hf); apply view_step in Hv as ->.
  by apply mret_ok in Hf as [<- <-].
Qed.

Lemma manifest_reply roots flat (s : @WorkerState Ctx) manifest blob :
  ready ctx s -> Forall (fun root => zlen root = 32) roots -> flat = concat roots ->
  dispatch (computeManifest flat) s = (Ok (RManifest manifest blob), s) -> manifest_commitment ctx roots = Ok (manifest, blob).
Proof.
  intros Hr H32 -> Hd; compute_reply Hd Hr. unfold compute_manifest in Hd.
  rewrite (zlen_concat 32), Z.mul_comm, Z_mod_mult, (chunks_exact_concat 32) in Hd by done; cbn [negb Z.eqb] in Hd.
  destruct (manifest_commitment ctx roots) as [ [m b] |]; [|done]. by injection Hd as <- <-.
Qed.

Lemma publish_commits mdu0 root0 r t t' :
  ready ctx (worker t) -> 0 <= witnessMduCount plan -> plain_root mdu0 root0 -> run_rooted r ->
  (forall i root, (witnessRoots r ++ userRoots r) !! i = Some root -> table_root mdu0 i = root) ->
  publish plan mdu0 root0 r t = (Ok tt, t') -> commits (view t').
Proof.
  intros Hr HW H0 (Hu & Hui & Hw & Hwi) Htable Hp.
  apply publish_ok in Hp as (_ & Hcol & _ & _ & _ & _ & _ & _ & _ & allRoots & manifest & blob & Hall & Hd & Hroot & Hblob).
  assert (Forall (fun root => zlen root = 32) (root0 :: witnessRoots r ++ userRoots r)) as H32.
  { constructor; [by eapply plain_root_32|]. apply Forall_app; split; eapply rooted_32; try done; [apply plain_root_32|apply user_root_32]. }
  assert (allRoots = concat (root0 :: witnessRoots r ++ userRoots r)) as Hflat.
  { apply (f_equal (fun o => match o with Ok l => l | Thrown _ => [] end)) in Hall. by rewrite (all_roots_flat _ _ _ H32) in Hall. }
  apply (manifest_reply _ _ _ _ _ Hr H32 Hflat) in Hd.
  exists mdu0, (witnessMdus r ++ map (fun m => (1 + witnessMduCount plan + m.1, m.2)) (userMdus r)), root0, (witnessRoots r ++ userRoots r), manifest, blob.
  split; [done|split; [|done] ]. rewrite Hcol; unfold final_mdus; constructor.
  { unfold mdu_root; cbn [fst snd]. destruct (Z.ltb_spec (witnessMduCount plan) 0); [lia|done]. }
  apply Forall2_app.
  - rewrite <- (map_id (witnessMdus r)). apply (rooted_mdus plain_root _ _ _ _ Hw Hwi). intros i data root Hin Hpr; unfold mdu_root; cbn [fst snd].
    apply list_elem_of_In, in_map_iff in Hin as (j & <- & Hin). apply list_elem_of_In, elem_of_seqZ in Hin.
    destruct (Z.ltb_spec (witnessMduCount plan) (1 + j)); [lia|done].
  - apply (rooted_mdus user_root _ _ _ _ Hu Hui). intros i data root Hin Hpr; unfold mdu_root; cbn [fst snd]. apply elem_of_seqZ in Hin.
    destruct (Z.ltb_spec (witnessMduCount plan) (1 + witnessMduCount plan + i)); [done|lia].
Qed.

Lemma shard_body_roots t t' :
  ready ctx (worker t) -> Forall ascii_unit (file_name file) -> 0 < zlen (file_bytes file) < 2 ^ 53 ->
  0 <= start_offset_of ex < 2 ^ 53 -> 0 <= witnessMduCount plan -> base_ok ex ->
  shard_body file stripe ex plan opMs t = (Ok tt, t') -> commits (view t').
Proof.
  unfold shard_body; intros Hr Hn Hz Ho HW Hb Hu.
  apply bind_ok in Hu as ([] & t1 & H1 & Hu); apply begin_builder_placed in H1 as [Hr1 Hp1]; [|done..].
  apply bind_ok in Hu as (r & t2 & H2 & Hu); apply user_loop_rooted in H2 as (Hw2 & Hu2 & Hi2 & Hm2 & Hwr2); [|done].
  assert (exists t3, worker t3 = worker t2 /\ (r ← shard_witnesses plan opMs r; f ← finalize file ex plan opMs r; publish plan f.1.1 f.1.2 f.2) t3 = (Ok tt, t'))
    as (t3 & Hw3 & Hu').
  { clear -Hu; destruct stripe; apply bind_ok in Hu as (? & t3 & H3 & Hu); exists t3; (split; [|exact Hu]).
    - by apply view_step in H3 as ->.
    - by apply mret_ok in H3 as [_ <-]. }
  clear Hu; apply bind_ok in Hu' as (r' & t4 & H4 & Hu); unfold shard_witnesses in H4. destruct (negb _) in H4; [done|].
  apply witness_loop_rooted in H4 as (Hr4 & Hp4 & Hl4 & Hwt4 & Hwi4 & Hum4 & Hur4); [|by rewrite Hw3, Hw2|by rewrite Hw3, Hw2|done|done].
  apply bind_ok in Hu as (f & t5 & H5 & Hu).
  apply finalize_rooted in H5 as (Hr5 & H0 & Hrun & Htable); [|done|done|done|done|done|rewrite Hl4, zlen_seqZ; lia].
  eapply publish_commits; [exact Hr5|done|exact H0| |exact Htable|exact Hu].
  apply Hrun; unfold run_rooted; rewrite Hum4, Hur4; done.
Qed.
End Run.
End Roots.

Section Committed.
Context {Ctx : Type} `{Kzg Ctx} (ctx : Ctx) (opMs : Z -> Z) (dealId : string) (stripe : option StripeParams) (file : File).

Lemma processFile_commits (t : @Tab Ctx) ex fs :
  core_total ctx stripe -> ready ctx (worker t) ->
  valid_deal dealId -> file_ok file -> stored_mdu0_ok dealId (store t) ->
  load_existing dealId stripe (store t) = (Ok ex, fs) -> appendStartOffset ex < 2 ^ 53 ->
  sp_phase (shardProgress (view (processFile opMs dealId stripe file t).2)) = phase_done ->
  commits ctx stripe (make_plan stripe ex (size file)) (view (processFile opMs dealId stripe file t).2).
Proof.
  intros Hcore Hr Hd [Hn Hz] Hst Hl Hoff; rewrite (processFile_run opMs dealId stripe file t ex fs Hl); intros Hph.
  destruct (load_existing_ok dealId stripe (store t) Hd) as (ex' & fs' & Hl' & Hex).
  assert (ex' = ex) as -> by congruence. pose proof (existing_count _ _ Hex) as [Hc Ho].
  pose proof (plan_facts stripe ex (size file) Hc ltac:(unfold size in *; lia)) as (HW & _).
  destruct (shard_body file stripe ex (make_plan stripe ex (size file)) opMs (planned stripe file ex fs t)) as [ [ [] |e] t4] eqn:Hb; [|done].
  cbn [snd set_processing view]. apply (shard_body_roots ctx stripe Hcore) in Hb; [exact Hb|exact Hr|done|done| |lia|].
  - unfold start_offset_of; destruct (appendMode2 ex); lia.
  - unfold base_ok; destruct Hex as [->|(Hbase & [data Hdata] & _)]; [done|].
    rewrite Hbase, Hdata; intros _. by apply Hst.
Qed.

(** C4: The manifest commits to the slab.  With a working core ([core_total]), when a run is
    done, the manifest root it shows
    is the core's commitment to a list of roots, one for each MDU it hands over and in
    their order: MDU #0's and the witness MDUs' roots are those of their 64 blobs, and
    a user MDU's is that of its stripe in a mode 2 deal.  The root table of MDU #0 holds
    the same roots of all the MDUs after it, so that the slab can be checked against
    the manifest from MDU #0 alone. *)
Theorem manifest_commits_slab (t : @Tab Ctx) ex fs :
  core_total ctx stripe -> ready ctx (worker t) ->
  valid_deal dealId -> file_ok file -> stored_mdu0_ok dealId (store t) ->
  load_existing dealId stripe (store t) = (Ok ex, fs) -> appendStartOffset ex < 2 ^ 53 ->
  let v := view (processFile opMs dealId stripe file t).2 in
  sp_phase (shardProgress v) = phase_done ->
  exists mdu0 rest root0 roots manifest blob,
    collectedMdus v = (0, mdu0) :: rest /\
    Forall2 (mdu_root ctx stripe (make_plan stripe ex (size file))) (collectedMdus v) (root0 :: roots) /\
    manifest_commitment ctx (root0 :: roots) = Ok (manifest, blob) /\
    currentManifestRoot v = Some (bytesToHex manifest) /\ currentManifestBlob v = Some blob /\
    forall i root, roots !! i = Some root -> slice (Z.of_nat i * 32) (Z.of_nat i * 32 + 32) mdu0 = root.
Proof. apply processFile_commits. Qed.
End Committed.

(** ** A concrete run *)

#[local] Existing Instance demo_kzg.

Lemma manifest_commits_slab_witness :
  let v := view (@processFile unit demo_kzg (fun _ => 5000) "7" None (demo_file [1; 2; 3]) demo_tab).2 in
  exists mdu0 root0 manifest, collectedMdus v !! 0%nat = Some (0, mdu0) /\ plain_root tt mdu0 root0 /\ currentManifestRoot v = Some manifest.
Proof.
  destruct (manifest_commits_slab tt (fun _ => 5000) "7" None (demo_file [1; 2; 3]) demo_tab no_existing ∅)
    as (mdu0 & rest & root0 & roots & manifest & blob & Hcol & Hroots & _ & Hroot & _);
    [apply demo_core|by split|by vm_compute|apply demo_file_ok|by intros d Hd|reflexivity|reflexivity|apply demo_done|].
  cbv zeta. exists mdu0, root0, (bytesToHex manifest); rewrite Hcol in Hroots |- *. split; [done|split; [|exact Hroot] ].
  inversion Hroots as [|? ? ? ? Hr]; subst; exact Hr.
Defined.
