(* ===== verification/WorkerClient.v ===== *)
(** * Promises over messages (lib/worker-client.ts; the commit pool of workers/gateway.worker.ts)

    Both sides of the worker boundary keep a table from message ids to the promises
    that wait for them.  The state machines here have one transition per event
    handler, in any order the event loop may deliver them; what is shown is that a
    promise settles at most once, what alone can lose one, and what a crash does. *)
From S2P Require Import Prelude JsString JsNum TransportTypes Effects Bytes.
From stdpp Require Import relations.
#[local] Open Scope Z_scope.

(** What the handlers make visible to callers. *)
Inductive event (P : Type) :=
| Resolved (id : Z) (payload : P)
| Rejected (id : Z) (message : string)
| Progressed (id : Z) (payload : P).
#[global] Arguments Resolved {P} id payload.
#[global] Arguments Rejected {P} id message.
#[global] Arguments Progressed {P} id payload.

(** The id an event settles. *)
Definition settles_id {P} (e : event P) : option Z :=
  match e with Resolved i _ | Rejected i _ => Some i | Progressed _ _ => None end.
Definition settled {P} (log : list (event P)) : list Z := omap settles_id log.

Lemma settled_app {P} (a b : list (event P)) : settled (a ++ b) = settled a ++ settled b.
Proof. apply omap_app. Qed.

(** ** worker-client.ts *)

Section Client.
Context {P : Type}.

(** The [type] field of a message from the worker. *)
Inductive MessageType := MResult | MError | MProgress | MOther.

(** Pending ids in insertion order, with whether they have an [onProgress]. *)
Record Client := mkClient { pendingWorkerMessages : list (Z * bool); nextWorkerMessageId : Z; clog : list (event P) }.
Definition client_init : Client := mkClient [] 0 [].

Definition pending_ids (c : Client) : list Z := map fst (pendingWorkerMessages c).
Definition delete_id (id : Z) (l : list (Z * bool)) : list (Z * bool) := List.filter (fun p => negb (p.1 =? id)) l.
Definition get_pending (id : Z) (l : list (Z * bool)) : option bool := snd <$> List.find (fun p => p.1 =? id) l.

Definition sendMessageToWorker (onProgress : bool) (c : Client) : Z * Client :=
  let id := nextWorkerMessageId c in
  (id, mkClient (pendingWorkerMessages c ++ [(id, onProgress)]) (id + 1) (clog c)).

(** The promise rejects where [postMessage] throws inside its executor; its entry is in the
    table by then, and stays. *)
Definition send_throws (onProgress : bool) (text : string) (c : Client) : Client :=
  let c' := (sendMessageToWorker onProgress c).2 in
  mkClient (pendingWorkerMessages c') (nextWorkerMessageId c') (clog c' ++ [Rejected (nextWorkerMessageId c) text]).

(** Settling a promise: nothing happens to one that is settled already. *)
Definition log_settle (e : event P) (log : list (event P)) : list (event P) :=
  match settles_id e with
  | Some id => if bool_decide (id ∈ settled log) then log else log ++ [e]
  | None => log ++ [e]
  end.

(** [worker.onmessage]; [text] is the payload as the message of an [Error]. *)
Definition client_onmessage (id : Z) (type : MessageType) (payload : P) (text : string) (c : Client) : Client :=
  match get_pending id (pendingWorkerMessages c) with
  | None => c
  | Some onProgress =>
      let deleted := delete_id id (pendingWorkerMessages c) in
      match type with
      | MResult => mkClient deleted (nextWorkerMessageId c) (log_settle (Resolved id payload) (clog c))
      | MError => mkClient deleted (nextWorkerMessageId c) (log_settle (Rejected id text) (clog c))
      | MProgress => mkClient (pendingWorkerMessages c) (nextWorkerMessageId c)
                       (clog c ++ (if onProgress then [Progressed id payload] else []))
      | MOther => mkClient deleted (nextWorkerMessageId c) (clog c)
      end
  end.

Definition worker_crashed (message : string) : string := "Worker encountered an error: " +:+ message.
(** [worker.onerror]: every pending promise is rejected. *)
Definition client_onerror (message : string) (c : Client) : Client :=
  mkClient [] (nextWorkerMessageId c)
    (fold_left (fun log p => log_settle (Rejected p.1 (worker_crashed message)) log) (pendingWorkerMessages c) (clog c)).

(** The runs of the client: every event, in any order.  Kept beside the state are the ids
    whose message could not be posted, and those that got a reply of an unknown type
    while they were pending. *)
Inductive client_run : list Z -> list Z -> Client -> Prop :=
| run_init : client_run [] [] client_init
| run_send failed lost c onProgress : client_run failed lost c -> client_run failed lost (sendMessageToWorker onProgress c).2
| run_send_throws failed lost c onProgress text : client_run failed lost c ->
    client_run (nextWorkerMessageId c :: failed) lost (send_throws onProgress text c)
| run_message failed lost c id type payload text : client_run failed lost c ->
    client_run failed (match type with MOther => if bool_decide (id ∈ pending_ids c) then id :: lost else lost | _ => lost end)
      (client_onmessage id type payload text c)
| run_error failed lost c message : client_run failed lost c -> client_run failed lost (client_onerror message c).

Record client_inv (failed lost : list Z) (c : Client) : Prop := {
  ci_pending : NoDup (pending_ids c);
  ci_settled : NoDup (settled (clog c));
  ci_both : forall id, id ∈ pending_ids c -> id ∈ settled (clog c) -> id ∈ failed;
  ci_lost : forall id, id ∈ lost -> 0 <= id < nextWorkerMessageId c /\ id ∉ pending_ids c;
  ci_known : forall id, id ∈ pending_ids c \/ id ∈ settled (clog c) -> 0 <= id < nextWorkerMessageId c;
  ci_cover : forall id, 0 <= id < nextWorkerMessageId c -> id ∈ pending_ids c \/ id ∈ settled (clog c) \/ id ∈ lost;
  ci_next : 0 <= nextWorkerMessageId c
}.

Lemma elem_of_delete id i l : i ∈ map fst (delete_id id l) <-> i ∈ map fst l /\ i <> id.
Proof.
  unfold delete_id; rewrite !list_elem_of_In, !in_map_iff; split.
  - intros (p & <- & [Hin Hne]%filter_In). apply negb_true_iff, Z.eqb_neq in Hne. split; [by exists p|done].
  - intros [(p & <- & Hin) Hne]. exists p; split; [done|]. apply filter_In; split; [done|]. by apply negb_true_iff, Z.eqb_neq.
Qed.
Lemma NoDup_delete id l : NoDup (map fst l) -> NoDup (map fst (delete_id id l)).
Proof.
  induction l as [|p l IH]; [done|]; cbn [map]; intros [Hp Hl]%NoDup_cons; unfold delete_id; cbn [List.filter].
  destruct (negb _); [|by apply IH]. cbn [map]; constructor; [|by apply IH]. intros Hin; apply Hp. by apply elem_of_delete in Hin as [Hin _].
Qed.

Lemma get_pending_in id l b : get_pending id l = Some b -> id ∈ map fst l.
Proof.
  unfold get_pending; destruct (List.find _ l) as [[i b']|] eqn:E; [|done]; intros _.
  apply find_some in E as [Hin Hi]; cbn in Hi. apply Z.eqb_eq in Hi as ->.
  apply list_elem_of_In, in_map_iff; by exists (id, b').
Qed.
Lemma get_pending_none id l : get_pending id l = None -> id ∉ map fst l.
Proof.
  unfold get_pending; destruct (List.find _ l) as [p|] eqn:E; [done|]; intros _ Hin.
  apply list_elem_of_In, in_map_iff in Hin as (p & <- & Hin). apply (find_none _ _ E) in Hin; cbn in Hin. by rewrite Z.eqb_refl in Hin.
Qed.

Lemma settled_settle e id log : settles_id e = Some id ->
  forall i, i ∈ settled (log_settle e log) <-> i ∈ settled log \/ i = id.
Proof.
  intros He i; unfold log_settle; rewrite He. case_bool_decide as Hin; [split; [tauto|by intros [?| ->] ]|].
  rewrite settled_app, elem_of_app; unfold settled at 2; cbn [omap list_omap]; rewrite He. by rewrite list_elem_of_singleton.
Qed.
Lemma NoDup_settle e log : NoDup (settled log) -> NoDup (settled (log_settle e log)).
Proof.
  intros Hnd; unfold log_settle; destruct (settles_id e) as [id|] eqn:He.
  - case_bool_decide as Hin; [done|]. rewrite settled_app; unfold settled at 2; cbn [omap list_omap]; rewrite He.
    apply NoDup_app; split; [done|]; split; [|apply NoDup_singleton]. by intros x Hx ->%list_elem_of_singleton.
  - rewrite settled_app; unfold settled at 2; cbn [omap list_omap]; rewrite He. by rewrite app_nil_r.
Qed.
Lemma settle_all m l : forall log : list (event P), NoDup (settled log) ->
  let log' := fold_left (fun log p => log_settle (Rejected p.1 m) log) l log in
  NoDup (settled log') /\ forall i, i ∈ settled log' <-> i ∈ settled log \/ i ∈ map fst (l : list (Z * bool)).
Proof.
  induction l as [|p l IH]; intros log Hnd; cbn [fold_left map]; [by split; [|set_solver]|].
  destruct (IH _ (NoDup_settle (Rejected p.1 m) _ Hnd)) as [H1 H2]; split; [done|]. intros i; rewrite H2.
  rewrite (settled_settle _ p.1), elem_of_cons by done. tauto.
Qed.

(** Removing an id from the table, with or without settling it. *)
Lemma inv_removed failed lost c id log :
  client_inv failed lost c -> id ∈ pending_ids c -> NoDup (settled log) ->
  (forall i, i ∈ settled log <-> i ∈ settled (clog c) \/ i = id) ->
  client_inv failed lost (mkClient (delete_id id (pendingWorkerMessages c)) (nextWorkerMessageId c) log).
Proof.
  intros [K1 K2 K3 K4 K5 K6 K7] Hin Hnd Hlog; unfold pending_ids in *.
  split; unfold pending_ids; cbn [pendingWorkerMessages clog nextWorkerMessageId]; [by apply NoDup_delete|done|..|done].
  - intros i [Hi Hne]%elem_of_delete [Hs| ->]%Hlog; [by apply K3|done].
  - intros i Hi; destruct (K4 i Hi) as [? Hn]; split; [done|]. intros [? _]%elem_of_delete; by apply Hn.
  - intros i [ [Hi _]%elem_of_delete|[Hi| ->]%Hlog]; apply K5; tauto.
  - intros i Hi; destruct (decide (i = id)) as [->|Hne]; [right; left; apply Hlog; by right|].
    destruct (K6 i Hi) as [Hp|[Hs|Hl] ]; [left; by apply elem_of_delete|right; left; apply Hlog; by left|by right; right].
Qed.

Lemma inv_sent failed lost c b : client_inv failed lost c ->
  client_inv failed lost (sendMessageToWorker b c).2 /\
  (nextWorkerMessageId c ∉ pending_ids c) /\ (nextWorkerMessageId c ∉ settled (clog c)).
Proof.
  intros [K1 K2 K3 K4 K5 K6 K7].
  assert (nextWorkerMessageId c ∉ pending_ids c /\ nextWorkerMessageId c ∉ settled (clog c)) as [Hp Hs].
  { split; intros Hin; [pose proof (K5 _ (or_introl Hin))|pose proof (K5 _ (or_intror Hin))]; lia. }
  split; [|done]. assert (forall i, i ∈ map fst (pendingWorkerMessages c ++ [(nextWorkerMessageId c, b)]) <-> i ∈ pending_ids c \/ i = nextWorkerMessageId c) as Hiff.
  { intros i; rewrite map_app, elem_of_app; cbn [map fst]. by rewrite list_elem_of_singleton. }
  unfold sendMessageToWorker; split; unfold pending_ids; cbn [snd pendingWorkerMessages clog nextWorkerMessageId]; [|done|..|lia].
  - rewrite map_app; cbn [map fst]. apply NoDup_app; split; [done|]; split; [|apply NoDup_singleton]. by intros x Hx ->%list_elem_of_singleton.
  - intros i [Hi| ->]%Hiff Hst; [by apply K3|done].
  - intros i Hi; destruct (K4 i Hi) as [? Hn]; split; [lia|]. intros [?| ->]%Hiff; [by apply Hn|lia].
  - intros i [ [Hi| ->]%Hiff|Hi]; [|lia|]; [pose proof (K5 i (or_introl Hi))|pose proof (K5 i (or_intror Hi))]; lia.
  - intros i Hi. rewrite Hiff. destruct (decide (i = nextWorkerMessageId c)); [tauto|]. destruct (K6 i ltac:(lia)); tauto.
Qed.

Lemma client_run_inv failed lost c : client_run failed lost c -> client_inv failed lost c.
Proof.
  induction 1 as [|failed lost c b _ IH|failed lost c b text _ IH|failed lost c id type payload text _ IH|failed lost c m _ IH].
  - split; cbn; [constructor|constructor|by intros ? ?%elem_of_nil|by intros ? ?%elem_of_nil|by intros ? [?%elem_of_nil|?%elem_of_nil]|intros; lia|done].
  - by apply inv_sent.
  - destruct (inv_sent failed lost c b IH) as ([K1 K2 K3 K4 K5 K6 K7] & Hp & Hs). unfold send_throws.
    assert (forall i, i ∈ settled (clog (sendMessageToWorker b c).2 ++ [Rejected (nextWorkerMessageId c) text]) <->
      i ∈ settled (clog c) \/ i = nextWorkerMessageId c) as Hiff.
    { intros i; rewrite settled_app, elem_of_app; cbn. by rewrite list_elem_of_singleton. }
    split; cbn [pendingWorkerMessages clog nextWorkerMessageId]; [exact K1|..|exact K7].
    + rewrite settled_app; apply NoDup_app; split; [exact K2|]; split; [|apply NoDup_singleton]. cbn. by intros x Hx ->%list_elem_of_singleton.
    + intros i Hi [Hst| ->]%Hiff; [right; by apply K3|left].
    + exact K4.
    + intros i [Hi|[Hi| ->]%Hiff]; [apply K5; by left|apply K5; by right|cbn; pose proof (ci_next _ _ _ IH); lia].
    + intros i Hi; destruct (K6 i Hi) as [?|[?|?] ]; [by left|right; left; apply Hiff; by left|by right; right].
  - unfold client_onmessage; destruct (get_pending id (pendingWorkerMessages c)) as [b|] eqn:E.
    2: { destruct type; try exact IH. rewrite bool_decide_eq_false_2; [exact IH|by apply get_pending_none]. }
    apply get_pending_in in E as Hin; change (id ∈ pending_ids c) in Hin. destruct type.
    + apply inv_removed; [done|done|apply NoDup_settle, (ci_settled _ _ _ IH)|by apply settled_settle].
    + apply inv_removed; [done|done|apply NoDup_settle, (ci_settled _ _ _ IH)|by apply settled_settle].
    + assert (settled (clog c ++ (if b then [Progressed id payload] else [])) = settled (clog c)) as Hset
        by (rewrite settled_app; destruct b; cbn; by rewrite app_nil_r).
      destruct IH; split; unfold pending_ids in *; cbn [pendingWorkerMessages clog nextWorkerMessageId]; rewrite ?Hset; done.
    + rewrite bool_decide_eq_true_2 by done. destruct IH as [K1 K2 K3 K4 K5 K6 K7]; unfold pending_ids in *.
      split; unfold pending_ids; cbn [pendingWorkerMessages clog nextWorkerMessageId]; [by apply NoDup_delete|done|..|done].
      * intros i [Hi _]%elem_of_delete; by apply K3.
      * intros i [-> |Hi]%elem_of_cons; (split; [|intros [Hd Hne]%elem_of_delete]); [apply K5; by left|done|by apply K4|by apply K4 in Hi as [_ Hi] ].
      * intros i [ [Hi _]%elem_of_delete|Hi]; apply K5; tauto.
      * intros i Hi; destruct (decide (i = id)) as [-> |Hne]; [right; right; left|].
        destruct (K6 i Hi) as [Hp|[Hs|Hl] ]; [left; by apply elem_of_delete|by right; left|right; right; by right].
  - unfold client_onerror; destruct IH as [K1 K2 K3 K4 K5 K6 K7].
    destruct (settle_all (worker_crashed m) (pendingWorkerMessages c) (clog c) K2) as [Hnd Hiff].
    split; unfold pending_ids; cbn [pendingWorkerMessages clog nextWorkerMessageId map]; [constructor|exact Hnd|..|done].
    + by intros i ?%elem_of_nil.
    + intros i Hi; split; [by apply K4|by intros ?%elem_of_nil].
    + intros i [?%elem_of_nil|Hi%Hiff]; [done|]. apply K5; tauto.
    + intros i Hi. rewrite Hiff. destruct (K6 i Hi); tauto.
Qed.

(** C34: no promise of the worker client is settled twice, and none is lost but to a reply
    of an unknown type.  After sending, failing to post, the worker's replies of any type
    and progress in any order, and crashes: at most one event settled each promise; each
    id given out was settled, or is still pending, or was removed by a reply of an
    unknown type; and an id is both settled and pending only where its message could not
    be posted. *)
Theorem client_settles_once failed lost c :
  client_run failed lost c ->
  NoDup (settled (clog c)) /\
  forall id, 0 <= id < nextWorkerMessageId c ->
    (id ∈ settled (clog c) /\ (id ∈ pending_ids c -> id ∈ failed)) \/
    (id ∈ pending_ids c /\ id ∉ settled (clog c)) \/
    (id ∈ lost /\ id ∉ settled (clog c) /\ id ∉ pending_ids c).
Proof.
  intros [K1 K2 K3 K4 K5 K6 K7]%client_run_inv; split; [done|]; intros id Hid.
  destruct (decide (id ∈ settled (clog c))) as [Hs|Hs]; [left; split; [done|intros; by apply K3]|right].
  destruct (K6 id Hid) as [Hp|[?|Hl] ]; [by left|done|right; by destruct (K4 id Hl)].
Qed.

(** A reply of an unknown type loses its promise.  The handler removes the id
    from the table without settling it, so the caller waits forever. *)
Theorem unknown_type_forgets failed lost onProgress payload text c :
  client_run failed lost c ->
  (let '(id, c1) := sendMessageToWorker onProgress c in
   let c2 := client_onmessage id MOther payload text c1 in
   (id ∉ pending_ids c2) /\ (id ∉ settled (clog c2))).
Proof.
  intros Hr; apply client_run_inv in Hr as Hi. destruct (inv_sent failed lost c onProgress Hi) as (_ & Hp & Hs).
  unfold sendMessageToWorker; cbn [snd]. set (id := nextWorkerMessageId c) in *. unfold client_onmessage; cbn [pendingWorkerMessages].
  destruct (get_pending id _) as [b|] eqn:E; cbn [clog pending_ids pendingWorkerMessages]; (split; [|done]).
  - by intros [_ Hne]%elem_of_delete.
  - by apply get_pending_none.
Qed.
End Client.
#[global] Arguments Client P : clear implicits.

(** A second result for an id changes nothing. *)
Lemma client_settles_once_witness :
  let c1 := (sendMessageToWorker true (@client_init Z)).2 in
  let c2 := client_onmessage 0 MProgress 5 "" c1 in
  let c3 := client_onmessage 0 MResult 7 "" c2 in
  let c4 := client_onmessage 0 MResult 8 "" c3 in
  NoDup (settled (clog c4)) /\ clog c4 = [Progressed 0 5; Resolved 0 7].
Proof.
  intros c1 c2 c3 c4; split; [|reflexivity]. apply (client_settles_once [] [] c4).
  pose proof (run_message [] [] c3 0 MResult 8 "") as Hr; apply Hr.
  pose proof (run_message [] [] c2 0 MResult 7 "") as Hr2; apply Hr2.
  pose proof (run_message [] [] c1 0 MProgress 5 "") as Hr3; apply Hr3.
  pose proof (run_send [] [] (@client_init Z) true) as Hr4; apply Hr4. exact run_init.
Defined.

Lemma unknown_type_forgets_witness :
  let c := client_onmessage 0 MOther 5 "" (sendMessageToWorker true (@client_init Z)).2 in
  (0 ∉ pending_ids c) /\ (0 ∉ settled (clog c)).
Proof. intros c. apply (unknown_type_forgets [] [] true 5 "" client_init). exact run_init. Defined.

(** A message that cannot be posted: its promise is rejected, its entry stays, and a crash
    later rejects it again to no effect. *)
Example post_throws : let c := send_throws true "could not be cloned" (@client_init Z) in
  pending_ids c = [0] /\ clog c = [Rejected 0 "could not be cloned"] /\ clog (client_onerror "boom" c) = clog c.
Proof. repeat split. Qed.

(** ** The commit pool *)

(** A worker's set of ids is a list here; [None] once [onerror] has removed it.
    [commitPending] remembers, besides the ids, the worker each was posted to. *)
Record Pool := mkPool {
  commitWorkers : list nat; commitPendingByWorker : gmap nat (list Z);
  commitPending : list (Z * nat); commitNextMessageId : Z; commitRoundRobin : Z; plog : list (event bytes)
}.

Definition drop_id (id : Z) (l : list Z) : list Z := List.filter (fun i => negb (i =? id)) l.
Definition drop_pending (id : Z) (l : list (Z * nat)) : list (Z * nat) := List.filter (fun p => negb (p.1 =? id)) l.

(** [initPromises]: one message per new worker; its id is not noted per worker. *)
Definition post_init (w : nat) (p : Pool) : Pool :=
  mkPool (commitWorkers p) (commitPendingByWorker p) (commitPending p ++ [(commitNextMessageId p, w)])
    (commitNextMessageId p + 1) (commitRoundRobin p) (plog p).
Definition spawn_pool (desired : nat) : Pool :=
  let workers := seq 0 desired in
  fold_left (fun p w => post_init w p) workers
    (mkPool [] (list_to_map (map (fun w => (w, [])) workers)) [] 1 0 []).

(** The posting half of [commitBlobsWithPool]; [None] without workers. *)
Definition post_commit (p : Pool) : option (Z * nat * Pool) :=
  let n := zlen (commitWorkers p) in
  if n =? 0 then None
  else
    match commitWorkers p !! Z.to_nat (commitRoundRobin p mod n) with
    | Some w =>
        let id := commitNextMessageId p in
        Some (id, w,
          mkPool (commitWorkers p) (alter (fun ids => ids ++ [id]) w (commitPendingByWorker p))
            (commitPending p ++ [(id, w)]) (id + 1) (commitRoundRobin p + 1) (plog p))
    | None => None
    end.

(** [w.onmessage] *)
Definition pool_onmessage (w : nat) (id : Z) (r : outcome bytes) (p : Pool) : Pool :=
  let byWorker := alter (drop_id id) w (commitPendingByWorker p) in
  if existsb (fun q => q.1 =? id) (commitPending p)
  then mkPool (commitWorkers p) byWorker (drop_pending id (commitPending p)) (commitNextMessageId p) (commitRoundRobin p)
         (plog p ++ [match r with Ok l => Resolved id l | Thrown e => Rejected id (err_message e) end])
  else mkPool (commitWorkers p) byWorker (commitPending p) (commitNextMessageId p) (commitRoundRobin p) (plog p).

(** [w.onerror] *)
Definition pool_onerror (w : nat) (p : Pool) : Pool :=
  let ids := default [] (commitPendingByWorker p !! w) in
  let crashed := List.filter (fun q => existsb (Z.eqb q.1) ids) (commitPending p) in
  mkPool (List.filter (fun ww => negb (Nat.eqb ww w)) (commitWorkers p)) (delete w (commitPendingByWorker p))
    (List.filter (fun q => negb (existsb (Z.eqb q.1) ids)) (commitPending p)) (commitNextMessageId p) (commitRoundRobin p)
    (plog p ++ map (fun q => Rejected q.1 "Commit worker crashed") crashed).

(** A job is tracked when its worker's set has it. *)
Definition tracked (p : Pool) (q : Z * nat) : Prop :=
  exists ids, commitPendingByWorker p !! q.2 = Some ids /\ q.1 ∈ ids.

(** A crash rejects exactly the crashed worker's jobs.  If the jobs posted to a
    worker are tracked, none of them is pending after its crash; jobs of other workers
    stay as they were, and no new job goes to it. *)
Theorem pool_crash_rejects_jobs p w :
  Forall (fun q => q.2 = w -> tracked p q) (commitPending p) ->
  (forall q q', q ∈ commitPending p -> q' ∈ commitPending p -> q.1 = q'.1 -> q = q') ->
  (forall ids i, commitPendingByWorker p !! w = Some ids -> i ∈ ids -> (i, w) ∈ commitPending p) ->
  let p' := pool_onerror w p in
  Forall (fun q => q.2 <> w) (commitPending p') /\
  (forall q, q ∈ commitPending p -> q.2 <> w -> q ∈ commitPending p') /\
  (forall q, q ∈ commitPending p -> q.2 = w -> Rejected q.1 "Commit worker crashed" ∈ plog p') /\
  (w ∉ commitWorkers p').
Proof.
  intros Htr Hinj Hby; cbn zeta; rewrite Forall_forall in Htr; unfold pool_onerror.
  assert (forall q, q ∈ commitPending p -> existsb (Z.eqb q.1) (default [] (commitPendingByWorker p !! w)) = bool_decide (q.2 = w)) as Hq.
  { intros q Hin; case_bool_decide as Hw.
    - destruct (Htr q Hin Hw) as (ids & Hids & Hi). rewrite <- Hw, Hids; cbn [default].
      apply existsb_exists; exists q.1; split; [by apply list_elem_of_In|apply Z.eqb_refl].
    - apply not_true_is_false; intros He; apply existsb_exists in He as (i & Hi & He); apply Z.eqb_eq in He.
      destruct (commitPendingByWorker p !! w) as [ids|] eqn:Hids; [|by inversion Hi]; cbn in Hi.
      apply Hw. rewrite (Hinj q (i, w)); [done|done| |by cbn]. by eapply Hby, list_elem_of_In. }
  cbn [commitPending plog commitWorkers]; split; [|split; [|split] ].
  - apply Forall_forall; intros q Hin; apply list_elem_of_In, filter_In in Hin as [Hin Hf]; apply list_elem_of_In in Hin.
    rewrite (Hq q Hin) in Hf; by case_bool_decide.
  - intros q Hin Hw; apply list_elem_of_In, filter_In; split; [by apply list_elem_of_In|]. rewrite (Hq q Hin); by case_bool_decide.
  - intros q Hin Hw; apply elem_of_app; right; apply list_elem_of_In, in_map_iff; exists q; split; [done|].
    apply filter_In; split; [by apply list_elem_of_In|]. rewrite (Hq q Hin); by case_bool_decide.
  - intros Hin; apply list_elem_of_In, filter_In in Hin as [_ Hf]. by rewrite Nat.eqb_refl in Hf.
Qed.

(** A worker that crashes while starting is never noticed.  The start message of
    each pool worker is pending but not tracked: when the worker crashes its promise
    stays pending, and with it the initialisation that awaits all of them. *)
Theorem pool_start_crash_hangs :
  let p := spawn_pool 2 in
  commitPending p = [(1, 0%nat); (2, 1%nat)] /\ commitPending (pool_onerror 0 p) = commitPending p /\
  plog (pool_onerror 0 p) = [].
Proof. by vm_compute. Qed.

Definition busy_pool : Pool :=
  mkPool [0%nat; 1%nat] (<[0%nat := [3; 5]]> (<[1%nat := [4]]> ∅)) [(3, 0%nat); (4, 1%nat); (5, 0%nat)] 6 3 [].

Lemma pool_crash_rejects_jobs_witness :
  Forall (fun q => q.2 <> 0%nat) (commitPending (pool_onerror 0 busy_pool)).
Proof.
  apply (pool_crash_rejects_jobs busy_pool 0).
  - repeat (apply Forall_cons_2; [cbn; intros; first [done|eexists; split; [reflexivity|set_solver] ]|]); constructor.
  - unfold busy_pool; cbn [commitPending]; intros q q' Hq Hq'. set_solver.
  - cbn; intros ids i Hids Hi. injection Hids as <-. set_solver.
Defined.
