(* ===== verification/Upload.v ===== *)
(** * Uploading a slab (components/FileSharder.tsx, hooks/useDirectUpload.ts)

    Three uploads of what [Sharding] leaves in the component: to every provider of a
    mode 2 deal, to the one provider of a mode 1 deal, and, once a provider has it,
    to the local gateway.  Each is a sequence of POST requests; what is specified is
    which requests are answered, in which order, before a failure ends the upload. *)
From S2P Require Import Prelude JsString JsNum TransportTypes Effects Bytes Text Http Lcd GatewayClient Config Sharding.
#[local] Open Scope Z_scope.

(** ** The state the uploads keep *)

Inductive MirrorStatus := mirror_idle | mirror_running | mirror_success | mirror_failed | mirror_skipped.
Inductive StepStatus := st_pending | st_uploading | st_complete | st_error (message : string).
(** A step is an MDU, by its index, or the manifest. *)
Record UploadStep := mkStep { us_mdu : option Z; us_label : string; us_totalSteps : Z; us_status : StepStatus }.

Record UploadState := mkUp {
  mode2Uploading : bool; mode2UploadComplete : bool; mode2UploadError : option string;
  mirrorStatus : MirrorStatus; mirrorError : option string;
  uploadProgress : list UploadStep; isUploading : bool;
  logs : list string
}.

(** ** Requests *)

Definition upload_headers (dealId : string) (position : list (string * string)) (root : string) : list (string * string) :=
  ("X-Nil-Deal-ID", dealId) :: position ++ [("X-Nil-Manifest-Root", root); ("Content-Type", "application/octet-stream")].
Definition mdu_request (url dealId root : string) (mdu : Z * bytes) : Request :=
  mkReq url "POST" (upload_headers dealId [("X-Nil-Mdu-Index", string_of_Z mdu.1)] root) (BBytes mdu.2).
Definition manifest_request (url dealId root : string) (blob : bytes) : Request :=
  mkReq url "POST" (upload_headers dealId [] root) (BBytes blob).
Definition shard_request (url dealId root : string) (slabIndex slot : Z) (shard : bytes) : Request :=
  mkReq url "POST" (upload_headers dealId [("X-Nil-Mdu-Index", string_of_Z slabIndex); ("X-Nil-Slot", string_of_Z slot)] root)
    (BBytes shard).

Section Upload.
Context {W : Type} `{Http W}.
(** The page: the network and the state. *)
Record Page := mkPage { net : W; up : UploadState }.

Definition on_net {A} (m : M W A) : M Page A := fun p => let '(r, w) := m (net p) in (r, mkPage w (up p)).
Definition set_up (f : UploadState -> UploadState) : M Page unit := modify (fun p => mkPage (net p) (f (up p))).

Definition setMode2 (uploading complete : bool) (error : option string) (s : UploadState) : UploadState :=
  mkUp uploading complete error (mirrorStatus s) (mirrorError s) (uploadProgress s) (isUploading s) (logs s).
Definition setMode2Uploading (b : bool) (s : UploadState) : UploadState := setMode2 b (mode2UploadComplete s) (mode2UploadError s) s.
Definition setMode2UploadComplete (b : bool) (s : UploadState) : UploadState := setMode2 (mode2Uploading s) b (mode2UploadError s) s.
Definition setMode2UploadError (e : option string) (s : UploadState) : UploadState := setMode2 (mode2Uploading s) (mode2UploadComplete s) e s.
Definition setMirror (st : MirrorStatus) (e : option string) (s : UploadState) : UploadState :=
  mkUp (mode2Uploading s) (mode2UploadComplete s) (mode2UploadError s) st e (uploadProgress s) (isUploading s) (logs s).
Definition setUploadProgress (f : list UploadStep -> list UploadStep) (s : UploadState) : UploadState :=
  mkUp (mode2Uploading s) (mode2UploadComplete s) (mode2UploadError s) (mirrorStatus s) (mirrorError s)
    (f (uploadProgress s)) (isUploading s) (logs s).
Definition setIsUploading (b : bool) (s : UploadState) : UploadState :=
  mkUp (mode2Uploading s) (mode2UploadComplete s) (mode2UploadError s) (mirrorStatus s) (mirrorError s)
    (uploadProgress s) b (logs s).
Definition addLog (msg : string) : M Page unit := set_up (fun s =>
  mkUp (mode2Uploading s) (mode2UploadComplete s) (mode2UploadError s) (mirrorStatus s) (mirrorError s)
    (uploadProgress s) (isUploading s) (logs s ++ [msg])).

(** ** Mode 2: every slot's provider *)

Context (dealId : string) (stripe : option StripeParams).

(** [fetch], and an error with the given prefix unless the answer is ok. *)
Definition post (what : string) (req : Request) : M W unit :=
  res ← fetch None req;
  if rs_ok res then mret tt
  else js_error (what +:+ " upload failed: " +:+ string_of_Z (rs_status res) +:+ " " +:+ text_or_empty res).

Definition slab_index (v : Sharder) (mdu : Z * list bytes) : Z := 1 + sp_totalWitnessMdus (shardProgress v) + mdu.1.
Definition metadata_mdus (v : Sharder) : list (Z * bytes) :=
  List.filter (fun mdu => mdu.1 <=? sp_totalWitnessMdus (shardProgress v)) (collectedMdus v).

Definition upload_metadata (v : Sharder) (root : string) (blob : bytes) (base : string) : M W unit :=
  for_each (metadata_mdus v) (fun mdu => post "metadata" (mdu_request (base +:+ "/sp/upload_mdu") dealId root mdu)) ;;
  post "manifest" (manifest_request (base +:+ "/sp/upload_manifest") dealId root blob).

Definition upload_shard (v : Sharder) (root : string) (mdu : Z * list bytes) (slot : nat) (base : string) : M W unit :=
  match mdu.2 !! slot with
  | None => js_error ("missing shard for slot " +:+ string_of_Z (Z.of_nat slot))
  | Some shard => post "shard" (shard_request (base +:+ "/sp/upload_shard") dealId root (slab_index v mdu) (Z.of_nat slot) shard)
  end.

Definition slot_bases (s : StripeParams) (slotBases : list string) : list string :=
  take (Z.to_nat (rs_k s + rs_m s)) slotBases.

Definition uploadMode2 (slotBases : list string) (v : Sharder) : M Page bool :=
  match currentManifestBlob v with
  | Some blob =>
      if negb (opt_str (currentManifestRoot v)) then
        set_up (setMode2UploadError (Some "Manifest data missing; shard first.")) ;; mret false
      else
        match stripe with
        | None => set_up (setMode2UploadError (Some "Mode 2 params not available.")) ;; mret false
        | Some s =>
            let bases := slot_bases s slotBases in
            if (zlen bases <? rs_k s + rs_m s) || existsb is_empty bases then
              set_up (setMode2UploadError (Some "Missing provider endpoints for all slots.")) ;; mret false
            else
              let root := default "" (currentManifestRoot v) in
              set_up (setMode2 true false None) ;;
              finally
                (try_catch
                   (on_net (for_each bases (upload_metadata v root blob) ;;
                            for_each (mode2Shards v) (fun mdu =>
                              for_each (imap pair bases) (fun sb => upload_shard v root mdu sb.1 sb.2))) ;;
                    set_up (setMode2UploadComplete true) ;;
                    mret true)
                   (fun e => set_up (setMode2UploadError (Some (err_message e))) ;; mret false))
                (fun p => mkPage (net p) (setMode2Uploading false (up p)))
        end
  | None => set_up (setMode2UploadError (Some "Manifest data missing; shard first.")) ;; mret false
  end.

(** ** The local gateway *)

Context (cfg : Config).

Definition gateway_base : string := strip_slash (cf_gatewayBase cfg).
Definition sp_base : string := strip_slash (cf_spBase cfg).

(** The paths of the MDU, shard and manifest endpoints. *)
Definition provider_paths : string * string * string := ("/sp/upload_mdu", "/sp/upload_shard", "/sp/upload_manifest").
Definition mirror_paths : string * string * string := ("/gateway/mirror_mdu", "/gateway/mirror_shard", "/gateway/mirror_manifest").

(** Which endpoints to use, or the status with which the gateway is unavailable. *)
Definition probe_gateway : M W (string * string * string * bool + Z) :=
  statusRes ← fetch (Some 2500) (GET (gateway_base +:+ "/status"));
  if rs_ok statusRes then
    let payload := json_or JNull statusRes in
    if match get_field payload "mode" with Some (JStr mode) => eqb mode "router" | _ => false end
    then mret (inl (mirror_paths, true)) else mret (inl (provider_paths, false))
  else if negb (rs_status statusRes =? 404) then mret (inr (rs_status statusRes))
  else
    health ← fetch (Some 2500) (GET (gateway_base +:+ "/health"));
    if rs_ok health then mret (inl (provider_paths, false)) else mret (inr (rs_status health)).

Definition post_mirror (what : string) (req : Request) : M W unit :=
  res ← fetch None req;
  if rs_ok res then mret tt
  else js_error (or_else (text_or_empty res) ("gateway " +:+ what +:+ " failed (" +:+ string_of_Z (rs_status res) +:+ ")")).

Definition mirrored_mdus (v : Sharder) : list (Z * bytes) :=
  match stripe with Some _ => metadata_mdus v | None => collectedMdus v end.
Definition mirrored_shards (v : Sharder) : list (Z * list bytes) :=
  match stripe with Some _ => mode2Shards v | None => [] end.

Definition mirror_slab (paths : string * string * string) (v : Sharder) (root : string) (blob : bytes) : M W unit :=
  for_each (mirrored_mdus v) (fun mdu => post_mirror "upload_mdu" (mdu_request (gateway_base +:+ paths.1.1) dealId root mdu)) ;;
  post_mirror "upload_manifest" (manifest_request (gateway_base +:+ paths.2) dealId root blob) ;;
  for_each (mirrored_shards v) (fun mdu =>
    for_each (imap pair mdu.2) (fun shard =>
      post_mirror "upload_shard" (shard_request (gateway_base +:+ paths.1.2) dealId root (slab_index v mdu) (Z.of_nat shard.1) shard.2))).

Definition network_error (msg : string) : bool :=
  test_i "failed to fetch" msg || test_i "networkerror" msg || test_i "fetch failed" msg.

Definition mirror_unavailable (reason : string) : M Page unit :=
  set_up (setMirror mirror_skipped (Some reason)) ;; addLog "> Gateway not reachable; mirror skipped.".

Definition mirrorSlabToGateway (v : Sharder) : M Page unit :=
  let root := trim (default "" (currentManifestRoot v)) in
  match currentManifestBlob v with
  | None => mret tt
  | Some blob =>
      if negb (truthy root) || (zlen blob =? 0) || (zlen (collectedMdus v) =? 0) then mret tt
      else if negb (truthy gateway_base) || eqb gateway_base sp_base then mret tt
      else if cf_gatewayDisabled cfg then
        set_up (setMirror mirror_skipped (Some "Gateway disabled")) ;; addLog "> Gateway mirror skipped (disabled)."
      else
        set_up (setMirror mirror_running None) ;;
        addLog ("> Mirroring slab to local gateway (" +:+ gateway_base +:+ ")...") ;;
        try_catch
          (probe ← on_net probe_gateway;
           match probe with
           | inr status => mirror_unavailable ("Gateway unavailable (" +:+ string_of_Z status +:+ ")")
           | inl (paths, router) =>
               (if router : bool then addLog "> Gateway router detected; using mirror endpoints." else mret tt) ;;
               on_net (mirror_slab paths v root blob) ;;
               set_up (setMirror mirror_success None) ;;
               addLog "> Mirrored slab to local gateway."
           end)
          (fun e =>
             if network_error (err_message e) then mirror_unavailable "Gateway not reachable"
             else
               set_up (setMirror mirror_failed (Some (err_message e))) ;;
               addLog ("> Gateway mirror failed: " +:+ err_message e))
  end.

(** ** Mode 1: useDirectUpload *)

Definition set_status (step : option Z) (st : StepStatus) (steps : list UploadStep) : list UploadStep :=
  map (fun p => if bool_decide (us_mdu p = step) then mkStep (us_mdu p) (us_label p) (us_totalSteps p) st else p) steps.
Definition step_status (step : option Z) (st : StepStatus) : M Page unit := set_up (setUploadProgress (set_status step st)).

Definition upload_steps (mdus : list (Z * bytes)) : list UploadStep :=
  map (fun mdu => mkStep (Some mdu.1) ("MDU #" +:+ string_of_Z mdu.1) (zlen mdus + 1) st_pending) mdus ++
  [mkStep None "manifest.bin" (zlen mdus + 1) st_pending].

Definition post_direct (req : Request) : M W unit :=
  res ← fetch None req;
  if rs_ok res then mret tt
  else errorText ← lift (rs_text res); js_error ("Upload failed: " +:+ string_of_Z (rs_status res) +:+ " " +:+ errorText).

(** One [try] block: the step is shown as running, then as complete or failed. *)
Definition attempt_step (step : option Z) (send : M W unit) (ok : bool) : M Page bool :=
  step_status step st_uploading ;;
  try_catch (on_net send ;; step_status step st_complete ;; mret ok)
    (fun e => step_status step (st_error (err_message e)) ;; mret false).

Definition post_manifest (providerBaseUrl root : string) (blob : option bytes) : M W unit :=
  match blob with
  | Some l => if zlen l =? 0 then js_error "manifest blob missing (re-shard to regenerate)"
              else post_direct (manifest_request (providerBaseUrl +:+ "/sp/upload_manifest") dealId root l)
  | None => js_error "manifest blob missing (re-shard to regenerate)"
  end.

Definition uploadMdus (providerBaseUrl root : string) (blob : option bytes) (mdus : list (Z * bytes)) : M Page bool :=
  set_up (setIsUploading true) ;;
  set_up (setUploadProgress (fun _ => upload_steps mdus)) ;;
  allSuccessful ← fold_m (fun ok mdu =>
    attempt_step (Some mdu.1) (post_direct (mdu_request (providerBaseUrl +:+ "/sp/upload_mdu") dealId root mdu)) ok) true mdus;
  allSuccessful ← (if allSuccessful : bool then attempt_step None (post_manifest providerBaseUrl root blob) true else mret false);
  set_up (setIsUploading false) ;;
  mret allSuccessful.
Definition reset_upload (s : UploadState) : UploadState := setIsUploading false (setUploadProgress (fun _ => []) s).

(** The upload button. *)
Definition upload_slab (slotBases : list string) (v : Sharder) : M Page unit :=
  ok ← (match stripe with
        | Some _ => uploadMode2 slotBases v
        | None =>
            let base := match slotBases with b :: _ => or_else b (cf_spBase cfg) | [] => cf_spBase cfg end in
            uploadMdus base (default "" (currentManifestRoot v)) (currentManifestBlob v) (collectedMdus v)
        end);
  if ok : bool then mirrorSlabToGateway v else mret tt.
End Upload.
#[global] Arguments Page : clear implicits.
#[global] Arguments mkPage {W} _ _.
#[global] Arguments net {W} _.
#[global] Arguments up {W} _.

(** ** What an upload sends *)

Section Exchanges.
Context {W : Type} `{Http W}.

(** The requests go out one after the other, each after the answer to the one
    before, and every answer is ok. *)
Inductive exchanges : list Request -> W -> W -> Prop :=
| no_exchange w : exchanges [] w w
| exchange req reqs w res w1 w2 :
    fetch None req w = (Ok res, w1) -> rs_ok res = true -> exchanges reqs w1 w2 -> exchanges (req :: reqs) w w2.

(** A request that is not answered, or not with an ok. *)
Definition refused (req : Request) (w w' : W) : Prop :=
  (exists e, fetch None req w = (Thrown e, w')) \/ (exists res, fetch None req w = (Ok res, w') /\ rs_ok res = false).

(** A planned request is missing where the slab has no data for it. *)
Definition stopped (plan : list (option Request)) (w w' : W) : Prop :=
  exists done next rest w1, plan = map Some done ++ next :: rest /\ exchanges done w w1 /\
    match next with Some req => refused req w1 w' | None => w' = w1 end.

Definition performed (plan : list (option Request)) (w : W) (r : outcome unit) (w' : W) : Prop :=
  match r with
  | Ok _ => exists reqs, plan = map Some reqs /\ exchanges reqs w w'
  | Thrown _ => stopped plan w w'
  end.
(** The computation sends the planned requests, and stops at the first that fails. *)
Definition performs (m : M W unit) (plan : list (option Request)) : Prop := forall w, performed plan w (m w).1 (m w).2.

Lemma exchanges_app a b w w1 w2 : exchanges a w w1 -> exchanges b w1 w2 -> exchanges (a ++ b) w w2.
Proof. induction 1; [done|]. intros Hb; cbn [app]; econstructor; eauto. Qed.

Lemma performs_ret : performs (mret tt) [].
Proof. intros w; exists []; split; [done|constructor]. Qed.

Lemma performs_throw (e : jserr) : performs (mthrow e) [None].
Proof. intros w; exists [], None, [], w; repeat split; constructor. Qed.

Lemma performs_bind m1 m2 p1 p2 : performs m1 p1 -> performs m2 p2 -> performs (m1 ;; m2) (p1 ++ p2).
Proof.
  intros H1 H2 w; specialize (H1 w); unfold performed in *; rewrite bind_run.
  destruct (m1 w) as [ [ [] |e] w1]; cbn [fst snd] in *.
  - destruct H1 as (reqs1 & -> & Hex1); specialize (H2 w1); unfold performed in H2.
    destruct (m2 w1) as [ [ [] |e] w2]; cbn [fst snd] in *.
    + destruct H2 as (reqs2 & -> & Hex2); exists (reqs1 ++ reqs2); split; [by rewrite map_app|by eapply exchanges_app].
    + destruct H2 as (sent & next & rest & w' & -> & Hex & Hn); exists (reqs1 ++ sent), next, rest, w'.
      split; [by rewrite map_app, <- app_assoc|]. split; [by eapply exchanges_app|done].
  - destruct H1 as (sent & next & rest & w' & -> & Hex & Hn); exists sent, next, (rest ++ p2), w'.
    split; [by rewrite <- app_assoc|done].
Qed.

Lemma performs_for_each {A} (f : A -> M W unit) (plan : A -> list (option Request)) l :
  (forall x, performs (f x) (plan x)) -> performs (for_each l f) (concat (map plan l)).
Proof.
  intros Hf; induction l as [|x l IH]; [apply performs_ret|]. apply (performs_bind (f x) (for_each l f)); [apply Hf|exact IH].
Qed.

(** Sending one request, whatever the error of a bad answer is. *)
Lemma performs_fetch req (fail : Response -> M W unit) :
  (forall res w, exists e, fail res w = (Thrown e, w)) ->
  performs (res ← fetch None req; if rs_ok res then mret tt else fail res) [Some req].
Proof.
  intros Hfail w; unfold performed; rewrite bind_run.
  destruct (fetch None req w) as [ [res|e] w1] eqn:E; [destruct (rs_ok res) eqn:Hok|].
  - exists [req]; split; [done|]. econstructor; [exact E|exact Hok|constructor].
  - destruct (Hfail res w1) as [e ->]. exists [], (Some req), [], w; split; [done|split; [constructor|right; eauto] ].
  - exists [], (Some req), [], w; split; [done|split; [constructor|left; eauto] ].
Qed.
End Exchanges.

Section Mode2.
Context {W : Type} `{Http W} (dealId : string).

Lemma performs_post what (req : Request) : performs (W := W) (post what req) [Some req].
Proof. apply performs_fetch; intros res w; by eexists. Qed.

Definition metadata_plan (v : Sharder) (root : string) (blob : bytes) (base : string) : list (option Request) :=
  map (fun mdu => Some (mdu_request (base +:+ "/sp/upload_mdu") dealId root mdu)) (metadata_mdus v) ++
  [Some (manifest_request (base +:+ "/sp/upload_manifest") dealId root blob)].
Definition shard_plan (v : Sharder) (root : string) (bases : list string) (mdu : Z * list bytes) : list (option Request) :=
  imap (fun slot base =>
    shard_request (base +:+ "/sp/upload_shard") dealId root (slab_index v mdu) (Z.of_nat slot) <$> (mdu.2 !! slot)) bases.
(** Every provider gets MDU #0, the witness MDUs and the manifest, then the provider
    of each slot its shard of every new user MDU. *)
Definition mode2_plan (v : Sharder) (root : string) (blob : bytes) (bases : list string) : list (option Request) :=
  concat (map (metadata_plan v root blob) bases) ++ concat (map (shard_plan v root bases) (mode2Shards v)).

Lemma concat_singles {A B} (f : A -> B) l : concat (map (fun x => [f x]) l) = map f l.
Proof. induction l as [|x l IH]; [done|]; cbn; by rewrite IH. Qed.

Lemma performs_metadata v root blob base :
  performs (W := W) (upload_metadata dealId v root blob base) (metadata_plan v root blob base).
Proof.
  apply performs_bind; [|apply performs_post]. rewrite <- concat_singles.
  apply performs_for_each; intros mdu; apply performs_post.
Qed.

Lemma performs_shards v root bases mdu :
  performs (W := W) (for_each (imap pair bases) (fun sb => upload_shard dealId v root mdu sb.1 sb.2)) (shard_plan v root bases mdu).
Proof.
  assert (shard_plan v root bases mdu = concat (map (fun sb => [shard_request (sb.2 +:+ "/sp/upload_shard") dealId root
    (slab_index v mdu) (Z.of_nat sb.1) <$> (mdu.2 !! sb.1)]) (imap pair bases))) as ->.
  { rewrite concat_singles. unfold shard_plan. change (map ?f ?l) with (f <$> l). by rewrite fmap_imap. }
  apply performs_for_each; intros [slot base]; unfold upload_shard; cbn [fst snd].
  destruct (mdu.2 !! slot); [apply performs_post|apply performs_throw].
Qed.

Lemma performs_mode2 v root blob bases :
  performs (W := W) (for_each bases (upload_metadata dealId v root blob) ;;
    for_each (mode2Shards v) (fun mdu => for_each (imap pair bases) (fun sb => upload_shard dealId v root mdu sb.1 sb.2)))
    (mode2_plan v root blob bases).
Proof.
  apply performs_bind; apply performs_for_each; intros x; [apply performs_metadata|apply performs_shards].
Qed.

(** What the component knows when it starts: the manifest, and an endpoint per slot. *)
Definition mode2_ready (stripe : option StripeParams) (slotBases : list string) (v : Sharder) : Prop :=
  exists s blob, stripe = Some s /\ currentManifestBlob v = Some blob /\ opt_str (currentManifestRoot v) = true /\
    rs_k s + rs_m s <= zlen (slot_bases s slotBases) /\ Forall (fun b => b <> "") (slot_bases s slotBases).

(** How an upload that has started leaves the component's state. *)
Definition mode2_ended (error : option string) (u : UploadState) : UploadState :=
  setMode2Uploading false
    (match error with None => setMode2UploadComplete true u | Some e => setMode2UploadError (Some e) u end).

Lemma uploadMode2_facts stripe slotBases v (p : Page W) :
  let '(r, p') := uploadMode2 dealId stripe slotBases v p in
  (~ mode2_ready stripe slotBases v /\ r = Ok false /\ net p' = net p /\
   exists reason, up p' = setMode2UploadError (Some reason) (up p)) \/
  (exists s blob, stripe = Some s /\ currentManifestBlob v = Some blob /\ mode2_ready stripe slotBases v /\
    exists error, up p' = mode2_ended error (setMode2 true false None (up p)) /\ r = Ok (bool_decide (error = None)) /\
    let plan := mode2_plan v (default "" (currentManifestRoot v)) blob (slot_bases s slotBases) in
    match error with
    | None => exists reqs, plan = map Some reqs /\ exchanges reqs (net p) (net p')
    | Some _ => stopped plan (net p) (net p')
    end).
Proof.
  unfold uploadMode2, mode2_ready.
  destruct (currentManifestBlob v) as [blob|] eqn:Hb; [|left; split; [by intros (? & ? & _ & ? & _)|split; [done|split; [done|by eexists] ]] ].
  destruct (opt_str (currentManifestRoot v)) eqn:Hr; cbn [negb]; [|left; split; [by intros (? & ? & _ & _ & ? & _)|split; [done|split; [done|by eexists] ]] ].
  destruct stripe as [s|]; [|left; split; [by intros (? & ? & ? & _)|split; [done|split; [done|by eexists] ]] ].
  destruct (Z.ltb_spec (zlen (slot_bases s slotBases)) (rs_k s + rs_m s)) as [Hlt|Hge]; cbn [orb].
  { left; split; [intros (s' & ? & [= <-] & _ & _ & ? & _); lia|split; [done|split; [done|by eexists] ]]. }
  destruct (existsb is_empty (slot_bases s slotBases)) eqn:He.
  { left; split; [|split; [done|split; [done|by eexists] ]]. intros (s' & ? & [= <-] & _ & _ & _ & Hall).
    apply existsb_exists in He as (b & Hin & Hb'). rewrite List.Forall_forall in Hall. apply (Hall b Hin). by destruct b. }
  assert (Forall (fun b => b <> "") (slot_bases s slotBases)) as Hall.
  { apply List.Forall_forall; intros b Hin ->. enough (existsb is_empty (slot_bases s slotBases) = true) by congruence.
    apply existsb_exists; by exists "". }
  match goal with |- context [on_net ?m] => set (send := m) end.
  assert (performs send (mode2_plan v (default "" (currentManifestRoot v)) blob (slot_bases s slotBases))) as Hp by apply performs_mode2.
  clearbody send; specialize (Hp (net p)).
  unfold finally, try_catch, set_up, on_net, modify; rewrite !bind_run; cbn [net up].
  destruct (send (net p)) as [ [ [] |e] w']; cbn [fst snd performed] in Hp; rewrite bind_run; cbn; right; exists s, blob; (split; [done|]; split; [done|]; split; [by exists s, blob|]).
  - exists None; by repeat split.
  - exists (Some (err_message e)); by repeat split.
Qed.

(** C9: a mode 2 upload is complete exactly when every request of its plan was
    answered.  The plan sends MDU #0, the witness MDUs and the manifest to every
    provider, then each slot's shard of every new user MDU to that slot's provider.
    The upload sends the plan in order and stops at the first request that fails, or
    whose shard is missing, with the reason shown; without a manifest or an endpoint
    for every slot nothing is sent at all.  It never throws. *)
Theorem uploadMode2_sends_plan stripe slotBases v (p : Page W) :
  let '(r, p') := uploadMode2 dealId stripe slotBases v p in
  (~ mode2_ready stripe slotBases v /\ r = Ok false /\ net p' = net p /\ is_Some (mode2UploadError (up p'))) \/
  (exists s blob, stripe = Some s /\ currentManifestBlob v = Some blob /\ mode2_ready stripe slotBases v /\
    mode2Uploading (up p') = false /\
    let plan := mode2_plan v (default "" (currentManifestRoot v)) blob (slot_bases s slotBases) in
    ((r = Ok true /\ mode2UploadComplete (up p') = true /\ mode2UploadError (up p') = None /\
      exists reqs, plan = map Some reqs /\ exchanges reqs (net p) (net p')) \/
     (r = Ok false /\ mode2UploadComplete (up p') = false /\ is_Some (mode2UploadError (up p')) /\
      stopped plan (net p) (net p')))).
Proof.
  pose proof (uploadMode2_facts stripe slotBases v p) as Hu; destruct (uploadMode2 dealId stripe slotBases v p) as [r p'].
  destruct Hu as [ (Hn & -> & Hnet & reason & ->) | (s & blob & Hs & Hb & Hr & error & -> & -> & Hp) ].
  - left; repeat (split; [done|]); by eexists.
  - right; exists s, blob; repeat (split; [done|]). destruct error; [right|left]; by repeat (split; [done|]).
Qed.
End Mode2.

(** ** Mode 1: what the progress list says *)

Section Direct.
Context {W : Type} `{Http W} (dealId providerBaseUrl root : string) (blob : option bytes).

Definition upload_complete (s : UploadState) : bool :=
  (0 <? zlen (uploadProgress s)) &&
  forallb (fun p => match us_status p with st_complete => true | _ => false end) (uploadProgress s).

(** The steps of an upload with the given statuses. *)
Definition steps_with (status : option Z -> StepStatus) (mdus : list (Z * bytes)) : list UploadStep :=
  map (fun mdu => mkStep (Some mdu.1) ("MDU #" +:+ string_of_Z mdu.1) (zlen mdus + 1) (status (Some mdu.1))) mdus ++
  [mkStep None "manifest.bin" (zlen mdus + 1) (status None)].
Definition update (k : option Z) (st : StepStatus) (status : option Z -> StepStatus) (j : option Z) : StepStatus :=
  if bool_decide (j = k) then st else status j.

Lemma set_status_steps k st status mdus : set_status k st (steps_with status mdus) = steps_with (update k st status) mdus.
Proof.
  unfold set_status, steps_with, update; rewrite map_app, map_map; cbn [map us_mdu us_label us_totalSteps us_status].
  f_equal; [apply map_ext; intros mdu|f_equal]; by case_bool_decide.
Qed.

(** How one request is answered, as its step of the list tells it. *)
Definition refusal (res : Response) : string :=
  match rs_text res with Ok text => "Upload failed: " +:+ string_of_Z (rs_status res) +:+ " " +:+ text | Thrown e => err_message e end.
Definition answered (req : Request) (w : W) (st : StepStatus) (w' : W) : Prop :=
  match st with
  | st_complete => exists res, fetch None req w = (Ok res, w') /\ rs_ok res = true
  | st_error msg => (exists e, fetch None req w = (Thrown e, w') /\ msg = err_message e) \/
      (exists res, fetch None req w = (Ok res, w') /\ rs_ok res = false /\ msg = refusal res)
  | _ => False
  end.
Definition done_or_failed (w : W) (r : outcome unit) (st : StepStatus) : Prop :=
  match r with Ok _ => st = st_complete | Thrown e => st = st_error (err_message e) end.

Lemma post_direct_answered req w : exists st r w', post_direct req w = (r, w') /\ done_or_failed w r st /\ answered req w st w'.
Proof.
  unfold post_direct; rewrite bind_run; destruct (fetch None req w) as [ [res|e] w1] eqn:E.
  - destruct (rs_ok res) eqn:Hok; [exists st_complete; do 2 eexists; split; [reflexivity|]; split; [done|by exists res]|].
    exists (st_error (refusal res)); unfold refusal; rewrite bind_run; unfold lift.
    destruct (rs_text res) as [text|e] eqn:Ht; do 2 eexists; (split; [reflexivity|]); (split; [done|]); right; exists res;
      unfold refusal; by rewrite Ht.
  - exists (st_error (err_message e)); do 2 eexists; split; [reflexivity|]; split; [done|]. left; by exists e.
Qed.

(** A step leaves its own status, and only that: how its sending went. *)
Lemma attempt_step_ok k send st r w' ok (p : Page W) status mdus :
  send (net p) = (r, w') -> done_or_failed (net p) r st -> uploadProgress (up p) = steps_with status mdus ->
  exists p', attempt_step k send ok p = (Ok (match r with Ok _ => ok | Thrown _ => false end), p') /\ net p' = w' /\
    exists status', uploadProgress (up p') = steps_with status' mdus /\ status' k = st /\ forall j, j <> k -> status' j = status j.
Proof.
  intros Hs Hr Hp; unfold attempt_step, step_status, set_up, on_net, try_catch, modify; rewrite !bind_run; cbn [net up]; rewrite Hs.
  assert (exists status', set_status k st (set_status k st_uploading (uploadProgress (up p))) = steps_with status' mdus /\
    status' k = st /\ forall j, j <> k -> status' j = status j) as Hst.
  { exists (update k st (update k st_uploading status)); rewrite Hp, !set_status_steps; split; [done|]. unfold update.
    split; [by rewrite bool_decide_true|]. intros j Hj; by rewrite !bool_decide_false. }
  destruct r as [ [] |e]; cbn in Hr; subst st; rewrite bind_run; cbn; eexists; (split; [reflexivity|]); by split.
Qed.

Definition direct_request (mdu : Z * bytes) : Request := mdu_request (providerBaseUrl +:+ "/sp/upload_mdu") dealId root mdu.

(** Every MDU is sent, in order and whatever became of those before; each has the
    status its own request was answered with. *)
Inductive all_sent : list (Z * bytes) -> list StepStatus -> W -> W -> Prop :=
| none_sent w : all_sent [] [] w w
| one_sent mdu rest st sts w w1 w2 :
    answered (direct_request mdu) w st w1 -> all_sent rest sts w1 w2 -> all_sent (mdu :: rest) (st :: sts) w w2.

Definition completed (st : StepStatus) : bool := match st with st_complete => true | _ => false end.

Lemma all_sent_snoc seen sts w w1 mdu st w2 :
  all_sent seen sts w w1 -> answered (direct_request mdu) w1 st w2 -> all_sent (seen ++ [mdu]) (sts ++ [st]) w w2.
Proof. induction 1 as [w|x rest y ys w wa wb Ha _ IH]; intros Hm; cbn [app]; econstructor; eauto using all_sent. Qed.
Lemma all_sent_length seen sts w w1 : all_sent seen sts w w1 -> length seen = length sts.
Proof. induction 1; cbn; congruence. Qed.

(** The list that shows the given outcomes. *)
Definition shown_steps (mdus : list (Z * bytes)) (sts : list StepStatus) (manifest : StepStatus) : list UploadStep :=
  zip_with (fun mdu st => mkStep (Some mdu.1) ("MDU #" +:+ string_of_Z mdu.1) (zlen mdus + 1) st) mdus sts ++
  [mkStep None "manifest.bin" (zlen mdus + 1) manifest].

(** After the MDUs seen so far: they were all sent, and each shows its own outcome. *)
Definition direct_inv (mdus : list (Z * bytes)) (w : W) (seen : list (Z * bytes)) (ok : bool) (p : Page W) : Prop :=
  exists status sts, uploadProgress (up p) = steps_with status mdus /\ status None = st_pending /\
    all_sent seen sts w (net p) /\ Forall2 (fun mdu st => status (Some mdu.1) = st) seen sts /\ ok = forallb completed sts.

Lemma direct_step mdus w seen mdu rest ok (p : Page W) :
  NoDup (map fst mdus) -> mdus = seen ++ mdu :: rest -> direct_inv mdus w seen ok p ->
  exists r p', attempt_step (Some mdu.1) (post_direct (direct_request mdu)) ok p = (Ok r, p') /\ direct_inv mdus w (seen ++ [mdu]) r p'.
Proof.
  intros Hnd -> (status & sts & Hp & Hn & Hall & Hst & ->).
  destruct (post_direct_answered (direct_request mdu) (net p)) as (st & r & w' & Hrun & Hr & Ha).
  destruct (attempt_step_ok (Some mdu.1) _ st r w' (forallb completed sts) p status _ Hrun Hr Hp)
    as (p' & Hrun' & Hnet & status' & Hp' & Hk & Hother).
  eexists _, p'; split; [exact Hrun'|]. exists status', (sts ++ [st]); split; [exact Hp'|]; split; [by rewrite Hother|].
  split; [rewrite Hnet; by eapply all_sent_snoc|]. split.
  - apply Forall2_app; [|by constructor]. apply Forall2_same_length_lookup_2; [by eapply Forall2_length|].
    intros i m s Hm Hs; pose proof (Forall2_lookup_lr _ _ _ i m s Hst Hm Hs) as <-; apply list_elem_of_lookup_2 in Hm.
    apply Hother; intros [= Heq]. rewrite map_app in Hnd; apply NoDup_app in Hnd as (_ & Hd & _).
    apply (Hd m.1); [by apply list_elem_of_In, in_map, list_elem_of_In|]. rewrite Heq; left.
  - rewrite forallb_app; cbn [forallb]; rewrite andb_true_r.
    destruct r as [ [] |e]; cbn in Hr; subst st; cbn [completed]; [by rewrite andb_true_r|by rewrite andb_false_r].
Qed.

Lemma shown_steps_with status mdus sts :
  Forall2 (fun mdu st => status (Some mdu.1) = st) mdus sts -> steps_with status mdus = shown_steps mdus sts (status None).
Proof.
  intros Hst; unfold steps_with, shown_steps; f_equal. generalize (zlen mdus + 1); intros n.
  induction Hst as [|mdu st mdus sts <- _ IH]; [done|]. cbn [map zip_with]; by rewrite IH.
Qed.
Lemma shown_complete mdus sts mst s : length mdus = length sts -> uploadProgress s = shown_steps mdus sts mst ->
  upload_complete s = forallb completed sts && completed mst.
Proof.
  intros Hl Hs; unfold upload_complete; rewrite Hs; unfold shown_steps; rewrite forallb_app; cbn [forallb us_status]; rewrite andb_true_r.
  rewrite zlen_app; change (zlen [_]) with 1. generalize (zlen mdus + 1); intros n.
  pose proof (zlen_nonneg (zip_with (fun (mdu : Z * bytes) st => mkStep (Some mdu.1) ("MDU #" +:+ string_of_Z mdu.1) n st) mdus sts)).
  destruct (Z.ltb_spec 0 (zlen (zip_with (fun (mdu : Z * bytes) st => mkStep (Some mdu.1) ("MDU #" +:+ string_of_Z mdu.1) n st) mdus sts) + 1)); [|lia].
  cbn [andb]; f_equal. clear -Hl; revert sts Hl; induction mdus as [|mdu mdus IH]; intros [|st sts] Hl; try done.
  cbn [zip_with forallb us_status]; rewrite IH by (cbn in Hl; lia); done.
Qed.

(** How sending the manifest ends: it fails at once without one, and is one request otherwise. *)
Definition manifest_sent (w : W) (st : StepStatus) (w' : W) : Prop :=
  match blob with
  | Some (b :: l) => answered (manifest_request (providerBaseUrl +:+ "/sp/upload_manifest") dealId root (b :: l)) w st w'
  | _ => st = st_error "manifest blob missing (re-shard to regenerate)" /\ w' = w
  end.
Lemma post_manifest_sent w : exists st r w', post_manifest dealId providerBaseUrl root blob w = (r, w') /\ done_or_failed w r st /\ manifest_sent w st w'.
Proof.
  unfold post_manifest, manifest_sent; destruct blob as [ [|b l] |]; try (by do 3 eexists; split; [reflexivity|]).
  destruct (Z.eqb_spec (zlen (b :: l)) 0) as [Hz|_]; [rewrite zlen_cons in Hz; pose proof (zlen_nonneg l); lia|]. apply post_direct_answered.
Qed.

Lemma uploadMdus_progress_facts mdus (p : Page W) :
  NoDup (map fst mdus) ->
  exists b p' sts w1 mst, uploadMdus dealId providerBaseUrl root blob mdus p = (Ok b, p') /\ isUploading (up p') = false /\
    all_sent mdus sts (net p) w1 /\
    (if forallb completed sts then manifest_sent w1 mst (net p') else mst = st_pending /\ net p' = w1) /\
    uploadProgress (up p') = shown_steps mdus sts mst /\
    b = forallb completed sts && completed mst /\ upload_complete (up p') = b.
Proof.
  intros Hnd; unfold uploadMdus; rewrite !bind_run; unfold set_up at 1, modify at 1. rewrite !bind_run; unfold set_up at 1, modify at 1.
  set (p0 := mkPage _ _).
  destruct (fold_m_total (direct_inv mdus (net p)) (fun ok mdu => attempt_step (Some mdu.1) (post_direct (direct_request mdu)) ok) mdus true p0
    (fun mdu seen rest ok p' Hl Hi => direct_step mdus (net p) seen mdu rest ok p' Hnd Hl Hi))
    as (ok & p1 & Hrun & status & sts & Hp1 & Hn & Hall & Hst & ->).
  { exists (fun _ => st_pending), []; split; [reflexivity|split; [done|split; [constructor|split; [constructor|done] ] ] ]. }
  unfold direct_request in Hrun; rewrite bind_run, Hrun, bind_run; pose proof (all_sent_length _ _ _ _ Hall) as Hlen.
  destruct (forallb completed sts) eqn:Hok.
  - destruct (post_manifest_sent (net p1)) as (mst & r & w' & Hr & Hd & Hm).
    destruct (attempt_step_ok None _ mst r w' true p1 status mdus Hr Hd Hp1) as (p2 & -> & Hnet & status' & Hp2 & Hk & Hother).
    cbn; eexists _, _, sts, (net p1), mst; split; [reflexivity|]; split; [done|]; split; [done|]. cbn [net up setIsUploading uploadProgress].
    rewrite Hnet, Hok; split; [exact Hm|].
    assert (uploadProgress (up p2) = shown_steps mdus sts mst) as Hs.
    { rewrite Hp2, <- Hk; apply shown_steps_with. eapply Forall2_impl; [exact Hst|]. intros m st <-; by apply Hother. }
    split; [exact Hs|]. assert ((match r with Ok _ => true | Thrown _ => false end) = completed mst) as Hb by by destruct r; cbn in Hd; subst mst.
    split; [done|]. rewrite Hb, <- (andb_true_l (completed mst)), <- Hok. by apply (shown_complete mdus).
  - cbn; eexists _, _, sts, (net p1), st_pending; split; [reflexivity|]; split; [done|]; split; [done|]. cbn [net up setIsUploading uploadProgress].
    rewrite Hok; split; [done|]. assert (uploadProgress (up p1) = shown_steps mdus sts st_pending) as Hs by (rewrite Hp1, <- Hn; by apply shown_steps_with).
    split; [exact Hs|]; split; [done|]. rewrite (shown_complete mdus sts st_pending); [by rewrite Hok|exact Hlen|exact Hs].
Qed.

(** C12: the progress list tells the truth.  For MDUs with distinct indices an upload
    settles and is no longer running.  Every MDU was sent, in order, whatever became of
    those before; its step is complete exactly where its own request was answered with
    an ok, and shows that request's error otherwise.  The manifest went out after them
    only if every MDU was accepted, and its step shows how that ended; otherwise its
    step is still pending and nothing more was sent.  [uploadMdus] returns [true], and
    the list counts as complete, exactly if every step is. *)
Theorem uploadMdus_progress mdus (p : Page W) :
  NoDup (map fst mdus) ->
  exists b p' sts w1 mst, uploadMdus dealId providerBaseUrl root blob mdus p = (Ok b, p') /\ isUploading (up p') = false /\
    all_sent mdus sts (net p) w1 /\
    (if forallb completed sts then manifest_sent w1 mst (net p') else mst = st_pending /\ net p' = w1) /\
    uploadProgress (up p') = shown_steps mdus sts mst /\
    b = forallb completed sts && completed mst /\ upload_complete (up p') = b.
Proof. apply uploadMdus_progress_facts. Qed.
End Direct.

(** ** The gateway's copy *)

Section Mirror.
Context {W : Type} `{Http W} (dealId : string) (stripe : option StripeParams) (cfg : Config).

Definition mirror_plan (paths : string * string * string) (v : Sharder) (root : string) (blob : bytes) : list (option Request) :=
  map (fun mdu => Some (mdu_request (gateway_base cfg +:+ paths.1.1) dealId root mdu)) (mirrored_mdus stripe v) ++
  [Some (manifest_request (gateway_base cfg +:+ paths.2) dealId root blob)] ++
  concat (map (fun mdu => imap (fun slot shard =>
    Some (shard_request (gateway_base cfg +:+ paths.1.2) dealId root (slab_index v mdu) (Z.of_nat slot) shard)) mdu.2) (mirrored_shards stripe v)).

Lemma performs_post_mirror what req : performs (W := W) (post_mirror what req) [Some req].
Proof. apply performs_fetch; intros res w; by eexists. Qed.

Lemma performs_mirror paths v root blob : performs (W := W) (mirror_slab dealId stripe cfg paths v root blob) (mirror_plan paths v root blob).
Proof.
  apply performs_bind; [rewrite <- concat_singles; apply performs_for_each; intros mdu; apply performs_post_mirror|].
  apply performs_bind; [apply performs_post_mirror|]. apply performs_for_each; intros mdu.
  assert (imap (fun slot shard => Some (shard_request (gateway_base cfg +:+ paths.1.2) dealId root (slab_index v mdu) (Z.of_nat slot) shard)) mdu.2
    = concat (map (fun ss => [Some (shard_request (gateway_base cfg +:+ paths.1.2) dealId root (slab_index v mdu) (Z.of_nat ss.1) ss.2)]) (imap pair mdu.2))) as ->.
  { rewrite concat_singles. change (map ?f ?l) with (f <$> l). by rewrite fmap_imap. }
  apply performs_for_each; intros shard; apply performs_post_mirror.
Qed.

(** How a mirror ends: the page as it was, a copy of the whole slab, or a reason. *)
Definition mirror_result (v : Sharder) (p p' : Page W) : Prop :=
  p' = p \/
  (mirrorStatus (up p') = mirror_success /\ mirrorError (up p') = None /\
   exists blob paths router w1 reqs, currentManifestBlob v = Some blob /\ probe_gateway cfg (net p) = (Ok (inl (paths, router)), w1) /\
     mirror_plan paths v (trim (default "" (currentManifestRoot v))) blob = map Some reqs /\ exchanges reqs w1 (net p')) \/
  ((mirrorStatus (up p') = mirror_skipped \/ mirrorStatus (up p') = mirror_failed) /\ is_Some (mirrorError (up p'))).

(** What a mirror writes: its status, its error and the log. *)
Definition mirror_writes (u u' : UploadState) : Prop :=
  exists st e log, u' = mkUp (mode2Uploading u) (mode2UploadComplete u) (mode2UploadError u) st e (uploadProgress u) (isUploading u) log.
Lemma mirror_writes_refl u : mirror_writes u u.
Proof. by destruct u; repeat eexists. Qed.
Lemma mirror_writes_same u u' : mirror_writes u u' ->
  (mode2UploadComplete u', uploadProgress u') = (mode2UploadComplete u, uploadProgress u).
Proof. by intros (st & e & log & ->). Qed.

Lemma mirror_settles v (p : Page W) :
  exists p', mirrorSlabToGateway dealId stripe cfg v p = (Ok tt, p') /\ mirror_result v p p' /\
    (cf_gatewayDisabled cfg = true -> net p' = net p) /\
    mirror_writes (up p) (up p').
Proof.
  unfold mirrorSlabToGateway; destruct (currentManifestBlob v) as [blob|] eqn:Hb; [|exists p; split; [done|split; [by left|split; [done|apply mirror_writes_refl] ] ] ].
  destruct (_ || _ || _); [exists p; split; [done|split; [by left|split; [done|apply mirror_writes_refl] ] ]|].
  destruct (_ || _); [exists p; split; [done|split; [by left|split; [done|apply mirror_writes_refl] ] ]|].
  destruct (cf_gatewayDisabled cfg).
  { eexists; split; [reflexivity|]. split; [right; right; split; [by left|by eexists]|split; [done|by do 3 eexists] ]. }
  pose proof (performs_mirror) as Hperf. unfold set_up, addLog, set_up, try_catch, on_net, modify; rewrite !bind_run; cbn [net up].
  destruct (probe_gateway cfg (net p)) as [ [ [ [paths router]|status] |e] w1] eqn:Hprobe.
  - specialize (Hperf paths v (trim (default "" (currentManifestRoot v))) blob).
    set (send := mirror_slab dealId stripe cfg paths v (trim (default "" (currentManifestRoot v))) blob) in *; clearbody send.
    specialize (Hperf w1); destruct (send w1) as [ [ [] |e] w2] eqn:Esend; cbn [fst snd performed] in Hperf; destruct router;
      rewrite ?bind_run; cbn; rewrite ?Esend; cbn; rewrite ?bind_run; cbn; rewrite ?Esend; cbn.
    all: try (eexists; split; [reflexivity|]; split; [|split; [done|by do 3 eexists] ]; right; left; split; [done|split; [done|] ];
              destruct Hperf as (reqs & Hplan & Hex); do 5 eexists; split; [exact Hb|split; [exact Hprobe|split; [exact Hplan|exact Hex] ] ]).
    all: destruct (network_error (err_message e)); cbn; eexists; (split; [reflexivity|]); (split; [|split; [done|by do 3 eexists] ]); right; right; (split; [|by eexists]); tauto.
  - cbn; eexists; split; [reflexivity|]; split; [|split; [done|by do 3 eexists] ]. right; right; split; [by left|by eexists].
  - destruct (network_error (err_message e)); cbn; eexists; (split; [reflexivity|]); (split; [|split; [done|by do 3 eexists] ]); right; right; (split; [|by eexists]); tauto.
Qed.
End Mirror.

Section Button.
Context {W : Type} `{Http W} (dealId : string) (stripe : option StripeParams) (cfg : Config).

(** The gateway gets a copy of what the providers have, or nothing.  The button's
    handler never throws.  It mirrors the slab only after the upload to the providers
    is shown as complete; the mirror then reports success only after the gateway
    answered every request of its plan, in order, and a reason otherwise; nothing is
    sent to a gateway that the build disables. *)
Theorem upload_then_mirror slotBases v (p : Page W) :
  NoDup (map fst (collectedMdus v)) ->
  exists p1 p', upload_slab dealId stripe cfg slotBases v p = (Ok tt, p') /\
    (p' = p1 \/
     ((match stripe with Some _ => mode2UploadComplete (up p') | None => upload_complete (up p') end) = true /\
      mirror_result dealId stripe cfg v p1 p' /\ (cf_gatewayDisabled cfg = true -> net p' = net p1))).
Proof.
  intros Hnd; unfold upload_slab; destruct stripe as [s|] eqn:Hs; rewrite bind_run.
  - pose proof (uploadMode2_facts dealId (Some s) slotBases v p) as Hu.
    destruct (uploadMode2 dealId (Some s) slotBases v p) as [r p1].
    destruct Hu as [ (_ & -> & _) | (? & ? & _ & _ & _ & error & Hup & -> & _) ]; [exists p1, p1; split; [done|by left]|].
    destruct error as [e|]; [exists p1, p1; split; [done|by left]|]. rewrite bool_decide_eq_true_2 by done.
    assert (mode2UploadComplete (up p1) = true) as Hc by by rewrite Hup.
    destruct (mirror_settles dealId (Some s) cfg v p1) as (p' & -> & Hm & Hd & Hsame%mirror_writes_same). exists p1, p'; split; [done|right].
    split; [congruence|by split].
  - destruct (uploadMdus_progress_facts dealId (match slotBases with b :: _ => or_else b (cf_spBase cfg) | [] => cf_spBase cfg end)
      (default "" (currentManifestRoot v)) (currentManifestBlob v) (collectedMdus v) p Hnd) as (b & p1 & sts & w1 & mst & -> & _ & _ & _ & _ & _ & Hc).
    destruct b; [|exists p1, p1; split; [done|by left] ].
    destruct (mirror_settles dealId None cfg v p1) as (p' & -> & Hm & Hd & Hsame%mirror_writes_same). exists p1, p'; split; [done|right].
    split; [|by split]. unfold upload_complete in *. by injection Hsame as _ ->.
Qed.
End Button.

(** ** A concrete upload *)

#[local] Existing Instance scripted_http.
Definition accepted : outcome Response := Ok (mkRes 200 [] (Ok "") (Ok JNull) (Ok [])).
Definition upload_start : UploadState := mkUp false false None mirror_idle None [] false [].
Definition demo_mdus : list (Z * bytes) := [(0, [1; 2]); (1, [3]); (2, [4])].
Definition demo_slab : Sharder :=
  mkSharder [] demo_mdus (Some "0xab") (Some [9; 9]) [] false (reset_progress 1).

(** The second MDU is refused: the third is sent all the same, the manifest is not. *)
Definition refused_one : outcome Response := Ok (mkRes 500 [] (Ok "full") (Ok JNull) (Ok [])).
Lemma uploadMdus_progress_witness :
  exists b p', uploadMdus "7" "http://sp" "0xab" (Some [9; 9]) demo_mdus (mkPage [accepted; refused_one; accepted] upload_start) = (Ok b, p') /\
    b = false /\ upload_complete (up p') = b /\
    map us_status (uploadProgress (up p')) = [st_complete; st_error "Upload failed: 500 full"; st_complete; st_pending].
Proof.
  destruct (uploadMdus_progress "7" "http://sp" "0xab" (Some [9; 9]) demo_mdus (mkPage [accepted; refused_one; accepted] upload_start))
    as (b & p' & sts & w1 & mst & E & _ & _ & _ & _ & _ & Hc).
  - apply (bool_decide_unpack _); vm_compute; exact I.
  - exists b, p'; split; [exact E|]. vm_compute in E; injection E as <- <-; split; [reflexivity|split; [exact Hc|reflexivity] ].
Defined.

(** The provider takes the slab, the gateway is not running: the mirror is skipped. *)
Lemma upload_then_mirror_witness :
  exists p1 p', upload_slab "7" None (appConfig (fun _ => None)) ["http://sp"] demo_slab
      (mkPage (replicate 4 accepted) upload_start) = (Ok tt, p') /\
    mirrorError (up p') = Some "Gateway not reachable" /\
    (p' = p1 \/ upload_complete (up p') = true).
Proof.
  destruct (upload_then_mirror "7" None (appConfig (fun _ => None)) ["http://sp"] demo_slab (mkPage (replicate 4 accepted) upload_start))
    as (p1 & p' & E & Hr).
  - apply (bool_decide_unpack _); vm_compute; exact I.
  - exists p1, p'; split; [exact E|split]; [vm_compute in E; by injection E as <-|].
    destruct Hr as [Hr|[Hc _] ]; [by left|by right].
Defined.
