(* ===== verification/Persist.v ===== *)
(** * Keeping the committed slab (components/FileSharder.tsx, the [persist] effect)

    Once the commit transaction is confirmed the component writes the manifest, the
    MDUs and the shards of the slab into the origin private file system, where
    [NilfsOpfsFetch] and the next mode 2 append read them.  This file closes the
    circle from the bytes of an uploaded file to the same bytes read back. *)
From S2P Require Import Prelude JsString JsNum TransportTypes Effects Bytes Text NilfsCodec Layout Nilfs Opfs NilfsOpfsFetch.
From S2P Require Import Hex Multiaddr Http Lcd GatewayClient NilWasm ShardPool GatewayWorker Sharding ShardLive Upload.
#[local] Open Scope Z_scope.

(** ** The effect *)

(** The store and the component's log. *)
Record Disk := mkDisk { disk : opfs; disk_logs : list string }.
Definition on_disk {A} (m : M opfs A) : M Disk A := fun d => let '(r, fs) := m (disk d) in (r, mkDisk fs (disk_logs d)).
Definition log (msg : string) : M Disk unit := modify (fun d => mkDisk (disk d) (disk_logs d ++ [msg])).

Section Persist.
Context (dealId : string) (stripe : option StripeParams).
(** Whether the effect has been cleaned up when the [i]th MDU is about to be written. *)
Context (cancelled : nat -> bool).

(** The loop over the MDUs; [false] if it returned early. *)
Fixpoint write_mdus (i : nat) (mdus : list (Z * bytes)) : M Disk bool :=
  match mdus with
  | [] => mret true
  | mdu :: rest =>
      if cancelled i then mret false
      else on_disk (writeMdu dealId mdu.1 mdu.2) ;; write_mdus (S i) rest
  end.

Definition write_shards (v : Sharder) : M Disk unit :=
  for_each (mode2Shards v) (fun mdu =>
    for_each (imap pair mdu.2) (fun shard =>
      on_disk (writeShard dealId (slab_index v mdu) (Z.of_nat shard.1) shard.2))).

Definition persist (isCommitSuccess : bool) (v : Sharder) : M Disk unit :=
  if negb isCommitSuccess then mret tt
  else if negb (opt_str (currentManifestRoot v)) then mret tt
  else if (zlen (collectedMdus v) =? 0) && negb (bool_decide (is_Some stripe)) then mret tt
  else
    try_catch
      (log "> Saving committed slab to OPFS..." ;;
       on_disk (writeManifestRoot dealId (units_of (default "" (currentManifestRoot v)))) ;;
       (match currentManifestBlob v with
        | Some blob => on_disk (writeManifestBlob dealId blob)
        | None => mret tt
        end) ;;
       go_on ← write_mdus 0 (collectedMdus v);
       if go_on : bool then
         (if bool_decide (is_Some stripe) && (0 <? zlen (mode2Shards v)) then write_shards v else mret tt) ;;
         log "> Saved MDUs locally (OPFS). Deal Explorer should show files now."
       else mret tt)
      (fun e => log ("> Failed to save MDUs locally: " +:+ err_message e)).
End Persist.

(** ** What it leaves in the store *)

(** The files of a slab, in the order they are written. *)
Definition slab_shards (stripe : option StripeParams) (v : Sharder) : list (string * bytes) :=
  match stripe with
  | Some _ => concat (map (fun mdu => imap (fun slot shard => (shard_name (slab_index v mdu) (Z.of_nat slot), shard)) mdu.2) (mode2Shards v))
  | None => []
  end.
Definition slab_files (stripe : option StripeParams) (v : Sharder) : list (string * bytes) :=
  [("manifest_root.txt", TextEncoder_encode (trim_units (units_of (default "" (currentManifestRoot v)))))] ++
  (match currentManifestBlob v with Some blob => [("manifest.bin", blob)] | None => [] end) ++
  map (fun mdu => (mdu_name mdu.1, mdu.2)) (collectedMdus v) ++ slab_shards stripe v.

Definition put_all (d : string) (l : list (string * bytes)) (fs : opfs) : opfs :=
  fold_left (fun fs nf => put_file d nf.1 nf.2 fs) l fs.
Definition insert_all (l : list (string * bytes)) (m : dir) : dir := fold_left (fun m nf => <[nf.1 := nf.2]> m) l m.

Lemma deal_files_put_all id l : forall fs id',
  deal_files id' (put_all (deal_dir id) l fs) = if decide (id = id') then insert_all l (deal_files id fs) else deal_files id' fs.
Proof.
  unfold put_all, insert_all; induction l as [|nf l IH]; intros fs id'; cbn [fold_left]; [by destruct (decide (id = id')) as [->|] |].
  rewrite IH, !deal_files_put.
  destruct (decide (id = id')) as [->|]; [by rewrite decide_True by done|done].
Qed.

Lemma insert_all_other l : forall m n, n ∉ map fst l -> insert_all l m !! n = m !! n.
Proof.
  induction l as [|nf l IH]; intros m n Hn; [done|]; cbn [map] in Hn; apply not_elem_of_cons in Hn as [Hne Hn].
  cbn [insert_all fold_left]; change (fold_left _ l ?f) with (insert_all l f). by rewrite IH, lookup_insert_ne.
Qed.
Lemma insert_all_in l m n : NoDup (map fst l) -> forall x, (n, x) ∈ l -> insert_all l m !! n = Some x.
Proof.
  revert m; induction l as [|nf l IH]; intros m Hnd x Hin; [by apply elem_of_nil in Hin|]; cbn [map] in Hnd.
  apply NoDup_cons in Hnd as [Hn Hnd]; cbn [insert_all fold_left]; change (fold_left _ l ?f) with (insert_all l f).
  apply elem_of_cons in Hin as [<-|Hin]; [|by apply IH]. rewrite insert_all_other by done; apply lookup_insert_eq.
Qed.
Lemma insert_all_app l k m : insert_all (l ++ k) m = insert_all k (insert_all l m).
Proof. unfold insert_all; apply fold_left_app. Qed.
Lemma insert_all_is_Some l : forall m n, is_Some (insert_all l m !! n) <-> n ∈ map fst l \/ is_Some (m !! n).
Proof.
  induction l as [|nf l IH]; intros m n; cbn [map insert_all fold_left].
  - split; [by right|]. by intros [Hn%elem_of_nil|].
  - change (fold_left _ l ?f) with (insert_all l f). rewrite IH, elem_of_cons, lookup_insert_is_Some'.
    split; [intros [?|[->|?] ]; [left; by right|by left; left|by right]|intros [ [->|?]|?]; [right; by left|by left|right; by right] ].
Qed.

Definition valid_files (l : list (string * bytes)) : Prop := Forall (fun nf => valid_name nf.1 = true) l.

Section Written.
Context (dealId : string) (Hd : valid_deal dealId).

Lemma write_run name data d : valid_name name = true ->
  on_disk (writeBlob dealId name data) d = (Ok tt, mkDisk (put_all (deal_dir dealId) [(name, data)] (disk d)) (disk_logs d)).
Proof. intros Hn; unfold on_disk; by rewrite writeBlob_run. Qed.

Lemma put_all_app l k fs : put_all (deal_dir dealId) (l ++ k) fs = put_all (deal_dir dealId) k (put_all (deal_dir dealId) l fs).
Proof. unfold put_all; apply fold_left_app. Qed.

(** A computation that writes the given files, in order. *)
Definition writes (m : M Disk unit) (l : list (string * bytes)) : Prop := forall d,
  m d = (Ok tt, mkDisk (put_all (deal_dir dealId) l (disk d)) (disk_logs d)).

Lemma writes_for_each {A} (f : A -> M Disk unit) (g : A -> list (string * bytes)) l :
  (forall x, x ∈ l -> writes (f x) (g x)) -> writes (for_each l f) (concat (map g l)).
Proof.
  intros Hf; induction l as [|x l IH]; intros d; cbn [for_each map concat]; [by destruct d|].
  rewrite bind_run, (Hf x) by left. rewrite IH by (intros y Hy; apply Hf; by right). by rewrite put_all_app.
Qed.

Lemma write_mdus_run cancelled mdus : Forall (fun mdu => 0 <= mdu.1) mdus -> forall i d,
  (forall j, cancelled j = false) ->
  write_mdus dealId cancelled i mdus d =
  (Ok true, mkDisk (put_all (deal_dir dealId) (map (fun mdu => (mdu_name mdu.1, mdu.2)) mdus) (disk d)) (disk_logs d)).
Proof.
  induction 1 as [|mdu mdus Hm _ IH]; intros i d Hc; cbn [write_mdus map]; [by destruct d|].
  rewrite Hc, bind_run; unfold writeMdu; rewrite write_run by (by apply mdu_name_valid). by rewrite IH.
Qed.

Lemma write_shards_run v d :
  0 <= sp_totalWitnessMdus (shardProgress v) -> Forall (fun mdu => 0 <= mdu.1) (mode2Shards v) ->
  write_shards dealId v d = (Ok tt, mkDisk (put_all (deal_dir dealId) (slab_shards (Some (mkStripe 1 1)) v) (disk d)) (disk_logs d)).
Proof.
  intros Hw Hall; revert d; apply (writes_for_each _ (fun mdu => imap (fun slot shard => (shard_name (slab_index v mdu) (Z.of_nat slot), shard)) mdu.2)).
  intros mdu Hm; rewrite Forall_forall in Hall; specialize (Hall mdu Hm).
  assert (imap (fun slot shard => (shard_name (slab_index v mdu) (Z.of_nat slot), shard)) mdu.2 =
    concat (map (fun s => [(shard_name (slab_index v mdu) (Z.of_nat s.1), s.2)]) (imap pair mdu.2))) as ->.
  { rewrite concat_singles. change (map ?f ?l) with (f <$> l). by rewrite fmap_imap. }
  apply writes_for_each; intros [slot shard] _ d; apply write_run, shard_name_valid; unfold slab_index; lia.
Qed.

(** Nothing that is written has a bad name. *)
Definition writable (v : Sharder) : Prop :=
  opt_str (currentManifestRoot v) = true /\ 0 < zlen (collectedMdus v) /\ Forall (fun mdu => 0 <= mdu.1) (collectedMdus v) /\
  0 <= sp_totalWitnessMdus (shardProgress v) /\ Forall (fun mdu => 0 <= mdu.1) (mode2Shards v).

Lemma persist_run stripe cancelled v d : writable v -> (forall j, cancelled j = false) ->
  exists logs', persist dealId stripe cancelled true v d =
    (Ok tt, mkDisk (put_all (deal_dir dealId) (slab_files stripe v) (disk d)) logs').
Proof.
  intros (Hr & Hz & Hm & Hw & Hs) Hc; unfold persist; rewrite Hr; cbn [negb].
  destruct (Z.eqb_spec (zlen (collectedMdus v)) 0); [lia|]; cbn [andb].
  unfold try_catch, log, modify, writeManifestRoot, writeManifestBlob; rewrite !bind_run; cbn [disk disk_logs].
  rewrite write_run by done; rewrite !bind_run; unfold slab_files; rewrite !put_all_app.
  set (fs1 := put_all _ [_] (disk d)).
  assert (forall d0, (match currentManifestBlob v with Some blob => on_disk (writeBlob dealId "manifest.bin" blob) | None => mret tt end) d0 =
    (Ok tt, mkDisk (put_all (deal_dir dealId) (match currentManifestBlob v with Some blob => [("manifest.bin", blob)] | None => [] end) (disk d0)) (disk_logs d0))) as ->.
  { intros d0; destruct (currentManifestBlob v); [by apply write_run|by destruct d0]. }
  cbn [disk disk_logs]; rewrite bind_run, write_mdus_run by done; cbn [disk disk_logs].
  rewrite bind_run; unfold slab_shards at 1; destruct stripe as [s|]; cbn [bool_decide andb].
  - rewrite bool_decide_true by done; cbn [andb].
    destruct (Z.ltb_spec 0 (zlen (mode2Shards v))) as [|Hz0].
    + rewrite write_shards_run by done; cbn; by eexists.
    + rewrite (zlen_0_nil (mode2Shards v)) by (pose proof (zlen_nonneg (mode2Shards v)); lia). cbn; by eexists.
  - cbn; by eexists.
Qed.
End Written.

(** ** Which files are MDUs *)

Lemma starts_mdu s : starts_with "mdu_" ("mdu_" +:+ s) = true.
Proof. apply starts_with_app. Qed.

Lemma parse_mdu_name i : 0 <= i < 2 ^ 53 -> parseMduIndex (mdu_name i) = Some i.
Proof.
  intros Hi; destruct (string_of_Z_digits i) as (Hne & Hdig & _); [lia|].
  unfold parseMduIndex; unfold mdu_name at 1; rewrite starts_mdu, chars_mdu_name.
  change (drop 4 (chars "mdu_" ++ ?l)) with l. rewrite (span_digits_all _ (chars ".bin") Hdig) by done.
  rewrite !bool_decide_true by done; cbn [andb]. rewrite str_chars, Number_of_numeral by lia.
  destruct (Z.ltb_spec i 0); [lia|]. by rewrite round53_exact by lia.
Qed.
Lemma mdu_name_is_mdu i : 0 <= i < 2 ^ 53 -> is_mdu_file (mdu_name i) = true.
Proof. intros; unfold is_mdu_file; by rewrite parse_mdu_name. Qed.

Lemma shard_name_not_mdu i s : 0 <= i -> is_mdu_file (shard_name i s) = false.
Proof.
  intros Hi; destruct (string_of_Z_digits i) as (Hne & Hdig & _); [lia|].
  unfold is_mdu_file, parseMduIndex; unfold shard_name at 1; rewrite starts_mdu, chars_shard_name.
  change (drop 4 (chars "mdu_" ++ ?l)) with l. rewrite (span_digits_all _ _ Hdig) by done.
  rewrite (bool_decide_false (_ = chars ".bin")); [by rewrite andb_false_r|done].
Qed.

Lemma shards_not_mdu stripe v : 0 <= sp_totalWitnessMdus (shardProgress v) -> Forall (fun mdu => 0 <= mdu.1) (mode2Shards v) ->
  Forall (fun n => is_mdu_file n = false) (map fst (slab_shards stripe v)).
Proof.
  intros Hw Hall; unfold slab_shards; destruct stripe; [|constructor].
  apply Forall_forall; intros n Hn. apply list_elem_of_In, in_map_iff in Hn as (nf & <- & Hn).
  apply in_concat in Hn as (l & Hl & Hn). apply in_map_iff in Hl as (mdu & <- & Hm).
  apply list_elem_of_In, elem_of_lookup_imap in Hn as (slot & shard & -> & _). cbn [fst].
  apply shard_name_not_mdu; unfold slab_index. rewrite Forall_forall in Hall; specialize (Hall mdu).
  apply list_elem_of_In in Hm; specialize (Hall Hm); lia.
Qed.

(** The MDU files of a deal's directory are exactly the first [n]. *)
Definition mdu_files (n : Z) (files : dir) : Prop :=
  forall name, is_mdu_file name = true -> is_Some (files !! name) <-> exists i, 0 <= i < n /\ name = mdu_name i.

Lemma count_mdu_files n files : 0 <= n < 2 ^ 53 -> mdu_files n files ->
  zlen (List.filter is_mdu_file (map fst (map_to_list files))) = n.
Proof.
  intros Hn Hf. assert (List.filter is_mdu_file (map fst (map_to_list files)) ≡ₚ map mdu_name (seqZ 0 n)) as Hp.
  { apply NoDup_Permutation.
    - apply NoDup_ListNoDup, List.NoDup_filter, NoDup_ListNoDup. exact (NoDup_fst_map_to_list files).
    - apply (NoDup_fmap_2_strong mdu_name); [|apply NoDup_seqZ].
      intros i j Hi Hj; apply elem_of_seqZ in Hi, Hj; apply mdu_name_inj; lia.
    - intros name; rewrite list_elem_of_In, filter_In, <- list_elem_of_In. split.
      + intros [Hin Hm]. apply list_elem_of_In, in_map_iff in Hin as ([k x] & <- & Hin); cbn [fst] in *.
        apply list_elem_of_In, elem_of_map_to_list in Hin.
        destruct (proj1 (Hf k Hm)) as (i & Hi & ->); [by eexists|].
        apply list_elem_of_In, in_map, list_elem_of_In, elem_of_seqZ; lia.
      + intros Hin; apply list_elem_of_In, in_map_iff in Hin as (i & <- & Hi); apply list_elem_of_In, elem_of_seqZ in Hi.
        assert (is_mdu_file (mdu_name i) = true) as Hm by (apply mdu_name_is_mdu; lia). split; [|done].
        destruct (proj2 (Hf (mdu_name i) Hm)) as [x Hx]; [exists i; split; [lia|done]|].
        apply list_elem_of_In, in_map_iff; exists (mdu_name i, x); split; [done|]. by apply list_elem_of_In, elem_of_map_to_list. }
  unfold zlen; rewrite Hp, length_map, length_seqZ; lia.
Qed.

(** ** A slab written to the store *)

Section Saved.
Context (dealId : string) (Hd : valid_deal dealId) (stripe : option StripeParams) (v : Sharder) (n : Z).
Context (Hids : map fst (collectedMdus v) = seqZ 0 n) (Hn : 0 < n < 2 ^ 53).
Context (Hroot : opt_str (currentManifestRoot v) = true).
Context (Hw : 0 <= sp_totalWitnessMdus (shardProgress v)) (Hs : Forall (fun mdu => 0 <= mdu.1) (mode2Shards v)).

Lemma saved_ids mdu : mdu ∈ collectedMdus v -> 0 <= mdu.1 < n.
Proof.
  intros Hin; apply list_elem_of_In, (in_map fst), list_elem_of_In in Hin. rewrite Hids in Hin; apply elem_of_seqZ in Hin; lia.
Qed.

Lemma saved_writable : writable v.
Proof.
  repeat split; try done.
  - rewrite <- (zlen_map fst), Hids, zlen_seqZ; lia.
  - apply Forall_forall; intros mdu Hin; apply saved_ids in Hin; lia.
Qed.

(** The names before and after the MDUs are not MDU names. *)
Lemma saved_lookup files mdu : mdu ∈ collectedMdus v -> insert_all (slab_files stripe v) files !! mdu_name mdu.1 = Some mdu.2.
Proof.
  intros Hin; pose proof (saved_ids mdu Hin) as Hi. unfold slab_files; rewrite !insert_all_app, insert_all_other.
  - apply insert_all_in.
    + rewrite map_map; cbn [fst]. rewrite <- (map_map fst mdu_name), Hids.
      apply (NoDup_fmap_2_strong mdu_name); [|apply NoDup_seqZ]. intros i j Ha Hb; apply elem_of_seqZ in Ha, Hb; apply mdu_name_inj; lia.
    + apply list_elem_of_In, in_map_iff; exists mdu; split; [done|by apply list_elem_of_In].
  - intros Hname. pose proof (shards_not_mdu stripe v Hw Hs) as Hall. rewrite Forall_forall in Hall; specialize (Hall _ Hname).
    rewrite mdu_name_is_mdu in Hall by lia; done.
Qed.

(** Saving over a directory with the MDU files of a longer slab keeps them all. *)
Lemma saved_mdu_files k files : n <= k < 2 ^ 53 ->
  (forall name, is_mdu_file name = true -> is_Some (files !! name) -> exists i, 0 <= i < k /\ name = mdu_name i) ->
  (forall i, n <= i < k -> is_Some (files !! mdu_name i)) ->
  mdu_files k (insert_all (slab_files stripe v) files).
Proof.
  intros Hk Honly Hall name Hm. rewrite insert_all_is_Some; split.
  - intros [Hin|Hin]; [|by apply Honly]. unfold slab_files in Hin; rewrite !map_app in Hin.
    repeat rewrite elem_of_app in Hin. destruct Hin as [Hin|[Hin|[Hin|Hin] ] ].
    + apply list_elem_of_singleton in Hin as ->; discriminate Hm.
    + destruct (currentManifestBlob v); [apply list_elem_of_singleton in Hin as ->; discriminate Hm|by apply elem_of_nil in Hin].
    + rewrite map_map in Hin; apply list_elem_of_In, in_map_iff in Hin as (mdu & <- & Hin); apply list_elem_of_In, saved_ids in Hin.
      exists mdu.1; cbn [fst]; split; [lia|done].
    + pose proof (shards_not_mdu stripe v Hw Hs) as Hsh. rewrite Forall_forall in Hsh; rewrite (Hsh _ Hin) in Hm; done.
  - intros (i & Hi & ->). destruct (Z.lt_ge_cases i n) as [Hlt|Hge]; [left|right; apply Hall; lia].
    assert (i ∈ map fst (collectedMdus v)) as Hin by (rewrite Hids; apply elem_of_seqZ; lia).
    apply list_elem_of_In, in_map_iff in Hin as (mdu & <- & Hin).
    unfold slab_files; rewrite !map_app; repeat rewrite elem_of_app; do 2 right; left.
    rewrite map_map; cbn [fst]. apply list_elem_of_In, in_map_iff; by exists mdu.
Qed.
End Saved.

(** ** From the bytes of a file back to the same bytes *)

Lemma slice_clip a b l : 0 <= a -> slice a (Z.min b (zlen l)) l = slice a b l.
Proof.
  intros Ha; pose proof (zlen_nonneg l); apply bytes_eq; rewrite !zlen_slice by lia; [lia|].
  intros i Hi; by rewrite !znth_slice by lia.
Qed.

Lemma truthy_hex l : truthy (bytesToHex l) = true.
Proof. done. Qed.

Lemma user_entry_max file : file_ok file -> inferMaxEnd [user_entry file 0] = size file.
Proof.
  intros [_ Hz]; unfold inferMaxEnd; cbn [fold_left entry_start size_bytes user_entry]. fold (size file).
  destruct (Z.leb_spec (size file) 0); [lia|]. destruct (Z.ltb_spec 0 (0 + size file)); [|lia]. cbn. lia.
Qed.

Section RoundTrip.
Context {Ctx : Type} `{Kzg Ctx}.
Context (opMs : Z -> Z) (dealId : string) (stripe : option StripeParams) (file : File).

Definition slab_mdus : Z :=
  let plan := make_plan stripe no_existing (size file) in 1 + witnessMduCount plan + totalUserChunks plan.

(** The view of a finished run can be saved, and what is saved is the file's slab. *)
Lemma done_saved t fs :
  valid_deal dealId -> file_ok file -> stored_mdu0_ok dealId (store t) ->
  load_existing dealId stripe (store t) = (Ok no_existing, fs) -> slab_mdus < 2 ^ 53 ->
  sp_phase (shardProgress (view (processFile opMs dealId stripe file t).2)) = phase_done ->
  let plan := make_plan stripe no_existing (size file) in
  let v := view (processFile opMs dealId stripe file t).2 in
  map fst (collectedMdus v) = seqZ 0 slab_mdus /\ 0 < slab_mdus /\ 0 <= witnessMduCount plan /\
  totalUserChunks plan = ceil_div (size file) RAW_MDU_CAPACITY /\
  opt_str (currentManifestRoot v) = true /\ 0 <= sp_totalWitnessMdus (shardProgress v) /\
  Forall (fun mdu => 0 <= mdu.1) (mode2Shards v) /\
  (exists mdu0, (0, mdu0) ∈ collectedMdus v /\ parseNilfsFilesFromMdu0 mdu0 = [user_entry file 0]) /\
  forall u, 0 <= u < totalUserChunks plan -> exists mdu, encodeToMdu (slab_chunk (file_bytes file) u) = Ok mdu /\
    (1 + witnessMduCount plan + u, mdu) ∈ collectedMdus v.
Proof.
  intros Hd Hf Hst Hl Hb Hph plan v.
  assert (0 <= size file) as Hsz by (destruct Hf; lia).
  pose proof (plan_facts stripe no_existing (size file) ltac:(cbn; lia) Hsz) as (HW & HU & _ & _ & _); fold plan in HW, HU.
  pose proof (processFile_done opMs dealId stripe file t no_existing fs Hd Hf Hst Hl ltac:(cbn; lia) Hph)
    as ([_ _ _ Hslab Hroot] & _ & _ & _ & Htw & Hm2); fold plan v in Hslab, Hroot, Htw, Hm2.
  destruct Hslab as (mdu0 & full & ws & us & Hcol & Hparse & _ & Hws & Hus).
  destruct Hroot as (manifest & blob & Hroot & _).
  split.
  { rewrite Hcol; cbn [map fst]; rewrite map_app, (pushed_ids _ _ _ _ Hws), (pushed_ids _ _ _ _ Hus).
    change (map ?f ?l) with (f <$> l). rewrite !fmap_add_seqZ. unfold slab_mdus; fold plan.
    rewrite (seqZ_cons 0 (1 + witnessMduCount plan + totalUserChunks plan)) by lia; f_equal.
    replace (Z.pred (1 + witnessMduCount plan + totalUserChunks plan)) with (witnessMduCount plan + totalUserChunks plan) by lia.
    rewrite seqZ_app by lia. f_equal; f_equal; lia. }
  split; [unfold slab_mdus; fold plan; lia|]. split; [lia|]. split; [unfold plan, make_plan; destruct (witness_bytes _ _); reflexivity|].
  split; [by rewrite Hroot; cbn|]. split; [lia|]. split; [|split].
  - destruct stripe as [s|] eqn:Hstr; [|by rewrite Hm2]. destruct Hm2 as (ls & Hls & ->).
    apply Forall_concat, Forall_forall; intros l Hin. apply list_elem_of_lookup in Hin as [j Hj].
    destruct (Forall2_lookup_r _ _ _ _ _ Hls Hj) as (i & Hi & Hstriped). apply lookup_seqZ in Hi as [-> Hi].
    unfold striped in Hstriped; destruct (_ && _); [by subst|]. destruct Hstriped as (? & ? & ? & ? & ? & _ & _ & ->).
    repeat constructor; cbn; lia.
  - exists mdu0; split; [rewrite Hcol; left|exact Hparse].
  - intros u Hu; destruct (pushed_lookup _ _ _ _ u Hus Hu) as (mdu & Hm & Hlook). exists mdu; split.
    + unfold user_mdu in Hm; cbn [appendMode2 no_existing existingUserCount baseMdu0Bytes andb] in Hm.
      rewrite Z.sub_0_r in Hm. unfold slab_chunk; rewrite <- Hm.
      destruct (appendMode2 no_existing && (u <? 0)) eqn:E; [cbn in E; discriminate E|]. by rewrite slice_clip by (change RAW_MDU_CAPACITY with 8126464; lia).
    + rewrite Hcol; right. apply elem_of_app; right. by eapply list_elem_of_lookup_2.
Qed.

(** The deal's directory holds no MDU beyond the first [k]. *)
Definition mdus_below (k : Z) (d : Disk) : Prop :=
  forall name, is_mdu_file name = true -> is_Some (deal_files dealId (disk d) !! name) -> exists i, 0 <= i < k /\ name = mdu_name i.

Lemma saved_holds t fs cancelled d :
  valid_deal dealId -> file_ok file -> stored_mdu0_ok dealId (store t) ->
  load_existing dealId stripe (store t) = (Ok no_existing, fs) -> slab_mdus < 2 ^ 53 ->
  sp_phase (shardProgress (view (processFile opMs dealId stripe file t).2)) = phase_done ->
  (forall i, cancelled i = false) ->
  let v := view (processFile opMs dealId stripe file t).2 in
  exists d', persist dealId stripe cancelled true v d = (Ok tt, d') /\
    (exists mdu0, deal_files dealId (disk d') !! mdu_name 0 = Some mdu0 /\ parseNilfsFilesFromMdu0 mdu0 = [user_entry file 0]) /\
    forall k, slab_mdus <= k < 2 ^ 53 -> mdus_below k d ->
      (forall i, slab_mdus <= i < k -> is_Some (deal_files dealId (disk d) !! mdu_name i)) ->
      zlen (List.filter is_mdu_file (map fst (map_to_list (deal_files dealId (disk d'))))) = k /\
      (k = slab_mdus -> holds_slab (disk d') dealId (witnessMduCount (make_plan stripe no_existing (size file))) (file_bytes file)).
Proof.
  intros Hd Hf Hst Hl Hb Hph Hc v.
  destruct (done_saved t fs Hd Hf Hst Hl Hb Hph) as (Hids & Hn & HW & HU & Hroot & Htw & Hm2 & (mdu0 & Hin0 & Hparse) & Hus); fold v in Hids, Hroot, Htw, Hm2, Hin0, Hus.
  destruct (persist_run dealId Hd stripe cancelled v d) as [logs' Hrun]; [|done|].
  { apply (saved_writable v slab_mdus); try done. }
  eexists; split; [exact Hrun|]; cbn [disk]. rewrite deal_files_put_all, decide_True by done.
  assert (forall mdu, mdu ∈ collectedMdus v -> insert_all (slab_files stripe v) (deal_files dealId (disk d)) !! mdu_name mdu.1 = Some mdu.2) as Hget.
  { intros mdu Hin; apply (saved_lookup stripe v slab_mdus Hids); [lia|done|done|done]. }
  split; [exists mdu0; split; [by apply (Hget (0, mdu0))|done]|].
  intros k Hk Hbelow Hrest.
  assert (mdu_files k (insert_all (slab_files stripe v) (deal_files dealId (disk d)))) as Hfiles.
  { apply (saved_mdu_files stripe v slab_mdus Hids); try done. }
  pose proof (count_mdu_files k _ ltac:(lia) Hfiles) as Hcount. split; [exact Hcount|]. intros ->.
  unfold holds_slab; rewrite deal_files_put_all, decide_True by done. rewrite Hcount.
  fold (size file); rewrite <- HU. split; [done|]. split; [done|].
  intros u Hu; destruct (Hus u Hu) as (mdu & Henc & Hin). exists mdu; split; [done|]. by apply (Hget (_, mdu)).
Qed.

(** C3: what was uploaded reads back.  Sharding a file into a new slab, committing it
    and saving it in a store that holds no MDU of the deal beyond it makes every range
    of the file readable: MDU #0 in the store lists the file, and reading the entry it
    lists returns exactly the file's bytes, a length of zero meaning up to the end. *)
Theorem uploaded_file_reads_back t fs cancelled d rs rl :
  valid_deal dealId -> file_ok file -> stored_mdu0_ok dealId (store t) ->
  load_existing dealId stripe (store t) = (Ok no_existing, fs) -> slab_mdus < 2 ^ 53 ->
  sp_phase (shardProgress (view (processFile opMs dealId stripe file t).2)) = phase_done ->
  (forall i, cancelled i = false) -> mdus_below slab_mdus d -> 0 <= rs < size file -> 0 <= rl ->
  let v := view (processFile opMs dealId stripe file t).2 in
  let len := if rl =? 0 then size file - rs else Z.min rl (size file - rs) in
  exists d' mdu0 entry, persist dealId stripe cancelled true v d = (Ok tt, d') /\
    (readMdu dealId 0 (disk d')).1 = Ok (Some mdu0) /\ parseNilfsFilesFromMdu0 mdu0 = [entry] /\
    size_bytes entry = size file /\
    (readNilfsFileFromOpfs dealId entry [entry] (Some (Num rs)) (Some (Num rl)) (disk d')).1 =
      Ok (slice rs (rs + len) (file_bytes file)).
Proof.
  intros Hd Hf Hst Hl Hb Hph Hc Hbelow Hrs Hrl v len.
  destruct (saved_holds t fs cancelled d Hd Hf Hst Hl Hb Hph Hc) as (d' & Hrun & (mdu0 & Hm0 & Hparse) & Hslab).
  assert (0 < slab_mdus) as Hn by (by destruct (done_saved t fs Hd Hf Hst Hl Hb Hph) as (_ & Hn & _)).
  destruct (Hslab slab_mdus) as [_ Hholds]; [lia|done|lia|]. specialize (Hholds eq_refl).
  exists d', mdu0, (user_entry file 0); split; [exact Hrun|]. split; [|split; [exact Hparse|split; [reflexivity|] ] ].
  { unfold readMdu; rewrite readBlob_run by (done || by apply mdu_name_valid). cbn [fst]. by rewrite Hm0. }
  pose proof (read_slab_range dealId (disk d') _ (file_bytes file) [user_entry file 0] (user_entry file 0) rs rl Hd Hholds) as Hread.
  cbn [entry_start user_entry size_bytes] in Hread. apply Hread; [by apply user_entry_max|left|lia|done|done].
Qed.

(** MDUs of an older slab are never deleted.  If the deal's directory holds the MDU
    files of a longer slab, saving a shorter one leaves the rest of them there; they
    are counted as witness MDUs, so the layout inferred for the new file starts its
    user MDUs too late, by the number of files left over. *)
Theorem stale_mdus_shift_layout t fs cancelled d k :
  valid_deal dealId -> file_ok file -> stored_mdu0_ok dealId (store t) ->
  load_existing dealId stripe (store t) = (Ok no_existing, fs) -> slab_mdus < 2 ^ 53 ->
  sp_phase (shardProgress (view (processFile opMs dealId stripe file t).2)) = phase_done ->
  (forall i, cancelled i = false) -> slab_mdus <= k < 2 ^ 53 -> mdus_below k d ->
  (forall i, slab_mdus <= i < k -> is_Some (deal_files dealId (disk d) !! mdu_name i)) ->
  let v := view (processFile opMs dealId stripe file t).2 in
  exists d', persist dealId stripe cancelled true v d = (Ok tt, d') /\
    exists slab fs', inferWitnessCountFromOpfs dealId [user_entry file 0] (disk d') = (Ok slab, fs') /\
      slabStartIdx slab = 1 + witnessMduCount (make_plan stripe no_existing (size file)) + (k - slab_mdus).
Proof.
  intros Hd Hf Hst Hl Hb Hph Hc Hk Hbelow Hrest v.
  destruct (saved_holds t fs cancelled d Hd Hf Hst Hl Hb Hph Hc) as (d' & Hrun & _ & Hslab).
  destruct (done_saved t fs Hd Hf Hst Hl Hb Hph) as (_ & Hn & HW & HU & _).
  destruct (Hslab k Hk Hbelow Hrest) as [Hcount _]. exists d'; split; [exact Hrun|].
  unfold inferWitnessCountFromOpfs; rewrite bind_run, listDealFiles_run by done; cbv zeta. rewrite Hcount.
  rewrite (user_entry_max file Hf).
  destruct Hf as [_ Hz]. destruct (Z.ltb_spec 0 (size file)); [|lia]. rewrite <- HU.
  unfold slab_mdus in *; set (W := witnessMduCount _) in *; set (U := totalUserChunks _) in *.
  destruct (Z.eqb_spec k 0); [lia|]. destruct (Z.ltb_spec (k - 1 - U) 0); [lia|].
  do 2 eexists; split; [reflexivity|]; cbn [slabStartIdx]. lia.
Qed.
End RoundTrip.

(** ** Concrete runs *)

#[local] Existing Instance demo_kzg.
Definition demo_run : Sharder := view (@processFile unit demo_kzg (fun _ => 5000) "7" None (demo_file [1; 2; 3]) demo_tab).2.

Lemma uploaded_file_reads_back_witness :
  exists d' mdu0 entry, persist "7" None (fun _ => false) true demo_run (mkDisk ∅ []) = (Ok tt, d') /\
    parseNilfsFilesFromMdu0 mdu0 = [entry] /\
    (readNilfsFileFromOpfs "7" entry [entry] (Some (Num 1)) (Some (Num 0)) (disk d')).1 = Ok [2; 3].
Proof.
  destruct (uploaded_file_reads_back (fun _ => 5000) "7" None (demo_file [1; 2; 3]) demo_tab ∅ (fun _ => false) (mkDisk ∅ []) 1 0)
    as (d' & mdu0 & entry & Hrun & _ & Hp & _ & Hread).
  - reflexivity.
  - apply demo_file_ok.
  - intros data Hd; discriminate Hd.
  - reflexivity.
  - vm_compute; reflexivity.
  - apply demo_done.
  - done.
  - intros name _ [x Hx]; discriminate Hx.
  - change (0 <= 1 < 3); lia.
  - lia.
  - exists d', mdu0, entry; split; [exact Hrun|split; [exact Hp|exact Hread] ].
Defined.

(** The directory still has [mdu_3.bin] of an earlier, longer slab. *)
Definition stale_disk : Disk := mkDisk {["deal-7" := {["mdu_3.bin" := [0] ]} ]} [].

Lemma stale_mdus_shift_layout_witness :
  exists d', persist "7" None (fun _ => false) true demo_run stale_disk = (Ok tt, d') /\
    exists slab fs', inferWitnessCountFromOpfs "7" [user_entry (demo_file [1; 2; 3]) 0] (disk d') = (Ok slab, fs') /\ slabStartIdx slab = 3.
Proof.
  destruct (stale_mdus_shift_layout (fun _ => 5000) "7" None (demo_file [1; 2; 3]) demo_tab ∅ (fun _ => false) stale_disk 4)
    as (d' & Hrun & slab & fs' & Hinf & Hs).
  - reflexivity.
  - apply demo_file_ok.
  - intros data Hd; discriminate Hd.
  - reflexivity.
  - vm_compute; reflexivity.
  - apply demo_done.
  - done.
  - change (slab_mdus None (demo_file [1; 2; 3])) with 3; lia.
  - intros name _ [x Hx]. change (({["mdu_3.bin" := [0] ]} : dir) !! name = Some x) in Hx.
    apply lookup_singleton_Some in Hx as [<- _]. exists 3; split; [lia|reflexivity].
  - change (slab_mdus None (demo_file [1; 2; 3])) with 3; intros i Hi. replace i with 3 by lia. by exists [0].
  - exists d'; split; [exact Hrun|]. exists slab, fs'; split; [exact Hinf|]. rewrite Hs; vm_compute; reflexivity.
Defined.
