(* ===== verification/Explorer.v ===== *)
(** * The deal explorer's data (components/DealDetail.tsx)

    What the explorer shows of a deal: its providers, the layout of its slab, its file
    table, its manifest and the commitments of an MDU.  The last four are asked of the
    gateway or the deal's provider; where nobody answers they are worked out from the
    slab in the origin private file system, the manifest and the commitments by
    committing to every stored MDU again.

    The four requests of a rendered deal run side by side, but each changes its own part
    of the view; here they run one after the other.  Error texts that show a shortened
    root carry the whole one. *)
From S2P Require Import Prelude JsString JsNum TransportTypes Effects Bytes Text Router NilfsCodec Layout Nilfs Opfs NilfsOpfsFetch.
From S2P Require Import Hex Multiaddr Http Lcd GatewayClient Config TransportHook NilWasm ShardPool GatewayWorker Sharding ShardLive SlabRoots.
#[local] Open Scope Z_scope.

(** ** domain/nilfs.ts *)

Inductive segment_kind := seg_mdu0 | seg_witness | seg_user.
Record SlabSegment := mkSegment { sg_kind : segment_kind; sg_start_index : Z; sg_count : Z; sg_size_bytes : Z }.
Record SlabLayoutData := mkLayout {
  sl_manifest_root : string; sl_mdu_size_bytes : Z; sl_blob_size_bytes : Z; sl_total_mdus : Z; sl_witness_mdus : Z;
  sl_user_mdus : Z; sl_file_records : Z; sl_file_count : Z; sl_total_size_bytes : Z; sl_segments : list SlabSegment
}.
Record MduRootRecord := mkRootRecord { mr_mdu_index : Z; mr_kind : segment_kind; mr_root_hex : string; mr_root_table_index : option Z }.
Record ManifestInfoData := mkManifestInfo {
  mi_manifest_root : string; mi_manifest_blob_hex : string; mi_total_mdus : Z; mi_witness_mdus : Z; mi_user_mdus : Z;
  mi_roots : list MduRootRecord
}.
Record MduKzgData := mkMduKzg {
  mk_manifest_root : string; mk_mdu_index : Z; mk_kind : segment_kind; mk_root_hex : string; mk_blobs : list string
}.

(** ** The component's state *)

(** Data as the gateway sent it, or as the page worked it out. *)
Inductive Shown (A : Type) := sent (j : json) | worked_out (a : A).
#[global] Arguments sent {A} j.
#[global] Arguments worked_out {A} a.
Inductive FileTable := table_sent (l : list json) | table_parsed (l : list NilfsFileEntry).

Inductive slab_source := source_none | source_gateway | source_opfs.
Inductive slab_status := slab_unknown | slab_present | slab_missing | slab_error.
(** An error text, or the two roots that differ. *)
Inductive ManifestError := error_text (s : string) | root_mismatch (computed expected : string).

Record ProviderInfo := mkInfo { pi_address : string; pi_endpoints : option (list string); pi_status : option string }.

Record SlabView := mkSlabView {
  sv_slab : option (Shown SlabLayoutData); sv_source : slab_source; sv_status : slab_status; sv_loading : bool
}.
Record ManifestView := mkManifestView {
  mv_info : option (Shown ManifestInfoData); mv_loading : bool; mv_error : option ManifestError;
  mv_merkle : option (list (list string)); mv_merkleError : option string
}.
Record KzgView := mkKzgView { kv_kzg : option (Shown MduKzgData); kv_loading : bool; kv_error : option string }.

(** [fv_cached] holds the entries of [browserCachedByPath], the newest of a path first. *)
Record FilesView := mkFilesView {
  fv_files : option FileTable; fv_loading : bool; fv_cached : list (units * bool); fv_busy : option units; fv_error : option string
}.

Section Explorer.
Context {Ctx : Type} `{Kzg Ctx} {W : Type} `{Clock W, Router.Timers W, Http W, TraceStore W}.
Context (cfg : Config) (preference : RoutePreference).

Record Explorer := mkExplorer {
  ex_world : W; ex_tab : @Tab Ctx;
  (** how the promise in [wasmReadyPromise] settles, once there is one *)
  ex_ready : option (outcome unit);
  ex_slab : SlabView; ex_manifest : ManifestView; ex_kzg : KzgView;
  ex_files : FilesView; ex_heat : option json; ex_providers : gmap string ProviderInfo
}.
Definition set_slab_view (s : SlabView) (e : Explorer) : Explorer :=
  mkExplorer (ex_world e) (ex_tab e) (ex_ready e) s (ex_manifest e) (ex_kzg e) (ex_files e) (ex_heat e) (ex_providers e).
Definition set_manifest_view (m : ManifestView) (e : Explorer) : Explorer :=
  mkExplorer (ex_world e) (ex_tab e) (ex_ready e) (ex_slab e) m (ex_kzg e) (ex_files e) (ex_heat e) (ex_providers e).
Definition set_kzg_view (k : KzgView) (e : Explorer) : Explorer :=
  mkExplorer (ex_world e) (ex_tab e) (ex_ready e) (ex_slab e) (ex_manifest e) k (ex_files e) (ex_heat e) (ex_providers e).
Definition set_files_view (f : FilesView) (e : Explorer) : Explorer :=
  mkExplorer (ex_world e) (ex_tab e) (ex_ready e) (ex_slab e) (ex_manifest e) (ex_kzg e) f (ex_heat e) (ex_providers e).
Definition set_heat (h : json) (e : Explorer) : Explorer :=
  mkExplorer (ex_world e) (ex_tab e) (ex_ready e) (ex_slab e) (ex_manifest e) (ex_kzg e) (ex_files e) (Some h) (ex_providers e).
Definition set_providers_by_addr (p : gmap string ProviderInfo) (e : Explorer) : Explorer :=
  mkExplorer (ex_world e) (ex_tab e) (ex_ready e) (ex_slab e) (ex_manifest e) (ex_kzg e) (ex_files e) (ex_heat e) p.

Definition on_net {A} (m : M W A) : M Explorer A := fun e =>
  let '(r, w) := m (ex_world e) in
  (r, mkExplorer w (ex_tab e) (ex_ready e) (ex_slab e) (ex_manifest e) (ex_kzg e) (ex_files e) (ex_heat e) (ex_providers e)).
Definition on_tab {A} (m : M (@Tab Ctx) A) : M Explorer A := fun e =>
  let '(r, t) := m (ex_tab e) in
  (r, mkExplorer (ex_world e) t (ex_ready e) (ex_slab e) (ex_manifest e) (ex_kzg e) (ex_files e) (ex_heat e) (ex_providers e)).
Definition stored {A} (m : M opfs A) : M Explorer A := on_tab (on_store m).
Definition update_slab (f : SlabView -> SlabView) : M Explorer unit := modify (fun e => set_slab_view (f (ex_slab e)) e).
Definition update_manifest (f : ManifestView -> ManifestView) : M Explorer unit := modify (fun e => set_manifest_view (f (ex_manifest e)) e).
Definition update_kzg (f : KzgView -> KzgView) : M Explorer unit := modify (fun e => set_kzg_view (f (ex_kzg e)) e).
Definition update_files (f : FilesView -> FilesView) : M Explorer unit := modify (fun e => set_files_view (f (ex_files e)) e).
Definition show_files (t : option FileTable) (v : FilesView) : FilesView := mkFilesView t (fv_loading v) (fv_cached v) (fv_busy v) (fv_error v).
Definition loading_files (b : bool) (v : FilesView) : FilesView := mkFilesView (fv_files v) b (fv_cached v) (fv_busy v) (fv_error v).
Definition cached_files (c : list (units * bool)) (v : FilesView) : FilesView := mkFilesView (fv_files v) (fv_loading v) c (fv_busy v) (fv_error v).
Definition busy_file (b : option units) (v : FilesView) : FilesView := mkFilesView (fv_files v) (fv_loading v) (fv_cached v) b (fv_error v).
Definition file_error (e : option string) (v : FilesView) : FilesView := mkFilesView (fv_files v) (fv_loading v) (fv_cached v) (fv_busy v) e.
Definition setFiles (t : FileTable) : M Explorer unit := update_files (show_files (Some t)).

(** ** The WASM of the page *)

Definition load_wasm : M Explorer unit :=
  res ← on_net (fetch None (GET "/trusted_setup.txt"));
  if negb (rs_ok res) then js_error ("Failed to load trusted setup (" +:+ string_of_Z (rs_status res) +:+ ")")
  else
    trustedSetupBytes ← lift (rs_bytes res);
    try_catch (on_tab (call (initNilWasm (Some trustedSetupBytes))) ;; mret tt) (fun _ => mret tt).
(** The promise is kept, whichever way it settles. *)
Definition ensureWasmReady : M Explorer unit := fun e =>
  match ex_ready e with
  | Some o => (o, e)
  | None =>
      let '(o, e') := load_wasm e in
      (o, mkExplorer (ex_world e') (ex_tab e') (Some o) (ex_slab e') (ex_manifest e') (ex_kzg e') (ex_files e') (ex_heat e') (ex_providers e'))
  end.
Definition call_shardFile (data : bytes) : M (@Tab Ctx) (bytes * bytes) :=
  r ← call (shardFile data); match r with RCommit w root => mret (w, root) | _ => mthrow bad_reply end.

(** ** Where to ask *)

Definition endpoints_at (providers : gmap string ProviderInfo) (primaryProvider : string) : list string :=
  if truthy primaryProvider then default [] (providers !! primaryProvider ≫= pi_endpoints) else [].
Definition is_http (ep : string) : bool := starts_with "http://" (to_lower ep) || starts_with "https://" (to_lower ep).
Fixpoint first_http (endpoints : list string) : option string :=
  match endpoints with
  | [] => None
  | ep :: rest =>
      let trimmed := trim ep in
      if negb (truthy trimmed) then first_http rest
      else if is_http trimmed then Some (strip_slash trimmed)
      else match multiaddrToHttpUrl trimmed with
           | Some httpUrl => if truthy httpUrl then Some httpUrl else first_http rest
           | None => first_http rest
           end
  end.
Definition resolveProviderHttpBase (providers : gmap string ProviderInfo) (primaryProvider : string) : string :=
  default (cf_spBase cfg) (first_http (endpoints_at providers primaryProvider)).
Definition resolveProviderP2pTarget (providers : gmap string ProviderInfo) (primaryProvider : string) : option P2pTarget :=
  first_target (endpoints_at providers primaryProvider).

(** The entries of the provider list, by address; the last of an address counts. *)
Definition provider_info (raw : json) : outcome (option ProviderInfo) :=
  match raw with
  | JNull => mthrow (JsError "TypeError" "Cannot read properties of null (reading 'address')")
  | _ =>
      match get_field raw "address" with
      | Some (JStr addr) =>
          if truthy addr then
            mret (Some (mkInfo addr
              (match get_field raw "endpoints" with Some (JArr _) => Some (string_items (get_field raw "endpoints")) | _ => None end)
              (match get_field raw "status" with Some (JStr s) => Some s | _ => None end)))
          else mret None
      | _ => mret None
      end
  end.
Fixpoint index_providers (next : gmap string ProviderInfo) (list : list json) : outcome (gmap string ProviderInfo) :=
  match list with
  | [] => mret next
  | raw :: rest =>
      p ← provider_info raw;
      index_providers (match p with Some info => <[pi_address info := info]> next | None => next end) rest
  end.
(** [cancelled]: the effect was cleaned up before the answer came. *)
Definition loadProviders (dealProviders : list string) (cancelled : bool) : M Explorer unit :=
  if forallb is_empty dealProviders && (zlen dealProviders <=? 1) then modify (set_providers_by_addr ∅)
  else
    try_catch
      (res ← on_net (fetch None (GET (cf_lcdBase cfg +:+ "/nilchain/nilchain/v1/providers")));
       if negb (rs_ok res) then mret tt
       else
         let list := match get_field (json_or JNull res) "providers" with Some (JArr l) => l | _ => [] end in
         next ← lift (index_providers ∅ list);
         if cancelled then mret tt else modify (set_providers_by_addr next))
      (fun _ => mret tt).

(** ** The file table *)

Definition fetchLocalFiles (dealId : string) : M Explorer unit :=
  update_files (loading_files true) ;;
  finally
    (try_catch
       (mdu0 ← stored (readMdu dealId 0);
        match mdu0 with
        | None => setFiles (table_parsed [])
        | Some mdu0 => setFiles (table_parsed (parseNilfsFilesFromMdu0 mdu0))
        end)
       (fun _ => setFiles (table_parsed [])))
    (fun e => set_files_view (loading_files false (ex_files e)) e).

(** Whether a stored manifest root is the given one. *)
Definition same_root (localManifest : units) (cid : string) : bool := bool_decide (trim_units localManifest = trim_units (units_of cid)).
Definition local_root (dealId : string) : M Explorer (option units) := stored (try_catch (readManifestRoot dealId) (fun _ => mret None)).

(** The request of a deal, as the routing settings of the page make it. *)
Definition route_for (providers : gmap string ProviderInfo) (cid dealId owner primaryProvider : string) : RouteRequest :=
  mkRoute cid owner dealId (Some (resolveProviderHttpBase providers primaryProvider))
    (if cf_p2pEnabled cfg then resolveProviderP2pTarget providers primaryProvider else None) None.
Definition route_to (cid dealId owner primaryProvider : string) : M Explorer RouteRequest := fun e =>
  (Ok (route_for (ex_providers e) cid dealId owner primaryProvider), e).

Definition fetchFiles (primaryProvider cid dealId owner : string) : M Explorer unit :=
  if is_empty cid || is_empty dealId || is_empty owner then mret tt
  else
    update_files (loading_files true) ;;
    finally
      (try_catch
         (r ← route_to cid dealId owner primaryProvider;
          result ← on_net (listFiles cfg preference r);
          let list := to_data result in
          if 0 <? zlen list then setFiles (table_sent list)
          else
            localManifest ← local_root dealId;
            match localManifest with
            | Some m =>
                if same_root m cid then
                  mdu0 ← stored (readMdu dealId 0);
                  setFiles (match mdu0 with Some mdu0 => table_parsed (parseNilfsFilesFromMdu0 mdu0) | None => table_sent list end)
                else setFiles (table_sent list)
            | None =>
                mdu0 ← stored (readMdu dealId 0);
                setFiles (match mdu0 with Some mdu0 => table_parsed (parseNilfsFilesFromMdu0 mdu0) | None => table_sent list end)
            end)
         (fun _ => fetchLocalFiles dealId))
      (fun e => set_files_view (loading_files false (ex_files e)) e).

(** ** The layout of the slab *)

(** [/slab not found on disk/i.test(msg) || /\b404\b/.test(msg)] *)
Definition slab_is_missing (msg : string) : bool :=
  includes "slab not found on disk" (to_lower msg) || bool_decide (chars "404" ∈ words (chars msg) []).

Definition mduSizeBytes : Z := 8 * 1024 * 1024.
Definition layout_segments (witnessCount userCount : Z) : list SlabSegment :=
  [mkSegment seg_mdu0 0 1 mduSizeBytes] ++
  (if 0 <? witnessCount then [mkSegment seg_witness 1 witnessCount (witnessCount * mduSizeBytes)] else []) ++
  (if 0 <? userCount then [mkSegment seg_user (1 + witnessCount) userCount (userCount * mduSizeBytes)] else []).
Definition local_layout (cid : string) (localFiles : list NilfsFileEntry) (l : SlabLayout) : SlabLayoutData :=
  mkLayout cid mduSizeBytes (128 * 1024) (totalMdus l) (witnessCount l) (userCount l) (zlen localFiles) (zlen localFiles)
    (fold_left (fun acc f => acc + size_bytes f) localFiles 0) (layout_segments (witnessCount l) (userCount l)).

Definition infer_slab (cid dealId : string) : M Explorer unit :=
  if is_empty dealId then mret tt
  else
    localManifest ← local_root dealId;
    match localManifest with
    | None => mret tt
    | Some m =>
        if negb (same_root m cid) then mret tt
        else
          mdu0 ← stored (readMdu dealId 0);
          match mdu0 with
          | None => mret tt
          | Some mdu0 =>
              let localFiles := parseNilfsFilesFromMdu0 mdu0 in
              l ← stored (inferWitnessCountFromOpfs dealId localFiles);
              update_slab (fun s => mkSlabView (Some (worked_out (local_layout cid localFiles l))) source_opfs (sv_status s) (sv_loading s))
          end
    end.

Definition fetchSlab (primaryProvider cid dealId owner : string) : M Explorer unit :=
  update_slab (fun s => mkSlabView (sv_slab s) (sv_source s) (sv_status s) true) ;;
  finally
    (try_catch
       (update_slab (fun s => mkSlabView (sv_slab s) source_none slab_unknown (sv_loading s)) ;;
        r ← route_to cid dealId owner primaryProvider;
        result ← on_net (slab cfg preference r);
        update_slab (fun s => mkSlabView (Some (sent (to_data result))) source_gateway slab_present (sv_loading s)))
       (fun e =>
          update_slab (fun s => mkSlabView (sv_slab s) (sv_source s)
            (if slab_is_missing (err_message e) then slab_missing else slab_error) (sv_loading s)) ;;
          try_catch (infer_slab cid dealId) (fun _ => mret tt)))
    (fun e => set_slab_view (mkSlabView (sv_slab (ex_slab e)) (sv_source (ex_slab e)) (sv_status (ex_slab e)) false) e).

(** ** The manifest *)

Definition mdu_kind_at (idx witnessCount : Z) : segment_kind :=
  if idx =? 0 then seg_mdu0 else if idx <=? witnessCount then seg_witness else seg_user.
Definition missing_mdu (idx : Z) : string := "missing local MDU #" +:+ string_of_Z idx.

(** One stored MDU is committed to again. *)
Definition manifest_step (dealId : string) (witnessCount : Z) (acc : list MduRootRecord * bytes) (idx : Z) : M Explorer (list MduRootRecord * bytes) :=
  data ← stored (readMdu dealId idx);
  match data with
  | None => js_error (missing_mdu idx)
  | Some data =>
      committed ← on_tab (call_shardFile data);
      let mduRoot := committed.2 in
      if negb (zlen mduRoot =? 32) then js_error ("invalid mdu_root length for MDU #" +:+ string_of_Z idx)
      else
        rootsAgg ← lift (set_bytes acc.2 (idx * 32) mduRoot);
        mret (acc.1 ++ [mkRootRecord idx (mdu_kind_at idx witnessCount) (bytesToHex mduRoot) (if 0 <? idx then Some (idx - 1) else None)], rootsAgg)
  end.

(** The slab of the deal in the store, if it is the one of the chain. *)
Definition local_slab (cid dealId : string) : M Explorer unit :=
  if is_empty dealId then js_error "missing deal id"
  else
    localManifest ← local_root dealId;
    match localManifest with
    | None => js_error "missing local manifest root"
    | Some m => if truthy cid && negb (same_root m cid) then js_error "local slab does not match chain CID" else mret tt
    end.

Definition compute_manifest_info (cid dealId : string) : M Explorer unit :=
  local_slab cid dealId ;;
  mdu0 ← stored (readMdu dealId 0);
  match mdu0 with
  | None => js_error "missing local MDU #0"
  | Some mdu0 =>
      l ← stored (inferWitnessCountFromOpfs dealId (parseNilfsFilesFromMdu0 mdu0));
      ensureWasmReady ;;
      acc ← fold_m (manifest_step dealId (witnessCount l)) ([], zeros (32 * totalMdus l)) (seqZ 0 (totalMdus l));
      manifest ← on_tab (call_computeManifest acc.2);
      let computedRoot := bytesToHex manifest.1 in
      (if truthy cid && negb (eqb (to_lower (trim computedRoot)) (to_lower (trim cid)))
       then update_manifest (fun m => mkManifestView (mv_info m) (mv_loading m) (Some (root_mismatch computedRoot cid)) (mv_merkle m) (mv_merkleError m))
       else mret tt) ;;
      update_manifest (fun m => mkManifestView
        (Some (worked_out (mkManifestInfo (or_else cid computedRoot) (bytesToHex manifest.2) (totalMdus l) (witnessCount l) (userCount l) acc.1)))
        (mv_loading m) (mv_error m) (mv_merkle m) (mv_merkleError m))
  end.

Definition fetchManifestInfo (primaryProvider cid dealId owner : string) : M Explorer unit :=
  update_manifest (fun m => mkManifestView (mv_info m) true None None None) ;;
  finally
    (try_catch
       (r ← route_to cid dealId owner primaryProvider;
        result ← on_net (manifestInfo cfg preference r);
        update_manifest (fun m => mkManifestView (Some (sent (to_data result))) (mv_loading m) (mv_error m) (mv_merkle m) (mv_merkleError m)))
       (fun e =>
          try_catch (compute_manifest_info cid dealId)
            (fun _ => update_manifest (fun m => mkManifestView None (mv_loading m)
               (Some (error_text (or_else (err_message e) "Failed to fetch manifest info"))) (mv_merkle m) (mv_merkleError m)))))
    (fun e => let m := ex_manifest e in set_manifest_view (mkManifestView (mv_info m) false (mv_error m) (mv_merkle m) (mv_merkleError m)) e).

(** ** The commitments of one MDU *)

(** The kind comes from the layout that is shown; one that the gateway sent is read
    field by field. *)
Definition shown_layout (s : option (Shown SlabLayoutData)) : option (dec * dec) :=
  match s with
  | None => None
  | Some (worked_out l) => Some (DNum (sl_total_mdus l) 0, DNum (sl_witness_mdus l) 0)
  | Some (sent j) => Some (json_Number (default JNull (get_field j "total_mdus")), json_Number (default JNull (get_field j "witness_mdus")))
  end.
Definition kzg_kind (s : option (Shown SlabLayoutData)) (mduIndex : Z) : segment_kind :=
  match shown_layout s with
  | Some (total, witness) =>
      if dec_pos total then (if mduIndex =? 0 then seg_mdu0 else if dec_geb witness mduIndex then seg_witness else seg_user)
      else seg_user
  | None => seg_user
  end.

Definition compute_mdu_kzg (cid : string) (mduIndex : Z) (dealId : string) : M Explorer unit :=
  local_slab cid dealId ;;
  data ← stored (readMdu dealId mduIndex);
  match data with
  | None => js_error (missing_mdu mduIndex)
  | Some data =>
      ensureWasmReady ;;
      committed ← on_tab (call_shardFile data);
      let '(witnessFlat, mduRoot) := committed in
      if negb (zlen mduRoot =? 32) then js_error ("invalid mdu_root length for MDU #" +:+ string_of_Z mduIndex)
      else if (zlen witnessFlat =? 0) || negb (zlen witnessFlat mod 48 =? 0) then js_error "invalid witness_flat length"
      else
        modify (fun e => set_kzg_view (mkKzgView
          (Some (worked_out (mkMduKzg cid mduIndex (kzg_kind (sv_slab (ex_slab e)) mduIndex) (bytesToHex mduRoot)
             (map bytesToHex (chunks_exact 48 witnessFlat)))))
          (kv_loading (ex_kzg e)) (kv_error (ex_kzg e))) e)
  end.

Definition fetchMduKzg (primaryProvider cid : string) (mduIndex : Z) (dealId owner : string) : M Explorer unit :=
  update_kzg (fun k => mkKzgView (kv_kzg k) true None) ;;
  finally
    (try_catch
       (r ← route_to cid dealId owner primaryProvider;
        result ← on_net (mduKzg cfg preference r mduIndex);
        update_kzg (fun k => mkKzgView (Some (sent (to_data result))) (kv_loading k) (kv_error k)))
       (fun e =>
          try_catch (compute_mdu_kzg cid mduIndex dealId)
            (fun _ => update_kzg (fun k => mkKzgView None (kv_loading k) (Some (or_else (err_message e) "Failed to fetch MDU commitments"))))))
    (fun e => set_kzg_view (mkKzgView (kv_kzg (ex_kzg e)) false (kv_error (ex_kzg e))) e).

(** The button that builds a Merkle tree over the roots that are shown. *)
Definition root_texts (info : Shown ManifestInfoData) : list string :=
  filter_truthy (match info with
  | worked_out m => map mr_root_hex (mi_roots m)
  | sent j => match get_field j "roots" with
              | Some (JArr l) => map (fun r => match get_field r "root_hex" with Some (JStr s) => s | _ => "" end) l
              | _ => []
              end
  end).
Definition build_merkle (blake2s : bytes -> bytes) : M Explorer unit :=
  update_manifest (fun m =>
    match mv_info m with
    | None => m
    | Some info =>
        match buildBlake2sMerkleLayers blake2s (root_texts info) with
        | Ok layers => mkManifestView (mv_info m) (mv_loading m) (mv_error m) (Some layers) None
        | Thrown e => mkManifestView (mv_info m) (mv_loading m) (mv_error m) None
            (Some (if is_Error e then err_message e else "Failed to build Merkle tree"))
        end
    end).

(** ** Heat *)

Definition fetchHeat (dealId : string) : M Explorer unit :=
  try_catch
    (res ← on_net (fetch None (GET (cf_lcdBase cfg +:+ "/nilchain/nilchain/v1/deals/" +:+ dealId +:+ "/heat")));
     if rs_ok res then
       j ← lift (rs_json res);
       match j with
       | JNull => mthrow (JsError "TypeError" "Cannot read properties of null (reading 'heat')")
       | _ => match get_field j "heat" with
              | Some h => if json_truthy h then modify (set_heat h) else mret tt
              | None => mret tt
              end
       end
     else mret tt)
    (fun _ => mret tt).
(** After a receipt was submitted: eight looks, unless the effect is cleaned up. *)
Fixpoint follow_heat (fuel : nat) (canceled : nat -> bool) (dealId : string) : M Explorer unit :=
  match fuel with
  | O => mret tt
  | S fuel => if canceled fuel then mret tt else fetchHeat dealId ;; on_net (delay 750) ;; follow_heat fuel canceled dealId
  end.
Definition heat_effect (submitted : bool) (canceled : nat -> bool) (dealId : string) : M Explorer unit :=
  if submitted then follow_heat 8 canceled dealId else mret tt.

(** ** What a deal shows when it is rendered *)

Definition empty_deal : M Explorer unit := modify (fun e =>
  let m := ex_manifest e in
  set_manifest_view (mkManifestView None (mv_loading m) (mv_error m) (mv_merkle m) (mv_merkleError m))
    (set_slab_view (mkSlabView None source_none slab_unknown false)
      (set_files_view (cached_files [] (loading_files false (show_files None (ex_files e)))) e))).
Definition show_deal (deal : LcdDeal) (nilAddress : string) : M Explorer unit :=
  let primary := default "" (head (d_providers deal)) in
  (if truthy (d_cid deal) then
     let owner := or_else nilAddress (d_owner deal) in
     fetchSlab primary (d_cid deal) (d_id deal) owner ;;
     fetchFiles primary (d_cid deal) (d_id deal) owner ;;
     fetchManifestInfo primary (d_cid deal) (d_id deal) owner
   else empty_deal) ;;
  update_files (file_error None) ;;
  fetchHeat (d_id deal).
End Explorer.

(** ** What is rendered *)

Definition backend_text (b : BackendName) : string := match b with gateway => "gateway" | direct_sp => "direct_sp" | libp2p => "libp2p" end.
(** [backend.replace('_', ' ')] *)
Definition lastRouteLabel (lastTrace : option DecisionTrace) : string :=
  match lastTrace ≫= tr_chosen with
  | Some (direct_sp, _) => "direct sp"
  | Some (b, _) => backend_text b
  | None => ""
  end.
Definition lastAttemptSummary (lastTrace : option DecisionTrace) : string :=
  match lastTrace with
  | Some t => join "," (map (fun a => backend_text (at_backend a) +:+ ":" +:+ (if at_ok a then "ok" else "fail")) (tr_attempts t))
  | None => ""
  end.
Definition lastFailureSummary (lastTrace : option DecisionTrace) : string :=
  match lastTrace with
  | Some t => match List.find (fun a => negb (at_ok a)) (tr_attempts t) with
              | Some failed => backend_text (at_backend failed) +:+
                  match at_errorMessage failed with Some m => if truthy m then ":" +:+ m else "" | None => "" end
              | None => ""
              end
  | None => ""
  end.

(** The panel of the manifest: the error is shown only where there are no details. *)
Inductive Panel := panel_loading | panel_details (info : Shown ManifestInfoData) | panel_message (msg : option ManifestError).
Definition manifest_panel (m : ManifestView) : Panel :=
  if mv_loading m then panel_loading else match mv_info m with Some info => panel_details info | None => panel_message (mv_error m) end.
(** The tab shows it under a layout only. *)
Definition manifest_tab {Ctx W} (e : @Explorer Ctx W) : option Panel :=
  if sv_loading (ex_slab e) then None
  else match sv_slab (ex_slab e) with Some _ => Some (manifest_panel (ex_manifest e)) | None => None end.

(** The grid of the stripe view: [k] data slots and [m] parity slots in every row. *)
Inductive Cell := cell_blob (dataIndex : Z) | cell_empty | cell_parity (n : Z).
Definition stripe_rows (k : Z) : Z := Z.max 1 (ceil_div 64 k).
Definition stripe_cell (k m blobs cellIndex : Z) : Cell :=
  let slots := k + m in
  let row := cellIndex / slots in
  let col := cellIndex mod slots in
  let dataIndex := row * k + col in
  if col <? k then (if dataIndex <? blobs then cell_blob dataIndex else cell_empty) else cell_parity (col - k + 1).
Definition stripe_cells (k m blobs : Z) : list Cell := map (stripe_cell k m blobs) (seqZ 0 (stripe_rows k * (k + m))).
