(* ===== verification/ExplorerSlab.v ===== *)
(** * The explorer works the manifest out again (components/DealDetail.tsx)

    When nobody answers, the explorer commits to every MDU it finds in the store and
    compares the manifest over their roots with the one on the chain.  For the slab that
    [Sharding] made and [Persist] kept it finds the committed manifest, in a mode 1 deal;
    in a mode 2 deal, whose user MDUs were committed to as stripes, it reports a
    mismatch. *)
From S2P Require Import Prelude JsString JsNum TransportTypes Effects Bytes Text Router NilfsCodec Layout Nilfs Opfs NilfsOpfsFetch.
From S2P Require Import Hex Multiaddr Http Lcd GatewayClient Config TransportHook NilWasm ShardPool GatewayWorker Sharding ShardLive SlabRoots Upload Persist Explorer.
#[local] Open Scope Z_scope.

Section Local.
Context {Ctx : Type} `{Kzg Ctx} {W : Type} `{Clock W, Router.Timers W, Http W, TraceStore W}.
Context (cfg : Config) (preference : RoutePreference) (ctx : Ctx).
Context (dealId : string) (Hd : valid_deal dealId).
Implicit Types e : @Explorer Ctx W.

(** Reading a deal's files creates its directory and changes nothing else. *)
Definition opened e : Explorer :=
  mkExplorer (ex_world e) (mkTab (worker (ex_tab e)) (with_deal dealId (store (ex_tab e))) (view (ex_tab e))) (ex_ready e)
    (ex_slab e) (ex_manifest e) (ex_kzg e) (ex_files e) (ex_heat e) (ex_providers e).
Definition local_files e : dir := deal_files dealId (store (ex_tab e)).

Lemma with_deal_twice (fs : opfs) : with_deal dealId (with_deal dealId fs) = with_deal dealId fs.
Proof. unfold with_deal at 1; rewrite files_of_with. unfold with_deal. by rewrite insert_insert_eq. Qed.
Lemma opened_twice e : opened (opened e) = opened e.
Proof. unfold opened; cbn [ex_tab worker store view ex_world ex_ready ex_slab ex_manifest ex_kzg ex_files ex_heat ex_providers]. by rewrite with_deal_twice. Qed.
Lemma opened_files e : local_files (opened e) = local_files e.
Proof. unfold local_files, opened; cbn [ex_tab store]. apply deal_files_with. Qed.

Lemma stored_mdu e i : 0 <= i -> stored (readMdu dealId i) e = (Ok (local_files e !! mdu_name i), opened e).
Proof.
  intros Hi; unfold stored, on_tab, on_store, readMdu. rewrite readBlob_run by (done || by apply mdu_name_valid). done.
Qed.
Lemma stored_root e root :
  local_files e !! "manifest_root.txt" = Some (TextEncoder_encode root) -> Forall ascii_unit root -> trim_units root = root -> root <> [] ->
  local_root dealId e = (Ok (Some root), opened e).
Proof.
  intros Hf Ha Ht Hne; unfold local_root, stored, on_tab, on_store, try_catch, readManifestRoot. rewrite bind_run.
  rewrite readBlob_run by done. unfold local_files in Hf; rewrite Hf, TextEncoder_encode_ascii, TextDecoder_decode_ascii, Ht by done.
  by rewrite bool_decide_false.
Qed.

(** ** One MDU after the other *)

Context (mdus roots : list bytes).
Context (Hroots : Forall2 (plain_root ctx) mdus roots) (H32 : Forall (fun root => zlen root = 32) roots).

Definition holds_mdus e : Prop := forall i data, mdus !! i = Some data -> local_files e !! mdu_name (Z.of_nat i) = Some data.
Definition record_of (w : Z) (i : nat) (root : bytes) : MduRootRecord :=
  mkRootRecord (Z.of_nat i) (mdu_kind_at (Z.of_nat i) w) (bytesToHex root) (if 0 <? Z.of_nat i then Some (Z.of_nat i - 1) else None).

Lemma shardFile_run data root (t : @Tab Ctx) : ready ctx (worker t) -> plain_root ctx data root ->
  exists w, call_shardFile data t = (Ok (w, root), t).
Proof.
  intros Hr [w Hc]; exists w; unfold call_shardFile; rewrite bind_run.
  rewrite (call_run ctx _ t (RCommit w root) (worker t) Hr); [by destruct t|].
  cbn [dispatch]; rewrite bind_run; unfold need_wasm; destruct Hr as [_ ->]. rewrite bind_run; unfold lift; by rewrite Hc.
Qed.

Definition taken (e : Explorer) (w : Z) (seen : list Z) (acc : list MduRootRecord * bytes) (e' : Explorer) : Prop :=
  e' = opened e /\ acc.1 = imap (record_of w) (take (length seen) roots) /\
  acc.2 = concat (take (length seen) roots) ++ zeros (32 * (zlen roots - zlen seen)).

Lemma manifest_loop_run e w : ready ctx (worker (ex_tab e)) -> holds_mdus e ->
  exists acc, fold_m (manifest_step dealId w) ([], zeros (32 * zlen roots)) (seqZ 0 (zlen roots)) (opened e) = (Ok acc, opened e) /\
    acc.1 = imap (record_of w) roots /\ acc.2 = concat roots.
Proof.
  intros Hr Hm. destruct (fold_m_total (taken e w) (manifest_step dealId w) (seqZ 0 (zlen roots)) ([], zeros (32 * zlen roots)) (opened e))
    as (acc & e' & Hrun & -> & Hrec & Hbuf).
  - intros i seen rest acc e1 [Hi Hin]%seqZ_prefix (-> & Hrec & Hbuf). unfold zlen in Hi; subst i; set (n := length seen) in *.
    destruct (lookup_lt_is_Some_2 roots n) as [root Hroot]; [unfold zlen in Hin; lia|].
    destruct (Forall2_lookup_r _ _ _ _ _ Hroots Hroot) as (data & Hdata & Hplain).
    assert (zlen root = 32) as Hz by (by eapply (proj1 (Forall_lookup _ _) H32)).
    unfold manifest_step; rewrite bind_run, stored_mdu, opened_twice, opened_files, (Hm n data Hdata) by lia.
    destruct (shardFile_run data root (ex_tab (opened e)) Hr Hplain) as (wit & Hcall).
    cbv beta iota. rewrite bind_run; unfold on_tab; rewrite Hcall; cbn [fst snd]; rewrite Hz; cbn [Z.eqb Pos.eqb negb]. rewrite bind_run; unfold lift; rewrite Hbuf.
    assert (Z.of_nat n * 32 = zlen (concat (take n roots))) as ->.
    { rewrite (zlen_concat 32) by (by apply Forall_take). unfold zlen; rewrite length_take; unfold zlen in Hin; lia. }
    rewrite set_root_at by (done || (rewrite zlen_zeros; unfold zlen in *; lia)).
    eexists _, (opened e); split; [by destruct (opened e)|]. unfold taken; cbn [fst snd].
    assert (length (seen ++ [Z.of_nat n]) = S n) as -> by (rewrite length_app; cbn; lia).
    rewrite (take_S_r _ _ _ Hroot), imap_app, concat_app; cbn [concat imap].
    rewrite length_take, Nat.min_l by (unfold zlen in Hin; lia). rewrite Hrec, app_nil_r, Nat.add_0_r. split; [done|split; [done|] ].
    rewrite <- !app_assoc. do 2 f_equal. unfold zeros. rewrite drop_replicate, zlen_app. f_equal. unfold zlen in *; cbn [length]; lia.
  - split; [done|split; [done|] ]. cbn [length take concat app fst snd]. by rewrite Z.sub_0_r.
  - exists acc; split; [exact Hrun|]. rewrite length_seqZ in Hrec, Hbuf; rewrite Hrec, Hbuf.
    rewrite take_ge by (unfold zlen; lia). split; [done|]. rewrite zlen_seqZ by apply zlen_nonneg. by rewrite Z.sub_diag, app_nil_r.
Qed.

Lemma computeManifest_run (t : @Tab Ctx) manifest blob : ready ctx (worker t) -> manifest_commitment ctx roots = Ok (manifest, blob) ->
  call_computeManifest (concat roots) t = (Ok (manifest, blob), t).
Proof.
  intros Hr Hm; unfold call_computeManifest; rewrite bind_run.
  rewrite (call_run ctx _ t (RManifest manifest blob) (worker t) Hr); [by destruct t|].
  cbn [dispatch]; rewrite bind_run; unfold need_wasm; destruct Hr as [_ ->]. rewrite bind_run; unfold lift, compute_manifest.
  by rewrite (zlen_concat 32), Z.mul_comm, Z_mod_mult, (chunks_exact_concat 32), Hm by done.
Qed.

(** What the page works out, and the mismatch it reports if there is one. *)
Definition worked_info (cid : string) (l : SlabLayout) (manifest blob : bytes) : ManifestInfoData :=
  mkManifestInfo (or_else cid (bytesToHex manifest)) (bytesToHex blob) (totalMdus l) (witnessCount l) (userCount l)
    (imap (record_of (witnessCount l)) roots).
Definition worked_error (cid : string) (manifest : bytes) (old : option ManifestError) : option ManifestError :=
  if truthy cid && negb (eqb (to_lower (trim (bytesToHex manifest))) (to_lower (trim cid)))
  then Some (root_mismatch (bytesToHex manifest) cid) else old.

Lemma compute_manifest_run e cid mdu0 l manifest blob :
  ex_ready e = Some (Ok tt) -> ready ctx (worker (ex_tab e)) -> holds_mdus e -> mdus !! 0%nat = Some mdu0 ->
  local_root dealId e = (Ok (Some (units_of cid)), opened e) -> truthy dealId = true ->
  inferWitnessCountFromOpfs dealId (parseNilfsFilesFromMdu0 mdu0) (store (ex_tab (opened e))) = (Ok l, store (ex_tab (opened e))) ->
  totalMdus l = zlen roots -> manifest_commitment ctx roots = Ok (manifest, blob) ->
  compute_manifest_info cid dealId e = (Ok tt, set_manifest_view
    (let m := ex_manifest e in
     mkManifestView (Some (worked_out (worked_info cid l manifest blob))) (mv_loading m) (worked_error cid manifest (mv_error m)) (mv_merkle m) (mv_merkleError m))
    (opened e)).
Proof.
  intros Hready Hr Hm Hm0 Hroot Ht Hl Htotal Hman; unfold compute_manifest_info. rewrite bind_run; unfold local_slab.
  assert (is_empty dealId = false) as -> by (by destruct dealId). rewrite bind_run, Hroot; cbv beta iota.
  assert (same_root (units_of cid) cid = true) as -> by (by apply bool_decide_eq_true). rewrite andb_false_r.
  cbv beta iota delta [mret M_ret]. pose proof (Hm 0%nat mdu0 Hm0) as Hf0; change (Z.of_nat 0) with 0 in Hf0. rewrite bind_run, stored_mdu, opened_twice, opened_files, Hf0 by lia. cbv beta iota.
  rewrite bind_run; unfold stored at 1, on_tab at 1, on_store at 1. rewrite Hl.
  set (e1 := mkExplorer _ _ _ _ _ _ _ _ _). assert (e1 = opened e) as -> by reflexivity.
  cbv beta iota. rewrite bind_run; unfold ensureWasmReady at 1; cbn [ex_ready opened]; rewrite Hready.
  fold (opened e). rewrite bind_run, Htotal.
  destruct (manifest_loop_run e (witnessCount l) Hr Hm) as (acc & -> & Hrec & Hbuf). rewrite Hrec, Hbuf.
  rewrite bind_run; unfold on_tab at 1. rewrite (computeManifest_run _ manifest blob) by done. cbn [fst snd].
  unfold worked_info, worked_error. rewrite bind_run.
  rewrite Htotal; match goal with |- context [truthy cid && ?b] => by destruct (truthy cid && b) end.
Qed.
End Local.

(** ** The text of a root *)

Definition plain_char (c : ascii) : Prop := is_ws c = false /\ is_ws_unit (code c) = false /\ lower_char c = c /\ ascii_unit (code c).

Lemma hex_digit_plain_char d : 0 <= d < 16 -> plain_char (hex_digit d).
Proof.
  intros Hd. assert (forallb (fun d => negb (is_ws (hex_digit d)) && negb (is_ws_unit (code (hex_digit d))) &&
    bool_decide (lower_char (hex_digit d) = hex_digit d) && (0 <=? code (hex_digit d)) && (code (hex_digit d) <? 128)) (seqZ 0 16) = true) as Hall by by vm_compute.
  apply forallb_forall with (x := d) in Hall; [|apply list_elem_of_In, elem_of_seqZ; lia].
  repeat (apply andb_true_iff in Hall as [Hall ?]); repeat split; first [by apply negb_true_iff|by eapply bool_decide_eq_true|by apply Z.leb_le|by apply Z.ltb_lt].
Qed.
Lemma root_text_plain l : Forall is_byte l -> Forall plain_char (chars (bytesToHex l)).
Proof.
  intros Hl; unfold bytesToHex; rewrite chars_app, chars_str. apply Forall_app; split; [by repeat constructor|].
  induction Hl as [|b l Hb _ IH]; [constructor|]. unfold hex_chars in *; cbn [map concat byte_hex app]. unfold is_byte in Hb.
  constructor; [|constructor; [|exact IH] ]; apply hex_digit_plain_char; Z.div_mod_to_equations; lia.
Qed.

Lemma root_text_units l : Forall is_byte l ->
  Forall ascii_unit (units_of (bytesToHex l)) /\ trim_units (units_of (bytesToHex l)) = units_of (bytesToHex l) /\ units_of (bytesToHex l) <> [].
Proof.
  intros Hl; pose proof (root_text_plain l Hl) as Hp; unfold units_of.
  assert (Forall (fun u => is_ws_unit u = false /\ ascii_unit u) (map code (chars (bytesToHex l)))) as Hu.
  { apply Forall_map. eapply Forall_impl; [exact Hp|]. by intros c (? & ? & ? & ?). }
  split; [eapply Forall_impl; [exact Hu|]; by intros ? [? ?]|split; [|done] ].
  apply trim_units_id.
  - destruct Hu as [|? ? [] ]; done.
  - apply Forall_rev in Hu. destruct Hu as [|? ? [] ]; done.
Qed.
Lemma root_text_lower l : Forall is_byte l -> to_lower (trim (bytesToHex l)) = bytesToHex l.
Proof.
  intros Hl; pose proof (root_text_plain l Hl) as Hp.
  rewrite trim_id by (eapply Forall_impl; [exact Hp|]; by intros c (? & ? & ? & ?)). unfold to_lower.
  rewrite <- (str_chars (bytesToHex l)) at 2. f_equal.
  induction Hp as [|c k (_ & _ & Hc & _) _ IH]; cbn [map]; congruence.
Qed.
Lemma root_text_inj a b : Forall is_byte a -> Forall is_byte b -> bytesToHex a = bytesToHex b -> a = b.
Proof.
  intros Ha Hb Heq. pose proof (hexToBytes_bytesToHex_eq a Ha) as H1; pose proof (hexToBytes_bytesToHex_eq b Hb) as H2. congruence.
Qed.

(** ** The slab that was kept *)

Lemma saved_root_file stripe v n files :
  map fst (collectedMdus v) = seqZ 0 n -> n < 2 ^ 53 -> 0 <= sp_totalWitnessMdus (shardProgress v) -> Forall (fun mdu => 0 <= mdu.1) (mode2Shards v) ->
  insert_all (slab_files stripe v) files !! "manifest_root.txt" =
    Some (TextEncoder_encode (trim_units (units_of (default "" (currentManifestRoot v))))).
Proof.
  intros Hids Hn Hw Hs; unfold slab_files. rewrite insert_all_app, insert_all_other; [by cbn [insert_all fold_left fst snd]; rewrite lookup_insert_eq|].
  rewrite !map_app; intros Hin. repeat rewrite elem_of_app in Hin. destruct Hin as [Hin|[Hin|Hin] ].
  - destruct (currentManifestBlob v); [by apply list_elem_of_singleton in Hin|by apply elem_of_nil in Hin].
  - rewrite map_map in Hin; apply list_elem_of_In, in_map_iff in Hin as (mdu & Heq & Hin).
    apply (f_equal (starts_with "mdu_")) in Heq. cbn [fst] in Heq; unfold mdu_name in Heq; by rewrite starts_mdu in Heq.
  - unfold slab_shards in Hin; destruct stripe; [|by apply elem_of_nil in Hin].
    apply list_elem_of_In, in_map_iff in Hin as (nf & Heq & Hin). apply in_concat in Hin as (l & Hl & Hin).
    apply in_map_iff in Hl as (mdu & <- & _). apply list_elem_of_In, elem_of_lookup_imap in Hin as (slot & shard & -> & _).
    apply (f_equal (starts_with "mdu_")) in Heq. cbn [fst] in Heq; unfold shard_name in Heq; by rewrite starts_mdu in Heq.
Qed.

(** ** The leaves under a root *)

Section Leaves.
Context {Ctx : Type} `{Kzg Ctx} (ctx : Ctx) (s : StripeParams) (Hcore : core_total ctx (Some s)).

Lemma plain_leaves data root : plain_root ctx data root -> exists cs, zlen cs = 64 /\ merkle_root ctx cs = Ok root.
Proof.
  intros [w Hc]; unfold commit_mdu, mdu_to_kzg_commitments in Hc. destruct (negb _) in Hc; [done|].
  destruct (commit_each ctx _) as [cs|] eqn:Hcs; obind in Hc; [|done]. destruct (merkle_root ctx cs) as [r|] eqn:Hm; obind in Hc; [|done].
  injection Hc as _ <-. exists cs; split; [|done]. apply commit_each_ok in Hcs as [Hf2 _]. apply Forall2_length in Hf2.
  unfold zlen; rewrite <- Hf2, length_map, length_seqZ; reflexivity.
Qed.
Lemma stripe_leaves data : zlen data = MDU_SIZE ->
  exists cs root, zlen cs = per_mdu (Some s) /\ merkle_root ctx cs = Ok root /\ user_root ctx (Some s) data root.
Proof.
  intros Hd. destruct (expand_total ctx (Some s) Hcore data s eq_refl Hd) as (cs & shards & He & Hz & Hne & Hall).
  pose proof (zlen_nonneg cs) as Hn. destruct (set_all_concat (zeros (zlen cs * 48)) 0 cs Hall) as (out & Hset & Hout); [lia|rewrite zlen_zeros by lia; rewrite Z.mul_comm; apply Z.le_refl|].
  rewrite zlen_zeros in Hout by lia. destruct (some_root ctx (Some s) Hcore (chunks_exact 48 out)) as (root & Hroot & _); [by apply (chunks_nonempty 48 cs)|].
  exists (chunks_exact 48 out), root. split; [|split; [exact Hroot|] ].
  - unfold chunks_exact; rewrite zlen_map, Hout, Hz, Z.div_mul, zlen_seqZ by lia; done.
  - exists out, shards. unfold expand_stripe; rewrite He; obind; cbn [fst snd]; rewrite Hset; obind.
    unfold compute_mdu_root; rewrite Hout, Z_mod_mult, Hroot; reflexivity.
Qed.
Lemma striped_leaves data root : user_root ctx (Some s) data root -> exists cs, merkle_root ctx cs = Ok root.
Proof.
  intros (w & shards & Hr). unfold expand_stripe in Hr; destruct (expand_encoded ctx data _ _) as [parsed|]; obind in Hr; [|done].
  destruct (set_all _ _ _) as [flat|]; obind in Hr; [|done]. unfold compute_mdu_root in Hr; destruct (negb _) in Hr; [done|].
  destruct (merkle_root ctx (chunks_exact 48 flat)) as [r|] eqn:Hm; obind in Hr; [|done]. injection Hr as _ <- _. by exists (chunks_exact 48 flat).
Qed.
End Leaves.

Section Saved.
Context {Ctx : Type} `{Kzg Ctx} (ctx : Ctx) (opMs : Z -> Z) (dealId : string) (stripe : option StripeParams) (file : File).
Context (Hcore : core_total ctx stripe).
(** A manifest commitment is a list of bytes. *)
Context (Hbytes : forall roots m b, manifest_commitment ctx roots = Ok (m, b) -> Forall is_byte m).

Lemma plain_roots_unique mdus a b : Forall2 (plain_root ctx) mdus a -> Forall2 (plain_root ctx) mdus b -> a = b.
Proof.
  intros Ha; revert b; induction Ha as [|data r mdus a [w Hr] _ IH]; intros b Hb; inversion Hb as [|? ? ? ? [w' Hr'] Hb']; subst; [done|].
  f_equal; [congruence|by apply IH].
Qed.
Lemma plain_roots_exist mdus : Forall (fun data => zlen data = MDU_SIZE \/ exists r, plain_root ctx data r) mdus ->
  exists roots, Forall2 (plain_root ctx) mdus roots.
Proof.
  induction 1 as [|data mdus Hd _ (roots & IH)]; [exists []; constructor|].
  assert (exists r, plain_root ctx data r) as [r Hr].
  { destruct Hd as [Hd|Hd]; [|done]. destruct (commit_mdu_total ctx stripe Hcore data Hd) as (w & r & Hc & _); exists r; by exists w. }
  exists (r :: roots); by constructor.
Qed.

Context (t : @Tab Ctx) (fs : opfs) (cancelled : nat -> bool) (d : Disk).
Context (Hr : ready ctx (worker t)) (Hd : valid_deal dealId) (Hf : file_ok file) (Hst : stored_mdu0_ok dealId (store t)).
Context (Hl : load_existing dealId stripe (store t) = (Ok no_existing, fs)) (Hb : slab_mdus stripe file < 2 ^ 53).
Let v := view (processFile opMs dealId stripe file t).2.
Context (Hph : sp_phase (shardProgress v) = phase_done) (Hc : forall i, cancelled i = false) (Hbelow : mdus_below dealId (slab_mdus stripe file) d).
Let plan := make_plan stripe no_existing (size file).

(** Every MDU of the slab has a root of its own. *)
Lemma slab_plain_roots : exists roots, Forall2 (plain_root ctx) (map snd (collectedMdus v)) roots.
Proof.
  apply plain_roots_exist. pose proof (processFile_commits ctx opMs dealId stripe file t no_existing fs Hcore Hr Hd Hf Hst Hl ltac:(done) Hph) as Hcom.
  destruct Hcom as (mdu0 & rest & root0 & roots & manifest & blob & _ & Hroots & _). fold v plan in Hroots.
  destruct (done_saved opMs dealId stripe file t fs Hd Hf Hst Hl Hb Hph) as (Hids & Hn & HW & _ & _ & _ & _ & _ & Hus); fold v plan in Hids, HW, Hus.
  apply Forall_map, Forall_lookup. intros i [j data] Hi. destruct (Forall2_lookup_l _ _ _ _ _ Hroots Hi) as (root & _ & Hroot).
  unfold mdu_root in Hroot; cbn [fst snd] in *. destruct (Z.ltb_spec (witnessMduCount plan) j) as [Hlt|]; [left|right; by exists root].
  assert (seqZ 0 (slab_mdus stripe file) !! i = Some j) as Hj by (rewrite <- Hids; change (map fst) with (fmap (M:=list) (@fst Z bytes)); by rewrite list_lookup_fmap, Hi).
  apply lookup_seqZ in Hj as [Hj Hin]. unfold slab_mdus in Hin; fold plan in Hin.
  destruct (Hus (j - 1 - witnessMduCount plan) ltac:(lia)) as (mdu & Henc & Hmdu).
  apply list_elem_of_lookup in Hmdu as [k Hk].
  assert (seqZ 0 (slab_mdus stripe file) !! k = Some (1 + witnessMduCount plan + (j - 1 - witnessMduCount plan))) as Hkj
    by (rewrite <- Hids; change (map fst) with (fmap (M:=list) (@fst Z bytes)); by rewrite list_lookup_fmap, Hk).
  apply lookup_seqZ in Hkj as [Hkj _]. assert (k = i) as -> by lia. assert (mdu = data) as -> by congruence.
  destruct (encodeToMdu_sized (slab_chunk (file_bytes file) (j - 1 - witnessMduCount plan))) as (m & Hm & Hz). rewrite Henc in Hm; injection Hm as ->. exact Hz.
Qed.

Let cid := default "" (currentManifestRoot v).

(** Every MDU, and the root as text, are where the explorer looks for them. *)
Lemma saved_files d' : persist dealId stripe cancelled true v d = (Ok tt, d') ->
  (forall mdu, mdu ∈ collectedMdus v -> deal_files dealId (disk d') !! mdu_name mdu.1 = Some mdu.2) /\
  deal_files dealId (disk d') !! "manifest_root.txt" = Some (TextEncoder_encode (trim_units (units_of cid))).
Proof.
  intros Hp. destruct (done_saved opMs dealId stripe file t fs Hd Hf Hst Hl Hb Hph) as (Hids & Hn & _ & _ & Hroot & Htw & Hm2 & _); fold v in Hids, Hroot, Htw, Hm2.
  destruct (persist_run dealId Hd stripe cancelled v d (saved_writable v _ Hids ltac:(lia) Hroot Htw Hm2) Hc) as [logs' Hrun].
  apply (f_equal (fun o => disk o.2)) in Hrun; rewrite Hp in Hrun; cbn [snd disk] in Hrun; rewrite Hrun, deal_files_put_all, decide_True by done. split.
  - intros mdu Hin. apply (saved_lookup stripe v _ Hids); (done || lia).
  - by apply (saved_root_file stripe v _ _ Hids).
Qed.

(** The layout inferred from the kept files is the one the slab was made with. *)
Lemma saved_layout d' mdu0 : persist dealId stripe cancelled true v d = (Ok tt, d') -> (0, mdu0) ∈ collectedMdus v ->
  inferWitnessCountFromOpfs dealId (parseNilfsFilesFromMdu0 mdu0) (with_deal dealId (disk d')) =
    (Ok (mkSlab (witnessMduCount plan) (1 + witnessMduCount plan) (slab_mdus stripe file) (totalUserChunks plan) (size file)),
     with_deal dealId (disk d')).
Proof.
  intros Hp Hin. destruct (saved_files d' Hp) as [Hmdus _].
  destruct (saved_holds opMs dealId stripe file t fs cancelled d Hd Hf Hst Hl Hb Hph Hc) as (d2 & Hp2 & (m0 & Hm0 & Hparse) & Hslab).
  fold v in Hp2; rewrite Hp in Hp2; injection Hp2 as <-. specialize (Hmdus _ Hin); cbn [fst snd] in Hmdus; rewrite Hmdus in Hm0; injection Hm0 as <-.
  destruct (done_saved opMs dealId stripe file t fs Hd Hf Hst Hl Hb Hph) as (_ & Hn & _ & HU & _); fold plan in HU.
  destruct (Hslab (slab_mdus stripe file)) as [_ Hholds]; [lia|done|lia|]. specialize (Hholds eq_refl).
  apply deal_files_with_deal_slab in Hholds.
  assert (inferMaxEnd (parseNilfsFilesFromMdu0 mdu0) = zlen (file_bytes file)) as Hmax by (rewrite Hparse; by apply user_entry_max).
  rewrite (infer_layout_run dealId _ _ (witnessMduCount plan) (file_bytes file) Hd Hholds (proj1 (proj2 Hf)) Hmax).
  rewrite with_deal_twice; fold (size file); by rewrite <- HU.
Qed.

(** ** The explorer over the kept slab *)

Context {W : Type} `{Clock W, Router.Timers W, Http W, TraceStore W} (cfg : Config) (preference : RoutePreference).
Context (Hid : truthy dealId = true).

(** The page after the run: its store holds what was kept, its WASM is in place. *)
Definition shows_saved (d' : Disk) (e : @Explorer Ctx W) : Prop :=
  persist dealId stripe cancelled true v d = (Ok tt, d') /\ store (ex_tab e) = disk d' /\
  ex_ready e = Some (Ok tt) /\ ready ctx (worker (ex_tab e)).

(** What the explorer works out from the kept slab, given the roots of its MDUs. *)
Lemma saved_manifest d' e roots manifest blob :
  shows_saved d' e -> Forall2 (plain_root ctx) (map snd (collectedMdus v)) roots -> manifest_commitment ctx roots = Ok (manifest, blob) ->
  compute_manifest_info cid dealId e = (Ok tt, set_manifest_view
    (let m := ex_manifest e in
     mkManifestView
       (Some (worked_out (mkManifestInfo cid (bytesToHex blob) (slab_mdus stripe file) (witnessMduCount plan) (totalUserChunks plan)
          (imap (record_of (witnessMduCount plan)) roots))))
       (mv_loading m) (worked_error cid manifest (mv_error m)) (mv_merkle m) (mv_merkleError m))
    (opened dealId e)).
Proof.
  intros (Hp & Hstore & Hready & Hwr) Hroots Hman. destruct (saved_files d' Hp) as [Hmdus Hrootf].
  destruct (done_saved opMs dealId stripe file t fs Hd Hf Hst Hl Hb Hph) as (Hids & Hn & _); fold v in Hids.
  pose proof (processFile_commits ctx opMs dealId stripe file t no_existing fs Hcore Hr Hd Hf Hst Hl ltac:(done) Hph)
    as (mdu0 & rest & root0 & crs & m0 & b0 & Hcol & _ & Hm0 & Hcid & _). fold v in Hcol, Hcid.
  assert (cid = bytesToHex m0) as Ecid by (unfold cid; by rewrite Hcid).
  destruct (root_text_units m0 (Hbytes _ _ _ Hm0)) as (Ha & Htrim & Hne). rewrite <- Ecid in Ha, Htrim, Hne.
  assert (zlen roots = slab_mdus stripe file) as Hlen.
  { unfold zlen; rewrite <- (Forall2_length _ _ _ Hroots), length_map, <- (length_map fst), Hids, length_seqZ; lia. }
  rewrite (compute_manifest_run ctx dealId Hd (map snd (collectedMdus v)) roots Hroots) with
    (mdu0 := mdu0) (manifest := manifest) (blob := blob)
    (l := mkSlab (witnessMduCount plan) (1 + witnessMduCount plan) (slab_mdus stripe file) (totalUserChunks plan) (size file)); try done.
  - unfold worked_info, or_else. assert (truthy cid = true) as -> by (by rewrite Ecid, truthy_hex). done.
  - apply (Forall2_Forall_r _ _ _ _ Hroots), Forall_forall. intros data _ root Hroot; by eapply plain_root_32.
  - intros i data Hi. rewrite list_lookup_fmap in Hi. destruct (collectedMdus v !! i) as [ [j m] |] eqn:Hj; [|done]. injection Hi as <-.
    assert (seqZ 0 (slab_mdus stripe file) !! i = Some j) as Hij
      by (rewrite <- Hids; change (map fst) with (fmap (M:=list) (@fst Z bytes)); by rewrite list_lookup_fmap, Hj).
    apply lookup_seqZ in Hij as [-> _]. unfold local_files; rewrite Hstore. apply (Hmdus (0 + Z.of_nat i, m)). by eapply list_elem_of_lookup_2.
  - by rewrite Hcol.
  - rewrite Htrim in Hrootf. by apply stored_root; [|unfold local_files; rewrite Hstore|..].
  - cbn [opened ex_tab store]; rewrite Hstore. apply saved_layout; [done|]. rewrite Hcol; left.
Qed.

Context (owner primary : string).
(** Neither the gateway nor the provider answers the request for the manifest. *)
Definition unanswered (e : @Explorer Ctx W) : Prop :=
  exists err w, manifestInfo cfg preference (route_for cfg (ex_providers e) cid dealId owner primary) (ex_world e) = (Thrown err, w).

Lemma fetch_unanswered d' e roots manifest blob :
  shows_saved d' e -> unanswered e -> Forall2 (plain_root ctx) (map snd (collectedMdus v)) roots ->
  manifest_commitment ctx roots = Ok (manifest, blob) ->
  exists e', fetchManifestInfo cfg preference primary cid dealId owner e = (Ok tt, e') /\
    ex_manifest e' = mkManifestView
      (Some (worked_out (mkManifestInfo cid (bytesToHex blob) (slab_mdus stripe file) (witnessMduCount plan) (totalUserChunks plan)
         (imap (record_of (witnessMduCount plan)) roots))))
      false (worked_error cid manifest None) None None.
Proof.
  intros (Hp & Hstore & Hready & Hwr) (err & w & Herr) Hroots Hman. unfold fetchManifestInfo; rewrite bind_run; unfold update_manifest at 1, modify.
  unfold finally, try_catch at 1. rewrite bind_run; unfold route_to. rewrite bind_run; unfold on_net. cbn [set_manifest_view ex_world ex_providers].
  rewrite Herr; unfold try_catch. rewrite (saved_manifest d' _ roots manifest blob) by done. eexists; split; [reflexivity|]. done.
Qed.

(** In a mode 1 deal every MDU was committed to as it is stored. *)
Lemma stored_as_committed : stripe = None ->
  exists roots manifest blob, Forall2 (plain_root ctx) (map snd (collectedMdus v)) roots /\
    manifest_commitment ctx roots = Ok (manifest, blob) /\ cid = bytesToHex manifest /\ currentManifestBlob v = Some blob.
Proof.
  intros Hnone. pose proof (processFile_commits ctx opMs dealId stripe file t no_existing fs Hcore Hr Hd Hf Hst Hl ltac:(done) Hph)
    as (mdu0 & rest & root0 & crs & m0 & b0 & _ & Hroots & Hm0 & Hcid & Hblob & _); fold v in Hroots, Hcid, Hblob.
  exists (root0 :: crs), m0, b0. split; [|split; [exact Hm0|split; [|exact Hblob] ] ].
  - apply Forall2_fmap_l. eapply Forall2_impl; [exact Hroots|]. intros mdu root; unfold mdu_root, user_root; rewrite Hnone; by destruct (_ <? _).
  - unfold cid; by rewrite Hcid.
Qed.

(** C5: The explorer confirms a mode 1 commit.  With a working core ([core_total]), when nobody answers for a slab that was
    sharded, committed and kept, the explorer's own work on the kept files gives the
    committed manifest: no mismatch is reported, the roots shown are those of the kept
    MDUs one by one, the counts are the plan's, and the blob is the committed one. *)
Theorem local_manifest_confirms_commit d' e : stripe = None -> shows_saved d' e -> unanswered e ->
  exists e' roots blob, fetchManifestInfo cfg preference primary cid dealId owner e = (Ok tt, e') /\
    Forall2 (plain_root ctx) (map snd (collectedMdus v)) roots /\ currentManifestBlob v = Some blob /\
    ex_manifest e' = mkManifestView
      (Some (worked_out (mkManifestInfo cid (bytesToHex blob) (slab_mdus stripe file) (witnessMduCount plan) (totalUserChunks plan)
         (imap (record_of (witnessMduCount plan)) roots))))
      false None None None.
Proof.
  intros Hnone Hs Hu. destruct (stored_as_committed Hnone) as (roots & manifest & blob & Hroots & Hman & Hcid & Hblob).
  destruct (fetch_unanswered d' e roots manifest blob Hs Hu Hroots Hman) as (e' & Hrun & Hview).
  exists e', roots, blob. split; [exact Hrun|split; [exact Hroots|split; [exact Hblob|] ] ]. rewrite Hview. f_equal.
  unfold worked_error. rewrite Hcid, root_text_lower by (by eapply Hbytes). by rewrite eqb_refl, andb_false_r.
Qed.

(** The stripe of some user MDU has another root than the MDU as it is stored, and the
    commitments to the two lists of roots of this slab do not collide. *)
Definition stripes_distinguished : Prop :=
  (exists mdu a b, mdu ∈ collectedMdus v /\ witnessMduCount plan < mdu.1 /\
     user_root ctx stripe mdu.2 a /\ plain_root ctx mdu.2 b /\ a <> b) /\
  (forall a b m x y, Forall2 (mdu_root ctx stripe plan) (collectedMdus v) a -> Forall2 (plain_root ctx) (map snd (collectedMdus v)) b ->
     manifest_commitment ctx a = Ok (m, x) -> manifest_commitment ctx b = Ok (m, y) -> a = b).

Lemma user_root_unique data a b : user_root ctx stripe data a -> user_root ctx stripe data b -> a = b.
Proof.
  unfold user_root, plain_root; destruct stripe; [intros (? & ? & Ha) (? & ? & Hb')|intros [? Ha] [? Hb'] ]; congruence.
Qed.
Lemma roots_differ crs prs : stripes_distinguished -> Forall2 (mdu_root ctx stripe plan) (collectedMdus v) crs ->
  Forall2 (plain_root ctx) (map snd (collectedMdus v)) prs -> crs <> prs.
Proof.
  intros [ (mdu & a & b & Hin & Hlt & Ha & Hb' & Hne) _] Hc1 Hp1 ->. apply list_elem_of_lookup in Hin as [i Hi].
  destruct (Forall2_lookup_l _ _ _ _ _ Hc1 Hi) as (r1 & Hr1 & Hu1). unfold mdu_root in Hu1; rewrite (proj2 (Z.ltb_lt _ _) Hlt) in Hu1.
  destruct (Forall2_lookup_l _ _ _ i mdu.2 Hp1) as (r2 & Hr2 & [w2 Hp2]); [by rewrite list_lookup_fmap, Hi|].
  destruct Hb' as [w Hb']. apply Hne. rewrite (user_root_unique _ _ _ Ha Hu1). congruence.
Qed.

(** C37: The explorer contradicts a mode 2 commit, with a working core ([core_total]).  User MDUs of a mode 2 deal are committed
    to as stripes, but the explorer commits to every MDU it finds as it is stored
    ([shardFile], whatever the deal's redundancy): of the slab that was just committed
    and kept it notes that the manifest root does not match the chain.  The panel shows
    the roots it worked out, which are not the committed ones, under the chain's root. *)
Theorem local_manifest_rejects_stripe d' e : shows_saved d' e -> unanswered e -> stripes_distinguished ->
  exists e' computed info, fetchManifestInfo cfg preference primary cid dealId owner e = (Ok tt, e') /\
    mv_error (ex_manifest e') = Some (root_mismatch computed cid) /\ computed <> cid /\
    manifest_panel (ex_manifest e') = panel_details (worked_out info) /\ mi_manifest_root info = cid.
Proof.
  intros Hs Hu Hdist. destruct slab_plain_roots as [prs Hprs].
  destruct (manifest_total ctx stripe Hcore prs) as [ [m b] Hm].
  pose proof (processFile_commits ctx opMs dealId stripe file t no_existing fs Hcore Hr Hd Hf Hst Hl ltac:(done) Hph)
    as (mdu0 & rest & root0 & crs & m0 & b0 & _ & Hroots & Hm0 & Hcid & _); fold v plan in Hroots, Hcid.
  destruct (fetch_unanswered d' e prs m b Hs Hu Hprs Hm) as (e' & Hrun & Hview).
  assert (cid = bytesToHex m0) as Ecid by (unfold cid; by rewrite Hcid).
  assert (bytesToHex m <> cid) as Hne.
  { rewrite Ecid; intros Heq. apply root_text_inj in Heq as ->; [|by eapply Hbytes..].
    by eapply (roots_differ _ _ Hdist Hroots Hprs), (proj2 Hdist). }
  eexists e', (bytesToHex m), _. rewrite Hview; cbn [mv_error]. split; [exact Hrun|]. split; [|split; [exact Hne|split; reflexivity] ].
  unfold worked_error; rewrite root_text_lower by (by eapply Hbytes). rewrite Ecid in Hne |- *.
  rewrite root_text_lower by (by eapply Hbytes). by rewrite truthy_hex, eqb_false.
Qed.
End Saved.

(** ** Concrete runs *)

Section Witness.
#[local] Existing Instances demo_clock_inst demo_timers demo_http demo_trace_store.

Definition empty_page {Ctx} (t : @Tab Ctx) : @Explorer Ctx demo :=
  mkExplorer (mkDemo [] 0 None) t (Some (Ok tt)) (mkSlabView None source_none slab_unknown false)
    (mkManifestView None false None None None) (mkKzgView None false None) (mkFilesView None false [] None None) None ∅.

Lemma offline cid : exists err w, manifestInfo demo_cfg auto (route_for demo_cfg ∅ cid "7" "nil1owner" "") (mkDemo [] 0 None) = (Thrown err, w).
Proof. do 2 eexists. vm_compute. reflexivity. Qed.
Definition no_disk : Disk := mkDisk ∅ [].
Lemma no_disk_below k : mdus_below "7" k no_disk.
Proof. intros name _ [x Hx]; discriminate Hx. Qed.

#[local] Existing Instance demo_kzg.

Lemma demo_bytes (roots : list bytes) m b : manifest_commitment tt roots = Ok (m, b) -> Forall is_byte m.
Proof.
  intros Hm; apply (f_equal (fun o => match o with Ok p => p.1 | Thrown _ => [] end)) in Hm. cbn [manifest_commitment demo_kzg fst] in Hm.
  rewrite <- Hm; apply Forall_replicate; unfold is_byte; lia.
Qed.

Lemma local_manifest_confirms_commit_witness :
  let v := view (@processFile unit demo_kzg (fun _ => 5000) "7" None (demo_file [1; 2; 3]) demo_tab).2 in
  exists d' e' info, persist "7" None (fun _ => false) true v no_disk = (Ok tt, d') /\
    fetchManifestInfo demo_cfg auto "" (default "" (currentManifestRoot v)) "7" "nil1owner" (empty_page (mkTab demo_worker (disk d') demo_view)) = (Ok tt, e') /\
    ex_manifest e' = mkManifestView (Some (worked_out info)) false None None None /\ mi_total_mdus info = 3.
Proof.
  assert (stored_mdu0_ok "7" (store demo_tab)) as Hst by (intros data Hd; discriminate Hd).
  assert (file_ok (demo_file [1; 2; 3])) as Hf by apply demo_file_ok.
  destruct (saved_holds (fun _ => 5000) "7" None (demo_file [1; 2; 3]) demo_tab ∅ (fun _ => false) no_disk)
    as (d' & Hrun & _); [reflexivity|exact Hf|exact Hst|reflexivity|reflexivity|apply demo_done|done|].
  destruct (local_manifest_confirms_commit tt (fun _ => 5000) "7" None (demo_file [1; 2; 3]) demo_core) with
    (t := demo_tab) (fs := (∅ : opfs)) (cancelled := fun _ : nat => false) (d := no_disk) (cfg := demo_cfg) (preference := auto)
    (H0 := demo_clock_inst) (H1 := demo_timers) (H2 := demo_http) (H3 := demo_trace_store) (owner := "nil1owner") (primary := "") (d' := d') (e := empty_page (mkTab demo_worker (disk d') demo_view))
    as (e' & roots & blob & Hfetch & _ & _ & Hview);
    [exact demo_bytes|by split|reflexivity|exact Hf|exact Hst|reflexivity|reflexivity|
     apply demo_done|done|apply no_disk_below|reflexivity|reflexivity|exact (conj Hrun (conj eq_refl (conj eq_refl (conj eq_refl eq_refl))))|apply offline|].
  cbv zeta; eexists d', e', _. split; [exact Hrun|split; [exact Hfetch|split; [exact Hview|reflexivity] ] ].
Defined.
End Witness.

(** A core whose Merkle root counts the leaves and whose manifest lists the roots. *)
Section Striped.
#[local] Existing Instances demo_clock_inst demo_timers demo_http demo_trace_store.
#[local] Program Instance count_kzg : Kzg unit := {|
  load_setup _ := Ok tt; blob_to_commitment _ _ := Ok (zeros 48); merkle_root _ cs := Ok (zlen cs mod 256 :: zeros 31);
  manifest_commitment _ roots := Ok (map (fun b => b mod 256) (concat roots), []);
  expand_encoded _ _ _ _ := Ok (replicate 96 (zeros 48), []) |}.
Next Obligation. intros _ l c [= <-]; reflexivity. Qed.

Definition two_thirds : StripeParams := mkStripe 8 4.
Lemma count_core : core_total tt (Some two_thirds).
Proof.
  constructor; [done|done|by intros cs root [= <-]|intros; eexists; reflexivity|].
  intros data s [= <-] _; do 2 eexists; split; [reflexivity|split; [reflexivity|split; [done|] ] ]. apply Forall_replicate; reflexivity.
Qed.
Lemma count_bytes (roots : list bytes) m b : manifest_commitment tt roots = Ok (m, b) -> Forall is_byte m.
Proof.
  intros [= <- <-]; apply Forall_map, Forall_forall; intros b _. unfold is_byte. pose proof (Z.mod_pos_bound b 256); lia.
Qed.

Definition striped_run : Sharder := view (processFile (fun _ => 5000) "7" (Some two_thirds) (demo_file [1; 2; 3]) demo_tab).2.
Definition striped_fs : opfs := Eval vm_compute in (load_existing "7" (Some two_thirds) (store demo_tab)).2.
Lemma striped_done : sp_phase (shardProgress striped_run) = phase_done.
Proof.
  unfold striped_run.
  apply (processFile_completes tt (fun _ => 5000) "7" (Some two_thirds) (demo_file [1; 2; 3]) demo_tab striped_fs (Some 96));
    [apply count_core|by split|by split|reflexivity|apply demo_file_ok|reflexivity|]. vm_compute; congruence.
Qed.

(** Every root this core gives is a list of 32 bytes. *)
Lemma count_root data r : plain_root tt data r \/ user_root tt (Some two_thirds) data r -> exists n, r = n mod 256 :: zeros 31.
Proof.
  intros Hr. assert (exists cs, merkle_root tt cs = Ok r) as (cs & [= <-]); [|by exists (zlen cs)].
  destruct Hr as [Hr|Hr]; [|by eapply striped_leaves]. apply plain_leaves in Hr as (cs & _ & Hr); by exists cs.
Qed.

Lemma count_manifest (a b : list bytes) m x y :
  Forall (fun r => exists n, r = n mod 256 :: zeros 31) a -> Forall (fun r => exists n, r = n mod 256 :: zeros 31) b ->
  manifest_commitment tt a = Ok (m, x) -> manifest_commitment tt b = Ok (m, y) -> a = b.
Proof.
  assert (forall l, Forall (fun r => exists n, r = n mod 256 :: zeros 31) l ->
    Forall (fun r => zlen r = 32) l /\ map (fun z => z mod 256) (concat l) = concat l) as Hplain.
  { induction 1 as [|r l [n ->] _ [IH1 IH2] ]; [done|]. split; [by constructor|].
    cbn [concat app map]. rewrite map_app, IH2. by rewrite Z.mod_mod. }
  intros [Ha1 Ha2]%Hplain [Hb1 Hb2]%Hplain [= Hm _] [= Hm' _]. rewrite Ha2 in Hm; rewrite Hb2 in Hm'.
  rewrite <- (chunks_exact_concat 32 a), <- (chunks_exact_concat 32 b) by done. congruence.
Qed.

Lemma striped_loaded : load_existing "7" (Some two_thirds) (store demo_tab) = (Ok no_existing, striped_fs).
Proof. reflexivity. Qed.
Lemma striped_fits : slab_mdus (Some two_thirds) (demo_file [1; 2; 3]) < 2 ^ 53.
Proof. reflexivity. Qed.

Lemma striped_distinguished : stripes_distinguished tt (fun _ => 5000) "7" (Some two_thirds) (demo_file [1; 2; 3]) demo_tab.
Proof.
  split.
  - destruct (done_saved (fun _ => 5000) "7" (Some two_thirds) (demo_file [1; 2; 3]) demo_tab striped_fs ltac:(by vm_compute) demo_file_ok
      ltac:(intros data Hd; discriminate Hd) striped_loaded striped_fits striped_done) as (_ & _ & _ & _ & _ & _ & _ & _ & Hus).
    destruct (Hus 0) as (mdu & Henc & Hin); [vm_compute; split; [discriminate|done]|].
    destruct (encodeToMdu_sized (slab_chunk (file_bytes (demo_file [1; 2; 3])) 0)) as (m & Hm & Hz). rewrite Henc in Hm; injection Hm as <-.
    destruct (stripe_leaves tt two_thirds count_core mdu Hz) as (cs & a & Hcs & Ha & Hu).
    destruct (commit_mdu_total tt (Some two_thirds) count_core mdu Hz) as (w & b & Hb & _).
    destruct (plain_leaves tt mdu b (ex_intro _ w Hb)) as (ps & Hps & Hb').
    eexists (_, mdu), a, b; split; [exact Hin|]. cbn [fst snd]. split; [lia|split; [exact Hu|split; [by exists w|] ] ].
    cbn [merkle_root count_kzg] in Ha, Hb'. rewrite Hcs in Ha; rewrite Hps in Hb'. intros ->. rewrite <- Ha in Hb'. discriminate Hb'.
  - intros a b m x y Ha Hb. apply count_manifest.
    + apply (Forall2_Forall_r _ _ _ _ Ha), Forall_forall. intros mdu _ r Hr. apply (count_root mdu.2). unfold mdu_root in Hr.
      destruct (_ <? _); [by right|by left].
    + apply (Forall2_Forall_r _ _ _ _ Hb), Forall_forall. intros data _ r Hr. apply (count_root data); by left.
Qed.

Lemma local_manifest_rejects_stripe_witness :
  exists d' e' computed, persist "7" (Some two_thirds) (fun _ => false) true striped_run no_disk = (Ok tt, d') /\
    fetchManifestInfo demo_cfg auto "" (default "" (currentManifestRoot striped_run)) "7" "nil1owner"
      (empty_page (mkTab demo_worker (disk d') demo_view)) = (Ok tt, e') /\
    mv_error (ex_manifest e') = Some (root_mismatch computed (default "" (currentManifestRoot striped_run))).
Proof.
  assert (stored_mdu0_ok "7" (store demo_tab)) as Hst by (intros data Hd; discriminate Hd).
  destruct (saved_holds (fun _ => 5000) "7" (Some two_thirds) (demo_file [1; 2; 3]) demo_tab striped_fs (fun _ => false) no_disk)
    as (d' & Hrun & _); [reflexivity|apply demo_file_ok|exact Hst|exact striped_loaded|exact striped_fits|exact striped_done|done|].
  destruct (local_manifest_rejects_stripe tt (fun _ => 5000) "7" (Some two_thirds) (demo_file [1; 2; 3]) count_core) with
    (t := demo_tab) (fs := striped_fs) (cancelled := fun _ : nat => false) (d := no_disk) (cfg := demo_cfg) (preference := auto)
    (H0 := demo_clock_inst) (H1 := demo_timers) (H2 := demo_http) (H3 := demo_trace_store) (owner := "nil1owner") (primary := "")
    (d' := d') (e := empty_page (mkTab demo_worker (disk d') demo_view)) as (e' & computed & info & Hfetch & Herr & _);
    [exact count_bytes|by split|reflexivity|exact demo_file_ok|exact Hst|exact striped_loaded|exact striped_fits|
     exact striped_done|done|apply no_disk_below|reflexivity|exact (conj Hrun (conj eq_refl (conj eq_refl (conj eq_refl eq_refl))))|
     apply offline|exact striped_distinguished|].
  eexists d', e', computed. split; [exact Hrun|split; [exact Hfetch|exact Herr] ].
Defined.
End Striped.
