(* ===== verification/ExplorerView.v ===== *)
(** * What the deal explorer shows (components/DealDetail.tsx)

    Every request of the explorer settles and turns its loading flag off, whatever the
    network and the store do.  The layout it shows comes from the gateway, from the
    kept slab of the same manifest root, or is the one that was shown before; the file
    table of a deal is read from the kept MDU #0 without that comparison.  A WASM load
    that failed is never tried again. *)
From S2P Require Import Prelude JsString JsNum TransportTypes Effects Bytes Text Router NilfsCodec Layout Nilfs Opfs NilfsOpfsFetch.
From S2P Require Import Hex Multiaddr Http Lcd GatewayClient Config TransportHook NilWasm ShardPool GatewayWorker Sharding ShardLive SlabRoots Upload Persist Explorer ExplorerSlab.
#[local] Open Scope Z_scope.

Create HintDb explorer.

Section View.
Context {Ctx : Type} `{Kzg Ctx} {W : Type} `{Clock W, Router.Timers W, Http W, TraceStore W}.
Context (cfg : Config) (preference : RoutePreference).
Implicit Types e : @Explorer Ctx W.

(** ** Computations that settle *)

Definition settles (m : M Explorer unit) : Prop := forall e, exists e', m e = (Ok tt, e').

Lemma settles_ret : settles (mret tt).
Proof. intros e; by exists e. Qed.
Lemma settles_modify f : settles (modify f).
Proof. intros e; by eexists. Qed.
Lemma settles_bind m k : settles m -> settles k -> settles (m ;; k).
Proof. intros Hm Hk e. destruct (Hm e) as [e1 He1]; destruct (Hk e1) as [e2 He2]. exists e2. by rewrite bind_run, He1. Qed.
Lemma settles_catch m h : (forall err, settles (h err)) -> settles (try_catch m h).
Proof.
  intros Hh e; unfold try_catch; destruct (m e) as [ [ [] |err] e1] eqn:E; [by exists e1|]. by destruct (Hh err e1) as [e2 ->]; exists e2.
Qed.
Lemma settles_finally m f : settles m -> settles (finally m f).
Proof. intros Hm e; destruct (Hm e) as [e1 He1]; exists (f e1); unfold finally; by rewrite He1. Qed.
Ltac settle := repeat first [apply settles_bind | apply settles_finally | apply settles_catch; intros ? | apply settles_modify | apply settles_ret].

Lemma fetchSlab_settles primary cid dealId owner : settles (fetchSlab cfg preference primary cid dealId owner).
Proof. unfold fetchSlab, update_slab; settle. Qed.
Lemma fetchLocalFiles_settles dealId : settles (fetchLocalFiles dealId).
Proof. unfold fetchLocalFiles, update_files, setFiles, update_files; settle. Qed.
Lemma fetchFiles_settles primary cid dealId owner : settles (fetchFiles cfg preference primary cid dealId owner).
Proof. unfold fetchFiles, update_files; destruct (_ || _); settle. Qed.
Lemma fetchManifestInfo_settles primary cid dealId owner : settles (fetchManifestInfo cfg preference primary cid dealId owner).
Proof. unfold fetchManifestInfo, update_manifest; settle. Qed.
Lemma fetchMduKzg_settles primary cid i dealId owner : settles (fetchMduKzg cfg preference primary cid i dealId owner).
Proof. unfold fetchMduKzg, update_kzg; settle. Qed.
Lemma fetchHeat_settles dealId : settles (fetchHeat cfg dealId).
Proof. unfold fetchHeat; settle. Qed.

Lemma finally_post (P : Explorer -> Prop) m f : settles m -> (forall e, P (f e)) -> forall e, exists e', finally m f e = (Ok tt, e') /\ P e'.
Proof. intros Hm HP e; destruct (Hm e) as [e1 He1]; exists (f e1); unfold finally; by rewrite He1. Qed.

(** ** The layout that is shown *)

(** Consecutive segments from an index on. *)
Fixpoint tiles (from : Z) (l : list SlabSegment) : Z :=
  match l with
  | [] => from
  | sg :: rest => if (sg_start_index sg =? from) && (0 <? sg_count sg) && (sg_size_bytes sg =? sg_count sg * mduSizeBytes)
                  then tiles (from + sg_count sg) rest else -1
  end.
Lemma tiles_cons n rest c from k : sg_start_index n = from -> sg_count n = c -> sg_size_bytes n = c * mduSizeBytes -> 0 < c ->
  tiles (from + c) rest = k -> tiles from (n :: rest) = k.
Proof.
  intros Hs Hc Hz Hpos <-; cbn [tiles]; rewrite Hs, Hz, Hc, !Z.eqb_refl. by destruct (Z.ltb_spec 0 c); [|lia].
Qed.
Lemma layout_tiles w u : 0 <= w -> 0 <= u -> tiles 0 (layout_segments w u) = 1 + w + u.
Proof.
  intros Hw Hu; unfold layout_segments. cbn [app]. apply (tiles_cons _ _ 1); try reflexivity.
  destruct (Z.ltb_spec 0 w); cbn [app]; [apply (tiles_cons _ _ w); try (reflexivity || lia)|].
  all: destruct (Z.ltb_spec 0 u); [apply (tiles_cons _ _ u); cbn [sg_start_index tiles]; try (reflexivity || lia)|cbn [tiles]; lia].
Qed.

Lemma inferred_counts d files fs l fs' : inferWitnessCountFromOpfs d files fs = (Ok l, fs') ->
  0 <= witnessCount l /\ 0 <= userCount l /\ totalMdus l = 1 + witnessCount l + userCount l.
Proof.
  unfold inferWitnessCountFromOpfs; intros Hi. apply bind_ok in Hi as (names & fs1 & _ & Hi). cbv zeta in Hi.
  destruct (_ =? 0) in Hi; [done|]. set (u := if 0 <? inferMaxEnd files then _ else 0) in Hi.
  assert (0 <= u) as Hu.
  { unfold u; destruct (Z.ltb_spec 0 (inferMaxEnd files)); [|done]. pose proof (ceil_div_pos (inferMaxEnd files) RAW_MDU_CAPACITY ltac:(done) ltac:(lia)); lia. }
  destruct (Z.ltb_spec (zlen (List.filter is_mdu_file names) - 1 - u) 0); [done|]. apply mret_ok in Hi as [<- _].
  cbn [witnessCount userCount totalMdus]; lia.
Qed.

(** The layout of the kept slab of a manifest root: the kept root is the given one, and
    the counts are inferred from the kept MDU #0 and the MDUs beside it. *)
Definition kept_layout (cid dealId : string) (fs : opfs) (l : SlabLayoutData) (fs' : opfs) : Prop :=
  exists m fs1 mdu0 fs2 counts, dealId <> "" /\
    readManifestRoot dealId fs = (Ok (Some m), fs1) /\ trim_units m = trim_units (units_of cid) /\
    readMdu dealId 0 fs1 = (Ok (Some mdu0), fs2) /\
    inferWitnessCountFromOpfs dealId (parseNilfsFilesFromMdu0 mdu0) fs2 = (Ok counts, fs') /\
    l = local_layout cid (parseNilfsFilesFromMdu0 mdu0) counts.

(** Where a layout that is shown comes from, by what the routed request answered. *)
Inductive shown_from (primary cid dealId owner : string) e : SlabView -> Prop :=
  | from_gateway result w' :
      slab cfg preference (route_for cfg (ex_providers e) cid dealId owner primary) (ex_world e) = (Ok result, w') ->
      shown_from primary cid dealId owner e (mkSlabView (Some (sent (to_data result))) source_gateway slab_present false)
  | from_store err w' l fs' :
      slab cfg preference (route_for cfg (ex_providers e) cid dealId owner primary) (ex_world e) = (Thrown err, w') ->
      kept_layout cid dealId (store (ex_tab e)) l fs' ->
      tiles 0 (sl_segments l) = sl_total_mdus l -> sl_total_mdus l = 1 + sl_witness_mdus l + sl_user_mdus l ->
      shown_from primary cid dealId owner e
        (mkSlabView (Some (worked_out l)) source_opfs (if slab_is_missing (err_message err) then slab_missing else slab_error) false)
  | left_over err w' :
      slab cfg preference (route_for cfg (ex_providers e) cid dealId owner primary) (ex_world e) = (Thrown err, w') ->
      (forall l fs', ~ kept_layout cid dealId (store (ex_tab e)) l fs') ->
      shown_from primary cid dealId owner e
        (mkSlabView (sv_slab (ex_slab e)) source_none (if slab_is_missing (err_message err) then slab_missing else slab_error) false).

Lemma on_net_views {A} (m : M W A) e r e' : on_net m e = (r, e') -> ex_slab e' = ex_slab e.
Proof. unfold on_net; destruct (m (ex_world e)); by intros [= _ <-]. Qed.
Lemma on_tab_views {A} (m : M Tab A) e r e' : on_tab m e = (r, e') -> ex_slab e' = ex_slab e.
Proof. unfold on_tab; destruct (m (ex_tab e)); by intros [= _ <-]. Qed.

Lemma stored_views {A} (m : M opfs A) e r fs' : m (store (ex_tab e)) = (r, fs') ->
  exists e', stored m e = (r, e') /\ ex_slab e' = ex_slab e /\ store (ex_tab e') = fs'.
Proof. intros Hm; unfold stored, on_tab, on_store; rewrite Hm. by eexists. Qed.

(** Working the layout out shows the kept slab's, where there is one of this root, and
    leaves the view otherwise. *)
Lemma infer_slab_shown cid dealId e : exists r e', infer_slab cid dealId e = (r, e') /\
  ((ex_slab e' = ex_slab e /\ forall l fs', ~ kept_layout cid dealId (store (ex_tab e)) l fs') \/
   exists l fs', kept_layout cid dealId (store (ex_tab e)) l fs' /\ tiles 0 (sl_segments l) = sl_total_mdus l /\
    sl_total_mdus l = 1 + sl_witness_mdus l + sl_user_mdus l /\
    ex_slab e' = mkSlabView (Some (worked_out l)) source_opfs (sv_status (ex_slab e)) (sv_loading (ex_slab e))).
Proof.
  unfold infer_slab. destruct (is_empty dealId) eqn:Hd.
  { do 2 eexists; split; [reflexivity|left; split; [done|] ]. intros l fs' (? & ? & ? & ? & ? & Hne & _); by destruct dealId. }
  destruct (readManifestRoot dealId (store (ex_tab e))) as [om fs1] eqn:E1.
  destruct (stored_views (try_catch (readManifestRoot dealId) (fun _ => mret None)) e
    (match om with Ok m => Ok m | Thrown _ => Ok None end) fs1) as (e1 & Hr1 & Hv1 & Hs1).
  { unfold try_catch; rewrite E1; by destruct om. }
  unfold local_root; rewrite bind_run, Hr1. destruct om as [ [m|]|err]; cbv iota beta.
  2-3: (do 2 eexists; split; [reflexivity|left; split; [done|] ]; intros l fs' (? & ? & ? & ? & ? & _ & Hm & _); congruence).
  unfold same_root; destruct (bool_decide_reflect (trim_units m = trim_units (units_of cid))) as [Hroot|Hroot]; cbn [negb].
  2: { do 2 eexists; split; [reflexivity|left; split; [done|] ]; intros l fs' (m' & ? & ? & ? & ? & _ & Hm & Hm' & _); congruence. }
  destruct (readMdu dealId 0 fs1) as [ob fs2] eqn:E2. rewrite <- Hs1 in E2.
  destruct (stored_views _ _ _ _ E2) as (e2 & Hr2 & Hv2 & Hs2). rewrite bind_run, Hr2; rewrite Hs1 in E2.
  destruct ob as [ [mdu0|]|err].
  2-3: (do 2 eexists; split; [reflexivity|left; split; [congruence|] ]; intros l fs' (? & ? & ? & ? & ? & _ & Hm & _ & Hb & _); congruence).
  destruct (inferWitnessCountFromOpfs dealId (parseNilfsFilesFromMdu0 mdu0) fs2) as [oc fs3] eqn:E3. rewrite <- Hs2 in E3.
  destruct (stored_views _ _ _ _ E3) as (e3 & Hr3 & Hv3 & Hs3). rewrite bind_run, Hr3; rewrite Hs2 in E3.
  destruct oc as [counts|err].
  2: { do 2 eexists; split; [reflexivity|left; split; [congruence|] ]; intros l fs' (? & ? & ? & ? & ? & _ & Hm & _ & Hb & Hc & _); congruence. }
  pose proof (inferred_counts _ _ _ _ _ E3) as (Hw & Hu & Ht).
  do 2 eexists; split; [reflexivity|right]. exists (local_layout cid (parseNilfsFilesFromMdu0 mdu0) counts), fs3; split.
  { exists m, fs1, mdu0, fs2, counts; repeat (split; [first [done|by destruct dealId]|]); done. }
  split; [cbn [local_layout sl_segments sl_total_mdus]; rewrite Ht; by apply layout_tiles|].
  split; [cbn [local_layout sl_total_mdus sl_witness_mdus sl_user_mdus]; lia|]. cbn; congruence.
Qed.

(** C20: The layout shown has a source.  A request for the layout always settles, with its
    flag off.  If the routed request is answered, the answer is shown and the gateway is
    said to have the slab.  If it fails and the kept manifest root of the deal is this
    one, the layout shown is that of the kept slab: worked out from its MDU #0 and the
    MDUs beside it, in segments of whole MDUs that cover it without a gap.  Otherwise
    the view says there is no source, and shows what it showed before. *)
Theorem fetchSlab_source primary cid dealId owner e :
  exists e', fetchSlab cfg preference primary cid dealId owner e = (Ok tt, e') /\ shown_from primary cid dealId owner e (ex_slab e').
Proof.
  unfold fetchSlab. rewrite bind_run; unfold update_slab at 1, modify. unfold finally, try_catch at 1.
  rewrite bind_run; unfold update_slab at 1, modify. rewrite bind_run; unfold route_to. rewrite bind_run.
  unfold on_net at 1; cbn [set_slab_view ex_world ex_providers].
  destruct (slab cfg preference _ (ex_world e)) as [ [result|err] w] eqn:E.
  { eexists; split; [reflexivity|]. cbn [update_slab modify set_slab_view ex_slab]. by econstructor. }
  rewrite bind_run; unfold update_slab, modify. unfold try_catch; cbv beta iota.
  match goal with |- context [infer_slab cid dealId ?x] => destruct (infer_slab_shown cid dealId x) as (o & e2 & Ei & Hi) end.
  rewrite Ei; cbn [set_slab_view ex_slab ex_tab sv_slab sv_source sv_status sv_loading] in Hi.
  eexists; split; [by destruct o as [ [] |] |].
  destruct Hi as [ [Hi Hno]|(l & fs' & Hk & Ht & Hn & Hi)]; destruct o as [ [] |];
    cbn [snd mret M_ret set_slab_view ex_slab]; rewrite Hi; cbn [sv_slab sv_source sv_status sv_loading];
    first [by eapply left_over|by eapply from_store].
Qed.

(** ** A WASM load that failed *)

(** The promise is never replaced. *)
Definition keeps_ready {A} (m : M Explorer A) : Prop := forall o e, ex_ready e = Some o -> ex_ready (m e).2 = Some o.

Lemma keep_ret {A} (a : A) : keeps_ready (mret a).
Proof. by intros o e. Qed.
Lemma keep_lift {A} (r : outcome A) : keeps_ready (lift r).
Proof. by intros o e. Qed.
Lemma keep_error {A} msg : keeps_ready (js_error msg : M Explorer A).
Proof. by intros o e. Qed.
Lemma keep_throw {A} (err : jserr) : keeps_ready (mthrow err : M Explorer A).
Proof. by intros o e. Qed.
Lemma keep_modify f : (forall e, ex_ready (f e) = ex_ready e) -> keeps_ready (modify f).
Proof. intros Hf o e He; cbn [modify snd]; by rewrite Hf. Qed.
Lemma keep_net {A} (m : M W A) : keeps_ready (on_net m).
Proof. intros o e He; unfold on_net; by destruct (m (ex_world e)). Qed.
Lemma keep_tab {A} (m : M Tab A) : keeps_ready (on_tab m).
Proof. intros o e He; unfold on_tab; by destruct (m (ex_tab e)). Qed.
Lemma keep_bind {A B} (m : M Explorer A) (k : A -> M Explorer B) : keeps_ready m -> (forall a, keeps_ready (k a)) -> keeps_ready (x ← m; k x).
Proof. intros Hm Hk o e He; rewrite bind_run; specialize (Hm o e He). destruct (m e) as [ [a|err] e1]; [by apply Hk|done]. Qed.
Lemma keep_catch {A} (m : M Explorer A) h : keeps_ready m -> (forall err, keeps_ready (h err)) -> keeps_ready (try_catch m h).
Proof. intros Hm Hh o e He; unfold try_catch; specialize (Hm o e He). destruct (m e) as [ [a|err] e1]; [done|by apply Hh]. Qed.
Lemma keep_finally {A} (m : M Explorer A) f : keeps_ready m -> (forall e, ex_ready (f e) = ex_ready e) -> keeps_ready (finally m f).
Proof. intros Hm Hf o e He; unfold finally; specialize (Hm o e He). destruct (m e) as [r e1]; cbn [snd] in *; by rewrite Hf. Qed.
Lemma keep_fold {A B} (f : A -> B -> M Explorer A) : (forall a b, keeps_ready (f a b)) -> forall l a, keeps_ready (fold_m f a l).
Proof. intros Hf l; induction l as [|b l IH]; intros a; cbn [fold_m]; [apply keep_ret|]. apply keep_bind; [apply Hf|exact IH]. Qed.
Lemma keep_wasm : keeps_ready ensureWasmReady.
Proof. intros o e He; unfold ensureWasmReady; by rewrite He. Qed.
Lemma keep_route cid dealId owner primary : keeps_ready (route_to cfg cid dealId owner primary).
Proof. by intros o e. Qed.
#[local] Hint Resolve keep_ret keep_lift keep_error keep_throw keep_net keep_tab keep_wasm keep_route : explorer.

Ltac keep := repeat first
  [ solve [eauto with explorer]
  | apply keep_bind; [|intros ?] | apply keep_catch; [|intros ?] | apply keep_finally; [|done] | apply keep_fold; intros ? ?
  | apply keep_modify; done
  | match goal with |- keeps_ready (match ?x with _ => _ end) => destruct x end
  | match goal with |- keeps_ready (let '(_, _) := ?x in _) => destruct x end ].

(** What a user can have the explorer do. *)
Inductive Op :=
  | op_show (deal : LcdDeal) (nilAddress : string)
  | op_mdu (primary cid : string) (i : Z) (dealId owner : string)
  | op_manifest (primary cid dealId owner : string)
  | op_merkle (blake2s : bytes -> bytes)
  | op_providers (l : list string) (cancelled : bool)
  | op_heat (submitted : bool) (canceled : nat -> bool) (dealId : string).
Definition perform (o : Op) : M Explorer unit :=
  match o with
  | op_show deal nilAddress => show_deal cfg preference deal nilAddress
  | op_mdu primary cid i dealId owner => fetchMduKzg cfg preference primary cid i dealId owner
  | op_manifest primary cid dealId owner => fetchManifestInfo cfg preference primary cid dealId owner
  | op_merkle blake2s => build_merkle blake2s
  | op_providers l cancelled => loadProviders cfg l cancelled
  | op_heat submitted canceled dealId => heat_effect cfg submitted canceled dealId
  end.

Lemma keep_manifest cid dealId : keeps_ready (compute_manifest_info cid dealId).
Proof. unfold compute_manifest_info, local_slab, local_root, stored, manifest_step, update_manifest; keep. Qed.
Lemma keep_kzg cid i dealId : keeps_ready (compute_mdu_kzg cid i dealId).
Proof. unfold compute_mdu_kzg, local_slab, local_root, stored; keep. Qed.
Lemma keep_infer cid dealId : keeps_ready (infer_slab cid dealId).
Proof. unfold infer_slab, local_root, stored, update_slab; keep. Qed.
Lemma keep_heat dealId : keeps_ready (fetchHeat cfg dealId).
Proof. unfold fetchHeat; keep. Qed.
#[local] Hint Resolve keep_manifest keep_kzg keep_infer keep_heat : explorer.
Lemma keep_slab primary cid dealId owner : keeps_ready (fetchSlab cfg preference primary cid dealId owner).
Proof. unfold fetchSlab, update_slab; keep. Qed.
Lemma keep_files primary cid dealId owner : keeps_ready (fetchFiles cfg preference primary cid dealId owner).
Proof. unfold fetchFiles, fetchLocalFiles, local_root, stored, setFiles, update_files; keep. Qed.
Lemma keep_info primary cid dealId owner : keeps_ready (fetchManifestInfo cfg preference primary cid dealId owner).
Proof. unfold fetchManifestInfo, update_manifest; keep. Qed.
#[local] Hint Resolve keep_slab keep_files keep_info : explorer.
Lemma keep_perform o : keeps_ready (perform o).
Proof.
  destruct o as [deal a|primary cid i dealId owner|primary cid dealId owner|f|l c|b c dealId]; cbn [perform].
  - unfold show_deal, empty_deal, update_files; keep.
  - unfold fetchMduKzg, update_kzg; keep.
  - keep.
  - apply keep_modify; done.
  - unfold loadProviders; keep.
  - unfold heat_effect; destruct b; [|keep]. generalize 8%nat; intros fuel; induction fuel as [|fuel IH]; cbn [follow_heat]; keep.
Qed.

Definition acts e e' : Prop := exists o, (perform o e).2 = e'.
Lemma ready_kept o e e' : rtc acts e e' -> ex_ready e = Some o -> ex_ready e' = Some o.
Proof. induction 1 as [|e e1 e' [op <-] _ IH]; [done|]. intros He; by apply IH, keep_perform. Qed.

Lemma kept_ok {A} (m : M Explorer A) o e a e1 : keeps_ready m -> ex_ready e = Some o -> m e = (Ok a, e1) -> ex_ready e1 = Some o.
Proof. intros Hm He Hrun; specialize (Hm o e He); by rewrite Hrun in Hm. Qed.
Lemma keep_local cid dealId : keeps_ready (local_slab cid dealId).
Proof. unfold local_slab, local_root, stored; keep. Qed.
Lemma unready err e e' : ex_ready e = Some (Thrown err) -> ensureWasmReady e <> (Ok tt, e').
Proof. unfold ensureWasmReady; by intros ->. Qed.

Lemma unready_manifest cid dealId err e e' : ex_ready e = Some (Thrown err) -> compute_manifest_info cid dealId e <> (Ok tt, e').
Proof.
  intros He Hrun; unfold compute_manifest_info in Hrun. apply bind_ok in Hrun as ([] & e1 & Hl & Hrun).
  apply (kept_ok _ _ _ _ _ (keep_local cid dealId) He) in Hl. apply bind_ok in Hrun as (mdu0 & e2 & Hm & Hrun).
  apply (kept_ok _ _ _ _ _ (keep_tab _) Hl) in Hm. destruct mdu0 as [mdu0|]; [|done].
  apply bind_ok in Hrun as (l & e3 & Hi & Hrun). apply (kept_ok _ _ _ _ _ (keep_tab _) Hm) in Hi.
  apply bind_ok in Hrun as ([] & e4 & Hw & _). by apply (unready err) in Hw.
Qed.
Lemma unready_kzg cid i dealId err e e' : ex_ready e = Some (Thrown err) -> compute_mdu_kzg cid i dealId e <> (Ok tt, e').
Proof.
  intros He Hrun; unfold compute_mdu_kzg in Hrun. apply bind_ok in Hrun as ([] & e1 & Hl & Hrun).
  apply (kept_ok _ _ _ _ _ (keep_local cid dealId) He) in Hl. apply bind_ok in Hrun as (mdu & e2 & Hm & Hrun).
  apply (kept_ok _ _ _ _ _ (keep_tab _) Hl) in Hm. destruct mdu as [mdu|]; [|done].
  apply bind_ok in Hrun as ([] & e4 & Hw & _). by apply (unready err) in Hw.
Qed.

(** A failed load is final.  Once loading the trusted setup has failed, the promise
    that failed is kept: whatever the user does with the explorer afterwards, waiting
    for the WASM fails with the same error and without a new request, and neither the
    manifest nor the commitments of an MDU are ever worked out from the kept slab. *)
Theorem failed_load_is_final e err e1 e2 cid i dealId e3 :
  ensureWasmReady e = (Thrown err, e1) -> rtc acts e1 e2 ->
  ensureWasmReady e2 = (Thrown err, e2) /\
  compute_manifest_info cid dealId e2 <> (Ok tt, e3) /\ compute_mdu_kzg cid i dealId e2 <> (Ok tt, e3).
Proof.
  intros Hw Hacts. assert (ex_ready e1 = Some (Thrown err)) as He1.
  { unfold ensureWasmReady in Hw; destruct (ex_ready e) as [o|] eqn:E; [congruence|]. destruct (load_wasm e) as [o e']; by injection Hw as -> <-. }
  pose proof (ready_kept _ _ _ Hacts He1) as He2. split; [unfold ensureWasmReady; by rewrite He2|].
  split; [by eapply unready_manifest|by eapply unready_kzg].
Qed.

(** ** A mismatch is not shown *)

(** A mismatch that was found is covered by the details that were worked out with it,
    or there is no layout under which the panel would be shown. *)
Definition covered e : Prop := forall c x, mv_error (ex_manifest e) = Some (root_mismatch c x) ->
  is_Some (mv_info (ex_manifest e)) \/ sv_slab (ex_slab e) = None.

Lemma worked_out_covered cid dealId e r e' : compute_manifest_info cid dealId e = (r, e') -> r = Ok tt -> is_Some (mv_info (ex_manifest e')).
Proof.
  intros Hrun ->; unfold compute_manifest_info in Hrun. apply bind_ok in Hrun as (? & ? & _ & Hrun).
  apply bind_ok in Hrun as ([mdu0|] & ? & _ & Hrun); [|done]. do 4 apply bind_ok in Hrun as (? & ? & _ & Hrun).
  cbv zeta in Hrun. apply bind_ok in Hrun as (? & ? & _ & Hrun). injection Hrun as <-. by eexists.
Qed.
Lemma info_covered primary cid dealId owner e e' : fetchManifestInfo cfg preference primary cid dealId owner e = (Ok tt, e') ->
  mv_loading (ex_manifest e') = false /\ forall c x, mv_error (ex_manifest e') = Some (root_mismatch c x) -> is_Some (mv_info (ex_manifest e')).
Proof.
  unfold fetchManifestInfo. rewrite bind_run; unfold update_manifest at 1, modify. unfold finally, try_catch at 1. rewrite bind_run; unfold route_to.
  rewrite bind_run. destruct (on_net _ _) as [ [result|err] e1] eqn:E1.
  { intros [= <-]; split; [done|]. by eexists. }
  unfold try_catch. destruct (compute_manifest_info cid dealId e1) as [ [ [] |err2] e2] eqn:E2; intros [= <-]; (split; [done|]); cbn [set_manifest_view ex_manifest mv_error mv_info].
  - intros c x _. by eapply worked_out_covered.
  - done.
Qed.

(** The other operations leave both views, up to what [covered] reads. *)
Definition same_shown e e' : Prop :=
  mv_error (ex_manifest e') = mv_error (ex_manifest e) /\ mv_info (ex_manifest e') = mv_info (ex_manifest e) /\ sv_slab (ex_slab e') = sv_slab (ex_slab e).
Definition same_views {A} (m : M Explorer A) : Prop := forall e, same_shown e (m e).2.
Lemma covered_same e e' : covered e -> same_shown e e' -> covered e'.
Proof. unfold covered; intros Hc (-> & -> & ->); exact Hc. Qed.

Lemma views_ret {A} (a : A) : same_views (mret a).
Proof. by intros e. Qed.
Lemma views_lift {A} (r : outcome A) : same_views (lift r).
Proof. by intros e. Qed.
Lemma views_error {A} msg : same_views (js_error msg : M Explorer A).
Proof. by intros e. Qed.
Lemma views_throw {A} (err : jserr) : same_views (mthrow err : M Explorer A).
Proof. by intros e. Qed.
Lemma views_modify f : (forall e, same_shown e (f e)) -> same_views (modify f).
Proof. by intros Hf e. Qed.
Lemma views_net {A} (m : M W A) : same_views (on_net m).
Proof. intros e; unfold on_net; by destruct (m (ex_world e)). Qed.
Lemma views_tab {A} (m : M Tab A) : same_views (on_tab m).
Proof. intros e; unfold on_tab; by destruct (m (ex_tab e)). Qed.
Lemma shown_trans e1 e2 e3 : same_shown e1 e2 -> same_shown e2 e3 -> same_shown e1 e3.
Proof. unfold same_shown; intuition congruence. Qed.
Lemma views_bind {A B} (m : M Explorer A) (k : A -> M Explorer B) : same_views m -> (forall a, same_views (k a)) -> same_views (x ← m; k x).
Proof. intros Hm Hk e; rewrite bind_run; specialize (Hm e). destruct (m e) as [ [a|err] e1]; [|done]. eapply shown_trans; [exact Hm|apply Hk]. Qed.
Lemma views_catch {A} (m : M Explorer A) h : same_views m -> (forall err, same_views (h err)) -> same_views (try_catch m h).
Proof. intros Hm Hh e; unfold try_catch; specialize (Hm e). destruct (m e) as [ [a|err] e1]; [done|]. eapply shown_trans; [exact Hm|apply Hh]. Qed.
Lemma views_finally {A} (m : M Explorer A) f : same_views m -> (forall e, same_shown e (f e)) -> same_views (finally m f).
Proof. intros Hm Hf e; unfold finally; specialize (Hm e). destruct (m e) as [r e1]; cbn [snd] in *. eapply shown_trans; [exact Hm|apply Hf]. Qed.
Lemma views_load : same_views load_wasm.
Proof.
  unfold load_wasm. apply views_bind; [apply views_net|intros res]. destruct (negb _); [apply views_error|].
  apply views_bind; [apply views_lift|intros setup]. apply views_catch; [|intros ?; apply views_ret].
  apply views_bind; [apply views_tab|intros ?; apply views_ret].
Qed.
Lemma views_wasm : same_views ensureWasmReady.
Proof. intros e; unfold ensureWasmReady. destruct (ex_ready e); [done|]. pose proof (views_load e) as Hl. by destruct (load_wasm e). Qed.
#[local] Hint Resolve views_ret views_lift views_error views_throw views_net views_tab views_wasm : explorer.
Ltac views := repeat first
  [ solve [eauto with explorer]
  | apply views_bind; [|intros ?] | apply views_catch; [|intros ?] | apply views_finally; [|done] | apply views_modify; done
  | match goal with |- same_views (match ?x with _ => _ end) => destruct x end
  | match goal with |- same_views (let '(_, _) := ?x in _) => destruct x end ].

Lemma views_heat dealId : same_views (fetchHeat cfg dealId).
Proof. unfold fetchHeat; views. Qed.
#[local] Hint Resolve views_heat : explorer.

Lemma views_mdu primary cid i dealId owner : same_views (fetchMduKzg cfg preference primary cid i dealId owner).
Proof. unfold fetchMduKzg, update_kzg, compute_mdu_kzg, local_slab, local_root, stored, route_to; views. all: try by intros ?. Qed.
Lemma views_providers l cancelled : same_views (loadProviders cfg l cancelled).
Proof. unfold loadProviders; views. Qed.
Lemma views_follow submitted canceled dealId : same_views (heat_effect cfg submitted canceled dealId).
Proof. unfold heat_effect; destruct submitted; [|views]. generalize 8%nat; intros fuel; induction fuel as [|fuel IH]; cbn [follow_heat]; views. Qed.

Lemma covered_perform o e : covered e -> covered (perform o e).2.
Proof.
  intros Hc; destruct o as [deal a|primary cid i dealId owner|primary cid dealId owner|f|l c|b c dealId]; cbn [perform].
  - unfold show_deal; cbv zeta. rewrite bind_run. destruct (truthy (d_cid deal)).
    + rewrite !bind_run. destruct (fetchSlab_settles (default "" (head (d_providers deal))) (d_cid deal) (d_id deal) (or_else a (d_owner deal)) e) as [e1 ->].
      rewrite bind_run. destruct (fetchFiles_settles (default "" (head (d_providers deal))) (d_cid deal) (d_id deal) (or_else a (d_owner deal)) e1) as [e2 ->].
      destruct (fetchManifestInfo_settles (default "" (head (d_providers deal))) (d_cid deal) (d_id deal) (or_else a (d_owner deal)) e2) as [e3 H3'].
      rewrite H3'. apply info_covered in H3' as [_ H3']. rewrite bind_run; unfold update_files, modify.
      eapply covered_same; [|apply views_heat]. intros c x Hcx; left; by eapply H3'.
    + unfold empty_deal, modify. rewrite bind_run; unfold update_files, modify. eapply covered_same; [|apply views_heat]. by right.
  - eapply covered_same; [exact Hc|apply views_mdu].
  - destruct (fetchManifestInfo_settles primary cid dealId owner e) as [e1 He1]; rewrite He1. apply info_covered in He1 as [_ He1].
    intros k x Hx; left; by eapply He1.
  - eapply covered_same; [exact Hc|]. unfold build_merkle, update_manifest, modify; cbn [snd]. unfold same_shown; cbn [set_manifest_view ex_manifest ex_slab].
    destruct (mv_info (ex_manifest e)) eqn:E; [|done]. by destruct (buildBlake2sMerkleLayers f _).
  - eapply covered_same; [exact Hc|apply views_providers].
  - eapply covered_same; [exact Hc|apply views_follow].
Qed.

(** A mismatch is never shown.  The explorer notes a mismatch of the manifest only
    together with the details it worked out, and the panel prefers the details: in no
    state that the user can bring about does the manifest tab show the mismatch. *)
Theorem mismatch_never_shown e e' computed expected :
  covered e -> rtc acts e e' -> manifest_tab e' <> Some (panel_message (Some (root_mismatch computed expected))).
Proof.
  intros Hc Hacts. assert (covered e') as Hc'.
  { induction Hacts as [|e e1 e' [op <-] _ IH]; [done|]. by apply IH, covered_perform. }
  unfold manifest_tab, manifest_panel. destruct (sv_loading _); [done|]. destruct (sv_slab (ex_slab e')) eqn:Es; [|done].
  destruct (mv_loading _); [done|]. destruct (mv_info (ex_manifest e')) eqn:Ei; [done|]. intros [= Hx].
  destruct (Hc' _ _ Hx) as [ [? Hi]|Hs]; congruence.
Qed.

(** ** A kept slab of another manifest *)

Context (dealId : string) (Hd : valid_deal dealId).

(** Nobody answers: neither the gateway nor the provider. *)
Definition offline (cid owner primary : string) (providers : gmap string ProviderInfo) : Prop :=
  let r := route_for cfg providers cid dealId owner primary in forall w,
    (exists err w', slab cfg preference r w = (Thrown err, w')) /\
    (exists err w', listFiles cfg preference r w = (Thrown err, w')) /\
    (exists err w', manifestInfo cfg preference r w = (Thrown err, w')).

Context (cid owner primary : string) (root : units) (mdu0 : bytes).
Context (Hcid : truthy cid = true) (Hid : truthy dealId = true) (Howner : truthy owner = true).
Context (Hascii : Forall ascii_unit root) (Htrim : trim_units root = root) (Hne : root <> []) (Hother : root <> trim_units (units_of cid)).

(** The deal's files are there, under another manifest root. *)
Definition stale e : Prop :=
  local_files dealId e !! "manifest_root.txt" = Some (TextEncoder_encode root) /\ local_files dealId e !! mdu_name 0 = Some mdu0 /\
  offline cid owner primary (ex_providers e).
(** The same tab, with the deal's directory there. *)
Definition same_tab e e' : Prop := ex_tab e' = ex_tab (opened dealId e) /\ ex_providers e' = ex_providers e.

Lemma nonempty s : truthy s = true -> is_empty s = false.
Proof. by destruct s. Qed.
Lemma stale_next e e' : stale e -> same_tab e e' -> stale e'.
Proof.
  intros (Hr & Hm & Ho) [Ht Hp]. assert (local_files dealId e' = local_files dealId e) as Hl.
  { rewrite <- (opened_files dealId e). unfold local_files; by rewrite Ht. }
  unfold stale; by rewrite Hl, Hp.
Qed.
Lemma other_root : same_root root cid = false.
Proof. unfold same_root; rewrite Htrim; by apply bool_decide_false. Qed.

Lemma stale_slab e : stale e -> exists e' st, fetchSlab cfg preference primary cid dealId owner e = (Ok tt, e') /\ same_tab e e' /\
  ex_slab e' = mkSlabView (sv_slab (ex_slab e)) source_none st false.
Proof.
  intros (Hr & Hm & Ho). unfold fetchSlab. rewrite bind_run; unfold update_slab at 1, modify. unfold finally, try_catch at 1.
  rewrite bind_run; unfold update_slab at 1, modify. rewrite bind_run; unfold route_to. rewrite bind_run; unfold on_net.
  cbn [set_slab_view ex_world ex_providers]. destruct (Ho (ex_world e)) as ((err & w & ->) & _).
  rewrite bind_run; unfold update_slab at 1, modify. unfold try_catch, infer_slab. rewrite (nonempty dealId Hid), bind_run.
  rewrite (stored_root dealId Hd _ root) by done. rewrite other_root; cbn [negb].
  do 2 eexists; split; [reflexivity|split; [by split|] ]. reflexivity.
Qed.
Lemma stale_files e : stale e -> exists e', fetchFiles cfg preference primary cid dealId owner e = (Ok tt, e') /\ same_tab e e' /\
  ex_slab e' = ex_slab e /\ fv_files (ex_files e') = Some (table_parsed (parseNilfsFilesFromMdu0 mdu0)).
Proof.
  intros (Hr & Hm & Ho). unfold fetchFiles. rewrite !nonempty by done; cbn [orb]. rewrite bind_run; unfold update_files at 1, modify.
  unfold finally at 1, try_catch at 1. rewrite bind_run; unfold route_to. rewrite bind_run; unfold on_net. cbn [set_files_view ex_world ex_providers].
  destruct (Ho (ex_world e)) as (_ & (err & w & ->) & _). unfold fetchLocalFiles. rewrite bind_run; unfold update_files at 1, modify.
  unfold finally, try_catch. rewrite bind_run, (stored_mdu dealId Hd) by lia.
  unfold local_files in Hm |- *; cbn [set_files_view ex_tab]; rewrite Hm.
  eexists; split; [reflexivity|split; [by split|split; reflexivity] ].
Qed.
Lemma stale_manifest e : stale e -> exists e' msg, fetchManifestInfo cfg preference primary cid dealId owner e = (Ok tt, e') /\
  ex_slab e' = ex_slab e /\ ex_files e' = ex_files e /\ ex_manifest e' = mkManifestView None false (Some (error_text msg)) None None.
Proof.
  intros (Hr & Hm & Ho). unfold fetchManifestInfo. rewrite bind_run; unfold update_manifest at 1, modify. unfold finally, try_catch at 1.
  rewrite bind_run; unfold route_to. rewrite bind_run; unfold on_net. cbn [set_manifest_view ex_world ex_providers].
  destruct (Ho (ex_world e)) as (_ & _ & (err & w & ->)). unfold try_catch, compute_manifest_info, local_slab.
  rewrite (nonempty dealId Hid), !bind_run, (stored_root dealId Hd _ root) by done. rewrite other_root, Hcid; cbn [andb negb].
  do 2 eexists; split; [reflexivity|split; [reflexivity|split; reflexivity] ].
Qed.
Lemma heat_views id e : exists e', fetchHeat cfg id e = (Ok tt, e') /\ ex_slab e' = ex_slab e /\ ex_files e' = ex_files e /\ ex_manifest e' = ex_manifest e.
Proof.
  unfold fetchHeat, try_catch. rewrite bind_run; unfold on_net. destruct (fetch _ _ _) as [ [res|err] w]; [|by eexists].
  destruct (rs_ok res); [|by eexists]. rewrite bind_run; unfold lift. destruct (rs_json res) as [j|err]; [|by eexists].
  destruct j; try by eexists. all: destruct (get_field _ "heat") as [h|]; [destruct (json_truthy h)|]; by eexists.
Qed.

(** Files of a slab that is not the deal's.  When nobody answers and the kept slab has
    another manifest root than the chain, rendering the deal shows no layout of the
    slab and an error for its manifest, because both compare the roots; but the file
    table shown is the one of that other slab. *)
Theorem stale_file_table_shown deal nilAddress e :
  d_cid deal = cid -> d_id deal = dealId -> or_else nilAddress (d_owner deal) = owner -> default "" (head (d_providers deal)) = primary ->
  stale e ->
  exists e' msg, show_deal cfg preference deal nilAddress e = (Ok tt, e') /\
    sv_source (ex_slab e') = source_none /\ sv_slab (ex_slab e') = sv_slab (ex_slab e) /\
    mv_info (ex_manifest e') = None /\ mv_error (ex_manifest e') = Some (error_text msg) /\
    fv_files (ex_files e') = Some (table_parsed (parseNilfsFilesFromMdu0 mdu0)).
Proof.
  intros Hdc Hdi Hdo Hdp Hs. unfold show_deal; cbv zeta. rewrite Hdc, Hdi, Hdo, Hdp, Hcid.
  destruct (stale_slab e Hs) as (e1 & st & Hrun1 & Ht1 & Hv1). pose proof (stale_next e e1 Hs Ht1) as Hs1.
  destruct (stale_files e1 Hs1) as (e2 & Hrun2 & Ht2 & Hv2 & Hf2). pose proof (stale_next e1 e2 Hs1 Ht2) as Hs2.
  destruct (stale_manifest e2 Hs2) as (e3 & msg & Hrun3 & Hv3 & Hf3 & Hm3).
  rewrite !bind_run, Hrun1, !bind_run, Hrun2, Hrun3, bind_run. unfold update_files at 1, modify.
  destruct (heat_views dealId (set_files_view (file_error None (ex_files e3)) e3)) as (e4 & -> & Hv4 & Hf4 & Hm4).
  exists e4, msg. rewrite Hv4, Hf4, Hm4; cbn [set_files_view ex_slab ex_files ex_manifest file_error fv_files]. rewrite Hv3, Hv2, Hv1, Hm3, Hf3.
  done.
Qed.
End View.

(** ** Concrete runs *)

#[local] Existing Instances demo_clock_inst demo_timers demo_trace_store demo_kzg.
(** A network that never answers. *)
#[local] Instance dead_http : Http demo := {|
  fetch _ _ := fun d => (Thrown (JsError "TypeError" "Failed to fetch"), d); timer_fired _ := false |}.

Lemma dead_offline w : let r := route_for demo_cfg ∅ "0xaa" "7" "nil1owner" "" in
  (exists err w', slab demo_cfg auto r w = (Thrown err, w')) /\
  (exists err w', listFiles demo_cfg auto r w = (Thrown err, w')) /\
  (exists err w', manifestInfo demo_cfg auto r w = (Thrown err, w')).
Proof. destruct w as [s c t]; repeat split; do 2 eexists; vm_compute; reflexivity. Qed.

(** The directory of deal 7 keeps a slab with root [0xbb]. *)
Definition other_root_text : units := units_of "0xbb".
Definition other_slab : opfs := {["deal-7" := {["manifest_root.txt" := TextEncoder_encode other_root_text; "mdu_0.bin" := [] ]} ]}.
Definition other_deal : LcdDeal := mkDeal "7" "0xaa" "1" "nil1owner" "0" "0" "0" "" "" "" [].
Definition other_page : @Explorer unit demo :=
  mkExplorer (mkDemo [] 0 None) (mkTab demo_worker other_slab demo_view) None (mkSlabView None source_none slab_unknown false)
    (mkManifestView None false None None None) (mkKzgView None false None) (mkFilesView None false [] None None) None ∅.

Lemma stale_file_table_shown_witness :
  exists e', show_deal demo_cfg auto other_deal "" other_page = (Ok tt, e') /\
    sv_source (ex_slab e') = source_none /\ mv_info (ex_manifest e') = None /\
    fv_files (ex_files e') = Some (table_parsed (parseNilfsFilesFromMdu0 [])).
Proof.
  destruct (stale_file_table_shown demo_cfg auto "7" ltac:(reflexivity) "0xaa" "nil1owner" "" other_root_text []
    ltac:(reflexivity) ltac:(reflexivity) ltac:(reflexivity) ltac:(repeat constructor; by vm_compute) ltac:(reflexivity) ltac:(discriminate)
    ltac:(vm_compute; discriminate) other_deal "" other_page) as (e' & msg & Hrun & Hs & _ & Hm & _ & Hf); [reflexivity..| |].
  - split; [reflexivity|split; [reflexivity|exact dead_offline] ].
  - exists e'; split; [exact Hrun|split; [exact Hs|split; [exact Hm|exact Hf] ] ].
Defined.

(** The trusted setup cannot be loaded; then the manifest of deal 7 is asked for. *)
Lemma failed_load_is_final_witness :
  let e1 := (ensureWasmReady other_page).2 in
  (ensureWasmReady (perform demo_cfg auto (op_manifest "" "0xaa" "7" "nil1owner") e1).2).1 = Thrown (JsError "TypeError" "Failed to fetch").
Proof.
  intros e1. set (o := op_manifest "" "0xaa" "7" "nil1owner").
  destruct (failed_load_is_final demo_cfg auto other_page (JsError "TypeError" "Failed to fetch") e1 (perform demo_cfg auto o e1).2 "0xaa" 0 "7" e1)
    as (Hw & _); [reflexivity|by apply rtc_once; exists o|]. by rewrite Hw.
Defined.

Lemma mismatch_never_shown_witness :
  manifest_tab (perform demo_cfg auto (op_show other_deal "") other_page).2 <> Some (panel_message (Some (root_mismatch "0xbb" "0xaa"))).
Proof.
  apply (mismatch_never_shown demo_cfg auto other_page _ "0xbb" "0xaa"); [intros c x Hx; discriminate Hx|].
  apply rtc_once; by exists (op_show other_deal "").
Defined.
