(* ===== verification/Progress.v ===== *)
(** * The progress meter of the sharder (components/FileSharder.tsx)

    While a file is sharded a timer ticks four times a second.  Each tick measures the
    speed over a window of three seconds and lets the remaining time count down, unless
    the estimate has moved by a quarter of a second since it was last shown.  The times
    the component keeps beside [ShardProgressState] are in [Timing]; what the effects
    keep between ticks is in [Meter].  What is shown is computed in the render, and the
    effects run after it: [shardingUi] reads what the effects of the render before left.

    Times are rational milliseconds, and arithmetic on them is exact; the code computes
    with doubles.  Work is counted in tenths, as in [Sharding]. *)
From S2P Require Import Prelude JsString Sharding.
From Stdlib Require Import QArith Qminmax Qabs Lqa Sorted.
#[local] Open Scope Q_scope.

(** ** State *)

Record Timing := mkTiming {
  tm_avgWorkMs : option Q; tm_startTsMs : option Q; tm_currentOpStartedAtMs : option Q; tm_lastOpMs : option Q
}.
(** A sample is a time and the bytes done by then. *)
Record Meter := mkMeter {
  me_speed : Q; me_samples : list (Q * Q); me_eta : option Q; me_lastTick : option Q; me_lastRaw : option Q
}.
Definition meter0 : Meter := mkMeter 0 [] None None None.

(** [x ? a : b] on a number or [null] *)
Definition q_truthy (x : option Q) : bool := match x with Some q => negb (Qeq_bool q 0) | None => false end.
Definition q_ltb (a b : Q) : bool := negb (Qle_bool b a).

(** ** The effects *)

(** The effect on [processing], the start and the blobs done: a new run starts afresh. *)
Definition reset_effect (processing : bool) (p : ShardProgressState) (tm : Timing) (m : Meter) : Meter :=
  if negb processing then meter0
  else match tm_startTsMs tm with
       | None => m
       | Some _ => if (sp_blobsDone p =? 0)%Z then meter0 else m
       end.

Definition work (z : Z) : Q := inject_Z z / 10.
Definition SPEED_WINDOW_MS : Q := 3000.
Definition clamp01 (x : Q) : Q := Qmax 0 (Qmin 1 x).
Definition bytes_done (p : ShardProgressState) : Q :=
  inject_Z (sp_fileBytesTotal p) *
  (if (0 <? sp_workTotal p)%Z then clamp01 (work (sp_workDone p) / work (sp_workTotal p)) else 0).
(** [while (samples.length > 2 && now - samples[0].tMs > SPEED_WINDOW_MS) samples.shift()] *)
Fixpoint trim_samples (now : Q) (samples : list (Q * Q)) : list (Q * Q) :=
  match samples with
  | s :: ((_ :: _ :: _) as rest) => if q_ltb SPEED_WINDOW_MS (now - s.1) then trim_samples now rest else samples
  | _ => samples
  end.
Definition speed_of (now bytesDone : Q) (samples : list (Q * Q)) (speed : Q) : Q :=
  match samples with
  | oldest :: _ :: _ =>
      let dtMs := now - oldest.1 in
      let db := bytesDone - oldest.2 in
      if q_ltb 0 dtMs && q_ltb 0 db then (db / (1024 * 1024)) / (dtMs / 1000) else speed
  | _ => speed
  end.

Definition elapsed_ms (now : Q) (tm : Timing) : Q :=
  if q_truthy (tm_startTsMs tm) then Qmax 0 (now - default 0 (tm_startTsMs tm)) else 0.
(** [shardProgress.avgWorkMs ?? (workDone > 0 && startTsMs ? elapsedMs / workDone : null)];
    the average is the time per unit of work when the last report came. *)
Definition avg_work_ms (now : Q) (p : ShardProgressState) (tm : Timing) : option Q :=
  match tm_avgWorkMs tm with
  | Some a => Some a
  | None => if (0 <? sp_workDone p)%Z && q_truthy (tm_startTsMs tm) then Some (elapsed_ms now tm / work (sp_workDone p)) else None
  end.
Definition remaining_work (p : ShardProgressState) : Q := Qmax 0 (work (sp_workTotal p) - work (sp_workDone p)).
Definition eta_raw (now : Q) (p : ShardProgressState) (tm : Timing) : option Q :=
  let avg := avg_work_ms now p tm in
  if q_truthy avg then Some (default 0 avg * remaining_work p) else None.

(** The countdown, and when it is set anew. *)
Definition count_down (now : Q) (m : Meter) : option Q :=
  let dtEta := match me_lastTick m with None => 0 | Some t => Qmax 0 (now - t) end in
  match me_eta m with
  | Some eta => if q_ltb 0 dtEta then Some (Qmax 0 (eta - dtEta)) else Some eta
  | None => None
  end.
Definition next_eta (raw : option Q) (eta lastRaw : option Q) : option Q * option Q :=
  match raw with
  | None => (None, None)
  | Some r =>
      match eta, lastRaw with
      | Some _, Some l => if Qle_bool 250 (Qabs (r - l)) then (Some r, Some r) else (eta, lastRaw)
      | _, _ => (Some r, Some r)
      end
  end.
Definition tick_effect (processing : bool) (now : Q) (p : ShardProgressState) (tm : Timing) (m : Meter) : Meter :=
  if negb processing then m
  else
    let bytesDone := bytes_done p in
    let samples := trim_samples now (me_samples m ++ [(now, bytesDone)]) in
    let '(eta, lastRaw) := next_eta (eta_raw now p tm) (count_down now m) (me_lastRaw m) in
    mkMeter (speed_of now bytesDone samples (me_speed m)) samples eta (Some now) lastRaw.

(** ** What is shown *)

Inductive PhaseDetails :=
| detail_user (mdu total blobs perMdu : Z)
| detail_witness (mdu total blobs perMdu : Z)
| detail_mdu0 (blobs perMdu : Z)
| detail_text (text : string).
Definition phaseDetails (p : ShardProgressState) : PhaseDetails :=
  let mdu := (default 0 (sp_currentMduIndex p) + 1)%Z in
  match sp_phase p with
  | shard_user => detail_user mdu (sp_totalUserMdus p) (sp_blobsInCurrentMdu p) (sp_blobsPerMdu p)
  | shard_witness => detail_witness mdu (sp_totalWitnessMdus p) (sp_blobsInCurrentMdu p) (sp_blobsPerMdu p)
  | finalize_mdu0 => detail_mdu0 (sp_blobsInCurrentMdu p) (sp_blobsPerMdu p)
  | compute_manifest_phase => detail_text "Computing manifest commitment"
  | reading => detail_text "Reading file into memory"
  | gateway_receiving => detail_text "Receiving file in gateway"
  | gateway_encoding => detail_text "Gateway RS encoding"
  | gateway_uploading => detail_text "Uploading to providers"
  | planning => detail_text "Planning slab layout"
  | phase_done => detail_text "Done"
  | phase_error => detail_text "Error"
  | phase_idle => detail_text ""
  end.

Record ShardingUi := mkShardingUi {
  ui_elapsedMs : Q; ui_currentOpMs : Q; ui_overallPct : Q; ui_avgWorkMs : option Q; ui_etaMs : option Q; ui_mibPerSec : Q;
  ui_phaseDetails : PhaseDetails
}.
Definition overall_pct (p : ShardProgressState) : Q :=
  if (0 <? sp_workTotal p)%Z then Qmin 1 (work (sp_workDone p) / work (sp_workTotal p)) else 0.
Definition mib_per_sec (elapsedMs : Q) (p : ShardProgressState) (m : Meter) : Q :=
  let mib := if (0 <? sp_fileBytesTotal p)%Z then inject_Z (sp_fileBytesTotal p) / (1024 * 1024) else 0 in
  let seconds := elapsedMs / 1000 in
  let avgMibPerSec := if q_ltb 0 seconds then mib / seconds else 0 in
  if q_ltb 0 (me_speed m) then me_speed m else avgMibPerSec.
(** Computed while rendering: [m] is the meter as the effects left it last time. *)
Definition shardingUi (now : Q) (p : ShardProgressState) (tm : Timing) (m : Meter) : ShardingUi :=
  let elapsedMs := elapsed_ms now tm in
  mkShardingUi elapsedMs
    (if q_truthy (tm_currentOpStartedAtMs tm) then Qmax 0 (now - default 0 (tm_currentOpStartedAtMs tm)) else 0)
    (overall_pct p) (avg_work_ms now p tm)
    (match me_eta m with Some eta => Some eta | None => eta_raw now p tm end)
    (mib_per_sec elapsedMs p m) (phaseDetails p).

(** ** The meter is sound *)

Section Qfacts.
Lemma q_ltb_true a b : q_ltb a b = true <-> a < b.
Proof.
  unfold q_ltb; rewrite negb_true_iff. split; intros H.
  - apply Qnot_le_lt; intros Hle. apply Qle_bool_iff in Hle; congruence.
  - apply not_true_iff_false; rewrite Qle_bool_iff; lra.
Qed.
Lemma q_ltb_false a b : q_ltb a b = false <-> b <= a.
Proof. unfold q_ltb; by rewrite negb_false_iff, Qle_bool_iff. Qed.
Lemma qmax_spec a b : a <= Qmax a b /\ b <= Qmax a b /\ (Qmax a b == a \/ Qmax a b == b).
Proof. split; [apply Q.le_max_l|split; [apply Q.le_max_r|] ]. destruct (Q.max_spec a b) as [ [_ H]|[_ H] ]; tauto. Qed.
Lemma qmin_spec a b : Qmin a b <= a /\ Qmin a b <= b /\ (Qmin a b == a \/ Qmin a b == b).
Proof. split; [apply Q.le_min_l|split; [apply Q.le_min_r|] ]. destruct (Q.min_spec a b) as [ [_ H]|[_ H] ]; tauto. Qed.
Lemma qmul_nonneg a b : 0 <= a -> 0 <= b -> 0 <= a * b.
Proof. apply Qmult_le_0_compat. Qed.
Lemma qdiv_nonneg a b : 0 <= a -> 0 < b -> 0 <= a / b.
Proof. intros Ha Hb. apply Qle_shift_div_l; lra. Qed.
End Qfacts.

(** What the sharder's reports satisfy: an average time is not negative. *)
Definition timing_ok (tm : Timing) : Prop := match tm_avgWorkMs tm with Some a => 0 <= a | None => True end.

Lemma work_pos z : (0 < z)%Z -> 0 < work z.
Proof. intros Hz; unfold work. assert (0 < inject_Z z) by (change 0 with (inject_Z 0); by rewrite <- Zlt_Qlt). apply Qlt_shift_div_l; lra. Qed.
Lemma elapsed_nonneg now tm : 0 <= elapsed_ms now tm.
Proof. unfold elapsed_ms; destruct (q_truthy _); [apply qmax_spec|lra]. Qed.
Lemma avg_nonneg now p tm : timing_ok tm -> match avg_work_ms now p tm with Some a => 0 <= a | None => True end.
Proof.
  unfold timing_ok, avg_work_ms; destruct (tm_avgWorkMs tm); [done|intros _]. destruct (Z.ltb_spec 0 (sp_workDone p)); cbn [andb]; [|done].
  destruct (q_truthy _); [|done]. apply qdiv_nonneg; [apply elapsed_nonneg|by apply work_pos].
Qed.
Lemma eta_raw_nonneg now p tm r : timing_ok tm -> eta_raw now p tm = Some r -> 0 <= r.
Proof.
  intros Hok; pose proof (avg_nonneg now p tm Hok) as Ha; unfold eta_raw. destruct (avg_work_ms now p tm) as [a|]; cbn [q_truthy default]; [|done].
  destruct (negb _); [|done]. intros [= <-]. apply qmul_nonneg; [exact Ha|apply qmax_spec].
Qed.

(** Samples: oldest first, none later than [now], and those but the two newest inside
    the window that ended at [now]. *)
Definition ordered_until (now : Q) (samples : list (Q * Q)) : Prop :=
  StronglySorted (fun a b => a.1 <= b.1) samples /\ Forall (fun s => s.1 <= now) samples.
Definition in_window (now : Q) (samples : list (Q * Q)) : Prop :=
  match samples with s :: _ :: _ :: _ => now - s.1 <= SPEED_WINDOW_MS | _ => True end.

Lemma trim_in_window now l : in_window now (trim_samples now l).
Proof.
  induction l as [|s [|s1 [|s2 r] ] IH]; try done. cbn [trim_samples].
  destruct (q_ltb SPEED_WINDOW_MS (now - s.1)) eqn:E; [exact IH|]. by apply q_ltb_false in E.
Qed.
Lemma trim_suffix now l : exists dropped, l = dropped ++ trim_samples now l.
Proof.
  induction l as [|s [|s1 [|s2 r] ] IH]; try by exists []. cbn [trim_samples]. destruct (q_ltb _ _); [|by exists []].
  destruct IH as [d Hd]. exists (s :: d). cbn [app]. by f_equal.
Qed.
Lemma sorted_suffix {A} (R : A -> A -> Prop) d l : StronglySorted R (d ++ l) -> StronglySorted R l.
Proof. induction d as [|x d IH]; [done|]. intros H; inversion H; by apply IH. Qed.
Lemma ordered_snoc t now b l : ordered_until t l -> t <= now -> ordered_until now (l ++ [(now, b)]).
Proof.
  intros [Hs Hf] Ht; split.
  - induction Hs as [|s l Hs IH Hle]; cbn; [repeat constructor|]. apply Forall_cons in Hf as [Hst Hf].
    constructor; [by apply IH|]. apply Forall_app; split; [done|]. repeat constructor; cbn; lra.
  - apply Forall_app; split; [|repeat constructor; cbn; lra]. eapply Forall_impl; [exact Hf|]. cbn; intros; lra.
Qed.
Lemma ordered_trim now l : ordered_until now l -> ordered_until now (trim_samples now l).
Proof.
  destruct (trim_suffix now l) as [d Hd]. intros [Hs Hf]; rewrite Hd in Hs, Hf. apply Forall_app in Hf as [_ Hf].
  split; [by eapply sorted_suffix|done].
Qed.
Lemma speed_nonneg now b l s : 0 <= s -> 0 <= speed_of now b l s.
Proof.
  intros Hs; unfold speed_of; destruct l as [|o [|x r] ]; try done. destruct (q_ltb 0 (now - o.1)) eqn:E1; cbn [andb]; [|done].
  destruct (q_ltb 0 (b - o.2)) eqn:E2; [|done]. apply q_ltb_true in E1, E2.
  apply qdiv_nonneg; [apply qdiv_nonneg; lra|]. apply Qlt_shift_div_l; lra.
Qed.

(** The countdown and the estimate it was started with. *)
Definition eta_ok (m : Meter) : Prop :=
  match me_eta m, me_lastRaw m with
  | Some e, Some l => 0 <= e /\ e <= l
  | None, None => True
  | _, _ => False
  end.
Lemma count_down_ok now m : eta_ok m -> match count_down now m, me_lastRaw m with
  | Some e, Some l => 0 <= e /\ e <= l | None, None => True | _, _ => False end.
Proof.
  unfold eta_ok, count_down; destruct (me_eta m) as [e|], (me_lastRaw m) as [l|]; try done. intros [He Hl].
  set (d := match me_lastTick m with None => 0 | Some t => _ end). assert (0 <= d) by (unfold d; destruct (me_lastTick m); [apply qmax_spec|lra]).
  destruct (q_ltb 0 d); [|done]. destruct (qmax_spec 0 (e - d)) as (H1 & H2 & [H3|H3]); split; lra.
Qed.

Record meter_ok (t : Q) (m : Meter) : Prop := mkMeterOk {
  ok_samples : ordered_until t (me_samples m); ok_speed : 0 <= me_speed m; ok_eta : eta_ok m
}.
Lemma meter0_ok t : meter_ok t meter0.
Proof. split; cbn; [split; constructor|lra|done]. Qed.
Lemma meter_reset_ok t processing p tm m : meter_ok t m -> meter_ok t (reset_effect processing p tm m).
Proof. intros H; unfold reset_effect; repeat case_match; try done; apply meter0_ok. Qed.

Lemma next_eta_ok r eta lastRaw : 0 <= r -> match eta, lastRaw with Some e, Some l => 0 <= e /\ e <= l | None, None => True | _, _ => False end ->
  exists e l, next_eta (Some r) eta lastRaw = (Some e, Some l) /\ 0 <= e /\ e <= l /\ l < r + 250.
Proof.
  intros Hr; destruct eta as [e|], lastRaw as [l|]; cbn [next_eta]; try done.
  - intros [He Hl]. destruct (Qle_bool 250 (Qabs (r - l))) eqn:E.
    + exists r, r; split; [done|]. repeat split; lra.
    + exists e, l; split; [done|]. assert (Qabs (r - l) < 250) as Ha.
      { apply Qnot_le_lt; intros Hle; apply Qle_bool_iff in Hle; congruence. }
      apply Qabs_Qlt_condition in Ha. repeat split; lra.
  - intros _; exists r, r; split; [done|]. repeat split; lra.
Qed.

Lemma tick_ok t now p tm m : meter_ok t m -> t <= now -> timing_ok tm -> meter_ok now (tick_effect true now p tm m).
Proof.
  intros [Hs Hsp He] Ht Htm; unfold tick_effect; cbn [negb]. pose proof (count_down_ok now m He) as Hc.
  destruct (next_eta (eta_raw now p tm) (count_down now m) (me_lastRaw m)) as [eta lastRaw] eqn:En. split; cbn.
  - apply ordered_trim. by apply (ordered_snoc t).
  - by apply speed_nonneg.
  - unfold eta_ok; cbn [me_eta me_lastRaw]. destruct (eta_raw now p tm) as [r|] eqn:Er; [|by injection En as <- <-].
    destruct (next_eta_ok r _ _ (eta_raw_nonneg _ _ _ _ Htm Er) Hc) as (e & l & Hn & H1 & H2 & _). rewrite Hn in En; by injection En as <- <-.
Qed.

(** The meter over time: ticks at later and later times, and the effect of a new state. *)
Inductive meter_step : Q * Meter -> Q * Meter -> Prop :=
| meter_ticks t now p tm m : t <= now -> timing_ok tm -> meter_step (t, m) (now, tick_effect true now p tm m)
| meter_resets t processing p tm m : meter_step (t, m) (t, reset_effect processing p tm m).

Lemma meter_reachable t0 t m : rtc meter_step (t0, meter0) (t, m) -> meter_ok t m.
Proof.
  intros H; enough (forall a, rtc meter_step (t0, meter0) a -> meter_ok a.1 a.2) as Hall by exact (Hall (t, m) H).
  apply (rtc_ind_r (fun a => meter_ok a.1 a.2)); [apply meter0_ok|].
  intros a b _ Hs Ha; destruct Hs as [t1 now p tm m1 Hle Htm|t1 pr p tm m1]; cbn in *; [by apply (tick_ok t1)|by apply meter_reset_ok].
Qed.

Lemma pct_bounds p : (0 <= sp_workDone p)%Z -> 0 <= overall_pct p /\ overall_pct p <= 1.
Proof.
  intros Hw; unfold overall_pct. destruct (Z.ltb_spec 0 (sp_workTotal p)) as [Htot|]; [|lra].
  assert (0 <= work (sp_workDone p) / work (sp_workTotal p)).
  { apply qdiv_nonneg; [|by apply work_pos]. destruct (Z.eq_dec (sp_workDone p) 0) as [->|]; [apply Qle_bool_iff; reflexivity|].
    apply Qlt_le_weak, work_pos; lia. }
  destruct (qmin_spec 1 (work (sp_workDone p) / work (sp_workTotal p))) as (H1 & H2 & [H3|H3]); lra.
Qed.
Lemma speed_shown_nonneg elapsed p m : 0 <= me_speed m -> 0 <= mib_per_sec elapsed p m.
Proof.
  intros Hs; unfold mib_per_sec. destruct (q_ltb 0 (me_speed m)); [done|].
  destruct (q_ltb 0 _) eqn:E; [|lra]. apply q_ltb_true in E. apply qdiv_nonneg; [|done].
  destruct (Z.ltb_spec 0 (sp_fileBytesTotal p)) as [Hf|]; [|lra]. apply qdiv_nonneg; [|lra].
  change 0 with (inject_Z 0). rewrite <- Zle_Qle; lia.
Qed.
(** The speed a tick leaves, where time has passed and bytes were done since its oldest sample. *)
Lemma tick_speed now p tm m : let m' := tick_effect true now p tm m in
  match me_samples m' with
  | oldest :: _ :: _ => oldest.1 < now -> oldest.2 < bytes_done p ->
      me_speed m' = (bytes_done p - oldest.2) / (1024 * 1024) / ((now - oldest.1) / 1000) /\ 0 < me_speed m'
  | _ => True
  end.
Proof.
  unfold tick_effect; cbn [negb]; destruct (next_eta _ _ _); cbn [me_samples me_speed].
  unfold speed_of; destruct (trim_samples _ _) as [|s0 [|x r] ]; try done. intros Hd Hb.
  assert (q_ltb 0 (now - s0.1) = true) as -> by (apply q_ltb_true; lra).
  assert (q_ltb 0 (bytes_done p - s0.2) = true) as -> by (apply q_ltb_true; lra).
  split; [done|]. apply Qlt_shift_div_l; [apply Qlt_shift_div_l; lra|]. rewrite Qmult_0_l. apply Qlt_shift_div_l; lra.
Qed.

(** C23: The progress meter tells a coherent story.  Whatever was reported before, at every
    render that follows a tick of a run: the bar is between nothing and everything; the
    samples are in order and all of them but the newest two lie in the three seconds
    before the tick; the speed is not negative, and where the bytes grew over the kept
    samples it is the rate from the oldest of them to the tick; and the remaining time
    is never negative, and less than a quarter of a second above what was estimated at
    the tick, or, where nothing could be estimated then, the estimate of the render, if
    there is one. *)
Theorem meter_sound t0 t m now p tm now' p' tm' :
  rtc meter_step (t0, meter0) (t, m) -> t <= now -> timing_ok tm -> timing_ok tm' -> (0 <= sp_workDone p')%Z ->
  let m' := tick_effect true now p tm m in
  let ui := shardingUi now' p' tm' m' in
  0 <= ui_overallPct ui /\ ui_overallPct ui <= 1 /\
  ordered_until now (me_samples m') /\ in_window now (me_samples m') /\
  0 <= ui_mibPerSec ui /\
  match me_samples m' with
  | oldest :: _ :: _ => oldest.1 < now -> oldest.2 < bytes_done p ->
      ui_mibPerSec ui = (bytes_done p - oldest.2) / (1024 * 1024) / ((now - oldest.1) / 1000)
  | _ => True
  end /\
  match eta_raw now p tm with
  | Some r => exists e, ui_etaMs ui = Some e /\ 0 <= e /\ e < r + 250
  | None => ui_etaMs ui = eta_raw now' p' tm' /\ match ui_etaMs ui with Some e => 0 <= e | None => True end
  end.
Proof.
  intros Hm%meter_reachable Ht Htm Htm' Hw m' ui. pose proof (tick_ok t now p tm m Hm Ht Htm) as [Hs Hsp He]. fold m' in Hs, Hsp, He.
  destruct (pct_bounds p' Hw) as [Hp1 Hp2]. do 2 (split; [done|]). split; [done|]. split; [|split; [by apply speed_shown_nonneg|split] ].
  - unfold m', tick_effect; cbn [negb]. destruct (next_eta _ _ _). apply trim_in_window.
  - pose proof (tick_speed now p tm m) as Hsm; cbv zeta in Hsm; fold m' in Hsm.
    destruct (me_samples m') as [|o [|x r] ]; [done..|]. intros Hd Hb; destruct (Hsm Hd Hb) as [Heq Hpos].
    unfold ui, shardingUi; cbn [ui_mibPerSec]; unfold mib_per_sec. by rewrite (proj2 (q_ltb_true 0 (me_speed m')) Hpos).
  - unfold ui, shardingUi; cbn [ui_etaMs]. unfold m', tick_effect; cbn [negb]. pose proof (count_down_ok now m (ok_eta _ _ Hm)) as Hc.
    destruct (eta_raw now p tm) as [r|] eqn:Er.
    + destruct (next_eta_ok r _ _ (eta_raw_nonneg _ _ _ _ Htm Er) Hc) as (e & l & Hn & H1 & H2 & H3).
      rewrite Hn; cbn [me_eta]. exists e; split; [done|]. split; [done|lra].
    + cbn [next_eta me_eta]. split; [done|]. destruct (eta_raw now' p' tm') as [r|] eqn:Er'; [|done]. by eapply eta_raw_nonneg.
Qed.

(** ** A run *)

(** 32 of 640 units of work are done, at two milliseconds each. *)
Definition demo_progress : ShardProgressState := mkShardProgress shard_user "" 32 640 32 64 320 6400 40000000 5 1 (Some 0%Z) (Some kind_user).
Definition demo_timing : Timing := mkTiming (Some 2) (Some 1000) (Some 1040) None.
Definition first_tick : Meter := tick_effect true 1064 demo_progress demo_timing meter0.

Example first_tick_eta : match me_eta first_tick with Some e => Qeq_bool e 1216 | None => false end = true.
Proof. vm_compute. reflexivity. Qed.

(** The tick at 1314 keeps the countdown, at 966; the render at 1564 shows it. *)
Lemma meter_sound_witness :
  let ui := shardingUi 1564 demo_progress demo_timing (tick_effect true 1314 demo_progress demo_timing first_tick) in
  ui_overallPct ui <= 1 /\ exists e, ui_etaMs ui = Some e /\ 0 <= e /\ e < 1216 + 250.
Proof.
  assert (rtc meter_step (1000, meter0) (1064, first_tick)) as Hrun.
  { apply rtc_once. apply meter_ticks; [by apply Qle_bool_iff|by apply Qle_bool_iff]. }
  destruct (meter_sound 1000 1064 first_tick 1314 demo_progress demo_timing 1564 demo_progress demo_timing Hrun) as (_ & H1 & _ & _ & _ & _ & H2);
    [by apply Qle_bool_iff|by apply Qle_bool_iff|by apply Qle_bool_iff|done|]. split; [exact H1|].
  destruct H2 as (e & He & H0 & Hlt). exists e; split; [exact He|split; [exact H0|] ]. eapply Qlt_le_trans; [exact Hlt|]. by apply Qle_bool_iff.
Defined.
