(* ===== verification/GatewayIngest.v ===== *)
(** * Choosing a file (components/FileSharder.tsx, the whole [processFile])

    What happens before the browser shards a file itself: a mode 2 deal's file is
    offered to the local gateway, whose progress is polled while it works; only if the
    gateway cannot be reached is the WASM initialised and the file sharded in the page.

    The status requests run beside the upload request.  The model takes the answers
    they got, in order, as an argument: the poll is told to stop when the upload is
    answered, and waited for, so all its updates come before what the answer shows.
    The counters the gateway reports are bytes or steps; they are kept apart from those
    of [Sharding], which count work.  The log line that names the file leaves out its
    formatted size. *)
From S2P Require Import Prelude JsString JsNum TransportTypes Effects Bytes Text NilfsCodec Layout Nilfs Opfs NilfsOpfsFetch.
From S2P Require Import Hex Multiaddr Http Lcd GatewayClient Config NilWasm ShardPool GatewayWorker Sharding Upload.
#[local] Open Scope Z_scope.

(** ** The gateway's job status *)

Record GatewayUploadJobStatus := mkJob {
  job_status : option string; job_phase : option string; job_message : option string; job_error : option string;
  job_bytes_done : option dec; job_bytes_total : option dec; job_steps_done : option dec; job_steps_total : option dec;
  job_manifest_root : option string
}.

Definition asNumber (value : option json) : option dec :=
  match value with
  | Some (JNum n) => Some (dec_of_num n)
  | Some (JStr s) => let n := Number_of_string s in if dec_is_finite n then Some n else None
  | _ => None
  end.
Definition asText (value : option json) : option string := match value with Some (JStr s) => Some s | _ => None end.
(** [value && typeof value === 'object'] *)
Definition is_object (value : json) : bool := match value with JObj _ | JArr _ => true | _ => false end.

Definition parseGatewayUploadJobStatus (value : json) : option GatewayUploadJobStatus :=
  if negb (is_object value) then None
  else
    let f := get_field value in
    let root := match f "result" with Some r => asText (get_field r "manifest_root") | None => None end in
    Some (mkJob (asText (f "status")) (asText (f "phase")) (asText (f "message")) (asText (f "error"))
            (asNumber (f "bytes_done")) (asNumber (f "bytes_total")) (asNumber (f "steps_done")) (asNumber (f "steps_total"))
            (if opt_str root then root else None)).

(** [Number(x || 0) || 0] *)
Definition count_of (x : option dec) : dec := dec_or_zero (default (DNum 0 0) x).
Definition phase_of (phase : string) : ShardPhase :=
  if eqb phase "receiving" then gateway_receiving
  else if eqb phase "encoding" then gateway_encoding
  else if eqb phase "uploading" then gateway_uploading
  else if eqb phase "done" then phase_done
  else planning.

Record GatewayProgress := mkGateway { gp_workDone : dec; gp_workTotal : dec; gp_fileBytesTotal : dec }.

(** ** The page *)

Inductive WasmStatus := wasm_idle | wasm_initializing | wasm_ready | wasm_error.

Section Ingest.
Context {Ctx : Type} `{Kzg Ctx} {W : Type} `{Http W}.

Record Site := mkSite {
  tab : @Tab Ctx; page : Page W; counters : GatewayProgress; lastJob : option GatewayUploadJobStatus;
  wasmStatus : WasmStatus; wasmError : option string
}.
Definition on_tab {A} (m : M (@Tab Ctx) A) : M Site A := fun s =>
  let '(r, t) := m (tab s) in (r, mkSite t (page s) (counters s) (lastJob s) (wasmStatus s) (wasmError s)).
Definition on_page {A} (m : M (Page W) A) : M Site A := fun s =>
  let '(r, p) := m (page s) in (r, mkSite (tab s) p (counters s) (lastJob s) (wasmStatus s) (wasmError s)).
Definition setWasm (st : WasmStatus) (e : option string) : M Site unit :=
  modify (fun s => mkSite (tab s) (page s) (counters s) (lastJob s) st e).
Definition say (msg : string) : M Site unit := on_page (addLog msg).

(** [setShardProgress] with a phase and a label *)
Definition show (phase : ShardPhase) (label : string) : M Site unit :=
  on_tab (setShardProgress (fun p => mkShardProgress phase label (sp_blobsDone p) (sp_blobsTotal p) (sp_blobsInCurrentMdu p)
    (sp_blobsPerMdu p) (sp_workDone p) (sp_workTotal p) (sp_fileBytesTotal p) (sp_totalUserMdus p) (sp_totalWitnessMdus p)
    (sp_currentMduIndex p) (sp_currentMduKind p))).
Definition setCounters (f : GatewayProgress -> GatewayProgress) : M Site unit :=
  modify (fun s => mkSite (tab s) (page s) (f (counters s)) (lastJob s) (wasmStatus s) (wasmError s)).
Definition set_last_job (job : GatewayUploadJobStatus) : M Site unit :=
  modify (fun s => mkSite (tab s) (page s) (counters s) (Some job) (wasmStatus s) (wasmError s)).
Definition setProcessing (b : bool) : M Site unit := on_tab (modify (set_processing b)).

(** ** Polling *)

(** One answer to the status request. *)
Definition poll_answer (answer : outcome Response) : M Site unit :=
  match answer with
  | Thrown _ => mret tt
  | Ok res =>
      if rs_ok res then
        match parseGatewayUploadJobStatus (json_or JNull res) with
        | Some job =>
            set_last_job job ;;
            let phase := trim (default "" (job_phase job)) in
            let status := trim (default "" (job_status job)) in
            let message := trim (default "" (job_message job)) in
            let bytesTotal := count_of (job_bytes_total job) in
            let label := "Gateway Mode 2: " +:+ or_else message (or_else phase (or_else status "working")) in
            let phaseState := phase_of phase in
            let useBytes := match phaseState with gateway_receiving => dec_pos bytesTotal | _ => false end in
            let workDone := if useBytes then count_of (job_bytes_done job) else count_of (job_steps_done job) in
            let workTotal := if useBytes then bytesTotal else count_of (job_steps_total job) in
            show phaseState label ;;
            setCounters (fun c => mkGateway workDone workTotal (if dec_pos bytesTotal then bytesTotal else gp_fileBytesTotal c))
        | None => mret tt
        end
      else mret tt
  end.

(** ** The upload request *)

Context (cfg : Config) (dealId : string) (stripe : option StripeParams).
(** [file.name], and the random id of this upload. *)
Context (name uploadId : string).

Definition ingest_base : string := strip_slash (or_else (cf_gatewayBase cfg) "http://localhost:8080").
Definition ingest_url (path : string) : string :=
  ingest_base +:+ path +:+ "?deal_id=" +:+ encodeURIComponent dealId +:+ "&upload_id=" +:+ encodeURIComponent uploadId.
Definition status_request : Request := GET (ingest_url "/gateway/upload-status").
Definition ingest_request (file : File) : Request :=
  mkReq (ingest_url "/gateway/upload") "POST" []
    (BForm [("deal_id", FText dealId); ("file_path", FText name); ("upload_id", FText uploadId);
            ("file_size_bytes", FText (string_of_Z (zlen (file_bytes file)))); ("file", FFile name (file_bytes file))]).

Definition last_root (s : Site) : string := default "" (lastJob s ≫= job_manifest_root).
Definition last_error (s : Site) : string := default "" (lastJob s ≫= job_error).
(** [String(payload?.manifest_root || payload?.cid || statusRoot || '').trim()] *)
Definition payload_text (payload : json) (key : string) : string :=
  match get_field payload key with Some j => if json_truthy j then json_String j else "" | None => "" end.
Definition payload_root (payload : json) (statusRoot : string) : string :=
  trim (or_else (payload_text payload "manifest_root") (or_else (payload_text payload "cid") statusRoot)).
Definition payload_size (payload : json) (size : Z) : dec :=
  let n := json_Number (default (JNum (Num size)) (nullish (get_field payload "size_bytes") (nullish (get_field payload "file_size_bytes") (Some (JNum (Num size)))))) in
  match dec_or_zero n with DNum 0 0 => DNum size 0 | d => d end.

Definition unreachable (msg : string) : bool :=
  includes "Failed to fetch" msg || includes "NetworkError" msg || includes "ERR_CONNECTION_REFUSED" msg.

(** What the gateway made of the file: it took it, it failed, or it was not there. *)
Inductive ingest_end := ingest_taken | ingest_failed | ingest_absent.

(** The [try] block of the gateway path. *)
Definition ingest_try (file : File) (polls : list (outcome Response)) : M Site unit :=
  on_page (set_up (setMode2Uploading true)) ;;
  show gateway_receiving "Gateway Mode 2: starting upload..." ;;
  setCounters (fun _ => mkGateway (DNum 0 0) (DNum (zlen (file_bytes file)) 0) (DNum (zlen (file_bytes file)) 0)) ;;
  sent ← on_page (on_net (fun w => match fetch (Some 1800000) (ingest_request file) w with
                                   | (Ok res, w') => (Ok (inl res), w')
                                   | (Thrown e, w') => (Ok (inr e), w')
                                   end));
  for_each polls poll_answer ;;
  match sent with
  | inr e => mthrow e
  | inl resp =>
      s ← (fun s => (Ok s, s));
      (if rs_ok resp then mret tt
       else js_error (or_else (text_or_empty resp) (or_else (last_error s)
              ("gateway upload failed (" +:+ string_of_Z (rs_status resp) +:+ ")")))) ;;
      let payload := json_or JNull resp in
      let root := payload_root payload (last_root s) in
      (if truthy root then mret tt else js_error "gateway upload returned no manifest_root") ;;
      on_tab (update_view (fun v => mkSharder (shards v) [] (Some root) None [] (processing v) (shardProgress v))) ;;
      on_page (set_up (fun u => setMode2 (mode2Uploading u) true None u)) ;;
      say ("> Gateway Mode 2 ingest complete. manifest_root=" +:+ root) ;;
      show phase_done "Gateway Mode 2 ingest complete. Ready to commit." ;;
      setCounters (fun c => mkGateway (gp_workDone c) (gp_workTotal c) (payload_size payload (zlen (file_bytes file))))
  end.

Definition gateway_ingest (file : File) (polls : list (outcome Response)) : M Site ingest_end :=
  modify (fun s => mkSite (tab s) (page s) (counters s) None (wasmStatus s) (wasmError s)) ;;
  finally
    (try_catch (ingest_try file polls ;; setProcessing false ;; mret ingest_taken)
       (fun e =>
          let msg := err_message e in
          say ("> Gateway Mode 2 ingest failed: " +:+ msg) ;;
          if unreachable msg then
            say "> Gateway unavailable; falling back to in-browser Mode 2 sharding + stripe upload." ;;
            on_page (set_up (setMode2UploadError None)) ;;
            show planning "Gateway unavailable; falling back to in-browser sharding..." ;;
            mret ingest_absent
          else
            on_page (set_up (setMode2UploadError (Some msg))) ;;
            show phase_error ("Gateway Mode 2 ingest failed: " +:+ msg) ;;
            setProcessing false ;;
            mret ingest_failed))
    (fun s => mkSite (tab s) (mkPage (net (page s)) (setMode2Uploading false (up (page s)))) (counters s) (lastJob s) (wasmStatus s) (wasmError s)).

(** ** The WASM *)

(** [response.statusText] *)
Context (statusText : Response -> string).

(** [running] is how an initialisation already under way ends, if there is one. *)
Definition ensureWasmReady (running : option (outcome unit)) : M Site unit :=
  s ← (fun s => (Ok s, s));
  match wasmStatus s, running with
  | wasm_ready, _ => mret tt
  | _, Some o => lift o
  | _, None =>
      setWasm wasm_initializing None ;;
      try_catch
        (response ← on_page (on_net (fetch None (GET "/trusted_setup.txt")));
         (if rs_ok response then mret tt else js_error ("Failed to fetch trusted setup: " +:+ statusText response)) ;;
         trustedSetupBytes ← lift (rs_bytes response);
         on_tab (call (initNilWasm (Some trustedSetupBytes))) ;;
         setWasm wasm_ready None ;;
         say "WASM and KZG context initialized in worker.")
        (fun e =>
           setWasm wasm_error (Some (err_message e)) ;;
           say ("Error initializing WASM in worker: " +:+ err_message e) ;;
           mthrow e)
  end.

(** ** The whole handler *)

Context (opMs : Z -> Z).

(** What is cleared first, besides the component's own state. *)
Definition clear_upload (u : UploadState) : UploadState :=
  let u := setMode2 false false None (reset_upload u) in
  mkUp (mode2Uploading u) (mode2UploadComplete u) (mode2UploadError u) (mirrorStatus u) (mirrorError u) (uploadProgress u) (isUploading u) [].

(** [unreadable] is the error [file.arrayBuffer()] rejects with, if it does: the bytes of
    a file are read only here, and it may be gone or changed since it was chosen.  The
    [await] is in no [try], so the whole handler rejects. *)
Definition handle_file (isConnected : bool) (running : option (outcome unit)) (polls : list (outcome Response))
    (unreadable : option jserr) (file : File) : M Site unit :=
  if negb isConnected then mret tt
  else
    on_tab (begin_processing file) ;;
    on_page (set_up clear_upload) ;;
    say ("Processing file: " +:+ name) ;;
    taken ← (if bool_decide (is_Some stripe) && negb (cf_gatewayDisabled cfg) then gateway_ingest file polls else mret ingest_absent);
    match taken with
    | ingest_absent =>
        ready ← try_catch (ensureWasmReady running ;; mret true)
          (fun e =>
             say ("Error initializing WASM in worker: " +:+ err_message e) ;;
             show phase_error ("WASM init failed: " +:+ err_message e) ;;
             setProcessing false ;;
             mret false);
        if ready : bool then
          match unreadable with
          | Some e => mthrow e
          | None => on_tab (shard_locally opMs dealId stripe file)
          end
        else mret tt
    | _ => mret tt
    end.
End Ingest.

(** ** How it ends *)

Create HintDb leaves discriminated.

Example job_parsed :
  parseGatewayUploadJobStatus (JObj [("phase", JStr "receiving"); ("bytes_done", JStr "12"); ("bytes_total", JNum (Num 40));
    ("result", JObj [("manifest_root", JStr "")])]) =
  Some (mkJob None (Some "receiving") None None (Some (DNum 12 0)) (Some (DNum 40 0)) None None None).
Proof. reflexivity. Qed.

Section Ends.
Context {Ctx : Type} `{Kzg Ctx} {W : Type} `{Http W}.
Context (cfg : Config) (dealId : string) (stripe : option StripeParams) (name uploadId : string).
Context (statusText : Response -> string) (opMs : Z -> Z).
Implicit Types s : @Site Ctx W.

Definition site_view s : Sharder := view (tab s).

(** The slab the page would upload or commit. *)
Definition slab_of (v : Sharder) : list (Z * bytes) * option string * option bytes * list (Z * list bytes) * bool :=
  (collectedMdus v, currentManifestRoot v, currentManifestBlob v, mode2Shards v, processing v).

(** Whether a mode 2 upload is running, or done. *)
Definition flags s : bool * bool := (mode2Uploading (up (page s)), mode2UploadComplete (up (page s))).

(** Steps that leave the slab and those flags alone. *)
Definition leaves {A} (m : M (@Site Ctx W) A) : Prop := forall s,
  (slab_of (site_view (m s).2), flags (m s).2) = (slab_of (site_view s), flags s).

Lemma leaves_ret {A} (a : A) : leaves (mret a).
Proof. done. Qed.
Lemma leaves_throw {A} (e : jserr) : leaves (mthrow e : M (@Site Ctx W) A).
Proof. done. Qed.
Lemma leaves_bind {A B} (m : M (@Site Ctx W) A) (f : A -> M (@Site Ctx W) B) : leaves m -> (forall a, leaves (f a)) -> leaves (m ≫= f).
Proof. intros Hm Hf s; rewrite bind_run; specialize (Hm s); destruct (m s) as [ [a|e] s1]; [by rewrite Hf|done]. Qed.
Lemma leaves_try {A} (m : M (@Site Ctx W) A) h : leaves m -> (forall e, leaves (h e)) -> leaves (try_catch m h).
Proof. intros Hm Hh s; unfold try_catch; specialize (Hm s); destruct (m s) as [ [a|e] s1]; [done|by rewrite Hh]. Qed.
Lemma leaves_for_each {A} (f : A -> M (@Site Ctx W) unit) l : (forall x, leaves (f x)) -> leaves (for_each l f).
Proof. intros Hf; induction l as [|x l IH]; cbn [for_each]; [apply leaves_ret|by apply leaves_bind]. Qed.
Lemma leaves_net {A} (m : M W A) : leaves (on_page (on_net m)).
Proof. intros s; unfold on_page, on_net; by destruct (m (net (page s))). Qed.
Lemma leaves_say msg : leaves (say msg).
Proof. done. Qed.
Lemma leaves_show phase label : leaves (show phase label).
Proof. done. Qed.
Lemma leaves_counters f : leaves (setCounters f).
Proof. done. Qed.
Lemma leaves_job job : leaves (set_last_job job).
Proof. done. Qed.
Lemma leaves_wasm st e : leaves (setWasm st e).
Proof. done. Qed.
Lemma leaves_read : leaves (fun s => (Ok s, s)).
Proof. done. Qed.
Lemma leaves_lift {A} (o : outcome A) : leaves (lift o).
Proof. done. Qed.
Lemma leaves_call msg : leaves (on_tab (call msg)).
Proof.
  intros s; unfold on_tab, call. destruct (onmessage 0 msg (worker (tab s))) as [ [id p|id p] w]; done.
Qed.

#[local] Hint Resolve leaves_ret leaves_throw leaves_bind leaves_try leaves_for_each leaves_net leaves_say leaves_show leaves_counters leaves_job
  leaves_wasm leaves_read leaves_lift leaves_call : leaves.

Lemma leaves_poll answer : leaves (poll_answer answer).
Proof.
  unfold poll_answer; destruct answer as [res|e]; [|apply leaves_ret]. destruct (rs_ok res); [|apply leaves_ret].
  destruct (parseGatewayUploadJobStatus _); auto 6 with leaves.
Qed.

Lemma leaves_ensure running : leaves (ensureWasmReady statusText running).
Proof.
  unfold ensureWasmReady; apply leaves_bind; [apply leaves_read|]; intros s.
  destruct (wasmStatus s); [..|apply leaves_ret|]; (destruct running; [apply leaves_lift|]).
  all: apply leaves_bind; [apply leaves_wasm|intros _]; apply leaves_try; [|auto 6 with leaves].
  all: apply leaves_bind; [apply leaves_net|intros res]; apply leaves_bind; [destruct (rs_ok res); auto with leaves|intros _].
  all: auto 8 with leaves.
Qed.

Definition cleared : list (Z * bytes) * option string * option bytes * list (Z * list bytes) * bool := ([], None, None, [], true).

Lemma shard_locally_begun (file : File) (t : @Tab Ctx) :
  slab_of (view t) = cleared -> shard_locally opMs dealId stripe file t = processFile opMs dealId stripe file t.
Proof.
  unfold slab_of, cleared; intros [= Hc Hr Hb Hm Hp].
  destruct (load_existing_total dealId stripe (store t)) as (ex & fs & Hl).
  assert (replanned stripe file ex fs t = planned stripe file ex fs t) as Heq
    by (unfold planned, replanned; by rewrite Hc, Hr, Hb, Hm, Hp).
  etransitivity; [exact (shard_locally_run opMs dealId stripe file t ex fs Hl)|].
  rewrite Heq; symmetry; exact (processFile_run opMs dealId stripe file t ex fs Hl).
Qed.

Definition ready_site s : Prop := slab_of (site_view s) = cleared /\ mode2UploadComplete (up (page s)) = false.

Lemma leaves_left {A} (m : M (@Site Ctx W) A) s r s' : leaves m -> m s = (r, s') ->
  slab_of (site_view s') = slab_of (site_view s) /\ flags s' = flags s.
Proof.
  intros Hl Hm; specialize (Hl s); rewrite Hm in Hl; split; [exact (f_equal fst Hl)|exact (f_equal snd Hl)].
Qed.
Lemma leaves_ready {A} (m : M (@Site Ctx W) A) s r s' : leaves m -> m s = (r, s') -> ready_site s -> ready_site s'.
Proof.
  intros Hl Hm [Hs Hc]; destruct (leaves_left m s r s' Hl Hm) as [Hv Hf]; split; [by rewrite Hv|].
  transitivity (flags s').2; [done|]. by rewrite Hf.
Qed.

(** The end of the gateway path, by what it returns. *)
Definition ingest_result (file : File) s (r : ingest_end) s' : Prop :=
  let v := site_view s' in let u := up (page s') in
  mode2Uploading u = false /\
  match r with
  | ingest_taken => exists resp w root, fetch (Some 1800000) (ingest_request cfg dealId name uploadId file) (net (page s)) = (Ok resp, w) /\
      rs_ok resp = true /\ root = payload_root (json_or JNull resp) (last_root s') /\ truthy root = true /\
      slab_of v = ([], Some root, None, [], false) /\ sp_phase (shardProgress v) = phase_done /\
      mode2UploadComplete u = true /\ mode2UploadError u = None
  | ingest_failed => slab_of v = ([], None, None, [], false) /\ sp_phase (shardProgress v) = phase_error /\
      mode2UploadComplete u = false /\ is_Some (mode2UploadError u)
  | ingest_absent => slab_of v = cleared /\ mode2UploadComplete u = false /\ mode2UploadError u = None /\
      exists err, unreachable (err_message err) = true
  end.

Lemma poll_runs polls s : exists s', for_each polls poll_answer s = (Ok tt, s').
Proof.
  revert s; induction polls as [|a polls IH]; intros s; [by exists s|]. cbn [for_each]; rewrite bind_run.
  assert (exists s1, poll_answer a s = (Ok tt, s1)) as [s1 ->]; [|apply IH].
  unfold poll_answer; destruct a as [res|e]; [|by eexists]. destruct (rs_ok res); [|by eexists].
  destruct (parseGatewayUploadJobStatus _); [|by eexists]. by eexists.
Qed.

(** The [try] block: an answer with a root, or an error that changes nothing of the slab. *)
Lemma ingest_try_ends file polls s : ready_site s ->
  match ingest_try cfg dealId name uploadId file polls s with
  | (Ok _, s') => exists resp w root, fetch (Some 1800000) (ingest_request cfg dealId name uploadId file) (net (page s)) = (Ok resp, w) /\
      rs_ok resp = true /\ root = payload_root (json_or JNull resp) (last_root s') /\ truthy root = true /\
      slab_of (site_view s') = ([], Some root, None, [], true) /\ sp_phase (shardProgress (site_view s')) = phase_done /\
      mode2UploadComplete (up (page s')) = true /\ mode2UploadError (up (page s')) = None
  | (Thrown _, s') => ready_site s'
  end.
Proof.
  intros Hs; unfold ingest_try. rewrite bind_run; unfold on_page at 1, set_up, modify; cbn [page]. rewrite bind_run.
  set (s1 := mkSite _ _ _ _ _ _). assert (ready_site s1) as Hs1 by exact Hs.
  assert (net (page s1) = net (page s)) as Hn1 by done. clearbody s1.
  unfold show at 1, on_tab at 1, setShardProgress, update_view, modify; cbv beta iota; rewrite bind_run.
  unfold setCounters at 1, modify; cbv beta iota; rewrite bind_run.
  set (s2 := mkSite _ _ _ _ _ _). assert (ready_site s2) as Hs2 by exact Hs1.
  assert (net (page s2) = net (page s)) as Hn2 by exact Hn1. clearbody s2; clear s1 Hs1 Hn1.
  unfold on_page at 1, on_net; rewrite Hn2. destruct (fetch _ _ (net (page s))) as [ [resp|e] w] eqn:Hf; cbv beta iota; rewrite bind_run.
  all: set (s3 := mkSite _ _ _ _ _ _); assert (ready_site s3) as Hs3 by exact Hs2; clearbody s3.
  all: destruct (poll_runs polls s3) as [s4 Hp]; pose proof (leaves_ready _ _ _ _ (leaves_for_each poll_answer polls leaves_poll) Hp Hs3) as Hs4;
    rewrite Hp.
  2: exact Hs4.
  rewrite bind_run; cbv beta iota. destruct (rs_ok resp) eqn:Hok; [|exact Hs4]. rewrite bind_run; cbn [mret M_ret]; cbv zeta.
  set (root := payload_root (json_or JNull resp) (last_root s4)).
  destruct (truthy root) eqn:Hr; [|exact Hs4]. destruct Hs4 as [Hl _]; unfold cleared, slab_of in Hl; injection Hl as Hc _ _ _ Hpr.
  cbn; exists resp, w, root; repeat (split; [done|]). split; [|done]. unfold slab_of, site_view; cbn. unfold site_view in Hpr; by rewrite Hpr.
Qed.

Lemma gateway_ingest_ends file polls s : ready_site s ->
  exists r s', gateway_ingest cfg dealId name uploadId file polls s = (Ok r, s') /\ ingest_result file s r s'.
Proof.
  intros Hs; unfold gateway_ingest; rewrite bind_run; unfold modify at 1; cbv beta iota.
  set (s1 := mkSite _ _ _ _ _ _). assert (ready_site s1) as Hs1 by exact Hs.
  pose proof (ingest_try_ends file polls s1 Hs1) as Ht. change (net (page s1)) with (net (page s)) in Ht. clearbody s1.
  unfold finally, try_catch; rewrite bind_run.
  destruct (ingest_try _ _ _ _ _ _ s1) as [ [ [] |e] s2].
  - destruct Ht as (resp & w & root & Hf & Hok & Hroot & Htr & Hsl & Hph & Hc & He).
    cbn; do 2 eexists; split; [reflexivity|]. split; [done|]. exists resp, w, root; repeat (split; [done|]).
    split; [|done]. unfold slab_of, site_view in *; cbn. injection Hsl as -> -> -> -> _; done.
  - destruct Ht as [Ht Hcomp]; rewrite bind_run.
    destruct (unreachable (err_message e)) eqn:Hu; cbn; do 2 eexists; (split; [reflexivity|]); (split; [done|]).
    + split; [exact Ht|]. split; [exact Hcomp|]. split; [done|]. by exists e.
    + split; [|split; [done|split; [exact Hcomp|by eexists] ] ]. unfold slab_of, site_view, cleared in *; cbn. injection Ht as -> -> -> -> _; done.
Qed.

(** What choosing a file leaves: the slab and the upload flags of a gateway that took
    it, a slab sharded in the page, or an error. *)
Definition handled (v : Sharder) (u : UploadState) : Prop :=
  processing v = false /\ mode2Uploading u = false /\
  ((sp_phase (shardProgress v) = phase_done /\ mode2UploadComplete u = true /\ collectedMdus v = [] /\
    exists root, currentManifestRoot v = Some root /\ truthy root = true) \/
   (sp_phase (shardProgress v) = phase_done /\ mode2UploadComplete u = false /\
    is_Some (currentManifestRoot v) /\ is_Some (currentManifestBlob v)) \/
   (sp_phase (shardProgress v) = phase_error /\ mode2UploadComplete u = false /\
    collectedMdus v = [] /\ currentManifestRoot v = None /\ currentManifestBlob v = None)).

(** What a file that cannot be read leaves: nothing of it, and the page still processing. *)
Definition unread (v : Sharder) (u : UploadState) : Prop :=
  slab_of v = cleared /\ mode2Uploading u = false /\ mode2UploadComplete u = false.

(** How the handler ends: by itself, or with the error of the file. *)
Definition ends (unreadable : option jserr) (r : outcome unit) (v : Sharder) (u : UploadState) : Prop :=
  match r with Ok _ => handled v u | Thrown e => unreadable = Some e /\ unread v u end.

Lemma sharded_here running unreadable file s : ready_site s -> mode2Uploading (up (page s)) = false ->
  exists r s',
    (ready ← try_catch (ensureWasmReady statusText running ;; mret true)
          (fun e =>
             say ("Error initializing WASM in worker: " +:+ err_message e) ;;
             show phase_error ("WASM init failed: " +:+ err_message e) ;;
             setProcessing false ;;
             mret false);
        if ready : bool then
          match unreadable with
          | Some e => mthrow e
          | None => on_tab (shard_locally opMs dealId stripe file)
          end
        else mret tt) s = (r, s') /\
    ends unreadable r (site_view s') (up (page s')).
Proof.
  intros [Hs Hc] Hu; rewrite bind_run; unfold try_catch; rewrite bind_run.
  destruct (ensureWasmReady statusText running s) as [r s1] eqn:He.
  destruct (leaves_left _ _ _ _ (leaves_ensure running) He) as [Hl Hf]; rewrite Hs in Hl; unfold flags in Hf; rewrite Hc, Hu in Hf.
  injection Hf as Hf1 Hf2. destruct r as [ [] |e].
  - cbn [mret M_ret]. destruct unreadable as [err|].
    { do 2 eexists; split; [reflexivity|]. split; [done|]. by repeat split. }
    unfold on_tab; rewrite (shard_locally_begun file (tab s1) Hl).
    destruct (processFile_ends opMs dealId stripe file (tab s1)) as (t' & Ht & Hp & Hr); rewrite Ht.
    do 2 eexists; split; [reflexivity|]. split; [exact Hp|]. split; [exact Hf1|]. unfold site_view; cbn [tab page].
    destruct Hr as [ (? & ? & ?) | (? & _ & ? & ? & ?) ]; [auto 6|by right; right].
  - cbn; do 2 eexists; split; [reflexivity|]. unfold ends, slab_of, cleared, site_view, handled in *; cbn. injection Hl as -> -> -> _ _.
    repeat (split; [done|]). by right; right.
Qed.

Lemma handle_file_facts isConnected running polls unreadable file s :
  exists r s', handle_file cfg dealId stripe name uploadId statusText opMs isConnected running polls unreadable file s = (r, s') /\
    if isConnected : bool then ends unreadable r (site_view s') (up (page s')) else r = Ok tt /\ s' = s.
Proof.
  unfold handle_file; destruct isConnected; cbn [negb]; [|by exists (Ok tt), s].
  rewrite bind_run; unfold on_tab at 1, begin_processing, update_view, modify; cbv beta iota.
  rewrite bind_run; unfold on_page at 1, set_up, modify; cbv beta iota. rewrite bind_run; unfold say at 1, on_page at 1, addLog, set_up, modify; cbv beta iota.
  set (s1 := mkSite _ _ _ _ _ _). assert (ready_site s1) as Hs1 by done. assert (mode2Uploading (up (page s1)) = false) as Hu1 by done.
  clearbody s1. rewrite bind_run.
  destruct (bool_decide _ && _); [|exact (sharded_here running unreadable file s1 Hs1 Hu1)].
  destruct (gateway_ingest_ends file polls s1 Hs1) as (r & s2 & -> & Hu & Hr). destruct r.
  - destruct Hr as (resp & w & root & _ & _ & _ & Htr & Hsl & Hph & Hc & _). exists (Ok tt), s2; split; [done|].
    unfold slab_of in Hsl; injection Hsl as Hcol Hroot _ _ Hp.
    split; [done|split; [done|left] ]. by repeat (split; [done|]); exists root.
  - destruct Hr as (Hsl & Hph & Hc & _). exists (Ok tt), s2; split; [done|]. unfold slab_of in Hsl; injection Hsl as Hcol Hroot Hb _ Hp.
    split; [done|split; [done|by right; right] ].
  - destruct Hr as (Hsl & Hc & _). exact (sharded_here running unreadable file s2 (conj Hsl Hc) Hu).
Qed.

(** C13: choosing a file settles unless its bytes cannot be read.  Whatever the gateway,
    its status answers, the core and the stored slab do: either the handler returns and
    is no longer processing, and then it is done and shows a manifest root, the
    gateway's or the page's own, or it shows an error with no slab and no manifest of
    this or an earlier file, and only a file the gateway took counts as uploaded; or it
    throws the error of [file.arrayBuffer()], nothing of the file or an earlier one is
    there to be uploaded or committed, and the page goes on processing.  With a file that
    can be read it returns.  Without a wallet it changes nothing. *)
Theorem handle_file_settles isConnected running polls unreadable file s :
  exists r s', handle_file cfg dealId stripe name uploadId statusText opMs isConnected running polls unreadable file s = (r, s') /\
    (if isConnected : bool then
       match r with
       | Ok _ => handled (site_view s') (up (page s'))
       | Thrown e => unreadable = Some e /\ unread (site_view s') (up (page s'))
       end
     else r = Ok tt /\ s' = s) /\
    match unreadable with None => r = Ok tt | Some _ => True end.
Proof.
  destruct (handle_file_facts isConnected running polls unreadable file s) as (r & s' & Hr & He); exists r, s'; split; [exact Hr|].
  split; [exact He|]. destruct unreadable; [done|]; destruct r as [ [] |e]; [done|]. by destruct isConnected; destruct He.
Qed.

End Ends.
