(* ===== verification/DealTx.v ===== *)
(** * Transactions of the deal pages (hooks/useCreateDeal.ts, useUpdateDealContent.ts, useDirectCommit.ts)

    Three calls of the chain's precompile: creating a deal, whose id is read from the
    event in the receipt, and setting the content of one, through the page's wallet or
    through the wallet library's [writeContract].  The wallet, the ABI codec and the
    network are parameters. *)
From S2P Require Import Prelude JsString JsNum TransportTypes Effects Bytes Text Multiaddr Http GatewayClient Config Evm FetchFlow.
#[local] Open Scope Z_scope.

(** ** [BigInt(string)] *)

Definition bigint_syntax {A} (s : string) : outcome A := mthrow (JsError "SyntaxError" ("Cannot convert " +:+ s +:+ " to a BigInt")).
Definition BigInt_of_string (s : string) : outcome Z :=
  let l := trim_chars (chars s) in
  let decimal (sign : Z) d := if bool_decide (d <> []) && forallb is_digit d then mret (sign * digits_val d) else bigint_syntax s in
  match l with
  | [] => mret 0
  | c :: r =>
      match (if bool_decide (c = "0"%char) then radix_prefix r else None) with
      | Some (radix, r') =>
          if bool_decide (r' = []) then bigint_syntax s
          else match parse_radix radix 0 r' with Some z => mret z | None => bigint_syntax s end
      | None =>
          if bool_decide (c = "-"%char) then decimal (-1) r
          else if bool_decide (c = "+"%char) then decimal 1 r
          else decimal 1 l
      end
  end.

Example bigint_examples :
  BigInt_of_string " 42 " = Ok 42 /\ BigInt_of_string "" = Ok 0 /\ BigInt_of_string "0x1f" = Ok 31 /\
  BigInt_of_string "-7" = Ok (-7) /\ is_ok (BigInt_of_string "1.5") = false /\ is_ok (BigInt_of_string "1e3") = false /\
  is_ok (BigInt_of_string "0x") = false.
Proof. by vm_compute. Qed.

(** [Math.max(1, d)] of a number that is not NaN *)
Definition at_least_one (d : dec) : dec :=
  match d with
  | DNaN => DNaN
  | DInf neg => if neg then DNum 1 0 else DInf false
  | DNum m e => if (if 0 <=? e then m * 10 ^ e <=? 1 else m <=? 10 ^ (- e)) then DNum 1 0 else d
  end.

(** ** The hooks *)

Record CreateDealInput := mkCreate {
  ci_creator : string; ci_duration : dec; ci_initialEscrow : string; ci_maxMonthlySpend : string;
  ci_replication : option dec; ci_serviceHint : option string
}.
Record UpdateDealContentInput := mkUpdate { uc_creator : string; uc_dealId : dec; uc_cid : string; uc_sizeBytes : dec }.

Section Tx.
Context `{Viem} {W : Type} `{Clock W, Http W, Wallet W}.

(** A hook's state beside the world. *)
Record TxPage := mkTx { tx_world : W; tx_loading : bool; tx_last : option string }.
Definition on_world {A} (m : M W A) : M TxPage A := fun p =>
  let '(r, w) := m (tx_world p) in (r, mkTx w (tx_loading p) (tx_last p)).
Definition setLastTx (tx : option string) : M TxPage unit := modify (fun p => mkTx (tx_world p) (tx_loading p) tx).

(** What both hooks do around a submission. *)
Definition submitting {A} (m : M TxPage A) : M TxPage A :=
  modify (fun p => mkTx (tx_world p) true None) ;;
  finally m (fun p => mkTx (tx_world p) false (tx_last p)).

Context (cfg : Config).

(** The wallet signs and sends a call of the precompile. *)
Definition send_call (evmAddress data : string) (gas : Z) : M TxPage string :=
  txHash ← on_world (eth_sendTransaction evmAddress (cf_nilstorePrecompile cfg) data (numberToHex gas));
  setLastTx (Some txHash) ;; mret txHash.
Definition need_wallet : M TxPage unit := fun p =>
  if has_ethereum (tx_world p) then (Ok tt, p) else js_error "Ethereum provider (MetaMask) not available" p.

(** *** useUpdateDealContent.ts *)

Definition update_call (dealId : Z) (manifestRoot : string) (size : Z) : outcome string :=
  encodeFunctionData NILSTORE_PRECOMPILE_ABI "updateDealContent" [VInt dealId; VHex manifestRoot; VInt size].

Definition update_data (input : UpdateDealContentInput) : outcome string :=
  dealId ← BigInt_of_dec (uc_dealId input);
  size ← BigInt_of_dec (uc_sizeBytes input);
  update_call dealId (trim (uc_cid input)) size.

Definition submitUpdate (input : UpdateDealContentInput) : M TxPage string :=
  submitting
    ((if starts_with "0x" (uc_creator input) then mret tt else js_error "EVM address required") ;;
     need_wallet ;;
     data ← lift (update_data input);
     txHash ← send_call (uc_creator input) data 3000000;
     on_world (waitForTransactionReceipt (cf_evmRpc cfg) txHash) ;;
     mret txHash).

(** *** useCreateDeal.ts *)

Definition replicas_of (input : CreateDealInput) : dec :=
  match ci_replication input with
  | Some d => if dec_is_finite d && dec_pos d then d else DNum 1 0
  | None => DNum 1 0
  end.
Definition hint_of (input : CreateDealInput) : string :=
  let given := trim (default "" (ci_serviceHint input)) in
  if truthy given then given else buildServiceHint "General" (Some (replicas_of input)) None None.

Definition create_data (input : CreateDealInput) : outcome string :=
  duration ← BigInt_of_dec (at_least_one (dec_or_zero (ci_duration input)));
  escrow ← BigInt_of_string (or_else (ci_initialEscrow input) "0");
  spend ← BigInt_of_string (or_else (ci_maxMonthlySpend input) "0");
  encodeFunctionData NILSTORE_PRECOMPILE_ABI "createDeal" [VInt duration; VStr (hint_of input); VInt escrow; VInt spend].

(** [receipt.logs || []] *)
Definition receipt_logs (receipt : json) : outcome (list json) :=
  match get_field receipt "logs" with
  | Some (JArr l) => mret l
  | Some j => if json_truthy j then mthrow (JsError "TypeError" "logs is not iterable") else mret []
  | None => mret []
  end.

(** [String(log.address || '').toLowerCase()] is the precompile's. *)
Definition from_precompile (log : json) : bool :=
  eqb (match get_field log "address" with Some a => if json_truthy a then to_lower (json_String a) else "" | None => "" end)
    (to_lower (cf_nilstorePrecompile cfg)).

(** [undefined] where viem gives no such argument *)
Definition deal_id_text (args : list (string * abi_value)) : string :=
  match assoc "dealId" args with Some (VInt z) => string_of_Z z | _ => "undefined" end.
Definition deal_created (log : json) : option string :=
  if negb (from_precompile log) then None
  else
    match decodeEventLog NILSTORE_PRECOMPILE_ABI "DealCreated"
            (default JNull (get_field log "topics")) (default JNull (get_field log "data")) with
    | Ok args => Some (deal_id_text args)
    | Thrown _ => None
    end.
Fixpoint find_deal (logs : list json) : outcome string :=
  match logs with
  | [] => mthrow (Error "createDeal tx confirmed but DealCreated event not found")
  | JNull :: _ => mthrow (JsError "TypeError" "Cannot read properties of null (reading 'address')")
  | log :: rest => match deal_created log with Some id => mret id | None => find_deal rest end
  end.

(** The transaction hash and the deal id. *)
Definition submitDeal (input : CreateDealInput) : M TxPage (string * string) :=
  submitting
    ((if starts_with "0x" (ci_creator input) then mret tt else js_error "EVM address required") ;;
     need_wallet ;;
     data ← lift (create_data input);
     txHash ← send_call (ci_creator input) data 5000000;
     receipt ← on_world (waitForTransactionReceipt (cf_evmRpc cfg) txHash);
     logs ← lift (receipt_logs receipt);
     dealId ← lift (find_deal logs);
     mret (txHash, dealId)).
End Tx.
#[global] Arguments TxPage : clear implicits.
#[global] Arguments mkTx {W} _ _ _.
#[global] Arguments tx_world {W} _.
#[global] Arguments tx_loading {W} _.
#[global] Arguments tx_last {W} _.

(** *** useDirectCommit.ts *)

(** What [writeContract] is asked for. *)
Record ContractCall := mkCall { cc_address : string; cc_functionName : string; cc_args : list abi_value }.

Definition formattedRoot (manifestRoot : string) : string :=
  if starts_with "0x" manifestRoot then manifestRoot else "0x" +:+ manifestRoot.
Definition commitContent (cfg : Config) (dealId manifestRoot : string) (fileSize : dec) : outcome ContractCall :=
  id ← BigInt_of_string dealId;
  size ← BigInt_of_dec fileSize;
  mret (mkCall (cf_nilstorePrecompile cfg) "updateDealContent" [VInt id; VHex (formattedRoot manifestRoot); VInt size]).

(** ** What they promise *)

Lemma at_least_one_int d z : d <> DNaN -> BigInt_of_dec (at_least_one d) = Ok z -> 1 <= z.
Proof.
  intros Hd; destruct d as [|[]|m e]; [done|by intros [= <-]|discriminate|]; unfold at_least_one.
  destruct (Z.leb_spec 0 e) as [He|He].
  - destruct (Z.leb_spec (m * 10 ^ e) 1) as [Hle|Hgt]; [by intros [= <-]|]; unfold BigInt_of_dec.
    destruct (Z.leb_spec 0 e); [|lia]. intros [= <-]; apply (Z.le_succ_l 0), round53_pos; lia.
  - destruct (Z.leb_spec m (10 ^ (- e))) as [Hle|Hgt]; [by intros [= <-]|]; unfold BigInt_of_dec.
    destruct (Z.leb_spec 0 e); [lia|]. destruct (Z.eqb_spec (m mod 10 ^ (- e)) 0) as [Hm|]; [|discriminate].
    intros [= <-]; apply (Z.le_succ_l 0), round53_pos. apply Z.le_succ_l. assert (0 < 10 ^ (- e)) by (apply Z.pow_pos_nonneg; lia).
    apply Z.div_le_lower_bound; lia.
Qed.

Lemma BigInt_of_numeral z : 0 <= z -> BigInt_of_string (string_of_Z z) = Ok z.
Proof.
  intros Hz; destruct (string_of_Z_digits z Hz) as (Hne & Hd & Hv); unfold BigInt_of_string.
  rewrite trim_chars_id by by apply digits_not_ws.
  destruct (chars (string_of_Z z)) as [|c r] eqn:E; [done|].
  assert (forall a, is_digit a = false -> bool_decide (c = a) = false) as Hc.
  { intros a Ha; apply bool_decide_eq_false_2; intros ->. inversion Hd as [|? ? Hda _]; unfold digit_char in Hda; congruence. }
  assert (forallb is_digit (c :: r) = true) as Hall by (apply forallb_forall; intros x Hx%list_elem_of_In; rewrite Forall_forall in Hd; by apply Hd).
  cbv zeta; rewrite (Hc "-"%char), (Hc "+"%char), Z.mul_1_l by done. destruct (bool_decide (c = "0"%char)) eqn:E0; [|by rewrite Hall, bool_decide_eq_true_2, Hv by done].
  assert (radix_prefix r = None) as ->; [|by rewrite Hall, bool_decide_eq_true_2, Hv by done].
  unfold radix_prefix; destruct r as [|c' r']; [done|].
  assert (is_digit c' = true) as Hc' by (rewrite Forall_forall in Hd; apply Hd; set_solver).
  rewrite !bool_decide_eq_false_2; [done|..]; intros [-> | ->]; discriminate Hc'.
Qed.

Section TxFacts.
Context `{Viem} {W : Type} `{Clock W, Http W, Wallet W} (cfg : Config).

Lemma find_deal_first logs id : find_deal cfg logs = Ok id <->
  exists before log after, logs = before ++ log :: after /\ deal_created cfg log = Some id /\ log <> JNull /\
    Forall (fun l => l <> JNull /\ deal_created cfg l = None) before.
Proof.
  split.
  - induction logs as [|log logs IH]; [discriminate|]; cbn [find_deal].
    assert (log = JNull \/ log <> JNull) as [-> |Hn] by (destruct log; auto); [discriminate|].
    assert (match log with JNull => mthrow (JsError "TypeError" "Cannot read properties of null (reading 'address')") |
      _ => match deal_created cfg log with Some id => mret id | None => find_deal cfg logs end end =
      match deal_created cfg log with Some id => mret id | None => find_deal cfg logs end) as -> by by destruct log.
    destruct (deal_created cfg log) as [i|] eqn:E; [intros [= <-]; by exists [], log, logs|].
    intros Hf; destruct (IH Hf) as (before & l & after & -> & Hl & Hln & Hb); exists (log :: before), l, after; by repeat constructor.
  - intros (before & log & after & -> & Hl & Hn & Hb); induction Hb as [|x before [Hx Hxc] _ IH]; cbn [app find_deal].
    + destruct log; [done|..]; by rewrite Hl.
    + destruct x; [done|..]; by rewrite Hxc.
Qed.

(** What a hook may have done when it throws: nothing, or asked the wallet in vain, or
    sent the transaction it shows. *)
Definition threw (from : string) (data : outcome string) (gas : Z) (e : jserr) (p p' : TxPage W) : Prop :=
  match tx_last p' with
  | None => tx_world p' = tx_world p \/
      exists d, data = Ok d /\
        eth_sendTransaction from (cf_nilstorePrecompile cfg) d (numberToHex gas) (tx_world p) = (Thrown e, tx_world p')
  | Some tx => exists d w1, data = Ok d /\
      eth_sendTransaction from (cf_nilstorePrecompile cfg) d (numberToHex gas) (tx_world p) = (Ok tx, w1) /\
      tx_world p' = (waitForTransactionReceipt (cf_evmRpc cfg) tx w1).2
  end.

(** The sent transaction and the receipt that was waited for. *)
Definition transacted (from : string) (data : outcome string) (gas : Z) (tx : string) (receipt : json) (p p' : TxPage W) : Prop :=
  starts_with "0x" from = true /\ has_ethereum (tx_world p) = true /\ tx_last p' = Some tx /\
  exists d w1, data = Ok d /\
    eth_sendTransaction from (cf_nilstorePrecompile cfg) d (numberToHex gas) (tx_world p) = (Ok tx, w1) /\
    waitForTransactionReceipt (cf_evmRpc cfg) tx w1 = (Ok receipt, tx_world p') /\ confirmed receipt.

Lemma submitting_run {A} from data gas (after : string -> json -> M (TxPage W) A) (out : string -> json -> outcome A) (p : TxPage W) :
  (forall tx receipt p, after tx receipt p = (out tx receipt, p)) ->
  let '(r, p') :=
    submitting
      ((if starts_with "0x" from then mret tt else js_error "EVM address required") ;;
       need_wallet ;;
       d ← lift data;
       txHash ← send_call cfg from d gas;
       receipt ← on_world (waitForTransactionReceipt (cf_evmRpc cfg) txHash);
       after txHash receipt) p in
  tx_loading p' = false /\
  match r with
  | Ok a => exists tx receipt, transacted from data gas tx receipt p p' /\ out tx receipt = Ok a
  | Thrown e => threw from data gas e p p'
  end.
Proof.
  intros Hout; unfold submitting, threw, transacted; rewrite bind_run; unfold modify, finally; cbn beta iota.
  rewrite bind_run; destruct (starts_with "0x" from) eqn:Hx; [|by cbn; auto]. cbn [mret M_ret].
  rewrite bind_run; unfold need_wallet; cbn [tx_world]; destruct (has_ethereum (tx_world p)) eqn:Hw; [|by cbn; auto].
  rewrite bind_run; unfold lift at 1; destruct data as [d|e]; [|by cbn; auto].
  rewrite bind_run; unfold send_call; rewrite bind_run; unfold on_world at 1; cbn [tx_world].
  destruct (eth_sendTransaction from (cf_nilstorePrecompile cfg) d (numberToHex gas) (tx_world p)) as [ [tx|e] w1] eqn:Hs;
    [|cbn; split; [done|right; by exists d] ].
  unfold setLastTx, modify; rewrite bind_run; cbn [tx_world tx_loading tx_last mret M_ret]; cbv beta iota zeta.
  rewrite bind_run; unfold on_world; cbn [tx_world tx_loading tx_last].
  destruct (waitForTransactionReceipt (cf_evmRpc cfg) tx w1) as [ [receipt|e] w2] eqn:Hr; cbv beta iota; [rewrite Hout|]; cbv beta iota zeta;
    cbn [tx_world tx_loading tx_last].
  - destruct (out tx receipt) as [a|e] eqn:Ha; (split; [done|]).
    + exists tx, receipt; split; [|done]. repeat (split; [done|]). exists d, w1; repeat (split; [done|]).
      by eapply receipt_confirmed.
    + exists d, w1; repeat (split; [done|]). by rewrite Hr.
  - split; [done|]. exists d, w1; repeat (split; [done|]). by rewrite Hr.
Qed.

(** C14: A created deal is the one the chain reports.  [submitDeal] returns a transaction
    that the wallet sent for the given account to the precompile, that asks for at
    least one block, and whose receipt is there and not reverted; the id is that of the
    first [DealCreated] event in it that the precompile emitted and viem can read.  If
    it throws, it shows the hash of the transaction it sent, or none was sent.  Either
    way it is no longer loading. *)
Theorem submitDeal_reports_event input (p : TxPage W) :
  let '(r, p') := submitDeal cfg input p in
  tx_loading p' = false /\
  match r with
  | Ok (tx, dealId) => exists receipt before log after duration escrow spend,
      transacted (ci_creator input)
        (encodeFunctionData NILSTORE_PRECOMPILE_ABI "createDeal" [VInt duration; VStr (hint_of input); VInt escrow; VInt spend])
        5000000 tx receipt p p' /\
      1 <= duration /\
      receipt_logs receipt = Ok (before ++ log :: after) /\ Forall (fun l => deal_created cfg l = None) before /\
      from_precompile cfg log = true /\ deal_created cfg log = Some dealId
  | Thrown e => threw (ci_creator input) (create_data input) 5000000 e p p'
  end.
Proof.
  pose proof (submitting_run (ci_creator input) (create_data input) 5000000
    (fun tx receipt => logs ← lift (receipt_logs receipt); id ← lift (find_deal cfg logs); mret (tx, id))
    (fun tx receipt => logs ← receipt_logs receipt; id ← find_deal cfg logs; mret (tx, id)) p) as Hrun.
  change (submitting _ p) with (submitDeal cfg input p) in Hrun.
  destruct (submitDeal cfg input p) as [r p'].
  destruct Hrun as [Hl Hr].
  { intros tx receipt q; rewrite bind_run; unfold lift; destruct (receipt_logs receipt) as [logs|e]; [|done].
    cbv beta iota; rewrite bind_run; cbn [mbind outcome_bind]; destruct (find_deal cfg logs); done. }
  split; [done|]. destruct r as [ [tx id]|e]; [|done].
  destruct Hr as (tx' & receipt & Ht & Ha).
  destruct (receipt_logs receipt) as [logs|] eqn:Hlogs; [|discriminate]; cbn in Ha.
  destruct (find_deal cfg logs) as [id'|] eqn:Hid; [|discriminate]; injection Ha as -> ->.
  apply find_deal_first in Hid as (before & log & after & -> & Hlog & _ & Hb).
  destruct Ht as (Hx & Hw & Hlast & d & w1 & Hd & Hs).
  pose proof Hd as Hdata. unfold create_data in Hd.
  destruct (BigInt_of_dec _) as [duration|] eqn:Hdur; [|discriminate]; cbn [mbind outcome_bind] in Hd.
  destruct (BigInt_of_string (or_else (ci_initialEscrow input) "0")) as [escrow|]; [|discriminate]; cbn [mbind outcome_bind] in Hd.
  destruct (BigInt_of_string (or_else (ci_maxMonthlySpend input) "0")) as [spend|]; [|discriminate]; cbn [mbind outcome_bind] in Hd.
  exists receipt, before, log, after, duration, escrow, spend.
  split; [repeat (split; [done|]); by exists d, w1|].
  split; [apply at_least_one_int in Hdur; [done|]; unfold dec_or_zero; by repeat case_match|].
  split; [done|]. split; [eapply Forall_impl; [exact Hb|]; by intros ? [_ ?]|].
  split; [|done]. unfold deal_created in Hlog; by destruct (from_precompile cfg log).
Qed.

(** A content update is confirmed before it succeeds.  [submitUpdate] returns the
    hash of a transaction from the given account to the precompile that sets the
    trimmed manifest root and the size of the given deal, and whose receipt is there
    and not reverted; if it throws, it shows the hash of what it sent, or nothing was
    sent.  Either way it is no longer loading. *)
Theorem submitUpdate_confirmed input (p : TxPage W) :
  let '(r, p') := submitUpdate cfg input p in
  tx_loading p' = false /\
  match r with
  | Ok tx => exists receipt dealId size,
      BigInt_of_dec (uc_dealId input) = Ok dealId /\ BigInt_of_dec (uc_sizeBytes input) = Ok size /\
      transacted (uc_creator input) (update_call dealId (trim (uc_cid input)) size) 3000000 tx receipt p p'
  | Thrown e => threw (uc_creator input) (update_data input) 3000000 e p p'
  end.
Proof.
  pose proof (submitting_run (uc_creator input) (update_data input) 3000000 (fun tx _ => mret tx) (fun tx _ => mret tx) p) as Hrun.
  change (submitting _ p) with (submitUpdate cfg input p) in Hrun.
  destruct (submitUpdate cfg input p) as [r p']. destruct Hrun as [Hl Hr]; [done|].
  split; [done|]. destruct r as [tx|e]; [|done]. destruct Hr as (tx' & receipt & Ht & [= ->]).
  destruct Ht as (Hx & Hw & Hlast & d & w1 & Hd & Hs). unfold update_data in Hd.
  destruct (BigInt_of_dec (uc_dealId input)) as [dealId|]; [|discriminate]; cbn [mbind outcome_bind] in Hd.
  destruct (BigInt_of_dec (uc_sizeBytes input)) as [size|]; [|discriminate]; cbn [mbind outcome_bind] in Hd.
  exists receipt, dealId, size; repeat (split; [done|]). by exists d, w1.
Qed.
End TxFacts.
