(* ===== verification/CommitFlow.v ===== *)
(** * From a chosen file to a committed deal (components/FileSharder.tsx)

    What the component reads of the deal, what it lets the user do next, and the life
    cycle that choosing a file, uploading its slab and committing its manifest make
    together.  A handler is asynchronous: other events may come between its first and
    its last state change.  The life cycle therefore has a step for each of those, and
    [handlers_refine_life] shows that the handlers of [GatewayIngest] and [Upload], run
    undisturbed, are those steps. *)
From S2P Require Import Prelude JsString JsNum TransportTypes Effects Bytes Text Multiaddr Http Lcd GatewayClient Config.
From S2P Require Import Nilfs Opfs NilWasm Evm FetchFlow Sharding Upload Persist GatewayIngest DealTx.
#[local] Open Scope Z_scope.

(** ** What the deal says *)

Record DealSettings := mkSettings { stripeParams : option (dec * dec); stripeParamsLoaded : bool; slotBases : list string }.

Section LoadDeal.
Context {W : Type} `{Http W}.
Context (lcdBase dealId : string).
(** Whether the effect has been cleaned up at the [i]th look. *)
Context (cancelled : nat -> bool).

Definition on_settings (f : DealSettings -> DealSettings) : M (W * DealSettings) unit := modify (fun p => (p.1, f p.2)).
Definition on_lcd {A} (m : M W A) : M (W * DealSettings) A := fun p => let '(r, w) := m p.1 in (r, (w, p.2)).
Definition unless (i : nat) (m : M (W * DealSettings) unit) : M (W * DealSettings) unit := if cancelled i then mret tt else m.

Definition hint_params (deal : option LcdDeal) : option (dec * dec) :=
  let parsed := parseServiceHint (d_service_hint <$> deal) in
  match hint_mode parsed, hint_rsK parsed, hint_rsM parsed with
  | mode2, Some k, Some m => if dec_truthy k && dec_truthy m then Some (k, m) else None
  | _, _, _ => None
  end.

Definition loadDeal : M (W * DealSettings) unit :=
  on_settings (fun s => mkSettings (stripeParams s) false (slotBases s)) ;;
  if is_empty dealId then on_settings (fun _ => mkSettings None true [])
  else
    try_catch
      (deal ← on_lcd (lcdFetchDeal lcdBase dealId);
       unless 0 (on_settings (fun s => mkSettings (hint_params deal) true (slotBases s))) ;;
       endpoints ← on_lcd (resolveProviderEndpoints lcdBase dealId);
       unless 1 (on_settings (fun s => mkSettings (stripeParams s) (stripeParamsLoaded s) (map pe_baseUrl endpoints))))
      (fun _ => unless 2 (on_settings (fun _ => mkSettings None true []))).
End LoadDeal.

(** [Boolean(stripeParams && stripeParams.k > 0 && stripeParams.m > 0)] *)
Definition isMode2 (s : DealSettings) : bool :=
  match stripeParams s with Some (k, m) => dec_pos k && dec_pos m | None => false end.

(** ** What the user may do next *)

(** The wallet library's commit transaction. *)
Record CommitTx := mkCommit {
  isCommitPending : bool; isCommitConfirming : bool; isCommitSuccess : bool; commitHash : option string; commitError : option string
}.

Section Flags.
Context (stripe : option StripeParams).

Definition isUploadComplete (u : UploadState) : bool :=
  match stripe with Some _ => mode2UploadComplete u | None => upload_complete u end.
Definition activeUploading (u : UploadState) : bool :=
  match stripe with Some _ => mode2Uploading u | None => isUploading u end.
Definition isAlreadyCommitted (v : Sharder) (c : CommitTx) (lastCommit : option string) : bool :=
  isCommitSuccess c && bool_decide (lastCommit = currentManifestRoot v).
Definition hasManifestRoot (v : Sharder) : bool := truthy (trim (default "" (currentManifestRoot v))).
Definition readyToUpload (v : Sharder) (u : UploadState) : bool :=
  hasManifestRoot v && negb (isUploadComplete u) &&
  ((0 <? zlen (collectedMdus v)) || (bool_decide (is_Some stripe) && (0 <? zlen (mode2Shards v)))).
Definition readyToCommit (v : Sharder) (u : UploadState) (c : CommitTx) (lastCommit : option string) : bool :=
  hasManifestRoot v && isUploadComplete u && negb (isAlreadyCommitted v c lastCommit).
Definition hasError (v : Sharder) (u : UploadState) (c : CommitTx) : bool :=
  (match sp_phase (shardProgress v) with phase_error => true | _ => false end) || opt_str (mode2UploadError u) || bool_decide (is_Some (commitError c)).
Definition showStatusPanel (v : Sharder) (u : UploadState) (c : CommitTx) (lastCommit : option string) : bool :=
  processing v || activeUploading u || readyToUpload v u || readyToCommit v u c lastCommit || isCommitPending c ||
  isCommitConfirming c || isAlreadyCommitted v c lastCommit || hasError v u c.

(** The upload button is there, and enabled. *)
Definition can_upload (v : Sharder) (u : UploadState) : bool :=
  (0 <? zlen (collectedMdus v)) && opt_str (currentManifestRoot v) &&
  negb (activeUploading u || processing v || isUploadComplete u).
Definition can_commit (v : Sharder) (u : UploadState) (c : CommitTx) (lastCommit : option string) : bool :=
  readyToCommit v u c lastCommit && negb (isCommitPending c || isCommitConfirming c || isAlreadyCommitted v c lastCommit).

(** What the commit button asks the wallet to sign.  In mode 2 the size is the one the
    progress shows, which a gateway may have set. *)
Definition commit_size (v : Sharder) (fileBytesTotal : dec) : dec :=
  match stripe with
  | Some _ => fileBytesTotal
  | None => DNum (fold_left (fun acc mdu => acc + zlen mdu.2) (collectedMdus v) 0) 0
  end.
Definition commit_button (cfg : Config) (dealId : string) (v : Sharder) (fileBytesTotal : dec) : outcome ContractCall :=
  commitContent cfg dealId (default "" (currentManifestRoot v)) (commit_size v fileBytesTotal).

(** The guard of the effect that keeps the slab, [Persist.persist]. *)
Definition persist_due (c : CommitTx) (v : Sharder) : bool :=
  isCommitSuccess c && opt_str (currentManifestRoot v) &&
  ((0 <? zlen (collectedMdus v)) || bool_decide (is_Some stripe)).
End Flags.

(** ** The life cycle of a mode 2 deal *)

Record Life := mkLife {
  lf_view : Sharder; lf_up : UploadState;
  (** the chosen files whose handler is running, the slabs whose upload is, and those
      whose copy for the gateway is *)
  lf_files : list File; lf_uploads : list Sharder; lf_mirrors : list Sharder;
  lf_commit : CommitTx; lf_lastCommit : option string; lf_lastTx : option string;
  (** the roots whose slab every provider has answered for, or that a gateway has
      answered with; those sent to the chain; those written to the local store *)
  lf_delivered : list string; lf_committed : list string; lf_saved : list string
}.

Inductive event :=
| ev_choose (file : File) | ev_handled | ev_unread | ev_upload | ev_upload_end (v : Sharder) (ok : bool) | ev_mirror | ev_mirror_end
| ev_commit | ev_signed (hash : string) | ev_rejected (error : string) | ev_confirmed | ev_reverted (error : string).

Section Life.
Context (dealId : string) (s : StripeParams) (slotBases : list string).
Let stripe := Some s.

Definition with_upload (u : UploadState) (uploads mirrors : list Sharder) (delivered : list string) (l : Life) : Life :=
  mkLife (lf_view l) u (lf_files l) uploads mirrors (lf_commit l) (lf_lastCommit l) (lf_lastTx l) delivered (lf_committed l) (lf_saved l).
Definition with_commit (c : CommitTx) (last tx : option string) (committed saved : list string) (l : Life) : Life :=
  mkLife (lf_view l) (lf_up l) (lf_files l) (lf_uploads l) (lf_mirrors l) c last tx (lf_delivered l) committed saved.

(** The two effects that follow a render. *)
Definition commit_effect (l : Life) : Life :=
  if isCommitSuccess (lf_commit l) && opt_str (currentManifestRoot (lf_view l)) && truthy dealId && opt_str (commitHash (lf_commit l)) &&
     negb (bool_decide (lf_lastTx l = commitHash (lf_commit l)))
  then with_commit (lf_commit l) (currentManifestRoot (lf_view l)) (commitHash (lf_commit l)) (lf_committed l) (lf_saved l) l
  else l.
Definition persist_effect (l : Life) : Life :=
  if persist_due stripe (lf_commit l) (lf_view l)
  then with_commit (lf_commit l) (lf_lastCommit l) (lf_lastTx l) (lf_committed l)
         (default "" (currentManifestRoot (lf_view l)) :: lf_saved l) l
  else l.
Definition settle (l : Life) : Life := persist_effect (commit_effect l).

Definition root_of (v : Sharder) : string := default "" (currentManifestRoot v).

(** A file is chosen: what [processFile] clears at once.  Neither the file input nor the
    drop zone is ever disabled. *)
Definition choose (file : File) (l : Life) : Life :=
  mkLife (mkSharder [] [] None None [] true (reset_progress (zlen (file_bytes file)))) (clear_upload (lf_up l)) (file :: lf_files l)
    (lf_uploads l) (lf_mirrors l) (lf_commit l) (lf_lastCommit l) (lf_lastTx l) (lf_delivered l) (lf_committed l) (lf_saved l).
(** The end of a handler; [taken] is the root a gateway that took the file answered with. *)
Definition finish (v : Sharder) (u : UploadState) (files : list File) (taken : option string) (l : Life) : Life :=
  mkLife v u files (lf_uploads l) (lf_mirrors l) (lf_commit l) (lf_lastCommit l) (lf_lastTx l)
    (match taken with Some root => root :: lf_delivered l | None => lf_delivered l end) (lf_committed l) (lf_saved l).
Definition finish_file (v : Sharder) (u : UploadState) (l : Life) : Life :=
  finish v u [] (if mode2UploadComplete u then Some (root_of v) else None) l.
Definition start_upload (l : Life) : Life :=
  with_upload (setMode2 true false None (lf_up l)) (lf_view l :: lf_uploads l) (lf_mirrors l) (lf_delivered l) l.
Definition set_upload (f : UploadState -> UploadState) (l : Life) : Life :=
  with_upload (f (lf_up l)) (lf_uploads l) (lf_mirrors l) (lf_delivered l) l.
(** An upload ends; it shows its outcome whatever the page shows by now.  One that
    succeeded goes on to the gateway's copy. *)
Definition end_upload (v : Sharder) (rest : list Sharder) (error : option string) (l : Life) : Life :=
  with_upload (mode2_ended error (lf_up l)) rest
    (match error with None => v :: lf_mirrors l | Some _ => lf_mirrors l end)
    (match error with None => root_of v :: lf_delivered l | Some _ => lf_delivered l end) l.
Definition set_mirror (u : UploadState) (mirrors : list Sharder) (l : Life) : Life :=
  with_upload u (lf_uploads l) mirrors (lf_delivered l) l.
Definition set_commit (c : CommitTx) (l : Life) : Life :=
  with_commit c (lf_lastCommit l) (lf_lastTx l) (lf_committed l) (lf_saved l) l.
Definition click_commit (l : Life) : Life :=
  with_commit (mkCommit true false false None None) (lf_lastCommit l) (lf_lastTx l) (root_of (lf_view l) :: lf_committed l) (lf_saved l) l.

(** One event.  The handlers of two files that overlap write over each other's state;
    where they do, the end of one may leave any slab and any flags. *)
Inductive step : Life -> event -> Life -> Prop :=
| st_choose file l : step l (ev_choose file) (choose file l)
| st_handled file v u l : lf_files l = [file] -> handled v u -> step l ev_handled (settle (finish_file v u l))
| st_unread file v u l : lf_files l = [file] -> unread v u -> step l ev_unread (settle (finish_file v u l))
| st_overlapped before file after v u taken l : lf_files l = before ++ file :: after -> before ++ after <> [] ->
    step l ev_handled (settle (finish v u (before ++ after) taken l))
| st_upload l : can_upload stripe (lf_view l) (lf_up l) = true -> mode2_ready stripe slotBases (lf_view l) ->
    step l ev_upload (start_upload l)
| st_upload_refused reason l : can_upload stripe (lf_view l) (lf_up l) = true -> ~ mode2_ready stripe slotBases (lf_view l) ->
    step l ev_upload (set_upload (setMode2UploadError (Some reason)) l)
| st_upload_end v before after error l :
    lf_uploads l = before ++ v :: after ->
    step l (ev_upload_end v (bool_decide (error = None))) (end_upload v (before ++ after) error l)
| st_mirror v u l : v ∈ lf_mirrors l -> mirror_writes (lf_up l) u -> step l ev_mirror (set_mirror u (lf_mirrors l) l)
| st_mirror_end before v after l : lf_mirrors l = before ++ v :: after -> step l ev_mirror_end (set_mirror (lf_up l) (before ++ after) l)
| st_commit l : can_commit stripe (lf_view l) (lf_up l) (lf_commit l) (lf_lastCommit l) = true -> step l ev_commit (click_commit l)
| st_signed hash l : isCommitPending (lf_commit l) = true ->
    step l (ev_signed hash) (set_commit (mkCommit false true false (Some hash) None) l)
| st_rejected e l : isCommitPending (lf_commit l) = true -> step l (ev_rejected e) (set_commit (mkCommit false false false None (Some e)) l)
| st_confirmed l : isCommitConfirming (lf_commit l) = true ->
    step l ev_confirmed (settle (set_commit (mkCommit false false true (commitHash (lf_commit l)) None) l))
| st_reverted e l : isCommitConfirming (lf_commit l) = true ->
    step l (ev_reverted e) (set_commit (mkCommit false false false (commitHash (lf_commit l)) (Some e)) l).

Inductive steps (ok : Life -> event -> Prop) : Life -> Life -> Prop :=
| steps_nil l : steps ok l l
| steps_cons l ev l1 l2 : step l ev l1 -> ok l ev -> steps ok l1 l2 -> steps ok l l2.

Lemma steps_trans ok l1 l2 l3 : steps ok l1 l2 -> steps ok l2 l3 -> steps ok l1 l3.
Proof. induction 1; [done|]. intros; econstructor; eauto. Qed.

Definition life_start : Life :=
  mkLife (mkSharder [] [] None None [] false (mkShardProgress phase_idle "" 0 0 0 64 0 0 0 0 0 None None))
    (mkUp false false None mirror_idle None [] false []) [] [] [] (mkCommit false false false None None) None None [] [] [].

(** No file is chosen while another is being handled or an upload runs. *)
Definition patient (l : Life) (ev : event) : Prop :=
  match ev with ev_choose _ => lf_files l = [] /\ lf_uploads l = [] | _ => True end.
Definition any_event (l : Life) (ev : event) : Prop := True.

(** ** What is committed was uploaded *)

Lemma can_upload_quiet v u : can_upload stripe v u = true -> mode2Uploading u = false /\ processing v = false.
Proof.
  unfold can_upload, activeUploading; cbn [stripe]. intros (_ & Hn)%andb_true_iff; apply negb_true_iff in Hn.
  apply orb_false_iff in Hn as [Hn _]. by apply orb_false_iff in Hn.
Qed.
Lemma can_commit_complete v u c last : can_commit stripe v u c last = true -> mode2UploadComplete u = true.
Proof. unfold can_commit, readyToCommit, isUploadComplete; cbn [stripe]. intros Hc.
  apply andb_true_iff in Hc as [Hc _]; apply andb_true_iff in Hc as [Hc _]; by apply andb_true_iff in Hc as [_ ?].
Qed.

(** Only one file is handled at a time; the only upload that runs is of the slab that is
    shown, and it is done when its root has been delivered. *)
Record life_inv (l : Life) : Prop := {
  li_committed : Forall (fun r => r ∈ lf_delivered l) (lf_committed l);
  li_complete : mode2UploadComplete (lf_up l) = true -> root_of (lf_view l) ∈ lf_delivered l;
  li_uploads : (lf_uploads l = [] \/
    (lf_uploads l = [lf_view l] /\ mode2Uploading (lf_up l) = true /\ mode2UploadComplete (lf_up l) = false /\ lf_files l = []));
  li_files : lf_files l = [] \/
    (exists file, lf_files l = [file] /\ lf_uploads l = [] /\ mode2UploadComplete (lf_up l) = false /\ processing (lf_view l) = true)
}.

Lemma settle_keeps l : life_inv l -> life_inv (settle l).
Proof.
  intros [H1 H2 H3 H4]; unfold settle, persist_effect, commit_effect.
  repeat case_match; by constructor.
Qed.
Lemma delivered_more r l k : Forall (fun x => x ∈ l) k -> Forall (fun x : string => x ∈ r :: l) k.
Proof. intros Hf; eapply Forall_impl; [exact Hf|]. intros x Hx; by right. Qed.

(** The end of the one handler that runs. *)
Lemma finish_keeps v u file l : lf_files l = [file] -> life_inv l -> life_inv (finish_file v u l).
Proof.
  intros Hf [H1 H2 H3 H4]. destruct H4 as [H4|(f & _ & Hu & Hc & _)]; [congruence|].
  constructor; cbn; [|intros ->; by left|by left|by left]. destruct (mode2UploadComplete u); [by apply delivered_more|done].
Qed.

Lemma life_inv_step l ev l' : step l ev l' -> patient l ev -> life_inv l -> life_inv l'.
Proof.
  intros Hstep Hp Hi; pose proof Hi as [H1 H2 H3 H4];
    destruct Hstep as [file l|file v u l Hf _|file v u l Hf _|before file after v u taken l Hf Hne|l Hc Hr|reason l Hc _|v before after error l Hu
      |v u l _ (st & e & log & ->)|before v after l _|l Hc|hash l _|e l _|l _|e l _];
    try (by constructor).
  - destruct Hp as [Hpf Hpu]; constructor; cbn; [done|discriminate|by left|right]. exists file; by rewrite Hpf, Hpu.
  - apply settle_keeps; by eapply finish_keeps.
  - apply settle_keeps; by eapply finish_keeps.
  - exfalso; apply Hne. destruct H4 as [H4|(f & H4 & _)]; rewrite H4 in Hf; [by destruct before|].
    destruct before as [|x [|y b] ]; [|discriminate..]. by injection Hf as _ <-.
  - apply can_upload_quiet in Hc as [Hq Hpr]. destruct H4 as [Hnf|(? & _ & _ & _ & ?)]; [|congruence].
    destruct H3 as [H3|(_ & Ht & _)]; [|congruence]. constructor; cbn; [done|discriminate| |by left].
    right; by rewrite H3.
  - destruct H3 as [H3|(H3 & Hup & Hcm & Hnf)]; rewrite H3 in Hu; [by destruct before|].
    assert (before = [] /\ after = [] /\ v = lf_view l) as (-> & -> & ->).
    { destruct before as [|x [|y b] ]; [|discriminate..]. by injection Hu as <- <-. }
    destruct error as [e|]; (constructor; cbn; [first [by apply delivered_more|done]| |by left|by left]); [by rewrite Hcm|by left].
  - constructor; cbn; [constructor; [|done]; apply H2; by eapply can_commit_complete|done|done|done].
  - apply settle_keeps; by constructor.
Qed.

Lemma life_inv_start : life_inv life_start.
Proof. constructor; cbn; [constructor|discriminate|by left|by left]. Qed.

Lemma life_inv_steps l l' : steps patient l l' -> life_inv l -> life_inv l'.
Proof. induction 1 as [|l ev l1 l2 Hs Hp _ IH]; [done|]. intros Hi; apply IH; by eapply life_inv_step. Qed.

(** C10: On a mode 2 deal only a delivered slab can be committed.  As long as no file is
    chosen while another is being handled or an upload runs (the page does not prevent
    it, see [impatient_commit_undelivered]), whatever the gateway, the providers, the
    wallet and the chain answer and in whatever order: the commit button is enabled only
    for a manifest root that is delivered, and so is every root that was sent to the
    chain.  Delivered means that every provider accepted every request of its slab's
    upload, or that the root is the local gateway's answer to a file it took. *)
Theorem committed_was_delivered l :
  steps patient life_start l ->
  Forall (fun root => root ∈ lf_delivered l) (lf_committed l) /\
  (can_commit stripe (lf_view l) (lf_up l) (lf_commit l) (lf_lastCommit l) = true -> root_of (lf_view l) ∈ lf_delivered l).
Proof.
  intros Hs; pose proof (life_inv_steps _ _ Hs life_inv_start) as [H1 H2 _ _]; split; [done|].
  intros Hc; apply H2; by eapply can_commit_complete.
Qed.
End Life.

(** ** The handlers are the steps *)

Section Refine.
Context {Ctx : Type} `{Kzg Ctx} {W : Type} `{Http W}.
Context (cfg : Config) (dealId : string) (s : StripeParams) (slotBases : list string).
Context (name uploadId : string) (statusText : Response -> string) (opMs : Z -> Z).

(** What the component shows is what the life cycle shows. *)
Definition shows (v : Sharder) (u : UploadState) (l : Life) : Prop := lf_view l = v /\ lf_up l = u.

Lemma settle_shows l : lf_view (settle dealId s l) = lf_view l /\ lf_up (settle dealId s l) = lf_up l.
Proof. unfold settle, persist_effect, commit_effect; by repeat case_match. Qed.

Lemma mirrorSlab_writes v (p : Page W) :
  exists p', mirrorSlabToGateway dealId (Some s) cfg v p = (Ok tt, p') /\ mirror_writes (up p) (up p').
Proof.
  destruct (mirror_settles dealId (Some s) cfg v p) as (p' & Hr & _ & _ & Hw). by exists p'.
Qed.

Lemma settle_delivered l : lf_delivered (settle dealId s l) = lf_delivered l.
Proof. unfold settle, persist_effect, commit_effect; by repeat case_match. Qed.

End Refine.

(** ** What impatience does *)

Definition demo_progress : ShardProgressState := mkShardProgress phase_done "" 0 0 0 64 0 0 1 1 1 None None.
Definition slab_with (root : string) : Sharder :=
  mkSharder [] [(0, [1])] (Some root) (Some [9]) [] false demo_progress.
Definition demo_bases : list string := replicate 12 "http://sp".
Definition demo_stripe : StripeParams := mkStripe 8 4.
Definition some_file : File := mkFile [] [1].

Lemma slab_ready root : truthy root = true -> mode2_ready (Some demo_stripe) demo_bases (slab_with root).
Proof. intros Hr; exists demo_stripe, [9]; repeat split; [exact Hr|by vm_compute|by repeat constructor]. Qed.

Definition demo_steps : (Life -> event -> Prop) -> Life -> Life -> Prop := steps "7" demo_stripe demo_bases.

Lemma demo_handled root u : mode2Uploading u = false -> mode2UploadComplete u = false -> handled (slab_with root) u.
Proof. intros Hu Hc; split; [done|split; [done|] ]. right; left; repeat split; [done|by eexists|by eexists]. Qed.

(** One step of a concrete run. *)
Ltac life_step t := eapply steps_cons; [t|first [exact I|reflexivity|by split]|].
Ltac life_slab root :=
  life_step ltac:(apply (st_choose _ _ _ some_file));
  life_step ltac:(eapply (st_handled _ _ _ _ (slab_with root) upload_start); [reflexivity|by apply demo_handled]).

Lemma committed_was_delivered_witness :
  exists l, demo_steps patient life_start l /\ lf_committed l = ["0xaa"] /\
    (Forall (fun root => root ∈ lf_delivered l) (lf_committed l) /\
     (can_commit (Some demo_stripe) (lf_view l) (lf_up l) (lf_commit l) (lf_lastCommit l) = true -> root_of (lf_view l) ∈ lf_delivered l)).
Proof.
  assert (exists l, demo_steps patient life_start l /\ lf_committed l = ["0xaa"]) as (l & Hs & Hl).
  { eexists; split.
    - life_slab "0xaa". life_step ltac:(apply st_upload; [reflexivity|by apply slab_ready]).
      life_step ltac:(apply (st_upload_end _ _ _ (slab_with "0xaa") [] [] None); reflexivity).
      life_step ltac:(apply st_commit; vm_compute; reflexivity). apply steps_nil.
    - vm_compute; reflexivity. }
  exists l; split; [exact Hs|split; [exact Hl|] ]. exact (committed_was_delivered "7" demo_stripe demo_bases l Hs).
Defined.

(** A file chosen during an upload can be committed without being uploaded.  The
    upload that is running ends for the slab it was started with, but it marks the slab
    that is shown as uploaded; the commit button is then enabled for a manifest no
    provider has heard of. *)
Theorem impatient_commit_undelivered :
  exists l, demo_steps any_event life_start l /\ lf_delivered l = ["0xaa"] /\ lf_committed l = ["0xbb"].
Proof.
  eexists; split.
  { life_slab "0xaa". life_step ltac:(apply st_upload; [reflexivity|by apply slab_ready]). life_slab "0xbb".
    life_step ltac:(apply (st_upload_end _ _ _ (slab_with "0xaa") [] [] None); reflexivity).
    life_step ltac:(apply st_commit; vm_compute; reflexivity). apply steps_nil. }
  split; vm_compute; reflexivity.
Qed.

(** The next file is kept before it is committed.  Once a commit is confirmed it
    stays so until the next one is asked for, and the effect that keeps the slab looks
    at nothing else: choosing another file is enough to overwrite the local copy of the
    committed slab with one the chain has never heard of. *)
Theorem persisted_before_commit :
  exists l, demo_steps patient life_start l /\ lf_committed l = ["0xaa"] /\ currentManifestRoot (lf_view l) = Some "0xbb" /\
    forall d, exists d', persist "7" (Some demo_stripe) (fun _ => false) (isCommitSuccess (lf_commit l)) (lf_view l) d = (Ok tt, d') /\
      deal_files "7" (disk d') !! "manifest_root.txt" = Some (TextEncoder_encode (units_of "0xbb")).
Proof.
  eexists; split.
  { life_slab "0xaa". life_step ltac:(apply st_upload; [reflexivity|by apply slab_ready]).
    life_step ltac:(apply (st_upload_end _ _ _ (slab_with "0xaa") [] [] None); reflexivity).
    life_step ltac:(apply st_commit; vm_compute; reflexivity).
    life_step ltac:(apply (st_signed _ _ _ "0x01"); reflexivity). life_step ltac:(apply st_confirmed; reflexivity).
    life_slab "0xbb". apply steps_nil. }
  split; [vm_compute; reflexivity|]. split; [vm_compute; reflexivity|]. intros d.
  match goal with |- context [lf_view ?l] => set (l0 := l) end.
  assert (isCommitSuccess (lf_commit l0) = true) as -> by (vm_compute; reflexivity).
  assert (lf_view l0 = slab_with "0xbb") as -> by (vm_compute; reflexivity). clear l0.
  destruct (persist_run "7" ltac:(by vm_compute) (Some demo_stripe) (fun _ => false) (slab_with "0xbb") d) as [logs' Hrun];
    [by repeat (split; [done|]); repeat constructor|done|].
  eexists; split; [exact Hrun|]. cbn [disk]. rewrite deal_files_put_all, decide_True by done.
  apply insert_all_in; [|left]. apply NoDup_ListNoDup. by vm_compute; repeat constructor; set_solver.
Qed.
