(* ===== verification/Faucet.v ===== *)
(** * Addresses and the faucet (lib/address.ts, hooks/useFaucet.ts)

    The faucet is asked again, a bounded number of times, while it answers 429; a
    transaction it names is then looked up in the background.  The bech32 codec is a
    package and a parameter. *)
From S2P Require Import Prelude JsString JsNum TransportTypes Effects Bytes Hex Http GatewayClient Config Evm.
#[local] Open Scope Z_scope.

(** ** address.ts *)

Class Bech32 := { toWords : bytes -> list Z; bech32_encode : string -> list Z -> outcome string }.

Definition is_newline (c : ascii) : bool := (code c =? 10) || (code c =? 13).
(** [s.match(/.{1,2}/g)], with [[]] for [null] *)
Fixpoint dot_pairs (l : list ascii) : list (list ascii) :=
  match l with
  | [] => []
  | a :: r =>
      if is_newline a then dot_pairs r
      else match r with
           | b :: r' => if is_newline b then [a] :: dot_pairs r' else [a; b] :: dot_pairs r'
           | [] => [[a]]
           end
  end.
(** What a [Uint8Array] makes of a number. *)
Definition to_uint8 (n : num) : Z := match n with Num z => z mod 256 | _ => 0 end.
Definition strip_0x (l : list ascii) : list ascii :=
  match l with
  | a :: b :: r => if bool_decide (a = "0"%char) && bool_decide (b = "x"%char) then r else l
  | _ => l
  end.

Section Address.
Context `{Bech32}.

Definition ethToNil_in (prefix ethAddress : string) : string :=
  match dot_pairs (strip_0x (chars ethAddress)) with
  | [] => ""
  | pairs => match bech32_encode prefix (toWords (map (fun p => to_uint8 (parseInt16 (str p))) pairs)) with Ok s => s | Thrown _ => "" end
  end.
Definition ethToNil (ethAddress : string) : string := ethToNil_in "nil" ethAddress.
End Address.

(** ** [Number.parseFloat] *)

(** The value of [e[+-]digits] at the front; anything else is left alone. *)
Definition exponent_prefix (l : list ascii) : Z :=
  match l with
  | c :: r =>
      if bool_decide (c = "e"%char \/ c = "E"%char) then
        let '(neg, r') := match r with "-"%char :: t => (true, t) | "+"%char :: t => (false, t) | t => (false, t) end in
        let '(d, _) := span_digits r' in
        if neg : bool then - digits_val d else digits_val d
      else 0
  | [] => 0
  end.
Definition parse_float (s : string) : dec :=
  let '(neg, l) := match trim_start (chars s) with
                   | "-"%char :: r => (true, r)
                   | "+"%char :: r => (false, r)
                   | r => (false, r)
                   end in
  if starts_with "Infinity" (str l) then DInf neg
  else
    let '(ip, r) := span_digits l in
    let '(fp, r) := match r with "."%char :: r' => span_digits r' | _ => ([], r) end in
    if bool_decide (ip ++ fp = []) then DNaN
    else dec_round64 ((if neg : bool then -1 else 1) * digits_val (ip ++ fp)) (exponent_prefix r - zlen fp).

Example parse_float_examples :
  parse_float " 2.5s" = DNum 25 (-1) /\ parse_float "3" = DNum 3 0 /\ parse_float "1e2x" = DNum 1 2 /\
  parse_float "-.5" = DNum (-5) (-1) /\ parse_float "Wed, 21 Oct" = DNaN /\ parse_float "1e" = DNum 1 0.
Proof. by vm_compute. Qed.

(** A number of milliseconds as a timer takes it, cut to an integer. *)
Definition dec_trunc (d : dec) : Z :=
  match d with DNum m e => if 0 <=? e then m * 10 ^ e else Z.quot m (10 ^ (- e)) | _ => 0 end.

(** ** useFaucet.ts *)

Inductive TxStatus := tx_idle | tx_pending | tx_confirmed | tx_failed.
(** What the hook leaves running: a timer, or the lookup of a transaction. *)
Inductive background := confirm_after (ms : Z) | poll_tx (hash : json).

Section Faucet.
Context `{Bech32} {W : Type} `{Clock W, Http W}.
Context (cfg : Config).

Record Tap := mkTap {
  tap_world : W; tap_loading : bool; tap_lastTx : option json; tap_status : TxStatus; tap_background : list background
}.
Definition tap_net {A} (m : M W A) : M Tap A := fun p =>
  let '(r, w) := m (tap_world p) in (r, mkTap w (tap_loading p) (tap_lastTx p) (tap_status p) (tap_background p)).
Definition set_status (st : TxStatus) : M Tap unit := modify (fun p =>
  mkTap (tap_world p) (tap_loading p) (tap_lastTx p) st (tap_background p)).

Definition maxAttempts : nat := 5.
Definition faucet_request (target : string) : Request :=
  mkReq (cf_apiBase cfg +:+ "/faucet") "POST" [("Content-Type", "application/json")] (BJson (JObj [("address", JStr target)])).

Definition waitMs (attempt : nat) (res : Response) : Z :=
  let retryAfter := match get_header "retry-after" (rs_headers res) with
                    | Some h => if truthy h then parse_float h else DNaN
                    | None => DNaN
                    end in
  match retryAfter with
  | DNum m e => Z.max 1000 (dec_trunc (DNum (m * 1000) e))
  | _ => Z.min (2000 * 2 ^ Z.of_nat attempt) 30000
  end.

(** An ok answer: its transaction, if it names one, is followed in the background. *)
Definition granted (res : Response) : M Tap json :=
  let j := json_or (JObj []) res in
  match j with
  | JNull => mthrow (JsError "TypeError" "Cannot read properties of null (reading 'tx_hash')")
  | _ =>
      match get_field j "tx_hash" with
      | Some hash =>
          if json_truthy hash then
            modify (fun p => mkTap (tap_world p) (tap_loading p) (Some hash) tx_pending
              (tap_background p ++
               [if test_i "localhost" (cf_lcdBase cfg) || test_i "127.0.0.1" (cf_lcdBase cfg) then confirm_after 1500 else poll_tx hash])) ;;
            mret j
          else mret j
      | None => mret j
      end
  end.

(** The attempts that are left, counted up from [attempt]. *)
Fixpoint ask (target : string) (tries attempt : nat) (lastError : option jserr) : M Tap json :=
  match tries with
  | O => mthrow (default (Error "Faucet request failed") lastError)
  | S tries =>
      res ← tap_net (fetch None (faucet_request target));
      if rs_ok res then granted res
      else
        let errText := text_or_empty res in
        if rs_status res =? 429 then
          tap_net (modify (sleep_ms (waitMs attempt res))) ;;
          ask target tries (S attempt) (Some (Error (or_else errText "Faucet rate limit exceeded")))
        else js_error (or_else errText "Faucet request failed")
  end.

(** [undefined] without an address *)
Definition requestFunds (address : option string) : M Tap (option json) :=
  if negb (opt_str address) then mret None
  else
    let address := default "" address in
    modify (fun p => mkTap (tap_world p) true None tx_idle (tap_background p)) ;;
    finally
      (try_catch
         (let target := if starts_with "0x" address then ethToNil address else address in
          j ← ask target maxAttempts 0 None; mret (Some j))
         (fun e => set_status tx_failed ;; mthrow e))
      (fun p => mkTap (tap_world p) false (tap_lastTx p) (tap_status p) (tap_background p)).

(** [String(txHash || '').replace(/^0x/i, '')] *)
Definition normalized_hash (hash : json) : string :=
  str (hex_digits_of (chars (if json_truthy hash then json_String hash else ""))).

(** One look at the transaction; [None] goes on. *)
Definition look (hash : json) : M W (option TxStatus) :=
  try_catch
    (res ← fetch None (GET (cf_lcdBase cfg +:+ "/cosmos/tx/v1beta1/txs/" +:+ normalized_hash hash));
     if rs_ok res then
       j ← lift (rs_json res);
       mret (match path_get (Some j) ["tx_response"; "code"] with
             | Some (JNum (Num 0)) => Some tx_confirmed
             | Some (JNum _) => Some tx_failed
             | _ => None
             end)
     else mret None)
    (fun _ => mret None).

Fixpoint pollTx_from (tries : nat) (hash : json) : M Tap TxStatus :=
  match tries with
  | O => set_status tx_pending ;; mret tx_pending
  | S tries =>
      seen ← tap_net (look hash);
      match seen with
      | Some st => set_status st ;; mret st
      | None => tap_net (modify (sleep_ms 1000)) ;; pollTx_from tries hash
      end
  end.
Definition pollTx (hash : json) : M Tap TxStatus := pollTx_from 30 hash.
End Faucet.
#[global] Arguments Tap : clear implicits.
#[global] Arguments mkTap {W} _ _ _ _ _.
#[global] Arguments tap_world {W} _.
#[global] Arguments tap_loading {W} _.
#[global] Arguments tap_lastTx {W} _.
#[global] Arguments tap_status {W} _.
#[global] Arguments tap_background {W} _.

(** ** What the faucet hook does *)

Section FaucetFacts.
Context `{Bech32} {W : Type} `{Clock W, Http W} (cfg : Config).

(** The first [n] requests were answered 429, each after the wait of the one before. *)
Inductive turned_away (target : string) : nat -> W -> W -> Prop :=
| not_turned w : turned_away target 0 w w
| turned_again n w w1 res w2 :
    turned_away target n w w1 -> fetch None (faucet_request cfg target) w1 = (Ok res, w2) -> rs_status res = 429 ->
    1000 <= waitMs n res -> turned_away target (S n) w (sleep_ms (waitMs n res) w2).

Lemma waitMs_floor n res : 1000 <= waitMs n res.
Proof.
  unfold waitMs; assert (1 <= 2 ^ Z.of_nat n) by (apply Z.lt_pred_le, Z.pow_pos_nonneg; lia).
  destruct (match get_header _ _ with Some h => _ | None => _ end); lia.
Qed.

(** A request that was not turned away and not granted. *)
Definition declined (target : string) (w w' : W) (e : jserr) : Prop :=
  fetch None (faucet_request cfg target) w = (Thrown e, w') \/
  exists res, fetch None (faucet_request cfg target) w = (Ok res, w') /\
    ((rs_ok res = false /\ rs_status res <> 429) \/ (rs_ok res = true /\ json_or (JObj []) res = JNull)).

(** A granted request: the transaction it names is pending and looked after. *)
Definition grants (j : json) (p' : Tap W) (before : list background) : Prop :=
  match get_field j "tx_hash" with
  | Some hash =>
      if json_truthy hash then
        tap_status p' = tx_pending /\ tap_lastTx p' = Some hash /\
        exists b, tap_background p' = before ++ [b] /\ (b = confirm_after 1500 \/ b = poll_tx hash)
      else tap_status p' = tx_idle /\ tap_background p' = before
  | None => tap_status p' = tx_idle /\ tap_background p' = before
  end.

Lemma granted_run res (p : Tap W) : tap_status p = tx_idle ->
  match json_or (JObj []) res with
  | JNull => exists e, granted cfg res p = (Thrown e, p)
  | j => exists p', granted cfg res p = (Ok j, p') /\ grants j p' (tap_background p) /\ tap_world p' = tap_world p
  end.
Proof.
  intros Hst; unfold granted, grants; destruct (json_or (JObj []) res) as [|b|n|s|l|fields] eqn:Hj; [by eexists|..]; cbn [get_field];
    try (exists p; split; [done|by split; [split|] ]).
  destruct (assoc "tx_hash" fields) as [hash|]; [|exists p; split; [done|by split; [split|] ] ].
  destruct (json_truthy hash); [|exists p; split; [done|by split; [split|] ] ].
  rewrite bind_run; unfold modify; eexists; split; [reflexivity|]; split; [|done]; cbn.
  split; [done|split; [done|] ]; eexists; split; [done|]; destruct (_ || _); auto.
Qed.

Lemma ask_run target w0 : forall tries attempt lastError (p : Tap W),
  (attempt + tries = maxAttempts)%nat -> turned_away target attempt w0 (tap_world p) -> tap_status p = tx_idle ->
  let '(r, p') := ask cfg target tries attempt lastError p in
  match r with
  | Ok j => exists n w1 res, (n < maxAttempts)%nat /\ turned_away target n w0 w1 /\
      fetch None (faucet_request cfg target) w1 = (Ok res, tap_world p') /\ rs_ok res = true /\ j = json_or (JObj []) res /\
      grants j p' (tap_background p)
  | Thrown e => tap_background p' = tap_background p /\
      (turned_away target maxAttempts w0 (tap_world p') \/
       exists n w1, (n < maxAttempts)%nat /\ turned_away target n w0 w1 /\ declined target w1 (tap_world p') e)
  end.
Proof.
  induction tries as [|tries IH]; intros attempt lastError p Hn Ht Hst; cbn [ask].
  { split; [done|left]. by replace maxAttempts with attempt by lia. }
  rewrite bind_run; unfold tap_net at 1.
  destruct (fetch None (faucet_request cfg target) (tap_world p)) as [ [res|e] w2] eqn:Hf; cbv beta iota zeta.
  2: { split; [done|right]; exists attempt, (tap_world p); split; [lia|split; [done|by left] ]. }
  destruct (rs_ok res) eqn:Hok.
  - set (p1 := mkTap w2 _ _ _ _). pose proof (granted_run res p1 Hst) as Hg.
    destruct (json_or (JObj []) res) eqn:Hj; [|destruct Hg as (p' & -> & Hg & Hw); exists attempt, (tap_world p), res; rewrite Hw, Hj; by repeat (split; [lia||done|])..].
    destruct Hg as [e ->]; split; [done|right]; exists attempt, (tap_world p); split; [lia|split; [done|] ].
    right; exists res; split; [done|by right].
  - destruct (Z.eqb_spec (rs_status res) 429) as [H429|H429].
    + rewrite bind_run; unfold tap_net, modify; cbv beta iota zeta; cbn [tap_world tap_loading tap_lastTx tap_status tap_background].
      match goal with |- context [ask cfg target tries (S attempt) ?le ?p1] => specialize (IH (S attempt) le p1) end.
      cbn [tap_world tap_background tap_status] in IH. apply IH; [lia| |done].
      econstructor; [exact Ht|exact Hf|exact H429|apply waitMs_floor].
    + cbn. split; [done|right]; exists attempt, (tap_world p); split; [lia|split; [done|] ]. right; exists res; auto.
Qed.

(** The faucet is asked at most five times.  Every request for an address is the
    same; one is repeated only after a 429, at least a second later.  The hook returns
    what an ok answer says, and then the transaction it names is shown as pending and
    looked after; it throws, and shows a failure, only after five times 429, or after
    an answer that is neither or none at all.  It is no longer loading in any case. *)
Theorem requestFunds_bounded address (p : Tap W) :
  let '(r, p') := requestFunds cfg address p in
  if opt_str address then
    let a := default "" address in let target := if starts_with "0x" a then ethToNil a else a in
    tap_loading p' = false /\
    match r with
    | Ok j => exists n w1 res, (n < 5)%nat /\ turned_away target n (tap_world p) w1 /\
        fetch None (faucet_request cfg target) w1 = (Ok res, tap_world p') /\ rs_ok res = true /\
        j = Some (json_or (JObj []) res) /\ grants (json_or (JObj []) res) p' (tap_background p)
    | Thrown e => tap_status p' = tx_failed /\ tap_background p' = tap_background p /\
        (turned_away target 5 (tap_world p) (tap_world p') \/
         exists n w1, (n < 5)%nat /\ turned_away target n (tap_world p) w1 /\ declined target w1 (tap_world p') e)
    end
  else r = Ok None /\ p' = p.
Proof.
  unfold requestFunds; destruct (opt_str address); cbn [negb]; [|done]. rewrite bind_run; unfold modify, finally, try_catch; cbv beta iota zeta.
  set (target := if starts_with "0x" _ then _ else _). set (p1 := mkTap _ _ _ _ _). rewrite bind_run.
  pose proof (ask_run target (tap_world p) maxAttempts 0 None p1 eq_refl (not_turned target (tap_world p)) eq_refl) as Hask.
  destruct (ask cfg target maxAttempts 0 None p1) as [ [j|e] p2].
  - destruct Hask as (n & w1 & res & Hn & Ht & Hf & Hok & -> & Hg). cbn; split; [done|]. exists n, w1, res; by repeat (split; [done|]).
  - destruct Hask as [Hb Ha]. cbn; by repeat (split; [done|]).
Qed.

(** Looking for a transaction ends within thirty looks and says what the chain says:
    confirmed only after an answer with code 0, failed only after one with another
    code, and still pending otherwise; that is the status the hook shows. *)
Theorem pollTx_settles hash (p : Tap W) :
  exists st p', pollTx cfg hash p = (Ok st, p') /\ tap_status p' = st /\
    match st with
    | tx_pending => True
    | tx_idle => False
    | _ => exists w res j n, fetch None (GET (cf_lcdBase cfg +:+ "/cosmos/tx/v1beta1/txs/" +:+ normalized_hash hash)) w = (Ok res, tap_world p') /\
        rs_ok res = true /\ rs_json res = Ok j /\ path_get (Some j) ["tx_response"; "code"] = Some (JNum n) /\ (st = tx_confirmed <-> n = Num 0)
    end.
Proof.
  unfold pollTx; generalize 30%nat; intros tries; revert p; induction tries as [|tries IH]; intros p; cbn [pollTx_from].
  { exists tx_pending; by eexists. }
  rewrite bind_run; unfold tap_net at 1, look, try_catch. rewrite bind_run.
  destruct (fetch None _ (tap_world p)) as [ [res|e] w1] eqn:Hf; cbv beta iota zeta; [|cbv beta iota zeta; apply IH].
  destruct (rs_ok res) eqn:Hok; [|cbv beta iota zeta; apply IH]. rewrite bind_run; unfold lift.
  destruct (rs_json res) as [j|e] eqn:Hj; cbn [mret M_ret]; cbv beta iota; [|cbv beta iota zeta; apply IH].
  destruct (path_get (Some j) ["tx_response"; "code"]) as [ [| |n| | |]|] eqn:Hc; try (cbv beta iota zeta; apply IH).
  destruct (decide (n = Num 0)) as [->|Hn].
  - exists tx_confirmed; eexists; split; [reflexivity|split; [done|] ]. by exists (tap_world p), res, j, (Num 0).
  - exists tx_failed. assert (match n with Num 0 => Some tx_confirmed | _ => Some tx_failed end = Some tx_failed) as ->
      by (by repeat case_match).
    eexists; split; [reflexivity|split; [done|] ]. by exists (tap_world p), res, j, n.
Qed.
End FaucetFacts.

(** ** Converted addresses *)

Lemma hex_val_lower c : hex_val (lower_char c) = hex_val c.
Proof. by destruct c as [ [] [] [] [] [] [] [] []]; vm_compute. Qed.
Lemma hex_digit_plain c d : hex_val c = Some d ->
  is_ws c = false /\ is_newline c = false /\ bool_decide (lower_char c = "x"%char) = false /\ c <> "-"%char /\ c <> "+"%char.
Proof. by destruct c as [ [] [] [] [] [] [] [] []]; vm_compute; intros; simplify_eq. Qed.
Lemma hex_val_digit d : 0 <= d < 16 -> hex_val (hex_digit d) = Some d.
Proof.
  intros Hd; assert (d ∈ map Z.of_nat (seq 0 16)) as Hin.
  { apply list_elem_of_In, in_map_iff; exists (Z.to_nat d); split; [lia|apply in_seq; lia]. }
  assert (forallb (fun d => bool_decide (hex_val (hex_digit d) = Some d)) (map Z.of_nat (seq 0 16)) = true) as Hall by by vm_compute.
  rewrite forallb_forall in Hall. apply list_elem_of_In, Hall in Hin. by apply bool_decide_eq_true in Hin.
Qed.

Lemma parse_pair_byte a b hi lo : hex_val a = Some hi -> hex_val b = Some lo -> 0 <= hi < 16 -> 0 <= lo < 16 ->
  to_uint8 (parseInt16 (str [a; b])) = 16 * hi + lo.
Proof.
  intros Ha Hb Hhi Hlo; destruct (hex_digit_plain a hi Ha) as (Hws & _ & _ & Hm & Hp), (hex_digit_plain b lo Hb) as (_ & _ & Hx & _).
  unfold parseInt16; rewrite chars_str; cbn [trim_start]; rewrite Hws.
  assert (match [a; b] with "-"%char :: r => (true, r) | "+"%char :: r => (false, r) | r => (false, r) end = (false, [a; b])) as ->
    by (destruct a as [ [] [] [] [] [] [] [] []]; done).
  cbn [hex_digits_of]; rewrite Hx, andb_false_r. cbn [hex_run]; rewrite Ha, Hb. cbn [default to_uint8].
  rewrite Z.mod_small; [cbn|cbn]; lia.
Qed.

Lemma pairs_of_hex l : Forall is_byte l -> forall ds, map lower_char ds = hex_chars l ->
  map (fun p => to_uint8 (parseInt16 (str p))) (dot_pairs ds) = l.
Proof.
  induction 1 as [|x l Hx _ IH]; intros ds Hds; [by destruct ds|].
  destruct ds as [|a [|b ds] ]; [discriminate Hds..|]. cbn [map] in Hds. injection Hds as Ha Hb Hds.
  assert (hex_val a = Some (x / 16) /\ hex_val b = Some (x mod 16)) as [Hva Hvb].
  { unfold is_byte in Hx; split; rewrite <- hex_val_lower, ?Ha, ?Hb; apply hex_val_digit; Z.div_mod_to_equations; lia. }
  cbn [dot_pairs]. destruct (hex_digit_plain a _ Hva) as (_ & -> & _), (hex_digit_plain b _ Hvb) as (_ & -> & _). cbn [map].
  unfold is_byte in Hx; rewrite (parse_pair_byte a b (x / 16) (x mod 16)), IH by (done || Z.div_mod_to_equations; lia).
  f_equal; Z.div_mod_to_equations; lia.
Qed.

(** An address is converted by its bytes.  Whatever the case of its hexadecimal
    digits, checksummed or not, the bech32 form of an account is the encoding of the
    account's bytes, and empty only where the codec rejects them. *)
Theorem ethToNil_by_bytes `{Bech32} prefix digits l :
  Forall is_byte l -> l <> [] -> to_lower digits = str (hex_chars l) ->
  ethToNil_in prefix ("0x" +:+ digits) =
  match bech32_encode prefix (toWords l) with Ok s => s | Thrown _ => "" end.
Proof.
  intros Hl Hne Hd. assert (map lower_char (chars digits) = hex_chars l) as Hc.
  { unfold to_lower in Hd. by rewrite <- (chars_str (map lower_char (chars digits))), Hd, chars_str. }
  pose proof (pairs_of_hex l Hl (chars digits) Hc) as Hp.
  unfold ethToNil_in. assert (strip_0x (chars ("0x" +:+ digits)) = chars digits) as -> by done.
  destruct (dot_pairs (chars digits)) as [|p ps]; [by subst l|]. by rewrite Hp.
Qed.

#[local] Instance hex_bech32 : Bech32 := {| toWords l := l; bech32_encode p l := Ok (p +:+ "1" +:+ str (hex_chars l)) |}.
Lemma ethToNil_by_bytes_witness : ethToNil_in "nil" "0xAbCd01" = "nil1abcd01".
Proof. rewrite (ethToNil_by_bytes "nil" "AbCd01" [171; 205; 1]); [reflexivity|by repeat constructor|done|reflexivity]. Defined.
