(* ===== verification/Staging.v ===== *)
(** * The staging area (context/StagingContext.tsx)

    Files to be uploaded are kept twice: in an IndexedDB store, a map from the key
    [dealId::path] to a record, and in the provider's state, a list.  Each operation
    writes the store and, once that is done, the list; a write that fails leaves both
    as they were.  The browser's answer to the write is an argument. *)
From stdpp Require Import sorting.
From S2P Require Import Prelude JsString JsNum TransportTypes Effects.
#[local] Open Scope Z_scope.

Inductive StagedStatus := staged | syncing | synced | staged_error.
Record StagedFile := mkStaged {
  sf_key : string; sf_path : string; sf_size : Z; sf_lastModified : Z; sf_dealId : string;
  sf_status : StagedStatus; sf_error : option string
}.
(** What is used of a [File]. *)
Record PickedFile := mkPicked { pf_name : string; pf_size : Z; pf_lastModified : Z }.

(** The object store, once it is open, and the provider's list. *)
Record StagingState := mkStaging { sg_db : option (gmap string StagedFile); sg_files : list StagedFile }.

Definition staging_key (dealId path : string) : string := dealId +:+ "::" +:+ path.

(** [getAll] answers in the order of the keys. *)
Definition key_le (a b : StagedFile) : Prop := String.leb (sf_key a) (sf_key b) = true.
#[export] Instance key_le_dec a b : Decision (key_le a b).
Proof. unfold key_le; apply _. Defined.
Definition getAll (m : gmap string StagedFile) : list StagedFile := merge_sort key_le (map snd (map_to_list m)).

Definition initDB (database : gmap string StagedFile) : StagingState := mkStaging (Some database) (getAll database).

Definition same_file (dealId path : string) (f : StagedFile) : bool := eqb (sf_dealId f) dealId && eqb (sf_path f) path.

Section Operations.
(** How the browser answers the write. *)
Context (answer : outcome unit).

Definition write (m : gmap string StagedFile) (files : list StagedFile) : M StagingState unit := fun s =>
  match answer with
  | Ok _ => (Ok tt, mkStaging (Some m) files)
  | Thrown e => (Thrown e, s)
  end.

Definition addStagedFile (dealId : string) (file : PickedFile) (path : option string) : M StagingState unit := fun s =>
  match sg_db s with
  | None => (Ok tt, s)
  | Some m =>
      let filePath := or_else (default "" path) (pf_name file) in
      let key := staging_key dealId filePath in
      let stagedFile := mkStaged key filePath (pf_size file) (pf_lastModified file) dealId staged None in
      write (<[key := stagedFile]> m)
        (List.filter (fun f => negb (eqb (sf_dealId f) dealId) || negb (eqb (sf_path f) filePath)) (sg_files s) ++ [stagedFile]) s
  end.

Definition updateFileStatus (dealId path : string) (status : StagedStatus) (error : option string) : M StagingState unit := fun s =>
  match sg_db s with
  | None => (Ok tt, s)
  | Some m =>
      let key := staging_key dealId path in
      match m !! key with
      | None => (Ok tt, s)
      | Some r =>
          let updated := mkStaged (sf_key r) (sf_path r) (sf_size r) (sf_lastModified r) (sf_dealId r) status error in
          write (<[key := mkStaged key (sf_path r) (sf_size r) (sf_lastModified r) (sf_dealId r) status error]> m)
            (map (fun f => if same_file dealId path f then updated else f) (sg_files s)) s
      end
  end.

Definition removeStagedFile (dealId path : string) : M StagingState unit := fun s =>
  match sg_db s with
  | None => (Ok tt, s)
  | Some m => write (delete (staging_key dealId path) m) (List.filter (fun f => negb (same_file dealId path f)) (sg_files s)) s
  end.
End Operations.

Definition getFilesForDeal (dealId : string) (s : StagingState) : list StagedFile :=
  List.filter (fun f => eqb (sf_dealId f) dealId) (sg_files s).

(** ** The list is the store *)

Inductive staging_op :=
| op_add (dealId : string) (file : PickedFile) (path : option string)
| op_update (dealId path : string) (status : StagedStatus) (error : option string)
| op_remove (dealId path : string).
Definition op_deal (op : staging_op) : string :=
  match op with op_add d _ _ | op_update d _ _ _ | op_remove d _ => d end.
Definition run_op (op : staging_op * outcome unit) : M StagingState unit :=
  match op.1 with
  | op_add d f p => addStagedFile op.2 d f p
  | op_update d p st e => updateFileStatus op.2 d p st e
  | op_remove d p => removeStagedFile op.2 d p
  end.
(** The operations one after the other, whether they throw or not. *)
Definition run_ops (ops : list (staging_op * outcome unit)) (s : StagingState) : StagingState :=
  fold_left (fun s op => (run_op op s).2) ops s.

Definition well_keyed (m : gmap string StagedFile) : Prop :=
  map_Forall (fun k r => sf_key r = k /\ k = staging_key (sf_dealId r) (sf_path r) /\ no_char ":" (sf_dealId r)) m.
Definition mirrors (s : StagingState) : Prop :=
  exists m, sg_db s = Some m /\ well_keyed m /\ sg_files s ≡ₚ map snd (map_to_list m).

Lemma staging_key_inj d p d' p' : no_char ":" d -> no_char ":" d' -> staging_key d p = staging_key d' p' -> d = d' /\ p = p'.
Proof.
  unfold staging_key, no_char; intros Hd Hd' Heq; apply (f_equal chars) in Heq; rewrite !chars_app in Heq.
  enough (chars d = chars d' /\ chars p = chars p') as [H1 H2].
  { split; [rewrite <- (str_chars d), H1; apply str_chars|rewrite <- (str_chars p), H2; apply str_chars]. }
  revert Hd Hd' Heq; generalize (chars d), (chars d'), (chars p), (chars p'); clear.
  induction l as [|c l IH]; intros [|c' l'] q q' Hd Hd' Heq; cbn in Heq; [by simplify_eq|..].
  - injection Heq as <- _; by inversion Hd'.
  - injection Heq as -> _; by inversion Hd.
  - injection Heq as -> Heq; inversion Hd; inversion Hd'; subst. by destruct (IH l' q q') as [-> ->].
Qed.

Lemma same_key m k r d p : well_keyed m -> m !! k = Some r -> no_char ":" d ->
  same_file d p r = bool_decide (k = staging_key d p).
Proof.
  intros Hm Hk Hd; destruct (Hm k r Hk) as (_ & -> & Hr). unfold same_file, eqb.
  apply eq_true_iff_eq; rewrite andb_true_iff, !bool_decide_eq_true; split; [by intros [-> ->]|by apply staging_key_inj].
Qed.

#[export] Instance filter_perm {A} (f : A -> bool) : Proper (Permutation ==> Permutation) (List.filter f).
Proof.
  induction 1 as [|x l k _ IH|x y l|l1 l2 l3 _ IH1 _ IH2]; cbn [List.filter]; [done|by destruct (f x); [f_equiv|]| |by rewrite IH1].
  destruct (f x), (f y); [constructor|done..].
Qed.

(** Filtering and mapping the list is deleting and replacing in the store. *)
Lemma filter_delete m d p : well_keyed m -> no_char ":" d ->
  List.filter (fun f => negb (same_file d p f)) (map snd (map_to_list m)) ≡ₚ map snd (map_to_list (delete (staging_key d p) m)).
Proof.
  intros Hm Hd. set (key := staging_key d p).
  destruct (m !! key) as [r|] eqn:Hk.
  - assert (m = <[key := r]> (delete key m)) as Heq by by rewrite insert_delete_id.
    rewrite Heq at 1. rewrite map_to_list_insert by apply lookup_delete_eq. cbn [map snd List.filter].
    rewrite (same_key m key r d p), bool_decide_eq_true_2 by done; cbn [negb].
    rewrite List.forallb_filter_id; [done|]. apply forallb_forall; intros f Hf%in_map_iff.
    destruct Hf as ([k f'] & <- & Hin); apply list_elem_of_In, elem_of_map_to_list, lookup_delete_Some in Hin as [Hne Hin]; cbn [snd].
    by rewrite (same_key m k f' d p), bool_decide_eq_false_2 by done.
  - rewrite delete_id by done. rewrite List.forallb_filter_id; [done|]. apply forallb_forall; intros f Hf%in_map_iff.
    destruct Hf as ([k f'] & <- & Hin); apply list_elem_of_In, elem_of_map_to_list in Hin; cbn [snd].
    rewrite (same_key m k f' d p), bool_decide_eq_false_2; try done. intros ->; unfold key in Hk; congruence.
Qed.

Lemma map_replace m d p r : well_keyed m -> no_char ":" d -> m !! staging_key d p = Some r -> forall r',
  map (fun f => if same_file d p f then r' else f) (map snd (map_to_list m)) ≡ₚ map snd (map_to_list (<[staging_key d p := r']> m)).
Proof.
  intros Hm Hd Hk r'; set (key := staging_key d p) in *.
  assert (m = <[key := r]> (delete key m)) as Heq by by rewrite insert_delete_id.
  rewrite <- insert_delete_eq. rewrite Heq at 1. rewrite !map_to_list_insert by apply lookup_delete_eq. cbn [map snd].
  rewrite (same_key m key r d p), bool_decide_eq_true_2 by done. f_equiv.
  erewrite map_ext_in; [by rewrite map_id|]. intros f Hf%in_map_iff.
  destruct Hf as ([k f'] & <- & Hin); apply list_elem_of_In, elem_of_map_to_list, lookup_delete_Some in Hin as [Hne Hin]; cbn [snd].
  by rewrite (same_key m k f' d p), bool_decide_eq_false_2 by done.
Qed.

Lemma filter_stored m files d p : well_keyed m -> files ≡ₚ map snd (map_to_list m) -> no_char ":" d ->
  List.filter (same_file d p) files = match m !! staging_key d p with Some r => [r] | None => [] end.
Proof.
  intros Hm Hf Hd. enough (List.filter (same_file d p) files ≡ₚ match m !! staging_key d p with Some r => [r] | None => [] end) as Hp.
  { destruct (m !! staging_key d p); [by apply Permutation_singleton_r in Hp|by apply Permutation_nil_r in Hp]. }
  rewrite Hf. assert (forall m', well_keyed m' -> m' !! staging_key d p = None -> List.filter (same_file d p) (map snd (map_to_list m')) = []) as Hnone.
  { intros m' Hm' Hk. assert (forall l, (forall k f, (k, f) ∈ l -> m' !! k = Some f) -> List.filter (same_file d p) (map snd l) = []) as Hl.
    { induction l as [|[k f] l IH]; intros Hall; [done|]; cbn [map snd List.filter].
      rewrite (same_key m' k f d p Hm') by (done || apply Hall; left).
      rewrite bool_decide_eq_false_2; [apply IH; intros; apply Hall; by right|].
      intros ->. specialize (Hall (staging_key d p) f ltac:(left)). congruence. }
    apply Hl. by intros k f; rewrite elem_of_map_to_list. }
  destruct (m !! staging_key d p) as [r|] eqn:Hk; [|by rewrite Hnone].
  rewrite <- (insert_delete_id m _ _ Hk) at 1. rewrite map_to_list_insert by apply lookup_delete_eq. cbn [map snd List.filter].
  rewrite (same_key m _ r d p Hm Hk Hd), bool_decide_eq_true_2 by done. rewrite Hnone; [done| |apply lookup_delete_eq].
  intros k f Hkf; apply lookup_delete_Some in Hkf as [_ Hkf]. by apply Hm.
Qed.

Lemma mirrors_write answer m files s : well_keyed m -> files ≡ₚ map snd (map_to_list m) -> mirrors s -> mirrors (write answer m files s).2.
Proof. intros Hm Hf Hs; unfold write; destruct answer; [by exists m|done]. Qed.

Lemma mirrors_op op s : no_char ":" (op_deal op.1) -> mirrors s -> mirrors (run_op op s).2.
Proof.
  destruct op as [ [d f path|d p st e|d p] answer]; cbn [fst op_deal run_op]; intros Hd Hs; pose proof Hs as (m & Hdb & Hm & Hfiles);
    unfold run_op, addStagedFile, updateFileStatus, removeStagedFile; cbn [fst snd]; rewrite Hdb.
  - set (p := or_else _ _); set (r := mkStaged _ _ _ _ _ _ _). apply mirrors_write; [| |done].
    + apply map_Forall_insert_2; [done|exact Hm].
    + assert (List.filter (fun f0 => negb (eqb (sf_dealId f0) d) || negb (eqb (sf_path f0) p)) (sg_files s) =
        List.filter (fun f0 => negb (same_file d p f0)) (sg_files s)) as ->.
      { apply filter_ext; intros f0; unfold same_file. by rewrite negb_andb. }
      rewrite Hfiles, filter_delete by done. rewrite <- insert_delete_eq, map_to_list_insert by apply lookup_delete_eq.
      cbn [map snd]. symmetry; apply Permutation_cons_append.
  - destruct (m !! staging_key d p) as [r|] eqn:Hk; [|done]. destruct (Hm _ _ Hk) as (Hrk & Hrd & Hnc). rewrite Hrk.
    apply mirrors_write; [|by rewrite Hfiles; eapply map_replace|done]. apply map_Forall_insert_2; [done|exact Hm].
  - apply mirrors_write; [|by rewrite Hfiles; apply filter_delete|done].
    intros k r Hk; apply lookup_delete_Some in Hk as [_ Hk]. by apply Hm.
Qed.

(** C16: The staged files that are shown are the ones that are stored.  Starting from the
    store, after any sequence of operations, however the browser answers each write,
    the provider's list holds the records of the store, and shows for every deal and
    path the one record stored under their key, or nothing.  (Deal ids are numbers, so
    they contain no colon, and the keys of different files differ.) *)
Theorem staged_list_matches_store database ops :
  well_keyed database -> Forall (fun op => no_char ":" (op_deal op.1)) ops ->
  let s := run_ops ops (initDB database) in
  exists m, sg_db s = Some m /\ well_keyed m /\ sg_files s ≡ₚ map snd (map_to_list m) /\
    forall d p, no_char ":" d ->
      List.filter (same_file d p) (sg_files s) = match m !! staging_key d p with Some r => [r] | None => [] end.
Proof.
  intros Hdb Hops s. assert (mirrors s) as (m & Hm & Hk & Hf); [|exists m; repeat (split; [done|]); intros; by apply filter_stored].
  assert (mirrors (initDB database)) as H0 by (exists database; split; [done|split; [done|apply merge_sort_Permutation] ]).
  subst s; revert H0; generalize (initDB database); induction Hops as [|op ops Hop _ IH]; intros s0 H0; [done|].
  apply IH, mirrors_op; done.
Qed.

Definition demo_ops : list (staging_op * outcome unit) :=
  [(op_add "7" (mkPicked "a.txt" 3 0) None, Ok tt); (op_add "7" (mkPicked "b.txt" 4 0) None, Thrown (Error "quota"));
   (op_update "7" "a.txt" synced None, Ok tt); (op_add "8" (mkPicked "a.txt" 5 0) (Some "a.txt"), Ok tt)].
Lemma staged_list_matches_store_witness :
  exists m, sg_db (run_ops demo_ops (initDB ∅)) = Some m /\
    List.filter (same_file "7" "a.txt") (sg_files (run_ops demo_ops (initDB ∅))) =
    match m !! staging_key "7" "a.txt" with Some r => [r] | None => [] end.
Proof.
  destruct (staged_list_matches_store ∅ demo_ops) as (m & Hm & _ & _ & Hf); [by intros k r Hk; rewrite lookup_empty in Hk|by repeat constructor|].
  exists m; split; [exact Hm|]. apply Hf. by repeat constructor.
Defined.
Example demo_staged :
  map sf_status (getFilesForDeal "7" (run_ops demo_ops (initDB ∅))) = [synced].
Proof. by vm_compute. Qed.
