(* ===== verification/RecentFiles.v ===== *)
(** * Recent files (components/Dashboard.tsx)

    The dashboard remembers the last files that were uploaded or downloaded, newest
    first, and keeps them in the browser's local storage.  [JSON.parse] and
    [JSON.stringify] are the platform's: the storage holds the JSON value, or a text
    that does not parse. *)
From S2P Require Import Prelude JsString JsNum TransportTypes Effects GatewayClient Lcd.
#[local] Open Scope Z_scope.

Inductive recent_action := act_upload | act_download.
Inductive recent_status := rf_pending | rf_success | rf_failed.
Record RecentFileEntry := mkRecent {
  rf_id : string; rf_dealId : string; rf_filePath : string; rf_sizeBytes : dec; rf_manifestRoot : string;
  rf_updatedAt : dec; rf_lastAction : recent_action; rf_status : recent_status; rf_error : option string
}.
Definition MAX_RECENT_FILES : nat := 6.

(** ** Loading *)

Definition string_or_empty (v : option json) : string := match nullish v None with Some j => json_String j | None => "" end.
Definition number_or_zero (v : option json) : dec := dec_or_zero (json_Number (default (JNum (Num 0)) (nullish v None))).

Definition sanitize_entry (entry : json) : RecentFileEntry :=
  let f := get_field entry in
  mkRecent (string_or_empty (f "id")) (string_or_empty (f "dealId")) (string_or_empty (f "filePath"))
    (number_or_zero (f "sizeBytes")) (string_or_empty (f "manifestRoot")) (number_or_zero (f "updatedAt"))
    (match f "lastAction" with Some (JStr s) => if eqb s "download" then act_download else act_upload | _ => act_upload end)
    (match f "status" with
     | Some (JStr s) => if eqb s "failed" then rf_failed else if eqb s "pending" then rf_pending else rf_success
     | _ => rf_success
     end)
    (match f "error" with Some j => if json_truthy j then Some (json_String j) else None | None => None end).

(** [None] leaves the state as it is. *)
Definition load_recent (raw : option (outcome json)) : option (list RecentFileEntry) :=
  match raw with
  | Some (Ok (JArr parsed)) =>
      let sanitized := List.filter (fun e => truthy (rf_id e) && truthy (rf_dealId e) && truthy (rf_filePath e))
                         (map sanitize_entry (List.filter isRecord parsed)) in
      if 0 <? zlen sanitized then Some (take MAX_RECENT_FILES sanitized) else None
  | _ => None
  end.

(** ** Saving *)

(** The JSON of an entry, where its numbers are integers; [undefined] is left out. *)
Definition json_int (d : dec) : option json := match d with DNum m 0 => Some (JNum (Num m)) | _ => None end.
Definition save_entry (e : RecentFileEntry) : option json :=
  size ← json_int (rf_sizeBytes e);
  updatedAt ← json_int (rf_updatedAt e);
  Some (JObj ([("id", JStr (rf_id e)); ("dealId", JStr (rf_dealId e)); ("filePath", JStr (rf_filePath e)); ("sizeBytes", size);
               ("manifestRoot", JStr (rf_manifestRoot e)); ("updatedAt", updatedAt);
               ("lastAction", JStr (match rf_lastAction e with act_upload => "upload" | act_download => "download" end));
               ("status", JStr (match rf_status e with rf_pending => "pending" | rf_success => "success" | rf_failed => "failed" end))] ++
              match rf_error e with Some msg => [("error", JStr msg)] | None => [] end)).
Definition save_recent (recentFiles : list RecentFileEntry) : option json := JArr <$> mapM save_entry recentFiles.

(** ** Changing *)

(** What a caller gives; the id and the time are added. *)
Record RecentFile := mkRF {
  ne_dealId : string; ne_filePath : string; ne_sizeBytes : dec; ne_manifestRoot : string;
  ne_lastAction : recent_action; ne_status : recent_status; ne_error : option string
}.
Definition recent_id (dealId filePath : string) : string := dealId +:+ ":" +:+ filePath.

Section Change.
(** [Date.now()] *)
Context (now : Z).

Definition upsertRecentFile (entry : RecentFile) (prev : list RecentFileEntry) : list RecentFileEntry :=
  let id := recent_id (ne_dealId entry) (ne_filePath entry) in
  let next := mkRecent id (ne_dealId entry) (ne_filePath entry) (ne_sizeBytes entry) (ne_manifestRoot entry) (DNum now 0)
                (ne_lastAction entry) (ne_status entry) (ne_error entry) in
  take MAX_RECENT_FILES (next :: List.filter (fun item => negb (eqb (rf_id item) id)) prev).

(** A patch; [pt_error] is [Some None] where the error is set to [undefined]. *)
Record Patch := mkPatch {
  pt_status : option recent_status; pt_lastAction : option recent_action; pt_sizeBytes : option dec;
  pt_manifestRoot : option string; pt_error : option (option string)
}.
Definition apply_patch (patch : Patch) (item : RecentFileEntry) : RecentFileEntry :=
  mkRecent (rf_id item) (rf_dealId item) (rf_filePath item) (default (rf_sizeBytes item) (pt_sizeBytes patch))
    (default (rf_manifestRoot item) (pt_manifestRoot patch)) (DNum now 0) (default (rf_lastAction item) (pt_lastAction patch))
    (default (rf_status item) (pt_status patch)) (default (rf_error item) (pt_error patch)).
Definition updateRecentFile (id : string) (patch : Patch) (prev : list RecentFileEntry) : list RecentFileEntry :=
  map (fun item => if eqb (rf_id item) id then apply_patch patch item else item) prev.
End Change.

(** ** The list is the last six files *)

Inductive recent_op := rop_upsert (entry : RecentFile) | rop_update (id : string) (patch : Patch).
(** Each operation with the time it is done. *)
Definition run_recent (ops : list (Z * recent_op)) (l : list RecentFileEntry) : list RecentFileEntry :=
  fold_left (fun l op => match op.2 with
                         | rop_upsert e => upsertRecentFile op.1 e l
                         | rop_update id patch => updateRecentFile op.1 id patch l
                         end) ops l.
(** The ids that were recorded, newest first, and each once. *)
Definition recorded (ops : list (Z * recent_op)) : list string :=
  concat (map (fun op => match op.2 with rop_upsert e => [recent_id (ne_dealId e) (ne_filePath e)] | _ => [] end) ops).
Fixpoint newest_first (seen : list string) (ids : list string) : list string :=
  match ids with
  | [] => seen
  | id :: rest => newest_first (id :: List.filter (fun x => negb (eqb x id)) seen) rest
  end.

Lemma filter_all {A} (f : A -> bool) l : Forall (fun x => f x = true) l -> List.filter f l = l.
Proof. induction 1 as [|x l Hx _ IH]; [done|]; cbn; by rewrite Hx, IH. Qed.
Lemma filter_absent id l : id ∉ l -> List.filter (fun x => negb (eqb x id)) l = l.
Proof.
  intros Hid; apply filter_all, Forall_forall; intros x Hx. unfold eqb; rewrite bool_decide_eq_false_2; [done|congruence].
Qed.
Lemma filter_in id l x : x ∈ List.filter (fun x => negb (eqb x id)) l <-> x ∈ l /\ x <> id.
Proof.
  rewrite !list_elem_of_In, filter_In. unfold eqb; rewrite negb_true_iff, bool_decide_eq_false. tauto.
Qed.
Lemma filter_NoDup id l : NoDup l -> NoDup (List.filter (fun x => negb (eqb x id)) l).
Proof. intros Hl; by apply NoDup_ListNoDup, List.NoDup_filter, NoDup_ListNoDup. Qed.

(** Dropping one id from a list without repetitions commutes with cutting it. *)
Lemma take_filter_take id l n : NoDup l ->
  take n (List.filter (fun x => negb (eqb x id)) (take (S n) l)) = take n (List.filter (fun x => negb (eqb x id)) l).
Proof.
  revert n; induction l as [|x l IH]; intros n Hnd; [done|]. apply NoDup_cons in Hnd as [Hx Hnd]. rewrite firstn_cons; cbn [List.filter].
  destruct (eqb x id) eqn:E; [apply bool_decide_eq_true in E as -> |]; cbn [negb].
  - assert (id ∉ take n l) as Ht by (intros Hin; apply Hx; apply elem_of_take in Hin as (i & Hi & _); by eapply list_elem_of_lookup_2).
    rewrite (filter_absent id (take n l) Ht), (filter_absent id l Hx). by rewrite firstn_firstn, Nat.min_id.
  - destruct n as [|n]; [done|]. rewrite !firstn_cons; f_equal. by apply IH.
Qed.

Lemma newest_first_NoDup ids seen : NoDup seen -> NoDup (newest_first seen ids).
Proof.
  revert seen; induction ids as [|id ids IH]; intros seen Hs; [done|]; cbn. apply IH. constructor; [|by apply filter_NoDup].
  rewrite filter_in. tauto.
Qed.
Lemma newest_first_app seen a b : newest_first seen (a ++ b) = newest_first (newest_first seen a) b.
Proof. revert seen; induction a as [|id a IH]; intros seen; [done|]. apply IH. Qed.

Lemma upsert_ids now e l : map rf_id (upsertRecentFile now e l) =
  let id := recent_id (ne_dealId e) (ne_filePath e) in take MAX_RECENT_FILES (id :: List.filter (fun x => negb (eqb x id)) (map rf_id l)).
Proof.
  unfold upsertRecentFile; cbv zeta. rewrite <- firstn_map; cbn [map rf_id]. do 2 f_equal.
  induction l as [|x l IH]; [done|]; cbn [map List.filter]. destruct (eqb (rf_id x) _); cbn [negb map]; by rewrite IH.
Qed.
Lemma update_ids now id patch l : map rf_id (updateRecentFile now id patch l) = map rf_id l.
Proof. unfold updateRecentFile; rewrite map_map; apply map_ext; intros x; by destruct (eqb (rf_id x) id). Qed.

(** The recent files are the last six.  After any sequence of records and changes,
    the list shows the files that were recorded last, each once, newest first, and at
    most six; a change to an entry moves nothing. *)
Theorem recent_is_last_six ops :
  map rf_id (run_recent ops []) = take MAX_RECENT_FILES (newest_first [] (recorded ops)) /\
  NoDup (map rf_id (run_recent ops [])) /\ (length (run_recent ops []) <= MAX_RECENT_FILES)%nat.
Proof.
  assert (map rf_id (run_recent ops []) = take MAX_RECENT_FILES (newest_first [] (recorded ops))) as Heq.
  { induction ops as [|op ops IH] using rev_ind; [done|]. unfold run_recent, recorded; rewrite fold_left_app, map_app, concat_app, newest_first_app.
    cbn [fold_left map concat]. change (fold_left _ ops []) with (run_recent ops []). change (concat (map _ ops)) with (recorded ops).
    destruct op as [now [e|id patch] ]; cbn [fst snd].
    - rewrite upsert_ids; cbv zeta. cbn [newest_first app]. unfold MAX_RECENT_FILES in *; rewrite !firstn_cons, IH; f_equal.
      apply take_filter_take, newest_first_NoDup; constructor.
    - by rewrite update_ids. }
  split; [done|]. split; [rewrite Heq; eapply sublist_NoDup; [apply newest_first_NoDup; constructor|apply sublist_take] |].
  rewrite <- (length_map rf_id), Heq, length_firstn. lia.
Qed.

(** ** What is kept comes back *)

(** An entry the page can have made: its numbers are integers, and it names a file. *)
Definition keepable (e : RecentFileEntry) : Prop :=
  rf_id e <> "" /\ rf_dealId e <> "" /\ rf_filePath e <> "" /\ rf_error e <> Some "" /\
  (exists size, rf_sizeBytes e = DNum size 0) /\ (exists at_, rf_updatedAt e = DNum at_ 0).

Lemma sanitize_saved e j : keepable e -> save_entry e = Some j -> sanitize_entry j = e /\ isRecord j = true.
Proof.
  destruct e as [id d p size root at_ act st err]; intros (_ & _ & _ & Herr & (sz & Hsz) & (t & Ht)); cbn in Herr, Hsz, Ht; subst.
  intros [= <-]; split; [|done].
  destruct err as [msg|]; [destruct msg as [|c msg]; [done|] |]; destruct sz, t, act, st; reflexivity.
Qed.

Lemma truthy_ne s : s <> "" -> truthy s = true.
Proof. by destruct s. Qed.

(** Recent files survive a reload.  A list the page made and kept is loaded back as
    it was: same entries, same order, nothing left out. *)
Theorem recent_files_reload l :
  Forall keepable l -> l <> [] -> (length l <= MAX_RECENT_FILES)%nat ->
  exists saved, save_recent l = Some saved /\ load_recent (Some (Ok saved)) = Some l.
Proof.
  intros Hl Hne Hlen. assert (exists js, mapM save_entry l = Some js /\ map sanitize_entry (List.filter isRecord js) = l) as (js & Hm & Hs).
  { clear Hne Hlen; induction Hl as [|e l He _ (js & Hm & Hs)]; [by exists []|].
    assert (exists j, save_entry e = Some j) as [j Hj].
    { destruct He as (_ & _ & _ & _ & (sz & Hsz) & (t & Ht)); unfold save_entry; rewrite Hsz, Ht; by eexists. }
    destruct (sanitize_saved e j He Hj) as [Hse Hr]. exists (j :: js); cbn [mapM]. rewrite Hj; cbn; rewrite Hm; cbn.
    split; [done|]. rewrite Hr; cbn [map]; by rewrite Hse, Hs. }
  exists (JArr js); unfold save_recent; rewrite Hm; split; [done|]. unfold load_recent; rewrite Hs.
  assert (List.filter (fun e => truthy (rf_id e) && truthy (rf_dealId e) && truthy (rf_filePath e)) l = l) as ->.
  { apply filter_all. eapply Forall_impl; [exact Hl|]. intros e (Hi & Hd & Hp & _); by rewrite !truthy_ne. }
  rewrite firstn_all2 by done. destruct l as [|e l]; [done|]. by rewrite (proj2 (Z.ltb_lt _ _)) by (rewrite zlen_cons; pose proof (zlen_nonneg l); lia).
Qed.

Definition demo_recent : list RecentFileEntry :=
  run_recent [(5, rop_upsert (mkRF "7" "a.txt" (DNum 3 0) "0xaa" act_upload rf_success None));
              (9, rop_upsert (mkRF "7" "b.txt" (DNum 4 0) "0xaa" act_download rf_failed (Some "gone")));
              (12, rop_update "7:a.txt" (mkPatch (Some rf_pending) None None None (Some None)))] [].
Lemma recent_files_reload_witness :
  exists saved, save_recent demo_recent = Some saved /\ load_recent (Some (Ok saved)) = Some demo_recent.
Proof.
  apply recent_files_reload; [|done|vm_compute; lia].
  apply Forall_forall; intros e He. apply list_elem_of_In in He. vm_compute in He. destruct He as [<-|[<-|[] ] ].
  all: repeat (split; [first [done|by eexists]|]); by eexists.
Defined.
Example demo_recent_ids : map rf_id demo_recent = ["7:b.txt"; "7:a.txt"].
Proof. reflexivity. Qed.
