(* ===== verification/DealList.v ===== *)
(** * The dashboard's deals (components/Dashboard.tsx)

    The list of deals comes from the chain's REST endpoint, which lags behind a commit;
    for two minutes the dashboard shows the content it committed itself.  Balances and
    providers are read beside it, and three loops wait for the chain to catch up. *)
From S2P Require Import Prelude JsString JsNum TransportTypes Effects Bytes Text Hex Multiaddr Http Lcd GatewayClient Config Evm FetchFlow DealTx.
#[local] Open Scope Z_scope.

(** ** State *)

Record Balances := mkBalances { bal_atom : option json; bal_stake : option json }.

Section Deals.
Context {W : Type} `{Clock W, Http W}.

(** [dl_overrides] is the mutable reference: by deal id, a CID and when it expires. *)
Record Dash := mkDash {
  dl_world : W; dl_deals : list LcdDeal; dl_allDeals : list LcdDeal; dl_providers : list json; dl_balances : Balances;
  dl_loading : bool; dl_overrides : gmap string (string * Z)
}.
Definition on_dash {A} (m : M W A) : M Dash A := fun p =>
  let '(r, w) := m (dl_world p) in
  (r, mkDash w (dl_deals p) (dl_allDeals p) (dl_providers p) (dl_balances p) (dl_loading p) (dl_overrides p)).
Definition set_deals (deals all : list LcdDeal) (overrides : gmap string (string * Z)) (p : Dash) : Dash :=
  mkDash (dl_world p) deals all (dl_providers p) (dl_balances p) (dl_loading p) overrides.
Definition set_dl_loading (b : bool) (p : Dash) : Dash :=
  mkDash (dl_world p) (dl_deals p) (dl_allDeals p) (dl_providers p) (dl_balances p) b (dl_overrides p).
Definition set_balances (b : Balances) (p : Dash) : Dash :=
  mkDash (dl_world p) (dl_deals p) (dl_allDeals p) (dl_providers p) b (dl_loading p) (dl_overrides p).
Definition set_providers (l : list json) (p : Dash) : Dash :=
  mkDash (dl_world p) (dl_deals p) (dl_allDeals p) l (dl_balances p) (dl_loading p) (dl_overrides p).

Context (cfg : Config).

(** ** The deals *)

Definition with_cid (cid : string) (d : LcdDeal) : LcdDeal :=
  mkDeal (d_id d) cid (d_size d) (d_owner d) (d_escrow d) (d_end_block d) (d_start_block d) (d_service_hint d)
    (d_current_replication d) (d_max_monthly_spend d) (d_providers d).
(** [toHexFromBase64OrHex(s) || s] *)
Definition hex_or_self (s : string) : string := or_else (toHexFromBase64OrHex (Some (JStr s)) []) s.
Definition chain_cid (d : LcdDeal) : string := hex_or_self (trim (d_cid d)).

(** One deal of the [map], which also forgets an override the chain has confirmed. *)
Definition merge_deal (acc : list LcdDeal * gmap string (string * Z)) (deal : LcdDeal) : list LcdDeal * gmap string (string * Z) :=
  let '(out, overrides) := acc in
  match (if truthy (d_id deal) then overrides !! d_id deal else None) with
  | None => (out ++ [deal], overrides)
  | Some (cid, _) =>
      if truthy (chain_cid deal) && eqb (chain_cid deal) cid then (out ++ [deal], delete (d_id deal) overrides)
      else (out ++ [with_cid cid deal], overrides)
  end.
Definition live (now : Z) (overrides : gmap string (string * Z)) : gmap string (string * Z) :=
  filter (fun kv => now < kv.2.2) overrides.

Definition owner_view (owner : option string) (all merged : list LcdDeal) : list LcdDeal :=
  match owner with
  | Some o =>
      if truthy o then
        let filtered := List.filter (fun d => eqb (d_owner d) o) merged in
        if (zlen filtered =? 0) && (0 <? zlen all) then merged else filtered
      else merged
  | None => merged
  end.

Definition fetchDeals (owner : option string) : M Dash (list LcdDeal) :=
  modify (set_dl_loading true) ;;
  finally
    (try_catch
       (all ← on_dash (lcdFetchDeals (cf_lcdBase cfg));
        t ← on_dash now;
        prim (fun p =>
           let '(merged, overrides) := fold_left merge_deal all ([], live t (dl_overrides p)) in
           let filtered := owner_view owner all merged in
           (Ok filtered, set_deals filtered merged overrides p)))
       (fun _ => modify (fun p => set_deals (dl_deals p) [] (dl_overrides p) p) ;; mret []))
    (set_dl_loading false).

(** A new content of a deal, shown before the chain has it. *)
Definition optimisticCidTtlMs : Z := 120000.
Definition show_committed (dealId cid : string) : M Dash unit :=
  t ← on_dash now;
  modify (fun p =>
    let patch := map (fun d => if eqb (d_id d) dealId then with_cid cid d else d) in
    set_deals (patch (dl_deals p)) (patch (dl_allDeals p)) (<[dealId := (cid, t + optimisticCidTtlMs)]> (dl_overrides p)) p).

(** ** Waiting for the chain *)

(** [for (attempt < tries) { look; if (done) return; sleep }] *)
Fixpoint wait_for {A} (tries : nat) (pause : Z) (look : M Dash A) (done : A -> bool) : M Dash bool :=
  match tries with
  | O => mret false
  | S tries =>
      seen ← look;
      if done seen then mret true else on_dash (modify (sleep_ms pause)) ;; wait_for tries pause look done
  end.

Definition refreshDealsAfterCreate (owner newDealId : string) : M Dash unit :=
  wait_for 10 1500 (fetchDeals (Some owner)) (existsb (fun d => eqb (d_id d) newDealId)) ;; mret tt.

Definition find_by_id (id : string) (l : list LcdDeal) : option LcdDeal := List.find (fun d => eqb (d_id d) id) l.
Definition has_content (dealId expectedCid : string) (l : list LcdDeal) : bool :=
  match find_by_id dealId l with Some d => eqb (trim (d_cid d)) expectedCid | None => false end.
Definition refreshDealsAfterContentCommit (owner dealId expectedCid : string) : M Dash unit :=
  wait_for 20 1000 (fetchDeals (Some owner)) (has_content dealId expectedCid) ;; mret tt.

(** ** Balances and providers *)

(** [bal.find((b) => b.denom === denom)] and its amount *)
Fixpoint amount_of (denom : string) (bal : list json) : outcome (option json) :=
  match bal with
  | [] => mret None
  | JNull :: _ => mthrow (JsError "TypeError" "Cannot read properties of null (reading 'denom')")
  | b :: rest =>
      match get_field b "denom" with
      | Some (JStr s) => if eqb s denom then mret (get_field b "amount") else amount_of denom rest
      | _ => amount_of denom rest
      end
  end.
Definition balances_of (j : json) : outcome Balances :=
  let bal := match get_field j "balances" with Some (JArr l) => l | _ => [] end in
  atom ← amount_of "aatom" bal; stake ← amount_of "stake" bal; mret (mkBalances atom stake).

(** [None] is [null]. *)
Definition fetchBalances (owner : string) : M Dash (option Balances) :=
  try_catch
    (res ← on_dash (fetch None (GET (cf_lcdBase cfg +:+ "/cosmos/bank/v1beta1/balances/" +:+ owner)));
     j ← lift (rs_json res);
     next ← lift (balances_of j);
     modify (set_balances next) ;; mret (Some next))
    (fun _ => mret None).

(** The list of providers, where the answer holds one. *)
Definition fetchProviders : M Dash unit :=
  try_catch
    (res ← on_dash (fetch None (GET (cf_lcdBase cfg +:+ "/nilchain/nilchain/v1/providers")));
     j ← lift (rs_json res);
     match j with
     | JNull => mthrow (JsError "TypeError" "Cannot read properties of null (reading 'providers')")
     | _ => match get_field j "providers" with Some (JArr l) => modify (set_providers l) | _ => mret tt end
     end)
    (fun _ => mret tt).

(** [BigInt(stake) > 0n], and true where it cannot be read *)
Definition stake_positive (stake : json) : bool :=
  match stake with
  | JStr s => match BigInt_of_string s with Ok z => 0 <? z | Thrown _ => true end
  | JArr _ => match BigInt_of_string (json_String stake) with Ok z => 0 <? z | Thrown _ => true end
  | JNum (Num z) => 0 <? z
  | JBool b => b
  | _ => true
  end.
Definition has_stake (b : option Balances) : bool :=
  match b with
  | Some (mkBalances _ (Some stake)) => json_truthy stake && stake_positive stake
  | _ => false
  end.
Definition waitForStakeBalance (owner : string) : M Dash bool := wait_for 60 2000 (fetchBalances owner) has_stake.

(** ** What is read off them *)

Definition is_http_url (ep : string) : bool :=
  starts_with "http://" (to_lower ep) || starts_with "https://" (to_lower ep).
(** The last record of an address counts, as in a [Map]. *)
Definition providerEndpoints (providers : list json) (addr : string) : list string :=
  fold_left (fun acc p =>
    match get_field p "address" with
    | Some (JStr a) =>
        if truthy a && eqb a addr then string_items (get_field p "endpoints") else acc
    | _ => acc
    end) providers [].

Fixpoint first_base (endpoints : list string) : option string :=
  match endpoints with
  | [] => None
  | ep :: rest =>
      if is_http_url ep then Some (strip_slash ep)
      else match multiaddrToHttpUrl ep with
           | Some url => if truthy url then Some url else first_base rest
           | None => first_base rest
           end
  end.
Definition resolveProviderBase (providers : list json) (deal : option LcdDeal) : option string :=
  match deal ≫= fun d => head (d_providers d) with
  | None => None
  | Some primary => Some (default (cf_spBase cfg) (first_base (providerEndpoints providers primary)))
  end.
Definition resolveProviderP2pTarget (providers : list json) (deal : option LcdDeal) : option P2pTarget :=
  match deal ≫= fun d => head (d_providers d) with
  | None => None
  | Some primary => first_target (providerEndpoints providers primary)
  end.

Definition ownedDeals (nilAddress : string) (deals : list LcdDeal) : list LcdDeal :=
  if truthy nilAddress then List.filter (fun d => eqb (d_owner d) nilAddress) deals else deals.
Definition targetDeal (targetDealId : string) (deals : list LcdDeal) : option LcdDeal :=
  if truthy targetDealId then find_by_id targetDealId deals else None.
(** The newest deal is selected where none is. *)
Definition default_target (nilAddress targetDealId : string) (deals : list LcdDeal) : string :=
  if truthy targetDealId || negb (truthy nilAddress) then targetDealId
  else match last (ownedDeals nilAddress deals) with Some d => if truthy (d_id d) then d_id d else targetDealId | None => targetDealId end.
Definition resolveDealById (dealId : string) (allDeals deals : list LcdDeal) : option LcdDeal :=
  match find_by_id dealId allDeals with Some d => Some d | None => find_by_id dealId deals end.
End Deals.
#[global] Arguments Dash : clear implicits.

(** ** What is shown *)

(** A deal as it is shown at a time: with an unexpired override the chain has not
    confirmed, or as the chain has it. *)
Definition shown (now : Z) (overrides : gmap string (string * Z)) (d : LcdDeal) : LcdDeal :=
  match (if truthy (d_id d) then overrides !! d_id d else None) with
  | Some (cid, expires) =>
      if (now <? expires) && negb (truthy (chain_cid d) && eqb (chain_cid d) cid) then with_cid cid d else d
  | None => d
  end.
Definition confirmed_by (all : list LcdDeal) (id cid : string) : bool :=
  existsb (fun d => truthy (d_id d) && eqb (d_id d) id && truthy (chain_cid d) && eqb (chain_cid d) cid) all.

Section DealFacts.
Context {W : Type} `{Clock W, Http W} (cfg : Config).

Lemma live_lookup now overrides id :
  live now overrides !! id = match overrides !! id with Some (cid, e) => if now <? e then Some (cid, e) else None | None => None end.
Proof.
  unfold live; rewrite map_lookup_filter. destruct (overrides !! id) as [ [cid e]|]; [|done]; cbn.
  destruct (Z.ltb_spec now e); [by rewrite option_guard_True|by rewrite option_guard_False by (cbn; lia)].
Qed.

Lemma merge_deals now overrides l : NoDup (map d_id l) -> forall out over,
  (forall d, d ∈ l -> over !! d_id d = live now overrides !! d_id d) ->
  (fold_left merge_deal l (out, over)).1 = out ++ map (shown now overrides) l /\
  forall id, (fold_left merge_deal l (out, over)).2 !! id =
    match over !! id with Some (cid, e) => if confirmed_by l id cid then None else Some (cid, e) | None => None end.
Proof.
  induction l as [|d l IH]; intros Hnd out over Hover.
  { cbn; split; [by rewrite app_nil_r|]. intros id; by destruct (over !! id) as [ [cid e]|]. }
  cbn [map] in Hnd; apply NoDup_cons in Hnd as [Hd Hnd]. cbn [fold_left map]. pose proof (Hover d ltac:(left)) as Hod.
  assert (forall d', d' ∈ l -> d_id d' <> d_id d) as Hdiff by (intros d' Hd' Heq; apply Hd; rewrite <- Heq; by apply list_elem_of_fmap_2).
  assert (exists x over', merge_deal (out, over) d = (out ++ [x], over') /\ x = shown now overrides d /\
    over' = (if truthy (d_id d) && match over !! d_id d with Some (cid, _) => truthy (chain_cid d) && eqb (chain_cid d) cid | None => false end
             then delete (d_id d) over else over)) as (x & over' & -> & -> & Heq).
  { unfold merge_deal, shown. destruct (truthy (d_id d)); [|by do 2 eexists]. rewrite live_lookup in Hod. rewrite Hod.
    destruct (overrides !! d_id d) as [ [cid e]|]; [|by do 2 eexists]. destruct (now <? e); [|by do 2 eexists].
    destruct (truthy (chain_cid d) && eqb (chain_cid d) cid); by do 2 eexists. }
  destruct (IH Hnd (out ++ [shown now overrides d]) over') as [H1 H2].
  { intros d' Hd'. rewrite <- (Hover d' ltac:(by right)), Heq. destruct (_ && _); [|done]. apply lookup_delete_ne. intros E; by apply (Hdiff d' Hd'). }
  split; [by rewrite H1, <- app_assoc|]. intros id; rewrite H2, Heq; clear H1 H2 Heq. unfold confirmed_by; cbn [existsb].
  destruct (decide (id = d_id d)) as [->|Hne].
  - assert (eqb (d_id d) (d_id d) = true) as -> by by apply bool_decide_eq_true_2.
    rewrite andb_true_r. destruct (over !! d_id d) as [ [cid e]|] eqn:Ho; cbn [andb]; [|by rewrite andb_false_r, Ho].
    rewrite <- andb_assoc. destruct (truthy (d_id d) && (truthy (chain_cid d) && eqb (chain_cid d) cid)); [by rewrite lookup_delete_eq|by rewrite Ho].
  - assert (eqb (d_id d) id = false) as -> by (apply bool_decide_eq_false_2; congruence). rewrite andb_false_r; cbn [andb orb].
    destruct (_ && _); [by rewrite lookup_delete_ne|done].
Qed.

Lemma fetchDeals_run owner (p : Dash W) all w1 : NoDup (map d_id all) -> lcdFetchDeals (cf_lcdBase cfg) (dl_world p) = (Ok all, w1) ->
  let t := (date_now w1).1 in
  exists p', fetchDeals cfg owner p = (Ok (owner_view owner all (map (shown t (dl_overrides p)) all)), p') /\
    dl_world p' = (date_now w1).2 /\ dl_loading p' = false /\
    dl_allDeals p' = map (shown t (dl_overrides p)) all /\ dl_deals p' = owner_view owner all (dl_allDeals p') /\
    forall id, dl_overrides p' !! id =
      match dl_overrides p !! id with
      | Some (cid, e) => if (t <? e) && negb (confirmed_by all id cid) then Some (cid, e) else None
      | None => None
      end.
Proof.
  intros Hnd Hf t; unfold fetchDeals; rewrite bind_run; unfold modify at 1, finally, try_catch; cbv beta iota. rewrite bind_run; unfold on_dash at 1.
  cbn [set_dl_loading dl_world]. rewrite Hf; cbv beta iota. rewrite bind_run; unfold on_dash, now; cbn [dl_world].
  subst t; destruct (date_now w1) as [t w2]; cbv beta iota; cbn [fst snd]. unfold prim; cbn [dl_overrides set_dl_loading].
  destruct (merge_deals t (dl_overrides p) all Hnd [] (live t (dl_overrides p))) as [H1 H2]; [done|].
  destruct (fold_left merge_deal all ([], live t (dl_overrides p))) as [merged over]; cbn [fst snd app] in H1, H2; subst merged.
  eexists; split; [reflexivity|]; cbn. repeat (split; [done|]). intros id; rewrite H2, live_lookup.
  destruct (dl_overrides p !! id) as [ [cid e]|]; [|done]. destruct (t <? e); cbn [andb]; [|done]. by destruct (confirmed_by all id cid).
Qed.

(** *** From the commit on *)

(** What happened on the page: a commit of this page, by when it was shown, or an answer
    of the chain, by when it was merged.  The newest is first. *)
Inductive dash_event := Committed (at_ms : Z) (dealId cid : string) | Refreshed (at_ms : Z) (all : list LcdDeal).

Definition two_minutes : Z := 2 * 60 * 1000.

(** The content this page last committed to a deal and when, as long as every answer of
    the chain since came within two minutes of it and did not show that content. *)
Fixpoint unconfirmed (log : list dash_event) (id : string) : option (string * Z) :=
  match log with
  | [] => None
  | Committed t dealId cid :: before => if decide (dealId = id) then Some (cid, t) else unconfirmed before id
  | Refreshed t all :: before =>
      match unconfirmed before id with
      | Some (cid, t0) => if (t <? t0 + two_minutes) && negb (confirmed_by all id cid) then Some (cid, t0) else None
      | None => None
      end
  end.

(** A deal of the chain as the page is to show it. *)
Definition content_at (now : Z) (log : list dash_event) (d : LcdDeal) : LcdDeal :=
  match (if truthy (d_id d) then unconfirmed log (d_id d) else None) with
  | Some (cid, t0) => if (now <? t0 + two_minutes) && negb (truthy (chain_cid d) && eqb (chain_cid d) cid) then with_cid cid d else d
  | None => d
  end.

(** The runs of the page: its commits and refreshes, and whatever else leaves the
    overrides alone.  A new account forgets them. *)
Inductive dash_run : list dash_event -> Dash W -> Prop :=
| run_start p : dl_overrides p = ∅ -> dash_run [] p
| run_commit log p dealId cid p' : dash_run log p -> show_committed dealId cid p = (Ok tt, p') ->
    dash_run (Committed (date_now (dl_world p)).1 dealId cid :: log) p'
| run_refresh log p owner all w1 r p' : dash_run log p -> NoDup (map d_id all) ->
    lcdFetchDeals (cf_lcdBase cfg) (dl_world p) = (Ok all, w1) -> fetchDeals cfg owner p = (r, p') ->
    dash_run (Refreshed (date_now w1).1 all :: log) p'
| run_other log p p' : dash_run log p -> dl_overrides p' = dl_overrides p -> dash_run log p'.

Lemma show_committed_run dealId cid (p : Dash W) :
  exists p', show_committed dealId cid p = (Ok tt, p') /\
    dl_overrides p' = <[dealId := (cid, (date_now (dl_world p)).1 + optimisticCidTtlMs)]> (dl_overrides p) /\
    Forall (fun d => d_id d = dealId -> d_cid d = cid) (dl_deals p' ++ dl_allDeals p').
Proof.
  unfold show_committed; rewrite bind_run; unfold on_dash, now; destruct (date_now (dl_world p)) as [t w]; cbn [fst].
  eexists; split; [reflexivity|]; cbn; split; [done|].
  assert (forall l, Forall (fun d => d_id d = dealId -> d_cid d = cid) (map (fun d => if eqb (d_id d) dealId then with_cid cid d else d) l)) as Hl.
  { intros l; apply Forall_forall; intros d' (d & <- & _)%list_elem_of_In%in_map_iff.
    unfold eqb; destruct (bool_decide_reflect (d_id d = dealId)); [done|by intros]. }
  apply Forall_app; by split.
Qed.

Lemma dash_run_overrides log p : dash_run log p -> forall id,
  dl_overrides p !! id = match unconfirmed log id with Some (cid, t0) => Some (cid, t0 + two_minutes) | None => None end.
Proof.
  induction 1 as [p Hp|log p dealId cid p' _ IH Hc|log p owner all w1 r p' _ IH Hnd Hf Hr|log p p' _ IH Ho]; intros id; cbn [unconfirmed].
  - by rewrite Hp, lookup_empty.
  - destruct (show_committed_run dealId cid p) as (p2 & Hc2 & Ho & _); rewrite Hc in Hc2; injection Hc2 as <-; rewrite Ho.
    destruct (decide (dealId = id)) as [->|Hne]; [by rewrite lookup_insert_eq|by rewrite lookup_insert_ne].
  - destruct (fetchDeals_run owner p all w1 Hnd Hf) as (p2 & Hr2 & _ & _ & _ & _ & Ho); rewrite Hr in Hr2; injection Hr2 as _ <-.
    rewrite Ho, IH. destruct (unconfirmed log id) as [ [cid t0]|]; [|done]. by destruct (_ && _).
  - by rewrite Ho, IH.
Qed.

Lemma shown_content log p t d : dash_run log p -> shown t (dl_overrides p) d = content_at t log d.
Proof.
  intros Hr; unfold shown, content_at; rewrite (dash_run_overrides _ _ Hr). destruct (truthy (d_id d)); [|done].
  by destruct (unconfirmed log (d_id d)) as [ [cid t0]|].
Qed.

(** C15: The dashboard shows the chain's deals, or its own commits for two minutes.  After
    any run of commits and refreshes, a refresh shows every deal the chain answers with,
    once and in order.  The content of a deal is the chain's, unless this page committed
    another less than two minutes ago and neither this nor an earlier refresh since has
    seen the chain show it: then it is that one.  The list is cut down to the owner's
    deals, where there are any.  A commit shows at once in every list. *)
Theorem fetchDeals_shows_commits owner log (p : Dash W) all w1 :
  dash_run log p -> NoDup (map d_id all) -> lcdFetchDeals (cf_lcdBase cfg) (dl_world p) = (Ok all, w1) ->
  let t := (date_now w1).1 in
  exists p', fetchDeals cfg owner p = (Ok (dl_deals p'), p') /\ dl_loading p' = false /\
    dl_allDeals p' = map (content_at t log) all /\ dl_deals p' = owner_view owner all (dl_allDeals p') /\
    dash_run (Refreshed t all :: log) p' /\
    forall dealId cid, exists p2, show_committed dealId cid p' = (Ok tt, p2) /\
      Forall (fun d => d_id d = dealId -> d_cid d = cid) (dl_deals p2 ++ dl_allDeals p2) /\
      dash_run (Committed (date_now (dl_world p')).1 dealId cid :: Refreshed t all :: log) p2.
Proof.
  intros Hrun Hnd Hf t; destruct (fetchDeals_run owner p all w1 Hnd Hf) as (p' & Hr & _ & Hl & Ha & Hd & _).
  assert (dash_run (Refreshed t all :: log) p') as Hrun' by by eapply run_refresh.
  exists p'; split; [by rewrite Hd, Ha|]; split; [done|]. split; [|split; [done|split; [done|] ] ].
  - rewrite Ha; apply map_ext; intros d; by apply shown_content.
  - intros dealId cid; destruct (show_committed_run dealId cid p') as (p2 & Hc & _ & Hs). exists p2; repeat (split; [done|]).
    by apply run_commit.
Qed.

Lemma find_by_id_first d l : d ∈ l -> NoDup (map d_id l) -> find_by_id (d_id d) l = Some d.
Proof.
  unfold find_by_id; induction l as [|x l IH]; [by intros ?%elem_of_nil|]; cbn [map List.find]. intros Hin [Hx Hnd]%NoDup_cons.
  apply elem_of_cons in Hin as [->|Hin]; [by unfold eqb; rewrite bool_decide_eq_true_2|].
  unfold eqb; rewrite bool_decide_eq_false_2; [by apply IH|]. intros Heq; apply Hx; rewrite Heq; by apply list_elem_of_fmap_2.
Qed.

Lemma shown_id t o d : d_id (shown t o d) = d_id d.
Proof. unfold shown; by repeat case_match. Qed.

(** Waiting for a commit to show does not wait for the chain.  The override that
    shows a commit at once is also what the wait looks at: as long as the chain still
    has the old content, one look at it is enough, and the wait is over. *)
Theorem commit_wait_sees_override owner dealId cid expires (p : Dash W) all w1 d :
  NoDup (map d_id all) -> lcdFetchDeals (cf_lcdBase cfg) (dl_world p) = (Ok all, w1) ->
  d ∈ all -> d_id d = dealId -> d_owner d = owner -> truthy dealId = true -> truthy owner = true ->
  dl_overrides p !! dealId = Some (cid, expires) -> (date_now w1).1 < expires -> trim cid = cid -> chain_cid d <> cid ->
  exists p', refreshDealsAfterContentCommit cfg owner dealId cid p = (Ok tt, p') /\ dl_world p' = (date_now w1).2.
Proof.
  intros Hnd Hf Hin <- <- Hti Hto Hov Hlt Htrim Hne.
  destruct (fetchDeals_run (Some (d_owner d)) p all w1 Hnd Hf) as (p' & Hr & Hw & _).
  unfold refreshDealsAfterContentCommit; rewrite bind_run; cbn [wait_for]. rewrite bind_run, Hr.
  set (t := (date_now w1).1) in *. assert (shown t (dl_overrides p) d = with_cid cid d) as Hs.
  { unfold shown; rewrite Hti, Hov. assert (t <? expires = true) as -> by by apply Z.ltb_lt.
    assert (eqb (chain_cid d) cid = false) as -> by by apply bool_decide_eq_false_2. by rewrite andb_false_r. }
  assert (has_content (d_id d) cid (owner_view (Some (d_owner d)) all (map (shown t (dl_overrides p)) all)) = true) as ->;
    [|exists p'; by split].
  unfold owner_view; rewrite Hto. set (merged := map _ all). set (mine := List.filter _ merged).
  assert (with_cid cid d ∈ merged) as Hm by (rewrite <- Hs; by apply list_elem_of_fmap_2).
  assert (with_cid cid d ∈ mine) as Hmine.
  { apply list_elem_of_In, filter_In; split; [by apply list_elem_of_In|]. by apply bool_decide_eq_true_2. }
  assert (zlen mine =? 0 = false) as ->.
  { apply Z.eqb_neq; intros Hz. by rewrite (zlen_0_nil mine Hz) in Hmine; apply elem_of_nil in Hmine. }
  cbn [andb]; unfold has_content. pose proof (find_by_id_first (with_cid cid d) mine) as Hfind; change (d_id (with_cid cid d)) with (d_id d) in Hfind.
  rewrite Hfind.
  - change (d_cid (with_cid cid d)) with cid; rewrite Htrim; by apply bool_decide_eq_true_2.
  - exact Hmine.
  - unfold mine. assert (forall l, NoDup (map d_id l) -> NoDup (map d_id (List.filter (fun d0 => eqb (d_owner d0) (d_owner d)) l))) as Hsub.
    { clear; induction l as [|x l IH]; [done|]; intros [Hx Hl]%NoDup_cons; cbn. destruct (eqb _ _); [|by apply IH]. constructor; [|by apply IH].
      intros Hin; apply Hx. apply list_elem_of_In, in_map_iff in Hin as (y & Hy & [Hy2 _]%filter_In). apply list_elem_of_In, in_map_iff; by exists y. }
    apply Hsub; unfold merged; rewrite map_map. erewrite map_ext; [exact Hnd|]. intros; apply shown_id.
Qed.
End DealFacts.

(** ** A lagging chain *)

#[local] Existing Instance chain_clock.
#[local] Existing Instance chain_http.
Definition demo_list : json :=
  JObj [("deals", JArr [JObj [("id", JStr "7"); ("cid", JStr "0xaa"); ("owner", JStr "nil1me")];
                        JObj [("id", JStr "8"); ("cid", JStr "0xcc"); ("owner", JStr "nil1you")] ])].
(** The page commits 0xbb to deal 7. *)
Definition dash_before : Dash chain := mkDash (1000, [Ok (json_response demo_list)]) [] [] [] (mkBalances None None) false ∅.
Definition demo_dash : Dash chain := Eval vm_compute in (show_committed "7" "0xbb" dash_before).2.
Definition demo_lcd : Config := appConfig (fun _ => None).
Definition demo_deals : list LcdDeal := Eval vm_compute in normalizeLcdDealsResponse demo_list.

Lemma fetchDeals_shows_commits_witness :
  exists p', fetchDeals demo_lcd (Some "nil1me") demo_dash = (Ok (dl_deals p'), p') /\ map d_cid (dl_deals p') = ["0xbb"].
Proof.
  destruct (fetchDeals_shows_commits demo_lcd (Some "nil1me") [Committed 1000 "7" "0xbb"] demo_dash demo_deals (1000, []))
    as (p' & Hr & _ & Ha & Hd & _).
  - pose proof (run_commit demo_lcd [] dash_before "7" "0xbb" demo_dash) as Hc; apply Hc; [by apply run_start|vm_compute; reflexivity].
  - vm_compute; repeat constructor; set_solver.
  - vm_compute; reflexivity.
  - exists p'; split; [exact Hr|]. rewrite Hd, Ha. vm_compute; reflexivity.
Defined.

Lemma commit_wait_sees_override_witness :
  exists p', refreshDealsAfterContentCommit demo_lcd "nil1me" "7" "0xbb" demo_dash = (Ok tt, p') /\ dl_world p' = (1000, []).
Proof.
  destruct (commit_wait_sees_override demo_lcd "nil1me" "7" "0xbb" 121000 demo_dash demo_deals (1000, []) (nth 0 demo_deals (mkDeal "" "" "" "" "" "" "" "" "" "" [])))
    as (p' & Hr & Hw); [..|by exists p'].
  - vm_compute; repeat constructor; set_solver.
  - vm_compute; reflexivity.
  - apply list_elem_of_In; left; reflexivity.
  - reflexivity.
  - reflexivity.
  - reflexivity.
  - reflexivity.
  - reflexivity.
  - vm_compute; reflexivity.
  - reflexivity.
  - vm_compute; discriminate.
Defined.
