(* ===== verification/Content.v ===== *)
(** * The contents of the selected deal (components/Dashboard.tsx)

    Under the list of deals the dashboard shows the files and the slab layout of the
    selected one.  An effect asks for both whenever the selection or the deal changes;
    its cleanup cancels the run before it, whose answers may still arrive, in any order.
    The state machine has a transition for each of these events; what is shown is proved
    to follow the selection. *)
From S2P Require Import Prelude JsString JsNum TransportTypes Effects Router Multiaddr Http Lcd GatewayClient P2p Config TransportHook DealList.
#[local] Open Scope Z_scope.

Record Content := mkContent {
  ct_files : option (list json); ct_filesError : option string; ct_filesLoading : bool;
  ct_slab : option json; ct_slabError : option string; ct_slabLoading : bool
}.
Definition empty_content : Content := mkContent None None false None None false.
(** What the effect sets before it asks. *)
Definition loading_content (c : Content) : Content := mkContent (ct_files c) None true (ct_slab c) None true.

Section Content.
Context {W : Type} `{Clock W, Timers W, Http W, Libp2p W, TraceStore W} (cfg : Config) (preference : RoutePreference).

(** What the effect asks for, or [None] where it clears the view. *)
Definition content_request (nilAddress targetDealId : string) (providers : list json) (deal : option LcdDeal) : option RouteRequest :=
  match deal with
  | Some d =>
      let owner := or_else nilAddress (d_owner d) in
      if negb (truthy (d_cid d)) || negb (truthy targetDealId) || negb (truthy owner) then None
      else Some (mkRoute (d_cid d) owner targetDealId (resolveProviderBase cfg providers deal)
                   (if cf_p2pEnabled cfg then resolveProviderP2pTarget providers deal else None) None)
  | None => None
  end.

(** [Promise.allSettled]: the answers of both requests. *)
Definition answers : Type := outcome (list json) * outcome json.
Definition settle_load {A} (m : M W (TransportOutcome A)) : W -> outcome A * W := fun w =>
  let '(o, w') := m w in (match o with Ok t => Ok (to_data t) | Thrown e => Thrown e end, w').
Definition ask_content (r : RouteRequest) (w : W) : answers * W :=
  let '(files, w1) := settle_load (listFiles cfg preference r) w in
  let '(layout, w2) := settle_load (slab cfg preference r) w1 in
  ((files, layout), w2).

Definition reason (e : jserr) (otherwise : string) : string := if is_Error e then err_message e else otherwise.
Definition show_content (a : answers) (c : Content) : Content :=
  let '(files, filesError) :=
    match a.1 with
    | Ok l => (Some l, ct_filesError c)
    | Thrown e => (Some [], Some (reason e "Failed to load NilFS file table"))
    end in
  let '(layout, slabError) :=
    match a.2 with
    | Ok j => (Some j, ct_slabError c)
    | Thrown e => (None, Some (reason e "Failed to load slab layout"))
    end in
  mkContent files filesError false layout slabError false.

(** The page: the selected deal, what the last run of the effect asked for, what is
    shown, and the runs that are not answered, each with whether it is still wanted. *)
Record ContentPage := mkContentPage {
  cp_world : W; cp_target : string; cp_want : option RouteRequest; cp_content : Content; cp_runs : list (RouteRequest * bool)
}.
Definition content_start (w : W) : ContentPage := mkContentPage w "" None empty_content [].

(** The effects of a render with a new selection or a new deal: the cleanup, the reset
    of a new selection, the load. *)
Definition load_effect (target : string) (want : option RouteRequest) (p : ContentPage) : ContentPage :=
  let stopped := map (fun r => (r.1, false)) (cp_runs p) in
  let c := if eqb target (cp_target p) then cp_content p else empty_content in
  match want with
  | None => mkContentPage (cp_world p) target want empty_content stopped
  | Some r => mkContentPage (cp_world p) target want (loading_content c) (stopped ++ [(r, true)])
  end.
(** A run is answered. *)
Definition content_answer (i : nat) (p : ContentPage) : ContentPage :=
  match (cp_runs p !! i : option (RouteRequest * bool)) with
  | Some (r, wanted) =>
      let '(a, w) := ask_content r (cp_world p) in
      mkContentPage w (cp_target p) (cp_want p) (if wanted then show_content a (cp_content p) else cp_content p) (delete i (cp_runs p))
  | None => p
  end.

Inductive content_step : ContentPage -> ContentPage -> Prop :=
| content_renders p nilAddress target providers deals :
    content_step p (load_effect target (content_request nilAddress target providers (targetDeal target deals)) p)
| content_answers p i : content_step p (content_answer i p)
| content_elsewhere p w : content_step p (mkContentPage w (cp_target p) (cp_want p) (cp_content p) (cp_runs p)).

(** ** The view follows the selection *)

(** Files that some request for the deal was answered with. *)
Definition files_of_deal (dealId : string) (files : option (list json)) : Prop :=
  match files with
  | None | Some [] => True
  | Some l => exists r w, q_dealId r = dealId /\ (ask_content r w).1.1 = Ok l
  end.
Definition slab_of_deal (dealId : string) (layout : option json) : Prop :=
  match layout with None => True | Some j => exists r w, q_dealId r = dealId /\ (ask_content r w).1.2 = Ok j end.

Record follows (p : ContentPage) : Prop := mkFollows {
  fo_want : match cp_want p with Some r => q_dealId r = cp_target p | None => True end;
  fo_files : files_of_deal (cp_target p) (ct_files (cp_content p));
  fo_slab : slab_of_deal (cp_target p) (ct_slab (cp_content p));
  fo_runs :
    (exists r before after, cp_want p = Some r /\ cp_runs p = before ++ (r, true) :: after /\
       Forall (fun x => x.2 = false) (before ++ after) /\ cp_content p = loading_content (cp_content p)) \/
    (Forall (fun x => x.2 = false) (cp_runs p) /\
       match cp_want p with
       | None => cp_content p = empty_content
       | Some r => exists w, cp_content p = show_content (ask_content r w).1 (loading_content empty_content)
       end)
}.

Lemma content_request_deal nilAddress target providers deal r :
  content_request nilAddress target providers deal = Some r -> q_dealId r = target.
Proof. unfold content_request; destruct deal; [|done]. destruct (_ || _); [done|]. by intros [= <-]. Qed.

Lemma stopped_runs (l : list (RouteRequest * bool)) : Forall (fun x => x.2 = false) (map (fun r => (r.1, false)) l).
Proof. by induction l; constructor. Qed.

Lemma follows_start w : follows (content_start w).
Proof. split; cbn; [done|done|done|]. right; by split. Qed.

Lemma follows_effect p target want : match want with Some r => q_dealId r = target | None => True end ->
  follows p -> follows (load_effect target want p).
Proof.
  intros Hw [_ Hf Hs _]; unfold load_effect; destruct want as [r|].
  2: { split; cbn; [done|done|done|]. right; split; [apply stopped_runs|done]. }
  assert (files_of_deal target (ct_files (if eqb target (cp_target p) then cp_content p else empty_content)) /\
          slab_of_deal target (ct_slab (if eqb target (cp_target p) then cp_content p else empty_content))) as [Hf' Hs'].
  { destruct (eqb target (cp_target p)) eqn:E; [|done]. unfold eqb in E; apply bool_decide_eq_true in E as ->; by split. }
  split; cbn; [done|done|done|]. left; exists r, (map (fun r => (r.1, false)) (cp_runs p)), []; split; [done|split; [done|split; [|done] ] ].
  rewrite app_nil_r; apply stopped_runs.
Qed.

(** What an answer shows does not depend on what was shown, beyond the texts that the
    effect has cleared. *)
Lemma show_loading a c : c = loading_content c -> show_content a c = show_content a (loading_content empty_content).
Proof. intros ->; unfold show_content; destruct a as [ [l|e] [j|e'] ]; done. Qed.

Lemma shown_files r w c : files_of_deal (q_dealId r) (ct_files (show_content (ask_content r w).1 c)) /\
  slab_of_deal (q_dealId r) (ct_slab (show_content (ask_content r w).1 c)).
Proof.
  unfold show_content; destruct (ask_content r w).1 as [f s] eqn:E; cbn [fst snd].
  destruct f as [l|e], s as [j|e']; cbn; split; try done;
    (destruct l as [|x l]; [done|]; exists r, w; by rewrite E) || (exists r, w; by rewrite E).
Qed.

(** Another element than [x] is deleted. *)
Lemma delete_beside {A} (x y : A) after : forall before i, (before ++ x :: after) !! i = Some y ->
  (i = length before /\ y = x) \/
  (y ∈ before ++ after /\ exists before' after', delete i (before ++ x :: after) = before' ++ x :: after' /\ before' ++ after' ⊆ before ++ after).
Proof.
  induction before as [|z l IH]; intros [|i] Hi; cbn in Hi |- *.
  - left; by injection Hi as <-.
  - right; split; [by eapply list_elem_of_lookup_2|]. exists [], (delete i after); split; [done|]. apply list_subseteq_delete.
  - right; injection Hi as <-. split; [left|]. exists l, after; split; [done|]. set_solver.
  - destruct (IH i Hi) as [ [-> ->]|(Hin & b & a & Hd & Hsub)]; [by left|right]. split; [by right|].
    exists (z :: b), a; split; [cbn; by f_equal|]. cbn; set_solver.
Qed.

Lemma follows_answer p i : follows p -> follows (content_answer i p).
Proof.
  intros [Hw Hf Hs Hr]; unfold content_answer; destruct (cp_runs p !! i) as [ [r wanted]|] eqn:Hi; [|by split].
  destruct (ask_content r (cp_world p)) as [a w] eqn:Ha.
  destruct Hr as [(r' & before & after & Hwant & Hruns & Hall & Hc)|[Hall Hc] ].
  - rewrite Hruns in Hi |- *. destruct (delete_beside _ _ _ _ _ Hi) as [ [-> [= -> ->] ]|(Hin & b & a' & Hd & Hsub)].
    + rewrite Hwant in Hw. pose proof (shown_files r' (cp_world p) (cp_content p)) as [Hsf Hss]; rewrite Ha in Hsf, Hss.
      split; cbn [cp_want cp_target cp_content cp_runs]; [by rewrite Hwant|by rewrite <- Hw|by rewrite <- Hw|].
      right; rewrite delete_middle, Hwant; split; [done|]. exists (cp_world p). by rewrite Ha, (show_loading _ _ Hc).
    + rewrite Forall_forall in Hall. pose proof (Hall _ Hin) as Hold; cbn in Hold; subst wanted.
      split; cbn [cp_want cp_target cp_content cp_runs]; [done..|]. left; exists r', b, a'.
      split; [done|split; [done|split; [|done] ] ]. apply Forall_forall; auto.
  - assert (wanted = false) as -> by (rewrite Forall_lookup in Hall; by apply Hall in Hi).
    split; cbn [cp_want cp_target cp_content cp_runs]; [done..|]. right; split; [by apply Forall_delete|done].
Qed.

Lemma follows_reachable w p : rtc content_step (content_start w) p -> follows p.
Proof.
  apply (rtc_ind_r follows); [apply follows_start|]. intros q q' _ Hs Hq; inversion_clear Hs; [|by apply follows_answer|by destruct Hq].
  apply follows_effect; [|done]. destruct (content_request _ _ _ _) eqn:E; [|done]. by eapply content_request_deal.
Qed.

(** C18: The dashboard's file list follows the selection.  However deals are selected and
    refreshed, and in whatever order the requests are answered, the files and the layout
    shown were answered to a request for the selected deal, never to one for a deal that
    was selected before.  The view is loading exactly while the latest request is
    unanswered; once it is answered, the view is what it was answered with, error texts
    included; where there is nothing to ask it is empty. *)
Theorem content_follows_selection w p : rtc content_step (content_start w) p ->
  files_of_deal (cp_target p) (ct_files (cp_content p)) /\ slab_of_deal (cp_target p) (ct_slab (cp_content p)) /\
  ct_filesLoading (cp_content p) = ct_slabLoading (cp_content p) /\
  (ct_filesLoading (cp_content p) = true <-> exists r, cp_want p = Some r /\ (r, true) ∈ cp_runs p) /\
  (ct_filesLoading (cp_content p) = false ->
     match cp_want p with
     | None => cp_content p = empty_content
     | Some r => q_dealId r = cp_target p /\ exists w', cp_content p = show_content (ask_content r w').1 (loading_content empty_content)
     end).
Proof.
  intros [Hw Hf Hs Hr]%follows_reachable. split; [done|split; [done|] ].
  destruct Hr as [(r & before & after & Hwant & Hruns & Hall & Hc)|[Hall Hc] ].
  - rewrite Hc; cbn. split; [done|split; [|done] ]. split; [intros _|done]. exists r; split; [done|]. rewrite Hruns; set_solver.
  - assert (ct_filesLoading (cp_content p) = false /\ ct_slabLoading (cp_content p) = false) as [-> ->].
    { destruct (cp_want p) as [r|]; [destruct Hc as [w' ->]|by rewrite Hc]. unfold show_content; by destruct (ask_content r w').1 as [ [?|?] [?|?] ]. }
    split; [done|split]. { split; [done|]. intros (r & _ & Hin). rewrite Forall_forall in Hall. by apply Hall in Hin. }
    intros _. by destruct (cp_want p).
Qed.
End Content.
#[global] Arguments ContentPage : clear implicits.

(** ** A run *)

#[local] Existing Instances demo_clock_inst demo_timers demo_http demo_libp2p demo_trace_store.
Definition deal_with (id cid : string) : LcdDeal := mkDeal id cid "0" "nil1me" "" "" "" "" "" "" [].
Definition two_deals : list LcdDeal := [deal_with "7" "0xaa"; deal_with "8" "0xbb"].
Definition file_named (path : string) : json := JObj [("path", JStr path); ("size_bytes", JNum (Num 5)); ("start_offset", JNum (Num 0)); ("flags", JNum (Num 0))].
Definition files_answer (path : string) : outcome Response := Ok (json_response (JObj [("files", JArr [file_named path])])).
Definition slab_answer (n : Z) : outcome Response := Ok (json_response (JObj [("total_mdus", JNum (Num n))])).

(** Deal 7 is selected, then deal 8, which is answered first. *)
Definition two_worlds : demo := mkDemo [files_answer "eight"; slab_answer 8; files_answer "seven"; slab_answer 7] 0 None.
Definition select_in (id : string) : ContentPage demo -> ContentPage demo :=
  load_effect id (content_request demo_cfg "nil1me" id [] (targetDeal id two_deals)).
Definition two_loads : ContentPage demo := select_in "8" (select_in "7" (content_start two_worlds)).
Definition both_answered : ContentPage demo := content_answer demo_cfg auto 0 (content_answer demo_cfg auto 1 two_loads).

Lemma content_follows_selection_witness :
  cp_target both_answered = "8" /\ cp_runs both_answered = [] /\ ct_files (cp_content both_answered) <> None /\
  files_of_deal demo_cfg auto (cp_target both_answered) (ct_files (cp_content both_answered)).
Proof.
  split; [vm_compute; reflexivity|split; [vm_compute; reflexivity|split; [vm_compute; discriminate|] ] ].
  assert (rtc (content_step demo_cfg auto) (content_start two_worlds) both_answered) as Hrun.
  { apply (rtc_l _ _ (select_in "7" (content_start two_worlds))); [apply content_renders|].
    apply (rtc_l _ _ two_loads); [apply content_renders|].
    apply (rtc_l _ _ (content_answer demo_cfg auto 1 two_loads)); [apply content_answers|]. apply rtc_once, content_answers. }
  exact (proj1 (content_follows_selection demo_cfg auto two_worlds both_answered Hrun)).
Defined.
