(* ===== verification/Board.v ===== *)
(** * Actions of the dashboard (components/Dashboard.tsx, hooks/useUpload.ts)

    Creating a deal from the form, uploading a file into the selected deal, committing
    its content and recording what was done.  A handler closes over the state of the
    render it was made in ([Render]); what it sets goes into the page ([Board]), and
    only the next render's handlers see it. *)
From S2P Require Import Prelude JsString JsNum TransportTypes Effects Bytes Text Router RangeChunker Hex Multiaddr Http Lcd.
From S2P Require Import GatewayClient P2p Config TransportHook Evm Eip712 FetchFlow Nilfs Opfs NilWasm Sharding DealTx Faucet RecentFiles DealList.
#[local] Open Scope Z_scope.

Inductive tone := tone_neutral | tone_error | tone_success.
(** What the status line says. *)
Inductive message := Say (s : string) | NeedProviders (slots : dec) (available : Z).

(** ** The form *)

(** [a + b] of two decimal literals *)
Definition dec_add (a b : dec) : dec :=
  match a, b with
  | DNum m e, DNum n f => let g := Z.min e f in DNum (m * 10 ^ (e - g) + n * 10 ^ (f - g)) g
  | _, _ => DNaN
  end.
(** [d > n] *)
Definition dec_gt (d : dec) (n : Z) : bool :=
  match d with
  | DNaN => false
  | DInf neg => negb neg
  | DNum m e => if 0 <=? e then n <? m * 10 ^ e else n * 10 ^ (- e) <? m
  end.

Record Render := mkRender {
  rd_address : option string; rd_nilAddress : string; rd_target : string; rd_staged : option UploadResult;
  rd_deals : list LcdDeal; rd_allDeals : list LcdDeal; rd_providers : list json; rd_balances : Balances;
  rd_mode : redundancy_mode; rd_rsK : string; rd_rsM : string; rd_replication : string; rd_duration : string;
  rd_escrow : string; rd_spend : string
}.

Section Form.
(** Whether the remainder of 64 by a fraction is 0, in double arithmetic. *)
Context (divides_64 : dec -> bool).
(** [64 % k === 0] *)
Definition k_divides (k : dec) : bool := match k with DNum m 0 => 64 mod m =? 0 | _ => divides_64 k end.
Definition numeric (k m : dec) : bool := dec_is_finite k && dec_is_finite m && dec_pos k && dec_pos m.

Definition mode2Config (r : Render) : option dec * option message :=
  match rd_mode r with
  | mode1 => (None, None)
  | mode2 =>
      let k := Number_of_string (rd_rsK r) in
      let m := Number_of_string (rd_rsM r) in
      let providerCount := zlen (rd_providers r) in
      if negb (numeric k m) then (None, Some (Say "Enter numeric K and M values."))
      else
        let slots := dec_add k m in
        if negb (k_divides k) then (Some slots, Some (Say "K must divide 64."))
        else if (0 <? providerCount) && dec_gt slots providerCount then (Some slots, Some (NeedProviders slots providerCount))
        else (Some slots, None)
  end.

(** The hint of the deal to create, or why there is none. *)
Definition create_hint (r : Render) : message + string :=
  match rd_mode r with
  | mode2 =>
      let k := Number_of_string (rd_rsK r) in
      let m := Number_of_string (rd_rsM r) in
      let providerCount := zlen (rd_providers r) in
      let slots := dec_add k m in
      if negb (numeric k m) then inl (Say "Mode 2 requires numeric K and M values.")
      else if negb (k_divides k) then inl (Say "Mode 2 requires K to divide 64.")
      else if providerCount =? 0 then inl (Say "Provider list not loaded yet. Retry in a few seconds.")
      else if dec_gt slots providerCount then inl (NeedProviders slots providerCount)
      else inr (buildServiceHint "General" (Some slots) (Some k) (Some m))
  | mode1 => inr (buildServiceHint "General" (Some (Number_of_string (rd_replication r))) None None)
  end.

(** A deal created in mode 2 can be sharded: its hint reads back as the numbers of the
    form, the pieces of an MDU are whole, and the chain has enough providers. *)
Lemma create_hint_facts r k m hint :
  rd_mode r = mode2 -> rd_rsK r = string_of_Z k -> rd_rsM r = string_of_Z m -> 0 < k < 2 ^ 52 -> 0 < m < 2 ^ 52 ->
  create_hint r = inr hint ->
  parseServiceHint (Some hint) = mkHint "General" (Some (of_int (k + m))) (Some (of_int k)) (Some (of_int m)) mode2 /\
  64 mod k = 0 /\ k + m <= zlen (rd_providers r).
Proof.
  intros Hmode Hk Hm Hkr Hmr; unfold create_hint; rewrite Hmode, Hk, Hm, !Number_of_numeral by lia.
  unfold numeric, dec_is_finite, dec_pos; rewrite !(proj2 (Z.ltb_lt _ _)) by lia; cbn [andb negb k_divides].
  destruct (Z.eqb_spec (64 mod k) 0) as [Hd|]; [|discriminate]; cbn [negb].
  destruct (Z.eqb_spec (zlen (rd_providers r)) 0); [discriminate|].
  assert (dec_add (DNum k 0) (DNum m 0) = DNum (k + m) 0) as -> by by unfold dec_add; cbn; rewrite !Z.mul_1_r.
  cbn [dec_gt]; change (0 <=? 0) with true; cbv iota. rewrite Z.pow_0_r, Z.mul_1_r.
  destruct (Z.ltb_spec (zlen (rd_providers r)) (k + m)); [discriminate|]. intros [= <-].
  split; [|by split]. pose proof (serviceHint_round_trip "General" (Some (k + m)) (Some (k, m))) as Hrt; cbn in Hrt.
  apply Hrt; [done|done|by repeat constructor|lia|lia].
Qed.

(** C17: A deal made with the form can be used, if its K and M are whole numbers.  When the
    form accepts whole numbers K and M for a mode 2 deal (it accepts others too, see
    [form_takes_fractions]), the service hint it sends reads back as exactly those numbers,
    with a replica per slot; the chain has a provider for every slot; and the sharder
    gets whole commitments per MDU, so its builder is never refused for them. *)
Theorem form_deal_is_shardable r k m hint :
  rd_mode r = mode2 -> rd_rsK r = string_of_Z k -> rd_rsM r = string_of_Z m -> 0 < k < 2 ^ 52 -> 0 < m < 2 ^ 52 ->
  create_hint r = inr hint ->
  parseServiceHint (Some hint) = mkHint "General" (Some (of_int (k + m))) (Some (of_int k)) (Some (of_int m)) mode2 /\
  k + m <= zlen (rd_providers r) /\
  commitmentsPerMdu (Some (mkStripe k m)) = Ok (Some ((k + m) * (64 / k))).
Proof.
  intros Hmode Hk Hm Hkr Hmr Hh. destruct (create_hint_facts r k m hint Hmode Hk Hm Hkr Hmr Hh) as (Hp & Hd & Hn).
  split; [done|split; [done|] ]. unfold commitmentsPerMdu; cbn [rs_k rs_m].
  assert ((k + m) * 64 = (k + m) * (64 / k) * k) as -> by (Z.div_mod_to_equations; nia).
  rewrite Z.mod_mul, Z.div_mul by lia. done.
Qed.
End Form.

Definition demo_form : Render :=
  mkRender (Some "0xme") "nil1me" "" None [] [] (replicate 12 (JObj [])) (mkBalances None (Some (JStr "5"))) mode2 "8" "4" "1" "100" "10" "20".
Lemma form_deal_is_shardable_witness :
  exists hint, create_hint (fun _ => false) demo_form = inr hint /\ 8 + 4 <= zlen (rd_providers demo_form).
Proof.
  eexists; split; [reflexivity|].
  edestruct (form_deal_is_shardable (fun _ => false) demo_form 8 4) as (_ & Hn & _); [done|done|done|lia|lia|reflexivity|exact Hn].
Defined.

(** The form accepts a fraction for M, and the hint has it rounded: the chain is asked for
    other numbers than the form shows, here 8+3 for 8+2.5. *)
Definition fraction_form : Render :=
  mkRender (Some "0xme") "nil1me" "" None [] [] (replicate 12 (JObj [])) (mkBalances None (Some (JStr "5"))) mode2 "8" "2.5" "1" "100" "10" "20".
Theorem form_takes_fractions :
  create_hint (fun _ => false) fraction_form = inr "General:replicas=11:rs=8+3" /\
  (mode2Config (fun _ => false) fraction_form).2 = None.
Proof. split; vm_compute; reflexivity. Qed.

(** ** The page *)

Section Board.
Context `{Bech32, Viem} {W : Type} `{Clock W, Timers W, Http W, Libp2p W, TraceStore W, Wallet W}.

Record Board := mkBoard {
  bd_dash : Dash W; bd_recent : list RecentFileEntry; bd_staged : option UploadResult; bd_status : option (tone * message);
  bd_target : string; bd_mdu_tab : bool; bd_uploading : bool; bd_create : bool * option string; bd_update : bool * option string
}.
Definition set_dash (d : Dash W) (b : Board) : Board :=
  mkBoard d (bd_recent b) (bd_staged b) (bd_status b) (bd_target b) (bd_mdu_tab b) (bd_uploading b) (bd_create b) (bd_update b).
Definition set_recent (l : list RecentFileEntry) (b : Board) : Board :=
  mkBoard (bd_dash b) l (bd_staged b) (bd_status b) (bd_target b) (bd_mdu_tab b) (bd_uploading b) (bd_create b) (bd_update b).
Definition set_staged (u : option UploadResult) (b : Board) : Board :=
  mkBoard (bd_dash b) (bd_recent b) u (bd_status b) (bd_target b) (bd_mdu_tab b) (bd_uploading b) (bd_create b) (bd_update b).
Definition set_line (t : tone) (m : message) : M Board unit := modify (fun b =>
  mkBoard (bd_dash b) (bd_recent b) (bd_staged b) (Some (t, m)) (bd_target b) (bd_mdu_tab b) (bd_uploading b) (bd_create b) (bd_update b)).
Definition select_deal (id : string) (mdu_tab : bool) : M Board unit := modify (fun b =>
  mkBoard (bd_dash b) (bd_recent b) (bd_staged b) (bd_status b) id mdu_tab (bd_uploading b) (bd_create b) (bd_update b)).
Definition set_uploading (u : bool) (b : Board) : Board :=
  mkBoard (bd_dash b) (bd_recent b) (bd_staged b) (bd_status b) (bd_target b) (bd_mdu_tab b) u (bd_create b) (bd_update b).

Definition dash {A} (m : M (Dash W) A) : M Board A := fun b => let '(r, d) := m (bd_dash b) in (r, set_dash d b).
Definition world {A} (m : M W A) : M Board A := dash (on_dash m).
Definition with_world (w : W) (d : Dash W) : Dash W :=
  mkDash w (dl_deals d) (dl_allDeals d) (dl_providers d) (dl_balances d) (dl_loading d) (dl_overrides d).
(** The hooks keep a state of their own. *)
Definition in_create {A} (m : M (TxPage W) A) : M Board A := fun b =>
  let '(r, p) := m (mkTx (dl_world (bd_dash b)) (bd_create b).1 (bd_create b).2) in
  (r, mkBoard (with_world (tx_world p) (bd_dash b)) (bd_recent b) (bd_staged b) (bd_status b) (bd_target b) (bd_mdu_tab b)
        (bd_uploading b) (tx_loading p, tx_last p) (bd_update b)).
Definition in_update {A} (m : M (TxPage W) A) : M Board A := fun b =>
  let '(r, p) := m (mkTx (dl_world (bd_dash b)) (bd_update b).1 (bd_update b).2) in
  (r, mkBoard (with_world (tx_world p) (bd_dash b)) (bd_recent b) (bd_staged b) (bd_status b) (bd_target b) (bd_mdu_tab b)
        (bd_uploading b) (bd_create b) (tx_loading p, tx_last p)).

Context (cfg : Config) (preference : RoutePreference) (divides_64 : dec -> bool).

Definition upsert (entry : RecentFile) : M Board unit :=
  t ← world now; modify (fun b => set_recent (upsertRecentFile t entry (bd_recent b)) b).

(** ** useUpload.ts *)

Definition upload (file : option (string * bytes)) (address : option string) (dealId directBase : option string) : M Board UploadResult :=
  match file with
  | None => js_error "No file selected"
  | Some (name, data) =>
      if negb (opt_str address) then js_error "Wallet not connected"
      else
        let address := default "" address in
        modify (set_uploading true) ;;
        finally
          (let owner := if starts_with "0x" address then ethToNil address else address in
           result ← world (uploadFile cfg preference (mkUploadInput name data owner dealId None) directBase);
           mret (to_data result))
          (set_uploading false)
  end.

(** ** Creating a deal *)

Definition no_funds (b : Balances) : bool :=
  let empty v := match v with Some j => negb (json_truthy j) | None => true end in empty (bal_stake b) && empty (bal_atom b).
Definition need_faucet : message := Say "You must request testnet NIL from the faucet before creating a storage deal.".

Definition handleCreateDeal (r : Render) (evmCreator : string) : M Board unit :=
  if no_funds (rd_balances r) then set_line tone_error need_faucet
  else
    try_catch
      (match create_hint divides_64 r with
       | inl m => set_line tone_error m
       | inr hint =>
           res ← in_create (submitDeal cfg (mkCreate evmCreator (Number_of_string (rd_duration r)) (rd_escrow r) (rd_spend r)
                             (Some (Number_of_string (rd_replication r))) (Some hint)));
           set_line tone_success (Say ("Capacity Allocated. Deal ID: " +:+ res.2 +:+ ". Now verify via content tab.")) ;;
           if truthy (rd_nilAddress r) then
             dash (refreshDealsAfterCreate cfg (rd_nilAddress r) res.2) ;;
             dash (fetchBalances cfg (rd_nilAddress r)) ;;
             select_deal res.2 (match rd_mode r with mode2 => true | mode1 => false end)
           else mret tt
       end)
      (fun e => set_line tone_error (Say (if is_Error e then err_message e else "Deal allocation failed. Check gateway logs."))).

(** ** Committing content *)

(** [stagedUpload.fileSizeBytes || stagedUpload.sizeBytes || manifestSize || 0] *)
Definition size_or (a b : dec) : dec := if dec_truthy a then a else b.
Definition recordUpload (r : Render) (manifestSize : dec) (manifestHex : string) (status : recent_status) (error : option string) : M Board unit :=
  match rd_staged r with
  | Some staged =>
      if truthy (up_filename staged) then
        upsert (mkRF (rd_target r) (up_filename staged)
                  (size_or (up_fileSizeBytes staged) (size_or (up_sizeBytes staged) (dec_or_zero manifestSize)))
                  manifestHex act_upload status error)
      else mret tt
  | None => mret tt
  end.

(** The commit, and what it shows at once. *)
Definition commit_content (r : Render) (trimmedRoot manifestHex : string) (manifestSize : dec) : M Board unit :=
  in_update (submitUpdate cfg (mkUpdate (or_else (default "" (rd_address r)) (rd_nilAddress r)) (Number_of_string (rd_target r)) trimmedRoot manifestSize)) ;;
  set_line tone_success (Say ("Content committed to deal " +:+ rd_target r +:+ ".")) ;;
  dash (show_committed (rd_target r) manifestHex) ;;
  if truthy (rd_nilAddress r) then dash (refreshDealsAfterContentCommit cfg (rd_nilAddress r) (rd_target r) manifestHex) else mret tt.

Definition handleUpdateContent (r : Render) (manifestRoot : string) (manifestSize : dec) : M Board bool :=
  if negb (truthy (rd_target r)) || negb (truthy manifestRoot) then mret false
  else
    let trimmedRoot := trim manifestRoot in
    let manifestHex := hex_or_self trimmedRoot in
    try_catch
      (commit_content r trimmedRoot manifestHex manifestSize ;;
       recordUpload r manifestSize manifestHex rf_success None ;;
       mret true)
      (fun e =>
         set_line tone_error (Say "Content commit failed. Check gateway + chain logs.") ;;
         recordUpload r manifestSize manifestHex rf_failed (Some (or_else (err_message e) "commit failed")) ;;
         mret false).

(** A file is picked for the selected deal: uploaded, then committed. *)
Definition handleFileChange (r : Render) (file : option (string * bytes)) : M Board unit :=
  match file with
  | None => mret tt
  | Some (name, data) =>
      if negb (opt_str (rd_address r)) then mret tt
      else if negb (truthy (rd_target r)) then set_line tone_error (Say "Select a target deal before uploading.")
      else
        try_catch
          (let deal := resolveDealById (rd_target r) (rd_allDeals r) (rd_deals r) in
           result ← upload file (rd_address r) (Some (rd_target r)) (resolveProviderBase cfg (rd_providers r) deal);
           modify (set_staged (Some (mkUpload (up_cid result) (up_sizeBytes result) (up_fileSizeBytes result) (up_allocatedLength result)
                                      (or_else (up_filename result) name)))) ;;
           set_line tone_neutral (Say ("File uploaded and sharded. New manifest root: " +:+ String.substring 0 16 (up_cid result) +:+ "...")) ;;
           handleUpdateContent r (up_cid result) (up_sizeBytes result) ;;
           mret tt)
          (fun e => set_line tone_error (Say ("File upload/sharding failed: " +:+
             (if is_Error e then err_message e else or_else (err_message e) "Check gateway logs."))))
  end.

(** The sharder's commit is confirmed.  The refresh is started and not waited for. *)
Definition handleMduCommitSuccess (r : Render) (dealId manifestRoot : string) (fileMeta : option (string * Z)) : M Board unit :=
  let manifestHex := hex_or_self (trim manifestRoot) in
  dash (show_committed dealId manifestHex) ;;
  (match fileMeta with
   | Some (filePath, size) =>
       if truthy filePath then upsert (mkRF dealId filePath (DNum size 0) manifestHex act_upload rf_success None) else mret tt
   | None => mret tt
   end) ;;
  if truthy (rd_nilAddress r) then dash (refreshDealsAfterContentCommit cfg (rd_nilAddress r) dealId manifestHex) else mret tt.

(** ** The faucet *)

Definition handleRequestFunds (r : Render) (requestFunds : option string -> M Board (option json)) : M Board unit :=
  try_catch
    (resp ← requestFunds (rd_address r);
     (if truthy (rd_nilAddress r) then
        modify (fun b => mkBoard (bd_dash b) (bd_recent b) (bd_staged b)
          (Some (match bd_status b with Some (t, _) => t | None => tone_neutral end, Say "Faucet requested. Waiting for balance..."))
          (bd_target b) (bd_mdu_tab b) (bd_uploading b) (bd_create b) (bd_update b)) ;;
        dash (waitForStakeBalance cfg (rd_nilAddress r)) ;; mret tt
      else mret tt) ;;
     match resp ≫= fun j => get_field j "tx_hash" with
     | Some hash => if json_truthy hash then set_line tone_neutral (Say ("Faucet tx " +:+ json_String hash +:+ " pending..."))
                    else set_line tone_neutral (Say "Faucet requested. Awaiting inclusion...")
     | None => set_line tone_neutral (Say "Faucet requested. Awaiting inclusion...")
     end)
    (fun _ => set_line tone_error (Say "Faucet request failed. Is the faucet running?")).
End Board.
#[global] Arguments Board : clear implicits.
(** ** What an upload is recorded as *)

Section Recorded.
Context `{Bech32, Viem} {W : Type} `{Clock W, Timers W, Http W, Libp2p W, TraceStore W, Wallet W}.
Context (cfg : Config) (preference : RoutePreference).

(** Steps that leave the recent files alone. *)
Definition keeps_recent {A} (m : M (Board W) A) : Prop := forall b, bd_recent (m b).2 = bd_recent b.

Lemma keep_board_ret {A} (a : A) : keeps_recent (mret a).
Proof. done. Qed.
Lemma keep_board_throw {A} (e : jserr) : keeps_recent (mthrow e : M (Board W) A).
Proof. done. Qed.
Lemma keep_board_bind {A B} (m : M (Board W) A) (f : A -> M (Board W) B) : keeps_recent m -> (forall a, keeps_recent (f a)) -> keeps_recent (m ≫= f).
Proof. intros Hm Hf b; rewrite bind_run; specialize (Hm b); destruct (m b) as [ [a|e] b1]; [by rewrite Hf|done]. Qed.
Lemma keep_dash {A} (m : M (Dash W) A) : keeps_recent (dash m).
Proof. intros b; unfold dash; by destruct (m (bd_dash b)). Qed.
Lemma keep_update {A} (m : M (TxPage W) A) : keeps_recent (in_update m).
Proof. intros b; unfold in_update; by destruct (m _). Qed.
Lemma keep_line t m : keeps_recent (set_line (W := W) t m).
Proof. done. Qed.
Lemma keep_if {A} (c : bool) (m k : M (Board W) A) : keeps_recent m -> keeps_recent k -> keeps_recent (if c then m else k).
Proof. by destruct c. Qed.

Create HintDb keep discriminated.
#[local] Hint Resolve keep_board_ret keep_board_throw keep_board_bind keep_dash keep_update keep_line keep_if : keep.

Lemma keep_upload file address dealId directBase : keeps_recent (upload cfg preference file address dealId directBase).
Proof.
  unfold upload; destruct file as [ [name data]|]; [|apply keep_board_throw]. apply keep_if; [apply keep_board_throw|].
  apply keep_board_bind; [done|intros _]. intros b; unfold finally.
  set (m := result ← _; _). assert (keeps_recent m) as Hm by (apply keep_board_bind; [apply keep_dash|intros; apply keep_board_ret]).
  specialize (Hm b); by destruct (m b).
Qed.

(** The only entry an upload may leave: under the name of the file the render had staged. *)
Definition recorded_as (r : Render) (b b' : Board W) : Prop :=
  bd_recent b' = bd_recent b \/
  exists staged t size hex status error, rd_staged r = Some staged /\
    bd_recent b' = upsertRecentFile t (mkRF (rd_target r) (up_filename staged) size hex act_upload status error) (bd_recent b).

Lemma recordUpload_run r size hex status error (b : Board W) :
  exists b', recordUpload r size hex status error b = (Ok tt, b') /\ recorded_as r b b'.
Proof.
  unfold recordUpload, recorded_as; destruct (rd_staged r) as [staged|]; [|exists b; split; [done|by left] ].
  destruct (truthy (up_filename staged)); [|exists b; split; [done|by left] ].
  unfold upsert, world, dash, on_dash, now, modify; rewrite bind_run. destruct (date_now (dl_world (bd_dash b))) as [t w].
  eexists; split; [reflexivity|right]. by exists staged, t, (size_or (up_fileSizeBytes staged) (size_or (up_sizeBytes staged) (dec_or_zero size))), hex, status, error.
Qed.

Lemma keep_commit r root hex size : keeps_recent (commit_content cfg r root hex size).
Proof. unfold commit_content; auto 8 with keep. Qed.

Lemma recorded_keep r b b1 b2 : bd_recent b1 = bd_recent b -> recorded_as r b1 b2 -> recorded_as r b b2.
Proof. intros Hk; unfold recorded_as; by rewrite Hk. Qed.

Lemma update_content_records r root size b :
  exists ok b', handleUpdateContent cfg r root size b = (Ok ok, b') /\ recorded_as r b b'.
Proof.
  unfold handleUpdateContent; destruct (_ || _); [exists false, b; split; [done|by left] |]. unfold try_catch; rewrite bind_run.
  pose proof (keep_commit r (trim root) (hex_or_self (trim root)) size b) as Hk.
  destruct (commit_content cfg r (trim root) (hex_or_self (trim root)) size b) as [ [ [] |e] b1]; cbn [snd] in Hk.
  - destruct (recordUpload_run r size (hex_or_self (trim root)) rf_success None b1) as (b2 & Hr & Hrec).
    rewrite bind_run, Hr. exists true, b2; split; [done|by eapply recorded_keep].
  - rewrite bind_run; unfold set_line, modify. set (b2 := mkBoard _ _ _ _ _ _ _ _ _).
    destruct (recordUpload_run r size (hex_or_self (trim root)) rf_failed (Some (or_else (err_message e) "commit failed")) b2) as (b3 & Hr & Hrec).
    rewrite bind_run, Hr. exists false, b3; split; [done|by eapply recorded_keep].
Qed.

(** An uploaded file is recorded under the name of the one before it.  The handler
    of a picked file sets the staged upload and then commits it through the handlers of
    the same render, which still hold the upload that was staged before: whatever
    happens, the list of recent files is left as it was, or gets one entry named after
    that earlier upload, and nothing at all for the first file of a deal. *)
Theorem upload_recorded_as_previous r name data (b : Board W) :
  exists b', handleFileChange cfg preference r (Some (name, data)) b = (Ok tt, b') /\
    (bd_recent b' = bd_recent b \/
     exists staged t size hex status error, rd_staged r = Some staged /\
       bd_recent b' = upsertRecentFile t (mkRF (rd_target r) (up_filename staged) size hex act_upload status error) (bd_recent b)).
Proof.
  unfold handleFileChange; destruct (negb (opt_str (rd_address r))); [exists b; split; [done|by left] |].
  destruct (negb (truthy (rd_target r))); [eexists; split; [reflexivity|by left] |]. unfold try_catch; rewrite bind_run.
  set (up := upload _ _ _ _ _ _). pose proof (keep_upload (Some (name, data)) (rd_address r) (Some (rd_target r))
    (resolveProviderBase cfg (rd_providers r) (resolveDealById (rd_target r) (rd_allDeals r) (rd_deals r))) b) as Hk; fold up in Hk.
  destruct (up b) as [ [result|e] b1]; cbn [snd] in Hk; [|eexists; split; [reflexivity|left; exact Hk] ].
  rewrite bind_run; unfold modify at 1; cbv beta iota. rewrite bind_run; unfold set_line at 1, modify; cbv beta iota. rewrite bind_run.
  set (b2 := mkBoard _ _ _ _ _ _ _ _ _).
  destruct (update_content_records r (up_cid result) (up_sizeBytes result) b2) as (ok & b3 & -> & Hrec).
  exists b3; split; [done|]. exact (recorded_keep r b b2 b3 Hk Hrec).
Qed.
End Recorded.
