(* ===== verification/FileActions.v ===== *)
(** * What the user does with a file (components/DealDetail.tsx, components/Dashboard.tsx)

    The buttons of a file's row in the deal explorer ([Download], [Verify], [Slab],
    [Gateway], [Cached], [Clear]) and the two download handlers of the dashboard.  A file
    comes from the download flow, from the kept slab, from the gateway or from the file
    cache; all but the last put what they hand to the user into the cache.

    Paths are texts whose code units are below 256; sizes sent by the gateway are whole
    numbers.  The note that a download is ready is in [Workspace]. *)
From S2P Require Import Prelude JsString JsNum TransportTypes Effects Bytes Text Router NilfsCodec Layout Nilfs Opfs NilfsOpfsFetch.
From S2P Require Import Hex Multiaddr Http Lcd GatewayClient P2p Config TransportHook Evm Eip712 FetchFlow NilWasm GatewayWorker Sharding Explorer RecentFiles DealList.
#[local] Open Scope Z_scope.

(** A row of the file table. *)
Record Row := mkRow { row_path : string; row_size : Z; row_start : Z; row_flags : Z }.
Definition entry_of (f : Row) : NilfsFileEntry := mkEntry (units_of (row_path f)) (row_size f) (row_start f) (row_flags f).

(** [filePath.split('/').pop() || 'download'] *)
Definition save_name (filePath : string) : string := or_else (default "" (list.last (split "/" filePath))) "download".

(** A size of the layout that is shown, or the default where there is none. *)
Definition whole (j : json) (name : string) : option Z := match get_field j name with Some (JNum (Num z)) => Some z | _ => None end.
Definition shown_size (name : string) (local : SlabLayoutData -> Z) (d : Z) (s : option (Shown SlabLayoutData)) : option Z :=
  match s with
  | None => Some d
  | Some (worked_out l) => Some (local l)
  | Some (sent j) => match get_field j name with None | Some JNull => Some d | Some _ => whole j name end
  end.
Definition shown_mdu_size : option (Shown SlabLayoutData) -> option Z := shown_size "mdu_size_bytes" sl_mdu_size_bytes (8 * 1024 * 1024).
Definition shown_blob_size : option (Shown SlabLayoutData) -> option Z := shown_size "blob_size_bytes" sl_blob_size_bytes (128 * 1024).

(** The entry of a path in a map whose newest entries come first. *)
Definition is_cached (l : list (units * bool)) (p : units) : bool :=
  match List.find (fun e => bool_decide (e.1 = p)) l with Some e => e.2 | None => false end.

Section Actions.
Context {Ctx : Type} `{Kzg Ctx}.
Context {W : Type} `{Clock W, Router.Timers W, Http W, Libp2p W, TraceStore W, StatusCache W, FetchUi W, Wallet W, Viem}.
Context (JSON_parse : units -> outcome json) (sha256 : bytes -> bytes) (name_hex : bytes -> string).
Context (cfg : Config) (preference : RoutePreference) (address : option string).

(** The page: the explorer, the recent files, and the files the user was given. *)
Record DealPage := mkDealPage {
  dp_explorer : @Explorer Ctx W; dp_recent : list RecentFileEntry; dp_saved : list (string * bytes); dp_recentDownload : option string
}.
Definition in_explorer {A} (m : M Explorer A) : M DealPage A := fun p =>
  let '(r, e) := m (dp_explorer p) in (r, mkDealPage e (dp_recent p) (dp_saved p) (dp_recentDownload p)).
Definition on_files {A} (m : M opfs A) : M DealPage A := in_explorer (stored m).
Definition save (name : string) (data : bytes) : M DealPage unit :=
  modify (fun p => mkDealPage (dp_explorer p) (dp_recent p) (dp_saved p ++ [(name, data)]) (dp_recentDownload p)).
Definition downloadBytesAsFile (data : bytes) (filePath : string) : M DealPage unit := save (save_name filePath) data.
Definition change_recent (f : Z -> list RecentFileEntry -> list RecentFileEntry) : M DealPage unit :=
  t ← in_explorer (on_net now);
  modify (fun p => mkDealPage (dp_explorer p) (f t (dp_recent p)) (dp_saved p) (dp_recentDownload p)).
Definition set_recentDownload (id : option string) (p : DealPage) : DealPage := mkDealPage (dp_explorer p) (dp_recent p) (dp_saved p) id.

(** ** The cache *)

Definition write_cached (dealId : string) (f : Row) (data : bytes) : M DealPage unit :=
  on_files (writeCachedFile sha256 name_hex dealId (units_of (row_path f)) data).
Definition read_cached (dealId : string) (f : Row) : M DealPage (option bytes) :=
  on_files (readCachedFile sha256 name_hex dealId (units_of (row_path f))).
Definition note_cached (f : Row) (b : bool) : M DealPage unit :=
  in_explorer (update_files (fun v => cached_files ((units_of (row_path f), b) :: fv_cached v) v)).
Fixpoint cached_entries (dealId : string) (files : list Row) : M DealPage (list (units * bool)) :=
  match files with
  | [] => mret []
  | f :: rest =>
      ok ← try_catch (on_files (hasCachedFile sha256 name_hex dealId (units_of (row_path f)))) (fun _ => mret false);
      l ← cached_entries dealId rest;
      mret (l ++ [(units_of (row_path f), ok)])
  end.
Definition refreshBrowserCache (dealId : string) (files : list Row) (canceled : bool) : M DealPage unit :=
  match files with
  | [] => in_explorer (update_files (cached_files []))
  | _ =>
      entries ← cached_entries dealId files;
      if canceled then mret tt else in_explorer (update_files (cached_files entries))
  end.

(** ** The buttons of a row *)

Definition setFileActionError (msg : option string) : M DealPage unit := in_explorer (update_files (file_error msg)).
Definition setBusyFilePath (p : option units) : M DealPage unit := in_explorer (update_files (busy_file p)).
Definition not_busy (p : DealPage) : DealPage :=
  let e := dp_explorer p in mkDealPage (set_files_view (busy_file None (ex_files e)) e) (dp_recent p) (dp_saved p) (dp_recentDownload p).
Definition run_action (f : Row) (m : M DealPage unit) (h : jserr -> M DealPage unit) : M DealPage unit :=
  setFileActionError None ;; setBusyFilePath (Some (units_of (row_path f))) ;;
  finally (try_catch m (fun e => h e ;; setFileActionError (Some (err_message e)))) not_busy.
Definition no_more (e : jserr) : M DealPage unit := mret tt.
(** Handing the bytes over after putting them into the cache. *)
Definition keep_and_save (dealId : string) (f : Row) (data : bytes) : M DealPage unit :=
  write_cached dealId f data ;; note_cached f true ;; downloadBytesAsFile data (row_path f).

Definition cached_button (dealId : string) (f : Row) : M DealPage unit :=
  run_action f
    (cachedBytes ← read_cached dealId f;
     match cachedBytes with None => js_error "not cached in browser" | Some data => downloadBytesAsFile data (row_path f) end)
    no_more.

Definition slab_button (deal : LcdDeal) (files : list Row) (rangeStart rangeLen : Z) (f : Row) : M DealPage unit :=
  run_action f
    (let chainCid := trim (d_cid deal) in
     localManifest ← in_explorer (local_root (d_id deal));
     let canUseLocalSlab := match localManifest with Some m => truthy chainCid && bool_decide (trim_units m = units_of chainCid) | None => false end in
     if negb canUseLocalSlab then js_error "local slab not available"
     else
       data ← on_files (readNilfsFileFromOpfs (d_id deal) (entry_of f) (map entry_of files) (Some (Num (Z.max 0 rangeStart))) (Some (Num (Z.max 0 rangeLen))));
       keep_and_save (d_id deal) f data)
    no_more.

Definition clear_button (dealId : string) (f : Row) : M DealPage unit :=
  setFileActionError None ;;
  try_catch
    (on_files (deleteCachedFile sha256 name_hex dealId (units_of (row_path f))) ;; note_cached f false)
    (fun e => setFileActionError (Some (err_message e))).

(** [onFileActivity], which is the dashboard's [recordRecentActivity]. *)
Definition recordRecentActivity (dealId : string) (f : Row) (manifestRoot : string) (status : recent_status) (error : option string) : M DealPage unit :=
  change_recent (fun t => upsertRecentFile t
    (mkRF dealId (row_path f) (DNum (row_size f) 0) (hex_or_self manifestRoot) act_download status error)).

(** The download flow for a row of the deal; a mode 2 deal has no single provider. *)
Definition fetch_input (deal : LcdDeal) (nilAddress : string) (isMode2 : bool) (rangeStart rangeLen : Z) (f : Row) (e : @Explorer Ctx W) : FetchInput :=
  mkInput (d_id deal) (hex_or_self (d_cid deal)) nilAddress (row_path f)
    (if isMode2 then None else Some (resolveProviderHttpBase cfg (ex_providers e) (default "" (head (d_providers deal)))))
    (Some (Z.max 0 rangeStart)) (Some (Z.max 0 rangeLen)) (Some (row_start f)) (Some (row_size f))
    (shown_mdu_size (sv_slab (ex_slab e))) (shown_blob_size (sv_slab (ex_slab e))).
Definition fetch_row (deal : LcdDeal) (nilAddress : string) (isMode2 : bool) (rangeStart rangeLen : Z) (f : Row) : M DealPage unit :=
  if is_empty (d_cid deal) then js_error "commit required (no on-chain CID)"
  else
    let manifestHex := hex_or_self (d_cid deal) in
    recordRecentActivity (d_id deal) f manifestHex rf_pending None ;;
    result ← in_explorer (fun e => on_net (fetchFile JSON_parse cfg preference address (fetch_input deal nilAddress isMode2 rangeStart rangeLen f e)) e);
    match result with
    | None => js_error "download failed"
    | Some r =>
        keep_and_save (d_id deal) f (res_blob r) ;;
        recordRecentActivity (d_id deal) f manifestHex rf_success None
    end.
Definition fetch_failed (deal : LcdDeal) (f : Row) (e : jserr) : M DealPage unit :=
  if is_empty (d_cid deal) then mret tt
  else recordRecentActivity (d_id deal) f (hex_or_self (d_cid deal)) rf_failed (Some (err_message e)).

Definition download_button (deal : LcdDeal) (nilAddress : string) (isMode2 : bool) (rangeStart rangeLen : Z) (f : Row) : M DealPage unit :=
  run_action f
    (cachedBytes ← read_cached (d_id deal) f;
     match cachedBytes with
     | Some data => downloadBytesAsFile data (row_path f)
     | None => fetch_row deal nilAddress isMode2 rangeStart rangeLen f
     end)
    (fetch_failed deal f).
Definition verify_button (deal : LcdDeal) (nilAddress : string) (isMode2 : bool) (rangeStart rangeLen : Z) (f : Row) : M DealPage unit :=
  run_action f (fetch_row deal nilAddress isMode2 rangeStart rangeLen f) (fetch_failed deal f).

Definition raw_fetch_url (deal : LcdDeal) (nilAddress : string) (rangeStart rangeLen : Z) (f : Row) : string :=
  cf_gatewayBase cfg +:+ "/gateway/debug/raw-fetch/" +:+ encodeURIComponent (d_cid deal) +:+ "?" +:+
  URLSearchParams_toString [("deal_id", d_id deal); ("owner", nilAddress); ("file_path", row_path f);
    ("range_start", string_of_Z (Z.max 0 rangeStart)); ("range_len", string_of_Z (Z.max 0 rangeLen))].
Definition gateway_button (deal : LcdDeal) (nilAddress : string) (rangeStart rangeLen : Z) (f : Row) : M DealPage unit :=
  run_action f
    (if is_empty (d_cid deal) then js_error "commit required (no on-chain CID)"
     else
       res ← in_explorer (on_net (fetch None (GET (raw_fetch_url deal nilAddress rangeStart rangeLen f))));
       if negb (rs_ok res) then js_error (or_else (text_or_empty res) ("gateway raw fetch failed (" +:+ string_of_Z (rs_status res) +:+ ")"))
       else data ← lift (rs_bytes res); keep_and_save (d_id deal) f data)
    no_more.

(** Which buttons can be pressed. *)
Definition row_busy (f : Row) (p : DealPage) : bool := bool_decide (fv_busy (ex_files (dp_explorer p)) = Some (units_of (row_path f))).
Definition row_cached (f : Row) (p : DealPage) : bool := is_cached (fv_cached (ex_files (dp_explorer p))) (units_of (row_path f)).
Definition downloading (p : DealPage) : bool := fs_loading (ui (ex_world (dp_explorer p))).
Definition cached_enabled (f : Row) (p : DealPage) : bool := negb (row_busy f p || negb (row_cached f p)).
Definition slab_enabled (f : Row) (p : DealPage) : bool := negb (row_busy f p).
Definition clear_enabled (f : Row) (p : DealPage) : bool := negb (downloading p || row_busy f p || negb (row_cached f p)).
Definition download_enabled (deal : LcdDeal) (f : Row) (p : DealPage) : bool := negb (downloading p || row_busy f p || is_empty (d_cid deal)).
Definition gateway_enabled (f : Row) (p : DealPage) : bool :=
  negb (downloading p || row_busy f p || match sv_status (ex_slab (dp_explorer p)) with slab_present => false | _ => true end).

(** ** The dashboard's downloads *)

Definition patch_download (status : recent_status) (error : option string) : Patch := mkPatch (Some status) (Some act_download) None None (Some error).
Definition update_recent (id : string) (patch : Patch) : M DealPage unit := change_recent (fun t => updateRecentFile t id patch).
Definition failed_download (id : string) (e : jserr) : M DealPage unit :=
  update_recent id (patch_download rf_failed (Some (or_else (err_message e) "Download failed"))).
(** The link to the blob is clicked. *)
Definition save_result (result : option FetchResult) (filePath : string) : M DealPage unit :=
  match result with
  | Some r => if truthy (res_url r) then save (save_name filePath) (res_blob r) else js_error "Download failed"
  | None => js_error "Download failed"
  end.
Definition download_from (input : FetchInput) : M DealPage (option FetchResult) :=
  in_explorer (on_net (fetchFile JSON_parse cfg preference address input)).

Definition handleContentDownload (targetDealId contentManifestRoot nilAddress : string) (contentSlab : option (Shown SlabLayoutData)) (f : Row) : M DealPage unit :=
  if is_empty targetDealId then mret tt
  else
    let manifestHex := hex_or_self contentManifestRoot in
    let id := recent_id targetDealId (row_path f) in
    update_recent id (patch_download rf_pending None) ;;
    change_recent (fun t => upsertRecentFile t
      (mkRF targetDealId (row_path f) (DNum (row_size f) 0) manifestHex act_download rf_pending None)) ;;
    try_catch
      (result ← download_from (mkInput targetDealId manifestHex nilAddress (row_path f) None (Some 0) (Some (row_size f))
         (Some (row_start f)) (Some (row_size f)) (shown_mdu_size contentSlab) (shown_blob_size contentSlab));
       save_result result (row_path f) ;;
       update_recent id (patch_download rf_success None))
      (failed_download id).

(** [files.find((f) => f.path === filePath)] *)
Fixpoint find_path (filePath : string) (l : list json) : outcome (option json) :=
  match l with
  | [] => mret None
  | JNull :: _ => mthrow (JsError "TypeError" "Cannot read properties of null (reading 'path')")
  | f :: rest => match get_field f "path" with
                 | Some (JStr p) => if eqb p filePath then mret (Some f) else find_path filePath rest
                 | _ => find_path filePath rest
                 end
  end.

Definition handleRecentDownload (allDeals deals : list LcdDeal) (providers : list json) (nilAddress : string) (entry : RecentFileEntry) : M DealPage unit :=
  let id := rf_id entry in
  modify (set_recentDownload (Some id)) ;;
  update_recent id (patch_download rf_pending None) ;;
  finally
    (try_catch
      (match resolveDealById (rf_dealId entry) allDeals deals with
       | None => js_error "Deal not found"
       | Some deal =>
           let owner := trim (or_else nilAddress (d_owner deal)) in
           let manifestRootRaw := trim (or_else (d_cid deal) (rf_manifestRoot entry)) in
           if is_empty owner then js_error "Deal owner not available"
           else if is_empty manifestRootRaw then js_error "Manifest root missing"
           else
             let manifestHex := hex_or_self manifestRootRaw in
             let request := mkRoute manifestRootRaw owner (rf_dealId entry) (DealList.resolveProviderBase cfg providers (Some deal))
               (if cf_p2pEnabled cfg then DealList.resolveProviderP2pTarget providers (Some deal) else None) None in
             filesResult ← try_catch (r ← in_explorer (on_net (listFiles cfg preference request)); mret (Ok (to_data r)))
               (fun e => mret (Thrown (if is_Error e then e else Error "Failed to load file list")));
             slabResult ← try_catch (r ← in_explorer (on_net (slab cfg preference request)); mret (Some (sent (to_data r))))
               (fun _ => mret None);
             files ← lift filesResult;
             found ← lift (find_path (rf_filePath entry) files);
             match found with
             | None => js_error "File not found on provider"
             | Some fileEntry =>
                 let size := whole fileEntry "size_bytes" in
                 result ← download_from (mkInput (rf_dealId entry) manifestHex owner (rf_filePath entry) None (Some 0) size
                   (whole fileEntry "start_offset") size (shown_mdu_size slabResult) (shown_blob_size slabResult));
                 save_result result (rf_filePath entry) ;;
                 update_recent id (mkPatch (Some rf_success) (Some act_download) ((fun z => DNum z 0) <$> size) (Some manifestHex) (Some None))
             end
       end)
      (failed_download id))
    (set_recentDownload None).
End Actions.

(** ** What is handed over is in the cache *)

Section ActionFacts.
Context {Ctx : Type} `{Kzg Ctx}.
Context {W : Type} `{Clock W, Router.Timers W, Http W, Libp2p W, TraceStore W, StatusCache W, FetchUi W, Wallet W, Viem}.
Context (JSON_parse : units -> outcome json) (sha256 : bytes -> bytes) (name_hex : bytes -> string).
(** The file name of a cached file has hexadecimal digits only. *)
Context (Hhex : forall l, Forall (fun c => file_char c = true) (chars (name_hex l))).
Context (cfg : Config) (preference : RoutePreference) (address : option string).
Context (dealId : string) (Hd : valid_deal dealId) (f : Row).
Implicit Types p : @DealPage Ctx W.

Definition page_store p : opfs := store (ex_tab (dp_explorer p)).
Definition cached_name : string := cachedFileNameForPath sha256 name_hex (units_of (row_path f)).
Definition cached_bytes p : option bytes := deal_files dealId (page_store p) !! cached_name.

(** Nothing was handed over, or the bytes that the cache now holds. *)
Definition given p p' : Prop :=
  dp_saved p' = dp_saved p \/
  exists data, dp_saved p' = dp_saved p ++ [(save_name (row_path f), data)] /\ cached_bytes p' = Some data.
Definition unsaved {A} (m : M DealPage A) : Prop := forall p, dp_saved (m p).2 = dp_saved p.
(** Nor does it change the store, or fail. *)
Definition after_save (m : M DealPage unit) : Prop :=
  forall p, exists p', m p = (Ok tt, p') /\ dp_saved p' = dp_saved p /\ page_store p' = page_store p.
Definition hands (m : M DealPage unit) : Prop :=
  forall p, match (m p).1 with Ok _ => given p (m p).2 | Thrown _ => dp_saved (m p).2 = dp_saved p end.

Lemma unsaved_explorer {A} (m : M Explorer A) : unsaved (in_explorer m).
Proof. intros p; unfold in_explorer; by destruct (m (dp_explorer p)). Qed.
Lemma after_modify g : (forall p, dp_saved (g p) = dp_saved p) -> (forall p, page_store (g p) = page_store p) -> after_save (modify g).
Proof. intros Hg Hs p; by exists (g p). Qed.
Lemma after_view g : (forall v, ex_tab (g v) = ex_tab v) -> after_save (in_explorer (modify g)).
Proof. intros Hg p; eexists; split; [reflexivity|split; [done|] ]. unfold page_store; cbn [dp_explorer]; by rewrite Hg. Qed.
Lemma after_bind m k : after_save m -> after_save k -> after_save (m ;; k).
Proof.
  intros Hm Hk p; destruct (Hm p) as (p1 & Hr1 & Hs1 & Ht1); destruct (Hk p1) as (p2 & Hr2 & Hs2 & Ht2).
  exists p2; rewrite bind_run, Hr1; split; [done|split; congruence].
Qed.
Lemma after_recent g : after_save (change_recent g).
Proof.
  intros p; unfold change_recent; rewrite bind_run; unfold in_explorer, on_net, now. destruct (date_now _) as [t w].
  by eexists.
Qed.
Lemma after_given m p : after_save m -> forall p0, given p0 p -> exists p', m p = (Ok tt, p') /\ given p0 p'.
Proof.
  intros Hm p0 Hg; destruct (Hm p) as (p' & Hr & Hs & Ht); exists p'; split; [done|]. unfold given, cached_bytes in *; by rewrite Hs, Ht.
Qed.

Lemma hands_error (e : jserr) : hands (mthrow e).
Proof. by intros p. Qed.
Lemma hands_bind {A} (m : M DealPage A) k : unsaved m -> (forall a, hands (k a)) -> hands (a ← m; k a).
Proof.
  intros Hm Hk p; rewrite bind_run; specialize (Hm p). destruct (m p) as [ [a|e] p1]; cbn [snd] in Hm; [|done].
  specialize (Hk a p1); unfold given in *. by rewrite <- Hm.
Qed.
Lemma hands_after m k : hands m -> after_save k -> hands (m ;; k).
Proof.
  intros Hm Hk p; rewrite bind_run; specialize (Hm p). destruct (m p) as [ [ [] |e] p1]; cbn [fst snd] in Hm; [|done].
  by destruct (after_given k p1 Hk p Hm) as (p' & -> & Hg).
Qed.
Lemma hands_action m h : hands m -> (forall e, after_save (h e)) -> forall p, exists p',
  run_action f m h p = (Ok tt, p') /\ given p p' /\ fv_busy (ex_files (dp_explorer p')) = None.
Proof.
  intros Hm Hh p; unfold run_action.
  assert (after_save (setFileActionError None ;; setBusyFilePath (Some (units_of (row_path f))) : M (@DealPage Ctx W) unit)) as Hpre
    by (apply after_bind; by apply after_view).
  destruct (Hpre p) as (p1 & Hr1 & Hs1 & _). rewrite bind_run in Hr1. rewrite bind_run.
  destruct (setFileActionError None p) as [ [ [] |e] q]; [|done]. rewrite bind_run, Hr1. unfold finally, try_catch. specialize (Hm p1).
  destruct (m p1) as [ [ [] |e] p2]; cbn [fst snd] in Hm.
  - eexists; split; [reflexivity|split; [|done] ]. unfold given, not_busy, cached_bytes, page_store in *; cbn [dp_saved dp_explorer set_files_view ex_tab]. by rewrite <- Hs1.
  - assert (after_save (h e ;; setFileActionError (Some (err_message e)))) as Hpost by (apply after_bind; [apply Hh|by apply after_view]).
    destruct (Hpost p2) as (p3 & -> & Hs3 & _). eexists; split; [reflexivity|split; [|done] ]. left; cbn [not_busy dp_saved]; congruence.
Qed.

(** *** Reading and writing the cache *)

Lemma read_cached_run p : read_cached sha256 name_hex dealId f p =
  (Ok (cached_bytes p), let e := dp_explorer p in
     mkDealPage (mkExplorer (ex_world e) (mkTab (worker (ex_tab e)) (with_deal dealId (page_store p)) (view (ex_tab e))) (ex_ready e) (ex_slab e)
       (ex_manifest e) (ex_kzg e) (ex_files e) (ex_heat e) (ex_providers e)) (dp_recent p) (dp_saved p) (dp_recentDownload p)).
Proof.
  unfold read_cached, on_files, in_explorer, stored, on_tab, on_store, readCachedFile.
  by rewrite readBlob_run by (done || apply (cache_name_valid sha256 name_hex Hhex)).
Qed.
Lemma hands_keep data : hands (keep_and_save sha256 name_hex dealId f data).
Proof.
  intros p; unfold keep_and_save. rewrite bind_run; unfold write_cached, on_files, in_explorer, stored, on_tab, on_store, writeCachedFile.
  rewrite writeBlob_run by (done || apply (cache_name_valid sha256 name_hex Hhex)). cbn [fst].
  right; exists data; split; [reflexivity|]. unfold cached_bytes, page_store. rewrite bind_run; unfold note_cached, in_explorer, downloadBytesAsFile, save, update_files, modify.
  cbn [dp_explorer ex_tab store fst snd set_files_view].
  rewrite deal_files_put, decide_True by done. by rewrite lookup_insert_eq.
Qed.

(** *** The four ways to get a file *)

(** The deal as it is rendered; a later rendering may have another content. *)
Context (nilAddress : string) (isMode2 : bool).
Inductive getting := g_download | g_verify | g_slab (files : list Row) | g_gateway.
Definition press (deal : LcdDeal) (g : getting) (rangeStart rangeLen : Z) : M (@DealPage Ctx W) unit :=
  match g with
  | g_download => download_button JSON_parse sha256 name_hex cfg preference address deal nilAddress isMode2 rangeStart rangeLen f
  | g_verify => verify_button JSON_parse sha256 name_hex cfg preference address deal nilAddress isMode2 rangeStart rangeLen f
  | g_slab files => slab_button sha256 name_hex deal files rangeStart rangeLen f
  | g_gateway => gateway_button sha256 name_hex cfg deal nilAddress rangeStart rangeLen f
  end.

Lemma failed_after deal e : after_save (fetch_failed deal f e).
Proof. unfold fetch_failed; destruct (is_empty _); [by intros p; exists p|apply after_recent]. Qed.
Lemma fetch_row_hands deal rs rl : d_id deal = dealId ->
  hands (fetch_row JSON_parse sha256 name_hex cfg preference address deal nilAddress isMode2 rs rl f).
Proof.
  intros Hid; unfold fetch_row. destruct (is_empty _); [apply hands_error|]. cbv zeta.
  apply hands_bind; [intros p; destruct (after_recent (fun t => upsertRecentFile t (mkRF (d_id deal) (row_path f) (DNum (row_size f) 0)
    (hex_or_self (hex_or_self (d_cid deal))) act_download rf_pending None)) p) as (p' & Hr & Hs & _); unfold recordRecentActivity; by rewrite Hr|intros []].
  apply hands_bind; [apply unsaved_explorer|intros [r|] ]; [|apply hands_error]. rewrite Hid.
  apply hands_after; [apply hands_keep|apply after_recent].
Qed.

Lemma press_hands deal g rs rl p : d_id deal = dealId ->
  exists p', press deal g rs rl p = (Ok tt, p') /\ given p p' /\ fv_busy (ex_files (dp_explorer p')) = None.
Proof.
  intros Hid; destruct g as [| |files|]; cbn [press]; [unfold download_button|unfold verify_button|unfold slab_button|unfold gateway_button]; apply hands_action.
  - rewrite Hid; intros q. rewrite bind_run, read_cached_run. destruct (cached_bytes q) as [data|] eqn:Hc.
    + right; exists data; split; [reflexivity|]. unfold cached_bytes, page_store in *; cbn. by rewrite deal_files_with.
    + pose proof (fetch_row_hands deal rs rl Hid) as Hf. match goal with |- context [fetch_row _ _ _ _ _ _ _ _ _ _ _ _ ?q'] => specialize (Hf q') end. exact Hf.
  - intros e; apply failed_after.
  - by apply fetch_row_hands.
  - intros e; apply failed_after.
  - cbv zeta. apply hands_bind; [apply unsaved_explorer|intros m]. destruct (negb _); [apply hands_error|].
    apply hands_bind; [apply unsaved_explorer|intros data]. rewrite Hid; apply hands_keep.
  - by intros e p0; exists p0.
  - destruct (is_empty _); [apply hands_error|]. apply hands_bind; [apply unsaved_explorer|intros res]. destruct (negb _); [apply hands_error|].
    apply hands_bind; [by intros ?|intros data]. rewrite Hid; apply hands_keep.
  - by intros e p0; exists p0.
Qed.

(** What a download hands over is what the cache keeps.  Pressing [Download], [Verify],
    [Slab] or [Gateway] always settles and leaves the row free again; and either
    nothing is handed to the user, or one file of the path's name, whose bytes are
    those that the file cache of the deal then holds for the path. *)
Theorem handed_over_is_cached deal g rs rl p : d_id deal = dealId ->
  exists p', press deal g rs rl p = (Ok tt, p') /\ fv_busy (ex_files (dp_explorer p')) = None /\
    (dp_saved p' = dp_saved p \/
     exists data, dp_saved p' = dp_saved p ++ [(save_name (row_path f), data)] /\ cached_bytes p' = Some data).
Proof. intros Hid; destruct (press_hands deal g rs rl p Hid) as (p' & Hr & Hg & Hb). exists p'; by split. Qed.

(** [Download] of a path that is in the cache. *)
Lemma download_cached deal rs rl p data : d_id deal = dealId -> cached_bytes p = Some data ->
  exists p', press deal g_download rs rl p = (Ok tt, p') /\ dp_saved p' = dp_saved p ++ [(save_name (row_path f), data)] /\
    cached_bytes p' = Some data /\ ex_world (dp_explorer p') = ex_world (dp_explorer p) /\ dp_recent p' = dp_recent p.
Proof.
  intros Hid Hc. destruct (press_hands deal g_download rs rl p Hid) as (p1 & Hr1 & Hg & _); revert Hr1.
  cbn [press]; unfold download_button, run_action. rewrite Hid, !bind_run. cbn [setFileActionError in_explorer update_files modify].
  unfold finally, try_catch. rewrite bind_run. unfold setBusyFilePath. cbn [in_explorer update_files modify]. rewrite bind_run, read_cached_run.
  pose proof Hc as Hc0; unfold cached_bytes, page_store in Hc0. unfold cached_bytes, page_store. cbn [dp_explorer set_files_view ex_tab]. rewrite Hc0. intros Hr1.
  exists p1; split; [exact Hr1|].
  assert (dp_saved p1 = dp_saved p ++ [(save_name (row_path f), data)]) as Hs by (by injection Hr1 as <-).
  split; [exact Hs|]. split; [|by injection Hr1 as <-].
  destruct Hg as [Hg|(d1 & Hg & Hk)]; rewrite Hs in Hg.
  - by apply (f_equal length) in Hg; rewrite length_app in Hg; cbn in Hg; lia.
  - apply app_inv_head in Hg; injection Hg as <-. exact Hk.
Qed.

(** C38: A range that was downloaded is served as the file.  Once a button handed over the
    bytes of some range, [Download], pressed next and however often, hands over these same
    bytes each time, for every range that is asked for, the whole file included, and
    whatever content the deal has by then: the cache is looked up by the path alone.
    Nothing is asked of the network and nothing is recorded.  (The other buttons do not
    look there: [Verify], [Slab] and [Gateway] fetch again, and [Clear] empties it.) *)
Theorem cached_range_served_as_file deal g rs rl p p' data (later : list (LcdDeal * Z * Z)) :
  d_id deal = dealId -> Forall (fun x => d_id x.1.1 = dealId) later ->
  press deal g rs rl p = (Ok tt, p') -> dp_saved p' = dp_saved p ++ [(save_name (row_path f), data)] ->
  exists p'', for_each later (fun x => press x.1.1 g_download x.1.2 x.2) p' = (Ok tt, p'') /\
    dp_saved p'' = dp_saved p' ++ replicate (length later) (save_name (row_path f), data) /\
    ex_world (dp_explorer p'') = ex_world (dp_explorer p') /\ dp_recent p'' = dp_recent p'.
Proof.
  intros Hid Hlater Hr Hs. destruct (press_hands deal g rs rl p Hid) as (p1 & Hr1 & Hg & _). rewrite Hr in Hr1; injection Hr1 as <-.
  assert (cached_bytes p' = Some data) as Hc.
  { destruct Hg as [Hg|(d1 & Hg & Hc)]; rewrite Hs in Hg.
    - by apply (f_equal length) in Hg; rewrite length_app in Hg; cbn in Hg; lia.
    - apply app_inv_head in Hg; injection Hg as <-. exact Hc. }
  clear -Hlater Hc Hhex Hd. revert p' Hc; induction Hlater as [|x later Hx _ IH]; intros p' Hc; cbn [for_each length replicate].
  { exists p'; by rewrite app_nil_r. }
  destruct (download_cached x.1.1 x.1.2 x.2 p' data Hx Hc) as (p2 & Hr2 & Hs2 & Hc2 & Hw2 & Hre2).
  destruct (IH p2 Hc2) as (p3 & Hr3 & Hs3 & Hw3 & Hre3). exists p3. rewrite bind_run, Hr2. split; [exact Hr3|].
  rewrite Hs3, Hs2, <- app_assoc; split; [done|]. split; congruence.
Qed.

(** *** The dashboard's downloads *)

(** Every recent file of an id has a status. *)
Definition all_have (id : string) (st : recent_status) p : Prop := Forall (fun it => rf_id it = id -> rf_status it = st) (dp_recent p).
Lemma update_has id patch st p : pt_status patch = Some st -> exists p', update_recent id patch p = (Ok tt, p') /\ dp_saved p' = dp_saved p /\ all_have id st p'.
Proof.
  intros Hst; unfold update_recent, change_recent; rewrite bind_run; unfold in_explorer, on_net, now. destruct (date_now _) as [t w].
  eexists; split; [reflexivity|split; [done|] ]. apply Forall_map, Forall_forall. intros it _.
  destruct (eqb_spec (rf_id it) id) as [_|Hne]; [|done]. intros _; unfold apply_patch; by rewrite Hst.
Qed.

(** It ends by handing the file over, or fails before that. *)
Definition ends_saved (id path : string) (m : M DealPage unit) : Prop := forall p,
  match (m p).1 with
  | Ok _ => all_have id rf_success (m p).2 /\ exists data, dp_saved (m p).2 = dp_saved p ++ [(save_name path, data)]
  | Thrown _ => dp_saved (m p).2 = dp_saved p
  end.
Lemma ends_error id path (e : jserr) : ends_saved id path (mthrow e).
Proof. by intros p. Qed.
Lemma ends_bind {A} id path (m : M DealPage A) k : unsaved m -> (forall a, ends_saved id path (k a)) -> ends_saved id path (a ← m; k a).
Proof.
  intros Hm Hk p; rewrite bind_run; specialize (Hm p). destruct (m p) as [ [a|e] p1]; cbn [snd] in Hm; [|done].
  specialize (Hk a p1); by rewrite <- Hm.
Qed.
Lemma ends_save id path patch r : pt_status patch = Some rf_success -> ends_saved id path (save_result r path ;; update_recent id patch).
Proof.
  intros Hst p; rewrite bind_run; unfold save_result. destruct r as [r|]; [|done]. destruct (truthy _); [|done]. unfold save, modify.
  match goal with |- context [update_recent id patch ?q] => destruct (update_has id patch rf_success q Hst) as (p' & -> & Hs & Ha) end.
  split; [exact Ha|]. exists (res_blob r). exact Hs.
Qed.
Lemma unsaved_catch {A} (m : M DealPage A) h : unsaved m -> (forall e, unsaved (h e)) -> unsaved (try_catch m h).
Proof. intros Hm Hh p; unfold try_catch; specialize (Hm p). destruct (m p) as [ [a|e] p1]; [done|]. rewrite <- Hm; apply Hh. Qed.
Lemma unsaved_bind {A B} (m : M DealPage A) (k : A -> M DealPage B) : unsaved m -> (forall a, unsaved (k a)) -> unsaved (a ← m; k a).
Proof. intros Hm Hk p; rewrite bind_run; specialize (Hm p). destruct (m p) as [ [a|e] p1]; [|done]. rewrite <- Hm; apply Hk. Qed.

Definition download_settled (id path : string) p p' : Prop :=
  (all_have id rf_success p' /\ exists data, dp_saved p' = dp_saved p ++ [(save_name path, data)]) \/
  (all_have id rf_failed p' /\ dp_saved p' = dp_saved p).
Lemma try_download id path m p : ends_saved id path m ->
  exists p', try_catch m (failed_download id) p = (Ok tt, p') /\ download_settled id path p p'.
Proof.
  intros Hm; unfold try_catch; specialize (Hm p). destruct (m p) as [ [ [] |e] p1]; cbn [fst snd] in Hm.
  - exists p1; split; [done|by left].
  - destruct (update_has id (patch_download rf_failed (Some (or_else (err_message e) "Download failed"))) rf_failed p1 eq_refl) as (p2 & Hr & Hs & Ha).
    exists p2; split; [exact Hr|right; split; [exact Ha|congruence] ].
Qed.

(** C21: A download from the list of recent files settles.  Whatever goes wrong on the way
    (an unknown deal, no owner, a provider that does not answer or has no such file, a
    failed retrieval), no entry of that file stays pending: it is a success exactly when
    the file was handed to the user, and failed otherwise. *)
Theorem recent_download_settles allDeals deals providers owner entry p :
  exists p', handleRecentDownload JSON_parse cfg preference address allDeals deals providers owner entry p = (Ok tt, p') /\
    dp_recentDownload p' = None /\
    ((all_have (rf_id entry) rf_success p' /\ exists data, dp_saved p' = dp_saved p ++ [(save_name (rf_filePath entry), data)]) \/
     (all_have (rf_id entry) rf_failed p' /\ dp_saved p' = dp_saved p)).
Proof.
  unfold handleRecentDownload; rewrite bind_run; unfold modify. rewrite bind_run.
  destruct (update_has (rf_id entry) (patch_download rf_pending None) rf_pending (set_recentDownload (Some (rf_id entry)) p) eq_refl) as (p1 & -> & Hs1 & _).
  unfold finally. match goal with |- context [try_catch ?m _ p1] => destruct (try_download (rf_id entry) (rf_filePath entry) m p1) as (p2 & -> & Hp2) end.
  - destruct (resolveDealById _ _ _) as [deal|]; [|apply ends_error]. cbv zeta. destruct (is_empty _); [apply ends_error|]. destruct (is_empty _); [apply ends_error|].
    apply ends_bind; [apply unsaved_catch; [apply unsaved_bind; [apply unsaved_explorer|by intros ? ?]|by intros ? ?]|intros files].
    apply ends_bind; [apply unsaved_catch; [apply unsaved_bind; [apply unsaved_explorer|by intros ? ?]|by intros ? ?]|intros layout].
    apply ends_bind; [by intros ?|intros l]. apply ends_bind; [by intros ?|intros [found|] ]; [|apply ends_error].
    apply ends_bind; [apply unsaved_explorer|intros r]. by apply ends_save.
  - eexists; split; [reflexivity|split; [done|] ]. cbn [set_recentDownload dp_saved] in *. unfold download_settled, all_have in *; cbn [set_recentDownload dp_recent dp_saved].
    by rewrite <- Hs1.
Qed.
End ActionFacts.

(** ** Concrete runs *)

#[local] Existing Instances page_clock page_timers page_http page_libp2p page_trace_store page_cache page_ui page_wallet page_viem demo_kzg.

Definition range_row : Row := mkRow "dir/report.txt" 3 0 0.
Definition range_deal (cid : string) : LcdDeal := mkDeal "7" cid "3" "nil1owner" "0" "0" "0" "" "" "" [].
(** The gateway answers once, with two bytes of the file. *)
Definition range_page : @DealPage unit page :=
  mkDealPage
    (mkExplorer (FetchFlow.mkPage [Ok (mkRes 200 [] (Ok "") (Ok JNull) (Ok [2; 3]))] 0 None (mkFState false None rs_idle None (initial_progress "")))
       (mkTab demo_worker ∅ (mkSharder [] [] None None [] false (reset_progress 0))) None (mkSlabView None source_none slab_unknown false)
       (mkManifestView None false None None None) (mkKzgView None false None) (mkFilesView None false [] None None) None ∅)
    [] [] None.
Definition two_digits (l : bytes) : string := "00".
Definition press_here (cid : string) (g : getting) (rs rl : Z) : M (@DealPage unit page) unit :=
  press no_json (fun l => l) two_digits demo_cfg auto (Some "0xme") range_row "nil1me" false (range_deal cid) g rs rl.
Definition range_run := press_here "0xaa" g_gateway 1 2 range_page.

Lemma two_digits_hex (l : bytes) : Forall (fun c => file_char c = true) (chars (two_digits l)).
Proof. repeat constructor. Qed.

Lemma handed_over_is_cached_witness :
  exists p', range_run = (Ok tt, p') /\
    (dp_saved p' = [] \/ exists data, dp_saved p' = [("report.txt", data)] /\ cached_bytes (fun l => l) two_digits "7" range_row p' = Some data).
Proof.
  destruct (handed_over_is_cached no_json (fun l => l) two_digits two_digits_hex demo_cfg auto (Some "0xme") "7" ltac:(reflexivity) range_row "nil1me" false
    (range_deal "0xaa") g_gateway 1 2 range_page ltac:(reflexivity)) as (p' & Hr & _ & Hg). exists p'; split; [exact Hr|exact Hg].
Defined.

(** A range of the old content is handed over as the whole new file, and again as a range of it. *)
Lemma cached_range_served_as_file_witness :
  exists p'', for_each [(range_deal "0xbb", 0, 0); (range_deal "0xbb", 1, 1)] (fun x => press_here (d_cid x.1.1) g_download x.1.2 x.2) range_run.2 = (Ok tt, p'') /\
    dp_saved p'' = [("report.txt", [2; 3]); ("report.txt", [2; 3]); ("report.txt", [2; 3])].
Proof.
  destruct (cached_range_served_as_file no_json (fun l => l) two_digits two_digits_hex demo_cfg auto (Some "0xme") "7" ltac:(reflexivity) range_row "nil1me" false
    (range_deal "0xaa") g_gateway 1 2 range_page range_run.2 [2; 3] [(range_deal "0xbb", 0, 0); (range_deal "0xbb", 1, 1)]) as (p'' & Hr & Hs & _);
    [reflexivity|by repeat constructor|reflexivity..|].
  exists p''; split; [exact Hr|exact Hs].
Defined.
