(* ===== verification/Hooks.v ===== *)
(** * Polling hooks (hooks/useProofs.ts, useLocalGateway.ts, useNetwork.ts,
    useMetaMaskUnlockState.ts)

    What the pages show of the chain's retrieval proofs, of the local gateway and of
    the wallet.  Each hook is a function that runs at once and then at every tick of a
    timer; a tick is one run of the function below on the state it left. *)
From S2P Require Import Prelude JsString JsNum TransportTypes Effects Bytes Text Hex Http Lcd GatewayClient Config Multiaddr.
#[local] Open Scope Z_scope.

(** ** useProofs.ts *)

Record ProofRow := mkProofRow {
  pr_id : string; pr_creator : string; pr_commitment : string; pr_valid : bool; pr_blockHeight : dec;
  pr_dealId : option string; pr_epochId : option string; pr_tier : option string
}.
Record Labels := mkLabels { lb_dealId : option string; lb_epochId : option string; lb_tier : option string }.

(** Expected: [deal:<id>/epoch:<epoch>/tier:<tier>]. *)
Definition read_part (out : Labels) (part : string) : Labels :=
  match split2 ":" part with
  | (k, Some v) =>
      if negb (truthy k) then out
      else
        let key := to_lower (trim k) in
        let val := trim v in
        if eqb key "deal" then mkLabels (Some val) (lb_epochId out) (lb_tier out)
        else if eqb key "epoch" then mkLabels (lb_dealId out) (Some val) (lb_tier out)
        else if eqb key "tier" then mkLabels (lb_dealId out) (lb_epochId out) (Some val)
        else out
  | _ => out
  end.
Definition parseCommitment (commitment : string) : Labels := fold_left read_part (split "/" commitment) (mkLabels None None None).

Definition text_field (p : json) (key : string) : string :=
  match nullish (get_field p key) None with Some j => json_String j | None => "" end.
Definition proof_row (p : json) : outcome ProofRow :=
  match p with
  | JNull => mthrow (JsError "TypeError" "Cannot read properties of null (reading 'id')")
  | _ =>
      let commitment := text_field p "commitment" in
      let l := parseCommitment commitment in
      mret (mkProofRow (text_field p "id") (text_field p "creator") commitment
        (match get_field p "valid" with Some j => json_truthy j | None => false end)
        (json_Number (default (JNum (Num 0)) (nullish (get_field p "block_height") None)))
        (lb_dealId l) (lb_epochId l) (lb_tier l))
  end.
Fixpoint proof_rows (l : list json) : outcome (list ProofRow) :=
  match l with
  | [] => mret []
  | p :: rest => r ← proof_row p; rs ← proof_rows rest; mret (r :: rs)
  end.

Section Proofs.
Context {W : Type} `{Http W} (cfg : Config).
Record Proofs := mkProofs { pf_world : W; pf_proofs : list ProofRow; pf_loading : bool }.
Definition on_lcd {A} (m : M W A) : M Proofs A := fun s => let '(r, w) := m (pf_world s) in (r, mkProofs w (pf_proofs s) (pf_loading s)).
Definition set_proof_loading (b : bool) (s : Proofs) : Proofs := mkProofs (pf_world s) (pf_proofs s) b.
Definition proofs_url : string := cf_lcdBase cfg +:+ "/nilchain/nilchain/v1/proofs?pagination.limit=1000&pagination.reverse=true".
(** [before], [after]: whether the effect was cleaned up before the call and while it ran. *)
Definition load (before after : bool) : M Proofs unit :=
  if before then mret tt
  else
    modify (set_proof_loading true) ;;
    finally
      (try_catch
         (res ← on_lcd (fetch None (GET proofs_url));
          if negb (rs_ok res) then mret tt
          else
            j ← lift (rs_json res);
            (match j with
             | JNull => mthrow (JsError "TypeError" "Cannot read properties of null (reading 'proof')")
             | _ =>
                 mapped ← lift (proof_rows (match get_field j "proof" with Some (JArr l) => l | _ => [] end));
                 if after then mret tt else modify (fun s => mkProofs (pf_world s) mapped (pf_loading s))
             end))
         (fun _ => mret tt))
      (fun s => if after then s else set_proof_loading false s).
(** The proofs that a deal's view shows. *)
Definition dealProofs (dealId : string) (proofs : list ProofRow) : list ProofRow :=
  List.filter (fun p => bool_decide (pr_dealId p = Some dealId)) proofs.
End Proofs.

(** ** useLocalGateway.ts *)

Inductive GatewayStatus := gw_disconnected | gw_connecting | gw_connected | gw_error.

Section LocalGateway.
Context {W : Type} `{Http W} (cfg : Config).
Record LocalGateway := mkLocal { lg_world : W; lg_status : GatewayStatus; lg_error : option string; lg_details : option json }.
Definition on_gateway {A} (m : M W A) : M LocalGateway A := fun s =>
  let '(r, w) := m (lg_world s) in (r, mkLocal w (lg_status s) (lg_error s) (lg_details s)).
Definition gateway_is (st : GatewayStatus) (error : option string) (details : option json) : M LocalGateway unit :=
  modify (fun s => mkLocal (lg_world s) st error details).
Definition responded (status : Z) : string := "Gateway responded with status: " +:+ string_of_Z status.
(** [AbortSignal.timeout(3000)] *)
Definition status_timeout : option Z := Some 3000.
Definition error_text_of (e : jserr) : string :=
  let message := match e with JsThrown _ => "" | _ => err_message e end in
  match e with
  | JsError "AbortError" _ => "Connection timed out"
  | _ => if truthy message && includes "Failed to fetch" message then "Could not connect to local gateway"
         else or_else message "Unknown error during connection"
  end.
Definition checkGatewayStatus : M LocalGateway unit :=
  modify (fun s => mkLocal (lg_world s) gw_connecting None (lg_details s)) ;;
  try_catch
    (let baseUrl := strip_slash (or_else (cf_gatewayBase cfg) "http://localhost:8080") in
     response ← on_gateway (fetch status_timeout (GET (baseUrl +:+ "/status")));
     if rs_ok response then
       gateway_is gw_connected None
         (match json_or JNull response with JObj l => Some (JObj l) | JArr l => Some (JArr l) | _ => None end)
     else if negb (rs_status response =? 404) then
       gateway_is gw_disconnected (Some (responded (rs_status response))) None
     else
       healthRes ← on_gateway (fetch status_timeout (GET (baseUrl +:+ "/health")));
       if rs_ok healthRes then gateway_is gw_connected None None
       else gateway_is gw_disconnected (Some (responded (rs_status healthRes))) None)
    (fun e => gateway_is gw_disconnected (Some (error_text_of e)) None).
(** The effect: the first check, unless the gateway is disabled. *)
Definition gateway_effect : M LocalGateway unit :=
  if cf_gatewayDisabled cfg then gateway_is gw_disconnected (Some "Gateway disabled") None else checkGatewayStatus.
End LocalGateway.

(** ** useNetwork.ts *)

(** What the wallet rejects with: a code, a message. *)
Record WalletError := mkWalletError { we_code : option Z; we_message : option string }.
Record AddChain := mkAddChain {
  ad_chainId : string; ad_chainName : string; ad_currency : string * string * Z; ad_rpcUrls : list string; ad_explorers : list string
}.
(** [None]: the wallet did it. *)
Class ChainWallet (W : Type) := {
  switchChain : Z -> W -> option WalletError * W;
  addChain : AddChain -> W -> option WalletError * W;
  has_wallet : W -> bool
}.

Fixpoint hex_of (fuel : nat) (z : Z) : list ascii :=
  match fuel with O => [] | S fuel => (if 16 <=? z then hex_of fuel (z / 16) else []) ++ [hex_digit (z mod 16)] end.
(** [n.toString(16)] of a whole number *)
Definition to_string_16 (z : Z) : string := str (hex_of (S (Z.to_nat (Z.log2 z))) z).

Section Network.
Context {W : Type} `{ChainWallet W} (cfg : Config) (chainId : Z).
Definition unknown_chain (e : WalletError) : bool :=
  bool_decide (we_code e = Some 4902) || match we_message e with Some m => includes "Unrecognized chain ID" m | None => false end ||
  bool_decide (we_code e = Some (-32603)).
Definition chain_to_add : AddChain :=
  mkAddChain ("0x" +:+ to_string_16 chainId) "NilChain Local" ("NIL", "NIL", 18) [cf_evmRpc cfg] ["http://localhost:5173"].
Definition switchNetwork (w : W) : option WalletError * W :=
  match switchChain chainId w with
  | (None, w1) => (None, w1)
  | (Some e, w1) =>
      if unknown_chain e then
        if negb (has_wallet w1) then (Some (mkWalletError None (Some "No crypto wallet found")), w1)
        else match addChain chain_to_add w1 with
             | (Some e2, w2) => (Some e2, w2)
             | (None, w2) => switchChain chainId w2
             end
      else (Some e, w1)
  end.
End Network.

(** ** useMetaMaskUnlockState.ts *)

Inductive UnlockState := wallet_unavailable | wallet_unknown | wallet_locked | wallet_unlocked.
(** [window.ethereum]: whether it takes requests, says it is MetaMask, and the answer
    of [_metamask.isUnlocked] where there is one. *)
Record EthereumProvider := mkEthereum { eth_request : bool; eth_isMetaMask : bool; eth_isUnlocked : option (outcome bool) }.
Definition queryMetaMaskUnlockState (eth : option EthereumProvider) : UnlockState :=
  match eth with
  | None => wallet_unavailable
  | Some e =>
      if negb (eth_request e) then wallet_unavailable
      else if negb (eth_isMetaMask e) then wallet_unavailable
      else match eth_isUnlocked e with
           | None => wallet_unknown
           | Some (Ok true) => wallet_unlocked
           | Some (Ok false) => wallet_locked
           | Some (Thrown _) => wallet_unknown
           end
  end.
(** One tick of the timer, or a focus of the page. *)
Definition refresh (eth : option EthereumProvider) (cancelled : bool) (state : UnlockState) : UnlockState :=
  if cancelled then state else queryMetaMaskUnlockState eth.

(** ** The label of a proof reads back *)

Lemma read_label k v l : no_char ":" k -> no_char ":" v -> read_part l (k +:+ ":" +:+ v) =
  if negb (truthy k) then l
  else
    let key := to_lower (trim k) in
    if eqb key "deal" then mkLabels (Some (trim v)) (lb_epochId l) (lb_tier l)
    else if eqb key "epoch" then mkLabels (lb_dealId l) (Some (trim v)) (lb_tier l)
    else if eqb key "tier" then mkLabels (lb_dealId l) (lb_epochId l) (Some (trim v))
    else l.
Proof.
  intros Hk Hv; unfold read_part, split2. change (k +:+ ":" +:+ v) with (k +:+ String ":" v).
  by rewrite split_cons, split_one by done.
Qed.

Lemma plain_label v : Forall (fun c => is_ws c = false /\ c <> ":"%char /\ c <> "/"%char) (chars v) ->
  no_char ":" v /\ no_char "/" v /\ trim v = v.
Proof.
  intros Hv; split; [|split; [|apply trim_id] ]; (eapply Forall_impl; [exact Hv|]); by intros c (? & ? & ?).
Qed.
(** A commitment that names a deal, an epoch and a tier is read back as these: the
    proofs of a deal are exactly those whose commitment names it. *)
Theorem commitment_label_reads_back d e t :
  Forall (fun v => Forall (fun c => is_ws c = false /\ c <> ":"%char /\ c <> "/"%char) (chars v)) [d; e; t] ->
  parseCommitment ("deal:" +:+ d +:+ "/epoch:" +:+ e +:+ "/tier:" +:+ t) = mkLabels (Some d) (Some e) (Some t).
Proof.
  intros Hall. inversion_clear Hall as [|? ? Hd Hall']; inversion_clear Hall' as [|? ? He Hall'']; inversion_clear Hall'' as [|? ? Ht _].
  apply plain_label in Hd as (Hd1 & Hd2 & Hd3), He as (He1 & He2 & He3), Ht as (Ht1 & Ht2 & Ht3).
  unfold parseCommitment.
  assert (split "/" ("deal:" +:+ d +:+ "/epoch:" +:+ e +:+ "/tier:" +:+ t) = ["deal" +:+ ":" +:+ d; "epoch" +:+ ":" +:+ e; "tier" +:+ ":" +:+ t]) as ->.
  { apply (split_join "/" ["deal:" +:+ d; "epoch:" +:+ e; "tier:" +:+ t]); [done|].
    apply Forall_cons; split; [by apply no_char_app; [repeat constructor|]|]. apply Forall_cons; split; [by apply no_char_app; [repeat constructor|]|].
    apply Forall_singleton. by apply no_char_app; [repeat constructor|]. }
  cbn [fold_left]. rewrite !read_label by (done || by repeat constructor). cbn [lb_dealId lb_epochId lb_tier]. by rewrite Hd3, He3, Ht3.
Qed.
Lemma commitment_label_reads_back_witness : parseCommitment "deal:7/epoch:12/tier:Gold" = mkLabels (Some "7") (Some "12") (Some "Gold").
Proof. apply (commitment_label_reads_back "7" "12" "Gold"). repeat constructor; vm_compute; discriminate. Defined.

(** ** The status of the gateway *)

Section GatewayFacts.
Context {W : Type} `{Http W} (cfg : Config).

(** The two addresses asked. *)
Definition status_url : string := strip_slash (or_else (cf_gatewayBase cfg) "http://localhost:8080") +:+ "/status".
Definition health_url : string := strip_slash (or_else (cf_gatewayBase cfg) "http://localhost:8080") +:+ "/health".
Definition answered_ok (rq : string) (w : W) : Prop := exists res w', fetch status_timeout (GET rq) w = (Ok res, w') /\ rs_ok res = true.
Definition old_gateway (w w' : W) : Prop := exists res, fetch status_timeout (GET status_url) w = (Ok res, w') /\ rs_status res = 404.

Local Ltac refuse := intros; repeat match goal with
  | H : exists _, _ |- _ => destruct H
  | H : _ /\ _ |- _ => destruct H
  | |- ~ _ => intro
  end; congruence.

(** A check says connected exactly when the gateway answered.  It ends in one of two
    states, never in the fourth that the type has: connected, with no error, when the
    status request succeeds, or when there is no such address and the health request
    succeeds; disconnected, with an error text and no details, in every other case. *)
Theorem gateway_check_outcome (s : LocalGateway) : exists s', checkGatewayStatus cfg s = (Ok tt, s') /\
  ((lg_status s' = gw_connected /\ lg_error s' = None /\
    (answered_ok status_url (lg_world s) \/ exists w, old_gateway (lg_world s) w /\ answered_ok health_url w)) \/
   (lg_status s' = gw_disconnected /\ is_Some (lg_error s') /\ lg_details s' = None /\
    ~ answered_ok status_url (lg_world s) /\ forall w, old_gateway (lg_world s) w -> ~ answered_ok health_url w)).
Proof.
  unfold checkGatewayStatus; rewrite bind_run; unfold modify, try_catch. rewrite bind_run; unfold on_gateway at 1; cbn [lg_world lg_status lg_error lg_details].
  fold status_url health_url. unfold answered_ok, old_gateway.
  destruct (fetch status_timeout (GET status_url) (lg_world s)) as [ [res|e] w1] eqn:E1.
  2: { eexists; split; [reflexivity|right]. cbn. repeat split; [by eexists|refuse..]. }
  destruct (rs_ok res) eqn:Hok.
  { eexists; split; [reflexivity|left]. cbn; repeat split. left; by exists res, w1. }
  destruct (Z.eqb_spec (rs_status res) 404) as [H404|H404]; cbn [negb].
  2: { eexists; split; [reflexivity|right]. cbn. repeat split; [by eexists|refuse..]. }
  rewrite bind_run; unfold on_gateway at 1; cbn [lg_world lg_status lg_error lg_details].
  destruct (fetch status_timeout (GET health_url) w1) as [ [res2|e] w2] eqn:E2.
  2: { eexists; split; [reflexivity|right]. cbn. repeat split; [by eexists|refuse..]. }
  destruct (rs_ok res2) eqn:Hok2; (eexists; split; [reflexivity|]).
  - left; cbn; repeat split. right; exists w1; split; [by exists res|by exists res2, w2].
  - right. cbn. repeat split; [by eexists|refuse..].
Qed.

(** A timeout is not reported as one.  [AbortSignal.timeout] rejects the request with
    a TimeoutError, but the check looks for an AbortError, which nothing here raises:
    the text meant for a timeout is never shown, and the error is the browser's own. *)
Theorem timeout_is_not_reported (s : LocalGateway) m w :
  fetch status_timeout (GET status_url) (lg_world s) = (Thrown (JsError "TimeoutError" m), w) ->
  truthy m = true -> m <> "Connection timed out" ->
  exists s', checkGatewayStatus cfg s = (Ok tt, s') /\ lg_status s' = gw_disconnected /\
    (lg_error s' = Some m \/ lg_error s' = Some "Could not connect to local gateway") /\ lg_error s' <> Some "Connection timed out".
Proof.
  intros Hf Hm Hne; unfold checkGatewayStatus; rewrite bind_run; unfold modify, try_catch. rewrite bind_run; unfold on_gateway at 1; cbn [lg_world lg_status lg_error lg_details].
  fold status_url. rewrite Hf. eexists; split; [reflexivity|]. cbn [gateway_is modify snd lg_status lg_error error_text_of err_message].
  unfold or_else; rewrite Hm; cbn [andb]. split; [done|]. destruct (includes "Failed to fetch" m); split; (by left) || (by right) || congruence.
Qed.
End GatewayFacts.

Lemma timeout_is_not_reported_witness :
  let script := [Thrown (JsError "TimeoutError" "signal timed out")] in
  exists s', @checkGatewayStatus _ scripted_http (appConfig (fun _ => None)) (mkLocal script gw_disconnected None None) = (Ok tt, s') /\
    lg_error s' <> Some "Connection timed out".
Proof.
  destruct (@timeout_is_not_reported _ scripted_http (appConfig (fun _ => None))
    (mkLocal [Thrown (JsError "TimeoutError" "signal timed out")] gw_disconnected None None) "signal timed out" []) as (s' & Hr & _ & _ & Hne);
    [reflexivity|reflexivity|discriminate|]. exists s'; split; [exact Hr|exact Hne].
Defined.
