(* ===== verification/Account.v ===== *)
(** * The account of the dashboard (components/Dashboard.tsx)

    What the dashboard knows of the wallet (its chain, whether it is locked, which
    accounts it has authorised) and of the chain node; what the button that creates a
    deal does in each case; and what happens to the data of an account when another is
    selected in the wallet.  The answers to the queries of an account arrive in any
    order: the state machine has a transition for each arrival.  The EVM balance, which
    wagmi reads and keeps itself, is left out. *)
From S2P Require Import Prelude JsString JsNum TransportTypes Effects Bytes Text Router RangeChunker Hex Multiaddr Http Lcd.
From S2P Require Import GatewayClient P2p Config TransportHook Evm Eip712 FetchFlow Nilfs Opfs NilWasm Sharding DealTx Faucet RecentFiles DealList.
From S2P Require Import Board Hooks.
#[local] Open Scope Z_scope.

(** ** The wallet *)

#[local] Instance unlock_state_eq_dec : EqDecision UnlockState.
Proof. solve_decision. Defined.

(** [wv_chainId] is what wagmi reports, [wv_metamaskChainId] what the wallet says itself. *)
Record WalletView := mkWalletView {
  wv_connected : bool; wv_address : option string; wv_chainId : Z; wv_metamaskChainId : option Z;
  wv_authorized : option (list string); wv_unlock : UnlockState; wv_rpcChainId : option Z
}.
Definition with_metamask (c : option Z) (v : WalletView) : WalletView :=
  mkWalletView (wv_connected v) (wv_address v) (wv_chainId v) c (wv_authorized v) (wv_unlock v) (wv_rpcChainId v).
Definition with_authorized (l : option (list string)) (v : WalletView) : WalletView :=
  mkWalletView (wv_connected v) (wv_address v) (wv_chainId v) (wv_metamaskChainId v) l (wv_unlock v) (wv_rpcChainId v).
Definition with_rpc (c : option Z) (v : WalletView) : WalletView :=
  mkWalletView (wv_connected v) (wv_address v) (wv_chainId v) (wv_metamaskChainId v) (wv_authorized v) (wv_unlock v) c.

(** A chain id in hex, where it is one. *)
Definition chain_in (answer : json) : option Z :=
  match answer with JStr s => match parseInt16 s with Num z => Some z | _ => None end | _ => None end.
(** The effect of the mount and the [chainChanged] event; [None]: there is no wallet. *)
Definition getChainId (eth : option (outcome json)) (v : WalletView) : WalletView :=
  match eth with Some (Ok hex) => with_metamask (chain_in hex) v | _ => v end.
Definition handleChainChanged (hex : json) (v : WalletView) : WalletView := with_metamask (chain_in hex) v.

(** [normalize(accounts)] *)
Definition normalize_accounts (accounts : json) : list string :=
  match accounts with JArr l => omap (fun j => match j with JStr s => Some s | _ => None end) l | _ => [] end.
(** The effect of a change of [isConnected], up to its first request. *)
Definition accounts_effect (can_request : bool) (v : WalletView) : WalletView :=
  if negb (wv_connected v) then with_authorized None v
  else if negb can_request then with_authorized (Some []) v
  else v.
Definition accounts_answer (cancelled : bool) (answer : outcome json) (v : WalletView) : WalletView :=
  if cancelled then v
  else with_authorized (Some (match answer with Ok j => normalize_accounts j | Thrown _ => [] end)) v.
Definition handleAccountsChanged (cancelled : bool) (accounts : json) (v : WalletView) : WalletView :=
  accounts_answer cancelled (Ok accounts) v.

Section Flags.
(** [appConfig.chainId] *)
Context (chainId : Z).
Definition activeChainId (v : WalletView) : Z := default (wv_chainId v) (wv_metamaskChainId v).
Definition isWrongNetwork (v : WalletView) : bool := negb (activeChainId v =? chainId).
Definition isWalletLocked (v : WalletView) : bool := wv_connected v && bool_decide (wv_unlock v = wallet_locked).
Definition hasAuthorizedAccount (v : WalletView) : bool := match wv_authorized v with Some l => 0 <? zlen l | None => true end.
Definition rpcMismatch (v : WalletView) : bool := match wv_rpcChainId v with Some c => negb (c =? chainId) | None => false end.
End Flags.

Section Rpc.
Context {W : Type} `{Http W} (cfg : Config).
(** One tick of the check of the node, on a page [W * WalletView]. *)
Definition checkRpc : M (W * WalletView) unit :=
  try_catch
    (res ← (fun p => let '(o, w) := fetch None (mkReq (cf_evmRpc cfg) "POST" [("Content-Type", "application/json")]
              (BJson (JObj [("jsonrpc", JStr "2.0"); ("method", JStr "eth_chainId"); ("params", JArr []); ("id", JNum (Num 1))]))) p.1 in (o, (w, p.2)));
     j ← lift (rs_json res);
     modify (fun p => (p.1, with_rpc (match get_field j "result" with
                                      | Some (JStr raw) => if truthy raw then chain_in (JStr raw) else None
                                      | _ => None
                                      end) p.2)))
    (fun _ => mret tt).
End Rpc.

(** ** The button that creates a deal *)

(** [window.ethereum.request] and wagmi's [connectAsync] *)
Class Accounts (W : Type) := {
  can_request : W -> bool;
  requestAccounts : W -> outcome json * W;
  connectAsync : W -> outcome (list json) * W
}.

Section Create.
Context `{Bech32, Viem} {W : Type} `{Clock W, Timers W, Http W, Libp2p W, TraceStore W, Wallet W, ChainWallet W, Accounts W}.
Context (cfg : Config) (preference : RoutePreference) (divides_64 : dec -> bool) (chainId : Z).

Definition first_account (accounts : json) : string := match accounts with JArr (JStr s :: _) => s | _ => "" end.
(** The wallet is locked, or has authorised no account: ask it for one. *)
Definition request_and_create (r : Render) (refusal : string) : M (Board W) unit :=
  able ← world (fun w => (Ok (can_request w), w));
  if negb able then js_error "Ethereum provider (MetaMask) not available"
  else
    accounts ← world requestAccounts;
    let first := first_account accounts in
    if negb (truthy first) || negb (starts_with "0x" first) then js_error refusal
    else handleCreateDeal cfg divides_64 r first.
Definition connect_and_create (v : WalletView) (r : Render) : M (Board W) unit :=
  world (fun w => (Ok tt, (switchNetwork cfg chainId w).2)) ;;
  connected ← world connectAsync;
  let creator := match head connected with
                 | Some (JStr s) => if starts_with "0x" s then s else default "" (wv_address v)
                 | _ => default "" (wv_address v)
                 end in
  if negb (truthy creator) || negb (starts_with "0x" creator) then js_error "Connect MetaMask to create a deal."
  else handleCreateDeal cfg divides_64 r creator.
Definition handleCreateDealClick (v : WalletView) (r : Render) : M (Board W) unit :=
  if no_funds (rd_balances r) then set_line tone_error need_faucet
  else
    try_catch
      (if isWalletLocked v then request_and_create r "Unlock MetaMask to continue."
       else if wv_connected v && negb (hasAuthorizedAccount v) then request_and_create r "Connect MetaMask to create a deal."
       else if negb (wv_connected v) || negb (opt_str (wv_address v)) then connect_and_create v r
       else if negb (starts_with "0x" (default "" (wv_address v))) then js_error "Connect MetaMask to create a deal."
       else handleCreateDeal cfg divides_64 r (default "" (wv_address v)))
      (fun e => set_line tone_error (Say (if is_Error e then err_message e else "Failed to connect wallet"))).

(** [None] when the switch worked; the alert otherwise. *)
Definition handleSwitchNetwork (w : W) : option string * W :=
  let '(e, w') := switchNetwork cfg chainId w in
  (match e with
   | Some _ => Some ("Could not switch network. Please switch to Chain ID " +:+ string_of_Z chainId +:+ " manually.")
   | None => None
   end, w').
(** The button: disabled while a deal is created or the form is wrong. *)
Definition create_button (v : WalletView) (r : Render) (dealLoading : bool) : M (Board W) unit :=
  if dealLoading || match rd_mode r, (mode2Config divides_64 r).2 with mode2, Some _ => true | _, _ => false end then mret tt
  else if isWrongNetwork chainId v then world (fun w => (Ok tt, (handleSwitchNetwork w).2))
  else handleCreateDealClick v r.
Definition create_label (v : WalletView) (dealLoading : bool) : string :=
  if dealLoading then "Creating..."
  else if isWrongNetwork chainId v then "Switch network"
  else if isWalletLocked v then "Unlock wallet"
  else if negb (wv_connected v) || negb (opt_str (wv_address v)) || negb (hasAuthorizedAccount v) then "Connect wallet"
  else "Create deal".
End Create.

(** ** The faucet's transaction *)

Section Notes.
Context `{Bech32} {W : Type} `{Clock W, Http W} (cfg : Config).
(** The effect of a new status of the faucet's transaction. *)
Definition faucet_effect (nilAddress : string) (txStatus : TxStatus) (faucetTx : option json) : M (Board W) unit :=
  match txStatus, faucetTx with
  | tx_confirmed, Some tx =>
      if json_truthy tx then
        set_line tone_success (Say ("Faucet tx " +:+ json_String tx +:+ " confirmed.")) ;;
        if truthy nilAddress then dash (fetchBalances cfg nilAddress) ;; mret tt else mret tt
      else mret tt
  | tx_failed, Some tx => if json_truthy tx then set_line tone_error (Say ("Faucet tx " +:+ json_String tx +:+ " failed.")) else mret tt
  | _, _ => mret tt
  end.
End Notes.

(** ** The account *)

(** The queries of an account that are not answered yet. *)
Inductive Asked := asked_deals (owner : string) | asked_balances (owner : string) | asked_providers.

Section Account.
Context `{Bech32} {W : Type} `{Clock W, Http W} (cfg : Config).

Record AccountPage := mkAccountPage { ap_nilAddress : string; ap_dash : Dash W; ap_asked : list Asked }.

(** The effect of another address. *)
Definition address_effect (address : option string) (p : AccountPage) : AccountPage :=
  let d := ap_dash p in
  if opt_str address then
    let cosmosAddress := ethToNil (default "" address) in
    mkAccountPage cosmosAddress (mkDash (dl_world d) (dl_deals d) (dl_allDeals d) (dl_providers d) (dl_balances d) true ∅)
      (ap_asked p ++ [asked_deals cosmosAddress; asked_balances cosmosAddress; asked_providers])
  else mkAccountPage (ap_nilAddress p) (mkDash (dl_world d) [] [] [] (dl_balances d) (dl_loading d) ∅) (ap_asked p).
Definition run_asked (q : Asked) (d : Dash W) : Dash W :=
  match q with
  | asked_deals owner => (fetchDeals cfg (Some owner) d).2
  | asked_balances owner => (fetchBalances cfg owner d).2
  | asked_providers => (fetchProviders cfg d).2
  end.
(** A query is answered. *)
Definition account_answer (i : nat) (p : AccountPage) : AccountPage :=
  match (ap_asked p !! i : option Asked) with
  | Some q => mkAccountPage (ap_nilAddress p) (run_asked q (ap_dash p)) (delete i (ap_asked p))
  | None => p
  end.
(** The refresh button. *)
Definition handleRefreshSummary (p : AccountPage) : AccountPage :=
  if truthy (ap_nilAddress p) then
    mkAccountPage (ap_nilAddress p) (set_dl_loading true (ap_dash p))
      (ap_asked p ++ [asked_deals (ap_nilAddress p); asked_balances (ap_nilAddress p); asked_providers])
  else p.
End Account.
#[global] Arguments AccountPage : clear implicits.

(** ** Deals are created from an account of the wallet *)

Section CreateFacts.
Context `{Bech32, Viem} {W : Type} `{Clock W, Timers W, Http W, Libp2p W, TraceStore W, Wallet W, ChainWallet W, Accounts W}.
Context (cfg : Config) (divides_64 : dec -> bool) (chainId : Z).

(** Where the address comes from: the page, or an answer of the wallet. *)
Definition account_of (v : WalletView) (creator : string) : Prop :=
  wv_address v = Some creator \/
  (exists w accounts w', requestAccounts w = (Ok accounts, w') /\ first_account accounts = creator) \/
  exists w accounts w', connectAsync w = (Ok accounts, w') /\ head accounts = Some (JStr creator).
(** A step that is no attempt to create a deal. *)
Definition no_attempt (b b' : Board W) : Prop := bd_create b' = bd_create b /\ bd_target b' = bd_target b.
(** The outcome of a click: a refusal, or an attempt with an account of the wallet. *)
Definition attempted (v : WalletView) (r : Render) (b b' : Board W) (o : outcome unit) : Prop :=
  no_attempt b b' \/
  o = Ok tt /\ exists creator b1, account_of v creator /\ starts_with "0x" creator = true /\ no_attempt b b1 /\
    handleCreateDeal cfg divides_64 r creator b1 = (Ok tt, b').

Lemma handleCreateDeal_settles r creator (b : Board W) : exists b', handleCreateDeal cfg divides_64 r creator b = (Ok tt, b').
Proof.
  unfold handleCreateDeal; destruct (no_funds _); [by eexists|]. unfold try_catch.
  set (m := match create_hint _ _ with inl _ => _ | inr _ => _ end). destruct (m b) as [ [ [] |e] b1]; by eexists.
Qed.

Lemma world_no_attempt {A} (m : M W A) (b : Board W) : no_attempt b (world m b).2.
Proof. unfold world, dash, on_dash. by destruct (m (dl_world (bd_dash b))). Qed.
Lemma no_attempt_trans b1 b2 b3 : no_attempt b1 b2 -> no_attempt b2 b3 -> no_attempt b1 b3.
Proof. intros [Hc Ht] [Hc2 Ht2]; split; congruence. Qed.
Lemma world_run {A} (m : M W A) (b : Board W) : exists b', world m b = ((m (dl_world (bd_dash b))).1, b') /\ no_attempt b b'.
Proof. exists (world m b).2; split; [|apply world_no_attempt]. unfold world, dash, on_dash. by destruct (m (dl_world (bd_dash b))). Qed.

Lemma attempt_with v r creator b b1 : account_of v creator -> starts_with "0x" creator = true -> no_attempt b b1 ->
  attempted v r b (handleCreateDeal cfg divides_64 r creator b1).2 (handleCreateDeal cfg divides_64 r creator b1).1.
Proof.
  intros Ha Hx Hn; destruct (handleCreateDeal_settles r creator b1) as (b' & Hr); rewrite Hr; right; split; [done|].
  by exists creator, b1.
Qed.

Lemma request_attempted v r refusal b :
  attempted v r b (request_and_create cfg divides_64 r refusal b).2 (request_and_create cfg divides_64 r refusal b).1.
Proof.
  unfold request_and_create; rewrite bind_run. destruct (world_run (fun w => (Ok (can_request w), w)) b) as (b1 & -> & Hb1); cbn [fst].
  destruct (can_request _); cbn [negb]; [|by left]. rewrite bind_run. destruct (world_run requestAccounts b1) as (b2 & -> & Hb2).
  pose proof (no_attempt_trans _ _ _ Hb1 Hb2) as Hb. destruct (requestAccounts (dl_world (bd_dash b1))) as [ [accounts|e] w] eqn:Hq; cbn [fst]; [|by left].
  cbv zeta. destruct (_ || _) eqn:Hbad; [by left|]. apply orb_false_iff in Hbad as [_ Hx%negb_false_iff].
  apply attempt_with; [|done..]. right; left; by exists (dl_world (bd_dash b1)), accounts, w.
Qed.

Lemma connect_attempted v r b :
  attempted v r b (connect_and_create cfg divides_64 chainId v r b).2 (connect_and_create cfg divides_64 chainId v r b).1.
Proof.
  unfold connect_and_create; rewrite bind_run.
  destruct (world_run (fun w => (Ok tt, (switchNetwork cfg chainId w).2)) b) as (b1 & -> & Hb1); cbn [fst].
  rewrite bind_run. destruct (world_run connectAsync b1) as (b2 & -> & Hb2). pose proof (no_attempt_trans _ _ _ Hb1 Hb2) as Hb.
  destruct (connectAsync (dl_world (bd_dash b1))) as [ [accounts|e] w] eqn:Hq; cbn [fst]; [|by left].
  cbv zeta. set (creator := match head accounts with Some _ => _ | None => _ end).
  assert (truthy creator = true -> account_of v creator) as Hacc.
  { assert (truthy (default "" (wv_address v)) = true -> account_of v (default "" (wv_address v))) as Hpage
      by (intros Ht; left; destruct (wv_address v); [done|by vm_compute in Ht]).
    subst creator; destruct (head accounts) as [ [| | |s| |] |] eqn:Hh; try exact Hpage.
    destruct (starts_with "0x" s); [|exact Hpage]. intros _; right; right; by exists (dl_world (bd_dash b1)), accounts, w. }
  destruct (_ || _) eqn:Hbad; [by left|]. apply orb_false_iff in Hbad as [Ht%negb_false_iff Hx%negb_false_iff].
  apply attempt_with; auto.
Qed.

(** C19: A deal is only created from an account of the wallet.  Whatever the wallet and
    its answers, the button settles, and either it sends nothing, changing at most the
    status line, or it creates a deal with an Ethereum address that is the page's or
    that the wallet has just given; and then the wallet is on the right chain, the
    account was seen to have funds, and the form is in order. *)
Theorem create_button_uses_account v r dealLoading (b : Board W) :
  exists b', create_button cfg divides_64 chainId v r dealLoading b = (Ok tt, b') /\
    (no_attempt b b' \/
     exists creator b1, account_of v creator /\ starts_with "0x" creator = true /\ no_attempt b b1 /\
       handleCreateDeal cfg divides_64 r creator b1 = (Ok tt, b') /\
       dealLoading = false /\ activeChainId v = chainId /\ no_funds (rd_balances r) = false /\
       (rd_mode r = mode2 -> (mode2Config divides_64 r).2 = None)).
Proof.
  unfold create_button; destruct (dealLoading || _) eqn:Hoff; [exists b; split; [done|by left] |].
  apply orb_false_iff in Hoff as [-> Hform]. destruct (isWrongNetwork chainId v) eqn:Hnet.
  { destruct (world_run (fun w => (Ok tt, (handleSwitchNetwork cfg chainId w).2)) b) as (b' & -> & Hb). exists b'; split; [done|by left]. }
  apply negb_false_iff, Z.eqb_eq in Hnet. unfold handleCreateDealClick; destruct (no_funds _) eqn:Hfunds; [eexists; split; [reflexivity|by left] |].
  unfold try_catch. set (m := if isWalletLocked v then _ else _).
  assert (attempted v r b (m b).2 (m b).1) as Hm.
  { subst m. destruct (isWalletLocked v); [apply request_attempted|]. destruct (wv_connected v && _); [apply request_attempted|].
    destruct (_ || negb (opt_str (wv_address v))) eqn:Hc; [apply connect_attempted|]. apply orb_false_iff in Hc as [_ Hc%negb_false_iff].
    destruct (starts_with "0x" (default "" (wv_address v))) eqn:Hx; cbn [negb]; [|by left].
    apply attempt_with; [|done|done]. left; by destruct (wv_address v). }
  destruct (m b) as [ [ [] |e] b1]; cbn [fst snd] in Hm.
  - exists b1; split; [done|]. destruct Hm as [Hm|(_ & creator & b0 & Ha & Hx & Hn & Hr)]; [by left|right].
    exists creator, b0. do 7 (split; [done|]). intros Hmode; rewrite Hmode in Hform. by destruct (mode2Config divides_64 r).2.
  - eexists; split; [reflexivity|left]. destruct Hm as [Hm|[? _] ]; [exact Hm|discriminate].
Qed.

(** The label of the button says what a click does: where it reads Create deal, the
    click creates the deal with the address of the page, without asking the wallet. *)
Theorem create_label_is_kept v r a (b : Board W) :
  create_label chainId v false = "Create deal" -> wv_address v = Some a -> starts_with "0x" a = true ->
  no_funds (rd_balances r) = false -> (mode2Config divides_64 r).2 = None ->
  create_button cfg divides_64 chainId v r false b = handleCreateDeal cfg divides_64 r a b.
Proof.
  unfold create_label, create_button, handleCreateDealClick; cbn [orb].
  destruct (isWrongNetwork chainId v); [discriminate|]. destruct (isWalletLocked v); [discriminate|].
  intros Hl Ha Hx Hf Hform; rewrite Hform, Hf. rewrite Ha in Hl |- *; cbn [default] in *.
  assert ((match rd_mode r with mode1 => false | mode2 => false end) = false) as -> by by destruct (rd_mode r).
  destruct (wv_connected v), (opt_str (Some a)), (hasAuthorizedAccount v); cbn [negb orb andb] in Hl |- *; try discriminate.
  change (id a) with a; rewrite Hx; cbn [negb]. unfold try_catch. by destruct (handleCreateDeal_settles r a b) as (b' & ->).
Qed.
End CreateFacts.

(** ** Whose deals are shown *)

Section AccountFacts.
Context `{Bech32} {W : Type} `{Clock W, Http W} (cfg : Config).

(** The deals of an account, as they are shown. *)
Definition deals_of (owner : string) (all : list LcdDeal) : list LcdDeal := List.filter (fun d => eqb (d_owner d) owner) all.

Lemma filter_shown (f : LcdDeal -> LcdDeal) owner l : (forall d, d_owner (f d) = d_owner d) -> deals_of owner (map f l) = map f (deals_of owner l).
Proof. unfold deals_of; intros Hf; induction l as [|d l IH]; [done|]. cbn. rewrite Hf. by destruct (eqb _ _); cbn; rewrite IH. Qed.
Lemma shown_owner t over d : d_owner (shown t over d) = d_owner d.
Proof. unfold shown. repeat case_match; done. Qed.
Lemma deals_of_twice owner other l : deals_of owner (deals_of other l) = if eqb other owner then deals_of owner l else [].
Proof.
  unfold deals_of, eqb; induction l as [|d l IH]; cbn; [by case_bool_decide|].
  repeat case_bool_decide; subst; cbn; rewrite ?IH; repeat case_bool_decide; congruence || done.
Qed.
Lemma owner_view_own owner all merged : truthy owner = true -> deals_of owner merged <> [] -> owner_view (Some owner) all merged = deals_of owner merged.
Proof.
  intros Ht Hne; unfold owner_view; rewrite Ht; cbv zeta; fold (deals_of owner merged).
  destruct (Z.eqb_spec (zlen (deals_of owner merged)) 0) as [Hz|]; [by apply zlen_0_nil in Hz|done].
Qed.

(** The answer for an account that has deals shows these where it is still selected,
    and nothing under any other. *)
Lemma deals_answered owner i (p : AccountPage W) all w1 :
  ap_asked p !! i = Some (asked_deals owner) -> NoDup (map d_id all) -> lcdFetchDeals (cf_lcdBase cfg) (dl_world (ap_dash p)) = (Ok all, w1) ->
  truthy owner = true -> deals_of owner all <> [] ->
  let p' := account_answer cfg i p in
  ap_nilAddress p' = ap_nilAddress p /\ ap_asked p' = delete i (ap_asked p) /\ dl_world (ap_dash p') = (date_now w1).2 /\
  dl_loading (ap_dash p') = false /\
  forall me, truthy me = true -> map d_id (ownedDeals me (dl_deals (ap_dash p'))) = if eqb owner me then map d_id (deals_of owner all) else [].
Proof.
  intros Hi Hnd Hf Ht Hown p'. subst p'; unfold account_answer; rewrite Hi; cbn [ap_nilAddress ap_asked ap_dash run_asked].
  destruct (fetchDeals_run cfg (Some owner) (ap_dash p) all w1 Hnd Hf) as (d' & -> & Hw & Hl & Ha & Hd & _); cbn [snd].
  do 4 (split; [done|]). intros me Hme; unfold ownedDeals; rewrite Hme.
  fold (deals_of me (dl_deals d')). rewrite Hd, owner_view_own; [|done|].
  - rewrite deals_of_twice, Ha. destruct (eqb owner me) eqn:E; [|done]. unfold eqb in E; apply bool_decide_eq_true in E as <-.
    rewrite filter_shown by apply shown_owner. rewrite map_map. apply map_ext; intros; apply shown_id.
  - rewrite Ha, filter_shown by apply shown_owner. by destruct (deals_of owner all).
Qed.

(** C40: A late answer hides the deals of the account.  The queries of an account are not
    cancelled when the wallet selects another.  Both accounts own deals.  If the second
    account's have arrived and are shown, and then the first account's answer arrives,
    the deals of the second disappear: the page shows none although the chain has them,
    nothing is loading, and no query for deals is left that would bring them back.  (An
    answer for a first account without deals would leave all deals on the list, and with
    them the second account's.) *)
Theorem late_answer_hides_deals a b (p : AccountPage W) all w1 all' w2 :
  ap_asked p = [] -> truthy a = true -> truthy b = true ->
  let na := ethToNil a in let nb := ethToNil b in
  truthy na = true -> truthy nb = true -> na <> nb ->
  NoDup (map d_id all) -> NoDup (map d_id all') -> deals_of nb all <> [] -> deals_of na all' <> [] ->
  lcdFetchDeals (cf_lcdBase cfg) (dl_world (ap_dash p)) = (Ok all, w1) ->
  lcdFetchDeals (cf_lcdBase cfg) (date_now w1).2 = (Ok all', w2) ->
  let switched := address_effect (Some b) (address_effect (Some a) p) in
  let early := account_answer cfg 3 switched in
  let late := account_answer cfg 0 early in
  ap_nilAddress early = nb /\ ap_nilAddress late = nb /\
  map d_id (ownedDeals nb (dl_deals (ap_dash early))) = map d_id (deals_of nb all) /\
  ownedDeals nb (dl_deals (ap_dash late)) = [] /\
  (forall owner, asked_deals owner ∉ ap_asked late) /\ dl_loading (ap_dash late) = false.
Proof.
  intros Hnone Ha Hb na nb Hna Hnb Hne Hnd Hnd' Hown Hown' Hf Hf' switched early late.
  assert (ap_asked switched = [asked_deals na; asked_balances na; asked_providers; asked_deals nb; asked_balances nb; asked_providers]) as Hasked.
  { unfold switched, address_effect. change (opt_str (Some b)) with (truthy b); change (opt_str (Some a)) with (truthy a). rewrite Ha, Hb; cbn. by rewrite Hnone. }
  assert (ap_nilAddress switched = nb /\ dl_world (ap_dash switched) = dl_world (ap_dash p)) as [Hnil Hw].
  { unfold switched, address_effect. change (opt_str (Some b)) with (truthy b); change (opt_str (Some a)) with (truthy a). by rewrite Ha, Hb. }
  clearbody switched. rewrite <- Hw in Hf.
  destruct (deals_answered nb 3 switched all w1) as (H1n & H1a & H1w & _ & H1d); [by rewrite Hasked|done..|]. fold early in H1n, H1a, H1w, H1d.
  rewrite Hasked in H1a; cbn in H1a. rewrite <- H1w in Hf'.
  destruct (deals_answered na 0 early all' w2) as (H2n & H2a & _ & H2l & H2d); [by rewrite H1a|done..|]. fold late in H2n, H2a, H2l, H2d.
  rewrite H1a in H2a; cbn in H2a. rewrite H2n, H1n, Hnil. split; [done|split; [done|] ].
  specialize (H1d nb Hnb); specialize (H2d nb Hnb). unfold eqb in H1d, H2d. rewrite bool_decide_eq_true_2 in H1d by done.
  rewrite bool_decide_eq_false_2 in H2d by done. split; [done|split; [by apply map_eq_nil in H2d|split] ].
  - intros owner; rewrite H2a; set_solver.
  - exact H2l.
Qed.
End AccountFacts.

(** ** A switch of accounts *)

#[local] Existing Instances chain_clock chain_http hex_bech32.
Definition two_owners : json :=
  JObj [("deals", JArr [JObj [("id", JStr "7"); ("cid", JStr "0xaa"); ("owner", JStr "nil101")];
                        JObj [("id", JStr "8"); ("cid", JStr "0xcc"); ("owner", JStr "nil102")] ])].
Definition owned_list : list LcdDeal := Eval vm_compute in normalizeLcdDealsResponse two_owners.
Definition fresh_account : AccountPage chain :=
  mkAccountPage "" (mkDash (1000, [Ok (json_response two_owners); Ok (json_response two_owners)]) [] [] [] (mkBalances None None) false ∅) [].
Lemma owned_list_ids : NoDup (map d_id owned_list).
Proof. apply (bool_decide_unpack _); vm_compute; exact I. Qed.

Lemma late_answer_hides_deals_witness :
  let late := account_answer demo_lcd 0 (account_answer demo_lcd 3 (address_effect (Some "0x02") (address_effect (Some "0x01") fresh_account))) in
  ap_nilAddress late = "nil102" /\ ownedDeals "nil102" (dl_deals (ap_dash late)) = [] /\ forall owner, asked_deals owner ∉ ap_asked late.
Proof.
  destruct (late_answer_hides_deals demo_lcd "0x01" "0x02" fresh_account owned_list (1000, [Ok (json_response two_owners)]) owned_list (1000, []))
    as (_ & Hn & _ & Ho & Ha & _); try (vm_compute; (reflexivity || discriminate)); try exact owned_list_ids.
  split; [exact Hn|split; [exact Ho|exact Ha] ].
Defined.
