(* ===== verification/TestWallet.v ===== *)
(** * The test wallet (lib/e2eWallet.ts)

    The wallet that a test build puts in [window.ethereum]: one account, whose key the
    build carries, that answers the requests of the pages.  The account (viem's
    [privateKeyToAccount] and wallet client) is a parameter.  The wallet is then given
    to the hooks that use a wallet, and what these do with it is stated. *)
From S2P Require Import Prelude JsString JsNum TransportTypes Effects Bytes Text Hex Http Lcd GatewayClient Config Evm Eip712 FetchFlow.
From S2P Require Import DealTx Faucet Hooks Account.
#[local] Open Scope Z_scope.

(** ** Requests *)

(** A transaction as viem's wallet client takes it. *)
Record SendArgs := mkSend { sa_to : string; sa_data : string; sa_value : Z; sa_gas : option Z }.
(** The account of the private key, and its client: the typed data is the parsed JSON
    with the chain id of its domain replaced; [eth_call] is the node's. *)
Class TestAccount (W : Type) := {
  account_address : string;
  acc_signTypedData : json -> Z -> M W string;
  acc_sendTransaction : SendArgs -> M W string;
  rpc_eth_call : list json -> M W json
}.

(** An answer, or an error with the [code] it may carry. *)
Definition reply : Type := json + jserr * option Z.
Definition answered (o : outcome json) : reply := match o with Ok j => inl j | Thrown e => inr (e, None) end.

(** [`${x}`], [String(x)] *)
Definition text_of (x : option json) : string := match x with Some j => json_String j | None => "undefined" end.
Definition falsy (x : option json) : bool := match x with Some j => negb (json_truthy j) | None => true end.
(** [params?.[0]?.chainId] *)
Definition requested_chain (params : option json) : option json :=
  match params with
  | Some (JArr (x :: _)) => get_field x "chainId"
  | Some (JObj fields) => match assoc "0" fields with Some x => get_field x "chainId" | None => None end
  | _ => None
  end.
(** [const [a, b] = params ?? []] *)
Definition destructured (params : option json) : outcome (list json) :=
  match params with
  | None | Some JNull => mret []
  | Some (JArr l) => mret l
  | Some (JStr s) => mret (map (fun c => JStr (str [c])) (chars s))
  | Some _ => mthrow (JsError "TypeError" "object is not iterable")
  end.
(** [BigInt(j)] *)
Definition BigInt_of_json (j : json) : outcome Z :=
  match j with
  | JBool b => mret (if b then 1 else 0)
  | JNum (Num z) => mret z
  | JNum _ => mthrow (JsError "RangeError" "The number cannot be converted to a BigInt because it is not an integer")
  | JNull => mthrow (JsError "TypeError" "Cannot convert null to a BigInt")
  | _ => BigInt_of_string (json_String j)
  end.
(** [String(tx?.key || d)] *)
Definition tx_field (tx : option json) (key d : string) : string :=
  match tx with
  | Some j => match get_field j key with Some v => if json_truthy v then json_String v else d | None => d end
  | None => d
  end.

Section Requests.
Context `{Viem} {W : Type} `{TestAccount W}.
Context (JSON_parse : units -> outcome json) (chainId : Z).

Definition chainIdHex : string := numberToHex chainId.
Definition not_own (from : string) : bool := negb (truthy from) || negb (eqb (to_lower from) (to_lower account_address)).

Definition sign_typed (params : option json) : M W json :=
  l ← lift (destructured params);
  let from := l !! 0%nat in
  if falsy from || negb (eqb (to_lower (text_of from)) (to_lower account_address)) then js_error ("unknown signer " +:+ text_of from)
  else
    parsed ← lift (JSON_parse (units_of (text_of (l !! 1%nat))));
    match parsed with
    | JNull => mthrow (JsError "TypeError" "Cannot read properties of null (reading 'domain')")
    | _ =>
        chain ← lift (match nullish (match get_field parsed "domain" with Some d => get_field d "chainId" | None => None end) None with
                      | Some c => BigInt_of_json c
                      | None => mret chainId
                      end);
        sig ← acc_signTypedData parsed chain;
        mret (JStr sig)
    end.

Definition send_args (tx : option json) : outcome SendArgs :=
  let from := tx_field tx "from" "" in
  if not_own from then mthrow (Error ("unknown signer " +:+ from))
  else
    let to := tx_field tx "to" "" in
    if negb (truthy to) || negb (starts_with "0x" to) then mthrow (Error "tx.to is required")
    else
      let data := or_else (tx_field tx "data" "0x") "0x" in
      let valueHex := tx_field tx "value" "0x0" in
      value ← (if truthy valueHex && negb (eqb valueHex "0x") then BigInt_of_string valueHex else mret 0);
      let gasHex := tx_field tx "gas" "" in
      gas ← (if truthy gasHex && negb (eqb gasHex "0x") then g ← BigInt_of_string gasHex; mret (Some g) else mret None);
      mret (mkSend to data value gas).
Definition send_transaction (params : option json) : M W json :=
  l ← lift (destructured params);
  args ← lift (send_args (l !! 0%nat));
  hash ← acc_sendTransaction args;
  mret (JStr hash).
Definition call_node (params : option json) : M W json :=
  rpc_eth_call (match params with Some (JArr l) => l | Some j => [j] | None => [JNull] end).

Definition switch_reply (params : option json) : reply :=
  let requested := requested_chain params in
  if falsy requested || eqb (to_lower (text_of requested)) (to_lower chainIdHex) then inl JNull
  else inr (Error ("Unrecognized chain ID " +:+ text_of requested), Some 4902).

(** [window.ethereum.request({ method, params })] *)
Definition request (method : string) (params : option json) : W -> reply * W := fun w =>
  let settle (m : M W json) := let '(o, w') := m w in (answered o, w') in
  if mem method ["eth_requestAccounts"; "eth_accounts"] then (inl (JArr [JStr account_address]), w)
  else if eqb method "eth_chainId" then (inl (JStr chainIdHex), w)
  else if eqb method "net_version" then (inl (JStr (string_of_Z chainId)), w)
  else if eqb method "wallet_addEthereumChain" then (inl JNull, w)
  else if eqb method "wallet_switchEthereumChain" then (switch_reply params, w)
  else if eqb method "eth_signTypedData_v4" then settle (sign_typed params)
  else if eqb method "eth_sendTransaction" then settle (send_transaction params)
  else if eqb method "eth_call" then settle (call_node params)
  else (inr (Error ("E2E wallet does not support method: " +:+ method), None), w).
End Requests.

(** ** Installation and listeners *)

(** The listeners by event; the wallet keeps them and never calls one. *)
Definition Listeners : Type := gmap string (gset nat).
Definition on (event : string) (listener : nat) (l : Listeners) : Listeners :=
  <[event := default ∅ (l !! event) ∪ {[listener]}]> l.
Definition removeListener (event : string) (listener : nat) (l : Listeners) : Listeners :=
  match (l !! event : option (gset nat)) with
  | None => l
  | Some s => let s' := s ∖ {[listener]} in if decide (s' = ∅) then delete event l else <[event := s']> l
  end.

Inductive Ethereum := other_wallet | test_wallet (privKey selectedAddress : string) (listeners : Listeners).
(** The page: its wallet, whether a request for the providers is answered, and the
    providers announced so far. *)
Record Window := mkWindow { win_ethereum : option Ethereum; win_answers : bool; win_announced : list (option Ethereum) }.
Definition announceProvider (w : Window) : Window :=
  mkWindow (win_ethereum w) (win_answers w) (win_announced w ++ [win_ethereum w]).
(** The page asks which wallets there are. *)
Definition requestProvider (w : Window) : Window := if win_answers w then announceProvider w else w.
Definition DEFAULT_E2E_PK : string := "0x4f3edf983ac636a65a842ce7c78d9aa706d3b113b37a2b2d6f6fcf7e9f59b5f1".
(** [address_of] is the address of [privateKeyToAccount]; no [window] outside a browser. *)
Definition installE2eWallet (VITE_E2E VITE_E2E_PK : option string) (address_of : string -> outcome string) (window : option Window)
    : outcome (option Window) :=
  match window with
  | None => mret None
  | Some w =>
      if negb (bool_decide (VITE_E2E = Some "1")) then mret (Some w)
      else if bool_decide (is_Some (win_ethereum w)) then mret (Some w)
      else
        let privKey := or_else (default "" VITE_E2E_PK) DEFAULT_E2E_PK in
        address ← address_of privKey;
        mret (Some (announceProvider (mkWindow (Some (test_wallet privKey address ∅)) true (win_announced w))))
  end.

(** ** The wallet behind the hooks *)

(** wagmi's connector asks a wallet to switch with the chain id in hex, and gives the
    error it rejects with. *)
Section Behind.
Context `{Viem} {W : Type} `{TestAccount W}.
Context (JSON_parse : units -> outcome json) (stringify : TypedData -> string) (chainId : Z).

Definition wallet_error (r : reply) : option WalletError :=
  match r with inl _ => None | inr (e, code) => Some (mkWalletError code (Some (err_message e))) end.
Definition test_chain_wallet : ChainWallet W := {|
  switchChain z w :=
    let '(r, w') := request JSON_parse chainId "wallet_switchEthereumChain" (Some (JArr [JObj [("chainId", JStr (numberToHex z))]])) w in
    (wallet_error r, w');
  addChain c w :=
    let '(r, w') := request JSON_parse chainId "wallet_addEthereumChain" (Some (JArr [JObj [("chainId", JStr (ad_chainId c))]])) w in
    (wallet_error r, w');
  has_wallet _ := true |}.

Definition reply_string (o : reply * W) : outcome string * W :=
  let '(r, w) := o in (match r with inl j => Ok (json_String j) | inr (e, _) => Thrown e end, w).
Definition test_tx_wallet : Wallet W := {|
  has_ethereum _ := true;
  eth_call from to data := fun w => reply_string (request JSON_parse chainId "eth_call"
    (Some (JArr [JObj [("from", JStr from); ("to", JStr to); ("data", JStr data)]; JStr "latest"])) w);
  eth_sendTransaction from to data gas := fun w => reply_string (request JSON_parse chainId "eth_sendTransaction"
    (Some (JArr [JObj [("from", JStr from); ("to", JStr to); ("data", JStr data); ("gas", JStr gas)]])) w);
  eth_signTypedData from data := fun w => reply_string (request JSON_parse chainId "eth_signTypedData_v4"
    (Some (JArr [JStr from; JStr (stringify data)])) w) |}.
End Behind.

(** ** Hexadecimal numbers read back *)

Lemma hex_digit_not_ws d : 0 <= d < 16 -> is_ws (hex_digit d) = false /\ hex_digit d <> "-"%char /\ hex_digit d <> "+"%char.
Proof.
  intros Hd; assert (forallb (fun d => negb (is_ws (hex_digit d)) && bool_decide (hex_digit d <> "-"%char) && bool_decide (hex_digit d <> "+"%char))
    (seqZ 0 16) = true) as Hall by by vm_compute.
  rewrite forallb_forall in Hall. specialize (Hall d). rewrite <- list_elem_of_In, elem_of_seqZ in Hall.
  specialize (Hall ltac:(lia)). apply andb_true_iff in Hall as [ [Hw%negb_true_iff Hm%bool_decide_eq_true]%andb_true_iff Hp%bool_decide_eq_true]. done.
Qed.

(** The digits of a number: not blank, and the number by Horner's rule. *)
Lemma hex_of_digits fuel z : 0 <= z < 16 ^ Z.of_nat fuel -> (0 < fuel)%nat ->
  hex_of fuel z <> [] /\ Forall (fun c => is_ws c = false) (hex_of fuel z) /\
  (forall r, parse_radix 16 0 (hex_of fuel z ++ r) = parse_radix 16 z r) /\
  (forall r, hex_run None (hex_of fuel z ++ r) = hex_run (Some z) r).
Proof.
  revert z; induction fuel as [|fuel IH]; intros z Hz Hf; [lia|]; cbn [hex_of].
  assert (0 <= z mod 16 < 16) as Hd by (Z.div_mod_to_equations; lia).
  pose proof (hex_val_digit _ Hd) as Hv. destruct (hex_digit_not_ws _ Hd) as [Hw _].
  split; [by destruct (if 16 <=? z then _ else _)|].
  destruct (Z.leb_spec 16 z) as [Hge|Hlt].
  - destruct (IH (z / 16)) as (_ & Hws & Hr & Hh); [rewrite Nat2Z.inj_succ, Z.pow_succ_r in Hz by lia; Z.div_mod_to_equations; lia| |].
    { destruct fuel; [cbn in Hz; lia|lia]. }
    split; [apply Forall_app; by repeat constructor|]. split; intros r; rewrite <- app_assoc.
    + rewrite Hr; cbn [app parse_radix]. unfold hex_val in Hv; rewrite Hv. f_equal; Z.div_mod_to_equations; lia.
    + rewrite Hh; cbn [app hex_run]. rewrite Hv; cbn [default]. do 2 f_equal. unfold id; Z.div_mod_to_equations; lia.
  - rewrite Z.mod_small in * by lia. split; [by repeat constructor|]. split; intros r; cbn [app parse_radix hex_run].
    + unfold hex_val in Hv; rewrite Hv. f_equal; lia.
    + rewrite Hv; do 2 f_equal.
Qed.
Lemma to_string_16_digits z : 0 <= z ->
  chars (to_string_16 z) <> [] /\ Forall (fun c => is_ws c = false) (chars (to_string_16 z)) /\
  parse_radix 16 0 (chars (to_string_16 z)) = Some z /\ hex_run None (chars (to_string_16 z)) = Some z.
Proof.
  intros Hz; unfold to_string_16; rewrite chars_str.
  destruct (hex_of_digits (S (Z.to_nat (Z.log2 z))) z) as (Hne & Hw & Hr & Hh); [|lia|].
  - split; [done|]. destruct (decide (z = 0)) as [->|]; [by vm_compute|].
    pose proof (Z.log2_spec z ltac:(lia)) as [_ Hlt]. eapply Z.lt_le_trans; [exact Hlt|].
    rewrite Nat2Z.inj_succ, Z2Nat.id by apply Z.log2_nonneg. apply Z.pow_le_mono_l; lia.
  - specialize (Hr []); specialize (Hh []); rewrite app_nil_r in Hr, Hh. done.
Qed.

Lemma trim_start_hex l : trim_start ("0"%char :: "x"%char :: l) = "0"%char :: "x"%char :: l.
Proof. done. Qed.
Lemma hex_text z : chars ("0x" +:+ to_string_16 z) = "0"%char :: "x"%char :: chars (to_string_16 z).
Proof. by rewrite chars_app. Qed.

Lemma BigInt_of_hex z : 0 <= z -> BigInt_of_string ("0x" +:+ to_string_16 z) = Ok z.
Proof.
  intros Hz; destruct (to_string_16_digits z Hz) as (Hne & Hw & Hr & _). unfold BigInt_of_string; rewrite hex_text.
  rewrite trim_chars_id by by repeat constructor. rewrite bool_decide_eq_true_2 by done. cbn [radix_prefix].
  rewrite bool_decide_eq_true_2 by auto. by rewrite bool_decide_eq_false_2, Hr by done.
Qed.
Lemma parseInt16_of_hex z : 0 <= z -> parseInt16 ("0x" +:+ to_string_16 z) = Num z.
Proof.
  intros Hz; destruct (to_string_16_digits z Hz) as (_ & _ & _ & Hh). unfold parseInt16; rewrite hex_text, trim_start_hex.
  cbn [hex_digits_of]. rewrite bool_decide_eq_true_2 by done. change (lower_char "x"%char) with "x"%char. rewrite bool_decide_eq_true_2 by done.
  cbn [andb]. by rewrite Hh.
Qed.
Lemma hex_truthy z : truthy ("0x" +:+ to_string_16 z) = true.
Proof. done. Qed.
Lemma hex_not_empty z : 0 <= z -> eqb ("0x" +:+ to_string_16 z) "0x" = false.
Proof.
  intros Hz; apply eqb_false; intros He%(f_equal chars). rewrite hex_text in He; injection He as He.
  by destruct (to_string_16_digits z Hz) as (? & _).
Qed.

(** ** What the wallet does with its key *)

Section Facts.
Context `{Viem} {W : Type} `{TestAccount W}.
Context (JSON_parse : units -> outcome json) (chainId : Z).

Lemma send_args_own tx args : send_args tx = Ok args -> exists j, tx = Some j /\
  to_lower (tx_field (Some j) "from" "") = to_lower account_address /\ starts_with "0x" (sa_to args) = true.
Proof.
  unfold send_args. destruct (not_own (tx_field tx "from" "")) eqn:Hown; [discriminate|].
  destruct (_ || negb (starts_with "0x" _)) eqn:Hto; [discriminate|]. apply orb_false_iff in Hto as [_ Hto%negb_false_iff].
  unfold not_own in Hown; apply orb_false_iff in Hown as [Ht He%negb_false_iff].
  destruct (eqb_spec (to_lower (tx_field tx "from" "")) (to_lower account_address)) as [He'|]; [|done].
  intros Hargs; destruct tx as [j|]; [|done]. exists j; split; [done|split; [done|] ].
  cbv zeta in Hargs. destruct (if truthy (tx_field (Some j) "value" "0x0") && _ then _ else _) as [v|e]; [|discriminate].
  cbn [mbind outcome_bind] in Hargs. destruct (if truthy (tx_field (Some j) "gas" "") && _ then _ else _) as [g|e]; [|discriminate].
  by injection Hargs as <-.
Qed.

(** A signature that was given, or asked for: what was asked. *)
Definition signed (params : option json) (w : W) (o : outcome json) (w' : W) : Prop :=
  exists l from parsed chain sig, destructured params = Ok l /\ l !! 0%nat = Some from /\
    to_lower (json_String from) = to_lower account_address /\ JSON_parse (units_of (text_of (l !! 1%nat))) = Ok parsed /\
    acc_signTypedData parsed chain w = (sig, w') /\ o = (s ← sig; Ok (JStr s)).
Definition sent (params : option json) (w : W) (o : outcome json) (w' : W) : Prop :=
  exists l tx args hash, destructured params = Ok l /\ l !! 0%nat = Some tx /\
    to_lower (tx_field (Some tx) "from" "") = to_lower account_address /\ send_args (Some tx) = Ok args /\
    starts_with "0x" (sa_to args) = true /\ acc_sendTransaction args w = (hash, w') /\ o = (h ← hash; Ok (JStr h)).
Definition no_effect (w : W) (o : outcome json) (w' : W) : Prop := w' = w /\ is_ok o = false.

Lemma sign_typed_run params w : let '(o, w') := sign_typed JSON_parse chainId params w in no_effect w o w' \/ signed params w o w'.
Proof.
  unfold sign_typed, no_effect, signed; rewrite bind_run; unfold lift at 1. destruct (destructured params) as [l|e] eqn:Hl; [|by left].
  cbv zeta. destruct (l !! 0%nat) as [from|] eqn:Hf; cbn [falsy text_of orb]; [|by left].
  destruct (negb (json_truthy from) || _) eqn:Hown; [by left|]. apply orb_false_iff in Hown as [_ He%negb_false_iff].
  destruct (eqb_spec (to_lower (json_String from)) (to_lower account_address)) as [He'|]; [|done].
  rewrite bind_run; unfold lift at 1. destruct (JSON_parse _) as [parsed|e] eqn:Hp; [|by left].
  assert (parsed = JNull \/ parsed <> JNull) as [-> |Hn] by (destruct parsed; auto); [by left|].
  set (chain := match nullish _ None with Some c => BigInt_of_json c | None => _ end).
  match goal with |- context [match ?m w with _ => _ end] =>
    assert (m w = (c ← lift chain; sig ← acc_signTypedData parsed c; mret (JStr sig)) w) as -> by by destruct parsed end.
  rewrite bind_run; unfold lift at 1. destruct chain as [c|e]; [|by left]. rewrite bind_run.
  destruct (acc_signTypedData parsed c w) as [ [sig|e] w'] eqn:Hs; right; [exists l, from, parsed, c, (Ok sig)|exists l, from, parsed, c, (Thrown e)]; done.
Qed.
Lemma send_transaction_run params w : let '(o, w') := send_transaction params w in no_effect w o w' \/ sent params w o w'.
Proof.
  unfold send_transaction, no_effect, sent; rewrite bind_run; unfold lift at 1. destruct (destructured params) as [l|e] eqn:Hl; [|by left].
  rewrite bind_run; unfold lift at 1. destruct (send_args (l !! 0%nat)) as [args|e] eqn:Ha; [|by left].
  destruct (send_args_own _ _ Ha) as (tx & Htx & Hown & Hto). rewrite Htx in Ha. rewrite bind_run.
  destruct (acc_sendTransaction args w) as [ [h|e] w'] eqn:Hs; right; [exists l, tx, args, (Ok h)|exists l, tx, args, (Thrown e)]; done.
Qed.

(** The test wallet signs and sends as its own account only.  Whatever is asked,
    with whatever parameters: either nothing happens outside the wallet, and then no
    signature and no transaction was given; or the node was asked in an [eth_call]; or
    the request names the account itself (in any case of letters), and then the account
    signed what the JSON text says, or sent a transaction to an address that starts
    with 0x.  A request that names another account is refused. *)
Theorem test_wallet_own_account method params w :
  let '(r, w') := request JSON_parse chainId method params w in
  (w' = w /\ forall j, r = inl j -> method <> "eth_signTypedData_v4" /\ method <> "eth_sendTransaction") \/
  (method = "eth_call" /\ exists o, call_node params w = (o, w') /\ r = answered o) \/
  (method = "eth_signTypedData_v4" /\ exists o, signed params w o w' /\ r = answered o) \/
  (method = "eth_sendTransaction" /\ exists o, sent params w o w' /\ r = answered o).
Proof.
  unfold request.
  destruct (mem method _) eqn:Hm; [left; split; [done|]; intros _ _; split; intros ->; by vm_compute in Hm|]; clear Hm.
  destruct (eqb_spec method "eth_chainId") as [->|_]; [by left|]. destruct (eqb_spec method "net_version") as [->|_]; [by left|].
  destruct (eqb_spec method "wallet_addEthereumChain") as [->|_]; [by left|].
  destruct (eqb_spec method "wallet_switchEthereumChain") as [->|_]; [by left|].
  destruct (eqb_spec method "eth_signTypedData_v4") as [->|Hsign].
  { pose proof (sign_typed_run params w) as Hr. destruct (sign_typed _ _ _ _) as [o w'].
    destruct Hr as [ [-> Ho]|Hr]; [left; split; [done|]; intros j; by destruct o|right; right; left; split; [done|by exists o] ]. }
  destruct (eqb_spec method "eth_sendTransaction") as [->|Hsend].
  { pose proof (send_transaction_run params w) as Hr. destruct (send_transaction _ _) as [o w'].
    destruct Hr as [ [-> Ho]|Hr]; [left; split; [done|]; intros j; by destruct o|right; right; right; split; [done|by exists o] ]. }
  destruct (eqb_spec method "eth_call") as [->|_]; [|by left].
  destruct (call_node params w) as [o w'] eqn:Hc. right; left; split; [done|by exists o].
Qed.
End Facts.

(** ** The pages with the test wallet *)

Section Pages.
Context `{Viem} {W : Type} `{TestAccount W}.
Context (JSON_parse : units -> outcome json) (stringify : TypedData -> string) (chainId : Z).
(** viem's [numberToHex] *)
Hypothesis numberToHex_digits : forall z, 0 <= z -> numberToHex z = "0x" +:+ to_string_16 z.

(** What the page learns at its mount: the chain, the accounts, the unlock state. *)
Definition eth_answer (r : reply) : outcome json := match r with inl j => Ok j | inr (e, _) => Thrown e end.
Definition learned (w : W) (v : WalletView) : WalletView :=
  let v1 := getChainId (Some (eth_answer (request JSON_parse chainId "eth_chainId" None w).1)) v in
  let v2 := accounts_answer false (eth_answer (request JSON_parse chainId "eth_accounts" None w).1) (accounts_effect true v1) in
  mkWalletView (wv_connected v2) (wv_address v2) (wv_chainId v2) (wv_metamaskChainId v2) (wv_authorized v2)
    (queryMetaMaskUnlockState (Some (mkEthereum true true None))) (wv_rpcChainId v2).

Lemma switch_own : switch_reply chainId (Some (JArr [JObj [("chainId", JStr (numberToHex chainId))] ])) = inl JNull.
Proof.
  unfold switch_reply, chainIdHex. change (requested_chain _) with (Some (JStr (numberToHex chainId))).
  cbv zeta; cbn [falsy text_of json_String]. by rewrite eqb_refl, orb_true_r.
Qed.
Lemma tx_field_str j key s d : get_field j key = Some (JStr s) -> tx_field (Some j) key d = or_else s d.
Proof. unfold tx_field; by intros ->. Qed.
Lemma send_own from to data gas : 0 <= gas ->
  to_lower from = to_lower account_address -> truthy account_address = true -> starts_with "0x" to = true -> truthy data = true ->
  send_args (Some (JObj [("from", JStr from); ("to", JStr to); ("data", JStr data); ("gas", JStr (numberToHex gas))])) =
  Ok (mkSend to data 0 (Some gas)).
Proof.
  intros Hg Hf Ha Ht Hd. set (j := JObj _).
  assert (truthy from = true) as Hf' by (destruct from; [destruct account_address; [done|discriminate]|done]).
  assert (truthy to = true) as Ht' by by destruct to.
  unfold send_args. rewrite (tx_field_str j "from" from), (tx_field_str j "to" to), (tx_field_str j "data" data), (tx_field_str j "gas" (numberToHex gas)) by done.
  unfold or_else; rewrite Hf', Ht', Hd, numberToHex_digits, hex_truthy by done. cbv zeta. rewrite Hd.
  unfold not_own; rewrite Hf, eqb_refl, Hf', Ht', Ht, hex_truthy, hex_not_empty by done. cbn [negb orb andb].
  rewrite BigInt_of_hex by done. done.
Qed.

(** With the test wallet the deal form is ready.  Whatever chain the wallet library
    reports and whatever the page held before, once a connected page has asked the
    test wallet for its chain and accounts it finds itself on the configured network,
    with an authorised account and nothing locked: the button reads Create deal.  And
    a switch of networks succeeds at once, without adding a chain. *)
Theorem test_wallet_page_ready w v :
  0 <= chainId -> wv_connected v = true -> opt_str (wv_address v) = true ->
  let v' := learned w v in
  isWrongNetwork chainId v' = false /\ isWalletLocked v' = false /\ wv_authorized v' = Some [account_address] /\
  create_label chainId v' false = "Create deal" /\
  forall cfg, @switchNetwork W (test_chain_wallet JSON_parse chainId) cfg chainId w = (None, w).
Proof.
  intros Hc Hconn Haddr v'. subst v'. unfold learned. cbv zeta.
  assert (request JSON_parse chainId "eth_chainId" None w = (inl (JStr (chainIdHex chainId)), w)) as -> by done.
  assert (request JSON_parse chainId "eth_accounts" None w = (inl (JArr [JStr account_address]), w)) as -> by done.
  unfold chainIdHex, getChainId, accounts_answer, accounts_effect; rewrite numberToHex_digits by done; cbn [eth_answer fst snd chain_in].
  rewrite parseInt16_of_hex by done. unfold with_metamask, with_authorized; cbn [wv_connected]. rewrite Hconn; cbn.
  unfold isWrongNetwork, activeChainId, isWalletLocked, create_label, isWrongNetwork, isWalletLocked, hasAuthorizedAccount, activeChainId; cbn.
  rewrite Z.eqb_refl, Haddr; cbn. destruct (wv_connected v); [|done]. repeat split; [done..|].
  intros cfg. unfold switchNetwork; cbn [switchChain test_chain_wallet].
  assert (request JSON_parse chainId "wallet_switchEthereumChain" (Some (JArr [JObj [("chainId", JStr (numberToHex chainId))] ])) w =
    (switch_reply chainId (Some (JArr [JObj [("chainId", JStr (numberToHex chainId))] ])), w)) as -> by done.
  by rewrite switch_own.
Qed.

(** The calls of the hooks reach the chain as they were made.  Whichever hook asks
    the test wallet to send a call of a contract: if it names the account (in any case
    of letters), the account sends exactly that call, with the gas asked and no value,
    and the hook gets its hash; if it names another, nothing is sent and the hook gets
    an error that says which signer it is. *)
Theorem test_wallet_sends_the_call from to data gas w :
  0 <= gas -> truthy account_address = true -> starts_with "0x" to = true -> truthy data = true ->
  @eth_sendTransaction W (test_tx_wallet JSON_parse stringify chainId) from to data (numberToHex gas) w =
  if decide (to_lower from = to_lower account_address) then acc_sendTransaction (mkSend to data 0 (Some gas)) w
  else (Thrown (Error ("unknown signer " +:+ from)), w).
Proof.
  intros Hg Ha Ht Hd; cbn [eth_sendTransaction test_tx_wallet].
  set (tx := JObj _). assert (request JSON_parse chainId "eth_sendTransaction" (Some (JArr [tx])) w =
    let '(o, w') := send_transaction (Some (JArr [tx])) w in (answered o, w')) as -> by done.
  unfold send_transaction; rewrite bind_run; unfold lift at 1.
  change (destructured (Some (JArr [tx]))) with (Ok [tx]); cbv beta iota. rewrite bind_run; unfold lift at 1.
  change ([tx] !! 0%nat) with (Some tx). subst tx. destruct (decide _) as [He|Hne].
  - rewrite send_own by done. rewrite bind_run. by destruct (acc_sendTransaction _ w) as [ [h|e] w'].
  - unfold send_args. rewrite (tx_field_str _ "from" from) by done. assert (or_else from "" = from) as -> by by destruct from.
    unfold not_own. rewrite (eqb_false _ _ Hne), orb_true_r. done.
Qed.
End Pages.

(** ** An account *)

#[local] Instance hex_viem : Viem := {|
  encodeFunctionData _ _ _ := Ok "0xda7a"; decodeFunctionResult _ _ _ := mthrow (Error "no result"); decodeEventLog _ _ _ _ := Ok [];
  numberToHex z := "0x" +:+ to_string_16 z |}.
(** What the account has sent. *)
#[local] Instance logging_account : TestAccount (list SendArgs) := {|
  account_address := "0xAb01"; acc_signTypedData _ _ := mret "0xsig";
  acc_sendTransaction a := fun w => (Ok "0xhash", w ++ [a]); rpc_eth_call _ := mret (JStr "0x") |}.
Lemma hex_viem_digits z : 0 <= z -> numberToHex z = "0x" +:+ to_string_16 z.
Proof. done. Qed.
Definition some_parse (_ : units) : outcome json := Ok (JObj []).

Lemma test_wallet_page_ready_witness :
  let v := mkWalletView true (Some "0xAb01") 1 None None wallet_locked None in
  create_label 31337 (learned some_parse 31337 [] v) false = "Create deal" /\ create_label 31337 v false = "Switch network".
Proof.
  cbv zeta. destruct (test_wallet_page_ready some_parse 31337 hex_viem_digits [] (mkWalletView true (Some "0xAb01") 1 None None wallet_locked None))
    as (_ & _ & _ & Hl & _); [done..|]. split; [exact Hl|reflexivity].
Defined.
Lemma test_wallet_sends_the_call_witness :
  @eth_sendTransaction _ (test_tx_wallet some_parse (fun _ => "") 31337) "0xaB01" "0x0900" "0xda7a" (numberToHex 5000000) [] =
    (Ok "0xhash", [mkSend "0x0900" "0xda7a" 0 (Some 5000000)]) /\
  @eth_sendTransaction _ (test_tx_wallet some_parse (fun _ => "") 31337) "0xcc02" "0x0900" "0xda7a" (numberToHex 5000000) [] =
    (Thrown (Error "unknown signer 0xcc02"), []).
Proof.
  split; (etransitivity; [apply (test_wallet_sends_the_call some_parse (fun _ => "") 31337 hex_viem_digits); done|reflexivity]).
Defined.
Example request_examples :
  (request some_parse 31337 "wallet_switchEthereumChain" (Some (JArr [JObj [("chainId", JStr "0x1")] ])) ([] : list SendArgs)).1 =
    inr (Error "Unrecognized chain ID 0x1", Some 4902) /\
  (request some_parse 31337 "net_version" None ([] : list SendArgs)).1 = inl (JStr "31337") /\
  (request some_parse 31337 "personal_sign" None ([] : list SendArgs)).1 = inr (Error "E2E wallet does not support method: personal_sign", None).
Proof. by vm_compute. Qed.

(** ** Installation *)

(** A wallet that is there is never replaced, and none is installed outside a test
    build; where one is installed, each request for the providers announces it. *)
Theorem install_keeps_wallet VITE_E2E VITE_E2E_PK address_of w o :
  installE2eWallet VITE_E2E VITE_E2E_PK address_of (Some w) = Ok o -> exists w', o = Some w' /\
    (w' = w \/
     VITE_E2E = Some "1" /\ win_ethereum w = None /\ exists pk a,
       address_of pk = Ok a /\ win_ethereum w' = Some (test_wallet pk a ∅) /\
       win_announced (requestProvider w') = win_announced w ++ [win_ethereum w'; win_ethereum w']).
Proof.
  unfold installE2eWallet. destruct (bool_decide _) eqn:Hb; cbn [negb]; [|intros [= <-]; eauto].
  apply bool_decide_eq_true in Hb. destruct (win_ethereum w) as [e|] eqn:He.
  { rewrite bool_decide_eq_true_2 by eauto. intros [= <-]; eauto. }
  rewrite bool_decide_eq_false_2 by (intros [? ?]; discriminate). cbn [mbind outcome_bind].
  destruct (address_of _) as [a|e] eqn:Ha; [|discriminate]. intros [= <-]. eexists; split; [done|]. right; do 2 (split; [done|]).
  exists (or_else (default "" VITE_E2E_PK) DEFAULT_E2E_PK), a. do 2 (split; [done|]).
  cbn. by rewrite <- app_assoc.
Qed.
Lemma install_keeps_wallet_witness :
  exists w', installE2eWallet (Some "1") None (fun _ => Ok "0xab01") (Some (mkWindow None false [])) = Ok (Some w') /\ win_answers w' = true.
Proof.
  destruct (install_keeps_wallet (Some "1") None (fun _ => Ok "0xab01") (mkWindow None false []) _ eq_refl) as (w' & Hw & _).
  injection Hw as <-. by eexists.
Defined.

(** A listener that is removed is gone, and no other is; no empty set is kept. *)
Lemma listener_removed event x (l : Listeners) :
  map_Forall (fun _ s => s <> ∅) l ->
  map_Forall (fun _ s => s <> ∅) (removeListener event x l) /\
  forall e y, y ∈ default ∅ (removeListener event x l !! e) <-> y ∈ default ∅ (l !! e) /\ (e, y) <> (event, x).
Proof.
  intros Hl; unfold removeListener, Listeners in *. destruct (l !! event) as [s|] eqn:Hs.
  2: { split; [done|]. intros e y; split; [|by intros [? _] ]. intros Hy; split; [done|]. intros [= -> ->]. rewrite Hs in Hy; set_solver. }
  cbv zeta. destruct (decide (s ∖ {[x]} = ∅)) as [He|Hne].
  - split; [by apply map_Forall_delete|]. intros e y; destruct (decide (e = event)) as [->|].
    + rewrite lookup_delete_eq, Hs; cbn. set_solver.
    + rewrite lookup_delete_ne by done. set_solver.
  - split; [by apply map_Forall_insert_2|]. intros e y; destruct (decide (e = event)) as [->|].
    + rewrite lookup_insert_eq, Hs; cbn. set_solver.
    + rewrite lookup_insert_ne by done. set_solver.
Qed.
