(* ===== verification/Bridge.v ===== *)
(** * The bridge (components/BridgeStatus.tsx, BridgeActions.tsx)

    What the page shows of the bridge contract, polled every fifteen seconds with no
    request cancelled, and the form that sends it a new state root.  The contract, its
    reads and the wallet that writes to it are parameters. *)
From S2P Require Import Prelude JsString JsNum TransportTypes Effects Bytes Hex Evm DealTx.
#[local] Open Scope Z_scope.

Definition zero_address : string := "0x0000000000000000000000000000000000000000".
(** The contract that is configured, if any. *)
Definition bridge_of (bridgeAddress : string) : option string :=
  if negb (truthy bridgeAddress) || eqb bridgeAddress zero_address then None else Some bridgeAddress.

(** [s.slice(0, n)], [s.slice(-n)] *)
Definition slice_front (n : nat) (s : string) : string := str (take n (chars s)).
Definition slice_back (n : nat) (s : string) : string := str (drop (length (chars s) - n) (chars s)).
Definition shortened (limit : Z) (address : string) : string :=
  if limit <? zlen (chars address) then slice_front 8 address +:+ "..." +:+ slice_back 4 address else address.
Definition shortAddress : string -> string := shortened 10.
Definition shortBridge : string -> string := shortened 12.
Definition shortRoot (stateRoot : option string) : option string :=
  match stateRoot with
  | Some r => Some (if 12 <? zlen (chars r) then slice_front 10 r +:+ "..." else r)
  | None => None
  end.

(** ** BridgeStatus.tsx *)

Record BridgeState := mkBridge {
  bs_blockHeight : option Z; bs_stateRoot : option string; bs_loading : bool; bs_error : option string
}.
(** The panel while it is on the page: its state, the polls that wait for an answer,
    and whether it was taken away. *)
Record BridgePanel := mkPanel { bp_state : BridgeState; bp_waiting : nat; bp_cancelled : bool }.
Inductive bridge_event :=
| poll_starts
| poll_answered (height : outcome Z) (root : outcome string)
| panel_removed.

(** [fetchBridgeState] up to its reads, and after them. *)
Definition fetch_starts (s : BridgeState) : BridgeState := mkBridge (bs_blockHeight s) (bs_stateRoot s) true (bs_error s).
Definition fetch_answered (cancelled : bool) (height : outcome Z) (root : outcome string) (s : BridgeState) : BridgeState :=
  if cancelled then s
  else match height, root with
       | Ok h, Ok r => mkBridge (Some h) (Some r) false None
       | _, _ => mkBridge (bs_blockHeight s) (bs_stateRoot s) false (Some "Bridge RPC read failed")
       end.
(** A timer that was cleared starts no poll; an answer comes to a poll that waits. *)
Definition bridge_step (e : bridge_event) (p : BridgePanel) : BridgePanel :=
  match e with
  | poll_starts => if bp_cancelled p then p else mkPanel (fetch_starts (bp_state p)) (S (bp_waiting p)) false
  | poll_answered h r =>
      match bp_waiting p with
      | O => p
      | S n => mkPanel (fetch_answered (bp_cancelled p) h r (bp_state p)) n (bp_cancelled p)
      end
  | panel_removed => mkPanel (bp_state p) (bp_waiting p) true
  end.
Definition bridge_init : BridgePanel := mkPanel (mkBridge None None false None) 0 false.
Definition bridge_run (es : list bridge_event) : BridgePanel := fold_left (fun p e => bridge_step e p) es bridge_init.

(** What a line of the panel shows. *)
Inductive BridgeCell := cell_text (s : string) | cell_loading | cell_dash.
Definition no_value (s : BridgeState) : BridgeCell := if bs_loading s then cell_loading else cell_dash.
Definition height_cell (s : BridgeState) : BridgeCell :=
  match bs_blockHeight s with Some h => cell_text (string_of_num (Num (round53 h))) | None => no_value s end.
Definition root_cell (s : BridgeState) : BridgeCell :=
  match shortRoot (bs_stateRoot s) with
  | Some r => if match bs_stateRoot s with Some root => truthy root | None => false end then cell_text r else no_value s
  | None => no_value s
  end.

(** ** BridgeActions.tsx *)

(** [randomBytes32] of the random bytes *)
Definition randomBytes32 (buf : bytes) : string := bytesToHex buf.

(** [s.padEnd(n, '0')] *)
Definition pad_end (n : nat) (l : list ascii) : list ascii := l ++ replicate (n - length l) "0"%char.
Definition normalizeBytes32 (input : string) : outcome string :=
  let trimmed := trim input in
  let hex := if starts_with "0x" trimmed then trimmed else "0x" +:+ trimmed in
  let body := drop 2 (chars hex) in
  if 64 <? zlen body then mthrow (Error "State root must be 32 bytes (64 hex chars)")
  else mret ("0x" +:+ str (pad_end 64 body)).

(** The answer to the read of the latest height, on mount. *)
Definition prefill (cancelled : bool) (answer : outcome Z) (nextHeight : string) : string :=
  if cancelled then nextHeight
  else match answer with Ok h => string_of_Z (h + 1) | Thrown _ => "" end.

(** [formatUnits] is viem's. *)
Definition evmBalance (formatUnits : Z -> Z -> string) (balance : option (Z * Z * string)) : option string :=
  match balance with
  | None => None
  | Some (value, decimals, symbol) =>
      let parts := split "." (formatUnits value decimals) in
      let whole := hd "" parts in
      let trimmed := match nth_error parts 1 with
                     | Some frac => if truthy frac then whole +:+ "." +:+ slice_front 4 frac else whole
                     | None => whole
                     end in
      Some (trimmed +:+ " " +:+ or_else symbol "NIL")
  end.

(** [connectAsync] of the injected connector and [writeContractAsync]. *)
Class BridgeWallet (W : Type) := { connect_injected : M W unit; write_contract : ContractCall -> M W string }.

Section Send.
Context {W : Type} `{Clock W, BridgeWallet W} (bridgeAddress : string).
Record BridgeForm := mkForm { bf_world : W; bf_status : option string; bf_error : option string }.
Definition on_chain_form {A} (m : M W A) : M BridgeForm A := fun f =>
  let '(o, w) := m (bf_world f) in (o, mkForm w (bf_status f) (bf_error f)).
Definition message_of (e : jserr) : string := if is_Error e then err_message e else or_else (err_message e) "Bridge transaction failed".
Definition handleSendDemo (isConnected : bool) (nextHeight stateRoot : string) : M BridgeForm unit :=
  modify (fun f => mkForm (bf_world f) None None) ;;
  try_catch
    ((if isConnected then mret tt else on_chain_form connect_injected) ;;
     height ← (if truthy nextHeight then lift (BigInt_of_string nextHeight) else on_chain_form now);
     root ← lift (normalizeBytes32 stateRoot);
     tx ← on_chain_form (write_contract (mkCall bridgeAddress "updateStateRoot" [VInt height; VHex root]));
     modify (fun f => mkForm (bf_world f) (Some ("Sent tx " +:+ tx)) (bf_error f)))
    (fun e => modify (fun f => mkForm (bf_world f) (bf_status f) (Some (message_of e)))).
End Send.
#[global] Arguments BridgeForm : clear implicits.
#[global] Arguments mkForm {W} _ _ _.
#[global] Arguments bf_world {W} _.
#[global] Arguments bf_status {W} _.
#[global] Arguments bf_error {W} _.

(** ** The panel *)

(** The last pair of reads that were both answered while the panel was there. *)
Definition bridge_shows (s : BridgeState) (es : list bridge_event) : Prop :=
  (bs_blockHeight s = None /\ bs_stateRoot s = None) \/
  exists h r, poll_answered (Ok h) (Ok r) ∈ es /\ bs_blockHeight s = Some h /\ bs_stateRoot s = Some r.
Lemma bridge_run_app es es' : bridge_run (es ++ es') = fold_left (fun p e => bridge_step e p) es' (bridge_run es).
Proof. apply fold_left_app. Qed.
Lemma bridge_shows_more s es e : bridge_shows s es -> bridge_shows s (es ++ [e]).
Proof. intros [?|(h & r & Hin & ?)]; [by left|right]. exists h, r; set_solver. Qed.
Lemma bridge_run_shows es : bridge_shows (bp_state (bridge_run es)) es /\
  (bs_error (bp_state (bridge_run es)) = None \/ bs_error (bp_state (bridge_run es)) = Some "Bridge RPC read failed").
Proof.
  induction es as [|e es [IH IHe] ] using rev_ind; [by split; left|]. rewrite bridge_run_app; cbn [fold_left].
  destruct e as [|h r|]; cbn [bridge_step].
  - destruct (bp_cancelled _); cbn [bp_state fetch_starts]; (split; [|exact IHe]); [by apply bridge_shows_more|].
    apply (bridge_shows_more _ _ poll_starts) in IH. exact IH.
  - apply (bridge_shows_more _ _ (poll_answered h r)) in IH. destruct (bp_waiting _); [done|]. cbn [bp_state]; unfold fetch_answered.
    destruct (bp_cancelled _); [done|]. destruct h as [h|], r as [r|]; cbn; (split; [|by auto]); [|exact IH..].
    right; exists h, r; set_solver.
  - apply (bridge_shows_more _ _ panel_removed) in IH. done.
Qed.
Lemma bridge_cancelled_frozen es p : bp_cancelled p = true ->
  let p' := fold_left (fun p e => bridge_step e p) es p in bp_cancelled p' = true /\ bp_state p' = bp_state p.
Proof.
  revert p; induction es as [|e es IH]; intros p Hp; [done|]. cbn [fold_left].
  assert (bp_cancelled (bridge_step e p) = true /\ bp_state (bridge_step e p) = bp_state p) as [Hc Hs].
  { destruct e; cbn [bridge_step]; rewrite ?Hp; [done| |done]. destruct (bp_waiting p); cbn; by rewrite ?Hp. }
  rewrite <- Hs. by apply IH.
Qed.

(** The bridge panel shows one answer of the chain.  However the polls and their
    answers interleave, the height and the root shown are both missing or both from
    the same pair of reads, so a root never stands beside another block's height; the
    error is none or the one text; and once the panel is taken away, no answer still on
    its way changes its state. *)
Theorem bridge_panel_consistent es :
  bridge_shows (bp_state (bridge_run es)) es /\
  (bs_error (bp_state (bridge_run es)) = None \/ bs_error (bp_state (bridge_run es)) = Some "Bridge RPC read failed") /\
  forall es', bp_state (bridge_run (es ++ panel_removed :: es')) = bp_state (bridge_run es).
Proof.
  destruct (bridge_run_shows es) as [Hs He]. split; [done|split; [done|] ]. intros es'. rewrite bridge_run_app; cbn [fold_left].
  exact (proj2 (bridge_cancelled_frozen es' (bridge_step panel_removed (bridge_run es)) eq_refl)).
Qed.

(** ** The state root *)

Lemma trim_start_plain c l : is_ws c = false -> trim_start (c :: l) = c :: l.
Proof. cbn. by intros ->. Qed.
Lemma trim_chars_ends a l z : is_ws a = false -> is_ws z = false -> trim_chars (a :: l ++ [z]) = a :: l ++ [z].
Proof.
  intros Ha Hz; unfold trim_chars. rewrite trim_start_plain by done. rewrite app_comm_cons, rev_app_distr. cbn [rev app].
  rewrite trim_start_plain by done. cbn [rev]. by rewrite rev_app_distr, rev_involutive.
Qed.
Lemma trim_start_cases l : trim_start l = [] \/ exists c r, trim_start l = c :: r /\ is_ws c = false.
Proof. induction l as [|c l IH]; [by left|]. cbn. destruct (is_ws c) eqn:E; [done|]. right; eauto. Qed.
(** A trimmed text ends in a character that is not blank. *)
Lemma trim_chars_last l pre z : trim_chars l = pre ++ [z] -> is_ws z = false.
Proof.
  unfold trim_chars; intros Heq. destruct (trim_start_cases (rev (trim_start l))) as [Hn|(c & r & Hc & Hw)].
  - rewrite Hn in Heq. by destruct pre.
  - rewrite Hc in Heq; cbn in Heq. by apply app_inj_tail in Heq as [_ <-].
Qed.

Definition hex_body (input : string) : list ascii :=
  drop 2 (chars (if starts_with "0x" (trim input) then trim input else "0x" +:+ trim input)).
Lemma starts_0x s : starts_with "0x" s = true -> exists r, chars s = "0"%char :: "x"%char :: r.
Proof.
  unfold starts_with; destruct s as [|a [|b s] ]; cbn [String.prefix]; [done|by destruct (ascii_dec "0" a)|].
  destruct (ascii_dec "0" a) as [<-|]; [|done]. destruct (ascii_dec "x" b) as [<-|]; [|done]. eauto.
Qed.
Lemma hex_body_last input pre z : hex_body input = pre ++ [z] -> is_ws z = false.
Proof.
  unfold hex_body; intros Hb. assert (exists pre', chars (trim input) = pre' ++ [z]) as (pre' & Hp).
  { destruct (starts_with "0x" (trim input)) eqn:Hx.
    - apply starts_0x in Hx as (r & Hr). rewrite Hr in *. change (drop 2 ("0"%char :: "x"%char :: r)) with r in Hb. exists ("0"%char :: "x"%char :: pre). by rewrite Hb.
    - rewrite chars_app in Hb. by exists pre. }
  unfold trim in Hp; rewrite chars_str in Hp. by apply trim_chars_last in Hp.
Qed.
Lemma pad_end_last input pre z : pad_end 64 (hex_body input) = pre ++ [z] -> is_ws z = false.
Proof.
  unfold pad_end. destruct (64 - length (hex_body input))%nat as [|n] eqn:En; cbn [replicate].
  - rewrite app_nil_r. apply hex_body_last.
  - change ("0"%char :: replicate n "0"%char) with (replicate (S n) "0"%char). rewrite replicate_S_end, app_assoc.
    by intros [_ <-]%app_inj_tail.
Qed.

(** A state root is sent as 32 bytes.  A text of at most 64 digits, with or without
    0x and blanks around it, becomes 0x and exactly 64 characters, of which the first
    are the digits given and the rest are zeros; the form is its own normal form; and
    anything longer is refused. *)
Theorem normalizeBytes32_is_bytes32 input :
  match normalizeBytes32 input with
  | Ok r => zlen (hex_body input) <= 64 /\ chars r = chars "0x" ++ hex_body input ++ replicate (64 - length (hex_body input)) "0"%char /\
      zlen (chars r) = 66 /\ normalizeBytes32 r = Ok r
  | Thrown e => 64 < zlen (hex_body input) /\ e = Error "State root must be 32 bytes (64 hex chars)"
  end.
Proof.
  unfold normalizeBytes32 at 1; cbv zeta. fold (hex_body input). destruct (Z.ltb_spec 64 (zlen (hex_body input))) as [Hlt|Hle]; cbn [mthrow outcome_throw mret outcome_ret]; [done|].
  set (p := pad_end 64 (hex_body input)). assert (length p = 64%nat) as Hlen.
  { subst p; unfold pad_end, zlen in *. rewrite length_app, length_replicate; lia. }
  split; [done|split]; [by rewrite chars_app, chars_str|]. split; [rewrite chars_app, chars_str, zlen_app; unfold zlen; rewrite Hlen; done|].
  assert (trim ("0x" +:+ str p) = "0x" +:+ str p) as Ht.
  { destruct (exists_last (l := p)) as (pre & z & Hp); [by intros ->|]. unfold trim. rewrite chars_app, chars_str, Hp.
    change (chars "0x" ++ pre ++ [z]) with ("0"%char :: ("x"%char :: pre) ++ [z]).
    rewrite trim_chars_ends; [|done|by eapply pad_end_last]. apply chars_inj. by rewrite chars_str, chars_app, chars_str. }
  unfold normalizeBytes32; rewrite Ht, starts_with_app, chars_app, chars_str. cbv zeta. change (drop 2 (chars "0x" ++ p)) with p.
  assert (64 <? zlen p = false) as -> by (apply Z.ltb_ge; unfold zlen; rewrite Hlen; done).
  unfold pad_end. by rewrite Hlen, app_nil_r.
Qed.
Example root_examples :
  normalizeBytes32 " ab " = Ok ("0xab" +:+ str (replicate 62 "0"%char)) /\
  is_ok (normalizeBytes32 (str (replicate 65 "1"%char))) = false.
Proof. by vm_compute. Qed.

Lemma hex_chars_length l : length (hex_chars l) = (2 * length l)%nat.
Proof. pose proof (zlen_hex_chars l); unfold zlen in *; lia. Qed.
Lemma hex_chars_plain l : Forall is_byte l -> Forall (fun c => is_ws c = false) (hex_chars l).
Proof.
  induction 1 as [|b l Hb _ IH]; [done|]. unfold hex_chars; cbn [map concat byte_hex app].
  assert (forall d, 0 <= d < 16 -> is_ws (hex_digit d) = false) as Hd.
  { intros d Hd; assert (forallb (fun d => negb (is_ws (hex_digit d))) (seqZ 0 16) = true) as Hall by by vm_compute.
    rewrite forallb_forall in Hall. apply negb_true_iff, Hall, list_elem_of_In, elem_of_seqZ; lia. }
  unfold is_byte in Hb. constructor; [|constructor; [|exact IH] ]; apply Hd; Z.div_mod_to_equations; lia.
Qed.
(** The root the form starts with is sent as it is. *)
Lemma random_root_sent buf : Forall is_byte buf -> zlen buf = 32 -> normalizeBytes32 (randomBytes32 buf) = Ok (randomBytes32 buf).
Proof.
  intros Hb Hlen; unfold randomBytes32, bytesToHex, normalizeBytes32. assert (length (hex_chars buf) = 64%nat) as Hl by (rewrite hex_chars_length; unfold zlen in Hlen; lia).
  rewrite trim_id, starts_with_app by (rewrite chars_app, chars_str; apply Forall_app; split; [by repeat constructor|by apply hex_chars_plain]).
  cbv zeta. rewrite chars_app, chars_str. change (drop 2 (chars "0x" ++ hex_chars buf)) with (hex_chars buf).
  assert (64 <? zlen (hex_chars buf) = false) as -> by (apply Z.ltb_ge; unfold zlen; rewrite Hl; done).
  unfold pad_end. by rewrite Hl, app_nil_r.
Qed.

(** ** The form *)

Section SendFacts.
Context {W : Type} `{Clock W, BridgeWallet W} (bridgeAddress : string).

(** What the bridge form sends.  The handler always settles, and shows either the hash
    of a transaction or one error, never both and never what was there before.  A hash
    is the answer of the wallet to [updateStateRoot] of the configured bridge with the
    height of the form (the clock where it is empty) and the 32 bytes of its root; and
    a root that is too long is refused without asking the wallet to write. *)
Theorem handleSendDemo_sends_root isConnected nextHeight stateRoot (f : BridgeForm W) :
  exists f', handleSendDemo bridgeAddress isConnected nextHeight stateRoot f = (Ok tt, f') /\
    ((exists tx height root w, bf_status f' = Some ("Sent tx " +:+ tx) /\ bf_error f' = None /\
        (truthy nextHeight = true -> BigInt_of_string nextHeight = Ok height) /\ normalizeBytes32 stateRoot = Ok root /\
        write_contract (mkCall bridgeAddress "updateStateRoot" [VInt height; VHex root]) w = (Ok tx, bf_world f')) \/
     (bf_status f' = None /\ is_Some (bf_error f'))).
Proof.
  unfold handleSendDemo; rewrite bind_run; unfold modify at 1, try_catch; cbv beta iota.
  set (f0 := mkForm _ None None). rewrite bind_run.
  assert (exists o w, (if isConnected then mret tt else on_chain_form connect_injected) f0 = (o, mkForm w None None)) as (o & w & ->).
  { destruct isConnected; [by eexists _, _|]. unfold on_chain_form. destruct (connect_injected _) as [o w]. by exists o, w. }
  destruct o as [ []|e]; [|by eexists; split; [reflexivity|right; eauto] ]. rewrite bind_run.
  assert (exists o w', (if truthy nextHeight then lift (BigInt_of_string nextHeight) else on_chain_form now) (mkForm w None None) =
    (o, mkForm w' None None) /\ (truthy nextHeight = true -> BigInt_of_string nextHeight = o)) as (o & w' & -> & Ho).
  { destruct (truthy nextHeight); [by eexists _, _|]. unfold on_chain_form. destruct (now _) as [o w']. by exists o, w'. }
  destruct o as [height|e]; [|by eexists; split; [reflexivity|right; eauto] ]. rewrite bind_run; unfold lift.
  destruct (normalizeBytes32 stateRoot) as [root|e]; [|by eexists; split; [reflexivity|right; eauto] ]. rewrite bind_run; unfold on_chain_form at 1.
  cbn [bf_world bf_status bf_error]. destruct (write_contract _ w') as [ [tx|e] w''] eqn:Hw; [|by eexists; split; [reflexivity|right; eauto] ].
  eexists; split; [reflexivity|]. left; by exists tx, height, root, w'.
Qed.
End SendFacts.
