(* ===== verification/Scripts.v ===== *)
(** * Scripts (nil-website/scripts/parity_wasm.ts, sign_intent.ts, tools/parity/compare_parity.ts)

    The script that runs the WASM core on the parity fixtures, the one that compares
    its report with the native core's, and the one that signs an intent on the command
    line.  SHA-256, the expansions of the core, the account of the private key and the
    process environment are parameters. *)
From S2P Require Import Prelude JsString JsNum TransportTypes Effects Bytes Hex Layout NilWasm Eip712.
#[local] Open Scope Z_scope.

(** ** parity_wasm.ts *)

(** [writeBigUInt64LE(chunk.length)] and the chunk, one after the other. *)
Definition framed (chunk : bytes) : bytes := le_split 8 (zlen chunk) ++ chunk.
Definition framing (chunks : list bytes) : bytes := concat (map framed chunks).

Definition next_seed (seed : Z) : Z := (seed * 1664525 + 1013904223) mod 2 ^ 32.
Definition index_of_seed (seed : Z) : Z := seed mod 255 + 1.
(** The loop; [None] when the fuel runs out. *)
Fixpoint pick_from (fuel : nat) (count : Z) (out : list Z) (seed : Z) : option (list Z) :=
  if count <=? zlen out then Some out
  else match fuel with
       | O => None
       | S fuel =>
           let seed' := next_seed seed in
           let idx := index_of_seed seed' in
           pick_from fuel count (if bool_decide (idx ∈ out) then out else out ++ [idx]) seed'
       end.
Definition initial_seed : Z := 12648430.
(** Turns of the loop that are enough for every number of indices it can find. *)
Definition pick_fuel : nat := 4096.
Definition pickIndices (count : Z) : option (list Z) := pick_from pick_fuel count [] initial_seed.

(** [next[i] ^= v] of a [Uint8Array]; out of range it does nothing *)
Definition xor_at (i : nat) (v : Z) (l : bytes) : bytes := alter (fun b => Z.lxor b (Z.land v 255)) i l.
Definition deriveRoots (base : bytes) (indices : list Z) : list bytes :=
  map (fun idx => xor_at 31 (idx * 29) (xor_at 0 idx base)) indices.

(** [flat.set(entry, offset); offset += entry.length] *)
Fixpoint copy_all (buf : bytes) (offset : Z) (entries : list bytes) : outcome bytes :=
  match entries with
  | [] => mret buf
  | entry :: rest => buf' ← set_bytes buf offset entry; copy_all buf' (offset + zlen entry) rest
  end.
Definition flatten (entries : list bytes) : outcome bytes :=
  copy_all (zeros (fold_left (fun acc cur => acc + zlen cur) entries 0)) 0 entries.
(** [roots.forEach((root, i) => rootsFlat.set(root, i * 32))] *)
Fixpoint place_roots (flat : bytes) (i : Z) (roots : list bytes) : outcome bytes :=
  match roots with
  | [] => mret flat
  | root :: rest => flat' ← set_bytes flat (i * 32) root; place_roots flat' (i + 1) rest
  end.
Definition flatten_roots (roots : list bytes) : outcome bytes := place_roots (zeros (zlen roots * 32)) 0 roots.

Section Parity.
Context {Ctx : Type} `{Kzg Ctx} (ctx : Ctx) (sha256 : bytes -> bytes).
(** The two expansions: the witness commitments and the shards. *)
Context (expand_file : bytes -> outcome (list bytes * list bytes)) (expand_mdu_rs : bytes -> Z -> Z -> outcome (list bytes * list bytes)).

Definition hex_text_of (l : bytes) : json := JStr (str (hex_chars l)).
Definition hex0x (l : bytes) : json := JStr (bytesToHex l).
Definition sha256Hex (l : bytes) : json := hex_text_of (sha256 l).
Definition sha256Chunks (chunks : list bytes) : json := hex_text_of (sha256 (framing chunks)).
Definition JSize {A} (l : list A) : json := JNum (Num (zlen l)).

Definition root_of_witness (witness : list bytes) : outcome bytes := flat ← flatten witness; compute_mdu_root ctx flat.
Definition parity_wasm (mduBytes blobBytes : bytes) : outcome json :=
  expanded ← expand_file mduBytes;
  mduRoot ← root_of_witness expanded.1;
  expandedRs ← expand_mdu_rs mduBytes 4 2;
  rsMduRoot ← root_of_witness expandedRs.1;
  blobCommitments ← commit_blobs ctx blobBytes;
  if negb (zlen blobCommitments =? 48) then mthrow (Error ("Expected 48-byte blob commitment, got " +:+ string_of_Z (zlen blobCommitments)))
  else
    committed ← commit_mdu ctx mduBytes;
    let rootIndices := default [] (pickIndices 4) in
    let roots := deriveRoots mduRoot rootIndices in
    rootsFlat ← flatten_roots roots;
    manifest ← compute_manifest ctx rootsFlat;
    mret (JObj
      [("fixture", JObj [("mdu_bytes", JSize mduBytes); ("blob_bytes", JSize blobBytes); ("root_count", JSize roots);
                         ("root_indices", JArr (map (fun i => JNum (Num i)) rootIndices))]);
       ("expand_mdu", JObj [("witness_sha256", sha256Chunks expanded.1); ("shards_sha256", sha256Chunks expanded.2);
                            ("witness_count", JSize expanded.1); ("shard_count", JSize expanded.2); ("mdu_root", hex0x mduRoot)]);
       ("expand_mdu_rs", JObj [("k", JNum (Num 4)); ("m", JNum (Num 2)); ("witness_sha256", sha256Chunks expandedRs.1);
                               ("shards_sha256", sha256Chunks expandedRs.2); ("witness_count", JSize expandedRs.1);
                               ("shard_count", JSize expandedRs.2); ("mdu_root", hex0x rsMduRoot)]);
       ("blob_commitment", JObj [("blob_bytes", JSize blobBytes); ("commitment_hex", hex0x blobCommitments);
                                 ("commitment_sha256", sha256Hex blobCommitments)]);
       ("commit_mdu", JObj [("witness_sha256", sha256Hex committed.1); ("mdu_root", hex0x committed.2)]);
       ("manifest", JObj [("manifest_root", hex0x manifest.1); ("manifest_blob_sha256", sha256Hex manifest.2)])]).
End Parity.

(** ** compare_parity.ts *)

(** [getPath]: a value that is no object, or an empty one, ends the walk. *)
Definition getPath (obj : json) (pathExpr : string) : option json :=
  fold_left (fun (acc : option json) key => match acc with Some (JObj fields) => assoc key fields | _ => None end)
    (split "." pathExpr) (Some obj).
Definition fields : list string :=
  ["fixture.mdu_bytes"; "fixture.blob_bytes"; "fixture.root_count"; "fixture.root_indices";
   "expand_mdu.witness_sha256"; "expand_mdu.shards_sha256"; "expand_mdu.mdu_root";
   "expand_mdu_rs.k"; "expand_mdu_rs.m"; "expand_mdu_rs.witness_sha256"; "expand_mdu_rs.shards_sha256"; "expand_mdu_rs.mdu_root";
   "blob_commitment.commitment_hex"; "blob_commitment.commitment_sha256";
   "commit_mdu.witness_sha256"; "commit_mdu.mdu_root"; "manifest.manifest_root"; "manifest.manifest_blob_sha256"].
(** [isDeepStrictEqual] on parsed JSON: arrays by position, objects by key. *)
Fixpoint deep_equal (a b : json) {struct a} : bool :=
  match a, b with
  | JNull, JNull => true
  | JBool x, JBool y => Bool.eqb x y
  | JNum NaN, JNum NaN | JNum PInf, JNum PInf | JNum NInf, JNum NInf => true
  | JNum (Num x), JNum (Num y) => x =? y
  | JStr x, JStr y => eqb x y
  | JArr xs, JArr ys =>
      (fix all (xs ys : list json) : bool :=
         match xs, ys with [], [] => true | x :: xs, y :: ys => deep_equal x y && all xs ys | _, _ => false end) xs ys
  | JObj xs, JObj ys =>
      (length xs =? length ys)%nat &&
      (fix all (xs : list (string * json)) : bool :=
         match xs with
         | [] => true
         | (k, x) :: xs => match assoc k ys with Some y => deep_equal x y | None => false end && all xs
         end) xs
  | _, _ => false
  end.
Definition same_value (a b : option json) : bool :=
  match a, b with Some x, Some y => deep_equal x y | None, None => true | _, _ => false end.
(** The fields that differ; none of them: the comparison succeeds. *)
Definition differing (native wasm : json) : list string :=
  List.filter (fun field => negb (same_value (getPath native field) (getPath wasm field))) fields.

(** ** sign_intent.ts *)

(** A value of an intent: a number, a text, or [undefined]. *)
Inductive arg := arg_undefined | arg_num (d : dec) | arg_str (s : string).
Definition Number_of_arg (a : arg) : dec :=
  match a with arg_undefined => DNaN | arg_num d => d | arg_str s => Number_of_string s end.
Definition intent_of : Type := list (string * arg).
Definition field_of (i : intent_of) (key : string) : arg := default arg_undefined (assoc key i).
(** [buildRetrievalReceiptTypedData(intent).message] of any object *)
Definition receipt_message (i : intent_of) : intent_of :=
  let number key := (key, arg_num (Number_of_arg (field_of i key))) in
  let text key := (key, field_of i key) in
  [number "deal_id"; number "epoch_id"; text "provider"; text "file_path"; number "range_start"; number "range_len";
   number "bytes_served"; number "nonce"; number "expires_at"; text "proof_hash"].
Definition request_message (i : intent_of) : intent_of :=
  let number key := (key, arg_num (Number_of_arg (field_of i key))) in
  [number "deal_id"; ("file_path", field_of i "file_path"); number "range_start"; number "range_len"; number "nonce"; number "expires_at"].
Definition create_message (i : intent_of) : intent_of :=
  let number key := arg_num (Number_of_arg (field_of i key)) in
  [("creator", field_of i "creator_evm"); ("duration", number "duration_blocks"); ("service_hint", field_of i "service_hint");
   ("initial_escrow", field_of i "initial_escrow"); ("max_monthly_spend", field_of i "max_monthly_spend"); ("nonce", number "nonce")].
Definition update_message (i : intent_of) : intent_of :=
  let number key := arg_num (Number_of_arg (field_of i key)) in
  [("creator", field_of i "creator_evm"); ("deal_id", number "deal_id"); ("cid", field_of i "cid"); ("size", number "size_bytes"); ("nonce", number "nonce")].

Section SignIntent.
Context (env : string -> option string) (address : string).
Definition env_text (key d : string) : arg := arg_str (or_else (default "" (env key)) d).
Definition env_num (key d : string) : arg := arg_num (Number_of_string (or_else (default "" (env key)) d)).

Definition create_intent : intent_of :=
  [("creator_evm", arg_str address); ("duration_blocks", env_num "DURATION_BLOCKS" "100"); ("service_hint", env_text "SERVICE_HINT" "General");
   ("initial_escrow", env_text "INITIAL_ESCROW" "1000000"); ("max_monthly_spend", env_text "MAX_MONTHLY_SPEND" "500000"); ("nonce", env_num "NONCE" "1")].
Definition receipt_intent : intent_of :=
  [("deal_id", env_num "DEAL_ID" "0"); ("epoch_id", env_num "EPOCH_ID" "0"); ("provider", env_text "PROVIDER" "");
   ("bytes_served", env_num "BYTES_SERVED" "0"); ("nonce", env_num "NONCE" "1")].
Definition request_intent (dealIdRaw filePathRaw : string) : intent_of :=
  [("deal_id", arg_num (Number_of_string dealIdRaw)); ("file_path", arg_str filePathRaw); ("range_start", env_num "RANGE_START" "0");
   ("range_len", env_num "RANGE_LEN" "0"); ("nonce", env_num "NONCE" "1"); ("expires_at", env_num "EXPIRES_AT" "0")].
Definition update_intent (cid : string) : intent_of :=
  [("creator_evm", arg_str address); ("deal_id", env_num "DEAL_ID" "0"); ("cid", arg_str cid); ("size_bytes", env_num "SIZE_BYTES" "0"); ("nonce", env_num "NONCE" "1")].

(** [!Number.isFinite(id) || id < 0] *)
Definition bad_deal_id (a : arg) : bool :=
  match Number_of_arg a with DNum m _ => m <? 0 | _ => true end.
(** What is signed: the kind, the intent and the message; or the text of a refusal. *)
Definition to_sign (mode : string) : string + (string * intent_of * intent_of) :=
  if negb (mem mode ["create-deal"; "update-content"; "sign-receipt"; "sign-fetch-request"]) then
    inl "usage: sign_intent.ts <create-deal|update-content|sign-receipt|sign-fetch-request>"
  else if negb (truthy (or_else (default "" (env "EVM_PRIVKEY")) (default "" (env "NIL_EVM_DEV_PRIVKEY")))) then inl "EVM_PRIVKEY env var required"
  else if eqb mode "create-deal" then inr ("CreateDeal", create_intent, create_message create_intent)
  else if eqb mode "sign-receipt" then inr ("RetrievalReceipt", receipt_intent, receipt_message receipt_intent)
  else if eqb mode "sign-fetch-request" then
    let dealIdRaw := default "" (env "DEAL_ID") in
    let filePathRaw := default "" (env "FILE_PATH") in
    if negb (truthy dealIdRaw) || negb (truthy filePathRaw) then inl "DEAL_ID and FILE_PATH env vars required for sign-fetch-request"
    else if bad_deal_id (arg_num (Number_of_string dealIdRaw)) then inl "DEAL_ID must be a uint64"
    else inr ("RetrievalRequest", request_intent dealIdRaw filePathRaw, request_message (request_intent dealIdRaw filePathRaw))
  else
    let cid := default "" (env "CID") in
    if negb (truthy cid) then inl "CID env var required for update-content"
    else inr ("UpdateContent", update_intent cid, update_message (update_intent cid)).
End SignIntent.

(** ** The digest of several chunks *)

Lemma framing_cons x a : framing (x :: a) = le_split 8 (zlen x) ++ x ++ framing a.
Proof. unfold framing, framed; cbn [map concat]. by rewrite <- app_assoc. Qed.
Lemma framing_nonempty x a : framing (x :: a) <> [].
Proof. rewrite framing_cons. intros Hf%(f_equal zlen). rewrite !zlen_app, zlen_le_split, zlen_nil in Hf. pose proof (zlen_nonneg x); pose proof (zlen_nonneg (framing a)). lia. Qed.
Lemma framing_inj (a b : list bytes) :
  Forall (fun c : bytes => zlen c < 2 ^ 64) a -> Forall (fun c : bytes => zlen c < 2 ^ 64) b -> framing a = framing b -> a = b.
Proof.
  revert b; induction a as [|x a IH]; intros [|y b] Ha Hb; [done|by intros He%eq_sym%framing_nonempty|by intros He%framing_nonempty|].
  apply Forall_cons in Ha as [Hx Ha], Hb as [Hy Hb]. rewrite !framing_cons.
  intros [Hl Hr]%app_inj_1; [|by pose proof (zlen_le_split 8 (zlen x)); pose proof (zlen_le_split 8 (zlen y)); unfold zlen in *; lia].
  apply (f_equal le_combine) in Hl. change (2 ^ 64) with (256 ^ Z.of_nat 8) in Hx, Hy.
  rewrite !le_combine_split in Hl by (split; [apply zlen_nonneg|done]).
  apply app_inj_1 in Hr as [-> Hr]; [|unfold zlen in Hl; lia]. f_equal. by apply IH.
Qed.

(** The digest of the parity report is of the chunks and their boundaries.  Two lists of
    chunks with the same [sha256Chunks] are the same list, or two different texts with
    the same digest are at hand: no byte moves from one chunk to the next unnoticed. *)
Theorem sha256Chunks_binds_chunks sha256 (a b : list bytes) :
  Forall (fun c : bytes => zlen c < 2 ^ 64) a -> Forall (fun c : bytes => zlen c < 2 ^ 64) b ->
  sha256Chunks sha256 a = sha256Chunks sha256 b ->
  a = b \/ framing a <> framing b /\ hex_chars (sha256 (framing a)) = hex_chars (sha256 (framing b)).
Proof.
  intros Ha Hb [= Hs%(f_equal chars)]. rewrite !chars_str in Hs.
  destruct (decide (framing a = framing b)) as [He|Hne]; [left; by apply framing_inj|by right].
Qed.
Lemma sha256Chunks_binds_chunks_witness :
  framing [[1; 2]; [3]] <> framing [[1]; [2; 3]] /\ forall b, Forall (fun c : bytes => zlen c < 2 ^ 64) b ->
    sha256Chunks id [[1; 2]; [3]] = sha256Chunks id b -> [[1; 2]; [3]] = b \/ hex_chars (framing [[1; 2]; [3]]) = hex_chars (framing b).
Proof.
  split; [by vm_compute|]. intros b Hb Hs.
  destruct (sha256Chunks_binds_chunks id [[1; 2]; [3]] b) as [He|[_ He] ]; [by repeat constructor|done|done|by left|by right].
Defined.
(** ** The indices *)

Definition is_index_of (i : Z) : Prop := 1 <= i <= 255.
Lemma index_of_seed_range seed : is_index_of (index_of_seed seed).
Proof. unfold is_index_of, index_of_seed. pose proof (Z.mod_pos_bound seed 255 ltac:(lia)). lia. Qed.
(** What the loop keeps, and gives at its end. *)
Lemma pick_from_sound fuel count : forall out seed l, NoDup out -> Forall is_index_of out -> zlen out <= count ->
  pick_from fuel count out seed = Some l -> NoDup l /\ Forall is_index_of l /\ zlen l = count.
Proof.
  induction fuel as [|fuel IH]; intros out seed l Hnd Hr Hc; cbn [pick_from]; destruct (Z.leb_spec count (zlen out)) as [Hle|Hgt].
  1, 3: intros [= <-]; split; [done|split; [done|lia] ].
  - discriminate.
  - cbv zeta. apply IH; case_bool_decide as Hin; [done| |done| |lia|].
    + apply NoDup_app; split; [done|split; [set_solver|apply NoDup_singleton] ].
    + apply Forall_app; split; [done|]. by apply Forall_singleton, index_of_seed_range.
    + rewrite zlen_app. change (zlen [index_of_seed (next_seed seed)]) with 1. lia.
Qed.
Lemma pick_from_fewer fuel count more : count <= more -> forall out seed,
  is_Some (pick_from fuel more out seed) -> is_Some (pick_from fuel count out seed).
Proof.
  intros Hle; induction fuel as [|fuel IH]; intros out seed; cbn [pick_from]; destruct (Z.leb_spec count (zlen out)), (Z.leb_spec more (zlen out));
    try done; try lia; try (intros _; by eexists). cbv zeta. apply IH.
Qed.
Lemma pick_all : is_Some (pickIndices 255).
Proof. apply (bool_decide_unpack _). vm_compute. exact I. Qed.
Lemma NoDup_indices_length (l : list Z) : NoDup l -> Forall is_index_of l -> zlen l <= 255.
Proof.
  intros Hnd Hr. assert (length l <= length (seqZ 1 255))%nat as Hlen.
  { apply submseteq_length, NoDup_submseteq; [done|]. intros x Hx. rewrite Forall_forall in Hr. apply elem_of_seqZ. specialize (Hr x Hx). unfold is_index_of in Hr; lia. }
  rewrite length_seqZ in Hlen. unfold zlen; lia.
Qed.

Lemma pickIndices_some count : 0 <= count <= 255 -> exists l, pickIndices count = Some l /\ zlen l = count /\ NoDup l /\ Forall is_index_of l.
Proof.
  intros Hc. destruct (pick_from_fewer pick_fuel count 255 ltac:(lia) [] initial_seed pick_all) as [l Hl].
  exists l; split; [exact Hl|].
  destruct (pick_from_sound pick_fuel count [] initial_seed l) as (Hnd & Hr & Hz); [constructor|constructor|rewrite zlen_nil; lia|exact Hl|done].
Qed.

(** The loop that picks the root indices ends exactly where it can.  For every number of
    indices up to 255 it gives that many, all different and from 1 to 255, the same at
    every run; for a larger number it never ends, whatever the fuel. *)
Theorem pickIndices_terminates count :
  (0 <= count <= 255 -> exists l, pickIndices count = Some l /\ zlen l = count /\ NoDup l /\ Forall is_index_of l) /\
  (255 < count -> forall fuel, pick_from fuel count [] initial_seed = None).
Proof.
  split.
  - apply pickIndices_some.
  - intros Hc fuel. destruct (pick_from fuel count [] initial_seed) as [l|] eqn:Hl; [|done].
    destruct (pick_from_sound fuel count [] initial_seed l) as (Hnd & Hr & Hz); [constructor|constructor|rewrite zlen_nil; lia|exact Hl|].
    pose proof (NoDup_indices_length l Hnd Hr). lia.
Qed.
Lemma pickIndices_terminates_witness : (exists l, pickIndices 4 = Some l /\ zlen l = 4) /\ pick_from 10 256 [] initial_seed = None.
Proof.
  split; [destruct (proj1 (pickIndices_terminates 4) ltac:(lia)) as (l & Hl & Hz & _); by exists l|].
  exact (proj2 (pickIndices_terminates 256) ltac:(lia) 10%nat).
Defined.

(** ** The roots *)

Lemma deriveRoots_first base idx b r : base = b :: r -> exists r', xor_at 31 (idx * 29) (xor_at 0 idx base) = Z.lxor b (Z.land idx 255) :: r'.
Proof. intros ->. by eexists. Qed.
Lemma xor_at_length i v l : length (xor_at i v l) = length l.
Proof. apply length_alter. Qed.
Lemma deriveRoots_length base indices : Forall (fun r : bytes => length r = length base) (deriveRoots base indices).
Proof.
  apply Forall_forall; intros r (idx & <- & _)%list_elem_of_In%in_map_iff. by rewrite !xor_at_length.
Qed.
Lemma land_255 i : is_index_of i -> Z.land i 255 = i.
Proof. unfold is_index_of; intros. change 255 with (Z.ones 8). rewrite Z.land_ones, Z.mod_small; lia. Qed.
Lemma deriveRoots_NoDup base indices : base <> [] -> NoDup indices -> Forall is_index_of indices -> NoDup (deriveRoots base indices).
Proof.
  intros Hb Hnd Hr; destruct base as [|b r] eqn:Eb; [done|]. unfold deriveRoots. apply NoDup_fmap_2_strong; [|done].
  intros x y Hx Hy Heq. rewrite Forall_forall in Hr.
  destruct (deriveRoots_first _ x b r eq_refl) as (rx & Hrx), (deriveRoots_first _ y b r eq_refl) as (ry & Hry).
  rewrite Hrx, Hry in Heq; injection Heq as Heq _. rewrite !land_255 in Heq by auto.
  apply (f_equal (Z.lxor b)) in Heq. by rewrite <- !Z.lxor_assoc, Z.lxor_nilpotent, !Z.lxor_0_l in Heq.
Qed.

(** A flattened list is the concatenation. *)
Lemma zeros_add a b : 0 <= a -> 0 <= b -> zeros (a + b) = zeros a ++ zeros b.
Proof. intros; unfold zeros. by rewrite Z2Nat.inj_add, replicate_add by done. Qed.
Lemma set_bytes_next pre entry n : 0 <= n -> set_bytes (pre ++ zeros (zlen entry + n)) (zlen pre) entry = Ok ((pre ++ entry) ++ zeros n).
Proof.
  intros Hn. pose proof (zlen_nonneg entry); pose proof (zlen_nonneg pre).
  rewrite set_bytes_splice by (rewrite ?zlen_app, ?zlen_zeros; lia). unfold splice.
  assert (Z.to_nat (zlen pre) = length pre) as -> by (unfold zlen; lia). rewrite take_app_length.
  assert (drop (Z.to_nat (zlen pre + zlen entry)) (pre ++ zeros (zlen entry + n)) = zeros n) as ->.
  { rewrite zeros_add, app_assoc by lia. apply drop_app_length'. rewrite length_app. unfold zeros; rewrite length_replicate. unfold zlen; lia. }
  by rewrite app_assoc.
Qed.
Lemma copy_all_concat entries : forall pre, copy_all (pre ++ zeros (zlen (concat entries))) (zlen pre) entries = Ok (pre ++ concat entries).
Proof.
  induction entries as [|entry entries IH]; intros pre; cbn [copy_all concat]; [done|].
  rewrite zlen_app, set_bytes_next by apply zlen_nonneg. cbn [mbind outcome_bind]. rewrite <- zlen_app, IH. by rewrite <- app_assoc.
Qed.
Lemma total_length entries acc : fold_left (fun a (cur : bytes) => a + zlen cur) entries acc = acc + zlen (concat entries).
Proof. revert acc; induction entries as [|e entries IH]; intros acc; cbn [fold_left concat]; [rewrite zlen_nil; lia|]. rewrite IH, zlen_app; lia. Qed.
Lemma flatten_concat entries : flatten entries = Ok (concat entries).
Proof. unfold flatten. rewrite total_length, Z.add_0_l. exact (copy_all_concat entries []). Qed.
Lemma place_roots_concat roots : Forall (fun r : bytes => zlen r = 32) roots -> forall pre i, zlen pre = i * 32 ->
  place_roots (pre ++ zeros (zlen roots * 32)) i roots = Ok (pre ++ concat roots).
Proof.
  induction 1 as [|r roots Hr _ IH]; intros pre i Hp; cbn [place_roots concat]; [done|].
  replace (zlen (r :: roots) * 32) with (zlen r + zlen roots * 32) by (rewrite zlen_cons; lia).
  rewrite <- Hp, set_bytes_next by (pose proof (zlen_nonneg roots); lia). cbn [mbind outcome_bind].
  rewrite (IH (pre ++ r) (i + 1)) by (rewrite zlen_app; lia). by rewrite <- app_assoc.
Qed.

Section ParityFacts.
Context {Ctx : Type} `{Kzg Ctx} (ctx : Ctx) (sha256 : bytes -> bytes).
Context (expand_file : bytes -> outcome (list bytes * list bytes)) (expand_mdu_rs : bytes -> Z -> Z -> outcome (list bytes * list bytes)).

(** The parity manifest commits to four different roots.  From any MDU root of 32 bytes
    the script derives four roots of 32 bytes, all different; laid out in one buffer
    they come back as the same list inside the core, so the manifest of the report is
    the commitment to exactly these roots. *)
Theorem parity_manifest_commits_roots base : zlen base = 32 ->
  let roots := deriveRoots base (default [] (pickIndices 4)) in
  zlen roots = 4 /\ NoDup roots /\ Forall (fun r : bytes => zlen r = 32) roots /\
  (flat ← flatten_roots roots; compute_manifest ctx flat) = manifest_commitment ctx roots.
Proof.
  intros Hb roots. destruct (pickIndices_some 4 ltac:(lia)) as (l & Hl & Hz & Hnd & Hr). subst roots; rewrite Hl; change (default [] (Some l)) with l.
  assert (Forall (fun r : bytes => zlen r = 32) (deriveRoots base l)) as H32.
  { eapply Forall_impl; [apply deriveRoots_length|]. intros r Hlen; unfold zlen in *; lia. }
  split; [unfold deriveRoots; by rewrite zlen_map|]. split; [by apply deriveRoots_NoDup; [intros ->; discriminate|..]|]. split; [done|].
  unfold flatten_roots. pose proof (place_roots_concat _ H32 [] 0 eq_refl) as Hp. cbn [app] in Hp; rewrite Hp; clear Hp. cbn [mbind outcome_bind app]. unfold compute_manifest.
  rewrite (zlen_concat 32), Z.mul_comm, Z.mod_mul by done. cbn [negb Z.eqb]. by rewrite chunks_exact_concat.
Qed.

(** The parity check misses no field.  Every field that is compared is in the report of
    the WASM script, so a report of the native core that lacks one, or has another
    value there, is reported as a difference. *)
Theorem parity_fields_present mdu blob native wasm :
  parity_wasm ctx sha256 expand_file expand_mdu_rs mdu blob = Ok wasm ->
  Forall (fun f => is_Some (getPath wasm f)) fields /\
  (differing native wasm = [] -> Forall (fun f => exists x y, getPath native f = Some x /\ getPath wasm f = Some y /\ deep_equal x y = true) fields).
Proof.
  intros Hw. assert (Forall (fun f => is_Some (getPath wasm f)) fields) as Hall.
  { unfold parity_wasm in Hw. destruct (expand_file mdu) as [e|]; [|discriminate]; cbn [mbind outcome_bind] in Hw.
    destruct (root_of_witness ctx e.1) as [r1|]; [|discriminate]; cbn [mbind outcome_bind] in Hw.
    destruct (expand_mdu_rs mdu 4 2) as [e2|]; [|discriminate]; cbn [mbind outcome_bind] in Hw.
    destruct (root_of_witness ctx e2.1) as [r2|]; [|discriminate]; cbn [mbind outcome_bind] in Hw.
    destruct (commit_blobs ctx blob) as [cs|]; [|discriminate]; cbn [mbind outcome_bind] in Hw. destruct (negb _); [discriminate|].
    destruct (commit_mdu ctx mdu) as [c|]; [|discriminate]; cbn [mbind outcome_bind] in Hw. cbv zeta in Hw.
    destruct (flatten_roots _) as [fl|]; [|discriminate]; cbn [mbind outcome_bind] in Hw.
    destruct (compute_manifest ctx fl) as [m|]; [|discriminate]; cbn [mbind outcome_bind] in Hw. injection Hw as <-.
    unfold fields. repeat (apply Forall_cons; split; [eexists; reflexivity|]). done. }
  split; [done|]. intros Hd. rewrite Forall_forall in Hall |- *. intros f Hf. destruct (Hall f Hf) as [y Hy].
  assert (same_value (getPath native f) (getPath wasm f) = true) as Hs.
  { destruct (same_value _ _) eqn:E; [done|]. exfalso. assert (f ∈ differing native wasm) as Hin; [|rewrite Hd in Hin; set_solver].
    unfold differing. apply list_elem_of_In, filter_In. split; [by apply list_elem_of_In|by rewrite E]. }
  rewrite Hy in Hs |- *. destruct (getPath native f) as [x|]; [|done]. by exists x, y.
Qed.
End ParityFacts.

(** *** A run on a small core *)

#[local] Instance tiny_kzg : Kzg unit.
Proof.
  refine {| load_setup _ := Ok tt; blob_to_commitment _ _ := Ok (zeros 48); merkle_root _ _ := Ok (zeros 32);
            manifest_commitment _ _ := Ok (zeros 48, zeros 8); expand_encoded _ _ _ _ := Ok ([], []) |}.
  by intros ? ? ? [= <-].
Defined.
Lemma parity_manifest_commits_roots_eq :
  (flat ← flatten_roots (deriveRoots (zeros 32) (default [] (pickIndices 4))); compute_manifest tt flat) = Ok (zeros 48, zeros 8).
Proof. vm_compute. reflexivity. Qed.
Lemma parity_manifest_commits_roots_witness :
  (flat ← flatten_roots (deriveRoots (zeros 32) (default [] (pickIndices 4))); compute_manifest tt flat) = Ok (zeros 48, zeros 8).
Proof.
  destruct (parity_manifest_commits_roots tt (zeros 32) eq_refl) as (_ & _ & _ & Hm). rewrite Hm. reflexivity.
Defined.
Definition no_expansion (_ : bytes) : outcome (list bytes * list bytes) := Ok ([], []).
Definition no_rs_expansion (_ : bytes) (_ _ : Z) : outcome (list bytes * list bytes) := Ok ([], []).
Lemma tiny_run_reports mdu blob : zlen mdu = MDU_SIZE -> zlen blob = BLOB_SIZE -> exists wasm, parity_wasm tt id no_expansion no_rs_expansion mdu blob = Ok wasm.
Proof.
  intros Hm Hb; unfold parity_wasm, no_expansion, no_rs_expansion. cbn [mbind outcome_bind fst].
  assert (root_of_witness tt [] = Ok (zeros 32)) as -> by reflexivity. cbn [mbind outcome_bind fst].
  assert (commit_blobs tt blob = Ok (zeros 48)) as -> by (unfold commit_blobs; rewrite Hb; reflexivity). cbn [mbind outcome_bind].
  change (negb (zlen (zeros 48) =? 48)) with false. cbv iota. assert (exists c, commit_mdu tt mdu = Ok c) as [c ->].
  { unfold commit_mdu, mdu_to_kzg_commitments; rewrite Hm. change (negb (MDU_SIZE =? MDU_SIZE)) with false. cbv iota.
    destruct (commit_each_total tt (map (blob_at mdu) (seqZ 0 BLOBS_PER_MDU))) as [cs ->]; [done|]. by eexists. }
  cbn [mbind outcome_bind]. cbv zeta.
  assert (exists fl m, flatten_roots (deriveRoots (zeros 32) (default [] (pickIndices 4))) = Ok fl /\ compute_manifest tt fl = Ok m) as (fl & m & -> & Hman).
  { pose proof parity_manifest_commits_roots_eq as He. destruct (flatten_roots _) as [fl|]; [|discriminate]. by exists fl, (zeros 48, zeros 8). }
  cbn [mbind outcome_bind]. rewrite Hman. by eexists.
Qed.
Lemma parity_fields_present_witness :
  exists wasm, parity_wasm tt id no_expansion no_rs_expansion (zeros MDU_SIZE) (zeros BLOB_SIZE) = Ok wasm /\ is_Some (getPath wasm "expand_mdu_rs.mdu_root") /\
    differing (JObj []) wasm <> [].
Proof.
  destruct (tiny_run_reports (zeros MDU_SIZE) (zeros BLOB_SIZE)) as [wasm Hw]; [by apply zlen_zeros..|].
  exists wasm; split; [exact Hw|].
  destruct (parity_fields_present tt id no_expansion no_rs_expansion (zeros MDU_SIZE) (zeros BLOB_SIZE) (JObj []) wasm Hw) as [Hall Hd].
  rewrite Forall_forall in Hall. split; [apply Hall, (bool_decide_unpack _); reflexivity|]. intros He; specialize (Hd He). rewrite Forall_forall in Hd.
  destruct (Hd "fixture.mdu_bytes") as (x & y & Hx & _); [apply (bool_decide_unpack _); reflexivity|]. discriminate Hx.
Defined.

(** ** What can be signed *)

(** A value that viem encodes as an ABI type. *)
Definition encodes (ty : string) (a : arg) : bool :=
  match a with
  | arg_str _ => mem ty ["string"; "address"; "bytes32"]
  | arg_num (DNum m e) => starts_with "uint" ty && (0 <=? m) && ((0 <=? e) || (m mod 10 ^ (- e) =? 0))
  | _ => false
  end.
Definition message_encodes (types : struct_type) (m : intent_of) : bool :=
  bool_decide (map fst types = map fst m) && forallb (fun p => encodes p.1.2 p.2.2) (combine types m).
Definition type_of (kind : string) : struct_type :=
  default [] (assoc kind (CreateDealTypes ++ UpdateContentTypes ++ RetrievalReceiptTypes ++ RetrievalRequestTypes)).

(** The script cannot sign a receipt.  The receipt it builds has none of the file path, the
    range, the expiry and the proof hash that the receipt's type has: whatever the
    environment, the message it would sign has texts that are undefined and numbers
    that are NaN, so it fits no encoding of its type.  The requests it signs do. *)
Theorem sign_receipt_never_encodes env address kind i m :
  to_sign env address "sign-receipt" = inr (kind, i, m) ->
  kind = "RetrievalReceipt" /\ map fst (type_of kind) = map fst m /\ message_encodes (type_of kind) m = false /\
  field_of m "file_path" = arg_undefined /\ field_of m "proof_hash" = arg_undefined /\ field_of m "range_len" = arg_num DNaN /\
  field_of m "expires_at" = arg_num DNaN.
Proof.
  unfold to_sign. change (negb (mem "sign-receipt" _)) with false. destruct (negb (truthy _)); [discriminate|].
  change (eqb "sign-receipt" "create-deal") with false. change (eqb "sign-receipt" "sign-receipt") with true. intros [= <- <- <-].
  split; [done|]. split; [reflexivity|]. split; [|done].
  unfold message_encodes. rewrite bool_decide_eq_true_2 by reflexivity. cbn [andb]. set (m := receipt_message _).
  apply not_true_is_false. intros Hall. rewrite forallb_forall in Hall.
  specialize (Hall (("file_path", "string"), ("file_path", arg_undefined))). discriminate Hall.
  subst m. do 3 right. left. reflexivity.
Qed.
Definition script_env (key : string) : option string :=
  assoc key [("EVM_PRIVKEY", "0x01"); ("DEAL_ID", "7"); ("FILE_PATH", "a.txt"); ("CID", "0xaa")].
Lemma sign_receipt_never_encodes_witness :
  exists kind i m, to_sign script_env "0xab" "sign-receipt" = inr (kind, i, m) /\ message_encodes (type_of kind) m = false.
Proof.
  do 3 eexists. split; [reflexivity|].
  exact (proj1 (proj2 (proj2 (sign_receipt_never_encodes script_env "0xab" _ _ _ eq_refl)))).
Defined.
Example other_modes_encode :
  forallb (fun mode => match to_sign script_env "0xab" mode with inr (kind, _, m) => message_encodes (type_of kind) m | inl _ => false end)
    ["create-deal"; "update-content"; "sign-fetch-request"] = true.
Proof. by vm_compute. Qed.
