(* ===== verification/Sessions.v ===== *)
(** * The retrieval observatory (pages/ProofsDashboard.tsx)

    The page asks the chain for deals, providers and, provider by provider, the
    retrieval sessions, and shows how many there are of each status, which deals and
    providers have most, and the latest.  The queries per provider are answered
    independently; here they are asked in order. *)
From Stdlib Require Import Sorted.
From S2P Require Import Prelude JsString JsNum TransportTypes Effects Bytes Text Hex Http Lcd GatewayClient Config Multiaddr TransportHook Evm Eip712 DealTx.
#[local] Open Scope Z_scope.

(** ** Rows *)

Inductive SessionStatus := ss_OPEN | ss_PROOF_SUBMITTED | ss_USER_CONFIRMED | ss_COMPLETED | ss_EXPIRED | ss_CANCELED | ss_UNSPECIFIED | ss_UNKNOWN.
#[export] Instance SessionStatus_eq_dec : EqDecision SessionStatus.
Proof. solve_decision. Defined.
Record SessionRow := mkSession {
  sn_sessionIdHex : string; sn_dealId : string; sn_owner : string; sn_provider : string; sn_statusLabel : option string;
  sn_statusKey : SessionStatus; sn_openedHeight : option dec; sn_updatedHeight : option dec; sn_totalBytes : Z
}.

Definition parseUint64 (v : option json) : outcome Z :=
  match v with
  | Some (JNum (Num z)) => mret (Z.max 0 z)
  | Some (JNum NInf) => mret 0
  | Some (JNum _) => mthrow (JsError "RangeError" "The number cannot be converted to a BigInt because it is not an integer")
  | Some (JStr s) => mret (match BigInt_of_string (trim s) with Ok z => z | Thrown _ => 0 end)
  | _ => mret 0
  end.

Definition status_names : list (string * SessionStatus) :=
  [("UNSPECIFIED", ss_UNSPECIFIED); ("OPEN", ss_OPEN); ("PROOF_SUBMITTED", ss_PROOF_SUBMITTED); ("USER_CONFIRMED", ss_USER_CONFIRMED);
   ("COMPLETED", ss_COMPLETED); ("EXPIRED", ss_EXPIRED); ("CANCELED", ss_CANCELED)].
(** [trimmed.replace(prefix, '')]: the first occurrence, wherever it is. *)
Fixpoint remove_first (prefix l : list ascii) : list ascii :=
  if bool_decide (take (length prefix) l = prefix) then drop (length prefix) l
  else match l with [] => [] | c :: r => c :: remove_first prefix r end.
(** The label and the key; without a label a dash is shown. *)
Definition formatSessionStatus (v : option json) : option string * SessionStatus :=
  match v with
  | Some (JNum n) =>
      match n with
      | Num z => match (if (0 <=? z) && (z <=? 6) then status_names !! Z.to_nat z else None) with
                 | Some s => (Some s.1, s.2)
                 | None => (Some (string_of_num n), ss_UNKNOWN)
                 end
      | _ => (Some (string_of_num n), ss_UNKNOWN)
      end
  | Some (JStr s) =>
      let trimmed := trim s in
      if is_empty trimmed then (None, ss_UNKNOWN)
      else
        let label := str (remove_first (chars "RETRIEVAL_SESSION_STATUS_") (chars trimmed)) in
        (Some label, default ss_UNKNOWN (assoc label status_names))
  | _ => (None, ss_UNKNOWN)
  end.

(** [Number(raw[key] ?? NaN)], where it is finite. *)
Definition height_of (raw : json) (key : string) : option dec :=
  match nullish (get_field raw key) None with
  | Some j => let d := json_Number j in if dec_is_finite d then Some d else None
  | None => None
  end.
Definition string_field (raw : json) (key : string) : string :=
  match nullish (get_field raw key) None with Some j => json_String j | None => "" end.
Definition parseSessionRow (raw : json) : outcome SessionRow :=
  match raw with
  | JNull => mthrow (JsError "TypeError" "Cannot read properties of null (reading 'deal_id')")
  | _ =>
      totalBytes ← parseUint64 (get_field raw "total_bytes");
      let status := formatSessionStatus (get_field raw "status") in
      mret (mkSession (toHexFromBase64OrHex (get_field raw "session_id") [32]) (string_field raw "deal_id") (string_field raw "owner")
        (string_field raw "provider") status.1 status.2 (height_of raw "opened_height") (height_of raw "updated_height") totalBytes)
  end.
Fixpoint parse_all (l : list json) : outcome (list SessionRow) :=
  match l with
  | [] => mret []
  | raw :: rest => r ← parseSessionRow raw; rs ← parse_all rest; mret (r :: rs)
  end.

(** ** What is counted *)

(** A stable sort with the largest first: an element goes behind those not smaller. *)
Section SortDesc.
Context {A : Type} (below : A -> A -> bool).
Fixpoint insert_desc (x : A) (l : list A) : list A :=
  match l with
  | [] => [x]
  | y :: r => if below y x then x :: l else y :: insert_desc x r
  end.
Definition sort_desc (l : list A) : list A := fold_left (fun acc x => insert_desc x acc) l [].
End SortDesc.

(** [(obj[key] ||= { key, count: 0 }).count += 1] on the properties in the order they
    were made *)
Fixpoint bump (key : string) (l : list (string * Z)) : list (string * Z) :=
  match l with
  | [] => [(key, 1)]
  | (k, n) :: r => if eqb k key then (k, n + 1) :: r else (k, n) :: bump key r
  end.
Definition tally (keys : list string) : list (string * Z) :=
  fold_left (fun acc k => if truthy k then bump k acc else acc) keys [].
(** [Object.values]: names that are array indices come first, in their order. *)
Definition is_index (k : string) : bool :=
  all_digits k && bool_decide (string_of_Z (digits_val (chars k)) = k) && (digits_val (chars k) <? 2 ^ 32 - 1).
Definition object_values (l : list (string * Z)) : list (string * Z) :=
  rev (sort_desc (fun a b => digits_val (chars a.1) <? digits_val (chars b.1)) (rev (List.filter (fun e => is_index e.1) l))) ++
  List.filter (fun e => negb (is_index e.1)) l.
Definition top (n : nat) (keys : list string) : list (string * Z) :=
  take n (sort_desc (fun a b => a.2 <? b.2) (object_values (tally keys))).

Definition count_status (st : SessionStatus) (l : list SessionRow) : Z := zlen (List.filter (fun s => bool_decide (sn_statusKey s = st)) l).
Definition all_statuses : list SessionStatus :=
  [ss_OPEN; ss_PROOF_SUBMITTED; ss_USER_CONFIRMED; ss_COMPLETED; ss_EXPIRED; ss_CANCELED; ss_UNSPECIFIED; ss_UNKNOWN].
(** [statusCounts], in the order its properties are written in *)
Fixpoint bump_status (st : SessionStatus) (l : list (SessionStatus * Z)) : list (SessionStatus * Z) :=
  match l with
  | [] => [(st, 1)]
  | (k, n) :: r => if bool_decide (k = st) then (k, n + 1) :: r else (k, n) :: bump_status st r
  end.
Definition statusCounts (l : list SessionRow) : list (SessionStatus * Z) :=
  fold_left (fun acc s => bump_status (sn_statusKey s) acc) l (map (fun st => (st, 0)) all_statuses).

(** [m1 * 10^e1 < m2 * 10^e2] *)
Definition dec_below (a b : dec) : bool :=
  match a, b with
  | DNum m1 e1, DNum m2 e2 => let e := Z.min e1 e2 in m1 * 10 ^ (e1 - e) <? m2 * 10 ^ (e2 - e)
  | _, _ => false
  end.
Definition updated (s : SessionRow) : dec := default (DNum 0 0) (sn_updatedHeight s).
Definition recent_sessions (l : list SessionRow) : list SessionRow := take 50 (sort_desc (fun a b => dec_below (updated a) (updated b)) l).

Record Metrics := mkMetrics {
  mt_totalDeals : Z; mt_activeDeals : Z; mt_totalProviders : Z; mt_activeProviders : Z; mt_totalSessions : Z;
  mt_statusCounts : list (SessionStatus * Z); mt_topDeals : list (string * Z); mt_topProviders : list (string * Z);
  mt_recent : list SessionRow; mt_uniqueDeals : Z; mt_uniqueProviders : Z; mt_totalBytes : Z
}.
Definition unique (l : list string) : Z := zlen (remove_dups (filter_truthy l)).
Definition metrics (deals : list LcdDeal) (providers : list LcdProvider) (sessions : list json) : outcome Metrics :=
  parsed ← parse_all sessions;
  mret (mkMetrics (zlen deals) (zlen (List.filter (fun d => truthy (trim (d_cid d))) deals))
    (zlen providers) (zlen (List.filter (fun p => eqb (to_lower (trim (p_status p))) "active") providers)) (zlen parsed)
    (statusCounts parsed) (top 10 (map sn_dealId parsed)) (top 10 (map sn_provider parsed)) (recent_sessions parsed)
    (unique (map sn_dealId parsed)) (unique (map sn_provider parsed)) (fold_left (fun acc s => acc + sn_totalBytes s) parsed 0)).
(** The share of a status in the chart. *)
Definition totalForStatusChart (counts : list (SessionStatus * Z)) : Z :=
  let sum := fold_left (fun acc e => acc + e.2) counts 0 in if sum =? 0 then 1 else sum.

(** ** The effect *)

Section Refresh.
Context {W : Type} `{Http W} (cfg : Config).

Definition fetchRetrievalSessionsByProvider (provider : string) : M W (list json) :=
  res ← fetch None (GET (cf_lcdBase cfg +:+ "/nilchain/nilchain/v1/retrieval-sessions/by-provider/" +:+ encodeURIComponent provider +:+ "?pagination.limit=1000"));
  if negb (rs_ok res) then js_error (or_else (text_or_empty res) ("LCD sessions returned " +:+ string_of_Z (rs_status res)))
  else mret (match get_field (json_or JNull res) "sessions" with Some (JArr l) => l | _ => [] end).

Record Observatory := mkObs {
  ob_world : W; ob_deals : list LcdDeal; ob_providers : list LcdProvider; ob_sessions : list json; ob_loading : bool; ob_error : option string
}.
Definition on_chain {A} (m : M W A) : M Observatory A := fun s =>
  let '(r, w) := m (ob_world s) in (r, mkObs w (ob_deals s) (ob_providers s) (ob_sessions s) (ob_loading s) (ob_error s)).
Definition set_ob_loading (b : bool) (s : Observatory) : Observatory := mkObs (ob_world s) (ob_deals s) (ob_providers s) (ob_sessions s) b (ob_error s).

(** [Promise.allSettled], then the loop: what was answered, and how many were not. *)
Fixpoint gather (providers : list LcdProvider) : M W (list json * Z) :=
  match providers with
  | [] => mret ([], 0)
  | p :: rest =>
      r ← try_catch (l ← fetchRetrievalSessionsByProvider (p_address p); mret (Some l)) (fun _ => mret None);
      more ← gather rest;
      mret (match r with Some l => (l ++ more.1, more.2) | None => (more.1, more.2 + 1) end)
  end.
Definition partial_error (failures : Z) : option string :=
  if 0 <? failures then Some (string_of_Z failures +:+ " provider session queries failed (showing partial data).") else None.
(** [cancelled i]: whether the effect has been cleaned up at its [i]-th look. *)
Definition refresh_sessions (cancelled : nat -> bool) : M Observatory unit :=
  if cancelled 0%nat then mret tt
  else
    modify (set_ob_loading true) ;;
    finally
      (try_catch
         (nextDeals ← on_chain (lcdFetchDeals (cf_lcdBase cfg));
          nextProviders ← on_chain (lcdFetchProviders (cf_lcdBase cfg));
          if cancelled 1%nat then mret tt
          else
            modify (fun s => mkObs (ob_world s) nextDeals nextProviders (ob_sessions s) (ob_loading s) (ob_error s)) ;;
            found ← on_chain (gather nextProviders);
            if cancelled 2%nat then mret tt
            else modify (fun s => mkObs (ob_world s) (ob_deals s) (ob_providers s) found.1 (ob_loading s) (partial_error found.2)))
         (fun e => if cancelled 3%nat then mret tt
                   else modify (fun s => mkObs (ob_world s) (ob_deals s) (ob_providers s) (ob_sessions s) (ob_loading s)
                     (Some (if is_Error e then err_message e else "Failed to load network activity")))))
      (fun s => if cancelled 4%nat then s else set_ob_loading false s).
End Refresh.

(** ** The sort *)

Section SortFacts.
Context {A : Type} (f : A -> Z).
Let below (a b : A) : bool := f a <? f b.

Lemma insert_desc_perm x l : insert_desc below x l ≡ₚ x :: l.
Proof.
  induction l as [|y r IH]; cbn [insert_desc]; [done|]. destruct (below y x); [done|]. rewrite IH. apply Permutation_swap.
Qed.
Lemma sort_desc_perm_from l : forall acc, fold_left (fun acc x => insert_desc below x acc) l acc ≡ₚ l ++ acc.
Proof. induction l as [|x l IH]; intros acc; cbn [fold_left app]; [done|]. rewrite IH, insert_desc_perm. by rewrite <- Permutation_middle. Qed.
Lemma sort_desc_perm l : sort_desc below l ≡ₚ l.
Proof. unfold sort_desc; by rewrite sort_desc_perm_from, app_nil_r. Qed.

Definition descending : list A -> Prop := StronglySorted (fun a b => f b <= f a).
Lemma insert_descending x l : descending l -> descending (insert_desc below x l).
Proof.
  intros Hs; induction Hs as [|y r Hr IH Hy]; cbn [insert_desc]; [repeat constructor|]. unfold below at 1; destruct (Z.ltb_spec (f y) (f x)).
  - constructor; [by constructor|]. constructor; [lia|]. eapply Forall_impl; [exact Hy|]; cbn; lia.
  - constructor; [exact IH|]. rewrite insert_desc_perm. constructor; [lia|exact Hy].
Qed.
Lemma sort_descending l : descending (sort_desc below l).
Proof.
  unfold sort_desc. assert (forall acc, descending acc -> descending (fold_left (fun acc x => insert_desc below x acc) l acc)) as Hgen; [|apply Hgen; constructor].
  induction l as [|x l IH]; intros acc Hacc; cbn [fold_left]; [done|]. by apply IH, insert_descending.
Qed.
Lemma take_descending n l : descending l -> descending (take n l).
Proof.
  intros Hs; revert n; induction Hs as [|y r Hr IH Hy]; intros [|n]; cbn [take]; try constructor; [apply IH|].
  by apply Forall_take.
Qed.
(** What a prefix leaves out is not above what it keeps. *)
Lemma take_above n l x y : descending l -> x ∈ take n l -> y ∈ drop n l -> f y <= f x.
Proof.
  intros Hs; revert n; induction Hs as [|z r Hr IH Hz]; intros [|n] Hx Hy; cbn [take drop] in *; try (by apply elem_of_nil in Hx).
  apply elem_of_cons in Hx as [->|Hx]; [|by eapply IH]. rewrite Forall_forall in Hz. apply Hz.
  rewrite <- (take_drop n r). apply elem_of_app; by right.
Qed.
End SortFacts.

(** ** The tallies *)

Definition count_of (k : string) (keys : list string) : Z := zlen (List.filter (eqb k) keys).

Lemma bump_keys k l : map fst (bump k l) = if bool_decide (k ∈ map fst l) then map fst l else map fst l ++ [k].
Proof.
  induction l as [|[k' n] r IH]; cbn [bump map fst]; [done|]. destruct (eqb_spec k' k) as [->|Hne]; cbn [map fst].
  - rewrite bool_decide_true; [done|left].
  - rewrite IH. destruct (decide (k ∈ map fst r)) as [Hin|Hin].
    + rewrite !bool_decide_true; [done|by right|done].
    + rewrite !bool_decide_false; [done| |done]. intros [?|?]%elem_of_cons; [congruence|done].
Qed.
Lemma bump_NoDup k l : NoDup (map fst l) -> NoDup (map fst (bump k l)).
Proof.
  intros Hl; rewrite bump_keys; case_bool_decide as Hk; [done|]. apply NoDup_app; split; [done|split; [|by apply NoDup_singleton] ].
  intros x Hx ->%list_elem_of_singleton; done.
Qed.
(** The count of a name, 0 where it has no property. *)
Definition held (k : string) (l : list (string * Z)) : Z := default 0 (assoc k l).
Lemma held_bump k k' l : held k' (bump k l) = held k' l + (if eqb k' k then 1 else 0).
Proof.
  unfold held; induction l as [|[k0 n] r IH]; cbn [bump assoc].
  - destruct (eqb_spec k k') as [->|Hne]; cbn; [by rewrite eqb_refl|]. rewrite eqb_false by congruence; done.
  - destruct (eqb_spec k0 k) as [->|Hk]; cbn [assoc].
    + destruct (eqb_spec k k') as [->|Hne]; cbn; [by rewrite eqb_refl|]. rewrite (eqb_false k' k) by congruence; lia.
    + destruct (eqb_spec k0 k') as [->|Hne]; cbn; [rewrite eqb_false by done; lia|exact IH].
Qed.
Lemma assoc_elem k n (l : list (string * Z)) : NoDup (map fst l) -> (k, n) ∈ l -> assoc k l = Some n.
Proof.
  induction l as [|[k0 n0] r IH]; cbn [map fst assoc]; intros Hn Hin; [by apply elem_of_nil in Hin|]. apply NoDup_cons in Hn as [Hk Hn].
  apply elem_of_cons in Hin as [ [= -> ->]|Hin]; [by rewrite eqb_refl|]. rewrite eqb_false; [by apply IH|].
  intros ->; apply Hk, list_elem_of_In, in_map_iff. exists (k, n); split; [done|by apply list_elem_of_In].
Qed.

(** Every name that occurs has its count, and no other name has one. *)
Lemma tally_spec keys : NoDup (map fst (tally keys)) /\ (forall k, k ∈ map fst (tally keys) <-> truthy k = true /\ k ∈ keys) /\
  forall k, truthy k = true -> held k (tally keys) = count_of k keys.
Proof.
  unfold tally. induction keys as [|x keys IH] using rev_ind; [split; [constructor|split; [|done] ]; intros k; cbn; split; [by intros ?%elem_of_nil|by intros [_ ?%elem_of_nil] ]|].
  rewrite fold_left_app; cbn [fold_left]. destruct IH as (Hn & Hk & Hc).
  assert (forall k, count_of k (keys ++ [x]) = count_of k keys + (if eqb k x then 1 else 0)) as Hcount.
  { intros k; unfold count_of; rewrite List.filter_app, zlen_app; cbn [List.filter]; by destruct (eqb k x). }
  destruct (truthy x) eqn:Hx.
  - split; [by apply bump_NoDup|split].
    + intros k; rewrite bump_keys, elem_of_app, list_elem_of_singleton. case_bool_decide as Hin.
      * rewrite Hk; apply Hk in Hin. intuition congruence.
      * rewrite elem_of_app, list_elem_of_singleton, Hk. intuition congruence.
    + intros k Ht; by rewrite held_bump, Hcount, Hc.
  - split; [done|split].
    + intros k; rewrite Hk, elem_of_app, list_elem_of_singleton. intuition congruence.
    + intros k Ht; rewrite Hcount, Hc by done. rewrite eqb_false by congruence; lia.
Qed.

Lemma object_values_perm l : object_values l ≡ₚ l.
Proof.
  unfold object_values. rewrite (Permutation_rev (sort_desc _ _)) at 1. rewrite rev_involutive.
  rewrite (sort_desc_perm (fun a : string * Z => digits_val (chars a.1))), <- Permutation_rev.
  induction l as [|x l IH]; cbn [List.filter]; [done|]. destruct (is_index x.1); cbn [negb app]; [by rewrite IH|].
  by rewrite <- Permutation_middle, IH.
Qed.

(** The tables show the most frequent.  Of the names that occur in the sessions (the
    deals, or the providers), the table of the first [n] lists distinct ones with their
    exact numbers of sessions, the largest first; and a name that is left out has no
    more sessions than any that is shown, and is left out only when [n] are shown. *)
Theorem top_lists_most_frequent n keys :
  NoDup (map fst (top n keys)) /\ descending snd (top n keys) /\
  (forall k c, (k, c) ∈ top n keys -> truthy k = true /\ k ∈ keys /\ c = count_of k keys) /\
  (forall k, truthy k = true -> k ∈ keys -> k ∉ map fst (top n keys) ->
     length (top n keys) = n /\ forall e, e ∈ top n keys -> count_of k keys <= e.2).
Proof.
  destruct (tally_spec keys) as (Hn & Hk & Hc). unfold top. set (s := sort_desc _ _).
  assert (s ≡ₚ tally keys) as Hp by (unfold s; by rewrite (sort_desc_perm (@snd string Z)), object_values_perm).
  assert (descending snd s) as Hs by apply (sort_descending (@snd string Z)).
  assert (NoDup (map fst s)) as Hns by (by rewrite Hp).
  assert (forall k c, (k, c) ∈ s -> truthy k = true /\ k ∈ keys /\ c = count_of k keys) as Helem.
  { intros k c Hin. rewrite Hp in Hin. assert (k ∈ map fst (tally keys)) as Hin' by (apply list_elem_of_In, in_map_iff; exists (k, c); split; [done|by apply list_elem_of_In]).
    apply Hk in Hin' as [Ht Hkk]. split; [done|split; [done|] ]. rewrite <- Hc by done. unfold held; by rewrite (assoc_elem _ c). }
  split; [|split; [by apply take_descending|split] ].
  - rewrite <- (take_drop n s), map_app in Hns. by apply NoDup_app in Hns as [? _].
  - intros k c Hin; apply Helem. rewrite <- (take_drop n s), elem_of_app; by left.
  - intros k Ht Hkk Hout. assert (exists c, (k, c) ∈ drop n s) as [c Hdrop].
    { assert (k ∈ map fst s) as Hin by (rewrite Hp; by apply Hk). rewrite <- (take_drop n s), map_app, elem_of_app in Hin.
      destruct Hin as [Hin|Hin]; [done|]. apply list_elem_of_In, in_map_iff in Hin as ([k' c] & <- & Hin). exists c; by apply list_elem_of_In. }
    split.
    + rewrite length_take. assert (n < length s)%nat; [|lia]. destruct (Nat.lt_ge_cases n (length s)); [done|]. rewrite drop_ge in Hdrop by done. by apply elem_of_nil in Hdrop.
    + intros e He. destruct (Helem k c) as (_ & _ & <-); [rewrite <- (take_drop n s), elem_of_app; by right|]. by apply (take_above snd n s e (k, c) Hs).
Qed.

(** ** The status chart *)

Lemma bump_status_map st (g : SessionStatus -> Z) l : NoDup l -> st ∈ l ->
  bump_status st (map (fun s => (s, g s)) l) = map (fun s => (s, g s + if bool_decide (s = st) then 1 else 0)) l.
Proof.
  intros Hn; induction Hn as [|s l Hs _ IH]; intros Hin; [by apply elem_of_nil in Hin|]. cbn [map bump_status]. destruct (decide (s = st)) as [->|Hne].
  - rewrite bool_decide_true by done. f_equal. apply map_ext_in; intros s' Hin'. rewrite bool_decide_false; [f_equal; lia|]. intros ->; by apply Hs, list_elem_of_In.
  - rewrite bool_decide_false by done. apply elem_of_cons in Hin as [->|Hin]; [done|]. rewrite IH by done. by rewrite Z.add_0_r.
Qed.
Lemma all_statuses_all st : st ∈ all_statuses.
Proof. destruct st; unfold all_statuses; set_solver. Qed.

Lemma count_status_cons st s l : count_status st (s :: l) = (if bool_decide (sn_statusKey s = st) then 1 else 0) + count_status st l.
Proof. unfold count_status; cbn [List.filter]. destruct (bool_decide _); [by rewrite zlen_cons|lia]. Qed.

(** Every session is counted once.  Each status has the number of sessions with it,
    and the parts of the chart add up to the number of sessions. *)
Theorem status_counts_exact l : statusCounts l = map (fun st => (st, count_status st l)) all_statuses /\
  (l <> [] -> totalForStatusChart (statusCounts l) = zlen l).
Proof.
  assert (statusCounts l = map (fun st => (st, count_status st l)) all_statuses) as Hc.
  { unfold statusCounts. induction l as [|s l IH] using rev_ind; [done|]. rewrite fold_left_app; cbn [fold_left]. rewrite IH.
    rewrite bump_status_map; [|apply (bool_decide_unpack _); by vm_compute|apply all_statuses_all]. apply map_ext; intros st. f_equal.
    unfold count_status; rewrite List.filter_app, zlen_app; cbn [List.filter]. destruct (decide (st = sn_statusKey s)) as [->|Hne].
    - by rewrite !bool_decide_true.
    - rewrite !bool_decide_false by congruence. done. }
  split; [exact Hc|]. intros Hne. rewrite Hc. unfold totalForStatusChart.
  assert (fold_left (fun acc e => acc + e.2) (map (fun st => (st, count_status st l)) all_statuses) 0 = zlen l) as ->.
  { clear Hc Hne. unfold all_statuses; cbn [map fold_left snd]. induction l as [|s l IH]; [done|]. rewrite zlen_cons, <- IH, !count_status_cons.
    generalize (fun st => count_status st l); intros g. destruct (sn_statusKey s); repeat first [rewrite bool_decide_true by done | rewrite bool_decide_false by done]; lia. }
  destruct l as [|s l]; [done|]. rewrite zlen_cons. pose proof (zlen_nonneg l). by destruct (Z.eqb_spec (1 + zlen l) 0); [lia|].
Qed.
