(* ===== verification/Stats.v ===== *)
(** * The figures of the pages (components/Dashboard.tsx, pages/ProofsDashboard.tsx, components/FileSharder.tsx)

    What the dashboard reads about retrievals (the heat of every deal, the sessions of the
    owner, the chain's parameters), what it counts per deal and per provider, and how
    amounts, ages and sizes are written.  Each refresh is one tick of a timer; the
    requests for the heat of the deals are answered independently and are put in order
    here.  Sums of what the chain reports are exact; the code adds doubles, which agree
    with them below 2^53. *)
From S2P Require Import Prelude JsString JsNum TransportTypes Effects Router RangeChunker Hex Multiaddr Http Lcd GatewayClient Config Evm FetchFlow DealList.
From S2P Require Import Sessions.
#[local] Open Scope Z_scope.

(** ** Retrievals of the deals *)

(** [a + b] on numbers *)
Definition js_add (a b : dec) : dec :=
  match a, b with
  | DNaN, _ | _, DNaN => DNaN
  | DInf s, DInf t => if Bool.eqb s t then DInf s else DNaN
  | DInf s, _ | _, DInf s => DInf s
  | DNum m e, DNum n f => let g := Z.min e f in DNum (m * 10 ^ (e - g) + n * 10 ^ (f - g)) g
  end.
(** [Number(heat?.key || 0) || 0] *)
Definition heat_number (heat : option json) (key : string) : dec :=
  match heat ≫= fun h => get_field h key with
  | Some raw => if json_truthy raw then dec_or_zero (json_Number raw) else DNum 0 0
  | None => DNum 0 0
  end.

Section Heat.
Context {W : Type} `{Http W} (cfg : Config).
Definition heat_of (deal : LcdDeal) : M W (option json) :=
  try_catch
    (res ← fetch None (GET (cf_lcdBase cfg +:+ "/nilchain/nilchain/v1/deals/" +:+ encodeURIComponent (d_id deal) +:+ "/heat"));
     if negb (rs_ok res) then mret None
     else mret (match get_field (json_or JNull res) "heat" with Some h => if json_truthy h then Some h else None | None => None end))
    (fun _ => mret None).
Definition refreshHeat (cancelled : bool) (allDeals : list LcdDeal) (shown : gmap string json) : M W (gmap string json) :=
  next ← fold_m (fun next deal => h ← heat_of deal; mret (match h with Some h => <[d_id deal := h]> next | None => next end)) ∅ allDeals;
  mret (if cancelled then shown else next).
(** The effect of another list of deals, up to its first requests. *)
Definition heat_effect_start (allDeals : list LcdDeal) (shown : gmap string json) : gmap string json :=
  if zlen allDeals =? 0 then ∅ else shown.
End Heat.

Definition retrievalCountsByDeal (heat : gmap string json) (deals : list LcdDeal) : gmap string dec :=
  fold_left (fun acc deal => <[d_id deal := heat_number (heat !! d_id deal) "successful_retrievals_total"]> acc) deals ∅.

Record ProviderStats := mkStats { ps_assignedDeals : Z; ps_activeDeals : Z; ps_retrievals : dec; ps_bytesServed : dec }.
Definition no_stats : ProviderStats := mkStats 0 0 (DNum 0 0) (DNum 0 0).
Definition is_active (deal : LcdDeal) : bool := starts_with "0x" (trim (d_cid deal)).
Definition count_deal (heat : option json) (deal : LcdDeal) (entry : ProviderStats) : ProviderStats :=
  mkStats (ps_assignedDeals entry + 1) (ps_activeDeals entry + (if is_active deal then 1 else 0))
    (js_add (ps_retrievals entry) (heat_number heat "successful_retrievals_total"))
    (js_add (ps_bytesServed entry) (heat_number heat "bytes_served_total")).
Definition count_provider (heat : gmap string json) (deal : LcdDeal) (byProvider : gmap string ProviderStats) (addr : string) : gmap string ProviderStats :=
  <[addr := count_deal (heat !! d_id deal) deal (default no_stats (byProvider !! addr))]> byProvider.
Definition providerStatsByAddress (heat : gmap string json) (allDeals : list LcdDeal) : gmap string ProviderStats :=
  fold_left (fun acc deal => fold_left (count_provider heat deal) (d_providers deal) acc) allDeals ∅.

(** ** Sessions and parameters *)

Section Retrievals.
Context {W : Type} `{Http W} (cfg : Config).
Record Retrievals := mkRetrievals {
  rt_world : W; rt_sessions : list json; rt_loading : bool; rt_error : option string; rt_params : option LcdParams; rt_paramsError : option string
}.
Definition on_retrievals {A} (m : M W A) : M Retrievals A := fun s =>
  let '(r, w) := m (rt_world s) in (r, mkRetrievals w (rt_sessions s) (rt_loading s) (rt_error s) (rt_params s) (rt_paramsError s)).
Definition set_sessions (l : list json) (s : Retrievals) : Retrievals := mkRetrievals (rt_world s) l (rt_loading s) None (rt_params s) (rt_paramsError s).
Definition set_rt_error (e : string) (s : Retrievals) : Retrievals := mkRetrievals (rt_world s) (rt_sessions s) (rt_loading s) (Some e) (rt_params s) (rt_paramsError s).
Definition set_rt_loading (b : bool) (s : Retrievals) : Retrievals := mkRetrievals (rt_world s) (rt_sessions s) b (rt_error s) (rt_params s) (rt_paramsError s).
Definition set_params (p : option LcdParams) (e : option string) (s : Retrievals) : Retrievals :=
  mkRetrievals (rt_world s) (rt_sessions s) (rt_loading s) (rt_error s) p e.
Definition when_live (cancelled : bool) {A} (f : A -> A) (a : A) : A := if cancelled then a else f a.

Definition sessions_url (nilAddress : string) : string :=
  cf_lcdBase cfg +:+ "/nilchain/nilchain/v1/retrieval-sessions/by-owner/" +:+ encodeURIComponent nilAddress +:+ "?pagination.limit=1000".
(** What is asked and read, before the state is set. *)
Definition read_sessions (nilAddress : string) : M W (list json) :=
  res ← fetch None (GET (sessions_url nilAddress));
  if negb (rs_ok res) then
    js_error (or_else (text_or_empty res) ("status " +:+ string_of_Z (rs_status res)))
  else mret (match get_field (json_or JNull res) "sessions" with Some (JArr l) => l | _ => [] end).
(** [before], [after]: whether the effect was cleaned up before the tick and while it ran. *)
Definition refreshSessions (before after : bool) (nilAddress : string) : M Retrievals unit :=
  if before then mret tt
  else
    modify (set_rt_loading true) ;;
    finally
      (try_catch
         (sessions ← on_retrievals (read_sessions nilAddress); modify (when_live after (set_sessions sessions)))
         (fun e => modify (when_live after (set_rt_error (if is_Error e then err_message e else "Failed to fetch retrieval sessions")))))
      (when_live after (set_rt_loading false)).
(** The effect of another address: cleared without one, else the first tick. *)
Definition sessions_effect (nilAddress : string) : M Retrievals unit :=
  if negb (truthy nilAddress) then modify (fun s => mkRetrievals (rt_world s) [] false None (rt_params s) (rt_paramsError s))
  else refreshSessions false false nilAddress.

Definition refreshParams (cancelled : bool) : M Retrievals unit :=
  try_catch
    (params ← on_retrievals (lcdFetchParams (cf_lcdBase cfg)); modify (when_live cancelled (set_params params None)))
    (fun e => modify (when_live cancelled (set_params None (Some (if is_Error e then err_message e else "Failed to fetch retrieval params"))))).
End Retrievals.

(** ** Sizes, amounts and ages *)

(** [(n / d).toFixed(places)] for whole numbers with [0 <= n] and an exact quotient:
    the nearest decimal, the larger of two. *)
Definition fixed_digits (places n d : Z) : Z := (2 * n * 10 ^ places + d) / (2 * d).
Definition pad_left (width : nat) (s : string) : string := str (replicate (width - length (chars s)) "0"%char ++ chars s).
Definition toFixed (places n d : Z) : string :=
  let q := fixed_digits places n d in
  if places =? 0 then string_of_Z q
  else string_of_Z (q / 10 ^ places) +:+ "." +:+ pad_left (Z.to_nat places) (string_of_Z (q mod 10 ^ places)).

Definition units : list string := ["B"; "KiB"; "MiB"; "GiB"; "TiB"].
(** [while (value >= 1024 && idx < units.length - 1) { value /= 1024; idx++ }]; the value
    is [bytes / 1024 ^ idx], exact in binary. *)
Fixpoint unit_of (more : nat) (bytes idx : Z) : Z :=
  match more with
  | O => idx
  | S more => if 1024 ^ (idx + 1) <=? bytes then unit_of more bytes (idx + 1) else idx
  end.
Definition in_unit (places bytes idx : Z) : string := toFixed places bytes (1024 ^ idx) +:+ " " +:+ nth (Z.to_nat idx) units "".

Definition formatBytes (bytes : num) : string :=
  match bytes with
  | Num b => if b <=? 0 then "0 B" else let idx := unit_of 4 b 0 in in_unit (if idx =? 0 then 0 else 1) b idx
  | _ => "0 B"
  end.
Definition formatBytesU64 (v : option json) : outcome string :=
  b ← parseUint64 v;
  mret (if b <=? 2 ^ 53 - 1 then formatBytes (Num b) else string_of_Z b +:+ " B").
(** [None] is the dash. *)
Definition session_status_label (v : option json) : option string := (Sessions.formatSessionStatus v).1.
Definition formatCoin (coin : option LcdCoin) : option string :=
  match coin with
  | None => None
  | Some c =>
      if negb (truthy (c_amount c)) && negb (truthy (c_denom c)) then None
      else if negb (truthy (c_denom c)) then Some (or_else (c_amount c) "0")
      else Some (or_else (c_amount c) "0" +:+ " " +:+ c_denom c)
  end.
(** [ts] may be any number, the clock is whole milliseconds. *)
Definition formatRelativeTime (now : Z) (ts : num) : string :=
  match ts with
  | Num t =>
      if t <=? 0 then "just now"
      else
        let diff := Z.max 0 (now - t) in
        if diff <? 60000 then "just now"
        else
          let mins := diff / 60000 in
          if mins <? 60 then string_of_Z mins +:+ "m ago"
          else
            let hours := mins / 60 in
            if hours <? 24 then string_of_Z hours +:+ "h ago" else string_of_Z (hours / 24) +:+ "d ago"
  | _ => "just now"
  end.

(** The observatory shows two places from GiB, and a dash for a negative size. *)
Definition formatBytes_observatory (bytes : num) : option string :=
  match bytes with
  | Num b => if b <? 0 then None
             else let idx := unit_of 4 b 0 in Some (in_unit (if idx =? 0 then 0 else if 3 <=? idx then 2 else 1) b idx)
  | _ => None
  end.
Definition formatBytesU64_observatory (v : option json) : outcome (option string) :=
  b ← parseUint64 v;
  mret (if b <=? 2 ^ 53 - 1 then formatBytes_observatory (Num b) else Some (string_of_Z b +:+ " B")).

(** The sharder stops at GiB. *)
Definition formatBytes_sharder (bytes : num) : option string :=
  match bytes with
  | Num b =>
      if b <? 0 then None
      else if b <? 1024 then Some (string_of_Z b +:+ " B")
      else if b <? 1024 * 1024 then Some (toFixed 1 b 1024 +:+ " KiB")
      else if b <? 1024 * 1024 * 1024 then Some (toFixed 2 b (1024 * 1024) +:+ " MiB")
      else Some (toFixed 2 b (1024 * 1024 * 1024) +:+ " GiB")
  | _ => None
  end.

Example sizes_shown :
  formatBytes (Num 8388608) = "8.0 MiB" /\ formatBytes (Num 1048575) = "1024.0 KiB" /\
  formatBytes_observatory (Num 5368709120) = Some "5.00 GiB" /\ formatBytes_sharder (Num 131072) = Some "128.0 KiB" /\
  toFixed 2 1049 1024 = "1.02".
Proof. vm_compute; auto. Qed.

(** ** The figures are what they are of *)

(** The number shown is within half a unit of its last place of the size. *)
Lemma fixed_digits_close places n d : 0 <= places -> 0 < d -> 0 <= n ->
  let q := fixed_digits places n d in Z.abs (2 * (n * 10 ^ places - q * d)) <= d.
Proof.
  intros Hp Hd Hn q. pose proof (Z.div_mod (2 * n * 10 ^ places + d) (2 * d)) as Hdm. pose proof (Z.mod_pos_bound (2 * n * 10 ^ places + d) (2 * d)).
  fold (fixed_digits places n d) in Hdm; fold q in Hdm. nia.
Qed.

Lemma unit_of_spec bytes : forall more idx, 0 <= idx -> (idx = 0 \/ 1024 ^ idx <= bytes) ->
  let u := unit_of more bytes idx in
  idx <= u <= idx + Z.of_nat more /\ (u = 0 \/ 1024 ^ u <= bytes) /\ (bytes < 1024 ^ (u + 1) \/ u = idx + Z.of_nat more).
Proof.
  induction more as [|more IH]; intros idx Hi Hlow; cbn [unit_of].
  - split; [lia|split; [done|right; lia] ].
  - destruct (Z.leb_spec (1024 ^ (idx + 1)) bytes) as [Hle|Hlt].
    + destruct (IH (idx + 1)) as (Hr & Hl & Hu); [lia|by right|]. split; [lia|split; [done|] ]. destruct Hu; [by left|right; lia].
    + split; [lia|split; [done|by left] ].
Qed.

(** The dashboard writes a positive size in the largest unit it reaches, up to TiB, and
    the number it writes is the size in that unit, to half of its last place. *)
Theorem formatBytes_close b : 0 < b ->
  exists u places q, formatBytes (Num b) = (if places =? 0 then string_of_Z q
      else string_of_Z (q / 10 ^ places) +:+ "." +:+ pad_left (Z.to_nat places) (string_of_Z (q mod 10 ^ places))) +:+ " " +:+ nth (Z.to_nat u) units "" /\
    0 <= u <= 4 /\ (u = 0 \/ 1024 ^ u <= b) /\ (b < 1024 ^ (u + 1) \/ u = 4) /\
    Z.abs (2 * (b * 10 ^ places - q * 1024 ^ u)) <= 1024 ^ u /\ (u = 0 -> q = b).
Proof.
  intros Hb; unfold formatBytes; destruct (Z.leb_spec b 0); [lia|]. cbv zeta. set (u := unit_of 4 b 0).
  destruct (unit_of_spec b 4 0) as (Hr & Hl & Hu); [lia|by left|]. fold u in Hr, Hl, Hu.
  set (places := if u =? 0 then 0 else 1). exists u, places, (fixed_digits places b (1024 ^ u)). unfold in_unit, toFixed.
  assert (0 <= places) by (unfold places; case_match; lia).
  split; [done|split; [lia|split; [done|split; [destruct Hu; [by left|right; lia]|split] ] ] ].
  - apply fixed_digits_close; [done|apply Z.pow_pos_nonneg; lia|lia].
  - intros Hu0; unfold places; rewrite Hu0; unfold fixed_digits. change (0 =? 0) with true; cbv iota. rewrite !Z.pow_0_r. zdivl.
Qed.

Section StatsFacts.
(** What a provider is counted for, in the order of the deals: one entry for every time
    a deal names it. *)
Definition entries_of (addr : string) (allDeals : list LcdDeal) : list LcdDeal :=
  concat (map (fun deal => replicate (length (List.filter (fun a => eqb a addr) (d_providers deal))) deal) allDeals).
Definition stats_of (heat : gmap string json) (entry : ProviderStats) (deals : list LcdDeal) : ProviderStats :=
  fold_left (fun s deal => count_deal (heat !! d_id deal) deal s) deals entry.

Lemma count_providers heat deal addr : forall providers acc,
  let n := length (List.filter (fun a => eqb a addr) providers) in
  fold_left (count_provider heat deal) providers acc !! addr =
    (if (n =? 0)%nat then acc !! addr else Some (stats_of heat (default no_stats (acc !! addr)) (replicate n deal))).
Proof.
  induction providers as [|a l IH]; intros acc; cbn [fold_left List.filter length]; [done|]. cbv zeta in IH |- *. rewrite IH; unfold count_provider.
  unfold eqb; case_bool_decide as Ha; cbn [length].
  - subst a. rewrite lookup_insert_eq; cbn [default replicate Nat.eqb]. unfold stats_of; cbn [fold_left].
    destruct (length _) as [|n]; done.
  - by rewrite lookup_insert_ne.
Qed.

Lemma stats_of_app heat s l k : stats_of heat s (l ++ k) = stats_of heat (stats_of heat s l) k.
Proof. apply fold_left_app. Qed.

Lemma provider_stats_fold heat addr : forall allDeals acc,
  fold_left (fun acc deal => fold_left (count_provider heat deal) (d_providers deal) acc) allDeals acc !! addr =
    match entries_of addr allDeals with [] => acc !! addr | l => Some (stats_of heat (default no_stats (acc !! addr)) l) end.
Proof.
  induction allDeals as [|deal l IH]; intros acc; [done|]. cbn [fold_left]. rewrite IH, count_providers.
  unfold entries_of; cbn [map concat]. fold (entries_of addr l). set (n := length _).
  destruct n as [|n]; cbn [Nat.eqb]; [done|]. cbn [default]. destruct (entries_of addr l) as [|d r].
  - by rewrite app_nil_r.
  - cbn [replicate app]. change (deal :: replicate n deal ++ d :: r) with (replicate (S n) deal ++ d :: r). by rewrite stats_of_app.
Qed.

Lemma stats_of_counts heat : forall deals s,
  ps_assignedDeals (stats_of heat s deals) = ps_assignedDeals s + zlen deals /\
  ps_activeDeals (stats_of heat s deals) = ps_activeDeals s + zlen (List.filter is_active deals).
Proof.
  induction deals as [|d l IH]; intros s; cbn [stats_of fold_left List.filter]; [rewrite !zlen_nil; lia|].
  fold (stats_of heat (count_deal (heat !! d_id d) d s) l). destruct (IH (count_deal (heat !! d_id d) d s)) as [-> ->]. cbn.
  destruct (is_active d); rewrite ?zlen_cons; lia.
Qed.

(** The table of providers is exact: a provider has a row of counts exactly when a deal
    names it; it is assigned one deal for every time a deal names it, and the active
    ones are those with a manifest root. *)
Theorem provider_stats_exact heat allDeals addr :
  match providerStatsByAddress heat allDeals !! addr with
  | None => entries_of addr allDeals = []
  | Some s => entries_of addr allDeals <> [] /\ s = stats_of heat no_stats (entries_of addr allDeals) /\
              ps_assignedDeals s = zlen (entries_of addr allDeals) /\
              ps_activeDeals s = zlen (List.filter is_active (entries_of addr allDeals))
  end.
Proof.
  unfold providerStatsByAddress; rewrite provider_stats_fold. destruct (entries_of addr allDeals) as [|d l] eqn:E; [done|].
  split; [done|split; [done|] ]. destruct (stats_of_counts heat (d :: l) no_stats) as [Ha Hb]. rewrite lookup_empty; cbn [default].
  change (default no_stats None) with no_stats. rewrite Ha, Hb; done.
Qed.
End StatsFacts.

(** A tick that is not cancelled settles and is no longer loading: it shows the sessions
    it read and no error, or keeps those it had and shows the error. *)
Theorem refreshSessions_settles {W} `{Http W} (cfg : Config) nilAddress (s : Retrievals) :
  exists s', refreshSessions cfg false false nilAddress s = (Ok tt, s') /\ rt_loading s' = false /\
    match (read_sessions cfg nilAddress (rt_world s)).1 with
    | Ok l => rt_sessions s' = l /\ rt_error s' = None
    | Thrown e => rt_sessions s' = rt_sessions s /\ is_Some (rt_error s')
    end.
Proof.
  unfold refreshSessions; rewrite bind_run; unfold modify at 1, finally, try_catch; cbv beta iota. rewrite bind_run; unfold on_retrievals; cbn [rt_world set_rt_loading].
  destruct (read_sessions cfg nilAddress (rt_world s)) as [ [l|e] w]; (eexists; split; [reflexivity|cbn]); split; [done|by split|done|by split; [|eexists] ].
Qed.
