(* ===== verification/Widgets.v ===== *)
(** * Small parts of the pages (components/ConnectWallet.tsx, FaucetWidget.tsx, StatusBar.tsx,
    GatewayStatusWidget.tsx, DealLivenessHeatmap.tsx, pages/Leaderboard.tsx, context/ThemeContext.tsx)

    The wallet button of the header, the faucet button with its timers, the badges of
    the status bar, the text of the gateway's state, the points of the liveness chart,
    the ranking of the providers and the theme.  What a part shows is a value: a dash
    is [None]. *)
From Stdlib Require Import Sorting.Sorted.
From S2P Require Import Prelude JsString JsNum TransportTypes Effects Bytes Text Hex Http Lcd GatewayClient Config Evm Eip712 FetchFlow.
From S2P Require Import DealTx Faucet Hooks Account Sessions Bridge.
#[local] Open Scope Z_scope.

#[local] Instance unlock_eq_dec : EqDecision UnlockState.
Proof. solve_decision. Defined.

(** [e instanceof Error ? e.message : String(e) || d] *)
Definition message_or (d : string) (e : jserr) : string := if is_Error e then err_message e else or_else (err_message e) d.

(** ** ConnectWallet.tsx *)

Section ConnectWallet.
Context {W : Type} `{ChainWallet W, Accounts W} (cfg : Config) (chainId : Z).
Record WalletButton := mkButton { wb_world : W; wb_error : option string; wb_unlocking : bool }.
Definition in_wallet {A} (m : M W A) : M WalletButton A := fun b =>
  let '(o, w) := m (wb_world b) in (o, mkButton w (wb_error b) (wb_unlocking b)).
Definition set_wb_error (e : option string) : M WalletButton unit := modify (fun b => mkButton (wb_world b) e (wb_unlocking b)).
(** [switchNetwork().catch(() => undefined)] *)
Definition try_switch : M W unit := fun w => (Ok tt, (switchNetwork cfg chainId w).2).

Definition handleConnect : M WalletButton unit :=
  set_wb_error None ;;
  try_catch (in_wallet try_switch ;; in_wallet connectAsync ;; in_wallet try_switch)
    (fun e => set_wb_error (Some (message_or "Failed to connect wallet" e))).
Definition handleUnlock : M WalletButton unit :=
  set_wb_error None ;;
  modify (fun b => mkButton (wb_world b) (wb_error b) true) ;;
  finally
    (try_catch
       (able ← in_wallet (fun w => (Ok (can_request w), w));
        if negb able then js_error "Ethereum provider (MetaMask) not available"
        else in_wallet requestAccounts ;; in_wallet try_switch)
       (fun e => set_wb_error (Some (message_or "Failed to unlock wallet" e))))
    (fun b => mkButton (wb_world b) (wb_error b) false).
Definition ask_switch : M WalletButton unit := fun b =>
  match switchNetwork cfg chainId (wb_world b) with
  | (None, w) => (Ok tt, mkButton w (wb_error b) (wb_unlocking b))
  | (Some e, w) => (Ok tt, mkButton w (Some (default "" (we_message e))) (wb_unlocking b))
  end.
Definition handleSwitch : M WalletButton unit := set_wb_error None ;; ask_switch.
End ConnectWallet.
#[global] Arguments WalletButton : clear implicits.
#[global] Arguments mkButton {W} _ _ _.
#[global] Arguments wb_world {W} _.
#[global] Arguments wb_error {W} _.
#[global] Arguments wb_unlocking {W} _.

(** What the header shows: a button to connect or to unlock; or the account, the text
    beside it, and whether there is a button to switch. *)
Inductive WalletShown := shown_connect | shown_unlock | shown_account (address : string) (note : option string) (can_switch : bool).
Definition short_account (address : option string) : string :=
  match address with
  | Some a => if truthy a then slice_front 6 a +:+ "..." +:+ slice_back 4 a else ""
  | None => ""
  end.
Definition wallet_shown (chainId : Z) (formatUnits : Z -> Z -> string) (balance : option (Z * Z * string)) (v : WalletView) : WalletShown :=
  let wrong := wv_connected v && negb (wv_chainId v =? chainId) in
  if isWalletLocked v then shown_unlock
  else if negb (wv_connected v) then shown_connect
  else shown_account (short_account (wv_address v))
         (if wrong then Some ("Wrong chain (" +:+ string_of_Z (wv_chainId v) +:+ ")") else evmBalance formatUnits balance) wrong.

(** ** FaucetWidget.tsx *)

Inductive FaucetBadge := fb_idle | fb_success | fb_error.
#[export] Instance faucet_badge_eq_dec : EqDecision FaucetBadge.
Proof. solve_decision. Defined.
(** The badge, the requests that wait for the faucet, and the timers that will clear it. *)
Record FaucetButton := mkFaucet { fb_badge : FaucetBadge; fb_asked : nat; fb_timers : nat }.
Inductive faucet_event := faucet_pressed (address : option string) | faucet_settled (granted : bool) | faucet_timer.
Definition faucet_disabled (b : FaucetButton) : bool := (0 <? fb_asked b)%nat || bool_decide (fb_badge b = fb_success).
Definition faucet_step (e : faucet_event) (b : FaucetButton) : FaucetButton :=
  match e with
  | faucet_pressed address =>
      if faucet_disabled b || negb (opt_str address) then b else mkFaucet fb_idle (S (fb_asked b)) (fb_timers b)
  | faucet_settled granted =>
      match fb_asked b with
      | O => b
      | S n => mkFaucet (if granted then fb_success else fb_error) n (S (fb_timers b))
      end
  | faucet_timer => match fb_timers b with O => b | S n => mkFaucet fb_idle (fb_asked b) n end
  end.
Definition faucet_init : FaucetButton := mkFaucet fb_idle 0 0.
Definition faucet_label (b : FaucetButton) : string :=
  if (0 <? fb_asked b)%nat then "Requesting..."
  else match fb_badge b with fb_success => "Sent!" | fb_error => "Failed" | fb_idle => "Get 10 NIL" end.
(** What a locked or missing wallet shows instead. *)
Definition faucet_offer (v : WalletView) : option string :=
  if negb (wv_connected v) || isWalletLocked v then
    Some (if isWalletLocked v then "Unlock to Request Funds" else "Connect to Request Funds")
  else None.
(** [handleUnlock] of the widget: the error, if any, is left to the browser. *)
Definition faucet_unlock {W} `{Accounts W} (w : W) : outcome unit * W :=
  if negb (can_request w) then (Ok tt, w)
  else let '(o, w') := requestAccounts w in (match o with Ok _ => Ok tt | Thrown e => Thrown e end, w').

(** ** StatusBar.tsx *)

Definition badge_text (s : ServiceStatus) : string := match s with SOk => "OK" | SWarn => "WARN" | SError => "ERROR" end.
Definition Badge (label : string) (s : ServiceStatus) : string := label +:+ ": " +:+ badge_text s.
Definition walletBadge (chainId : Z) (v : WalletView) : string * ServiceStatus :=
  if isWalletLocked v then ("Wallet: Locked", SWarn)
  else if wv_connected v && negb (wv_chainId v =? 0) then
    if wv_chainId v =? chainId then ("Wallet: Connected (match)", SOk)
    else ("Wallet chain " +:+ string_of_Z (wv_chainId v), SError)
  else ("Wallet: Not connected", SWarn).
(** The bar before the services answered, and after. *)
Record StatusShown := mkStatus { sb_lcd : ServiceStatus; sb_evm : ServiceStatus; sb_faucet : ServiceStatus; sb_chainIdMatch : ServiceStatus;
  sb_height : option dec; sb_chainName : option json; sb_evmChainId : option num }.
Definition status_init : StatusShown := mkStatus SWarn SWarn SWarn SWarn None None None.
Definition status_answer (res : StatusSummary) : StatusShown :=
  mkStatus (st_lcd res) (st_evm res) (st_faucet res) (st_chainIdMatch res) (st_height res) (st_networkName res) (st_evmChainId res).
Definition status_badges (chainId : Z) (s : StatusShown) (v : WalletView) : list string :=
  [Badge "LCD" (sb_lcd s); Badge "EVM" (sb_evm s); Badge "Faucet" (sb_faucet s); Badge "Chain ID" (sb_chainIdMatch s);
   Badge (walletBadge chainId v).1 (walletBadge chainId v).2].
(** [backend.replace('_', ' ')] *)
Definition backend_words (b : BackendName) : string :=
  match b with gateway => "gateway" | direct_sp => "direct sp" | libp2p => "libp2p" end.
Definition lastRoute (t : option DecisionTrace) : option string :=
  match t with Some t => match tr_chosen t with Some (b, _) => Some (backend_words b) | None => None end | None => None end.
Definition lastReason (t : option DecisionTrace) : string :=
  match t with
  | Some t =>
      match tr_chosen t, List.find (fun a => negb (at_ok a)) (tr_attempts t) with
      | Some _, Some a => match at_errorMessage a with Some m => if truthy m then " (" +:+ m +:+ ")" else "" | None => "" end
      | _, _ => ""
      end
  | None => ""
  end.
Definition preference_options (cfg : Config) : list (RoutePreference * string) :=
  [(auto, "Auto"); (prefer_gateway, "Prefer gateway"); (prefer_direct_sp, "Prefer direct SP")] ++
  (if cf_p2pEnabled cfg then [(prefer_p2p, "Prefer libp2p")] else []).

(** ** GatewayStatusWidget.tsx *)

(** [Object.entries] of an object; names that are array indices are not reordered. *)
Definition object_entries (j : option json) : list (string * json) := match j with Some (JObj fields) => fields | _ => [] end.
Definition joined (parts : list string) : string := join ", " parts.
Definition caps_text (details : option json) : string :=
  joined (map fst (List.filter (fun e => json_truthy e.2) (object_entries (match details with Some d => get_field d "capabilities" | None => None end)))).
Definition deps_text (details : option json) : string :=
  joined (map (fun e => e.1 +:+ ":" +:+ (if json_truthy e.2 then "ok" else "fail"))
    (object_entries (match details with Some d => get_field d "deps" | None => None end))).
Definition p2p_text (details : option json) : string :=
  match match details with Some d => get_field d "p2p_addrs" | None => None end with
  | Some (JArr l) => joined (map (fun x => match x with JNull => "" | _ => json_String x end) l)
  | _ => ""
  end.
Definition part (label value : string) : string := if truthy value then label +:+ value else "".
Definition gateway_text (st : GatewayStatus) : string :=
  match st with gw_connected => "Connected" | gw_connecting => "Connecting..." | gw_disconnected => "Disconnected" | gw_error => "Error" end.
Definition mode_text (details : option json) : string :=
  match match details with Some d => get_field d "mode" | None => None end with
  | Some m => if json_truthy m then " (mode=" +:+ json_String m +:+ ")" else ""
  | None => ""
  end.
Definition gateway_tooltip (st : GatewayStatus) (url : string) (error : option string) (details : option json) : string :=
  match st with
  | gw_connected => "Local Gateway connected at " +:+ url +:+ mode_text details +:+ part " | caps: " (caps_text details) +:+
      part " | deps: " (deps_text details) +:+ part " | p2p: " (p2p_text details)
  | gw_connecting => "Attempting to connect to local gateway at " +:+ url
  | gw_disconnected => "Local Gateway disconnected. " +:+ or_else (default "" error) "Service unreachable."
  | gw_error => "Error connecting to local gateway: " +:+ default "null" error
  end.

(** ** DealLivenessHeatmap.tsx *)

(** The tiers of the chart; names that every object has are left out. *)
Definition tierMap : list (string * Z) := [("Platinum", 3); ("Gold", 2); ("Silver", 1); ("Fail", 0)].
Record Point := mkPoint { pt_block : dec; pt_tierValue : Z; pt_tierLabel : string; pt_valid : bool; pt_creator : string; pt_id : string }.
Definition tier_or (p : ProofRow) (d : string) : string := or_else (default "" (pr_tier p)) d.
Definition point_of (p : ProofRow) : Point :=
  mkPoint (pr_blockHeight p) (default 0 (assoc (tier_or p "Fail") tierMap)) (tier_or p "Unknown") (pr_valid p) (pr_creator p) (pr_id p).
Definition heatmap_data (proofs : list ProofRow) : list Point :=
  map point_of (sort_desc (fun a b => dec_below (pr_blockHeight a) (pr_blockHeight b)) proofs).
(** The label of a tick of the axis. *)
Definition tick_label (val : Z) : string := match List.find (fun e => e.2 =? val) tierMap with Some e => e.1 | None => "" end.
Definition point_color (p : Point) : string :=
  if pt_valid p then
    if eqb (pt_tierLabel p) "Platinum" then "#22d3ee"
    else if eqb (pt_tierLabel p) "Gold" then "#fbbf24"
    else if eqb (pt_tierLabel p) "Silver" then "#94a3b8"
    else "#f87171"
  else "#ef4444".

(** ** pages/Leaderboard.tsx *)

Section Leaderboard.
Context {W : Type} `{Http W} (cfg : Config).
Record LeaderBoard := mkLeaderboard { le_world : W; le_providers : json; le_loading : bool }.
Definition leaderboard_init (w : W) : LeaderBoard := mkLeaderboard w (JArr []) true.
Definition on_leaderboard {A} (m : M W A) : M LeaderBoard A := fun b => let '(o, w) := m (le_world b) in (o, mkLeaderboard w (le_providers b) (le_loading b)).
(** [data.providers || []]; there is no field of [null]. *)
Definition providers_in (data : json) : outcome json :=
  match data with
  | JNull => mthrow (JsError "TypeError" "Cannot read properties of null (reading 'providers')")
  | _ => mret (match get_field data "providers" with Some p => if json_truthy p then p else JArr [] | None => JArr [] end)
  end.
Definition leaderboard_effect : M LeaderBoard unit :=
  try_catch
    (res ← on_leaderboard (fetch None (GET (cf_lcdBase cfg +:+ "/nilchain/nilchain/v1/providers")));
     data ← lift (rs_json res);
     providers ← lift (providers_in data);
     modify (fun b => mkLeaderboard (le_world b) providers false))
    (fun _ => modify (fun b => mkLeaderboard (le_world b) (le_providers b) false)).
End Leaderboard.
(** [Number(node.total_storage)] *)
Definition capacity (node : json) : dec := match get_field node "total_storage" with Some j => json_Number j | None => DNaN end.
Definition ranked (nodes : list json) : list json := sort_desc (fun a b => dec_below (capacity a) (capacity b)) nodes.
Inductive Medal := trophy | silver_medal | bronze_award.
Definition medal_of (index : nat) : option Medal :=
  match index with O => Some trophy | 1%nat => Some silver_medal | 2%nat => Some bronze_award | _ => None end.

(** ** ThemeContext.tsx *)

(** A stored theme may be any text. *)
Inductive Theme := theme_dark | theme_light | theme_system | theme_other (s : string).
Definition theme_name (t : Theme) : string :=
  match t with theme_dark => "dark" | theme_light => "light" | theme_system => "system" | theme_other s => s end.
Definition theme_named (s : string) : Theme :=
  if eqb s "dark" then theme_dark else if eqb s "light" then theme_light else if eqb s "system" then theme_system else theme_other s.
(** The page: the theme, what is stored, the classes of the root element, the icon (where
    the page has one), the preference of the system and whether it is listened to. *)
Record ThemePage := mkThemePage {
  tp_theme : Theme; tp_stored : option string; tp_classes : gset string; tp_favicon : option string; tp_prefers_dark : bool; tp_listening : bool
}.
Definition getSystemTheme (p : ThemePage) : string := if tp_prefers_dark p then "dark" else "light".
Definition favicon_of (resolved : string) : string := if eqb resolved "dark" then "/favicon-dark-32.png" else "/favicon-light-32.png".
Definition show_theme (resolved : string) (listening : bool) (p : ThemePage) : ThemePage :=
  mkThemePage (tp_theme p) (tp_stored p) ({[resolved]} ∪ (tp_classes p ∖ {["light"; "dark"]}))
    (match tp_favicon p with Some _ => Some (favicon_of resolved) | None => None end) (tp_prefers_dark p) listening.
(** The effect of another theme, its cleanup first. *)
Definition theme_effect (p : ThemePage) : ThemePage :=
  match tp_theme p with
  | theme_system => show_theme (getSystemTheme p) true p
  | t => show_theme (theme_name t) false p
  end.
Definition initial_theme (stored : option string) (defaultTheme : Theme) : Theme :=
  if opt_str stored then theme_named (default "" stored) else defaultTheme.
Definition setTheme (t : Theme) (p : ThemePage) : ThemePage :=
  let p' := mkThemePage t (Some (theme_name t)) (tp_classes p) (tp_favicon p) (tp_prefers_dark p) (tp_listening p) in
  if bool_decide (theme_name t = theme_name (tp_theme p)) then p' else theme_effect p'.
(** The system prefers another theme. *)
Definition system_changes (dark : bool) (p : ThemePage) : ThemePage :=
  let p' := mkThemePage (tp_theme p) (tp_stored p) (tp_classes p) (tp_favicon p) dark (tp_listening p) in
  if tp_listening p then show_theme (getSystemTheme p') true p' else p'.
Inductive theme_event := theme_set (t : Theme) | system_prefers (dark : bool).
Definition theme_step (p : ThemePage) (e : theme_event) : ThemePage :=
  match e with theme_set t => setTheme t p | system_prefers d => system_changes d p end.
Definition theme_mount (stored : option string) (defaultTheme : Theme) (icon : option string) (dark : bool) : ThemePage :=
  theme_effect (mkThemePage (initial_theme stored defaultTheme) stored ∅ icon dark false).

(** ** The wallet button *)

(** The header, the status bar and the deal form agree on the network wherever the wallet
    itself reports the chain that the wallet library reports, or nothing: the header
    offers a switch, the bar shows an error and the form's button switches, in the
    same states. *)
Theorem header_agrees_with_form chainId formatUnits balance v :
  wv_connected v = true -> isWalletLocked v = false -> wv_chainId v <> 0 ->
  wv_metamaskChainId v = None \/ wv_metamaskChainId v = Some (wv_chainId v) ->
  (exists a n, wallet_shown chainId formatUnits balance v = shown_account a n (isWrongNetwork chainId v)) /\
  ((walletBadge chainId v).2 = SError <-> isWrongNetwork chainId v = true) /\
  (create_label chainId v false = "Switch network" <-> isWrongNetwork chainId v = true).
Proof.
  intros Hc Hl Hz Hm. unfold wallet_shown, walletBadge, create_label. rewrite Hl, Hc; cbn [negb andb orb].
  assert (isWrongNetwork chainId v = negb (wv_chainId v =? chainId)) as Hw.
  { unfold isWrongNetwork, activeChainId. by destruct Hm as [-> | ->]. }
  rewrite Hw. destruct (Z.eqb_spec (wv_chainId v) 0); [done|]. cbn [negb]. split; [by do 2 eexists|].
  destruct (wv_chainId v =? chainId); cbn [negb snd]; (split; split); try done.
  destruct (_ || _); discriminate.
Qed.
Lemma header_agrees_with_form_witness :
  create_label 31337 (mkWalletView true (Some "0xab") 1 (Some 1) None wallet_unlocked None) false = "Switch network".
Proof.
  destruct (header_agrees_with_form 31337 (fun _ _ => "0") None (mkWalletView true (Some "0xab") 1 (Some 1) None wallet_unlocked None)) as (_ & _ & _ & Hl);
    [reflexivity|reflexivity|discriminate|by right|]. by apply Hl.
Defined.

Section WalletFacts.
Context {W : Type} `{ChainWallet W, Accounts W} (cfg : Config) (chainId : Z).

(** The handlers of the button settle, the spinner stops, and an error is shown exactly
    where the wallet refused; a switch that failed is never one of them. *)
Theorem wallet_button_settles (b : WalletButton W) :
  (exists b', handleUnlock cfg chainId b = (Ok tt, b') /\ wb_unlocking b' = false /\
     (wb_error b' = None <-> can_request (wb_world b) = true /\ is_ok (requestAccounts (wb_world b)).1 = true)) /\
  (exists b', handleConnect cfg chainId b = (Ok tt, b') /\ wb_unlocking b' = wb_unlocking b /\
     (wb_error b' = None <-> is_ok (connectAsync (switchNetwork cfg chainId (wb_world b)).2).1 = true)).
Proof.
  split.
  - unfold handleUnlock; rewrite bind_run; unfold set_wb_error at 1, modify at 1; rewrite bind_run; unfold modify at 1, finally, try_catch; cbn [wb_world wb_error wb_unlocking].
    rewrite bind_run; unfold in_wallet at 1; cbn [wb_world wb_error wb_unlocking]. destruct (can_request (wb_world b)); cbn [negb];
      [|by eexists; split; [reflexivity|split; [done|split; [|intros [? _]; done] ] ] ].
    rewrite bind_run; unfold in_wallet at 1; cbn [wb_world wb_error wb_unlocking]. destruct (requestAccounts (wb_world b)) as [ [a|e] w]; cbn [fst is_ok];
      (eexists; split; [reflexivity|split; [done|] ]); cbn; [done|]. split; [discriminate|by intros [_ ?] ].
  - unfold handleConnect; rewrite bind_run; unfold set_wb_error at 1, modify at 1, try_catch; rewrite bind_run; unfold in_wallet at 1, try_switch at 1; cbn [wb_world wb_error wb_unlocking].
    rewrite bind_run; unfold in_wallet at 1; cbn [wb_world wb_error wb_unlocking]. destruct (connectAsync _) as [ [a|e] w]; cbn [fst is_ok];
      (eexists; split; [reflexivity|split; [done|] ]); cbn; [done|]. split; discriminate.
Qed.
End WalletFacts.

(** ** The faucet button *)

Definition faucet_run (es : list faucet_event) (b : FaucetButton) : FaucetButton := fold_left (fun b e => faucet_step e b) es b.
(** A badge that is not idle has a timer that will clear it. *)
Definition clears (b : FaucetButton) : Prop := fb_badge b = fb_idle \/ (0 < fb_timers b)%nat.
Lemma faucet_clears es b : clears b -> clears (faucet_run es b).
Proof.
  revert b; induction es as [|e es IH]; intros b Hb; [done|]. apply IH. destruct e as [a|g|]; cbn [faucet_step].
  - destruct (_ || _); [done|by left].
  - destruct (fb_asked b); [done|right; cbn; lia].
  - destruct (fb_timers b); [done|by left].
Qed.
Lemma timers_run b : forall n, fb_timers b = n -> clears b ->
  faucet_run (replicate n faucet_timer) b = mkFaucet fb_idle (fb_asked b) 0.
Proof.
  intros n; revert b; induction n as [|n IH]; intros b Hn Hb; cbn [replicate faucet_run fold_left].
  - destruct b as [badge asked timers]; cbn in *; subst. destruct Hb as [Hb|Hb]; cbn in Hb; [by subst|lia].
  - cbn [faucet_step]. rewrite Hn. change (faucet_run (replicate n faucet_timer) (mkFaucet fb_idle (fb_asked b) n) = mkFaucet fb_idle (fb_asked b) 0).
    rewrite IH; [done|done|by left].
Qed.
(** The badge of the faucet always clears: after any presses, answers and timers, the
    timers that are left bring the button back to its offer, or to waiting for the
    request that is on its way. *)
Theorem faucet_badge_clears es :
  let b := faucet_run es faucet_init in
  let b' := faucet_run (replicate (fb_timers b) faucet_timer) b in
  fb_badge b' = fb_idle /\ fb_timers b' = 0%nat /\ fb_asked b' = fb_asked b /\
  faucet_label b' = (if (0 <? fb_asked b)%nat then "Requesting..." else "Get 10 NIL").
Proof.
  intros b b'. assert (clears b) as Hb by (apply faucet_clears; by left). subst b'. rewrite (timers_run b _ eq_refl Hb). done.
Qed.

(** ** The chart *)

Lemma sort_desc_ext {A} (f g : A -> A -> bool) (P : A -> Prop) : (forall x y, P x -> P y -> f x y = g x y) ->
  forall l, Forall P l -> sort_desc f l = sort_desc g l /\ Forall P (sort_desc g l).
Proof.
  intros Hfg. assert (forall x l, P x -> Forall P l -> insert_desc f x l = insert_desc g x l /\ Forall P (insert_desc g x l)) as Hins.
  { intros x l Hx; induction 1 as [|y l Hy Hl IH]; cbn [insert_desc]; [by repeat constructor|]. rewrite (Hfg y x) by done.
    destruct IH as [-> IH]. destruct (g y x); split; by repeat constructor. }
  unfold sort_desc. intros l Hl. assert (forall acc, Forall P acc ->
    fold_left (fun a x => insert_desc f x a) l acc = fold_left (fun a x => insert_desc g x a) l acc /\
    Forall P (fold_left (fun a x => insert_desc g x a) l acc)) as Hgen; [|apply Hgen; constructor].
  induction Hl as [|x l Hx Hl IH]; intros acc Hacc; cbn [fold_left]; [done|].
  destruct (Hins x acc Hx Hacc) as [-> Hp]. by apply IH.
Qed.
Lemma sort_by_whole {A} (d : A -> dec) (l : list A) : Forall (fun x => exists z, d x = DNum z 0) l ->
  sort_desc (fun a b => dec_below (d a) (d b)) l ≡ₚ l /\
  StronglySorted (fun a b => forall x y, d a = DNum x 0 -> d b = DNum y 0 -> y <= x) (sort_desc (fun a b => dec_below (d a) (d b)) l).
Proof.
  intros Hl. set (f := fun x => match d x with DNum z _ => z | _ => 0 end).
  destruct (sort_desc_ext (fun a b => dec_below (d a) (d b)) (fun a b => f a <? f b) (fun x => exists z, d x = DNum z 0)) with (l := l) as [-> _]; [|done|].
  - intros x y [a Ha] [b Hb]. subst f; cbn. rewrite Ha, Hb. change (dec_below (DNum a 0) (DNum b 0)) with (a * 1 <? b * 1). by rewrite !Z.mul_1_r.
  - split; [apply sort_desc_perm|]. pose proof (sort_descending f l) as Hs. unfold descending in Hs. induction Hs as [|x r Hr IH Hx]; constructor; [done|].
    eapply Forall_impl; [exact Hx|]. intros y Hy a b Ha Hb. subst f; cbn in Hy. by rewrite Ha, Hb in Hy.
Qed.

(** The chart shows every proof, the highest block first, and its axis names the tier
    that the point has. *)
Theorem heatmap_points proofs :
  Forall (fun p => exists z, pr_blockHeight p = DNum z 0) proofs ->
  heatmap_data proofs ≡ₚ map point_of proofs /\
  StronglySorted (fun a b => forall x y, pt_block a = DNum x 0 -> pt_block b = DNum y 0 -> y <= x) (heatmap_data proofs) /\
  forall p tier, pr_tier p = Some tier -> is_Some (assoc tier tierMap) -> tick_label (pt_tierValue (point_of p)) = pt_tierLabel (point_of p).
Proof.
  intros Hp. destruct (sort_by_whole pr_blockHeight proofs Hp) as [Hperm Hs]. unfold heatmap_data. split; [by apply Permutation_map|]. split.
  - clear Hperm. induction Hs as [|p l Hl IH Hh]; cbn [map]; [constructor|]. constructor; [done|]. apply Forall_map. eapply Forall_impl; [exact Hh|]. done.
  - intros p tier Ht [z Hz]. unfold point_of, tier_or; cbn [pt_tierValue pt_tierLabel]. rewrite Ht; cbn [default].
    unfold tierMap in Hz |- *; cbn [assoc] in Hz.
    destruct (eqb_spec "Platinum" tier) as [<-|]; [done|]. destruct (eqb_spec "Gold" tier) as [<-|]; [done|].
    destruct (eqb_spec "Silver" tier) as [<-|]; [done|]. destruct (eqb_spec "Fail" tier) as [<-|]; [done|]. discriminate.
Qed.

(** ** The ranking *)

(** The list of providers is ranked: each provider once, none above one that reports
    more capacity, and the trophy is that of a provider none reports more than. *)
Theorem leaderboard_ranked nodes :
  Forall (fun n => exists z, capacity n = DNum z 0) nodes ->
  ranked nodes ≡ₚ nodes /\
  (forall i j a b x y, ranked nodes !! i = Some a -> ranked nodes !! j = Some b -> (i < j)%nat -> capacity a = DNum x 0 -> capacity b = DNum y 0 -> y <= x) /\
  forall i a x, medal_of i = Some trophy -> ranked nodes !! i = Some a -> capacity a = DNum x 0 ->
    forall b y, b ∈ nodes -> capacity b = DNum y 0 -> y <= x.
Proof.
  intros Hn. destruct (sort_by_whole capacity nodes Hn) as [Hperm Hs]. fold (ranked nodes) in Hperm, Hs.
  assert (forall i j a b x y, ranked nodes !! i = Some a -> ranked nodes !! j = Some b -> (i < j)%nat -> capacity a = DNum x 0 -> capacity b = DNum y 0 -> y <= x) as Hord.
  { clear Hperm. induction Hs as [|n l Hl IH Hh]; intros [|i] [|j] a b x y Ha Hb Hij Hx Hy; cbn in Ha, Hb; try done; try lia.
    - injection Ha as <-. rewrite Forall_forall in Hh. apply list_elem_of_lookup_2 in Hb. by apply (Hh b).
    - apply (IH i j a b); auto; lia. }
  split; [done|split; [done|] ]. intros [|[|[|i] ] ] a x Hm Ha Hx b y Hb Hy; try discriminate.
  rewrite <- Hperm in Hb. apply list_elem_of_lookup_1 in Hb as [ [|j] Hj]; [|apply (Hord 0%nat (S j) a b); auto; lia].
  rewrite Ha in Hj; injection Hj as <-. rewrite Hx in Hy; injection Hy as <-; done.
Qed.
Definition some_nodes : list json :=
  [JObj [("address", JStr "nil1a"); ("total_storage", JStr "100")]; JObj [("address", JStr "nil1b"); ("total_storage", JStr "300")] ].
Lemma leaderboard_ranked_witness : ranked some_nodes ≡ₚ some_nodes.
Proof. apply leaderboard_ranked. repeat constructor; by eexists. Defined.

Section LeaderboardFacts.
Context {W : Type} `{Http W} (cfg : Config).
(** The page never stays loading, whatever the answer. *)
Lemma leaderboard_settles (b : LeaderBoard) : exists b', leaderboard_effect cfg b = (Ok tt, b') /\ le_loading b' = false.
Proof.
  unfold leaderboard_effect, try_catch. set (m := res ← _; _). assert (forall o b1, m b = (o, b1) -> o = Ok tt -> le_loading b1 = false) as Hm.
  { intros o b1; subst m; rewrite bind_run. destruct (on_leaderboard _ b) as [ [res|e] b2]; [|by intros [= <- <-] ].
    rewrite bind_run; unfold lift. destruct (rs_json res) as [data|e]; [|by intros [= <- <-] ]. rewrite bind_run.
    destruct (providers_in data) as [p|e]; [|by intros [= <- <-] ]. by intros [= <- <-]. }
  destruct (m b) as [ [ []|e] b1]; [|by eexists]. exists b1; split; [done|]. by apply (Hm (Ok tt)).
Qed.
End LeaderboardFacts.

(** ** The theme *)

(** The page shows its theme: one of the two classes, the icon that goes with it. *)
Definition resolved (p : ThemePage) : string := match tp_theme p with theme_system => getSystemTheme p | t => theme_name t end.
Definition plain (t : Theme) : Prop := match t with theme_other _ => False | _ => True end.
Definition themed (p : ThemePage) : Prop :=
  plain (tp_theme p) /\ tp_classes p = {[resolved p]} /\
  (tp_favicon p = None \/ tp_favicon p = Some (favicon_of (resolved p))) /\
  (tp_listening p = true <-> tp_theme p = theme_system).
Definition plain_event (e : theme_event) : Prop := match e with theme_set t => plain t | _ => True end.

Lemma show_theme_classes r listening p : (r = "dark" \/ r = "light") -> tp_classes p ⊆ {["dark"; "light"]} ->
  tp_classes (show_theme r listening p) = {[r]}.
Proof. intros Hr Hc. cbn. set_solver. Qed.
Lemma resolved_named p : plain (tp_theme p) -> resolved p = "dark" \/ resolved p = "light".
Proof. unfold resolved, getSystemTheme. destruct (tp_theme p), (tp_prefers_dark p); cbn; auto; done. Qed.
Lemma theme_effect_themed p : plain (tp_theme p) -> tp_classes p ⊆ {["dark"; "light"]} -> themed (theme_effect p).
Proof.
  intros Hp Hc. pose proof (resolved_named p Hp) as Hr. unfold themed, theme_effect, resolved in *.
  destruct (tp_theme p) eqn:Ht; cbn [plain theme_name] in *; [| | |done];
    (split; [by cbn; rewrite Ht|]; split; [cbn; rewrite ?Ht; set_solver|]; split; [cbn; rewrite ?Ht; destruct (tp_favicon p); auto|cbn; by rewrite Ht]).
Qed.
Lemma themed_step p e : themed p -> plain_event e -> themed (theme_step p e).
Proof.
  intros (Hp & Hc & Hf & Hl) He. assert (tp_classes p ⊆ {["dark"; "light"]}) as Hsub.
  { rewrite Hc. destruct (resolved_named p Hp) as [-> | ->]; set_solver. }
  destruct e as [t|d]; cbn [theme_step plain_event] in *.
  - unfold setTheme. case_bool_decide as Hn; [|by apply theme_effect_themed].
    assert (t = tp_theme p) as -> by (destruct t, (tp_theme p); cbn in *; done). destruct p; exact (conj Hp (conj Hc (conj Hf Hl))).
  - unfold system_changes. destruct (tp_listening p) eqn:El.
    + assert (tp_theme p = theme_system) as Ht by by apply Hl. set (p' := mkThemePage _ _ _ _ d _).
      assert (show_theme (getSystemTheme p') true p' = theme_effect p') as -> by (unfold theme_effect; subst p'; cbn [tp_theme]; by rewrite Ht).
      by apply theme_effect_themed.
    + assert (tp_theme p <> theme_system) as Ht by (intros Ht; by apply Hl in Ht).
      unfold themed, resolved in *; cbn. destruct (tp_theme p); done.
Qed.
(** The page always shows its theme.  From a mount with a stored theme that is one of the
    three, through any choices and any changes of the system's preference: the root has
    exactly the class of the theme, or of the system where the theme says so, never
    both; the icon goes with it; and the system is listened to exactly while the theme
    is the system's. *)
Theorem theme_is_shown stored d icon dark es :
  plain (initial_theme stored d) -> Forall plain_event es ->
  let p := fold_left theme_step es (theme_mount stored d icon dark) in
  tp_classes p = {[resolved p]} /\ (resolved p = "dark" \/ resolved p = "light") /\
  (tp_favicon p = None \/ tp_favicon p = Some (favicon_of (resolved p))) /\ (tp_listening p = true <-> tp_theme p = theme_system).
Proof.
  intros Hp Hes p. assert (themed p) as Ht; [|by destruct Ht as (Hpl & Hc & Hf & Hl); eauto using resolved_named].
  subst p. assert (themed (theme_mount stored d icon dark)) as Hm by (apply theme_effect_themed; [done|cbn; set_solver]).
  revert Hm. generalize (theme_mount stored d icon dark). induction Hes as [|e es He _ IH]; intros p Hm; [done|]. cbn [fold_left]. by apply IH, themed_step.
Qed.
Lemma theme_is_shown_witness :
  let p := fold_left theme_step [theme_set theme_system; system_prefers true] (theme_mount (Some "light") theme_system (Some "/favicon.png") false) in
  tp_classes p = {[resolved p]} /\ resolved p = "dark".
Proof.
  cbv zeta. destruct (theme_is_shown (Some "light") theme_system (Some "/favicon.png") false [theme_set theme_system; system_prefers true]) as (Hc & _);
    [exact I|by repeat constructor|]. split; [exact Hc|reflexivity].
Defined.
