(* ===== verification/DealView.v ===== *)
(** * What the deal explorer renders (components/DealDetail.tsx)

    The labels of a deal, the fields of the download range, the legend of the layout,
    the roots that are listed, the inspector of one MDU with its stripe view, and the
    selection of an MDU.  Which commitments and which heat stay on the page when another
    deal is shown: the component is not mounted again, and rendering a deal leaves both.

    A layout that the gateway sent is rendered as the typed one; a dash is [None]. *)
From S2P Require Import Prelude JsString JsNum TransportTypes Effects Bytes Text Router NilfsCodec Layout Nilfs Opfs NilfsOpfsFetch.
From S2P Require Import Hex Multiaddr Http Lcd GatewayClient P2p Config TransportHook Evm Eip712 FetchFlow NilWasm ShardPool GatewayWorker Sharding ShardLive SlabRoots Upload Persist.
From S2P Require Import Explorer ExplorerSlab ExplorerView Stats RecentFiles DealList FileActions.
#[local] Open Scope Z_scope.

(** ** The header of a deal *)

(** [Number.parseInt(s, 10)] *)
Definition parseInt10 (s : string) : option Z :=
  let l := trim_start (chars s) in
  let '(neg, l) := match l with "-"%char :: r => (true, r) | "+"%char :: r => (false, r) | r => (false, r) end in
  match span_digits l with
  | ([], _) => None
  | (d, _) => Some (round53 (if neg : bool then - digits_val d else digits_val d))
  end.
Definition mib_text (n : Z) : string := toFixed 2 n (1024 * 1024) +:+ " MB".
Definition dealSizeLabel (size : string) : string :=
  match parseInt10 size with Some n => if 0 <? n then mib_text n else "0 B" | None => "0 B" end.
Definition hasCommittedContent (deal : LcdDeal) : bool := negb (is_empty (trim (d_cid deal))).
Definition dealStatusLabel (deal : LcdDeal) : string := if hasCommittedContent deal then "Active" else "Empty".

Inductive Redundancy := mode2_rs (k m : dec) | mode1_times (replicas : option dec).
Definition hint_is_mode2 (hint : ServiceHintInfo) : bool := match hint_mode hint with mode2 => true | _ => false end.
Definition redundancyLabel (hint : ServiceHintInfo) : Redundancy :=
  match hint_rsK hint, hint_rsM hint with
  | Some k, Some m => if hint_is_mode2 hint && dec_truthy k && dec_truthy m then mode2_rs k m else mode1_times (hint_replicas hint)
  | _, _ => mode1_times (hint_replicas hint)
  end.

(** The grid, for whole slot counts. *)
Definition whole_dec (d : dec) : option Z := match d with DNum m e => if 0 <=? e then Some (m * 10 ^ e) else None | _ => None end.
Record StripeLayout := mkStripeLayout { st_k : Z; st_m : Z; st_slots : Z; st_rows : Z; st_isMode2 : bool }.
Definition stripeLayout (hint : ServiceHintInfo) : option StripeLayout :=
  k ← whole_dec (default (DNum 8 0) (hint_rsK hint));
  m ← whole_dec (default (DNum 4 0) (hint_rsM hint));
  Some (mkStripeLayout k m (k + m) (stripe_rows k)
    (hint_is_mode2 hint && match hint_rsK hint, hint_rsM hint with Some k, Some m => dec_truthy k && dec_truthy m | _, _ => false end)).

(** ** The info tab *)

Definition stake_cell (amount : string) : option string := if truthy amount then Some (amount +:+ " stake") else None.
Record ProviderRow := mkProviderRow { pr_slot : option Z; pr_address : string; pr_status : option string; pr_endpoint : option string }.
Definition provider_row (mode2 : bool) (providers : gmap string ProviderInfo) (idx : nat) (p : string) : ProviderRow :=
  mkProviderRow (if mode2 then Some (Z.of_nat idx) else None) p
    (match providers !! p ≫= pi_status with Some s => if truthy s then Some s else None | None => None end)
    (match providers !! p ≫= pi_endpoints with Some (ep :: _) => Some ep | _ => None end).
Definition provider_rows (deal : LcdDeal) (providers : gmap string ProviderInfo) : list ProviderRow :=
  imap (provider_row (hint_is_mode2 (parseServiceHint (Some (d_service_hint deal)))) providers) (d_providers deal).

(** ** The files tab *)

(** [Math.max(0, Number(v || 0) || 0)] *)
Definition range_input (v : string) : dec :=
  match (if truthy v then Number_of_string v else DNum 0 0) with
  | DNum m e => if 0 <? m then DNum m e else DNum 0 0
  | DInf false => DInf false
  | DInf true | DNaN => DNum 0 0
  end.
Definition counted (p : FetchProgress) (done all : Z) : option string :=
  match fp_phase p with idle => None | _ => Some (string_of_Z done +:+ "/" +:+ string_of_Z all) end.
Definition chunks_cell (p : FetchProgress) : option string := counted p (fp_chunksFetched p) (fp_chunkCount p).
Definition receipts_cell (p : FetchProgress) : option string := counted p (fp_receiptsSubmitted p) (fp_receiptsTotal p).
Definition receipt_line (s : ReceiptStatus) (receiptError : option string) : option string :=
  match s with
  | rs_idle => None
  | rs_submitted => Some "Receipt submitted on-chain"
  | rs_failed => Some ("Receipt failed" +:+ match receiptError with Some m => if truthy m then ": " +:+ m else "" | None => "" end)
  end.
Inductive FilesShown := files_no_content | files_loading | files_rows (n : Z) | files_none.
Definition table_length (t : FileTable) : Z := match t with table_sent l => zlen l | table_parsed l => zlen l end.
Definition files_shown (deal : LcdDeal) (v : FilesView) : FilesShown :=
  if negb (truthy (d_cid deal)) then files_no_content
  else if fv_loading v then files_loading
  else match fv_files v with
       | Some t => if 0 <? table_length t then files_rows (table_length t) else files_none
       | None => files_none
       end.

(** ** The manifest tab *)

(** A text, or its first and last characters around an ellipsis. *)
Inductive ShortHex := hex_dash | hex_whole (s : string) | hex_cut (front back : string).
Definition shortHex (hex : string) (head tail : nat) : ShortHex :=
  let l := chars hex in
  if is_empty hex then hex_dash
  else if (length l <=? 2 + head + tail)%nat then hex_whole hex
  else hex_cut (str (take (2 + head) l)) (str (drop (length l - tail) l)).

(** The numbers of the first and the last MDU. *)
Definition witness_legend (l : SlabLayoutData) : option (Z * Z) := if 0 <? sl_witness_mdus l then Some (1, sl_witness_mdus l) else None.
Definition user_legend (l : SlabLayoutData) : option (Z * Z) :=
  if 0 <? sl_user_mdus l then Some (1 + sl_witness_mdus l, sl_total_mdus l - 1) else None.
Definition inspector_options (l : SlabLayoutData) : list (Z * segment_kind) :=
  map (fun idx => (idx, mdu_kind_at idx (sl_witness_mdus l))) (seqZ 0 (sl_total_mdus l)).
(** What the coloured bar says of every MDU. *)
Definition segment_mdus (sg : SlabSegment) : list (Z * segment_kind) :=
  map (fun idx => (idx, sg_kind sg)) (seqZ (sg_start_index sg) (sg_count sg)).
Definition bar_mdus (l : SlabLayoutData) : list (Z * segment_kind) := flat_map segment_mdus (sl_segments l).

(** [Root[i] -> MDU #j]: the records that have an entry in the table. *)
Definition root_table (m : ManifestInfoData) : list (Z * MduRootRecord) :=
  omap (fun r => i ← mr_root_table_index r; Some (i, r)) (mi_roots m).
Definition root_table_count (l : SlabLayoutData) : Z := sl_witness_mdus l + sl_user_mdus l.

(** ** The selection *)

Definition kzg_index (k : Shown MduKzgData) : option Z :=
  match k with worked_out k => Some (mk_mdu_index k) | sent j => whole j "mdu_index" end.
Definition layout_root (s : Shown SlabLayoutData) : string :=
  match s with worked_out l => sl_manifest_root l | sent j => match get_field j "manifest_root" with Some (JStr r) => r | _ => "" end end.
Definition info_root (s : Shown ManifestInfoData) : string :=
  match s with worked_out m => mi_manifest_root m | sent j => match get_field j "manifest_root" with Some (JStr r) => r | _ => "" end end.

Section DealView.
Context {Ctx : Type} `{Kzg Ctx} {W : Type} `{Clock W, Router.Timers W, Http W, TraceStore W}.
Context (cfg : Config) (preference : RoutePreference) (nilAddress : string).
Implicit Types e : @Explorer Ctx W.

(** The component with the deal it is given and the MDU that is selected. *)
Record DealTab := mkDealTab { dt_explorer : @Explorer Ctx W; dt_deal : LcdDeal; dt_selected : Z }.

(** The manifest tab has its panels only where a layout is shown that is not loading. *)
Definition slab_shown (v : SlabView) : bool := negb (sv_loading v) && bool_decide (is_Some (sv_slab v)).
(** What the inspector shows below its list of MDUs. *)
Definition inspector (t : DealTab) : option (Shown MduKzgData) :=
  if slab_shown (ex_slab (dt_explorer t)) then
    k ← kv_kzg (ex_kzg (dt_explorer t));
    if bool_decide (kzg_index k = Some (dt_selected t)) then Some k else None
  else None.

(** Another deal is given; an MDU is chosen from the list; [Load Commitments] is
    pressed; [Inspect] is pressed beside the root of an MDU. *)
Inductive tab_event := ev_deal (deal : LcdDeal) | ev_choose (next : Z) | ev_load | ev_inspect (idx : Z).
Definition ask_kzg (deal : LcdDeal) (root : string) (i : Z) : M Explorer unit :=
  fetchMduKzg cfg preference (default "" (head (d_providers deal))) root i (d_id deal) nilAddress.
Definition clear_kzg : M (@Explorer Ctx W) unit := update_kzg (fun k => mkKzgView None (kv_loading k) None).
Definition tab_step (t : DealTab) (ev : tab_event) : DealTab :=
  let e := dt_explorer t in
  match ev with
  | ev_deal deal => mkDealTab (show_deal cfg preference deal nilAddress e).2 deal (dt_selected t)
  | ev_choose next => mkDealTab (clear_kzg e).2 (dt_deal t) next
  | ev_load =>
      match sv_slab (ex_slab e) with
      | Some s => mkDealTab (ask_kzg (dt_deal t) (layout_root s) (dt_selected t) e).2 (dt_deal t) (dt_selected t)
      | None => t
      end
  | ev_inspect idx =>
      match mv_info (ex_manifest e) with
      | Some info => mkDealTab (ask_kzg (dt_deal t) (info_root info) idx e).2 (dt_deal t) idx
      | None => t
      end
  end.

(** ** Views that an operation leaves *)

(** A part of the page that none of the requests of a deal's files and manifest writes to. *)
Class Rest {X : Type} (proj : @Explorer Ctx W -> X) : Prop :=
  rest : forall e w t o m f, proj (mkExplorer w t o (ex_slab e) m (ex_kzg e) f (ex_heat e) (ex_providers e)) = proj e.
(** Nor the request of its slab. *)
Class Frame {X : Type} (proj : @Explorer Ctx W -> X) : Prop :=
  frame : forall e w t o s m f, proj (mkExplorer w t o s m (ex_kzg e) f (ex_heat e) (ex_providers e)) = proj e.
#[global] Instance frame_rest {X} (proj : @Explorer Ctx W -> X) : Frame proj -> Rest proj.
Proof. intros Hf e w t o m f; apply Hf. Qed.
#[global] Instance rest_slab : Rest ex_slab.
Proof. done. Qed.
#[global] Instance frame_kzg : Frame ex_kzg.
Proof. done. Qed.
#[global] Instance frame_heat : Frame ex_heat.
Proof. done. Qed.
#[global] Instance frame_providers : Frame ex_providers.
Proof. done. Qed.

Definition leaves {X A} (proj : @Explorer Ctx W -> X) (m : M Explorer A) : Prop := forall e, proj (m e).2 = proj e.
Create HintDb leaves.

Section Leaves.
Context {X : Type} (proj : @Explorer Ctx W -> X).
Lemma leave_ret {A} (a : A) : leaves proj (mret a).
Proof. by intros e. Qed.
Lemma leave_lift {A} (r : outcome A) : leaves proj (lift r).
Proof. by intros e. Qed.
Lemma leave_error {A} msg : leaves proj (js_error msg : M Explorer A).
Proof. by intros e. Qed.
Lemma leave_throw {A} (err : jserr) : leaves proj (mthrow err : M Explorer A).
Proof. by intros e. Qed.
Lemma leave_route cid dealId owner primary : leaves proj (route_to cfg cid dealId owner primary).
Proof. by intros e. Qed.
Lemma leave_modify f : (forall e, proj (f e) = proj e) -> leaves proj (modify f).
Proof. intros Hf e; apply Hf. Qed.
Lemma leave_bind {A B} (m : M Explorer A) (k : A -> M Explorer B) : leaves proj m -> (forall a, leaves proj (k a)) -> leaves proj (x ← m; k x).
Proof. intros Hm Hk e; rewrite bind_run; specialize (Hm e). destruct (m e) as [ [a|err] e1]; cbn [snd] in *; [by rewrite Hk|done]. Qed.
Lemma leave_catch {A} (m : M Explorer A) h : leaves proj m -> (forall err, leaves proj (h err)) -> leaves proj (try_catch m h).
Proof. intros Hm Hh e; unfold try_catch; specialize (Hm e). destruct (m e) as [ [a|err] e1]; cbn [snd] in *; [done|by rewrite Hh]. Qed.
Lemma leave_finally {A} (m : M Explorer A) f : leaves proj m -> (forall e, proj (f e) = proj e) -> leaves proj (finally m f).
Proof. intros Hm Hf e; unfold finally; specialize (Hm e). destruct (m e) as [r e1]; cbn [snd] in *; by rewrite Hf. Qed.
Lemma leave_fold {A B} (f : A -> B -> M Explorer A) : (forall a b, leaves proj (f a b)) -> forall l a, leaves proj (fold_m f a l).
Proof. intros Hf l; induction l as [|b l IH]; intros a; cbn [fold_m]; [apply leave_ret|]. apply leave_bind; [apply Hf|exact IH]. Qed.

Ltac leave := repeat first
  [ solve [eauto with leaves]
  | apply leave_bind; [|intros ?] | apply leave_catch; [|intros ?] | apply leave_finally; [|intros ?; first [apply rest|apply frame] ] | apply leave_fold; intros ? ?
  | match goal with |- leaves _ (match ?x with _ => _ end) => destruct x end ].

Section LeavesRest.
Context `{!Rest proj}.
Lemma leave_net {A} (m : M W A) : leaves proj (on_net m).
Proof. intros e; unfold on_net; destruct (m (ex_world e)); apply (rest e). Qed.
Lemma leave_tab {A} (m : M Tab A) : leaves proj (on_tab m).
Proof. intros e; unfold on_tab; destruct (m (ex_tab e)); apply (rest e). Qed.
Lemma leave_manifest f : leaves proj (update_manifest f).
Proof. intros e; apply (rest e). Qed.
Lemma leave_files f : leaves proj (update_files f).
Proof. intros e; apply (rest e). Qed.
#[local] Hint Resolve leave_ret leave_lift leave_error leave_throw leave_route leave_net leave_tab leave_manifest leave_files : leaves.

Lemma leave_wasm : leaves proj ensureWasmReady.
Proof.
  intros e; unfold ensureWasmReady; destruct (ex_ready e) as [o|]; [done|]. assert (leaves proj load_wasm) as Hl by (unfold load_wasm; leave).
  specialize (Hl e); destruct (load_wasm e) as [o e']; cbn [snd] in *. rewrite <- Hl; apply (rest e').
Qed.
#[local] Hint Resolve leave_wasm : leaves.
Lemma leave_fetchFiles primary cid dealId owner : leaves proj (fetchFiles cfg preference primary cid dealId owner).
Proof. unfold fetchFiles, fetchLocalFiles, local_root, stored, setFiles; leave. Qed.
Lemma leave_fetchManifestInfo primary cid dealId owner : leaves proj (fetchManifestInfo cfg preference primary cid dealId owner).
Proof. unfold fetchManifestInfo, compute_manifest_info, local_slab, local_root, stored, manifest_step; leave. Qed.
End LeavesRest.

Context `{!Frame proj}.
#[local] Hint Resolve leave_ret leave_lift leave_error leave_throw leave_route leave_net leave_tab leave_manifest leave_files leave_wasm frame_rest : leaves.
Lemma leave_slab f : leaves proj (update_slab f).
Proof. intros e; apply (frame e). Qed.
#[local] Hint Resolve leave_slab : leaves.
Lemma leave_fetchSlab primary cid dealId owner : leaves proj (fetchSlab cfg preference primary cid dealId owner).
Proof. unfold fetchSlab, infer_slab, local_root, stored; leave. Qed.
#[local] Hint Resolve leave_fetchSlab leave_fetchFiles leave_fetchManifestInfo : leaves.
Lemma leave_deal deal :
  leaves proj (fetchHeat cfg (d_id deal)) -> leaves proj (show_deal cfg preference deal nilAddress).
Proof. intros Hh; unfold show_deal; cbv zeta. leave. unfold empty_deal; apply leave_modify; intros e; apply (frame e). Qed.
End Leaves.

(** ** Another deal *)

Lemma heat_leaves {X} (proj : @Explorer Ctx W -> X) `{!Rest proj} id : (forall h e, proj (set_heat h e) = proj e) -> leaves proj (fetchHeat cfg id).
Proof.
  intros Hs; unfold fetchHeat. apply leave_catch; [|intros; apply leave_ret]. apply leave_bind; [by apply leave_net|intros res].
  destruct (rs_ok res); [|apply leave_ret]. apply leave_bind; [apply leave_lift|intros j].
  destruct j; try apply leave_throw; (destruct (get_field _ "heat") as [h|]; [destruct (json_truthy h)|]; [apply leave_modify; intros e; apply Hs|apply leave_ret..]).
Qed.
Lemma deal_leaves_kzg deal : leaves ex_kzg (show_deal cfg preference deal nilAddress).
Proof. apply leave_deal; [apply _|]. by apply heat_leaves; [apply _|]. Qed.

(** The deals that are given after one another. *)
Definition give (t : DealTab) (deals : list LcdDeal) : DealTab := fold_left (fun t deal => tab_step t (ev_deal deal)) deals t.
Definition given_last (t : DealTab) (deals : list LcdDeal) : LcdDeal := fold_left (fun _ deal => deal) deals (dt_deal t).
Lemma give_kept deals : forall t, dt_selected (give t deals) = dt_selected t /\ ex_kzg (dt_explorer (give t deals)) = ex_kzg (dt_explorer t) /\
  dt_deal (give t deals) = given_last t deals.
Proof.
  unfold give, given_last; induction deals as [|deal deals IH]; intros t; [done|]. cbn [fold_left].
  destruct (IH (tab_step t (ev_deal deal))) as (-> & -> & ->). by split; [|split; [apply deal_leaves_kzg|] ].
Qed.

(** A layout that is shown stays, or is replaced, where a deal with content is given. *)
Lemma deal_keeps_slab deal e : truthy (d_cid deal) = true -> slab_shown (ex_slab e) = true ->
  slab_shown (ex_slab (show_deal cfg preference deal nilAddress e).2) = true.
Proof.
  intros Hc [_ Hs%bool_decide_eq_true]%andb_true_iff. unfold show_deal; cbv zeta; rewrite Hc.
  set (primary := default "" _). set (owner := or_else _ _).
  destruct (fetchSlab_source cfg preference primary (d_cid deal) (d_id deal) owner e) as (e1 & Hr & Hf).
  assert (leaves ex_slab (fetchFiles cfg preference primary (d_cid deal) (d_id deal) owner ;;
    fetchManifestInfo cfg preference primary (d_cid deal) (d_id deal) owner)) as Kf.
  { apply leave_bind; [by apply leave_fetchFiles; apply _|intros _; by apply leave_fetchManifestInfo; apply _]. }
  assert (leaves ex_slab (update_files (file_error None) ;; fetchHeat cfg (d_id deal))) as Kh.
  { apply leave_bind; [apply leave_files; apply _|intros _; by apply heat_leaves; [apply _|] ]. }
  assert (slab_shown (ex_slab e1) = true) as Hs1.
  { destruct Hf as [result w' _|err w' l fs' _ _ _ _|err w' _ _]; unfold slab_shown; cbn [sv_loading sv_slab negb andb]; by rewrite bool_decide_eq_true_2 by eauto. }
  rewrite bind_run, bind_run, Hr. specialize (Kf e1). revert Kf; generalize (fetchFiles cfg preference primary (d_cid deal) (d_id deal) owner ;;
    fetchManifestInfo cfg preference primary (d_cid deal) (d_id deal) owner); intros m Kf.
  destruct (m e1) as [ [ [] |err] e2]; cbn [snd] in *; [|by rewrite Kf]. by rewrite Kh, Kf.
Qed.

(** C39: The inspector outlives the deal.  The component is not mounted again when another
    deal is given, and rendering a deal resets neither the selected MDU nor its
    commitments.  Whatever deals are given, and whatever the network and the store answer
    to them: wherever a layout is shown under the last deal, the inspector shows the
    commitments that were loaded for the first one, as those of the same MDU number.
    If every deal given has content, a layout is shown, the last deal's or an earlier
    one's, and with it those commitments. *)
Theorem commitments_outlive_deal t deals k : inspector t = Some k ->
  let t' := give t deals in
  dt_deal t' = given_last t deals /\
  inspector t' = (if slab_shown (ex_slab (dt_explorer t')) then Some k else None) /\
  (Forall (fun deal => truthy (d_cid deal) = true) deals -> inspector t' = Some k).
Proof.
  intros Hk t'; destruct (give_kept deals t) as (Hs & He & Hd). split; [exact Hd|].
  assert (inspector t' = if slab_shown (ex_slab (dt_explorer t')) then Some k else None) as Hi.
  { unfold inspector in Hk |- *; fold t' in Hs, He; rewrite Hs, He.
    destruct (slab_shown (ex_slab (dt_explorer t))); [|discriminate Hk]. by rewrite Hk. }
  split; [exact Hi|]. intros Hall. assert (slab_shown (ex_slab (dt_explorer t)) = true) as Hsh.
  { unfold inspector in Hk; by destruct (slab_shown _). }
  assert (slab_shown (ex_slab (dt_explorer t')) = true) as Hsh'; [|by rewrite Hi, Hsh'].
  clear -Hall Hsh. subst t'; unfold give; revert t Hsh; induction Hall as [|deal deals Hc _ IH]; intros t Hsh; [done|].
  cbn [fold_left]. apply IH. by apply deal_keeps_slab.
Qed.

(** Choosing another MDU does clear them. *)
Lemma choose_clears t next : inspector (tab_step t (ev_choose next)) = None.
Proof. unfold inspector; by destruct (slab_shown _). Qed.
(** A deal without content hides the panel, but not for good: they are still there. *)
Lemma empty_deal_hides t deal : truthy (d_cid deal) = false -> inspector (tab_step t (ev_deal deal)) = None.
Proof.
  intros Hc; unfold inspector, slab_shown. cbn [tab_step dt_explorer]. unfold show_deal; cbv zeta; rewrite Hc.
  assert (leaves ex_slab (update_files (file_error None) ;; fetchHeat cfg (d_id deal))) as Kh.
  { apply leave_bind; [apply leave_files; apply _|intros _; by apply heat_leaves; [apply _|] ]. }
  rewrite bind_run; unfold empty_deal, modify; cbv beta iota. by rewrite Kh.
Qed.

(** The heat of the page is left too, where the chain does not answer for the deal. *)
Definition heat_unanswered (dealId : string) : Prop := forall w : W,
  match fetch None (GET (cf_lcdBase cfg +:+ "/nilchain/nilchain/v1/deals/" +:+ dealId +:+ "/heat")) w with
  | (Ok res, _) => rs_ok res = false
  | (Thrown _, _) => True
  end.
Theorem heat_outlives_deal deal e : heat_unanswered (d_id deal) -> ex_heat (show_deal cfg preference deal nilAddress e).2 = ex_heat e.
Proof.
  intros Hh; revert e; apply leave_deal; [apply _|]. intros e. unfold fetchHeat, try_catch; rewrite bind_run; unfold on_net.
  specialize (Hh (ex_world e)). destruct (fetch _ _ _) as [ [res|err] w]; [|done]. by rewrite Hh.
Qed.

(** ** Where the commitments come from *)

Inductive kzg_from (root : string) (i : Z) : KzgView -> Prop :=
  | kzg_sent j : kzg_from root i (mkKzgView (Some (sent j)) false None)
  | kzg_worked_out k : mk_manifest_root k = root -> mk_mdu_index k = i -> mk_blobs k <> [] ->
      kzg_from root i (mkKzgView (Some (worked_out k)) false None)
  | kzg_failed msg : msg <> "" -> kzg_from root i (mkKzgView None false (Some msg)).

Lemma leave_local_kzg root dealId : leaves (ex_kzg (Ctx := Ctx) (W := W)) (local_slab root dealId).
Proof. unfold local_slab, local_root, stored. destruct (is_empty dealId); [apply leave_error|]. apply leave_bind; [by apply leave_tab; apply _|]. intros [m|]; [destruct (_ && _)|]; (apply leave_ret || apply leave_error). Qed.
Lemma compute_kzg_from root i dealId e r e' : compute_mdu_kzg root i dealId e = (r, e') ->
  match r with
  | Ok _ => exists k, ex_kzg e' = mkKzgView (Some (worked_out k)) (kv_loading (ex_kzg e)) (kv_error (ex_kzg e)) /\
      mk_manifest_root k = root /\ mk_mdu_index k = i /\ mk_blobs k <> []
  | Thrown _ => ex_kzg e' = ex_kzg e
  end.
Proof.
  unfold compute_mdu_kzg. rewrite bind_run. pose proof (leave_local_kzg root dealId e) as Hl. destruct (local_slab root dealId e) as [ [ [] |err] e1]; cbn [snd] in Hl; [|by intros [= <- <-] ].
  rewrite bind_run. pose proof (leave_tab ex_kzg (on_store (readMdu dealId i)) e1) as Hm. unfold stored.
  destruct (on_tab _ e1) as [ [ [data|]|err] e2]; cbn [snd] in Hm; rewrite Hl in Hm; [|intros [= <- <-]; exact Hm..].
  rewrite bind_run. pose proof (leave_wasm ex_kzg e2) as Hw. destruct (ensureWasmReady e2) as [ [ [] |err] e3]; cbn [snd] in Hw; rewrite Hm in Hw; [|by intros [= <- <-] ].
  rewrite bind_run. pose proof (leave_tab ex_kzg (call_shardFile data) e3) as Hs. destruct (on_tab _ e3) as [ [ [witness root']|err] e4]; cbn [snd] in Hs; rewrite Hw in Hs; [|by intros [= <- <-] ].
  destruct (negb _); [by intros [= <- <-]|]. destruct (Z.eqb_spec (zlen witness) 0) as [|Hz]; [by intros [= <- <-]|]. cbn [orb].
  destruct (Z.eqb_spec (zlen witness mod 48) 0) as [Hmod|]; [|by intros [= <- <-] ]. cbn [negb]. intros [= <- <-].
  eexists; split; [cbn [set_kzg_view ex_kzg]; by rewrite Hs|]. cbn [mk_manifest_root mk_mdu_index mk_blobs]. split; [done|split; [done|] ].
  intros Hnil%map_eq_nil%(f_equal zlen); unfold chunks_exact in Hnil; rewrite zlen_map, zlen_seqZ in Hnil by (apply Z.div_pos; [apply zlen_nonneg|done]).
  change (zlen []) with 0 in Hnil. apply Hz. pose proof (Z.div_mod (zlen witness) 48 ltac:(done)); lia.
Qed.

(** Loading the commitments of an MDU settles with its flag off, whatever the
    network, the store and the worker do: the gateway's answer is shown; or commitments
    that were worked out from the kept slab, which are of the MDU that was asked for,
    under the root that was asked for, and not empty; or nothing, with an error text
    that is not empty. *)
Theorem fetchMduKzg_source primary root i dealId owner e :
  exists e', fetchMduKzg cfg preference primary root i dealId owner e = (Ok tt, e') /\ kzg_from root i (ex_kzg e').
Proof.
  unfold fetchMduKzg. rewrite bind_run; unfold update_kzg at 1, modify. unfold finally, try_catch at 1.
  rewrite bind_run; unfold route_to. rewrite bind_run.
  match goal with |- context [on_net ?m ?e1] => pose proof (leave_net ex_kzg m e1) as Hn; destruct (on_net m e1) as [ [result|err] e2] end.
  { eexists; split; [reflexivity|]. cbn [snd set_kzg_view ex_kzg update_kzg modify] in *. rewrite Hn; constructor. }
  unfold try_catch; pose proof (compute_kzg_from root i dealId e2) as Hc. destruct (compute_mdu_kzg root i dealId e2) as [ [ [] |err2] e3]; specialize (Hc _ _ eq_refl); cbv beta iota in Hc.
  - destruct Hc as (k & Hk & Hr & Hi & Hb). eexists; split; [reflexivity|]. cbn [snd set_kzg_view ex_kzg kv_kzg kv_error] in *. rewrite Hk; cbn [kv_kzg kv_error]. rewrite Hn; by apply kzg_worked_out.
  - eexists; split; [reflexivity|]. cbn [snd set_kzg_view ex_kzg kv_kzg kv_error update_kzg modify] in *. apply kzg_failed. unfold or_else. by destruct (err_message err).
Qed.
End DealView.

(** ** The layout, the list and the legend agree *)

Lemma bar_map f n c : forall i, (forall k, i <= k < i + c -> f k = n) -> map (fun idx => (idx, n)) (seqZ i c) = map (fun idx : Z => (idx, f idx)) (seqZ i c) :> list (Z * segment_kind).
Proof. intros i Hf; apply map_ext_in; intros k Hk%list_elem_of_In%elem_of_seqZ. by rewrite Hf. Qed.

Lemma bar_segments w u : 0 <= w -> 0 <= u ->
  flat_map segment_mdus (layout_segments w u) = map (fun idx => (idx, mdu_kind_at idx w)) (seqZ 0 (1 + w + u)).
Proof.
  intros Hw Hu. rewrite <- Z.add_assoc, !seqZ_app, !map_app by lia. unfold layout_segments. cbn [app flat_map]. f_equal.
  rewrite flat_map_app. f_equal.
  - destruct (Z.ltb_spec 0 w); [|by replace w with 0 by lia]. cbn [flat_map segment_mdus sg_kind sg_start_index sg_count]. rewrite app_nil_r.
    apply bar_map; intros k Hk; unfold mdu_kind_at. destruct (Z.eqb_spec k 0); [lia|]. by destruct (Z.leb_spec k w); [|lia].
  - destruct (Z.ltb_spec 0 u); [|by replace u with 0 by lia]. cbn [flat_map segment_mdus sg_kind sg_start_index sg_count]. rewrite app_nil_r.
    apply bar_map; intros k Hk; unfold mdu_kind_at. destruct (Z.eqb_spec k 0); [lia|]. by destruct (Z.leb_spec k w); [lia|].
Qed.

(** C24: A layout that the page worked out names every MDU once and the same everywhere: the
    coloured bar, the list of the inspector and the kind that is put on commitments that
    are worked out; the legend names the first and the last of each kind. *)
Theorem layout_views_agree d files fs fs' cid l : inferWitnessCountFromOpfs d files fs = (Ok l, fs') ->
  let s := local_layout cid files l in
  bar_mdus s = inspector_options s /\
  Forall (fun o => kzg_kind (Some (worked_out s)) o.1 = o.2) (inspector_options s) /\
  (forall i, (i, seg_witness) ∈ inspector_options s <-> exists a b, witness_legend s = Some (a, b) /\ a <= i <= b) /\
  (forall i, (i, seg_user) ∈ inspector_options s <-> exists a b, user_legend s = Some (a, b) /\ a <= i <= b).
Proof.
  intros (Hw & Hu & Ht)%inferred_counts s. assert (forall i k, (i, k) ∈ inspector_options s <-> 0 <= i < totalMdus l /\ mdu_kind_at i (witnessCount l) = k) as Hin.
  { intros i k; unfold inspector_options. rewrite list_elem_of_In, in_map_iff. cbn [s local_layout sl_witness_mdus sl_total_mdus]. split.
    - intros (j & [= <- <-] & Hj%list_elem_of_In%elem_of_seqZ). split; [lia|done].
    - intros [Hi <-]. exists i; split; [done|]. apply list_elem_of_In, elem_of_seqZ; lia. }
  split; [|split; [|split] ].
  - unfold bar_mdus, inspector_options; cbn [s local_layout sl_segments sl_witness_mdus sl_total_mdus]. rewrite Ht; by apply bar_segments.
  - apply Forall_forall; intros [i k] [Hi <-]%Hin. cbn [fst snd]. unfold kzg_kind; cbn [shown_layout s local_layout sl_total_mdus sl_witness_mdus dec_pos].
    destruct (Z.ltb_spec 0 (totalMdus l)); [|lia]. unfold mdu_kind_at, dec_geb, dec_ltb. cbn [Z.leb Z.compare]. rewrite Z.pow_0_r, Z.mul_1_r.
    destruct (Z.eqb_spec i 0), (Z.ltb_spec (witnessCount l) i), (Z.leb_spec i (witnessCount l)); try reflexivity; lia.
  - intros i; rewrite Hin; unfold witness_legend, mdu_kind_at; cbn [s local_layout sl_witness_mdus].
    destruct (Z.eqb_spec i 0), (Z.leb_spec i (witnessCount l)), (Z.ltb_spec 0 (witnessCount l)); split; try (intros [? [=] ]); try (intros (? & ? & [=] & ?)); try lia.
    all: try (intros; do 2 eexists; split; [reflexivity|lia]); try (split; [lia|reflexivity]).
  - intros i; rewrite Hin; unfold user_legend, mdu_kind_at; cbn [s local_layout sl_witness_mdus sl_user_mdus sl_total_mdus].
    destruct (Z.eqb_spec i 0), (Z.leb_spec i (witnessCount l)), (Z.ltb_spec 0 (userCount l)); split; try (intros [? [=] ]); try (intros (? & ? & [=] & ?)); try lia.
    all: try (intros; do 2 eexists; split; [reflexivity|lia]); try (split; [lia|reflexivity]).
Qed.

(** The roots that are listed under the table of MDU #0 are those of all MDUs after it:
    entry [i] is the root of MDU [i + 1], and the number above the list is theirs. *)
Lemma root_table_go w l : forall k,
  omap (fun r => i ← mr_root_table_index r; Some (i, r)) (imap (fun i root => record_of w (S (k + i)) root) l) =
  imap (fun i root => (Z.of_nat (k + i), record_of w (S (k + i)) root)) l.
Proof.
  induction l as [|root l IH]; intros k; [done|]. rewrite !imap_cons. cbn [omap list_omap record_of mr_root_table_index].
  destruct (Z.ltb_spec 0 (Z.of_nat (S (k + 0)))); [|lia]. cbn [mbind option_bind]. f_equal; [f_equal; lia|].
  etransitivity; [|etransitivity; [exact (IH (S k))|] ]; [f_equal|]; apply imap_ext; intros i x _; cbn [compose]; by rewrite Nat.add_succ_r.
Qed.
Theorem root_table_rows cid blob total w u r roots :
  let m := mkManifestInfo cid blob total w u (imap (record_of w) (r :: roots)) in
  root_table m = imap (fun i root => (Z.of_nat i, record_of w (S i) root)) roots /\
  (zlen (r :: roots) = 1 + w + u -> zlen (root_table m) = w + u).
Proof.
  cbv zeta. assert (root_table (mkManifestInfo cid blob total w u (imap (record_of w) (r :: roots))) = imap (fun i root => (Z.of_nat i, record_of w (S i) root)) roots) as ->.
  { unfold root_table; cbn [mi_roots]. rewrite imap_cons. apply (root_table_go w roots 0). }
  split; [done|]. unfold zlen; rewrite length_imap; cbn [length]. lia.
Qed.

(** ** The stripe view *)

Definition shown_blob (c : Cell) : option Z := match c with cell_blob i => Some i | _ => None end.
Lemma omap_some {A B} (f : A -> option B) g l : Forall (fun c => f c = Some (g c)) l -> omap f l = g <$> l.
Proof. induction 1 as [|c l Hc _ IH]; [done|]. cbn [omap list_omap fmap list_fmap]. rewrite Hc. f_equal; exact IH. Qed.
Lemma omap_after {A B C} (f : B -> option C) (g : A -> B) l : omap f (map g l) = omap (fun a => f (g a)) l.
Proof. induction l as [|a l IH]; [done|]. cbn [omap list_omap map]. destruct (f (g a)); [f_equal|]; exact IH. Qed.
Lemma omap_none {A B} (f : A -> option B) l : Forall (fun c => f c = None) l -> omap f l = [].
Proof. induction 1 as [|c l Hc _ IH]; [done|]. cbn [omap list_omap]. rewrite Hc. exact IH. Qed.

(** One row shows the blobs from [row * k] on that there are. *)
Lemma stripe_row k m n row : 0 < k -> 0 <= m -> 0 <= row ->
  omap (fun i => shown_blob (stripe_cell k m n i)) (seqZ (row * (k + m)) (k + m)) = seqZ (row * k) (Z.min n ((row + 1) * k) - Z.min n (row * k)).
Proof.
  intros Hk Hm Hrow. set (j := Z.max 0 (Z.min k (n - row * k))).
  assert (forall c, 0 <= c < k + m -> stripe_cell k m n (row * (k + m) + c) =
    if c <? k then (if row * k + c <? n then cell_blob (row * k + c) else cell_empty) else cell_parity (c - k + 1)) as Hcell.
  { intros c Hc; unfold stripe_cell. rewrite Z.add_comm, Z.div_add, Z.mod_add, Z.div_small, Z.mod_small by lia. by rewrite Z.add_0_l. }
  replace (seqZ (row * (k + m)) (k + m)) with (Z.add (row * (k + m)) <$> seqZ 0 (k + m)) by (rewrite fmap_add_seqZ; f_equal; lia).
  change (Z.add (row * (k + m)) <$> seqZ 0 (k + m)) with (map (Z.add (row * (k + m))) (seqZ 0 (k + m))); rewrite omap_after.
  replace (seqZ 0 (k + m)) with (seqZ 0 j ++ seqZ (0 + j) (k + m - j)) by (rewrite <- seqZ_app by lia; f_equal; lia). rewrite omap_app.
  rewrite (omap_some _ (Z.add (row * k))), omap_none, app_nil_r, fmap_add_seqZ.
  - rewrite Z.add_0_r, Z.mul_add_distr_r, Z.mul_1_l. f_equal; unfold j; lia.
  - apply Forall_forall; intros c Hc%elem_of_seqZ; cbn [compose]; rewrite Hcell by lia. destruct (Z.ltb_spec c k); [|done]. by destruct (Z.ltb_spec (row * k + c) n); [lia|].
  - apply Forall_forall; intros c Hc%elem_of_seqZ; cbn [compose]; rewrite Hcell by lia. destruct (Z.ltb_spec c k); [|lia]. by destruct (Z.ltb_spec (row * k + c) n); [|lia].
Qed.
Lemma stripe_rows_show k m n : 0 < k -> 0 <= m -> 0 <= n -> forall rows : nat,
  omap (fun i => shown_blob (stripe_cell k m n i)) (seqZ 0 (Z.of_nat rows * (k + m))) = seqZ 0 (Z.min n (Z.of_nat rows * k)).
Proof.
  intros Hk Hm Hn rows; induction rows as [|rows IH]; [by rewrite Z.min_r by lia|].
  rewrite Nat2Z.inj_succ. replace (Z.succ (Z.of_nat rows) * (k + m)) with (Z.of_nat rows * (k + m) + (k + m)) by lia.
  rewrite seqZ_app, omap_app, IH, Z.add_0_l, stripe_row by lia. replace (Z.of_nat rows + 1) with (Z.succ (Z.of_nat rows)) by lia.
  destruct (Z.le_gt_cases n (Z.of_nat rows * k)) as [Hle|Hgt].
  - rewrite !(Z.min_l n) by nia. rewrite Z.sub_diag; cbn [seqZ]. by rewrite app_nil_r.
  - rewrite (Z.min_r n (Z.of_nat rows * k)) by lia. set (t := Z.min n _). rewrite <- (Z.add_0_l (Z.of_nat rows * k)) at 2. rewrite <- seqZ_app by nia. f_equal; lia.
Qed.

(** Every blob of an MDU has one cell of the stripe view, in order, whatever the number
    of data and parity slots is; the other data slots are empty, and every row ends in
    its parity slots. *)
Theorem stripe_shows_every_blob k m n : 0 < k -> 0 <= m -> 0 <= n <= 64 -> omap shown_blob (stripe_cells k m n) = seqZ 0 n.
Proof.
  intros Hk Hm Hn; unfold stripe_cells. rewrite omap_after. pose proof (ceil_div_spec 64 k Hk) as Hc.
  replace (stripe_rows k) with (Z.of_nat (Z.to_nat (stripe_rows k))) by (unfold stripe_rows; lia).
  etransitivity; [exact (stripe_rows_show k m n Hk Hm (proj1 Hn) _)|]. f_equal. unfold stripe_rows; nia.
Qed.

(** ** The download range *)

(** A field of the range is never negative and never [NaN]; a whole number that is typed
    is taken as it is. *)
Theorem range_input_ok v :
  match range_input v with DNum m e => m = 0 /\ e = 0 \/ 0 < m | DInf neg => neg = false | DNaN => False end.
Proof.
  unfold range_input; destruct (truthy v); [|by left]. destruct (Number_of_string v) as [|[]|m e]; [by left|by left|done|].
  destruct (Z.ltb_spec 0 m); [by right|by left].
Qed.
Theorem range_input_typed z : 0 <= z < 2 ^ 64 -> whole_dec (range_input (string_of_Z z)) = Some z.
Proof.
  intros Hz; unfold range_input. destruct (truthy (string_of_Z z)) eqn:E.
  - rewrite Number_of_numeral by done. destruct (Z.ltb_spec 0 z); cbn; f_equal; lia.
  - exfalso; revert E. unfold truthy. pose proof (Number_of_numeral z Hz) as Hn. destruct (string_of_Z z) as [|c s] eqn:Es; [|done].
    destruct (Z.eq_dec z 0) as [->|]; [discriminate Es|]. intros _. change (Number_of_string "") with (DNum 0 0) in Hn. injection Hn; lia.
Qed.

(** ** Concrete runs *)

Example header_labels :
  dealSizeLabel "8388608" = "8.00 MB" /\ dealSizeLabel " 12.9" = "0.00 MB" /\ dealSizeLabel "-5" = "0 B" /\ dealSizeLabel "x1" = "0 B" /\
  shortHex "0x00112233445566778899aabbccddeeff" 10 6 = hex_cut "0x0011223344" "ddeeff" /\ shortHex "0x0011" 10 6 = hex_whole "0x0011" /\
  redundancyLabel (parseServiceHint (Some "Hot:rs=8+4")) = mode2_rs (DNum 8 0) (DNum 4 0) /\
  stripeLayout (parseServiceHint (Some "Hot:rs=3+2")) = Some (mkStripeLayout 3 2 5 22 true).
Proof. by vm_compute. Qed.

#[local] Existing Instances demo_clock_inst demo_timers demo_trace_store demo_kzg dead_http.
(** MDU #1 of deal 7 was loaded; then deal 8 with another root is given. *)
Definition loaded_kzg : Shown MduKzgData := worked_out (mkMduKzg "0xaa" 1 seg_user "0x01" ["0x02"]).
Definition loaded_slab : SlabView := mkSlabView (Some (worked_out (local_layout "0xaa" [] (mkSlab 0 1 1 1 1)))) source_opfs slab_missing false.
Definition loaded_tab : @DealTab Datatypes.unit demo :=
  mkDealTab (set_kzg_view (mkKzgView (Some loaded_kzg) false None) (set_slab_view loaded_slab other_page)) other_deal 1.
Definition next_deal : LcdDeal := mkDeal "8" "0xbb" "1" "nil1owner" "0" "0" "0" "" "" "" [].

Lemma commitments_outlive_deal_witness :
  inspector (give demo_cfg auto "" loaded_tab [next_deal]) = Some loaded_kzg /\ dt_deal (give demo_cfg auto "" loaded_tab [next_deal]) = next_deal.
Proof.
  destruct (commitments_outlive_deal demo_cfg auto "" loaded_tab [next_deal] loaded_kzg) as (Hd & _ & Hk); [reflexivity|].
  split; [apply Hk; by repeat constructor|exact Hd].
Defined.

Lemma heat_outlives_deal_witness :
  ex_heat (show_deal demo_cfg auto next_deal "" (set_heat (JStr "of deal 7") other_page)).2 = Some (JStr "of deal 7").
Proof. rewrite (heat_outlives_deal demo_cfg auto "" next_deal); [reflexivity|]. by intros w. Defined.

(** A directory with MDU #0 and one witness. *)
Definition two_mdus : opfs := {["deal-7" := {["mdu_0.bin" := []; "mdu_1.bin" := [] ]} ]}.
Lemma layout_views_agree_witness :
  bar_mdus (local_layout "0xaa" [] (mkSlab 1 2 2 0 0)) = inspector_options (local_layout "0xaa" [] (mkSlab 1 2 2 0 0)).
Proof. refine (proj1 (layout_views_agree "7" [] two_mdus _ "0xaa" (mkSlab 1 2 2 0 0) _)). vm_compute; reflexivity. Defined.
Lemma stripe_shows_every_blob_witness : omap shown_blob (stripe_cells 8 4 64) = seqZ 0 64.
Proof. apply (stripe_shows_every_blob 8 4 64); lia. Defined.
