(* ===== verification/Workspace.v ===== *)
(** * The workspace of the dashboard (components/Dashboard.tsx)

    Which deal, which tab and which form the dashboard shows: the clicks and the answers
    that change them, and the effects that run after a render until nothing changes any
    more; the note of a finished download with its timer; and the rows of its tables.

    The effects of a render all read that render's values, and their changes are applied
    together; scrolling itself is left out.  A dash is [None]. *)
From S2P Require Import Prelude JsString JsNum TransportTypes Effects Bytes Text Hex Multiaddr Http Lcd P2p Config TransportHook Evm Eip712 FetchFlow.
From S2P Require Import DealTx Faucet RecentFiles DealList Hooks Sessions Stats Bridge.
#[local] Open Scope Z_scope.

(** ** The state *)

Inductive TabName := tab_content | tab_mdu.
Inductive Scroll := scroll_workspace | scroll_deal | scroll_create.
#[export] Instance tab_name_eq_dec : EqDecision TabName.
Proof. solve_decision. Defined.
#[export] Instance mode_eq_dec : EqDecision redundancy_mode.
Proof. solve_decision. Defined.
(** [ws_deps] are the values the effect on the mode of the deal last ran for. *)
Record Workspace := mkWs {
  ws_deals : list LcdDeal; ws_nil : string; ws_tab : TabName; ws_advanced : bool; ws_mode : redundancy_mode; ws_target : string;
  ws_scroll : option Scroll; ws_deps : option (bool * bool)
}.
Definition ws_init : Workspace := mkWs [] "" tab_mdu false mode2 "" None None.

Definition target_of (w : Workspace) : option LcdDeal := targetDeal (ws_target w) (ws_deals w).
Definition isTargetDealMode2 (w : Workspace) : bool :=
  bool_decide (hint_mode (parseServiceHint (match target_of w with Some d => Some (d_service_hint d) | None => None end)) = mode2).
Definition hasSelectedDeal (w : Workspace) : bool := truthy (ws_target w).
Definition deps (w : Workspace) : bool * bool := (hasSelectedDeal w, isTargetDealMode2 w).

(** ** Effects *)

Definition advanced_after (w : Workspace) : bool :=
  if negb (bool_decide (ws_deps w = Some (deps w))) && hasSelectedDeal w && negb (isTargetDealMode2 w) then true else ws_advanced w.
Definition mode_after (w : Workspace) : redundancy_mode := if ws_advanced w then ws_mode w else mode2.
(** One render: its effects, and the state they leave. *)
Definition effects (w : Workspace) : Workspace :=
  mkWs (ws_deals w) (ws_nil w) (ws_tab w) (advanced_after w) (mode_after w) (default_target (ws_nil w) (ws_target w) (ws_deals w)) None (Some (deps w)).
Definition after_effects (w : Workspace) : Workspace := effects (effects w).

(** ** Events *)

Definition other_tab (t : TabName) : TabName := match t with tab_content => tab_mdu | tab_mdu => tab_content end.
Inductive ws_event :=
  | deals_answered (deals : list LcdDeal) | account_changed (nilAddress : option string)
  | row_clicked (deal : LcdDeal) | advanced_toggled | advanced_enabled | tab_toggled
  | mode_selected (mode : redundancy_mode) | deal_created (id : string) (mode : redundancy_mode).
Definition set_ws_target (t : string) (w : Workspace) : Workspace :=
  mkWs (ws_deals w) (ws_nil w) (ws_tab w) (ws_advanced w) (ws_mode w) t (ws_scroll w) (ws_deps w).
Definition set_ws_tab (t : TabName) (w : Workspace) : Workspace :=
  mkWs (ws_deals w) (ws_nil w) t (ws_advanced w) (ws_mode w) (ws_target w) (ws_scroll w) (ws_deps w).
Definition set_ws_advanced (b : bool) (w : Workspace) : Workspace :=
  mkWs (ws_deals w) (ws_nil w) (ws_tab w) b (ws_mode w) (ws_target w) (ws_scroll w) (ws_deps w).
Definition set_ws_mode (m : redundancy_mode) (w : Workspace) : Workspace :=
  mkWs (ws_deals w) (ws_nil w) (ws_tab w) (ws_advanced w) m (ws_target w) (ws_scroll w) (ws_deps w).
Definition set_ws_scroll (s : option Scroll) (w : Workspace) : Workspace :=
  mkWs (ws_deals w) (ws_nil w) (ws_tab w) (ws_advanced w) (ws_mode w) (ws_target w) s (ws_deps w).
(** An account comes with its address on the chain; without one the deals are dropped.
    The tab button and the list of modes are only there under Advanced, the button that
    enables it only on the content tab without it.  The mode of a created deal is the
    one of the render its button was pressed in. *)
Definition handle (w : Workspace) (ev : ws_event) : Workspace :=
  match ev with
  | deals_answered deals => mkWs deals (ws_nil w) (ws_tab w) (ws_advanced w) (ws_mode w) (ws_target w) (ws_scroll w) (ws_deps w)
  | account_changed (Some a) => mkWs (ws_deals w) a (ws_tab w) (ws_advanced w) (ws_mode w) (ws_target w) (ws_scroll w) (ws_deps w)
  | account_changed None => mkWs [] (ws_nil w) (ws_tab w) (ws_advanced w) (ws_mode w) (ws_target w) (ws_scroll w) (ws_deps w)
  | row_clicked deal =>
      let w := set_ws_target (d_id deal) w in
      set_ws_scroll (Some scroll_workspace) (if negb (ws_advanced w) && bool_decide (ws_tab w = tab_content) then set_ws_tab tab_mdu w else w)
  | advanced_toggled => set_ws_advanced (negb (ws_advanced w)) w
  | advanced_enabled => if negb (ws_advanced w) && bool_decide (ws_tab w = tab_content) then set_ws_advanced true w else w
  | tab_toggled => if ws_advanced w then set_ws_tab (other_tab (ws_tab w)) w else w
  | mode_selected m => if ws_advanced w then set_ws_mode m w else w
  | deal_created id m => set_ws_tab (match m with mode2 => tab_mdu | mode1 => tab_content end) (set_ws_target id w)
  end.
Definition ws_step (w : Workspace) (ev : ws_event) : Workspace := after_effects (handle w ev).
Definition ws_run (evs : list ws_event) : Workspace := fold_left ws_step evs (after_effects ws_init).

(** ** What the workspace shows *)

(** The panel over the files of the deal: a hint that tools are hidden, the mode 1
    tools with their two controls, the sharder of a deal, or a request to select one. *)
Inductive TopPanel := top_hidden | top_legacy (file_input commit_button : bool) | top_sharder (dealId : string) | top_select.
Definition content_input_enabled (uploadLoading : bool) (w : Workspace) : bool := hasSelectedDeal w && negb uploadLoading && negb (isTargetDealMode2 w).
Definition content_commit_enabled (updateLoading staged : bool) (w : Workspace) : bool :=
  negb updateLoading && staged && hasSelectedDeal w && negb (isTargetDealMode2 w).
Definition mdu_panel (w : Workspace) : TopPanel := if hasSelectedDeal w then top_sharder (ws_target w) else top_select.
Definition top_panel (uploadLoading updateLoading staged : bool) (w : Workspace) : TopPanel :=
  match ws_tab w with
  | tab_content =>
      if negb (ws_advanced w) then top_hidden
      else top_legacy (content_input_enabled uploadLoading w) (content_commit_enabled updateLoading staged w)
  | tab_mdu => mdu_panel w
  end.
Inductive DealPanel := panel_no_deals | panel_deal (d : LcdDeal) | panel_loading_deal | panel_select_one.
Definition deal_panel (w : Workspace) : DealPanel :=
  if zlen (ownedDeals (ws_nil w) (ws_deals w)) =? 0 then panel_no_deals
  else match target_of w with
       | Some d => panel_deal d
       | None => if hasSelectedDeal w then panel_loading_deal else panel_select_one
       end.
(** The form of a new deal: a line with K and M, or the fields of the mode. *)
Inductive DealForm := form_summary | form_replication | form_rs.
Definition deal_form (w : Workspace) : DealForm :=
  if negb (ws_advanced w) then form_summary else match ws_mode w with mode1 => form_replication | mode2 => form_rs end.

(** ** The note of a download *)

(** [nt_due] is when the timer that clears it fires. *)
Record Note := mkNote { nt_text : option string; nt_due : option Z }.
Definition no_note : Note := mkNote None None.
Definition showDownloadToast (now : Z) (filePath : string) (n : Note) : Note :=
  mkNote (Some (or_else (default "" (list.last (split "/" filePath))) filePath +:+ " saved to Downloads")) (Some (now + 2200)).
(** The page at a time: a timer that is due has fired. *)
Definition note_at (now : Z) (n : Note) : Note :=
  match nt_due n with Some t => if t <=? now then no_note else n | None => n end.
Definition show_notes (l : list (Z * string)) (n : Note) : Note :=
  fold_left (fun n s => showDownloadToast s.1 s.2 (note_at s.1 n)) l n.

(** ** Rows *)

(** A number of a table as it is formatted; [None] is one with decimal places. *)
Definition dec_num (d : dec) : option num :=
  match d with DNum m e => if 0 <=? e then Some (Num (round53 (m * 10 ^ e))) else None | DNaN => Some NaN | DInf false => Some PInf | DInf true => Some NInf end.

Record DealRow := mkDealRow {
  dr_selected : bool; dr_active : bool; dr_mode2 : bool; dr_size : option string; dr_retrievals : dec; dr_manifest : option string
}.
Definition deal_row (target : string) (counts : gmap string dec) (deal : LcdDeal) : DealRow :=
  mkDealRow (eqb (d_id deal) target) (truthy (d_cid deal))
    (match hint_mode (parseServiceHint (Some (d_service_hint deal))) with mode2 => true | mode1 => false end)
    (match dec_num (Number_of_string (d_size deal)) with Some n => Some (formatBytes n) | None => None end)
    (default (DNum 0 0) (counts !! d_id deal))
    (if truthy (d_cid deal) then Some (slice_front 22 (d_cid deal)) else None).

Record RecentRow := mkRecentRow { rr_busy : bool; rr_action : string; rr_age : option string; rr_size : option string; rr_error : option string }.
Definition recent_row (now : Z) (recentDownload : option string) (downloading : bool) (entry : RecentFileEntry) : RecentRow :=
  mkRecentRow (bool_decide (recentDownload = Some (rf_id entry)) || downloading)
    (match rf_status entry with rf_pending => "Downloading..." | rf_failed => "Retry" | rf_success => "Download" end)
    (match dec_num (rf_updatedAt entry) with Some n => Some (formatRelativeTime now n) | None => None end)
    (match dec_num (rf_sizeBytes entry) with Some n => Some (formatBytes n) | None => None end)
    (match rf_error entry with Some m => if truthy m then Some m else None | None => None end).

Definition is_my_proof (deals : list LcdDeal) (p : ProofRow) : bool :=
  match Hooks.pr_dealId p with Some id => truthy id && existsb (fun d => eqb (d_id d) id) deals | None => false end.
Definition shown_proofs (deals : list LcdDeal) (proofs : list ProofRow) : list ProofRow :=
  let myProofs := List.filter (is_my_proof deals) proofs in
  take 10 (if 0 <? zlen myProofs then myProofs else proofs).
Record ProofCells := mkProofCells { pc_deal : option string; pc_creator : option string; pc_block : dec; pc_ok : bool }.
Definition proof_cells (p : ProofRow) : ProofCells :=
  mkProofCells (match Hooks.pr_dealId p with Some id => if truthy id then Some ("#" +:+ id) else None | None => None end)
    (if truthy (pr_creator p) then Some (slice_front 10 (pr_creator p) +:+ "..." +:+ slice_back 4 (pr_creator p)) else None)
    (match pr_blockHeight p with DNum m e => DNum m e | DInf b => DInf b | DNaN => DNum 0 0 end) (pr_valid p).

(** [(n / 1024^4).toFixed(2)] of a whole number *)
Definition storage_cell (n : num) : option string :=
  match n with Num z => if z <=? 0 then None else Some (toFixed 2 z (1024 ^ 4) +:+ " TiB") | _ => None end.
Definition shown_stats (stats : gmap string ProviderStats) (address : string) : ProviderStats := default no_stats (stats !! address).
Definition provider_name (address : string) : string := slice_front 12 address +:+ "..." +:+ slice_back 6 address.

(** [(num / 100).toFixed(num % 100 === 0 ? 0 : 2)] of a whole number that is not negative *)
Definition formatBps (n : num) : option string :=
  match n with Num z => Some (toFixed (if z mod 100 =? 0 then 0 else 2) z 100 +:+ "%") | _ => None end.

Inductive SessionsShown := sessions_no_wallet | sessions_loading | sessions_none (error : option string) | sessions_rows (l : list json).
Definition sessions_shown (nilAddress : string) (loading : bool) (error : option string) (l : list json) : SessionsShown :=
  if negb (truthy nilAddress) then sessions_no_wallet
  else if loading then sessions_loading
  else if zlen l =? 0 then sessions_none (match error with Some m => if truthy m then Some m else None | None => None end)
  else sessions_rows l.

(** ** The effects end *)

Lemma default_target_idem nilAddress t deals :
  default_target nilAddress (default_target nilAddress t deals) deals = default_target nilAddress t deals.
Proof.
  unfold default_target. destruct (truthy t) eqn:Ht; cbn [orb]; [by rewrite Ht|]. destruct (truthy nilAddress); cbn [negb]; [|by rewrite Ht].
  destruct (last (ownedDeals nilAddress deals)) as [d|]; [|by rewrite Ht]. destruct (truthy (d_id d)) eqn:Hd; [by rewrite Hd|by rewrite Ht].
Qed.
Lemma effects_target w : ws_target (effects (effects w)) = ws_target (effects w).
Proof. apply default_target_idem. Qed.
Lemma deps_settled w : deps (after_effects w) = deps (effects w).
Proof. unfold deps, isTargetDealMode2, hasSelectedDeal, target_of, after_effects. rewrite effects_target. reflexivity. Qed.
Lemma advanced_kept w : ws_advanced w = true -> ws_advanced (effects w) = true.
Proof. cbn [effects ws_advanced]; unfold advanced_after. by case_match. Qed.

(** The workspace comes to rest.  After any event, and from any state, the effects
    of two renders change everything they ever will: a third one changes nothing, no
    scrolling is pending, the newest deal is selected if none was, and the form is for
    a mode 1 deal only with Advanced open. *)
Theorem workspace_settles w ev : let w' := ws_step w ev in
  effects w' = w' /\ ws_scroll w' = None /\ ws_deps w' = Some (deps w') /\
  ws_target w' = default_target (ws_nil w') (ws_target w') (ws_deals w') /\ (deal_form w' = form_replication <-> ws_mode w' = mode1).
Proof.
  cbv zeta; unfold ws_step. generalize (handle w ev); clear w ev; intros w.
  assert (ws_deps (after_effects w) = Some (deps (after_effects w))) as Hd by (rewrite deps_settled; reflexivity).
  assert (ws_target (after_effects w) = default_target (ws_nil (after_effects w)) (ws_target (after_effects w)) (ws_deals (after_effects w))) as Ht by (unfold after_effects at 1; symmetry; apply effects_target).
  assert (ws_mode (after_effects w) = mode1 -> ws_advanced (after_effects w) = true) as Hm.
  { unfold after_effects; intros Hm. apply advanced_kept. change (mode_after (effects w) = mode1) in Hm; unfold mode_after in Hm. by destruct (ws_advanced (effects w)). }
  split; [|split; [done|split; [exact Hd|split; [exact Ht|] ] ] ].
  - assert (advanced_after (after_effects w) = ws_advanced (after_effects w)) as Ha by (unfold advanced_after; rewrite Hd, bool_decide_true by done; done).
    assert (mode_after (after_effects w) = ws_mode (after_effects w)) as Hmo.
    { unfold mode_after; destruct (ws_advanced (after_effects w)) eqn:E; [done|]. destruct (ws_mode (after_effects w)); [by discriminate Hm|done]. }
    assert (ws_scroll (after_effects w) = None) as Hs by done. unfold effects at 1; rewrite Ha, Hmo, <- Ht, <- Hd. revert Hs. generalize (after_effects w); intros [] ?; cbn in *; by subst.
  - unfold deal_form; split; [by destruct (negb _), (ws_mode (after_effects w))|]. intros E; by rewrite (Hm E), E.
Qed.

(** The mode 1 tools work only under Advanced, for a deal that is selected and is not
    known to be of mode 2; a click on a deal never leaves the hint that they are hidden. *)
Theorem legacy_tools_guarded u c s w f b : top_panel u c s w = top_legacy f b -> f || b = true ->
  ws_advanced w = true /\ hasSelectedDeal w = true /\ (forall d, target_of w = Some d -> hint_mode (parseServiceHint (Some (d_service_hint d))) = mode1).
Proof.
  unfold top_panel, mdu_panel, content_input_enabled, content_commit_enabled; destruct (ws_tab w); [|by destruct (hasSelectedDeal w)]. destruct (ws_advanced w); [|done]. cbn [negb]. intros [= <- <-] Hf.
  assert (hasSelectedDeal w = true /\ isTargetDealMode2 w = false) as [Hs Hm].
  { destruct (hasSelectedDeal w), (isTargetDealMode2 w), u, c, s; done. }
  split; [done|split; [exact Hs|] ]. intros d Hd. unfold isTargetDealMode2 in Hm; rewrite Hd in Hm. apply bool_decide_eq_false in Hm. by destruct (hint_mode _).
Qed.
Theorem row_shows_tools u c s w deal : top_panel u c s (ws_step w (row_clicked deal)) <> top_hidden.
Proof.
  unfold ws_step. set (w1 := handle w (row_clicked deal)). assert (ws_tab w1 = tab_content -> ws_advanced w1 = true) as Ht.
  { unfold w1; destruct w as [? ? [] [] ]; done. }
  unfold top_panel, mdu_panel. change (ws_tab (after_effects w1)) with (ws_tab w1). destruct (ws_tab w1) eqn:E; [|by destruct (hasSelectedDeal _)].
  unfold after_effects; by rewrite (advanced_kept _ (advanced_kept _ (Ht eq_refl))).
Qed.

(** ** A deal that is not in the list *)

(** Another account leaves the deal of the last one selected.  When the account
    changes, the selection stays; once the deals of the new account are listed, without
    the selected one, the workspace waits for its details, whatever deals those are; the
    sharder keeps its deal.  A mode 2 deal is taken for one of mode 1 then, and Advanced
    opens by itself. *)
Theorem account_switch_orphans_target w a l :
  hasSelectedDeal w = true -> List.Forall (fun d => d_id d <> ws_target w) l -> ownedDeals a l <> [] ->
  let w' := ws_step (ws_step w (account_changed (Some a))) (deals_answered l) in
  ws_target w' = ws_target w /\ deal_panel w' = panel_loading_deal /\ isTargetDealMode2 w' = false /\
  (ws_tab w = tab_mdu -> forall u c s, top_panel u c s w' = top_sharder (ws_target w)) /\
  (isTargetDealMode2 w = true -> ws_advanced w' = true).
Proof.
  intros Hs Hl Ho w'.
  assert (forall x, hasSelectedDeal x = true -> ws_target (after_effects x) = ws_target x) as Hkeep.
  { intros x Hx; unfold after_effects; rewrite effects_target; cbn [effects ws_target]. unfold default_target. unfold hasSelectedDeal in Hx; by rewrite Hx. }
  set (w1 := ws_step w (account_changed (Some a))) in *.
  assert (ws_target w1 = ws_target w) as Ht1 by (unfold w1, ws_step; by rewrite Hkeep).
  assert (hasSelectedDeal w1 = true) as Hs1 by (unfold hasSelectedDeal; by rewrite Ht1).
  assert (ws_target w' = ws_target w) as Ht by (unfold w', ws_step at 1; by rewrite Hkeep).
  assert (ws_deals w' = l) as Hd' by done. assert (ws_nil w' = a) as Hn' by done.
  assert (forall x, ws_target x = ws_target w -> ws_deals x = l -> target_of x = None) as Hnone.
  { intros x Hx1 Hx2; unfold target_of, targetDeal. rewrite Hx1, Hx2. destruct (truthy (ws_target w)); [|done].
    unfold find_by_id; clear -Hl. induction Hl as [|d l' Hd _ IH]; [done|]. cbn [List.find]. by destruct (eqb_spec (d_id d) (ws_target w)). }
  assert (isTargetDealMode2 w' = false) as Hm' by (unfold isTargetDealMode2; by rewrite (Hnone w' Ht Hd')).
  split; [exact Ht|split; [|split; [exact Hm'|split] ] ].
  - unfold deal_panel; rewrite Hd', Hn', (Hnone w' Ht Hd'). unfold hasSelectedDeal; rewrite Ht. fold (hasSelectedDeal w); rewrite Hs.
    destruct (ownedDeals a l) as [|d l'] eqn:E; [done|]. unfold zlen; cbn [length]. by destruct (Z.eqb_spec (Z.of_nat (S (length l'))) 0); [lia|].
  - intros Htab u c s. unfold top_panel, mdu_panel, hasSelectedDeal. change (ws_tab w') with (ws_tab w). rewrite Htab, Ht. fold (hasSelectedDeal w); by rewrite Hs.
  - intros Hm. unfold w', ws_step at 1, after_effects. apply advanced_kept. set (x := handle w1 (deals_answered l)). change (advanced_after x = true).
    assert (ws_deps x = Some (true, true)) as Hx.
    { change (ws_deps (after_effects (handle w (account_changed (Some a)))) = Some (true, true)). change (Some (deps (effects (handle w (account_changed (Some a))))) = Some (true, true)).
      rewrite <- deps_settled. fold (ws_step w (account_changed (Some a))); fold w1. unfold deps; rewrite Hs1. do 2 f_equal.
      rewrite <- Hm. unfold isTargetDealMode2, target_of. rewrite Ht1. replace (ws_deals w1) with (ws_deals w); done. }
    unfold advanced_after, deps. rewrite Hx. replace (hasSelectedDeal x) with true by (symmetry; exact Hs1).
    replace (isTargetDealMode2 x) with false; [done|]. unfold isTargetDealMode2; rewrite (Hnone x); [done|exact Ht1|done].
Qed.

(** ** Notes and rows *)

(** The note is that of the last download for 2.2 seconds, however many came before and
    whatever timers they started; then there is none. *)
Theorem note_of_last_download l t f now :
  nt_text (note_at now (show_notes (l ++ [(t, f)]) no_note)) =
    if now <? t + 2200 then Some (or_else (default "" (list.last (split "/" f))) f +:+ " saved to Downloads") else None.
Proof.
  unfold show_notes; rewrite fold_left_app; cbn [fold_left fst snd]. unfold note_at at 1; cbn [showDownloadToast nt_due].
  destruct (Z.leb_spec (t + 2200) now), (Z.ltb_spec now (t + 2200)); done || lia.
Qed.

(** At most ten proofs are listed; where the account's deals have some, they are of those
    deals only, and none of the account's is left out for another's. *)
Theorem shown_proofs_mine deals proofs :
  zlen (shown_proofs deals proofs) <= 10 /\ List.Forall (fun p => In p proofs) (shown_proofs deals proofs) /\
  (existsb (is_my_proof deals) proofs = true -> List.Forall (fun p => is_my_proof deals p = true) (shown_proofs deals proofs)).
Proof.
  unfold shown_proofs; cbv zeta. set (mine := List.filter _ proofs). split; [unfold zlen; rewrite length_take; lia|].
  assert (List.Forall (fun p => In p proofs /\ is_my_proof deals p = true) mine) as Hm by (apply List.Forall_forall; intros p Hp; by apply filter_In in Hp).
  assert (forall (P : ProofRow -> Prop) l, List.Forall P l -> List.Forall P (take 10 l)) as Ht.
  { intros P l Hl; apply List.Forall_forall; intros p Hp. apply (proj1 (List.Forall_forall _ _) Hl). rewrite <- (take_drop 10 l). by apply in_or_app; left. }
  split.
  - apply Ht. destruct (0 <? zlen mine); [|by apply List.Forall_forall]. by eapply List.Forall_impl; [|exact Hm]; intros p [Hp _].
  - intros (p & Hp & Hi)%existsb_exists. assert (0 < zlen mine) as Hz.
    { assert (In p mine) as Hin by (apply filter_In; by split). destruct mine; [done|]. unfold zlen; cbn [length]; lia. }
    destruct (Z.ltb_spec 0 (zlen mine)); [|lia]. apply Ht. by eapply List.Forall_impl; [|exact Hm]; intros q [_ Hq].
Qed.

Example row_texts :
  formatBps (Num 150) = Some "1.50%" /\ formatBps (Num 500) = Some "5%" /\ storage_cell (Num (3 * 1024 ^ 4 / 2)) = Some "1.50 TiB" /\
  provider_name "nil1qqqqqqqqqqqqqqqqqqqq" = "nil1qqqqqqqq...qqqqqq".
Proof. by vm_compute. Qed.

(** ** Concrete runs *)

Definition ws_deal (id owner : string) (hint : string) : LcdDeal := mkDeal id "0xaa" "1" owner "0" "0" "0" hint "" "" [].
Definition account_a_page : Workspace := ws_run [account_changed (Some "nil1a"); deals_answered [ws_deal "7" "nil1a" "General:rs=8+4"] ].
Lemma account_switch_orphans_target_witness :
  hasSelectedDeal account_a_page = true /\
  deal_panel (ws_step (ws_step account_a_page (account_changed (Some "nil1b"))) (deals_answered [ws_deal "9" "nil1b" "General:rs=8+4"])) = panel_loading_deal.
Proof.
  split; [by vm_compute|].
  refine (proj1 (proj2 (account_switch_orphans_target account_a_page "nil1b" [ws_deal "9" "nil1b" "General:rs=8+4"] _ _ _))); [by vm_compute| |].
  - constructor; [vm_compute; discriminate|constructor].
  - vm_compute; discriminate.
Defined.
