(* ===== verification/SharderView.v ===== *)
(** * What the sharder shows (components/FileSharder.tsx)

    The drop zone, the panel of the current activity with its commit button, the upload
    button with the steps below it, and the grid of MDUs.  Ellipses and dashes are
    constructors or [None]. *)
From Stdlib Require Import QArith.
From S2P Require Import Prelude JsString JsNum TransportTypes Effects Bytes Text Multiaddr Http Lcd GatewayClient Config.
From S2P Require Import Nilfs Opfs NilWasm Evm FetchFlow Sharding Upload Persist Progress GatewayIngest DealTx CommitFlow Stats.
#[local] Open Scope Z_scope.

(** [formatDuration] of an exact quotient; a dash for a negative one. *)
Definition formatDuration (ms : Q) : option string :=
  if Qnum ms <? 0 then None
  else if Qnum ms <? 1000 * Zpos (Qden ms) then Some (toFixed 0 (Qnum ms) (Zpos (Qden ms)) +:+ "ms")
  else Some (toFixed 2 (Qnum ms) (1000 * Zpos (Qden ms)) +:+ "s").

(** ** The drop zone *)

Inductive DropHint := hint_gateway | hint_no_gateway | hint_preparing | hint_unavailable (msg : string) | hint_browser.
Definition drop_hint (gatewayMode2Enabled gatewayReachable : bool) (wasm : WasmStatus) (wasmError : option string) : DropHint :=
  if gatewayMode2Enabled then (if gatewayReachable then hint_gateway else hint_no_gateway)
  else match wasm with
       | wasm_initializing => hint_preparing
       | wasm_error => hint_unavailable (or_else (default "" wasmError) "init failed")
       | _ => hint_browser
       end.
Inductive DropZone := drop_connect | drop_loading | drop_file (hint : DropHint) (dragging : bool).
Definition drop_zone (isConnected stripeParamsLoaded : bool) (hint : DropHint) (dragging : bool) : DropZone :=
  if negb isConnected then drop_connect else if negb stripeParamsLoaded then drop_loading else drop_file hint dragging.
Inductive drag_event := dragenter | dragover | dragleave | dropped.
Definition isDragging (e : drag_event) : bool := match e with dragenter | dragover => true | dragleave | dropped => false end.
(** The core is loaded ahead where the gateway will not shard. *)
Definition shouldPreloadWasm (stripeParamsLoaded gatewayMode2Enabled : bool) (gatewayError : option string) : bool :=
  stripeParamsLoaded && (negb gatewayMode2Enabled || opt_str gatewayError).

(** ** The panel of the current activity *)

Section View.
Context (stripe : option StripeParams) (gatewayDisabled : bool).
Definition gatewayMode2Enabled : bool := bool_decide (is_Some stripe) && negb gatewayDisabled.
Definition at_gateway (p : ShardProgressState) : bool := gatewayMode2Enabled && starts_with "Gateway Mode 2" (sp_label p).
Definition bytes_text (n : Z) : string := default "" (formatBytes_sharder (Num n)).
Definition over (a b : string) : string := a +:+ "/" +:+ b.
(** The counter on the right. *)
Definition work_text (p : ShardProgressState) : option string :=
  if at_gateway p then
    if 0 <? sp_workTotal p then
      match sp_phase p with
      | gateway_receiving => Some (bytes_text (sp_workDone p) +:+ " / " +:+ bytes_text (sp_workTotal p))
      | _ => Some (over (string_of_Z (sp_workDone p)) (string_of_Z (sp_workTotal p)) +:+ " steps")
      end
    else None
  else Some (over (string_of_Z (sp_blobsDone p)) (string_of_Z (sp_blobsTotal p)) +:+ " blobs").
Definition work_title (p : ShardProgressState) : string := if at_gateway p then "Gateway ingest" else "WASM Sharding".
Definition work_details (p : ShardProgressState) : PhaseDetails := 
  if at_gateway p then detail_text (sp_label p) else match phaseDetails p with detail_text "" => detail_text "Working..." | d => d end.

(** The parts of the error box: the commit's, the upload's, or the label. *)
Definition error_parts (v : Sharder) (u : UploadState) (c : CommitTx) : list string :=
  (match commitError c with Some m => ["Commit failed: " +:+ m] | None => [] end) ++
  (match mode2UploadError u with Some m => if truthy m then ["Upload failed: " +:+ m] else [] | None => [] end) ++
  (if bool_decide (commitError c = None) && negb (opt_str (mode2UploadError u)) && truthy (sp_label (shardProgress v)) then [sp_label (shardProgress v)] else []).

Definition commit_label (v : Sharder) (c : CommitTx) (lastCommit : option string) : string :=
  if isCommitPending c then "Check Wallet..." else if isCommitConfirming c then "Confirming..."
  else if isAlreadyCommitted v c lastCommit then "Committed!" else "Commit to Chain".

Inductive StatusLine :=
  | line_error (parts : list string) | line_processing (title : string) (details : PhaseDetails) (counter : option string)
  | line_uploading (mode2 : bool) | line_ready_upload | line_ready_commit | line_committing
  | line_commit_button (label : string) (enabled : bool) (hash : option string).
Definition when {A} (b : bool) (a : A) : list A := if b then [a] else [].
Definition status_lines (v : Sharder) (u : UploadState) (c : CommitTx) (lastCommit : option string) : list StatusLine :=
  let p := shardProgress v in
  let idle := negb (processing v) && negb (activeUploading stripe u) in
  when (hasError v u c) (line_error (error_parts v u c)) ++
  when (processing v) (line_processing (work_title p) (work_details p) (work_text p)) ++
  when (activeUploading stripe u) (line_uploading (bool_decide (is_Some stripe))) ++
  when (readyToUpload stripe v u && idle) line_ready_upload ++
  when (readyToCommit stripe v u c lastCommit && idle) line_ready_commit ++
  when (isCommitPending c || isCommitConfirming c) line_committing ++
  when (readyToCommit stripe v u c lastCommit || isCommitPending c || isCommitConfirming c || isAlreadyCommitted v c lastCommit)
    (line_commit_button (commit_label v c lastCommit) (can_commit stripe v u c lastCommit) (commitHash c)).

(** ** The upload button *)

Inductive UploadLabel := uploading_label | complete_label | stripes_label | mdus_label (n : Z).
Definition upload_label (v : Sharder) (u : UploadState) : UploadLabel :=
  if activeUploading stripe u then uploading_label else if isUploadComplete stripe u then complete_label
  else if bool_decide (is_Some stripe) then stripes_label else mdus_label (zlen (collectedMdus v)).
Definition upload_button (v : Sharder) (u : UploadState) : option (UploadLabel * bool) :=
  if (0 <? zlen (collectedMdus v)) && opt_str (currentManifestRoot v)
  then Some (upload_label v u, negb (activeUploading stripe u || processing v || isUploadComplete stripe u)) else None.
Definition step_text (s : StepStatus) : string :=
  match s with st_pending => "PENDING " | st_uploading => "UPLOADING " | st_complete => "COMPLETE " | st_error m => "ERROR " +:+ (if truthy m then "(" +:+ m +:+ ")" else "") end.
Definition upload_step_rows (u : UploadState) : list (string * string) :=
  if negb (bool_decide (is_Some stripe)) && (activeUploading stripe u || isUploadComplete stripe u)
  then map (fun s => (us_label s, step_text (us_status s))) (uploadProgress u) else [].
Definition mirror_text (u : UploadState) : option string :=
  let note := match mirrorError u with Some m => if truthy m then " (" +:+ m +:+ ")" else "" | None => "" end in
  match mirrorStatus u with
  | mirror_idle => None
  | mirror_running => Some ("Gateway mirror: running" +:+ note)
  | mirror_success => Some ("Gateway mirror: success" +:+ note)
  | mirror_failed => Some ("Gateway mirror: error" +:+ note)
  | mirror_skipped => Some ("Gateway mirror: skipped" +:+ note)
  end.

(** ** The grid *)

Definition is_expanded (s : Z * item_status) : bool := match s.2 with item_expanded => true | _ => false end.
Definition grid_text (v : Sharder) : option string :=
  if 0 <? zlen (shards v)
  then Some (string_of_Z (zlen (List.filter is_expanded (shards v))) +:+ " / " +:+ string_of_Z (zlen (shards v)) +:+ " MDUs Expanded")
  else None.
End View.

(** ** The panel and the buttons *)

Section ViewFacts.
Context (stripe : option StripeParams) (gatewayDisabled : bool).
Lemma when_nil {A} b (a : A) l : when b a ++ l = [] <-> b = false /\ l = [].
Proof. destruct b; cbn; [split; [done|by intros [] ]|split; [done|by intros [_ ->] ] ]. Qed.

(** The panel of the current activity is there exactly when it has a line to show: none
    of the component's states that need one leaves it blank, and no line is lost with
    it.  Its error box is blank only for an error without a text. *)
Theorem status_panel_iff_lines v u c lastCommit :
  (showStatusPanel stripe v u c lastCommit = true <-> status_lines stripe gatewayDisabled v u c lastCommit <> []) /\
  (hasError v u c = true -> error_parts v u c = [] ->
     sp_phase (shardProgress v) = phase_error /\ sp_label (shardProgress v) = "" /\ commitError c = None).
Proof.
  split.
  - assert (status_lines stripe gatewayDisabled v u c lastCommit = [] <-> showStatusPanel stripe v u c lastCommit = false) as Hn.
    { unfold status_lines, showStatusPanel; cbv zeta. rewrite !when_nil. unfold when at 1.
      destruct (hasError v u c), (processing v), (activeUploading stripe u), (readyToUpload stripe v u), (readyToCommit stripe v u c lastCommit),
        (isCommitPending c), (isCommitConfirming c), (isAlreadyCommitted v c lastCommit); cbn; intuition congruence. }
    destruct (showStatusPanel stripe v u c lastCommit); (split; [intros E Hl; apply Hn in Hl; congruence|intros Hl]); [done|]. by destruct Hl; apply Hn.
  - unfold hasError, error_parts. destruct (commitError c) as [m|] eqn:Ec; [intros _ Hx; discriminate Hx|]. cbn [app]. destruct (mode2UploadError u) as [m|]; cbn [opt_str].
    + destruct (truthy m) eqn:Et; [intros _ Hx; discriminate Hx|]. cbn [app negb andb]. rewrite (bool_decide_false (is_Some None)), (bool_decide_true (None = None)) by (done || by intros [ [] ]). destruct (truthy (sp_label _)) eqn:El; [intros _ Hx; discriminate Hx|]. cbn [andb].
      intros Hp _. destruct (sp_phase _); try discriminate Hp. split; [done|split; [|done] ]. by destruct (sp_label _).
    + cbn [app negb andb]. rewrite (bool_decide_false (is_Some None)), (bool_decide_true (None = None)) by (done || by intros [ [] ]). destruct (truthy (sp_label _)) eqn:El; [intros _ Hx; discriminate Hx|].
      intros Hp _. destruct (sp_phase _); try discriminate Hp. split; [done|split; [|done] ]. by destruct (sp_label _).
Qed.

(** The commit button asks for a commit only while it says so; the upload button is the
    one of [CommitFlow], and says that an upload is under way or complete whenever it
    is disabled for that. *)
Theorem commit_button_says_commit v u c lastCommit l b h :
  In (line_commit_button l b h) (status_lines stripe gatewayDisabled v u c lastCommit) ->
  b = can_commit stripe v u c lastCommit /\ (b = true -> l = "Commit to Chain").
Proof.
  unfold status_lines; cbv zeta. rewrite !in_app_iff. intros Hin.
  assert (forall b' (x : StatusLine), In (line_commit_button l b h) (when b' x) -> x = line_commit_button l b h) as Hw by (intros [] x; cbn; naive_solver).
  repeat destruct Hin as [Hin|Hin]; apply Hw in Hin; try discriminate. injection Hin as <- <- <-. split; [done|].
  unfold can_commit, commit_label. rewrite !andb_true_iff, negb_true_iff, !orb_false_iff. by intros (_ & (-> & ->) & ->).
Qed.
Theorem upload_button_agrees v u l b : upload_button stripe v u = Some (l, b) ->
  b = can_upload stripe v u /\ (l = uploading_label \/ l = complete_label <-> activeUploading stripe u = true \/ isUploadComplete stripe u = true).
Proof.
  unfold upload_button, can_upload, upload_label. destruct (_ && _); [|done]. intros [= <- <-]. split; [done|].
  destruct (activeUploading stripe u), (isUploadComplete stripe u), (bool_decide (is_Some stripe)); naive_solver.
Qed.
End ViewFacts.

Example durations :
  formatDuration (1999 # 2) = Some "1000ms" /\ formatDuration (1500 # 1) = Some "1.50s" /\ formatDuration (-1 # 1) = None.
Proof. by vm_compute. Qed.
